(* ===== verification/_CoqProject ===== *)
-Q . S2P
Prelude.v
GoStrings.v
GoSort.v
GoTime.v
GoRegexp.v
Sha256.v
GoBase64.v
GoJSON.v
GoTimeParse.v
GoFloat.v
GoZlib.v
GoDuration.v
Contracts.v
GoHTTP.v
RateLimit.v
Governance.v
Auth.v
Queue.v
Ingestion.v
IngestionWorker.v
Sqs.v
VectorStub.v
Retrieval.v
Gateway.v
RerankClients.v
Chat.v
Embeddings.v
TextUtil.v
Pdf.v
Repository.v
AuditRepo.v
Milvus.v
ApiUtil.v
Server.v
Managers.v
IngestJobs.v
SearchApi.v
Runtime.v
Wiring.v
Startup.v
