(* ===== verification/Prelude.v ===== *)
(** * FineRAG core: a verification library

    The repository is the Go backend of a multi-tenant retrieval service: clients
    log in, upload documents, have them ingested (profiled, checked against a
    policy, queued, chunked, embedded, indexed) and search them; every step is
    scoped to a tenant.  This library models the program as executable Rocq
    definitions and proves what its parts promise.

    ** The parts of the program, and the files that model them

    Go itself (the standard library as far as the program uses it):
    - [Prelude] (this file): errors and their wrapping, results, the state monad
      [M], Hoare triples, 64-bit integers, times and durations;
    - [GoStrings]: UTF-8, [strings], [strconv]; [GoSort]: stable sorting and
      floating-point comparison; [GoTime]: dates; [GoRegexp]: the regular
      expressions of the text utilities; [Sha256], [GoBase64] (with HMAC) and
      [GoJSON]: the codecs of keys, tokens and stored values; [GoFloat],
      [GoTimeParse], [GoDuration]: the numbers, times and durations read from
      JSON, headers and settings; [GoZlib]: the decompression of PDF streams;
      [GoHTTP]: requests, responses and the client as a port.

    The domain (src/internal):
    - [Contracts] (contracts/contracts.go): tenant contexts, the data types with
      their validation, the ports between components as records of operations,
      provider errors;
    - [RateLimit] (ratelimit/limiter.go, and the limiter of
      backend/util/serverUtil.go): modules [PerSecond] and [PerKey];
    - [Governance] (services/governance/service.go): the ingestion policy and its
      audit trail;
    - [Auth] (auth/apikey.go, middleware/tenant_context.go): API keys and the
      tenant middleware;
    - [Queue] (services/ingestion/queue_provider.go): queue configuration and the
      in-memory queue; [Sqs]: the queue over SQS; [Ingestion] (services/ingestion/service.go,
      metadata_recorder.go): profiler, chunking, idempotency keys and the worker;
      [IngestionWorker]: what the worker guarantees over whole histories;
    - [VectorStub] (adapters/vector/stub, adapters/vector/errors.go): the
      in-memory vector store; [Milvus] (adapters/vector/milvus): the adapter of
      the vector database;
    - [Retrieval] (services/retrieval/service.go): search, reranking with timeout
      and circuit breaker, ranking; [Gateway]
      (adapters/gateway/portkey/reranker.go): the reranker behind the gateway;
      [RerankClients] (adapters/gateway/cohere, and the HTTP client of
      portkey/reranker.go), [Chat] (portkey/chat.go), [Embeddings]
      (portkey/embeddings.go): the HTTP clients of the models;
    - [Repository] (repository): tenant guards, the Postgres repositories and the
      migration runner; [AuditRepo]: the repository of audit events;
    - [Runtime] (runtime, and backend/util/ConfigUtil.go): the settings and the
      adapters they choose.

    The HTTP layer (src/backend):
    - [TextUtil] (util/apiutil/text.go): noise detection, ranking, snippets,
      chunking of extracted text; [Pdf] (util/apiutil/pdf.go): text of PDF files;
    - [ApiUtil] (util/apiutil/util.go): settings, secrets, bearer tokens;
    - [Server] (util/serverUtil.go, mainAPIHandler.go, managers/auth.go): requests
      and responses, the middleware, the route table, login, bootstrap;
    - [Managers] (managers/tenant.go, upload.go, knowledgebase.go), [IngestJobs]
      (managers/ingestion.go), [SearchApi] (managers/search.go): handlers, the
      background job and the event streams;
    - [Wiring] (NewServer and BuildRuntimeDependencies of util/serverUtil.go, and
      internal/adapters/parser): the server put together from its settings;
      [Startup] (cmd, and the access log): the executables.

    Components meet at ports: a record of operations of [Contracts] (queue, blob
    store, embedder, index, audit sink, searcher, reranker) or one operation per
    SQL statement ([Repository.Postgres], [Server.BootstrapDB], ...).  What a
    client relies on is a class of laws on views of the port's world
    ([PostgresLaws], [MigrationLaws], [UserTenantsLaws], [BootstrapLaws], [PurgeLaws],
    [FifoSQS], [AuditDBLaws], [JobTable], [JobQueries], [MilvusLaws], [MigrateLaws],
    [UsersLaws]), with an instance for a concrete implementation; the laws let statements
    fail, and let a failed statement have been applied or not.  A SELECT whose clauses
    matter is a value that the handler makes ([IngestJobs.job_select]), and the law is
    its meaning on the table.  What one part of the program promises another is a class
    with the part as an instance ([Managers.IndexPurge], for the stub and for Milvus).

    ** How code becomes definitions

    A Go function of the source is a definition of the same name (a method is
    prefixed by its type where names would clash).  [(T, error)] is [result T], a
    lone [error] is [option error]; an effectful function is in the monad [M W]
    over the world [W] of its collaborators; state guarded by a mutex is a record
    passed through, one atomic step per call, and interleavings of calls are runs
    of a step relation.  [int] is [Z] with [wrap64] where it can overflow, bytes
    and strings are [string], [time.Time] is nanoseconds since year 1, maps are
    [gmap], floats are IEEE numbers of [SpecFloat].  A panic is [None].

    Loops that are not structural take fuel, and a theorem shows that the fuel
    given is enough: [ChunkText] (one round per word), [collapse_slashes] (the
    length of the path), [json_parse] (twice the length of the input,
    [json_parse_fuel]), [delete_pages] (one page per object), durations (the
    length of the text, [duration_loop_fuel]), the scan for PDF streams (the length
    of the payload, [flate_loop_total]), their decompression (the number of
    bits, [inflate_fuel], [huffman_block_fuel], [read_lens_fuel]), the embedding
    requests ([RetryMax + 1]).  The digits printed for a float take at most 17
    rounds and its exponent at most 400, the ranges of the format.

    ** What the theorems show

    - Tenant isolation: searches return documents of the caller's tenant only
      ([Retrieval.search_tenant_isolation], [VectorStub.stub_search_exact]); tenant
      routes are reached only by assigned users in the scope of the tenant
      ([Server.tenant_routes_authorised]); writes stay at the key of the tenant
      ([Repository.metadata_write_isolated]); upload keys stay under its prefix, and
      a purge removes all objects under that prefix, the jobs, and the vectors that the
      index selects for it, and nothing else ([Managers]); the search API
      shows documents of the tenant and an answer made from them alone
      ([SearchApi.search_response_scoped]); the filters of the vector database
      select the rows of the tenant, for identifiers without quotes ([Milvus]).
    - Ingestion: only approved jobs are queued, the queue drains, every message ends
      acknowledged, dead-lettered or dropped with an error, and complete messages are
      dropped only when the bookkeeping fails; a message acknowledged is indexed, and
      indexed again only if the record of its key was lost in between
      ([IngestionWorker]); chunks carry every word ([Ingestion], [TextUtil]); a job
      submitted over HTTP is indexed completely or failed, and its row says which unless
      the database refuses the closing update; the lists of jobs show the newest of one
      tenant ([IngestJobs]);
      PDF literals are read as a reference reading says ([Pdf]).
    - Authentication: API keys and bearer tokens are accepted exactly when issued,
      up to collisions of SHA-256 and forgeries of HMAC ([Auth], [ApiUtil],
      [Server]); every attempt is audited once, whether or not the sink accepts the
      event ([Auth]); with a sink every policy decision is audited once, and refused
      when the audit fails ([Governance]).
    - Refinements: the limiter implements its quotas, the vector store a list, the
      reranker an abstract circuit breaker, both queues a FIFO; saved audit events
      are listed as they were ([AuditRepo]).
    - Clients of the models: requests carry what they should and read back, answers
      are what the first choice of the response says, rewritten queries what the model
      wrote, fenced or not; retries and turns are bounded and spaced, rerankers
      return candidates of the request only, and the Cohere reranker those at the
      positions the service names ([Chat], [Embeddings], [RerankClients]).
    - Configuration and start: the settings of the database, of the server and of a
      reranker that is built are within their bounds ([Runtime]); a server starts exactly
      with its secrets and its bucket, with or without a language model, and without one
      answers no search ([Wiring]); a backend that serves has run its migrations and has
      its configured users, and a user that was reset can log in ([Startup]).
    - Availability: search never fails on the failures of its helpers, retries are
      bounded, fallbacks are as configured ([Retrieval], [Gateway]).
    - Defects, as theorems: the breakers never close, a job without checksum is
      lost, keys of different tenants can collide, the limiter is not a token
      bucket, snippets can panic, a tenant can be taken over, an SQS retry is
      dropped as a duplicate, the event stream of jobs does not check its tenant,
      identifiers with quotes are escaped twice for the vector database, embedding
      turns of concurrent callers are not spaced.

    ** What is not modelled

    Log lines, metrics and traces other than those the code returns; the scheduler
    below the granularity of one call under its lock; the texts of decoding errors;
    the multiplexer of [net/http] (an argument of [MainAPIHandler]); SQL beyond the
    laws above; the PDF and extraction libraries, the Milvus client, the SQS
    client, the AWS configuration and the network, which are ports.  The
    initialisation of telemetry and logging (internal/telemetry,
    internal/logging) only calls external libraries and is not modelled. *)

From stdpp Require Export base list gmap strings fin_maps.
From Stdlib Require Export ZArith Lia Sorted.

#[global] Open Scope Z_scope.

(** ** Tactics and hints *)

(** Facts every component may use: ranges, and the frame conditions of ports. *)
Create HintDb go.

(** Turn boolean tests into propositions. *)
Ltac bool_to_prop :=
  repeat match goal with
  | H : (_ && _)%bool = true |- _ => apply andb_true_iff in H as [? ?]
  | H : (_ || _)%bool = false |- _ => apply orb_false_iff in H as [? ?]
  | H : negb _ = true |- _ => apply negb_true_iff in H
  | H : negb _ = false |- _ => apply negb_false_iff in H
  | H : String.eqb _ _ = true |- _ => apply String.eqb_eq in H
  | H : String.eqb _ _ = false |- _ => apply String.eqb_neq in H
  | H : (_ =? _) = true |- _ => apply Z.eqb_eq in H
  | H : (_ =? _) = false |- _ => apply Z.eqb_neq in H
  | H : (_ <? _) = true |- _ => apply Z.ltb_lt in H
  | H : (_ <? _) = false |- _ => apply Z.ltb_ge in H
  | H : (_ <=? _) = true |- _ => apply Z.leb_le in H
  | H : (_ <=? _) = false |- _ => apply Z.leb_gt in H
  end.

(** ** Lists *)

Lemma filter_ext_elem {A} (P Q : A -> Prop) `{forall x, Decision (P x), forall x, Decision (Q x)} (l : list A) :
  (forall x, x ∈ l -> P x <-> Q x) -> filter P l = filter Q l.
Proof.
  induction l as [|x l IH]; intros HPQ; [done|]. rewrite !filter_cons.
  rewrite IH by (intros; apply HPQ; by constructor).
  pose proof (HPQ x ltac:(by constructor)). repeat case_decide; naive_solver.
Qed.

Lemma filter_none {A} (l : list A) : filter (fun _ => False) l = [].
Proof. induction l as [|x l IH]; [done|]. rewrite filter_cons. by case_decide. Qed.

Lemma StronglySorted_weaken {A} (R R' : A -> A -> Prop) l :
  (forall a b, a ∈ l -> b ∈ l -> R a b -> R' a b) -> StronglySorted R l -> StronglySorted R' l.
Proof.
  induction l as [|x l IH]; intros HR Hs; [constructor|]. inv Hs. constructor.
  - apply IH; [|done]. intros a b Ha Hb. apply HR; by constructor.
  - rewrite Forall_forall in *. intros y Hy. apply HR; [by constructor..|auto].
Qed.

(** ** Go errors

    An [error] value is an [errors.New] value, a package-level sentinel
    (compared by identity, so it carries its qualified name), an
    [fmt.Errorf] value that wraps a cause with [%w], or the program's own
    [contracts.ProviderError]. *)
Inductive error : Type :=
| errors_New (msg : string)
| ErrVar (id msg : string)
| Errorf_w (pre : string) (err : error) (post : string)
| ProviderError (Category Provider Op : string) (Err : option error).

(** The [Error() string] method. *)
Fixpoint Error (e : error) : string :=
  match e with
  | errors_New msg => msg
  | ErrVar _ msg => msg
  | Errorf_w pre err post => pre +:+ Error err +:+ post
  | ProviderError cat prov op (Some err) =>
      prov +:+ " provider error (" +:+ cat +:+ ") on " +:+ op +:+ ": " +:+ Error err
  | ProviderError cat prov op None =>
      prov +:+ " provider error (" +:+ cat +:+ "): " +:+ op
  end.

(** [errors.Is(err, target)] for a sentinel target: walk the [Unwrap] chain. *)
Fixpoint errors_Is (e : error) (target : string) : bool :=
  match e with
  | errors_New _ => false
  | ErrVar id _ => String.eqb id target
  | Errorf_w _ err _ => errors_Is err target
  | ProviderError _ _ _ (Some err) => errors_Is err target
  | ProviderError _ _ _ None => false
  end.

(** A Go [(T, error)] pair whose value is meaningful only when the error is nil. *)
Inductive result (A : Type) : Type :=
| Ok (a : A)
| Err (e : error).
Arguments Ok {A} a.
Arguments Err {A} e.

Definition is_Ok {A} (r : result A) : bool :=
  match r with Ok _ => true | Err _ => false end.

#[global] Instance result_ret : MRet result := fun A a => Ok a.
#[global] Instance result_bind : MBind result := fun A B f r =>
  match r with Ok a => f a | Err e => Err e end.

(** [if cond { return errors.New(msg) }], with the condition negated: an
    [error] result is [option error], [None] for [nil]. *)
Definition require (b : bool) (msg : string) : option error :=
  if b then None else Some (errors_New msg).

Declare Scope go_scope.
Delimit Scope go_scope with go.

(** [if err := a; err != nil { return err }; return b] *)
Notation "a ;;? b" := (match a with Some e => Some e | None => b end)
  (at level 62, right associativity) : go_scope.
(** [if err := c; err != nil { return zero, err }; k] *)
Notation "'check' c ';;' k" := (match c with Some e => Err e | None => k end)
  (at level 100, c at level 61, k at level 200, right associativity) : go_scope.
#[global] Open Scope go_scope.

Lemma seq_err_None (a b : option error) :
  (a ;;? b) = None <-> a = None /\ b = None.
Proof. destruct a; naive_solver. Qed.

Lemma require_None b msg : require b msg = None <-> b = true.
Proof. unfold require; destruct b; naive_solver. Qed.


(** ** State passing

    Code that mutates a receiver or calls an effectful interface is a
    function from the state to a value and the new state. *)
Definition M (S A : Type) : Type := S -> A * S.

#[global] Instance M_ret {S} : MRet (M S) := fun A a s => (a, s).
#[global] Instance M_bind {S} : MBind (M S) := fun A B f m s =>
  let '(a, s') := m s in f a s'.

(** Run a monadic computation: expose the states it passes through. *)
Tactic Notation "run_M" := unfold mbind, M_bind, mret, M_ret.
Tactic Notation "run_M" "in" hyp(H) := unfold mbind, M_bind, mret, M_ret in H.

(** [{{P}} m {{Q}}]: run from a state that satisfies [P], [m] ends with a
    value and a state that satisfy [Q]. *)
Definition triple {S A} (P : S -> Prop) (m : M S A) (Q : A -> S -> Prop) : Prop :=
  forall s, P s -> Q (m s).1 (m s).2.

Section Triples.
Context {S : Type}.

Lemma triple_ret {A} (a : A) (P : S -> Prop) (Q : A -> S -> Prop) :
  (forall s, P s -> Q a s) -> triple P (mret a) Q.
Proof. intros H s Hs. by apply H. Qed.

Lemma triple_bind {A B} (P : S -> Prop) (m : M S A) (f : A -> M S B) (R : A -> S -> Prop)
    (Q : B -> S -> Prop) :
  triple P m R -> (forall a, triple (R a) (f a) Q) -> triple P (m ≫= f) Q.
Proof.
  intros Hm Hf s Hs. specialize (Hm s Hs). unfold mbind, M_bind.
  destruct (m s) as [a s']. by apply Hf.
Qed.

Lemma triple_conseq {A} (P P' : S -> Prop) (m : M S A) (Q Q' : A -> S -> Prop) :
  triple P' m Q' -> (forall s, P s -> P' s) -> (forall a s, Q' a s -> Q a s) -> triple P m Q.
Proof. intros H HP HQ s Hs. by apply HQ, H, HP. Qed.

Lemma triple_bind_pure {A B} (P : S -> Prop) (m : M S A) (f : A -> M S B) (phi : A -> Prop)
    (Q : B -> S -> Prop) :
  triple P m (fun a _ => phi a) -> (forall a, phi a -> triple (fun _ => True) (f a) Q) ->
  triple P (m ≫= f) Q.
Proof. intros Hm Hf. eapply triple_bind; [exact Hm|]. intros a s Hs. by apply (Hf a Hs). Qed.

Lemma triple_pure {A} (P : S -> Prop) (phi : Prop) (m : M S A) (Q : A -> S -> Prop) :
  (phi -> triple P m Q) -> triple (fun s => P s /\ phi) m Q.
Proof. intros H s [Hs Hphi]. by apply H. Qed.

Lemma triple_apply {A} (P : S -> Prop) (m : M S A) (Q : A -> S -> Prop) s a s' :
  triple P m Q -> P s -> m s = (a, s') -> Q a s'.
Proof. intros H Hs E. specialize (H s Hs). by rewrite E in H. Qed.
End Triples.

(** ** Machine integers and time *)

(** Go [int] and [int64]: two's complement wrap-around at 64 bits. *)
Definition wrap64 (z : Z) : Z := (z + 2^63) mod 2^64 - 2^63.
Definition int64_range (z : Z) : Prop := - 2^63 <= z < 2^63.

Lemma wrap64_id z : int64_range z -> wrap64 z = z.
Proof. unfold int64_range, wrap64; intros ?; rewrite Z.mod_small; lia. Qed.

Lemma wrap64_range z : int64_range (wrap64 z).
Proof.
  unfold int64_range, wrap64.
  pose proof (Z.mod_pos_bound (z + 2^63) (2^64)); lia.
Qed.

(** [time.Time]: nanoseconds since the zero time (January 1, year 1, UTC). *)
Definition Time := Z.
Definition IsZero (t : Time) : bool := t =? 0.
(** [t.Unix()]: seconds since 1970, rounded towards minus infinity. *)
Definition Unix (t : Time) : Z := t / 10^9 - 62135596800.
(** [time.Duration] constants, in nanoseconds. *)
Definition Millisecond : Z := 10^6.
Definition Second : Z := 10^9.
Definition Minute : Z := 60 * Second.
Definition Hour : Z := 60 * Minute.
(** [t.Sub(u)] saturates at the ends of [int64]. *)
Definition Sub (t u : Time) : Z := Z.max (- 2^63) (Z.min (t - u) (2^63 - 1)).
(** [d.Milliseconds()]: integer division truncated towards zero. *)
Definition Milliseconds (d : Z) : Z := Z.quot d Millisecond.

Lemma Unix_mono t u : t <= u -> Unix t <= Unix u.
Proof. unfold Unix; intros ?. pose proof (Z.div_le_mono t u (10^9)); lia. Qed.
