(* ===== verification/GoStrings.v ===== *)
(** * GoStrings: Go strings, UTF-8 and the [strings] package

    A Go string is a sequence of bytes; [range s], [strings.Fields],
    [strings.TrimSpace] and [strings.ToLower] read it as UTF-8.  This file
    models the functions of the packages [unicode/utf8], [unicode],
    [strings] and [strconv] the program calls, on [string] (eight-bit
    characters), and proves the facts the components share: decoding is
    compositional, [Fields] returns non-empty words without white space, and
    joining the fields of a string with one space and splitting again gives
    the same fields. *)

From S2P Require Import Prelude.
From stdpp Require Import pretty.
From Stdlib Require Import Ascii.

#[local] Open Scope Z_scope.

(** ** Bytes and byte slicing *)

Definition byte_val (a : ascii) : Z := Z.of_N (N_of_ascii a).
Definition byte_of (z : Z) : ascii := ascii_of_N (Z.to_N z).
(** [len(s)] *)
Definition len (s : string) : Z := Z.of_nat (String.length s).

(** [s[:n]] and [s[n:]] for [n <= len(s)]. *)
Fixpoint str_take (n : nat) (s : string) : string :=
  match n, s with
  | S n', String a s' => String a (str_take n' s')
  | _, _ => ""
  end.
Fixpoint str_drop (n : nat) (s : string) : string :=
  match n, s with
  | S n', String _ s' => str_drop n' s'
  | _, _ => s
  end.

(** ** UTF-8 decoding ([utf8.DecodeRuneInString]) *)

Definition RuneError : Z := 0xFFFD.

Definition is_cont (z : Z) : bool := (0x80 <=? z) && (z <=? 0xBF).

(** The range the second byte must lie in, by leading byte. *)
Definition accept_range (b0 : Z) : Z * Z :=
  if b0 =? 0xE0 then (0xA0, 0xBF)
  else if b0 =? 0xED then (0x80, 0x9F)
  else if b0 =? 0xF0 then (0x90, 0xBF)
  else if b0 =? 0xF4 then (0x80, 0x8F)
  else (0x80, 0xBF).

(** The first rune of a string and its width in bytes: an invalid or
    truncated sequence is [RuneError] of width 1. *)
Definition decode_rune (s : string) : Z * nat :=
  match s with
  | "" => (RuneError, 0%nat)
  | String a s1 =>
      let b0 := byte_val a in
      if b0 <? 0x80 then (b0, 1%nat) else
      match s1 with
      | "" => (RuneError, 1%nat)
      | String b s2 =>
          let b1 := byte_val b in
          if negb (((accept_range b0).1 <=? b1) && (b1 <=? (accept_range b0).2))
          then (RuneError, 1%nat)
          else if (0xC2 <=? b0) && (b0 <=? 0xDF)
          then ((b0 - 0xC0) * 64 + (b1 - 0x80), 2%nat)
          else
          match s2 with
          | "" => (RuneError, 1%nat)
          | String c s3 =>
              let b2 := byte_val c in
              if negb (is_cont b2) then (RuneError, 1%nat)
              else if (0xE0 <=? b0) && (b0 <=? 0xEF)
              then ((b0 - 0xE0) * 4096 + (b1 - 0x80) * 64 + (b2 - 0x80), 3%nat)
              else
              match s3 with
              | "" => (RuneError, 1%nat)
              | String d _ =>
                  let b3 := byte_val d in
                  if negb (is_cont b3) then (RuneError, 1%nat)
                  else if (0xF0 <=? b0) && (b0 <=? 0xF4)
                  then ((b0 - 0xF0) * 262144 + (b1 - 0x80) * 4096
                        + (b2 - 0x80) * 64 + (b3 - 0x80), 4%nat)
                  else (RuneError, 1%nat)
              end
          end
      end
  end.

(** A decoded rune together with the bytes it was decoded from. *)
Definition glyph : Type := Z * string.

(** [for _, r := range s]: the runes of a string with their bytes; [skip]
    counts the bytes that belong to the rune just read. *)
Fixpoint glyphs_go (skip : nat) (s : string) : list glyph :=
  match s with
  | "" => []
  | String _ s' =>
      match skip with
      | S k => glyphs_go k s'
      | O => let '(r, w) := decode_rune s in
             (r, str_take w s) :: glyphs_go (w - 1) s'
      end
  end.
Definition glyphs (s : string) : list glyph := glyphs_go 0 s.
Definition runes (s : string) : list Z := (glyphs s).*1.

Fixpoint flatten (gs : list glyph) : string :=
  match gs with
  | [] => ""
  | g :: gs' => g.2 +:+ flatten gs'
  end.

(** [utf8.EncodeRune]: surrogates and out-of-range values become [RuneError]. *)
Definition encode_rune (r : Z) : string :=
  let r := if (r <? 0) || (0x10FFFF <? r) || ((0xD800 <=? r) && (r <=? 0xDFFF))
           then RuneError else r in
  if r <? 0x80 then String (byte_of r) ""
  else if r <? 0x800 then
    String (byte_of (0xC0 + r / 64)) (String (byte_of (0x80 + r mod 64)) "")
  else if r <? 0x10000 then
    String (byte_of (0xE0 + r / 4096))
      (String (byte_of (0x80 + r / 64 mod 64)) (String (byte_of (0x80 + r mod 64)) ""))
  else
    String (byte_of (0xF0 + r / 262144))
      (String (byte_of (0x80 + r / 4096 mod 64))
        (String (byte_of (0x80 + r / 64 mod 64)) (String (byte_of (0x80 + r mod 64)) ""))).
Definition encode_runes (rs : list Z) : string :=
  foldr (fun r acc => encode_rune r +:+ acc) "" rs.

(** ** Character classes *)

(** The tables of the package [unicode] for code points above ASCII. *)
Class UnicodeTables := {
  table_to_lower : Z -> Z;
  table_to_upper : Z -> Z;
  table_is_letter : Z -> bool;
  table_is_digit : Z -> bool;
  table_is_print : Z -> bool
}.

(** The tables on the Latin-1 block: what the concrete examples use. *)
Definition latin1 : UnicodeTables := {|
  table_to_lower r := if (0xC0 <=? r) && (r <=? 0xDE) && negb (r =? 0xD7) then r + 32 else r;
  table_to_upper r := if (0xE0 <=? r) && (r <=? 0xFE) && negb (r =? 0xF7) then r - 32
                      else if r =? 0xFF then 0x178 else if r =? 0xB5 then 0x39C else r;
  table_is_letter r := (r =? 0xAA) || (r =? 0xB5) || (r =? 0xBA)
                       || ((0xC0 <=? r) && (r <=? 0xFF) && negb (r =? 0xD7) && negb (r =? 0xF7));
  table_is_digit r := false;
  table_is_print r := (0xA1 <=? r) && (r <=? 0xFF) && negb (r =? 0xAD)
|}.

Section Unicode.
Context `{U : UnicodeTables}.

Definition unicode_ToLower (r : Z) : Z :=
  if r <? 0x80 then (if (65 <=? r) && (r <=? 90) then r + 32 else r) else table_to_lower r.
Definition unicode_ToUpper (r : Z) : Z :=
  if r <? 0x80 then (if (97 <=? r) && (r <=? 122) then r - 32 else r) else table_to_upper r.
Definition unicode_IsLetter (r : Z) : bool :=
  if r <? 0x80 then ((65 <=? r) && (r <=? 90)) || ((97 <=? r) && (r <=? 122))
  else table_is_letter r.
Definition unicode_IsDigit (r : Z) : bool :=
  if r <? 0x80 then (48 <=? r) && (r <=? 57) else table_is_digit r.

(** [strings.ToLower], [strings.ToUpper]: [strings.Map] over the runes, an
    invalid byte becoming the encoding of [RuneError]. *)
Definition ToLower (s : string) : string := encode_runes (unicode_ToLower <$> runes s).
Definition ToUpper (s : string) : string := encode_runes (unicode_ToUpper <$> runes s).

(** [strconv.IsPrint]. *)
Definition is_print (r : Z) : bool :=
  if r <? 0x80 then (32 <=? r) && (r <? 127) else table_is_print r.
End Unicode.

(** Lower-case hexadecimal digits, most significant first ([%0nx]). *)
Definition hex_nibble (d : Z) : ascii := byte_of (if d <? 10 then 48 + d else 87 + d).
Fixpoint hex_fixed (n : nat) (z : Z) : string :=
  match n with
  | O => ""
  | S n' => String (hex_nibble (z / 16 ^ Z.of_nat n' mod 16)) (hex_fixed n' z)
  end.

(** The escape sequence of one rune in [strconv.Quote]; an invalid byte is
    printed in hexadecimal. *)
Definition quote_glyph `{UnicodeTables} (g : glyph) : string :=
  let '(r, bs) := g in
  if (r =? RuneError) && (String.length bs =? 1)%nat then
    match bs with "" => "" | String a _ => "\x" +:+ hex_fixed 2 (byte_val a) end
  else if r =? 34 then "\" +:+ String (byte_of 34) ""
  else if r =? 92 then "\\"
  else if is_print r then encode_rune r
  else if r =? 7 then "\a" else if r =? 8 then "\b" else if r =? 12 then "\f"
  else if r =? 10 then "\n" else if r =? 13 then "\r" else if r =? 9 then "\t"
  else if r =? 11 then "\v"
  else if (r <? 32) || (r =? 127) then "\x" +:+ hex_fixed 2 r
  else if r <? 0x10000 then "\u" +:+ hex_fixed 4 r
  else "\U" +:+ hex_fixed 8 r.

(** [strconv.Quote], the verb [%q]. *)
Definition Quote `{UnicodeTables} (s : string) : string :=
  let q := String (byte_of 34) "" in
  q +:+ foldr (fun g acc => quote_glyph g +:+ acc) "" (glyphs s) +:+ q.

(** [unicode.IsSpace]: the White_Space property. *)
Definition is_space (r : Z) : bool :=
  ((9 <=? r) && (r <=? 13)) || (r =? 32) || (r =? 0x85) || (r =? 0xA0) || (r =? 0x1680)
  || ((0x2000 <=? r) && (r <=? 0x200A)) || (r =? 0x2028) || (r =? 0x2029)
  || (r =? 0x202F) || (r =? 0x205F) || (r =? 0x3000).
Definition space_glyph (g : glyph) : bool := is_space g.1.

(** ** The [strings] package *)

Fixpoint drop_while {A} (p : A -> bool) (l : list A) : list A :=
  match l with
  | x :: l' => if p x then drop_while p l' else l
  | [] => []
  end.

(** [strings.TrimSpace] *)
Definition TrimSpace (s : string) : string :=
  flatten (reverse (drop_while space_glyph (reverse (drop_while space_glyph (glyphs s))))).

(** Split at the elements that satisfy [p], dropping empty pieces; [cur] is
    the piece being read. *)
Fixpoint split_by {A} (p : A -> bool) (cur l : list A) : list (list A) :=
  match l with
  | [] => match cur with [] => [] | _ => [cur] end
  | x :: l' =>
      if p x then match cur with [] => split_by p [] l' | _ => cur :: split_by p [] l' end
      else split_by p (cur ++ [x]) l'
  end.

(** [strings.Fields] *)
Definition Fields (s : string) : list string := flatten <$> split_by space_glyph [] (glyphs s).

(** [strings.Join] *)
Fixpoint Join (ws : list string) (sep : string) : string :=
  match ws with
  | [] => ""
  | [w] => w
  | w :: ws' => w +:+ sep +:+ Join ws' sep
  end.

(** [strings.HasPrefix], [strings.HasSuffix], [strings.Contains] *)
Definition HasPrefix (s p : string) : bool := String.prefix p s.
Definition HasSuffix (s p : string) : bool :=
  (String.length p <=? String.length s)%nat
  && String.eqb (str_drop (String.length s - String.length p) s) p.
Fixpoint Contains (s sub : string) : bool :=
  String.prefix sub s || match s with "" => false | String _ s' => Contains s' sub end.

(** [strings.Count(s, c)] for a one-byte separator. *)
Fixpoint count_byte (c : ascii) (s : string) : Z :=
  match s with
  | "" => 0
  | String a s' => (if Ascii.eqb a c then 1 else 0) + count_byte c s'
  end.

(** [strings.Split(s, c)] for a one-byte separator. *)
Fixpoint Split1 (c : ascii) (s : string) : list string :=
  match s with
  | "" => [""]
  | String a s' =>
      if Ascii.eqb a c then "" :: Split1 c s'
      else match Split1 c s' with
           | w :: ws => String a w :: ws
           | [] => [String a ""]
           end
  end.

(** [strings.EqualFold(s, t)] for an ASCII [t]: equal runes up to simple
    folding, whose orbits that meet ASCII are the two cases of a letter, with
    U+017F added to [s] and U+212A added to [k]. *)
Definition fold_ascii (r : Z) : Z :=
  if (65 <=? r) && (r <=? 90) then r + 32
  else if r =? 0x17F then 115 else if r =? 0x212A then 107 else r.
Definition EqualFold_ascii (s t : string) : bool :=
  bool_decide (fold_ascii <$> runes s = fold_ascii <$> runes t).

(** [path.Base]: the last non-empty component. *)
Definition path_Base (s : string) : string :=
  if String.eqb s "" then "."
  else match last (filter (fun c => c <> "") (Split1 "/" s)) with
       | Some c => c
       | None => "/"
       end.

(** [strconv.Itoa], the verb [%d] *)
Definition Itoa (z : Z) : string := pretty z.

(** [strings.TrimRight(s, "/")], [strings.TrimPrefix], [strings.TrimSuffix] *)
Fixpoint trim_right_slashes (s : string) : string :=
  match s with
  | "" => ""
  | String a s' =>
      match trim_right_slashes s' with
      | "" => if Ascii.eqb a "/" then "" else String a ""
      | t => String a t
      end
  end.
Definition TrimPrefix (s p : string) : string := if HasPrefix s p then str_drop (String.length p) s else s.
Definition TrimSuffix (s p : string) : string :=
  if HasSuffix s p then str_take (String.length s - String.length p) s else s.

(** * Facts *)

(** ** Concatenation and slicing *)

Lemma app_cons a s t : String a s +:+ t = String a (s +:+ t).
Proof. reflexivity. Qed.
Lemma app_nil_l' s : "" +:+ s = s.
Proof. reflexivity. Qed.
Lemma str_app_nil_r s : s +:+ "" = s.
Proof. induction s as [|a s IH]; [done|]. by rewrite app_cons, IH. Qed.
Lemma str_app_assoc s t u : (s +:+ t) +:+ u = s +:+ (t +:+ u).
Proof. induction s as [|a s IH]; [done|]. by rewrite !app_cons, IH. Qed.
#[export] Hint Rewrite @app_cons @app_nil_l' @str_app_nil_r @str_app_assoc : str.
Lemma length_str_app s t :
  String.length (s +:+ t) = (String.length s + String.length t)%nat.
Proof. induction s as [|a s IH]; [done|]. rewrite app_cons. simpl. by rewrite IH. Qed.
Lemma len_app s t : len (s +:+ t) = len s + len t.
Proof. unfold len. rewrite length_str_app. lia. Qed.
Lemma len_nonneg s : 0 <= len s.
Proof. unfold len. lia. Qed.
Lemma len_0 s : len s = 0 <-> s = "".
Proof. unfold len. destruct s; simpl; split; intros; (done || lia). Qed.
Lemma str_app_eq_nil s t : s +:+ t = "" <-> s = "" /\ t = "".
Proof. destruct s; [naive_solver|]. rewrite app_cons. naive_solver. Qed.
Lemma str_take_drop n s : str_take n s +:+ str_drop n s = s.
Proof. revert s; induction n; intros [|a s]; simpl; try done. by rewrite app_cons, IHn. Qed.
Lemma str_take_app n s t :
  (n <= String.length s)%nat -> str_take n (s +:+ t) = str_take n s.
Proof.
  revert s; induction n; intros [|a s] H; simpl in *; try done; try lia.
  f_equal. apply IHn. lia.
Qed.
Lemma str_drop_app n s t :
  (n <= String.length s)%nat -> str_drop n (s +:+ t) = str_drop n s +:+ t.
Proof.
  revert s; induction n; intros [|a s] H; simpl in *; try done; try lia.
  apply IHn. lia.
Qed.
Lemma length_str_drop n s : String.length (str_drop n s) = (String.length s - n)%nat.
Proof. revert s; induction n; intros [|a s]; simpl; try done. Qed.
Lemma length_str_take n s : String.length (str_take n s) = (n `min` String.length s)%nat.
Proof. revert s; induction n; intros [|a s]; simpl; try done. by rewrite IHn. Qed.
Lemma str_take_all n s : (String.length s <= n)%nat -> str_take n s = s.
Proof. revert s; induction n; intros [|a s] H; simpl in *; try done; try lia. rewrite IHn; [done|lia]. Qed.

(** ** Decoding *)

Lemma byte_val_range a : 0 <= byte_val a < 256.
Proof. unfold byte_val. pose proof (N_ascii_bounded a). lia. Qed.

(** A rune boundary can follow: the string is empty or does not start with a
    continuation byte. *)
Definition boundary (s : string) : Prop :=
  match s with "" => True | String a _ => is_cont (byte_val a) = false end.

Lemma accept_range_cont b0 b1 :
  is_cont b1 = false ->
  ((accept_range b0).1 <=? b1) && (b1 <=? (accept_range b0).2) = false.
Proof.
  unfold is_cont, accept_range. rewrite !andb_false_iff, !Z.leb_gt.
  repeat case_match; simpl; lia.
Qed.

Lemma decode_rune_width s :
  s <> "" -> (1 <= (decode_rune s).2 <= String.length s)%nat.
Proof.
  destruct s as [|a s]; [done|intros _]. unfold decode_rune.
  repeat (case_match; simpl; try lia).
Qed.

Lemma decode_rune_app s t :
  s <> "" -> boundary t -> decode_rune (s +:+ t) = decode_rune s.
Proof.
  destruct s as [|a s]; [done|intros _ Ht]. rewrite app_cons. unfold decode_rune.
  case_match; [done|].
  destruct s as [|b s].
  { destruct t as [|b t]; [done|]. rewrite app_nil_l'. simpl in Ht.
    by rewrite (accept_range_cont _ _ Ht). }
  rewrite app_cons. case_match; [done|]. case_match; [done|].
  destruct s as [|c s].
  { destruct t as [|c t]; [done|]. rewrite app_nil_l'. simpl in Ht. by rewrite Ht. }
  rewrite app_cons. case_match; [done|]. case_match; [done|].
  destruct s as [|d s].
  { destruct t as [|d t]; [done|]. rewrite app_nil_l'. simpl in Ht. by rewrite Ht. }
  by rewrite app_cons.
Qed.

Lemma glyphs_go_skip k s : glyphs_go k s = glyphs (str_drop k s).
Proof. unfold glyphs. revert s; induction k; intros [|a s]; simpl; try done. Qed.

(** The defining equation of [glyphs]. *)
Lemma glyphs_unfold s :
  s <> "" ->
  glyphs s = ((decode_rune s).1, str_take (decode_rune s).2 s)
             :: glyphs (str_drop (decode_rune s).2 s).
Proof.
  intros Hs. pose proof (decode_rune_width s Hs) as Hw.
  destruct s as [|a s]; [done|]. unfold glyphs at 1.
  cbn [glyphs_go]. destruct (decode_rune (String a s)) as [r w] eqn:E. simpl in Hw |- *.
  rewrite glyphs_go_skip. destruct w; [lia|]. simpl. by rewrite Nat.sub_0_r.
Qed.

Lemma str_ind_drop (P : string -> Prop) :
  P "" -> (forall s, s <> "" -> (forall w, (1 <= w)%nat -> P (str_drop w s)) -> P s) ->
  forall s, P s.
Proof.
  intros H0 HS s. remember (String.length s) as n eqn:Hn.
  revert s Hn. induction n as [n IH] using lt_wf_ind. intros s ->.
  destruct (decide (s = "")) as [->|Hs]; [done|]. apply HS; [done|].
  intros w Hw. eapply IH; [|done]. rewrite length_str_drop.
  destruct s; [done|]. simpl. lia.
Qed.

(** Nothing is lost: the bytes of the runes are the bytes of the string. *)
Lemma flatten_glyphs s : flatten (glyphs s) = s.
Proof.
  induction s as [|s Hs IH] using str_ind_drop; [done|].
  rewrite glyphs_unfold by done. simpl. rewrite IH; [apply str_take_drop|].
  by apply decode_rune_width.
Qed.

(** Decoding is compositional at rune boundaries. *)
Lemma glyphs_app s t : boundary t -> glyphs (s +:+ t) = glyphs s ++ glyphs t.
Proof.
  intros Ht. induction s as [|s Hs IH] using str_ind_drop; [done|].
  pose proof (decode_rune_width s Hs).
  rewrite (glyphs_unfold (s +:+ t)) by (destruct s; done).
  rewrite decode_rune_app, (glyphs_unfold s), str_take_app, str_drop_app, IH by (done || lia).
  done.
Qed.

Lemma flatten_app gs hs : flatten (gs ++ hs) = flatten gs +:+ flatten hs.
Proof. induction gs as [|g gs IH]; [done|]. simpl. by rewrite IH, str_app_assoc. Qed.

(** ** White space *)

Section SplitBy.
Context {A : Type} (p : A -> bool).
#[local] Abbreviation no_sep := (Forall (fun x => p x = false)).

Lemma split_by_no_sep cur w l :
  no_sep w -> split_by p cur (w ++ l) = split_by p (cur ++ w) l.
Proof.
  revert cur; induction w as [|x w IH]; intros cur Hw; [by rewrite app_nil_r|].
  inv Hw. simpl. destruct (p x); [done|]. by rewrite IH, <- app_assoc.
Qed.

Lemma split_by_all_sep cur l :
  Forall (fun x => p x = true) l -> split_by p cur l = match cur with [] => [] | _ => [cur] end.
Proof.
  revert cur; induction l as [|x l IH]; intros cur Hl; [done|]. inv Hl. simpl.
  destruct (p x); [|done]. rewrite !IH by done. by destruct cur.
Qed.

Lemma split_by_sep_prefix pre l :
  Forall (fun x => p x = true) pre -> split_by p [] (pre ++ l) = split_by p [] l.
Proof. induction 1 as [|x pre Hx _ IH]; [done|]. simpl. destruct (p x); done. Qed.

Lemma split_by_sep_suffix cur l post :
  Forall (fun x => p x = true) post -> split_by p cur (l ++ post) = split_by p cur l.
Proof.
  intros Hpost. revert cur; induction l as [|x l IH]; intros cur.
  { simpl. rewrite split_by_all_sep by done. by destruct cur. }
  simpl. destruct (p x); [destruct cur; by rewrite IH|apply IH].
Qed.

Lemma split_by_pieces cur l :
  no_sep cur -> Forall (fun w => w <> [] /\ no_sep w) (split_by p cur l).
Proof.
  revert cur; induction l as [|x l IH]; intros cur Hcur; simpl.
  { destruct cur; [done|]. by apply Forall_singleton. }
  destruct (p x) eqn:E; [destruct cur; [auto|constructor; auto]|].
  apply IH, Forall_app; auto.
Qed.

Lemma split_by_nil cur l :
  split_by p cur l = [] <-> cur = [] /\ Forall (fun x => p x = true) l.
Proof.
  split.
  - revert cur; induction l as [|x l IH]; intros cur; simpl; [by destruct cur|].
    destruct (p x) eqn:E.
    + destruct cur; [|done]. intros H. split; [done|]. constructor; [done|]. by apply (IH []).
    + intros [? _]%IH. by destruct cur.
  - intros [-> H]. by rewrite split_by_all_sep.
Qed.

(** What trimming keeps. *)
Definition trim (l : list A) : list A :=
  reverse (drop_while p (reverse (drop_while p l))).

Lemma drop_while_split l :
  exists pre, l = pre ++ drop_while p l /\ Forall (fun x => p x = true) pre.
Proof.
  induction l as [|x l (pre & Hl & Hpre)]; [by exists []|]. simpl. destruct (p x) eqn:E.
  - exists (x :: pre). simpl. by rewrite <- Hl; auto.
  - by exists [].
Qed.

Lemma trim_split l :
  exists pre post, l = pre ++ trim l ++ post
    /\ Forall (fun x => p x = true) pre /\ Forall (fun x => p x = true) post.
Proof.
  destruct (drop_while_split l) as (pre & Hl & Hpre).
  destruct (drop_while_split (reverse (drop_while p l))) as (post & Hd & Hpost).
  exists pre, (reverse post). unfold trim. split; [|by rewrite Forall_reverse].
  rewrite <- reverse_app, <- Hd, reverse_involutive. done.
Qed.

Lemma drop_while_head l x l' : drop_while p l = x :: l' -> p x = false.
Proof. induction l as [|y l IH]; [done|]. simpl. destruct (p y) eqn:E; [done|]. naive_solver. Qed.

Lemma drop_while_id l : match l with [] => True | x :: _ => p x = false end -> drop_while p l = l.
Proof. destruct l; [done|]. simpl. by intros ->. Qed.

Lemma drop_while_all l : Forall (fun x => p x = true) l -> drop_while p l = [].
Proof. induction 1 as [|x l Hx _ IH]; [done|]. simpl. by rewrite Hx. Qed.

Lemma drop_while_app_last l y :
  p y = false -> exists l', drop_while p (l ++ [y]) = l' ++ [y].
Proof.
  intros Hy. induction l as [|x l [l' IH]]; simpl.
  { rewrite Hy. by exists []. }
  destruct (p x); [by exists l'|]. by exists (x :: l).
Qed.

Lemma trim_trim l : trim (trim l) = trim l.
Proof.
  unfold trim at 2 3. set (d := drop_while p (reverse (drop_while p l))).
  unfold trim. rewrite (drop_while_id (reverse d)), reverse_involutive.
  { unfold d at 1. rewrite (drop_while_id (drop_while p _)); [done|].
    destruct (drop_while p (reverse _)) eqn:E; [done|]. by eapply drop_while_head. }
  unfold d. destruct (drop_while p l) as [|y l'] eqn:E; [done|].
  apply drop_while_head in E. rewrite reverse_cons.
  destruct (drop_while_app_last (reverse l') y E) as [m ->].
  by rewrite reverse_snoc.
Qed.
End SplitBy.

Lemma decode_rune_cont a s :
  is_cont (byte_val a) = true -> decode_rune (String a s) = (RuneError, 1%nat).
Proof.
  unfold is_cont, decode_rune. intros H%andb_true_iff. rewrite !Z.leb_le in H.
  pose proof (accept_range (byte_val a)).
  repeat (case_match; simpl; try done); bool_to_prop; lia.
Qed.

(** Every decoded glyph has bytes, and starts a rune unless it is an error. *)
Lemma glyphs_ok s :
  Forall (fun g : glyph => g.2 <> "" /\ (g.1 <> RuneError -> boundary g.2)) (glyphs s).
Proof.
  induction s as [|s Hs IH] using str_ind_drop; [constructor|].
  rewrite glyphs_unfold by done. pose proof (decode_rune_width s Hs).
  constructor; [|apply IH; lia]. simpl.
  destruct s as [|a s]; [done|]. destruct (decode_rune (String a s)) as [r w] eqn:E.
  simpl in H |- *. destruct w; [lia|]. split; [done|]. intros Hr.
  simpl. destruct (is_cont (byte_val a)) eqn:C; [|done].
  rewrite decode_rune_cont in E by done. by inv E.
Qed.

(** A list of glyphs is decodable when flattening and decoding give it back. *)
Abbreviation decodable gs := (glyphs (flatten gs%list) = gs%list).

Lemma decodable_tail g gs : decodable (g :: gs) -> decodable gs.
Proof.
  simpl. intros H.
  assert (Hne : g.2 +:+ flatten gs <> "") by (intros E; rewrite E in H; done).
  rewrite glyphs_unfold in H by done. injection H as Hg Hgs. rewrite <- Hgs at 2.
  f_equal. apply (inj (String.app g.2)).
  rewrite <- Hg at 2. simpl. by rewrite str_take_drop.
Qed.
Lemma decodable_suffix gs hs : decodable (gs ++ hs) -> decodable hs.
Proof. induction gs as [|g gs IH]; [done|]. intros H. by apply IH, (decodable_tail g). Qed.
Lemma decodable_prefix gs hs :
  decodable (gs ++ hs) -> boundary (flatten hs) -> decodable gs.
Proof.
  intros H B. pose proof (decodable_suffix _ _ H) as Hh.
  rewrite flatten_app, glyphs_app, Hh in H by done. by apply app_inv_tail in H.
Qed.
Lemma decodable_glyphs s : decodable (glyphs s).
Proof. by rewrite flatten_glyphs. Qed.

Lemma space_boundary g gs :
  decodable (g :: gs) -> space_glyph g = true -> boundary (flatten (g :: gs)).
Proof.
  intros H Hs. pose proof (glyphs_ok (flatten (g :: gs))) as Hok. rewrite H in Hok.
  inv Hok. destruct g as [r b]. simpl in *. destruct H2 as [Hb Hr].
  destruct b as [|a b]; [done|]. rewrite app_cons. simpl in *. apply Hr. intros ->. done.
Qed.

Lemma split_by_decodable cur l :
  decodable (cur ++ l) ->
  Forall (fun w => decodable w) (split_by space_glyph cur l).
Proof.
  revert cur; induction l as [|x l IH]; intros cur H; cbn [split_by].
  { rewrite app_nil_r in H. destruct cur; [done|]. by apply Forall_singleton. }
  destruct (space_glyph x) eqn:E.
  - pose proof (decodable_suffix _ _ H) as Hx.
    assert (Forall (fun w => decodable w) (split_by space_glyph [] l)) by
      (apply IH; by apply (decodable_tail x)).
    destruct cur; [done|]. constructor; [|done].
    eapply decodable_prefix; [exact H|]. by apply space_boundary.
  - apply IH. by rewrite <- app_assoc.
Qed.

(** A word: a non-empty string without white space. *)
Definition word (w : string) : Prop :=
  w <> "" /\ Forall (fun g => space_glyph g = false) (glyphs w).

Lemma Fields_words s : Forall word (Fields s).
Proof.
  unfold Fields. apply Forall_fmap.
  pose proof (split_by_pieces space_glyph [] (glyphs s) (Forall_nil_2 _)) as H1.
  pose proof (split_by_decodable [] (glyphs s) (decodable_glyphs s)) as H2.
  eapply Forall_impl; [eapply Forall_and; split; [exact H1|exact H2]|].
  intros w [[Hne Hns] Hd]. unfold word; simpl. rewrite Hd. split; [|done].
  intros E. rewrite E in Hd. by rewrite <- Hd in Hne.
Qed.

Lemma glyphs_space t : glyphs (" " +:+ t) = (32, " ") :: glyphs t.
Proof. rewrite glyphs_unfold by done. done. Qed.

Lemma word_glyphs_ne w : word w -> glyphs w <> [].
Proof. intros [Hw _] E. apply Hw. by rewrite <- (flatten_glyphs w), E. Qed.

(** Splitting undoes joining with one space. *)
Lemma Fields_Join ws : Forall word ws -> Fields (Join ws " ") = ws.
Proof.
  unfold Fields. induction 1 as [|w ws Hw Hws IH]; [done|].
  assert (Hone : forall l, split_by space_glyph [] (glyphs w ++ l)
                 = split_by space_glyph (glyphs w) l) by
    (intros l; rewrite split_by_no_sep; [done|apply Hw]).
  pose proof (word_glyphs_ne w Hw) as Hne.
  destruct ws as [|w' ws].
  - simpl. rewrite <- (app_nil_r (glyphs w)), Hone. simpl.
    destruct (glyphs w) eqn:E; [done|]. simpl. by rewrite <- (flatten_glyphs w), E.
  - cbn [Join]. rewrite glyphs_app, glyphs_space, Hone by done. cbn [split_by].
    change (space_glyph (32, " ")) with true.
    destruct (glyphs w) eqn:E; [done|]. rewrite <- E.
    rewrite fmap_cons, flatten_glyphs. by f_equal.
Qed.

Lemma Fields_Join_Fields s : Fields (Join (Fields s) " ") = Fields s.
Proof. apply Fields_Join, Fields_words. Qed.

Lemma glyphs_TrimSpace s : glyphs (TrimSpace s) = trim space_glyph (glyphs s).
Proof.
  unfold TrimSpace. fold (trim space_glyph (glyphs s)).
  destruct (trim_split space_glyph (glyphs s)) as (pre & post & Hs & _ & Hpost).
  pose proof (decodable_glyphs s) as D. rewrite Hs in D at 1 2. apply decodable_suffix in D.
  destruct post as [|g post].
  - by rewrite app_nil_r in D.
  - eapply decodable_prefix; [exact D|]. inv Hpost.
    apply space_boundary; [by eapply decodable_suffix|done].
Qed.

Lemma trim_ends {A} (p : A -> bool) x l y : p x = false -> p y = false -> trim p (x :: l ++ [y]) = x :: l ++ [y].
Proof.
  intros Hx Hy. unfold trim. rewrite (drop_while_id p (x :: l ++ [y])) by done.
  rewrite app_comm_cons, reverse_snoc, (drop_while_id p (y :: _)) by done. by rewrite reverse_cons, reverse_involutive.
Qed.
Lemma trim_pad {A} (p : A -> bool) x l y : p x = true -> p y = true -> trim p (x :: l ++ [y]) = trim p l.
Proof.
  intros Hx Hy. unfold trim. cbn [drop_while]. rewrite Hx.
  destruct (drop_while_split p l) as (pre & Hl & Hpre). remember (drop_while p l) as d eqn:Ed.
  assert (Hd : drop_while p (l ++ [y]) = d ++ [y] \/ (drop_while p (l ++ [y]) = [] /\ d = [])).
  { destruct d as [|g d].
    - right. split; [|done]. apply drop_while_all. rewrite Hl, app_nil_r. apply Forall_app. split; [done|by constructor].
    - left. pose proof (drop_while_head p l g d (eq_sym Ed)) as Hg. rewrite Hl, <- app_assoc.
      clear -Hpre Hg. induction Hpre as [|z pre Hz _ IH]; cbn [app drop_while]; [by rewrite Hg|by rewrite Hz]. }
  destruct Hd as [->|[-> ->]]; [|done]. rewrite reverse_snoc. cbn [drop_while]. by rewrite Hy.
Qed.

(** A text that starts and ends with a glyph that is not a space is trimmed. *)
Lemma TrimSpace_ends s x l y :
  glyphs s = x :: l ++ [y] -> space_glyph x = false -> space_glyph y = false -> TrimSpace s = s.
Proof.
  intros E Hx Hy. rewrite <- (flatten_glyphs s) at 2. unfold TrimSpace. fold (trim space_glyph (glyphs s)).
  by rewrite E, trim_ends.
Qed.

Lemma TrimSpace_idemp s : TrimSpace (TrimSpace s) = TrimSpace s.
Proof.
  unfold TrimSpace at 1. fold (trim space_glyph (glyphs (TrimSpace s))).
  by rewrite glyphs_TrimSpace, trim_trim.
Qed.

Lemma Fields_TrimSpace s : Fields (TrimSpace s) = Fields s.
Proof.
  unfold Fields. rewrite glyphs_TrimSpace. f_equal.
  destruct (trim_split space_glyph (glyphs s)) as (pre & post & Hs & Hpre & Hpost).
  rewrite Hs at 2. by rewrite split_by_sep_prefix, split_by_sep_suffix.
Qed.

Lemma TrimSpace_nil_Fields s : TrimSpace s = "" <-> Fields s = [].
Proof.
  split; intros H.
  - rewrite <- Fields_TrimSpace. by rewrite H.
  - apply fmap_nil_inv, split_by_nil in H as [_ H].
    unfold TrimSpace. by rewrite (drop_while_all _ _ H).
Qed.

Lemma TrimSpace_Join_Fields s : TrimSpace (Join (Fields s) " ") = "" <-> Fields s = [].
Proof. by rewrite TrimSpace_nil_Fields, Fields_Join_Fields. Qed.

Lemma Join_snoc w ws x : Join (w :: ws ++ [x]) " " = Join (w :: ws) " " +:+ " " +:+ x.
Proof.
  revert w. induction ws as [|y ws IH]; intros w; [done|].
  change (w +:+ " " +:+ Join (y :: ws ++ [x]) " " = (w +:+ " " +:+ Join (y :: ws) " ") +:+ " " +:+ x).
  by rewrite IH, !str_app_assoc.
Qed.

Lemma len_Join_snoc ws x : ws <> [] -> len (Join (ws ++ [x]) " ") = len (Join ws " ") + len x + 1.
Proof.
  destruct ws as [|w ws]; [done|]. intros _. cbn [app]. rewrite Join_snoc, !len_app.
  change (len " ") with 1. lia.
Qed.
