(* ===== verification/GoSort.v ===== *)
(** * GoSort: [float64] comparison and [sort.SliceStable]

    Scores are IEEE 754 doubles, modelled by the Standard Library's
    [spec_float] (no axioms).  [SliceStable] is insertion sort, the algorithm
    Go runs on blocks of twenty elements; the facts below show that for a
    strict weak order every stable sorting algorithm returns the same list,
    so the choice of algorithm is not observable.  NaN scores, for which [>]
    is not a strict weak order, are excluded by hypothesis where the result
    depends on it. *)

From S2P Require Import Prelude.
From Stdlib Require Import SpecFloat.

#[local] Open Scope Z_scope.

(** ** Doubles *)

Definition float64 := spec_float.
Definition float32 := spec_float.

(** Go [a > b], [a == b] on floats: false when either operand is NaN. *)
Definition fgt (a b : float64) : bool :=
  match SFcompare a b with Some Gt => true | _ => false end.
Definition feq (a b : float64) : bool := SFeqb a b.
Definition flt (a b : float64) : bool := SFltb a b.
(** Binary64 arithmetic, round to nearest even. *)
Definition fadd (a b : float64) : float64 := SFadd 53 1024 a b.
Definition fmul (a b : float64) : float64 := SFmul 53 1024 a b.
Definition fdiv (a b : float64) : float64 := SFdiv 53 1024 a b.
Definition fsqrt (a : float64) : float64 := SFsqrt 53 1024 a.
(** [float64(n)] for an integer [n]. *)
Definition float_of_int (n : Z) : float64 := binary_normalize 53 1024 n 0 false.
(** [float64(x)] for a [float32]: exact, normalised to the wider format. *)
Definition float64_of_float32 (x : float32) : float64 :=
  match x with
  | S754_finite neg m e => binary_normalize 53 1024 (if neg then Zneg m else Zpos m) e neg
  | _ => x
  end.
Definition not_nan (a : float64) : Prop := a <> S754_nan.

#[global] Instance float_eq_dec : EqDecision spec_float.
Proof. solve_decision. Defined.

(** ** Stable sorting *)

Section SliceStable.
Context {A : Type} (less : A -> A -> bool).

(** Insert into the reversed sorted prefix: move left while [less x prev]. *)
Fixpoint insert_back (x : A) (rprefix : list A) : list A :=
  match rprefix with
  | [] => [x]
  | p :: rest => if less x p then p :: insert_back x rest else x :: p :: rest
  end.

Definition SliceStable (l : list A) : list A :=
  reverse (foldl (fun rprefix x => insert_back x rprefix) [] l).
End SliceStable.

(** Byte-wise string order. *)
Definition str_less (s t : string) : bool :=
  match String.compare s t with Lt => true | _ => false end.

(** A strict weak order on the elements that satisfy [P]: asymmetric and
    negatively transitive. *)
Record weak_order {A} (P : A -> Prop) (less : A -> A -> bool) : Prop := {
  wo_asym a b : P a -> P b -> less a b = true -> less b a = false;
  wo_neg_trans a b c : P a -> P b -> P c ->
    less a b = false -> less b c = false -> less a c = false
}.

(** [a] may come before [b]. *)
Definition ordered {A} (less : A -> A -> bool) (a b : A) : Prop := less b a = false.
(** [a] and [b] are ties. *)
Definition tie {A} (less : A -> A -> bool) (a b : A) : bool := negb (less a b) && negb (less b a).

(** * Facts *)

Section SliceStableFacts.
Context {A : Type} (less : A -> A -> bool).

Lemma insert_back_perm x rp : insert_back less x rp ≡ₚ x :: rp.
Proof.
  induction rp as [|p rp IH]; simpl; [done|]. destruct (less x p); [|done].
  rewrite IH. by constructor.
Qed.

Lemma fold_insert_perm l acc :
  foldl (fun rp x => insert_back less x rp) acc l ≡ₚ l ++ acc.
Proof.
  revert acc; induction l as [|x l IH]; intros acc; simpl; [done|].
  rewrite IH, insert_back_perm. by rewrite Permutation_middle.
Qed.

(** Sorting neither loses nor invents elements. *)
Lemma SliceStable_perm l : SliceStable less l ≡ₚ l.
Proof. unfold SliceStable. by rewrite reverse_Permutation, fold_insert_perm, app_nil_r. Qed.

Lemma length_SliceStable l : length (SliceStable less l) = length l.
Proof. by rewrite SliceStable_perm. Qed.

Lemma Forall_SliceStable (Q : A -> Prop) l : Forall Q l -> Forall Q (SliceStable less l).
Proof. by rewrite SliceStable_perm. Qed.

Context (P : A -> Prop) (WO : weak_order P less).

#[local] Abbreviation rsorted := (StronglySorted (fun a b => less a b = false)).

Lemma insert_back_Forall (Q : A -> Prop) x rp :
  Q x -> Forall Q rp -> Forall Q (insert_back less x rp).
Proof. intros Hx Hrp. rewrite insert_back_perm. by constructor. Qed.

Lemma insert_back_sorted x rp :
  P x -> Forall P rp -> rsorted rp -> rsorted (insert_back less x rp).
Proof.
  intros Hx HP Hs. induction Hs as [|p rp Hs IH Hall]; simpl; [repeat constructor|].
  inv HP. destruct (less x p) eqn:E.
  - constructor; [auto|]. apply insert_back_Forall; [|done]. by eapply wo_asym.
  - constructor; [by constructor|]. constructor; [done|].
    eapply Forall_impl; [apply Forall_and; split; [exact Hall|eassumption]|].
    intros b [??]. by eapply (wo_neg_trans _ _ WO x p b).
Qed.

Lemma fold_insert_sorted l acc :
  Forall P l -> Forall P acc -> rsorted acc ->
  rsorted (foldl (fun rp x => insert_back less x rp) acc l).
Proof.
  revert acc; induction l as [|x l IH]; intros acc Hl Hacc Hs; simpl; [done|]. inv Hl.
  apply IH; [done|by apply insert_back_Forall|by apply insert_back_sorted].
Qed.

Lemma StronglySorted_snoc (R : A -> A -> Prop) l x :
  StronglySorted R l -> Forall (fun y => R y x) l -> StronglySorted R (l ++ [x]).
Proof.
  induction 1 as [|y l Hs IH Hall]; intros H; simpl; [repeat constructor|]. inv H.
  constructor; [auto|]. apply Forall_app. by repeat constructor.
Qed.

Lemma StronglySorted_reverse (R : A -> A -> Prop) l :
  StronglySorted R l -> StronglySorted (flip R) (reverse l).
Proof.
  induction 1 as [|x l Hs IH Hall]; [constructor|]. rewrite reverse_cons.
  apply StronglySorted_snoc; [done|]. by rewrite Forall_reverse.
Qed.

(** The result is in order. *)
Lemma SliceStable_sorted l : Forall P l -> StronglySorted (ordered less) (SliceStable less l).
Proof.
  intros Hl. unfold SliceStable.
  apply (StronglySorted_reverse (fun a b => less a b = false)).
  apply fold_insert_sorted; [done|constructor|constructor].
Qed.

Lemma tie_moves a x p : P a -> P x -> P p ->
  tie less a x = true -> less x p = true -> tie less a p = false.
Proof.
  unfold tie. intros Ha Hx Hp [H1 H2]%andb_true_iff E.
  apply negb_true_iff in H1, H2. apply andb_false_iff. rewrite !negb_false_iff.
  destruct (less a p) eqn:Eap; [by left|]. exfalso.
  rewrite (wo_neg_trans _ _ WO x a p) in E; done.
Qed.

Lemma insert_back_stable a x rp :
  P a -> P x -> Forall P rp ->
  filter (fun y => tie less a y = true) (insert_back less x rp)
  = filter (fun y => tie less a y = true) (x :: rp).
Proof.
  intros Ha Hx Hrp. induction Hrp as [|p rp Hp Hrp IH]; [done|]. cbn [insert_back].
  destruct (less x p) eqn:E; [|done]. rewrite filter_cons, IH, !filter_cons.
  repeat case_decide; try done. exfalso. by rewrite (tie_moves a x p) in *.
Qed.

Lemma fold_insert_stable a l acc :
  P a -> Forall P l -> Forall P acc ->
  filter (fun y => tie less a y = true) (foldl (fun rp x => insert_back less x rp) acc l)
  = filter (fun y => tie less a y = true) (reverse l ++ acc).
Proof.
  intros Ha. revert acc; induction l as [|x l IH]; intros acc Hl Hacc; [done|]. inv Hl.
  cbn [foldl]. rewrite IH, reverse_cons, <- app_assoc by (done || by apply insert_back_Forall).
  simpl. by rewrite !filter_app, insert_back_stable.
Qed.

Lemma filter_reverse (Q : A -> Prop) `{forall x, Decision (Q x)} l :
  filter Q (reverse l) = reverse (filter Q l).
Proof.
  induction l as [|x l IH]; [done|]. rewrite reverse_cons, filter_app, IH, filter_cons.
  rewrite filter_cons, filter_nil. case_decide; [by rewrite reverse_cons|by rewrite app_nil_r].
Qed.

(** Ties keep their input order. *)
Lemma SliceStable_stable a l :
  P a -> Forall P l ->
  filter (fun y => tie less a y = true) (SliceStable less l)
  = filter (fun y => tie less a y = true) l.
Proof.
  intros Ha Hl. unfold SliceStable.
  rewrite filter_reverse, fold_insert_stable, app_nil_r, filter_reverse, reverse_involutive by done.
  done.
Qed.

(** Two sorted lists whose classes of ties agree are equal. *)
Lemma sorted_stable_unique l1 l2 :
  Forall P l1 -> Forall P l2 ->
  StronglySorted (ordered less) l1 -> StronglySorted (ordered less) l2 ->
  (forall a, P a -> filter (fun y => tie less a y = true) l1
               = filter (fun y => tie less a y = true) l2) ->
  l1 = l2.
Proof.
  assert (Hrefl : forall a, P a -> tie less a a = true).
  { intros a Ha. unfold tie. destruct (less a a) eqn:E; [|done].
    pose proof (wo_asym _ _ WO a a Ha Ha E). congruence. }
  revert l2; induction l1 as [|x l1 IH]; intros l2 H1 H2 S1 S2 HF.
  { destruct l2 as [|y l2]; [done|]. inv H2. specialize (HF y).
    rewrite filter_nil, filter_cons_True in HF by auto. naive_solver. }
  inv H1. destruct l2 as [|y l2].
  { specialize (HF x). rewrite filter_nil, filter_cons_True in HF by auto. naive_solver. }
  inv H2. inv S1. inv S2.
  assert (Hx : x ∈ y :: l2).
  { assert (x ∈ filter (fun z => tie less x z = true) (y :: l2)) as Hin
      by (rewrite <- HF by done; rewrite filter_cons_True by auto; left).
    by apply list_elem_of_filter in Hin as [_ ?]. }
  assert (Hy : y ∈ x :: l1).
  { assert (y ∈ filter (fun z => tie less y z = true) (x :: l1)) as Hin
      by (rewrite HF by done; rewrite filter_cons_True by auto; left).
    by apply list_elem_of_filter in Hin as [_ ?]. }
  assert (x = y) as ->.
  { assert (Hxy : tie less x y = true).
    { apply elem_of_cons in Hx as [->|Hx]; [auto|]. apply elem_of_cons in Hy as [->|Hy]; [auto|].
      rewrite Forall_forall in *. unfold tie, ordered in *.
      by rewrite (H6 y Hy), (H8 x Hx). }
    specialize (HF x). rewrite !filter_cons_True in HF by auto. naive_solver. }
  f_equal. apply IH; try done. intros a Ha. specialize (HF a Ha).
  rewrite !filter_cons in HF. case_decide; naive_solver.
Qed.

(** Any stable sort is [SliceStable]: what [sort.SliceStable] documents
    determines its result. *)
Lemma SliceStable_unique l l' :
  Forall P l -> l' ≡ₚ l -> StronglySorted (ordered less) l' ->
  (forall a, P a -> filter (fun y => tie less a y = true) l'
               = filter (fun y => tie less a y = true) l) ->
  l' = SliceStable less l.
Proof.
  intros Hl Hp Hs HF. apply sorted_stable_unique; try done.
  - by rewrite Hp.
  - by apply Forall_SliceStable.
  - by apply SliceStable_sorted.
  - intros a Ha. by rewrite SliceStable_stable, HF.
Qed.
End SliceStableFacts.

(** ** Doubles that are not NaN are totally preordered *)

(** The position of a double on the line, lexicographically ordered. *)
Definition fkey (a : float64) : Z * Z * Z :=
  match a with
  | S754_infinity true => (-2, 0, 0)
  | S754_finite true m e => (-1, - e, Zneg m)
  | S754_zero _ | S754_nan => (0, 0, 0)
  | S754_finite false m e => (1, e, Zpos m)
  | S754_infinity false => (2, 0, 0)
  end.
Definition klt (k l : Z * Z * Z) : Prop :=
  k.1.1 < l.1.1 \/ (k.1.1 = l.1.1 /\ (k.1.2 < l.1.2 \/ (k.1.2 = l.1.2 /\ k.2 < l.2))).

Lemma fgt_key a b : not_nan a -> not_nan b -> fgt a b = true <-> klt (fkey b) (fkey a).
Proof.
  unfold not_nan, fgt, klt. intros Ha Hb.
  destruct a as [[]|[]| |[] m e], b as [[]|[]| |[] m' e']; try done; simpl;
    try (split; intros; (done || lia)).
  all: change (Pos.compare_cont Eq m m') with (Pos.compare m m').
  all: destruct (Z.compare_spec e e'); try (destruct (Pos.compare_spec m m'));
    simpl; split; intros; (done || lia).
Qed.

Lemma feq_key a b : not_nan a -> not_nan b -> feq a b = true <-> fkey a = fkey b.
Proof.
  unfold not_nan, feq, SFeqb. intros Ha Hb.
  destruct a as [[]|[]| |[] m e], b as [[]|[]| |[] m' e']; try done; simpl;
    try (split; intros; (done || lia)).
  all: change (Pos.compare_cont Eq m m') with (Pos.compare m m').
  all: destruct (Z.compare_spec e e'); try (destruct (Pos.compare_spec m m'));
    simpl; split; intros; simplify_eq; (done || lia || naive_solver lia).
Qed.

Lemma fgt_false_key a b : not_nan a -> not_nan b -> fgt a b = false <-> ~ klt (fkey b) (fkey a).
Proof. intros. rewrite <- fgt_key by done. by destruct (fgt a b). Qed.

(** Descending by a score. *)
Definition by_score {A} (score : A -> float64) (a b : A) : bool := fgt (score a) (score b).

(** Descending by an integer rank, ties by descending score. *)
Definition by_rank {A} (rank : A -> Z) (score : A -> float64) (a b : A) : bool :=
  if rank a =? rank b then fgt (score a) (score b) else rank b <? rank a.

Lemma by_rank_weak_order {A} (rank : A -> Z) (score : A -> float64) :
  weak_order (fun a => not_nan (score a)) (by_rank rank score).
Proof.
  unfold by_rank. split.
  - intros a b Ha Hb. rewrite (Z.eqb_sym (rank b)). destruct (rank a =? rank b) eqn:E.
    + rewrite fgt_key, fgt_false_key by done. unfold klt. lia.
    + lia.
  - intros a b c Ha Hb Hc.
    destruct (rank a =? rank b) eqn:E1, (rank b =? rank c) eqn:E2, (rank a =? rank c) eqn:E3;
      rewrite ?fgt_false_key by done; unfold klt; lia.
Qed.

Lemma by_score_weak_order {A} (score : A -> float64) :
  weak_order (fun a => not_nan (score a)) (by_score score).
Proof. apply (by_rank_weak_order (fun _ => 0) score). Qed.

(** Descending by a first score, ties by descending second score. *)
Definition by_scores {A} (s1 s2 : A -> float64) (a b : A) : bool :=
  if feq (s1 a) (s1 b) then fgt (s2 a) (s2 b) else fgt (s1 a) (s1 b).

Lemma feq_false_key a b : not_nan a -> not_nan b -> feq a b = false <-> fkey a <> fkey b.
Proof. intros. rewrite <- feq_key by done. by destruct (feq a b). Qed.

Lemma klt_trichotomy k l : klt k l \/ k = l \/ klt l k.
Proof. unfold klt. destruct k as [[a b] c], l as [[a' b'] c']. simpl. 
  destruct (Z.lt_trichotomy a a') as [?|[->|?]]; [lia| |lia].
  destruct (Z.lt_trichotomy b b') as [?|[->|?]]; [lia| |lia].
  destruct (Z.lt_trichotomy c c') as [?|[->|?]]; [lia|auto|lia]. Qed.

Lemma klt_trans k l m : klt k l -> klt l m -> klt k m.
Proof. unfold klt. lia. Qed.
Lemma klt_irrefl k : ~ klt k k.
Proof. unfold klt. lia. Qed.

Lemma by_scores_weak_order {A} (s1 s2 : A -> float64) :
  weak_order (fun a => not_nan (s1 a) /\ not_nan (s2 a)) (by_scores s1 s2).
Proof.
  assert (T : forall a b, not_nan (s1 a) /\ not_nan (s2 a) -> not_nan (s1 b) /\ not_nan (s2 b) ->
    by_scores s1 s2 a b = true <-> klt (fkey (s1 b)) (fkey (s1 a))
      \/ (fkey (s1 a) = fkey (s1 b) /\ klt (fkey (s2 b)) (fkey (s2 a)))).
  { intros a b [Ha Ha'] [Hb Hb']. unfold by_scores. destruct (feq (s1 a) (s1 b)) eqn:E.
    - apply feq_key in E; [|done..]. rewrite E, fgt_key by done.
      pose proof (klt_irrefl (fkey (s1 b))). naive_solver.
    - apply feq_false_key in E; [|done..]. rewrite fgt_key by done. naive_solver. }
  assert (F : forall a b, not_nan (s1 a) /\ not_nan (s2 a) -> not_nan (s1 b) /\ not_nan (s2 b) ->
    by_scores s1 s2 a b = false <-> ~ (klt (fkey (s1 b)) (fkey (s1 a))
      \/ (fkey (s1 a) = fkey (s1 b) /\ klt (fkey (s2 b)) (fkey (s2 a))))).
  { intros a b Ha Hb. rewrite <- T by done. by destruct (by_scores s1 s2 a b). }
  split.
  - intros a b Ha Hb. rewrite T, F by done. unfold klt.
    destruct (fkey (s1 a)) as [[? ?] ?], (fkey (s1 b)) as [[? ?] ?]; simpl.
    destruct (fkey (s2 a)) as [[? ?] ?], (fkey (s2 b)) as [[? ?] ?]; simpl.
    intros [?|[? ?]] [?|[? ?]]; simplify_eq; lia.
  - intros a b c Ha Hb Hc. rewrite !F by done. intros H1 H2 [H3|[H3 H4]].
    + destruct (klt_trichotomy (fkey (s1 a)) (fkey (s1 b))) as [?|[E|?]]; [|rewrite E in *|];
        destruct (klt_trichotomy (fkey (s1 b)) (fkey (s1 c))) as [?|[E'|?]]; try rewrite E' in *;
        eauto using klt_trans; naive_solver eauto using klt_trans, klt_irrefl.
    + rewrite H3 in *.
      destruct (klt_trichotomy (fkey (s1 c)) (fkey (s1 b))) as [?|[E|?]]; [naive_solver| |naive_solver].
      rewrite E in *.
      destruct (klt_trichotomy (fkey (s2 a)) (fkey (s2 b))) as [?|[E2|?]]; [|rewrite E2 in *|];
        destruct (klt_trichotomy (fkey (s2 b)) (fkey (s2 c))) as [?|[E'|?]]; try rewrite E' in *;
        naive_solver eauto using klt_trans, klt_irrefl.
Qed.

(** ** Numbers that are not NaN *)

Lemma shr_1_nonneg r : 0 <= shr_m r -> 0 <= shr_m (shr_1 r).
Proof. destruct r as [[|[p|p|]|[p|p|]] r s]; cbn; lia. Qed.
Lemma iter_shr_nonneg p : forall r, 0 <= shr_m r -> 0 <= shr_m (iter_pos shr_1 p r).
Proof. induction p as [p IH|p IH|]; intros r Hr; cbn [iter_pos]; auto using shr_1_nonneg. Qed.
Lemma shr_fexp_nonneg prec emax m e l : 0 <= m -> 0 <= shr_m (shr_fexp prec emax m e l).1.
Proof.
  intros Hm. unfold shr_fexp, shr.
  assert (Hr : 0 <= shr_m (shr_record_of_loc m l)) by (destruct l as [|[]]; done).
  destruct (_ - e); cbn [fst]; auto using iter_shr_nonneg.
Qed.
Lemma binary_round_aux_not_nan prec emax s m e l : 0 <= m -> binary_round_aux prec emax s m e l <> S754_nan.
Proof.
  intros Hm. unfold binary_round_aux. pose proof (shr_fexp_nonneg prec emax m e l Hm) as H1.
  destruct (shr_fexp prec emax m e l) as [r1 e1]. cbn [fst] in H1.
  assert (H2 : 0 <= round_nearest_even (shr_m r1) (loc_of_shr_record r1)).
  { unfold round_nearest_even. destruct (loc_of_shr_record r1) as [|[]]; try lia. destruct (Z.even _); lia. }
  pose proof (shr_fexp_nonneg prec emax _ e1 loc_Exact H2) as H3.
  destruct (shr_fexp prec emax _ e1 loc_Exact) as [r2 e2]. cbn [fst] in H3.
  destruct (shr_m r2) as [|p|p]; [done| |lia]. by destruct (_ <=? _).
Qed.
Lemma binary_normalize_not_nan prec emax m e s : binary_normalize prec emax m e s <> S754_nan.
Proof.
  unfold binary_normalize, binary_round. destruct m as [|p|p]; [done| |];
    destruct (shl_align _ _ _) as [mz ez]; by apply binary_round_aux_not_nan.
Qed.
Lemma float_of_int_not_nan z : not_nan (float_of_int z).
Proof. apply binary_normalize_not_nan. Qed.
Definition finite (x : float64) : Prop := match x with S754_zero _ | S754_finite _ _ _ => True | _ => False end.
Lemma fadd_not_nan x y : not_nan x -> finite y -> not_nan (fadd x y).
Proof.
  unfold not_nan, fadd, SFadd. destruct x as [s|s| |s m e], y as [s'|s'| |s' m' e']; intros Hx Hy; try done;
    try (by destruct s, s'). apply binary_normalize_not_nan.
Qed.

(** The byte-wise order of strings is a weak order (and total: only equal strings tie). *)
Lemma compare_not_lt_trans : forall a b c,
  String.compare a b <> Lt -> String.compare b c <> Lt -> String.compare a c <> Lt.
Proof.
  induction a as [|x a IH]; intros [|y b] [|z c]; cbn [String.compare]; try done.
  unfold Ascii.compare.
  destruct (N.compare_spec (Ascii.N_of_ascii x) (Ascii.N_of_ascii y)), (N.compare_spec (Ascii.N_of_ascii y) (Ascii.N_of_ascii z)),
    (N.compare_spec (Ascii.N_of_ascii x) (Ascii.N_of_ascii z)); try done; try lia. intros; eauto.
Qed.
Lemma str_less_weak_order : weak_order (fun _ => True) str_less.
Proof.
  split; unfold str_less.
  - intros a b _ _. rewrite (String.compare_antisym b a). by destruct (String.compare a b).
  - intros a b c _ _ _ H1 H2. pose proof (compare_not_lt_trans a b c) as H.
    destruct (String.compare a c); [done| |done]. exfalso.
    apply H; [intros E; by rewrite E in H1|intros E; by rewrite E in H2|done].
Qed.
