(* ===== verification/GoTime.v ===== *)
(** * GoTime: calendar dates and the layout [time.RFC3339Nano]

    Times are UTC nanoseconds since January 1 of year 1 (see [Prelude]).  This
    file models the calendar part of the package [time] that the program uses
    to print time stamps, and proves that the day number of a time is
    recovered from the date it is printed with. *)

From S2P Require Import Prelude GoStrings.
From Stdlib Require Import Ascii.

#[local] Open Scope Z_scope.

(** The day number of a time, and the nanosecond within the day. *)
Definition nanos_per_day : Z := 24 * Hour.
Definition day_of (t : Time) : Z := t / nanos_per_day.
Definition clock_of (t : Time) : Z := t mod nanos_per_day.

Definition leap (y : Z) : bool :=
  (y mod 4 =? 0) && (negb (y mod 100 =? 0) || (y mod 400 =? 0)).

(** Days before January 1 of year [y], counted from January 1 of year 1. *)
Definition days_before_year (y : Z) : Z :=
  365 * (y - 1) + (y - 1) / 4 - (y - 1) / 100 + (y - 1) / 400.

(** Days of a year before month [m] (January is 1). *)
Definition month_starts : list Z := [0; 31; 59; 90; 120; 151; 181; 212; 243; 273; 304; 334].
Definition days_before_month (lp : bool) (m : Z) : Z :=
  nth (Z.to_nat (m - 1)) month_starts 0 + if lp && (2 <? m) then 1 else 0.

(** The year a day falls in: an estimate that is at most two too large,
    corrected. *)
Definition year_of (d : Z) : Z :=
  let y := (400 * d) / 146097 + 2 in
  if days_before_year y <=? d then y
  else if days_before_year (y - 1) <=? d then y - 1 else y - 2.

(** The last month that starts at or before day [yd] of the year. *)
Definition month_of (lp : bool) (yd : Z) : Z :=
  Z.of_nat (length (filter (fun m => days_before_month lp m <= yd)
                      [1; 2; 3; 4; 5; 6; 7; 8; 9; 10; 11; 12])).

Record date := { Year : Z; Month : Z; Day : Z }.

Definition Date (t : Time) : date :=
  let d := day_of t in
  let y := year_of d in
  let yd := d - days_before_year y in
  let m := month_of (leap y) yd in
  {| Year := y; Month := m; Day := yd - days_before_month (leap y) m + 1 |}.

(** [n] printed on at least [w] digits, zero-padded, for [n >= 0]. *)
Fixpoint zeros (n : nat) : string :=
  match n with O => "" | S n' => String "0" (zeros n') end.
Definition pad (w : nat) (n : Z) : string :=
  let s := Itoa n in zeros (w - String.length s) +:+ s.

(** The fraction of [.999999999]: nine digits without trailing zeros, nothing
    for a whole second. *)
Fixpoint trim_zeros (s : string) : string :=
  match s with
  | "" => ""
  | String a s' =>
      match trim_zeros s' with
      | "" => if Ascii.eqb a "0" then "" else String a ""
      | r => String a r
      end
  end.
Definition fraction (ns : Z) : string :=
  if ns =? 0 then "" else "." +:+ trim_zeros (pad 9 ns).

(** [t.Format(time.RFC3339Nano)] for a UTC time. *)
Definition Format_RFC3339Nano (t : Time) : string :=
  let d := Date t in
  let c := clock_of t in
  pad 4 (Year d) +:+ "-" +:+ pad 2 (Month d) +:+ "-" +:+ pad 2 (Day d) +:+ "T"
  +:+ pad 2 (c / Hour) +:+ ":" +:+ pad 2 (c / Minute mod 60) +:+ ":" +:+ pad 2 (c / Second mod 60)
  +:+ fraction (c mod Second) +:+ "Z".

(** [t.UnixNano()], for a time within the range of [int64]. *)
Definition UnixNano (t : Time) : Z := t - 62135596800 * 10^9.

(** The time of a Unix time stamp. *)
Definition unix_time (secs nanos : Z) : Time := (secs + 62135596800) * 10^9 + nanos.

(** * Facts *)

Example format_epoch : Format_RFC3339Nano (unix_time 0 0) = "1970-01-01T00:00:00Z".
Proof. vm_compute. reflexivity. Qed.
Example format_leap_day :
  Format_RFC3339Nano (unix_time 1709210096 123456000) = "2024-02-29T12:34:56.123456Z".
Proof. vm_compute. reflexivity. Qed.
Example format_new_year :
  Format_RFC3339Nano (unix_time 1767225599 999999999) = "2025-12-31T23:59:59.999999999Z".
Proof. vm_compute. reflexivity. Qed.

Lemma days_before_year_step y :
  days_before_year (y + 1) = days_before_year y + if leap y then 366 else 365.
Proof.
  unfold days_before_year, leap. replace (y + 1 - 1) with y by lia.
  destruct (Z.eqb_spec (y mod 4) 0), (Z.eqb_spec (y mod 100) 0), (Z.eqb_spec (y mod 400) 0);
    simpl; Z.div_mod_to_equations; lia.
Qed.

Lemma year_of_spec d :
  0 <= d -> days_before_year (year_of d) <= d < days_before_year (year_of d + 1).
Proof.
  intros Hd. unfold year_of. cbn zeta.
  destruct (Z.leb_spec (days_before_year ((400 * d) / 146097 + 2)) d);
  [|destruct (Z.leb_spec (days_before_year ((400 * d) / 146097 + 2 - 1)) d)];
    unfold days_before_year in *; Z.div_mod_to_equations; lia.
Qed.

Lemma month_of_spec (lp : bool) (yd : Z) :
  0 <= yd < (if lp then 366 else 365) ->
  1 <= month_of lp yd <= 12 /\ days_before_month lp (month_of lp yd) <= yd.
Proof.
  intros H.
  assert (Hb : forallb (fun k => let m := month_of lp (Z.of_nat k) in
      (1 <=? m) && (m <=? 12) && (days_before_month lp m <=? Z.of_nat k))
      (seq 0 (if lp then 366 else 365)) = true) by (destruct lp; vm_compute; reflexivity).
  assert (Hin : In (Z.to_nat yd) (seq 0 (if lp then 366 else 365))) by (apply in_seq; destruct lp; lia).
  rewrite forallb_forall in Hb. apply Hb in Hin. cbn zeta in Hin.
  rewrite Z2Nat.id in Hin by lia. bool_to_prop. lia.
Qed.

(** The date of a time names its day: the printed year, month and day give the
    day number back. *)
Lemma Date_day t :
  0 <= t ->
  let d := Date t in
  days_before_year (Year d) + days_before_month (leap (Year d)) (Month d) + Day d - 1 = day_of t
  /\ 1 <= Month d <= 12 /\ 1 <= Day d.
Proof.
  intros Ht. cbn zeta. unfold Date. cbn zeta. simpl.
  assert (Hd : 0 <= day_of t) by (apply Z.div_pos; [done|unfold nanos_per_day, Hour, Minute, Second; lia]).
  pose proof (year_of_spec _ Hd) as Hy. rewrite days_before_year_step in Hy.
  destruct (month_of_spec (leap (year_of (day_of t))) (day_of t - days_before_year (year_of (day_of t))));
    [destruct (leap _); lia|]. lia.
Qed.
