(* ===== verification/GoRegexp.v ===== *)
(** * GoRegexp: the regular expressions of the package [regexp]

    A matcher for the constructs the program's patterns use: classes,
    sequence, alternation, greedy bounded repetition and the ASCII word
    boundary.  A match is tried at each position from the left and the
    alternatives are ordered by preference, greedy repetition first, which is
    the leftmost-first rule of the package.  All classes of the patterns are
    ASCII, so that matching bytes and matching runes agree. *)

From S2P Require Import Prelude GoStrings.
From Stdlib Require Import Ascii.

#[local] Open Scope Z_scope.

Inductive re :=
| Cls (p : Z -> bool)
| Seq (a b : re)
| Alt (a b : re)
| Rep (lo : nat) (hi : option nat) (a : re)
| Bound.

(** A position: the byte before it and the rest of the text. *)
Definition pos : Type := option ascii * string.

Definition is_word_byte (z : Z) : bool :=
  ((48 <=? z) && (z <=? 57)) || ((65 <=? z) && (z <=? 90)) || (z =? 95) || ((97 <=? z) && (z <=? 122)).

Definition at_boundary (p : pos) : bool :=
  let before := match p.1 with Some a => is_word_byte (byte_val a) | None => false end in
  let after := match p.2 with String a _ => is_word_byte (byte_val a) | "" => false end in
  xorb before after.

(** Greedy repetition of [step]: at least [lo], at most [hi] times. *)
Fixpoint rep_loop (step : pos -> list pos) (fuel lo : nat) (hi : option nat) (p : pos) : list pos :=
  match fuel with
  | O => if (lo =? 0)%nat then [p] else []
  | S fuel' =>
      match hi with
      | Some O => if (lo =? 0)%nat then [p] else []
      | _ =>
          flat_map (rep_loop step fuel' (pred lo) (pred <$> hi)) (step p)
          ++ (if (lo =? 0)%nat then [p] else [])
      end
  end.

(** The positions a match from [p] can end at, most preferred first. *)
Fixpoint matches (r : re) (p : pos) : list pos :=
  match r with
  | Cls f => match p.2 with
             | String a s => if f (byte_val a) then [(Some a, s)] else []
             | "" => []
             end
  | Seq a b => flat_map (matches b) (matches a p)
  | Alt a b => matches a p ++ matches b p
  | Rep lo hi a => rep_loop (matches a) (lo + S (String.length p.2)) lo hi p
  | Bound => if at_boundary p then [p] else []
  end.

(** [re.MatchString(s)]: some position has a match. *)
Fixpoint match_from (r : re) (prev : option ascii) (s : string) : bool :=
  match matches r (prev, s) with
  | _ :: _ => true
  | [] => match s with "" => false | String a s' => match_from r (Some a) s' end
  end.
Definition MatchString (r : re) (s : string) : bool := match_from r None s.

(** [re.ReplaceAllStringFunc(s, f)] for a pattern without empty matches:
    [skip] counts the bytes of the match being replaced. *)
Fixpoint replace_from (r : re) (f : string -> string) (prev : option ascii) (skip : nat) (s : string)
    : string :=
  match s with
  | "" => ""
  | String a s' =>
      match skip with
      | S k => replace_from r f (Some a) k s'
      | O =>
          match matches r (prev, s) with
          | (_, rest) :: _ =>
              let n := (String.length s - String.length rest)%nat in
              f (str_take n s) +:+ replace_from r f (Some a) (n - 1) s'
          | [] => String a (replace_from r f (Some a) 0 s')
          end
      end
  end.
Definition ReplaceAllStringFunc (r : re) (s : string) (f : string -> string) : string :=
  replace_from r f None 0 s.

(** ** Classes *)

Definition char_in (cs : string) (z : Z) : bool :=
  existsb (fun a => byte_val a =? z) (String.list_ascii_of_string cs).
Definition range (lo hi : Z) (z : Z) : bool := (lo <=? z) && (z <=? hi).
Definition digit : Z -> bool := range 48 57.
Definition alnum (z : Z) : bool := range 48 57 z || range 65 90 z || range 97 122 z.
(** [\s] *)
Definition re_space (z : Z) : bool := (z =? 9) || (z =? 10) || (z =? 12) || (z =? 13) || (z =? 32).
(** A literal string. *)
Fixpoint lit (s : string) : re :=
  match s with
  | "" => Rep 0 (Some 0%nat) Bound
  | String a "" => Cls (fun z => z =? byte_val a)
  | String a s' => Seq (Cls (fun z => z =? byte_val a)) (lit s')
  end.
Definition star (r : re) : re := Rep 0 None r.
Definition opt (r : re) : re := Rep 0 (Some 1%nat) r.

Example greedy_rep :
  ReplaceAllStringFunc (Rep 1 None (Cls digit)) "a12b3" (fun m => "<" +:+ m +:+ ">") = "a<12>b<3>".
Proof. reflexivity. Qed.
Example word_boundary : MatchString (Seq Bound (Seq (lit "10") Bound)) "x 10/" = true
  /\ MatchString (Seq Bound (Seq (lit "10") Bound)) "x10" = false.
Proof. split; reflexivity. Qed.
