(* ===== verification/Sha256.v ===== *)
(** * Sha256: [crypto/sha256] and [encoding/hex]

    The program derives message, record, event and idempotency identifiers
    from SHA-256 digests and stores credentials as digests.  The function is
    the one of FIPS 180-4 over 32-bit words kept in [Z]; the examples are the
    standard's test vectors.  Digests are not injective, so the facts about
    identifiers are stated up to a collision. *)

From S2P Require Import Prelude GoStrings.
From Stdlib Require Import Ascii.

#[local] Open Scope Z_scope.

(** ** Words *)

Definition w32 (x : Z) : Z := x mod 2^32.
Definition add32 (x y : Z) : Z := w32 (x + y).
Definition not32 (x : Z) : Z := 2^32 - 1 - x.
Definition rotr (n x : Z) : Z := Z.lor (Z.shiftr x n) (w32 (Z.shiftl x (32 - n))).

Definition Ch (x y z : Z) : Z := Z.lxor (Z.land x y) (Z.land (not32 x) z).
Definition Maj (x y z : Z) : Z := Z.lxor (Z.lxor (Z.land x y) (Z.land x z)) (Z.land y z).
Definition BSig0 (x : Z) : Z := Z.lxor (Z.lxor (rotr 2 x) (rotr 13 x)) (rotr 22 x).
Definition BSig1 (x : Z) : Z := Z.lxor (Z.lxor (rotr 6 x) (rotr 11 x)) (rotr 25 x).
Definition SSig0 (x : Z) : Z := Z.lxor (Z.lxor (rotr 7 x) (rotr 18 x)) (Z.shiftr x 3).
Definition SSig1 (x : Z) : Z := Z.lxor (Z.lxor (rotr 17 x) (rotr 19 x)) (Z.shiftr x 10).

(** The constants of FIPS 180-4: the first 32 bits of the fractional parts of the
    cube roots of the first 64 primes and of the square roots of the first eight,
    computed as integer roots of [p] scaled by [2^96] and [2^64]. *)
Fixpoint cbrt_bits (n : nat) (root target : Z) : Z :=
  match n with
  | O => root
  | S n' =>
      let r := Z.lor root (2 ^ Z.of_nat n') in
      cbrt_bits n' (if r * r * r <=? target then r else root) target
  end.
Definition is_prime (n : Z) : bool :=
  forallb (fun d => negb (n mod Z.of_nat d =? 0)) (List.seq 2 (Z.to_nat (Z.sqrt n) - 1)).
Definition primes64 : list Z :=
  Eval vm_compute in List.filter is_prime (Z.of_nat <$> List.seq 2 310).
Definition K256 : list Z :=
  Eval vm_compute in (fun p => cbrt_bits 36 0 (p * 2^96) mod 2^32) <$> primes64.
Definition H256 (i : nat) : Z := Z.sqrt (nth i primes64 0 * 2^64) mod 2^32.

Record sha_state := {
  sa : Z; sb : Z; sc : Z; sd : Z; se : Z; sf : Z; sg : Z; sh : Z }.

Definition sha_init : sha_state := Eval vm_compute in {|
  sa := H256 0; sb := H256 1; sc := H256 2; sd := H256 3;
  se := H256 4; sf := H256 5; sg := H256 6; sh := H256 7 |}.

Definition sha_round (s : sha_state) (kw : Z * Z) : sha_state :=
  let t1 := add32 (add32 (add32 (add32 (sh s) (BSig1 (se s))) (Ch (se s) (sf s) (sg s))) kw.1) kw.2 in
  let t2 := add32 (BSig0 (sa s)) (Maj (sa s) (sb s) (sc s)) in
  {| sa := add32 t1 t2; sb := sa s; sc := sb s; sd := sc s;
     se := add32 (sd s) t1; sf := se s; sg := sf s; sh := sg s |}.

(** The message schedule, most recent word first. *)
Fixpoint extend (n : nat) (rw : list Z) : list Z :=
  match n with
  | O => rw
  | S n' =>
      let w := add32 (add32 (add32 (SSig1 (nth 1 rw 0)) (nth 6 rw 0)) (SSig0 (nth 14 rw 0)))
                     (nth 15 rw 0) in
      extend n' (w :: rw)
  end.

Fixpoint words_of_bytes (l : list Z) : list Z :=
  match l with
  | b0 :: b1 :: b2 :: b3 :: l' => (b0 * 2^24 + b1 * 2^16 + b2 * 2^8 + b3) :: words_of_bytes l'
  | _ => []
  end.
Definition bytes_of_word (w : Z) : list Z :=
  [w / 2^24 mod 256; w / 2^16 mod 256; w / 2^8 mod 256; w mod 256].

Definition sha_block (s : sha_state) (block : list Z) : sha_state :=
  let ws := reverse (extend 48 (reverse (words_of_bytes block))) in
  let s' := foldl sha_round s (zip K256 ws) in
  {| sa := add32 (sa s) (sa s'); sb := add32 (sb s) (sb s'); sc := add32 (sc s) (sc s');
     sd := add32 (sd s) (sd s'); se := add32 (se s) (se s'); sf := add32 (sf s) (sf s');
     sg := add32 (sg s) (sg s'); sh := add32 (sh s) (sh s') |}.

Definition sha_pad (msg : list Z) : list Z :=
  let n := Z.of_nat (length msg) in
  let zeros := Z.to_nat ((55 - n) mod 64) in
  msg ++ [0x80] ++ replicate zeros 0 ++
    bytes_of_word (8 * n / 2^32) ++ bytes_of_word (8 * n mod 2^32).

Fixpoint sha_blocks (fuel : nat) (s : sha_state) (l : list Z) : sha_state :=
  match fuel with
  | O => s
  | S fuel' =>
      match l with
      | [] => s
      | _ => sha_blocks fuel' (sha_block s (take 64 l)) (drop 64 l)
      end
  end.

Definition str_bytes (s : string) : list Z := byte_val <$> String.list_ascii_of_string s.
Definition bytes_str (l : list Z) : string := String.string_of_list_ascii (byte_of <$> l).

(** [sha256.Sum256], as a 32-byte string. *)
Definition Sum256 (s : string) : string :=
  let padded := sha_pad (str_bytes s) in
  let st := sha_blocks (length padded) sha_init padded in
  bytes_str (bytes_of_word (sa st) ++ bytes_of_word (sb st) ++ bytes_of_word (sc st)
             ++ bytes_of_word (sd st) ++ bytes_of_word (se st) ++ bytes_of_word (sf st)
             ++ bytes_of_word (sg st) ++ bytes_of_word (sh st)).

(** ** [hex.EncodeToString] *)

Definition hex_digit (d : Z) : ascii := byte_of (if d <? 10 then 48 + d else 87 + d).
Fixpoint hex (s : string) : string :=
  match s with
  | "" => ""
  | String a s' =>
      String (hex_digit (byte_val a / 16)) (String (hex_digit (byte_val a mod 16)) (hex s'))
  end.

(** [hex.EncodeToString(sha256.Sum256([]byte(s))[:])] *)
Definition sha256_hex (s : string) : string := hex (Sum256 s).

Example sha256_empty :
  sha256_hex "" = "e3b0c44298fc1c149afbf4c8996fb92427ae41e4649b934ca495991b7852b855".
Proof. vm_compute. reflexivity. Qed.
Example sha256_abc :
  sha256_hex "abc" = "ba7816bf8f01cfea414140de5dae2223b00361a396177a9cb410ff61f20015ad".
Proof. vm_compute. reflexivity. Qed.
Example sha256_two_blocks :
  sha256_hex "abcdbcdecdefdefgefghfghighijhijkijkljklmklmnlmnomnopnopq"
  = "248d6a61d20638b8e5c026930c3e6039a33ce45964ff2167f6ecedd419db06c1".
Proof. vm_compute. reflexivity. Qed.

(** ** Facts *)

Lemma length_hex s : String.length (hex s) = (2 * String.length s)%nat.
Proof. induction s as [|a s IH]; simpl in *; lia. Qed.

Lemma length_bytes_str l : String.length (bytes_str l) = length l.
Proof. induction l as [|b l IH]; [done|]. simpl. by rewrite <- IH. Qed.

Lemma length_Sum256 s : String.length (Sum256 s) = 32%nat.
Proof. unfold Sum256. by rewrite length_bytes_str. Qed.

Lemma length_sha256_hex s : String.length (sha256_hex s) = 64%nat.
Proof. unfold sha256_hex. by rewrite length_hex, length_Sum256. Qed.

Lemma sha256_hex_ne s : sha256_hex s <> "".
Proof. intros E. pose proof (length_sha256_hex s) as H. by rewrite E in H. Qed.

Lemma byte_val_of z : 0 <= z < 256 -> byte_val (byte_of z) = z.
Proof. intros H. unfold byte_val, byte_of. rewrite N_ascii_embedding; lia. Qed.

Lemma byte_val_inj a b : byte_val a = byte_val b -> a = b.
Proof.
  unfold byte_val. intros H%N2Z.inj.
  by rewrite <- (ascii_N_embedding a), <- (ascii_N_embedding b), H.
Qed.

Lemma hex_digit_inj d d' : 0 <= d < 16 -> 0 <= d' < 16 -> hex_digit d = hex_digit d' -> d = d'.
Proof.
  unfold hex_digit. intros ?? H%(f_equal byte_val).
  destruct (d <? 10) eqn:?, (d' <? 10) eqn:?; rewrite !byte_val_of in H; lia.
Qed.

(** Hexadecimal loses nothing. *)
Lemma hex_inj s t : hex s = hex t -> s = t.
Proof.
  revert t; induction s as [|a s IH]; intros [|b t]; simpl; try done.
  intros H. injection H as H1 H2 H3. apply IH in H3 as ->. f_equal.
  pose proof (byte_val_range a). pose proof (byte_val_range b).
  pose proof (Z.div_mod (byte_val a) 16). pose proof (Z.div_mod (byte_val b) 16).
  pose proof (Z.mod_pos_bound (byte_val a) 16). pose proof (Z.mod_pos_bound (byte_val b) 16).
  apply hex_digit_inj in H1; [|lia..]. apply hex_digit_inj in H2; [|lia..].
  apply byte_val_inj. lia.
Qed.

(** Two different inputs with one digest. *)
Definition sha256_collision (x y : string) : Prop := x <> y /\ Sum256 x = Sum256 y.

Lemma sha256_hex_eq x y : sha256_hex x = sha256_hex y -> x = y \/ sha256_collision x y.
Proof.
  intros H%hex_inj. destruct (decide (x = y)); [by left|]. by right.
Qed.
