(* ===== verification/GoBase64.v ===== *)
(** * GoBase64: [base64.RawURLEncoding] and HMAC-SHA256

    The codecs of the bearer tokens: the URL alphabet without padding, as the
    package [encoding/base64] encodes and decodes it, and [crypto/hmac] over
    SHA-256.  The facts: decoding undoes encoding, and an encoding contains
    only characters of the alphabet. *)

From S2P Require Import Prelude GoStrings Sha256.
From Stdlib Require Import Ascii.

#[local] Open Scope Z_scope.

(** ** base64 *)

Definition b64_char (d : Z) : ascii :=
  byte_of (if d <? 26 then 65 + d else if d <? 52 then 71 + d
           else if d <? 62 then d - 4 else if d =? 62 then 45 else 95).
Definition b64_digit (a : ascii) : option Z :=
  let c := byte_val a in
  if (65 <=? c) && (c <=? 90) then Some (c - 65)
  else if (97 <=? c) && (c <=? 122) then Some (c - 71)
  else if (48 <=? c) && (c <=? 57) then Some (c + 4)
  else if c =? 45 then Some 62 else if c =? 95 then Some 63 else None.

(** Bytes to sextets and back; a trailing group of one or two bytes has two or
    three sextets, the spare bits zero. *)
Fixpoint sextets (l : list Z) : list Z :=
  match l with
  | b0 :: b1 :: b2 :: l' =>
      b0 / 4 :: b0 mod 4 * 16 + b1 / 16 :: b1 mod 16 * 4 + b2 / 64 :: b2 mod 64 :: sextets l'
  | [b0; b1] => [b0 / 4; b0 mod 4 * 16 + b1 / 16; b1 mod 16 * 4]
  | [b0] => [b0 / 4; b0 mod 4 * 16]
  | [] => []
  end.
(** The spare bits are not checked ([Strict] is off); one sextet alone is an
    error. *)
Fixpoint octets (l : list Z) : option (list Z) :=
  match l with
  | d0 :: d1 :: d2 :: d3 :: l' =>
      r ← octets l';
      Some (d0 * 4 + d1 / 16 :: d1 mod 16 * 16 + d2 / 4 :: d2 mod 4 * 64 + d3 :: r)
  | [d0; d1; d2] => Some [d0 * 4 + d1 / 16; d1 mod 16 * 16 + d2 / 4]
  | [d0; d1] => Some [d0 * 4 + d1 / 16]
  | [_] => None
  | [] => Some []
  end.

(** The digits of a text; carriage returns and line feeds are skipped. *)
Fixpoint b64_digits (s : string) : option (list Z) :=
  match s with
  | "" => Some []
  | String a s' =>
      if (byte_val a =? 10) || (byte_val a =? 13) then b64_digits s'
      else d ← b64_digit a; r ← b64_digits s'; Some (d :: r)
  end.

Definition b64_EncodeToString (s : string) : string :=
  String.string_of_list_ascii (b64_char <$> sextets (str_bytes s)).
Definition b64_DecodeString (s : string) : option string :=
  ds ← b64_digits s; bs ← octets ds; Some (bytes_str bs).

Example b64_vector : b64_EncodeToString "fo~?ob" = "Zm9-P29i".
Proof. reflexivity. Qed.
Example b64_short : b64_DecodeString "Zm8" = Some "fo".
Proof. reflexivity. Qed.
(** Spare bits and line breaks are ignored, so a text is not determined by its
    decoding. *)
Example b64_malleable : b64_DecodeString "Zm9" = b64_DecodeString "Zm8".
Proof. reflexivity. Qed.

(** ** HMAC *)

(** [hmac.New(sha256.New, key)]: a key longer than a block is hashed first. *)
Definition hmac_key (key : string) : list Z :=
  let k := str_bytes (if 64 <? len key then Sum256 key else key) in
  k ++ replicate (64 - length k) 0.
Definition hmacSHA256 (secret data : string) : string :=
  let pad b := bytes_str (Z.lxor b <$> hmac_key secret) in
  Sum256 (pad 0x5c +:+ Sum256 (pad 0x36 +:+ data)).

(** RFC 4231, test cases 2 and 6. *)
Example hmac_vector :
  hex (hmacSHA256 "Jefe" "what do ya want for nothing?")
  = "5bdcc146bf60754e6a042426089575c75a003f089d2739839dec58b964ec3843".
Proof. vm_compute. reflexivity. Qed.
Example hmac_long_key :
  hex (hmacSHA256 (String.string_of_list_ascii (replicate 131 (byte_of 0xaa)))
        "Test Using Larger Than Block-Size Key - Hash Key First")
  = "60e431591ee0b67f0d8a26aacbf5b77f8e0bc6213728c5140546040f0ee37f54".
Proof. vm_compute. reflexivity. Qed.

(** * Facts *)

Lemma str_bytes_str s : bytes_str (str_bytes s) = s.
Proof.
  unfold bytes_str, str_bytes. rewrite <- list_fmap_compose.
  rewrite <- (String.string_of_list_ascii_of_string s) at 2. f_equal.
  rewrite <- (list_fmap_id (String.list_ascii_of_string s)) at 2. apply list_fmap_ext.
  intros i a _. simpl. unfold byte_of, byte_val. by rewrite N2Z.id, ascii_N_embedding.
Qed.

Lemma str_bytes_range s : Forall (fun b => 0 <= b < 256) (str_bytes s).
Proof. unfold str_bytes. apply Forall_fmap, Forall_true. intros a. apply byte_val_range. Qed.

(** Induction over groups of three bytes. *)
Lemma list_ind3 {A} (P : list A -> Prop) :
  P [] -> (forall a, P [a]) -> (forall a b, P [a; b]) ->
  (forall a b c l, P l -> P (a :: b :: c :: l)) -> forall l, P l.
Proof.
  intros H0 H1 H2 H3. fix IH 1. intros [|a [|b [|c l]]]; [exact H0|apply H1|apply H2|apply H3, IH].
Qed.

Lemma sextets_range l : Forall (fun b => 0 <= b < 256) l -> Forall (fun d => 0 <= d < 64) (sextets l).
Proof.
  induction l as [| | |b0 b1 b2 l IH] using list_ind3; cbn [sextets]; rewrite ?Forall_cons;
    intros H; destruct_and?; split_and?; try (by apply IH); try done;
    Z.to_euclidean_division_equations; lia.
Qed.

Lemma octets_sextets l : Forall (fun b => 0 <= b < 256) l -> octets (sextets l) = Some l.
Proof.
  induction l as [| | |b0 b1 b2 l IH] using list_ind3; cbn [sextets octets]; rewrite ?Forall_cons;
    intros H; [done| | |rewrite IH by naive_solver; simpl];
    repeat f_equal; destruct_and?; Z.to_euclidean_division_equations; lia.
Qed.

Lemma b64_digit_char d : 0 <= d < 64 ->
  b64_digit (b64_char d) = Some d /\ 45 <= byte_val (b64_char d) <= 122 /\ byte_val (b64_char d) <> 46.
Proof.
  intros Hd. unfold b64_digit, b64_char.
  rewrite byte_val_of by (repeat case_match; lia).
  destruct (d <? 26) eqn:?, (d <? 52) eqn:?, (d <? 62) eqn:?, (d =? 62) eqn:?; try lia;
    repeat (case_match; bool_to_prop; try lia); (split; [f_equal; lia|lia]).
Qed.

Lemma b64_digits_chars ds : Forall (fun d => 0 <= d < 64) ds ->
  b64_digits (String.string_of_list_ascii (b64_char <$> ds)) = Some ds.
Proof.
  induction 1 as [|d ds Hd _ IH]; [done|].
  rewrite fmap_cons. cbn [String.string_of_list_ascii b64_digits].
  destruct (b64_digit_char d Hd) as (-> & Hr & _). rewrite IH.
  destruct (Z.eqb_spec (byte_val (b64_char d)) 10); [lia|].
  destruct (Z.eqb_spec (byte_val (b64_char d)) 13); [lia|]. done.
Qed.

(** Decoding undoes encoding. *)
Lemma b64_roundtrip s : b64_DecodeString (b64_EncodeToString s) = Some s.
Proof.
  unfold b64_DecodeString, b64_EncodeToString.
  rewrite b64_digits_chars by apply sextets_range, str_bytes_range. simpl.
  rewrite octets_sextets by apply str_bytes_range. simpl. by rewrite str_bytes_str.
Qed.

(** No separator of the token format occurs in an encoding. *)
Lemma b64_no_dot s : count_byte "." (b64_EncodeToString s) = 0.
Proof.
  unfold b64_EncodeToString. pose proof (sextets_range _ (str_bytes_range s)) as H.
  induction H as [|d ds Hd _ IH]; [done|].
  rewrite fmap_cons. cbn [String.string_of_list_ascii count_byte].
  destruct (b64_digit_char d Hd) as (_ & _ & Hne). rewrite IH.
  destruct (Ascii.eqb_spec (b64_char d) "."); [|done]. destruct Hne. by rewrite e.
Qed.
