(* ===== verification/GoJSON.v ===== *)
(** * GoJSON: [encoding/json]

    The codec of the bearer tokens, of the queue messages and of the stored
    attributes: JSON values, the compact encoder of [json.Marshal] (strings with
    HTML escapes, invalid UTF-8 replaced) and the decoder of [json.Unmarshal]
    (the grammar of the scanner, the unquoting of strings with surrogate pairs,
    the nesting limit).  Errors carry no text: the program only reports them.
    The facts: the parser never runs out of fuel, and parsing undoes encoding up
    to the replacement of invalid UTF-8. *)

From stdpp Require Import pretty.
From Stdlib Require Import Ascii.
From S2P Require Import Prelude GoStrings Sha256.

#[local] Open Scope Z_scope.

(** A number is kept as its literal. *)
Inductive json : Type :=
  | JNull
  | JBool (b : bool)
  | JNum (lit : string)
  | JStr (s : string)
  | JArr (l : list json)
  | JObj (fields : list (string * json)).

Definition dq : string := String (byte_of 34) "".
(** An integer. *)
Definition int_json (z : Z) : json := JNum (Itoa z).

(** ** Encoding *)

(** One rune of a string: invalid bytes, quotes, control characters, the HTML
    characters and the two line separators are escaped. *)
Definition json_escape (g : glyph) : string :=
  let '(r, bs) := g in
  if (r =? RuneError) && (String.length bs =? 1)%nat then "\u" +:+ hex_fixed 4 RuneError
  else if r =? 34 then "\" +:+ dq else if r =? 92 then "\\"
  else if r =? 8 then "\b" else if r =? 12 then "\f" else if r =? 10 then "\n"
  else if r =? 13 then "\r" else if r =? 9 then "\t"
  else if (r <? 32) || (r =? 60) || (r =? 62) || (r =? 38) || (r =? 0x2028) || (r =? 0x2029)
  then "\u" +:+ hex_fixed 4 r
  else bs.
Definition json_body (gs : list glyph) : string := foldr (fun g acc => json_escape g +:+ acc) "" gs.
Definition json_quote (s : string) : string := dq +:+ json_body (glyphs s) +:+ dq.

Fixpoint json_encode (v : json) : string :=
  match v with
  | JNull => "null"
  | JBool true => "true"
  | JBool false => "false"
  | JNum lit => lit
  | JStr s => json_quote s
  | JArr l => "[" +:+ Join (map json_encode l) "," +:+ "]"
  | JObj fs => "{" +:+ Join (map (fun kv => json_quote kv.1 +:+ ":" +:+ json_encode kv.2) fs) "," +:+ "}"
  end.

(** ** Decoding *)

Definition json_space (a : ascii) : bool :=
  let c := byte_val a in (c =? 32) || (c =? 9) || (c =? 10) || (c =? 13).
Fixpoint skip_ws (s : string) : string :=
  match s with
  | String a s' => if json_space a then skip_ws s' else s
  | "" => ""
  end.

Definition is_digit (a : ascii) : bool := let c := byte_val a in (48 <=? c) && (c <=? 57).
Definition hex_val (a : ascii) : option Z :=
  let c := byte_val a in
  if (48 <=? c) && (c <=? 57) then Some (c - 48)
  else if (97 <=? c) && (c <=? 102) then Some (c - 87)
  else if (65 <=? c) && (c <=? 70) then Some (c - 55) else None.
(** Four hexadecimal digits, and what follows. *)
Definition hex4 (s : string) : option (Z * string) :=
  match s with
  | String a (String b (String c (String d s'))) =>
      x ← hex_val a; y ← hex_val b; z ← hex_val c; t ← hex_val d;
      Some (x * 4096 + y * 256 + z * 16 + t, s')
  | _ => None
  end.
(** [getu4]: an escape [\uXXXX]. *)
Definition getu4 (s : string) : option (Z * string) :=
  match s with
  | String a (String b s') => if (byte_val a =? 92) && (byte_val b =? 117) then hex4 s' else None
  | _ => None
  end.
Definition is_surrogate (r : Z) : bool := (0xD800 <=? r) && (r <=? 0xDFFF).

(** The escape after a backslash: its replacement and what follows. *)
Definition unescape (s : string) : option (string * string) :=
  match s with
  | "" => None
  | String a s' =>
      let c := byte_val a in
      if (c =? 34) || (c =? 92) || (c =? 47) then Some (String a "", s')
      else if c =? 98 then Some (String (byte_of 8) "", s')
      else if c =? 102 then Some (String (byte_of 12) "", s')
      else if c =? 110 then Some (String (byte_of 10) "", s')
      else if c =? 114 then Some (String (byte_of 13) "", s')
      else if c =? 116 then Some (String (byte_of 9) "", s')
      else if c =? 117 then
        '(r, s1) ← hex4 s';
        if is_surrogate r then
          match getu4 s1 with
          | Some (r2, s2) =>
              if (r <? 0xDC00) && ((0xDC00 <=? r2) && (r2 <=? 0xDFFF))
              then Some (encode_rune ((r - 0xD800) * 1024 + (r2 - 0xDC00) + 0x10000), s2)
              else Some (encode_rune RuneError, s1)
          | None => Some (encode_rune RuneError, s1)
          end
        else Some (encode_rune r, s1)
      else None
  end.

(** The contents of a string literal up to its closing quote, and what follows. *)
Fixpoint str_body (n : nat) (s : string) : option (string * string) :=
  match n with
  | O => None
  | S n' =>
  match s with
  | "" => None
  | String a s' =>
      let c := byte_val a in
      if c =? 34 then Some ("", s')
      else if c =? 92 then
        '(out, s1) ← unescape s'; '(t, r) ← str_body n' s1; Some (out +:+ t, r)
      else if c <? 32 then None
      else
        let '(r, w) := decode_rune s in
        '(t, rest) ← str_body n' (str_drop w s); Some (encode_rune r +:+ t, rest)
  end
  end.
Definition parse_string (s : string) : option (string * string) := str_body (S (String.length s)) s.

(** The longest run of digits, and what follows. *)
Fixpoint take_digits (s : string) : string * string :=
  match s with
  | String a s' => if is_digit a then let '(d, r) := take_digits s' in (String a d, r) else ("", s)
  | "" => ("", "")
  end.
Definition int_part (s : string) : option (string * string) :=
  match s with
  | String a s' =>
      if byte_val a =? 48 then Some ("0", s') else if is_digit a then Some (take_digits s) else None
  | "" => None
  end.
Definition frac_part (s : string) : option (string * string) :=
  match s with
  | String a s' =>
      if byte_val a =? 46
      then let '(d, r) := take_digits s' in if String.eqb d "" then None else Some (String a d, r)
      else Some ("", s)
  | "" => Some ("", "")
  end.
Definition exp_part (s : string) : option (string * string) :=
  match s with
  | String a s' =>
      if (byte_val a =? 101) || (byte_val a =? 69) then
        let '(sign, s1) := match s' with
                           | String b s2 => if (byte_val b =? 43) || (byte_val b =? 45)
                                            then (String b "", s2) else ("", s')
                           | "" => ("", s')
                           end in
        let '(d, r) := take_digits s1 in
        if String.eqb d "" then None else Some (String a (sign +:+ d), r)
      else Some ("", s)
  | "" => Some ("", "")
  end.
Definition parse_number (s : string) : option (string * string) :=
  let '(sign, s1) := match s with
                     | String a s' => if byte_val a =? 45 then ("-", s') else ("", s)
                     | "" => ("", s)
                     end in
  '(i, s2) ← int_part s1; '(f, s3) ← frac_part s2; '(e, s4) ← exp_part s3;
  Some (sign +:+ i +:+ f +:+ e, s4).

(** The literals [true], [false], [null]. *)
Definition expect (lit : string) (v : json) (s : string) : option (json * string) :=
  if HasPrefix s lit then Some (v, str_drop (String.length lit) s) else None.

(** A value, the elements of an array and the members of an object, each with
    what follows; the elements and members end with their closing bracket. *)
Fixpoint parse_value (n : nat) (s : string) : option (json * string) :=
  match n with
  | O => None
  | S n' =>
  match skip_ws s with
  | "" => None
  | String a s' =>
      let c := byte_val a in
      if c =? 34 then '(t, r) ← parse_string s'; Some (JStr t, r)
      else if c =? 91 then
        match skip_ws s' with
        | String b r => if byte_val b =? 93 then Some (JArr [], r)
                        else '(l, r) ← parse_elems n' s'; Some (JArr l, r)
        | "" => None
        end
      else if c =? 123 then
        match skip_ws s' with
        | String b r => if byte_val b =? 125 then Some (JObj [], r)
                        else '(l, r) ← parse_members n' s'; Some (JObj l, r)
        | "" => None
        end
      else if c =? 116 then expect "true" (JBool true) (String a s')
      else if c =? 102 then expect "false" (JBool false) (String a s')
      else if c =? 110 then expect "null" JNull (String a s')
      else '(lit, r) ← parse_number (String a s'); Some (JNum lit, r)
  end
  end
with parse_elems (n : nat) (s : string) : option (list json * string) :=
  match n with
  | O => None
  | S n' =>
  '(v, r) ← parse_value n' s;
  match skip_ws r with
  | String a r' =>
      if byte_val a =? 44 then '(vs, r2) ← parse_elems n' r'; Some (v :: vs, r2)
      else if byte_val a =? 93 then Some ([v], r') else None
  | "" => None
  end
  end
with parse_members (n : nat) (s : string) : option (list (string * json) * string) :=
  match n with
  | O => None
  | S n' =>
  match skip_ws s with
  | String a s' =>
      if byte_val a =? 34 then
        '(k, r) ← parse_string s';
        match skip_ws r with
        | String b r1 =>
            if byte_val b =? 58 then
              '(v, r2) ← parse_value n' r1;
              match skip_ws r2 with
              | String d r3 =>
                  if byte_val d =? 44 then '(kvs, r4) ← parse_members n' r3; Some ((k, v) :: kvs, r4)
                  else if byte_val d =? 125 then Some ([(k, v)], r3) else None
              | "" => None
              end
            else None
        | "" => None
        end
      else None
  | "" => None
  end
  end.

Fixpoint json_depth (v : json) : Z :=
  match v with
  | JArr l => 1 + foldr (fun x acc => Z.max (json_depth x) acc) 0 l
  | JObj fs => 1 + foldr (fun kv acc => Z.max (json_depth kv.2) acc) 0 fs
  | _ => 0
  end.

(** [json.Unmarshal] into a generic value: one value, white space around it, at
    most 10000 levels of nesting. *)
Definition json_parse (s : string) : option json :=
  '(v, r) ← parse_value (2 * String.length s + 1) s;
  if String.eqb (skip_ws r) "" && (json_depth v <=? 10000) then Some v else None.

(** [strconv.ParseInt(lit, 10, 64)] on a literal of the grammar. *)
Fixpoint digits_val (acc : Z) (s : string) : option Z :=
  match s with
  | "" => Some acc
  | String a s' => if is_digit a then digits_val (acc * 10 + (byte_val a - 48)) s' else None
  end.
Definition ParseInt64 (lit : string) : option Z :=
  z ← match lit with
      | String a s' =>
          if byte_val a =? 45 then if String.eqb s' "" then None else Z.opp <$> digits_val 0 s'
          else digits_val 0 lit
      | "" => None
      end;
  if (- 2^63 <=? z) && (z <? 2^63) then Some z else None.

(** [strconv.Atoi] *)
Definition Atoi (s : string) : option Z :=
  match s with
  | String a s' => if byte_val a =? 43 then if HasPrefix s' "-" then None else ParseInt64 s' else ParseInt64 s
  | "" => None
  end.

(** ** Structs *)

(** The fields of a struct: the name, and how a value sets it. *)
Definition field (T : Type) : Type := string * (T -> json -> option T).
Definition str_field {T} (name : string) (set : T -> string -> T) : field T :=
  (name, fun t v => match v with JStr s => Some (set t s) | JNull => Some t | _ => None end).
Definition int_field {T} (name : string) (set : T -> Z -> T) : field T :=
  (name, fun t v => match v with JNum lit => set t <$> ParseInt64 lit | JNull => Some t | _ => None end).

(** A key selects the field of that name, or else the first whose name is equal
    up to case; an unknown key is skipped, or an error when the decoder is
    strict ([DisallowUnknownFields]). *)
Definition find_field {T} (fields : list (field T)) (k : string) : option (field T) :=
  match List.find (fun f => String.eqb f.1 k) fields with
  | Some f => Some f
  | None => List.find (fun f => EqualFold_ascii k f.1) fields
  end.
Fixpoint set_fields {T} (strict : bool) (fields : list (field T)) (t : T) (fs : list (string * json)) : option T :=
  match fs with
  | [] => Some t
  | (k, v) :: fs' =>
      match find_field fields k with
      | Some f => t' ← f.2 t v; set_fields strict fields t' fs'
      | None => if strict then None else set_fields strict fields t fs'
      end
  end.
(** [null] leaves the struct as it is. *)
Definition unmarshal {T} (strict : bool) (fields : list (field T)) (old : T) (v : json) : option T :=
  match v with
  | JNull => Some old
  | JObj fs => set_fields strict fields old fs
  | _ => None
  end.

Example json_sample :
  let q := dq in
  json_parse (" { " +:+ q +:+ "a" +:+ q +:+ " : [1, -2.5e3 ,true], " +:+ q +:+ "\u0062\ud83d\ude00\ud83d" +:+ q +:+ ":null} ")
  = Some (JObj [("a", JArr [JNum "1"; JNum "-2.5e3"; JBool true]);
                ("b" +:+ encode_rune 0x1F600 +:+ encode_rune RuneError, JNull)]).
Proof. vm_compute. reflexivity. Qed.
Example json_reject : json_parse "[1,]" = None /\ json_parse "01" = None /\ json_parse "1 2" = None.
Proof. vm_compute. auto. Qed.
Example json_encode_sample :
  json_encode (JObj [("k", JStr ("<" +:+ String (byte_of 10) "")); ("n", JNum "-7")])
  = "{" +:+ dq +:+ "k" +:+ dq +:+ ":" +:+ dq +:+ "\u003c\n" +:+ dq +:+ "," +:+ dq +:+ "n" +:+ dq +:+ ":-7}".
Proof. vm_compute. reflexivity. Qed.

(** * Facts *)

Tactic Notation "chars" := cbn [String.length str_drop] in *; rewrite ?length_str_app, ?length_str_drop in *.

(** ** Consumption: what a parser returns as the rest is shorter *)

Lemma skip_ws_length s : (String.length (skip_ws s) <= String.length s)%nat.
Proof. induction s as [|a s IH]; simpl; [done|]. case_match; simpl; lia. Qed.

Lemma hex4_length s z r : hex4 s = Some (z, r) -> (String.length r < String.length s)%nat.
Proof.
  unfold hex4. intros H. destruct s as [|? [|? [|? [|? s]]]]; try done.
  repeat (apply bind_Some in H as (? & _ & H)). injection H as _ <-. simpl. lia.
Qed.
Lemma getu4_length s z r : getu4 s = Some (z, r) -> (String.length r < String.length s)%nat.
Proof.
  unfold getu4. intros H. destruct s as [|? [|? s]]; try done.
  case_match; [|done]. apply hex4_length in H. simpl. lia.
Qed.
Lemma unescape_length s t r : unescape s = Some (t, r) -> (String.length r < String.length s)%nat.
Proof.
  destruct s as [|a s]; [done|]. cbn [unescape]. cbn zeta. intros H.
  repeat (case_match; [injection H as _ <-; simpl; lia|]).
  case_match; [|done]. apply bind_Some in H as ([z s1] & K1 & H). apply hex4_length in K1.
  case_match; [|injection H as _ <-; simpl; lia].
  destruct (getu4 s1) as [[r2 s2]|] eqn:E; [|injection H as _ <-; simpl; lia].
  apply getu4_length in E. case_match; injection H as _ <-; simpl; lia.
Qed.
Lemma str_body_length n : forall s t r, str_body n s = Some (t, r) -> (String.length r < String.length s)%nat.
Proof.
  induction n as [|n IH]; intros [|a s] t r H; try done. cbn [str_body] in H. cbn zeta in H.
  case_match; [injection H as _ <-; simpl; lia|]. case_match.
  - apply bind_Some in H as ([out s1] & K1 & H). apply bind_Some in H as ([t' r'] & K2 & H).
    injection H as _ <-. apply unescape_length in K1. apply IH in K2. simpl. lia.
  - case_match; [done|]. pose proof (decode_rune_width (String a s)) as Hw.
    destruct (decode_rune (String a s)) as [z w]. apply bind_Some in H as ([t' r'] & K2 & H).
    injection H as _ <-. apply IH in K2. rewrite length_str_drop in K2. simpl in *. lia.
Qed.
Lemma parse_string_length s t r : parse_string s = Some (t, r) -> (String.length r < String.length s)%nat.
Proof. apply str_body_length. Qed.

Lemma take_digits_app s : let '(d, r) := take_digits s in s = d +:+ r.
Proof.
  induction s as [|a s IH]; [done|]. cbn [take_digits]. destruct (is_digit a); [|done].
  destruct (take_digits s) as [d r]. by rewrite IH, app_cons.
Qed.
Lemma int_part_app s i r : int_part s = Some (i, r) -> s = i +:+ r /\ i <> "".
Proof.
  unfold int_part. destruct s as [|a s]; [done|]. destruct (Z.eqb_spec (byte_val a) 48) as [Hz|Hz].
  - intros [= <- <-]. split; [|done]. by rewrite (byte_val_inj a "0" Hz).
  - destruct (is_digit a) eqn:Hd; [|done]. intros E. apply (inj Some) in E. pose proof (take_digits_app (String a s)) as H1.
    rewrite E in H1. split; [done|]. intros ->. cbn [take_digits] in E. rewrite Hd in E.
    by destruct (take_digits s).
Qed.
Lemma frac_part_app s f r : frac_part s = Some (f, r) -> s = f +:+ r.
Proof.
  unfold frac_part. destruct s as [|a s]; [by intros [= <- <-]|]. case_match; [|by intros [= <- <-]].
  pose proof (take_digits_app s). destruct (take_digits s) as [d r']. case_match; [done|].
  intros [= <- <-]. by rewrite app_cons, <- H0.
Qed.
Lemma exp_part_app s f r : exp_part s = Some (f, r) -> s = f +:+ r.
Proof.
  unfold exp_part. destruct s as [|a s]; [by intros [= <- <-]|].
  destruct ((byte_val a =? 101) || (byte_val a =? 69)); [|by intros [= <- <-]].
  destruct (match s with "" => _ | String b s2 => _ end) as [sign s1] eqn:E.
  assert (Hs : s = sign +:+ s1) by (destruct s as [|b s]; [|case_match]; by injection E as <- <-).
  pose proof (take_digits_app s1) as Hd. destruct (take_digits s1) as [d r'].
  destruct (String.eqb d ""); [done|]. intros [= <- <-]. by rewrite app_cons, str_app_assoc, <- Hd, <- Hs.
Qed.
(** A number is a prefix of the input, and not empty. *)
Lemma parse_number_app s lit r : parse_number s = Some (lit, r) -> s = lit +:+ r /\ lit <> "".
Proof.
  unfold parse_number. intros H.
  destruct (match s with "" => _ | String a s' => _ end) as [sign s1] eqn:E.
  assert (Hs : s = sign +:+ s1).
  { destruct s as [|a s]; [by injection E as <- <-|].
    destruct (Z.eqb_spec (byte_val a) 45) as [Hz|Hz]; injection E as <- <-; [|done].
    by rewrite (byte_val_inj a "-" Hz). }
  apply bind_Some in H as ([i s2] & (Hi & Hne)%int_part_app & H).
  apply bind_Some in H as ([f s3] & Hf%frac_part_app & H).
  apply bind_Some in H as ([e s4] & He%exp_part_app & H). injection H as <- <-.
  rewrite !str_app_assoc, <- He, <- Hf, <- Hi. split; [done|].
  intros Hn. apply str_app_eq_nil in Hn as [_ Hn]. by apply str_app_eq_nil in Hn as [-> _].
Qed.

Lemma expect_length lit v s v' r :
  lit <> "" -> expect lit v s = Some (v', r) -> (String.length r < String.length s)%nat.
Proof.
  unfold expect, HasPrefix. intros Hl H. destruct (String.prefix lit s) eqn:E; [|done].
  injection H as _ <-. rewrite length_str_drop. destruct lit; [done|]. destruct s; [done|]. simpl. lia.
Qed.

Lemma parse_number_length s lit r : parse_number s = Some (lit, r) -> (String.length r < String.length s)%nat.
Proof.
  intros (-> & Hne)%parse_number_app. rewrite length_str_app. destruct lit; [done|]. simpl. lia.
Qed.

(** The rest after skipping white space is a suffix, so its tail is shorter. *)
Lemma skip_ws_cons s a s' : skip_ws s = String a s' -> (String.length s' < String.length s)%nat.
Proof. intros E. pose proof (skip_ws_length s) as H. rewrite E in H. simpl in H. lia. Qed.

Lemma parse_length n :
  (forall s v r, parse_value n s = Some (v, r) -> (String.length r < String.length s)%nat)
  /\ (forall s l r, parse_elems n s = Some (l, r) -> (String.length r < String.length s)%nat)
  /\ (forall s l r, parse_members n s = Some (l, r) -> (String.length r < String.length s)%nat).
Proof.
  induction n as [|n (IHv & IHe & IHm)]; [done|]. split_and!; intros s x r H.
  - cbn [parse_value] in H. cbn zeta in H. pose proof (skip_ws_length s) as Hs.
    destruct (skip_ws s) as [|a s'] eqn:E; [done|]. apply skip_ws_cons in E.
    destruct (byte_val a =? 34). { apply bind_Some in H as ([t r'] & K%parse_string_length & H).
      injection H as _ <-. lia. }
    destruct (byte_val a =? 91). { destruct (skip_ws s') as [|b q] eqn:E2; [done|].
      apply skip_ws_cons in E2. destruct (byte_val b =? 93); [injection H as _ <-; lia|].
      apply bind_Some in H as ([t r'] & K%IHe & H). injection H as _ <-. lia. }
    destruct (byte_val a =? 123). { destruct (skip_ws s') as [|b q] eqn:E2; [done|].
      apply skip_ws_cons in E2. destruct (byte_val b =? 125); [injection H as _ <-; lia|].
      apply bind_Some in H as ([t r'] & K%IHm & H). injection H as _ <-. lia. }
    destruct (byte_val a =? 116); [apply expect_length in H; [lia|done]|].
    destruct (byte_val a =? 102); [apply expect_length in H; [lia|done]|].
    destruct (byte_val a =? 110); [apply expect_length in H; [lia|done]|].
    apply bind_Some in H as ([t r'] & K%parse_number_length & H). injection H as _ <-. lia.
  - cbn [parse_elems] in H. apply bind_Some in H as ([v q] & K%IHv & H).
    destruct (skip_ws q) as [|a r'] eqn:E; [done|]. apply skip_ws_cons in E.
    destruct (byte_val a =? 44); [|destruct (byte_val a =? 93); [injection H as _ <-; lia|done]].
    apply bind_Some in H as ([t q'] & K2%IHe & H). injection H as _ <-. lia.
  - cbn [parse_members] in H. destruct (skip_ws s) as [|a s'] eqn:E; [done|]. apply skip_ws_cons in E.
    destruct (byte_val a =? 34); [|done]. apply bind_Some in H as ([k q] & K%parse_string_length & H).
    destruct (skip_ws q) as [|b q1] eqn:E2; [done|]. apply skip_ws_cons in E2.
    destruct (byte_val b =? 58); [|done]. apply bind_Some in H as ([v q2] & K2%IHv & H).
    destruct (skip_ws q2) as [|d q3] eqn:E3; [done|]. apply skip_ws_cons in E3.
    destruct (byte_val d =? 44); [|destruct (byte_val d =? 125); [injection H as _ <-; lia|done]].
    apply bind_Some in H as ([t q'] & K4%IHm & H). injection H as _ <-. lia.
Qed.
Lemma parse_value_length n s v r : parse_value n s = Some (v, r) -> (String.length r < String.length s)%nat.
Proof. apply parse_length. Qed.

(** ** Fuel: twice the length of the input is enough, more changes nothing *)

Lemma parse_fuel n : forall m,
  (forall s, (2 * String.length s + 1 <= n)%nat -> (2 * String.length s + 1 <= m)%nat ->
     parse_value n s = parse_value m s)
  /\ (forall s, (2 * String.length s + 2 <= n)%nat -> (2 * String.length s + 2 <= m)%nat ->
     parse_elems n s = parse_elems m s)
  /\ (forall s, (2 * String.length s + 2 <= n)%nat -> (2 * String.length s + 2 <= m)%nat ->
     parse_members n s = parse_members m s).
Proof.
  induction n as [|n IH]; [intros m; split_and!; intros; lia|].
  intros [|m]; [split_and!; intros; lia|]. destruct (IH m) as (IHv & IHe & IHm).
  split_and!; intros s Hn Hm.
  - cbn [parse_value]. cbn zeta. destruct (skip_ws s) as [|a s'] eqn:E; [done|]. apply skip_ws_cons in E.
    by rewrite IHe, IHm by lia.
  - cbn [parse_elems]. rewrite IHv by lia. destruct (parse_value m s) as [[v r]|] eqn:E; [|done].
    apply parse_value_length in E. simpl. destruct (skip_ws r) as [|a r'] eqn:E2; [done|].
    apply skip_ws_cons in E2. by rewrite IHe by lia.
  - cbn [parse_members]. destruct (skip_ws s) as [|a s'] eqn:E; [done|]. apply skip_ws_cons in E.
    destruct (byte_val a =? 34); [|done].
    destruct (parse_string s') as [[k r]|] eqn:E1; [|done]. apply parse_string_length in E1. simpl.
    destruct (skip_ws r) as [|b r1] eqn:E2; [done|]. apply skip_ws_cons in E2.
    destruct (byte_val b =? 58); [|done]. rewrite IHv by lia.
    destruct (parse_value m r1) as [[v r2]|] eqn:E3; [|done]. apply parse_value_length in E3. simpl.
    destruct (skip_ws r2) as [|d r3] eqn:E4; [done|]. apply skip_ws_cons in E4. by rewrite IHm by lia.
Qed.

(** The result of the parser does not depend on the fuel once it is enough. *)
Lemma json_parse_fuel n s :
  (2 * String.length s + 1 <= n)%nat -> parse_value n s = parse_value (2 * String.length s + 1) s.
Proof. intros. by apply parse_fuel. Qed.

Lemma str_body_fuel n : forall m s,
  (String.length s < n)%nat -> (String.length s < m)%nat -> str_body n s = str_body m s.
Proof.
  induction n as [|n IH]; [intros; lia|]. intros [|m] [|a s] Hn Hm; try done; try lia. cbn [str_body]. cbn zeta.
  simpl in Hn, Hm. destruct (byte_val a =? 34); [done|]. destruct (byte_val a =? 92).
  - destruct (unescape s) as [[out s1]|] eqn:E; [|done]. apply unescape_length in E. simpl.
    by rewrite (IH m) by lia.
  - destruct (byte_val a <? 32); [done|]. pose proof (decode_rune_width (String a s) ltac:(done)) as Hw.
    destruct (decode_rune (String a s)) as [z w]. simpl in Hw.
    rewrite (IH m) by (rewrite length_str_drop; simpl; lia). done.
Qed.

(** ** Strings: unquoting undoes quoting *)

Lemma hex_val_nibble d : 0 <= d < 16 -> hex_val (hex_nibble d) = Some d.
Proof.
  intros Hd. unfold hex_val, hex_nibble. rewrite byte_val_of by (case_match; lia).
  destruct (d <? 10) eqn:?; repeat (case_match; bool_to_prop; try lia); f_equal; lia.
Qed.
Lemma hex4_fixed r s : 0 <= r < 65536 -> hex4 (hex_fixed 4 r +:+ s) = Some (r, s).
Proof.
  intros Hr. cbn [hex_fixed]. rewrite !app_cons, app_nil_l'. cbn [hex4].
  rewrite !hex_val_nibble by (Z.to_euclidean_division_equations; lia). cbn [mbind option_bind].
  do 2 f_equal. change (Z.of_nat 3) with 3. change (Z.of_nat 2) with 2. change (Z.of_nat 1) with 1.
  change (Z.of_nat 0) with 0. change (16 ^ 3) with 4096. change (16 ^ 2) with 256.
  change (16 ^ 1) with 16. change (16 ^ 0) with 1. Z.to_euclidean_division_equations; lia.
Qed.

(** A decoded rune is an invalid byte, or is decoded from its bytes alone,
    whatever follows them. *)
Lemma decode_rune_prefix s t :
  s <> "" ->
  let '(r, w) := decode_rune s in
  (r = RuneError /\ w = 1%nat) \/ decode_rune (str_take w s +:+ t) = (r, w).
Proof.
  destruct s as [|a s]; [done|intros _]. unfold decode_rune at 1. cbn zeta.
  destruct (byte_val a <? 128) eqn:H1.
  { right. cbn [str_take]. rewrite app_cons. unfold decode_rune. cbn zeta. by rewrite H1. }
  destruct s as [|b s]; [by left|]. destruct (negb _) eqn:H2; [by left|].
  destruct (_ && _) eqn:H3 in |- *.
  { right. cbn [str_take]. rewrite !app_cons. unfold decode_rune. cbn zeta. by rewrite H1, H2, H3. }
  destruct s as [|c s]; [by left|]. destruct (negb _) eqn:H4 in |- *; [by left|].
  destruct (_ && _) eqn:H5 in |- *.
  { right. cbn [str_take]. rewrite !app_cons. unfold decode_rune. cbn zeta. by rewrite H1, H2, H3, H4, H5. }
  destruct s as [|d s]; [by left|]. destruct (negb _) eqn:H6 in |- *; [by left|].
  destruct (_ && _) eqn:H7 in |- *; [|by left].
  right. cbn [str_take]. rewrite !app_cons. unfold decode_rune. cbn zeta.
  by rewrite H1, H2, H3, H4, H5, H6, H7.
Qed.

Lemma decode_rune_nonneg s : 0 <= (decode_rune s).1.
Proof.
  destruct s as [|a s]; [done|]. pose proof (byte_val_range a). unfold decode_rune. cbn zeta.
  destruct (byte_val a <? 128); [simpl; lia|].
  destruct s as [|b s]; [done|]. destruct (negb _) eqn:H2; [done|].
  assert (128 <= byte_val b).
  { apply negb_false_iff, andb_true_iff in H2 as [H2 _]. apply Z.leb_le in H2.
    unfold accept_range in H2. repeat case_match; simpl in H2; lia. }
  destruct (_ && _) eqn:H3 in |- *; [apply andb_true_iff in H3; rewrite !Z.leb_le in H3; simpl; lia|].
  destruct s as [|c s]; [done|]. destruct (negb _) eqn:H4 in |- *; [done|].
  apply negb_false_iff, andb_true_iff in H4 as [H4 _]. apply Z.leb_le in H4.
  destruct (_ && _) eqn:H5 in |- *; [apply andb_true_iff in H5; rewrite !Z.leb_le in H5; simpl; lia|].
  destruct s as [|d s]; [done|]. destruct (negb _) eqn:H6 in |- *; [done|].
  apply negb_false_iff, andb_true_iff in H6 as [H6 _]. apply Z.leb_le in H6.
  destruct (_ && _) eqn:H7 in |- *; [|done]. apply andb_true_iff in H7. rewrite !Z.leb_le in H7. simpl. lia.
Qed.

Definition clean_glyph (g : glyph) : Prop :=
  g.2 <> "" /\ 0 <= g.1 /\ ((g.1 = RuneError /\ String.length g.2 = 1%nat)
                \/ forall t, decode_rune (g.2 +:+ t) = (g.1, String.length g.2)).

Lemma glyphs_clean s : Forall clean_glyph (glyphs s).
Proof.
  induction s as [|s Hs IH] using str_ind_drop; [constructor|].
  rewrite glyphs_unfold by done. pose proof (decode_rune_width s Hs) as Hw.
  constructor; [|apply IH; lia]. pose proof (decode_rune_prefix s) as Hp.
  pose proof (decode_rune_nonneg s) as H0.
  destruct (decode_rune s) as [r w]. simpl in *. split_and!; simpl.
  - destruct s; [done|]. destruct w; [lia|]. done.
  - done.
  - rewrite length_str_take, Nat.min_l by lia.
    destruct (decide (r = RuneError /\ w = 1%nat)) as [D|D]; [by left|right].
    intros t. destruct (Hp t Hs); [done|]. done.
Qed.

Lemma encode_ascii r : 0 <= r < 128 -> encode_rune r = String (byte_of r) "".
Proof.
  intros Hr. unfold encode_rune. destruct (_ || _) eqn:E.
  { exfalso. bool_to_prop. destruct_or?; destruct_and?; bool_to_prop; lia. }
  destruct (Z.ltb_spec r 128); [done|lia].
Qed.

Lemma str_body_u n r s :
  0 <= r < 65536 -> is_surrogate r = false ->
  str_body (S n) (("\u" +:+ hex_fixed 4 r) +:+ s)
  = ('(t, rest) ← str_body n s; Some (encode_rune r +:+ t, rest)).
Proof.
  intros Hr Hs. change "\u" with (String (byte_of 92) (String (byte_of 117) "")).
  rewrite str_app_assoc, !app_cons, app_nil_l'. cbn [str_body unescape]. cbn zeta.
  change (byte_val (byte_of 92)) with 92. change (byte_val (byte_of 117)) with 117.
  cbn [Z.eqb Pos.eqb orb]. rewrite hex4_fixed by done. cbn [mbind option_bind]. by rewrite Hs.
Qed.

Lemma str_drop_all n s : (String.length s <= n)%nat -> str_drop n s = "".
Proof. revert s; induction n; intros [|a s] H; simpl in *; try done; try lia. apply IHn. lia. Qed.

Lemma byte_of_val a : byte_of (byte_val a) = a.
Proof. unfold byte_of, byte_val. by rewrite N2Z.id, ascii_N_embedding. Qed.

(** One escaped rune is read back as the rune. *)
Lemma str_body_glyph n g s :
  clean_glyph g ->
  str_body (S n) (json_escape g +:+ s)
  = ('(t, rest) ← str_body n s; Some (encode_rune g.1 +:+ t, rest)).
Proof.
  destruct g as [r bs]. intros (Hne & H0 & Hg). simpl in Hne, H0, Hg. unfold json_escape. cbn [fst].
  destruct (_ && _) eqn:Hinv in |- *.
  { apply andb_true_iff in Hinv as [Hr%Z.eqb_eq _]. subst r. by apply str_body_u. }
  assert (Hdec : decode_rune (bs +:+ s) = (r, String.length bs)).
  { destruct Hg as [[-> Hl]|Hg]; [|done]. by rewrite Hl in Hinv. }
  repeat (match goal with |- context [if r =? ?c then _ else _] =>
    destruct (Z.eqb_spec r c) as [->|?]; [reflexivity|] end).
  destruct (_ || _) eqn:Hu in |- *.
  { assert (r < 32 \/ r = 60 \/ r = 62 \/ r = 38 \/ r = 0x2028 \/ r = 0x2029).
    { rewrite !orb_true_iff, Z.ltb_lt, !Z.eqb_eq in Hu. tauto. }
    apply str_body_u; [lia|]. unfold is_surrogate. destruct (Z.leb_spec 0xD800 r); [lia|done]. }
  rewrite !orb_false_iff, Z.ltb_ge in Hu. destruct bs as [|a bs]; [done|]. rewrite app_cons in *.
  assert (Ha : byte_val a = r \/ 128 <= byte_val a).
  { destruct (Z.ltb_spec (byte_val a) 128) as [Hl|]; [left|by right]. unfold decode_rune in Hdec.
    rewrite (proj2 (Z.ltb_lt _ _) Hl) in Hdec. by injection Hdec. }
  cbn [str_body]. cbn zeta. rewrite Hdec.
  destruct (Z.eqb_spec (byte_val a) 34); [lia|]. destruct (Z.eqb_spec (byte_val a) 92); [lia|].
  destruct (Z.ltb_spec (byte_val a) 32); [lia|]. rewrite <- app_cons.
  by rewrite str_drop_app, (str_drop_all (String.length (String a bs)) (String a bs)), app_nil_l' by done.
Qed.

(** A quoted string is read back as its runes. *)
Lemma str_body_quoted gs s n :
  Forall clean_glyph gs -> (length gs < n)%nat ->
  str_body n (json_body gs +:+ dq +:+ s) = Some (encode_runes gs.*1, s).
Proof.
  intros Hgs. revert n. induction Hgs as [|g gs Hg _ IH]; intros n Hn.
  { destruct n; [simpl in Hn; lia|]. reflexivity. }
  destruct n as [|n]; [simpl in Hn; lia|]. unfold json_body. cbn [foldr]. fold (json_body gs).
  rewrite str_app_assoc, str_body_glyph, IH by (done || (simpl in Hn; lia)). done.
Qed.

Lemma json_escape_length g : clean_glyph g -> (1 <= String.length (json_escape g))%nat.
Proof.
  destruct g as [r bs]. intros [Hne _]. unfold json_escape.
  repeat (match goal with |- context [if ?b then _ else _] => destruct b; [simpl; lia|] end).
  destruct bs; [done|]. simpl. lia.
Qed.
Lemma json_body_length gs : Forall clean_glyph gs -> (length gs <= String.length (json_body gs))%nat.
Proof.
  induction 1 as [|g gs Hg _ IH]; [done|]. unfold json_body in *. cbn [foldr length].
  rewrite length_str_app. apply json_escape_length in Hg. lia.
Qed.

(** What a string is after a trip through JSON: its runes, an invalid byte
    replaced by U+FFFD. *)
Definition json_text (s : string) : string := encode_runes (runes s).

Lemma parse_string_quote s rest :
  parse_string (json_body (glyphs s) +:+ dq +:+ rest) = Some (json_text s, rest).
Proof.
  unfold parse_string. apply str_body_quoted; [apply glyphs_clean|].
  pose proof (json_body_length _ (glyphs_clean s)). rewrite length_str_app. lia.
Qed.

(** [utf8.ValidString] *)
Definition valid_utf8 (s : string) : bool :=
  forallb (fun g => negb ((g.1 =? RuneError) && (String.length g.2 =? 1)%nat)) (glyphs s).

(** The cases of [encode_rune], by width. *)
Ltac rune_case := match goal with
  | |- context [if ?b then _ else _] => let E := fresh in destruct b eqn:E in |- *
  end; rewrite ?orb_true_iff, ?orb_false_iff, ?andb_true_iff, ?andb_false_iff, ?Z.ltb_lt, ?Z.ltb_ge,
    ?Z.leb_le, ?Z.leb_gt in *; try lia.

Lemma scalar_value r :
  0 <= r <= 0x10FFFF -> (r < 0xD800 \/ 0xDFFF < r) ->
  (r <? 0) || (0x10FFFF <? r) || ((0xD800 <=? r) && (r <=? 0xDFFF)) = false.
Proof.
  intros. rewrite !orb_false_iff, andb_false_iff, !Z.ltb_ge, !Z.leb_gt. lia.
Qed.

Lemma encode_rune2 x y : 0xC2 <= x <= 0xDF -> 0x80 <= y <= 0xBF ->
  encode_rune ((x - 0xC0) * 64 + (y - 0x80)) = String (byte_of x) (String (byte_of y) "").
Proof.
  intros Hx Hy. unfold encode_rune. rewrite scalar_value by lia. cbn zeta. do 2 rune_case.
  repeat f_equal; Z.to_euclidean_division_equations; lia.
Qed.
Lemma encode_rune3 x y z : 0xE0 <= x <= 0xEF -> 0x80 <= y <= 0xBF -> 0x80 <= z <= 0xBF ->
  (x = 0xE0 -> 0xA0 <= y) -> (x = 0xED -> y <= 0x9F) ->
  encode_rune ((x - 0xE0) * 4096 + (y - 0x80) * 64 + (z - 0x80))
  = String (byte_of x) (String (byte_of y) (String (byte_of z) "")).
Proof.
  intros Hx Hy Hz H1 H2. unfold encode_rune. rewrite scalar_value by lia. cbn zeta. do 3 rune_case.
  repeat f_equal; Z.to_euclidean_division_equations; lia.
Qed.
Lemma encode_rune4 x y z t : 0xF0 <= x <= 0xF4 -> 0x80 <= y <= 0xBF -> 0x80 <= z <= 0xBF ->
  0x80 <= t <= 0xBF -> (x = 0xF0 -> 0x90 <= y) -> (x = 0xF4 -> y <= 0x8F) ->
  encode_rune ((x - 0xF0) * 262144 + (y - 0x80) * 4096 + (z - 0x80) * 64 + (t - 0x80))
  = String (byte_of x) (String (byte_of y) (String (byte_of z) (String (byte_of t) ""))).
Proof.
  intros Hx Hy Hz Ht H1 H2. unfold encode_rune. rewrite scalar_value by lia. cbn zeta. do 3 rune_case.
  repeat f_equal; Z.to_euclidean_division_equations; lia.
Qed.

Lemma accept_range_spec b0 b1 :
  ((accept_range b0).1 <=? b1) && (b1 <=? (accept_range b0).2) = true ->
  0x80 <= b1 <= 0xBF /\ (b0 = 0xE0 -> 0xA0 <= b1) /\ (b0 = 0xED -> b1 <= 0x9F)
  /\ (b0 = 0xF0 -> 0x90 <= b1) /\ (b0 = 0xF4 -> b1 <= 0x8F).
Proof.
  rewrite andb_true_iff, !Z.leb_le. unfold accept_range.
  repeat (match goal with |- context [if ?b0 =? ?c then _ else _] => destruct (Z.eqb_spec b0 c) end);
    simpl; lia.
Qed.

(** Encoding a decoded rune gives its bytes back. *)
Lemma encode_decode s : s <> "" ->
  let '(r, w) := decode_rune s in (r = RuneError /\ w = 1%nat) \/ encode_rune r = str_take w s.
Proof.
  destruct s as [|a s]; [done|intros _]. pose proof (byte_val_range a) as Ra. unfold decode_rune. cbn zeta.
  destruct (Z.ltb_spec (byte_val a) 128) as [H1|H1].
  { right. by rewrite encode_ascii, byte_of_val by lia. }
  destruct s as [|b s]; [by left|].
  destruct (negb _) eqn:H2; [by left|]. apply negb_false_iff, accept_range_spec in H2.
  destruct (_ && _) eqn:H3 in |- *.
  { right. apply andb_true_iff in H3. rewrite !Z.leb_le in H3. cbn [str_take].
    by rewrite encode_rune2, !byte_of_val by lia. }
  destruct s as [|c s]; [by left|]. destruct (negb _) eqn:H4 in |- *; [by left|].
  apply negb_false_iff, andb_true_iff in H4. rewrite !Z.leb_le in H4.
  destruct (_ && _) eqn:H5 in |- *.
  { right. apply andb_true_iff in H5. rewrite !Z.leb_le in H5. cbn [str_take].
    by rewrite encode_rune3, !byte_of_val by lia. }
  destruct s as [|d s]; [by left|]. destruct (negb _) eqn:H6 in |- *; [by left|].
  apply negb_false_iff, andb_true_iff in H6. rewrite !Z.leb_le in H6.
  destruct (_ && _) eqn:H7 in |- *; [|by left]. right.
  apply andb_true_iff in H7. rewrite !Z.leb_le in H7. cbn [str_take].
  by rewrite encode_rune4, !byte_of_val by lia.
Qed.

(** Valid UTF-8 is not changed. *)
Lemma json_text_valid s : valid_utf8 s = true -> json_text s = s.
Proof.
  unfold valid_utf8, json_text, runes. induction s as [|s Hs IH] using str_ind_drop; [done|].
  rewrite glyphs_unfold by done. pose proof (decode_rune_width s Hs) as Hw.
  pose proof (encode_decode s Hs) as He. destruct (decode_rune s) as [r w]. simpl in Hw.
  cbn [forallb fst snd]. intros [H1 H2]%andb_true_iff. rewrite fmap_cons. unfold encode_runes. cbn [foldr fst].
  fold (encode_runes (glyphs (str_drop w s)).*1). rewrite IH by (done || lia).
  destruct He as [[-> ->]| ->]; [|apply str_take_drop].
  rewrite length_str_take, Nat.min_l in H1 by lia. done.
Qed.

(** ** Numbers: parsing undoes printing *)

Lemma pretty_digit x : (x < 10)%N ->
  byte_val (pretty_N_char x) = 48 + Z.of_N x /\ is_digit (pretty_N_char x) = true.
Proof.
  intros Hx. assert (byte_val (pretty_N_char x) = 48 + Z.of_N x).
  { destruct x as [|[[[]|[]|]|[[]|[]|]|]]; try (done || lia); destruct p; try (done || lia). }
  split; [done|]. unfold is_digit. rewrite andb_true_iff, !Z.leb_le. lia.
Qed.

(** What can follow a run of digits, and what can follow a number. *)
Definition digit_end (s : string) : Prop :=
  match s with "" => True | String a _ => is_digit a = false end.
Definition num_end (s : string) : Prop :=
  match s with
  | "" => True
  | String a _ => is_digit a = false /\ byte_val a <> 46 /\ byte_val a <> 101 /\ byte_val a <> 69
  end.

Lemma pretty_digits x : forall s, exists d, pretty_N_go x s = d +:+ s
  /\ (forall t, digits_val 0 (d +:+ t) = digits_val (Z.of_N x) t)
  /\ (forall t, digit_end t -> take_digits (d +:+ t) = (d, t))
  /\ ((0 < x)%N -> exists a d', d = String a d' /\ is_digit a = true /\ byte_val a <> 48)
  /\ (x = 0%N -> d = "").
Proof.
  induction (N.lt_wf_0 x) as [x _ IH]. intros s. destruct (decide (x = 0%N)) as [->|Hx].
  { exists "". split_and!; try done. by intros [|a t] Ht; simpl in *; [|rewrite Ht]. }
  destruct (IH (x / 10)%N ltac:(apply N.div_lt; lia) (String (pretty_N_char (x mod 10)) s))
    as (d & Hg & Hv & Ht & Hf & H0).
  pose proof (N.div_mod x 10 ltac:(done)) as Hdm. pose proof (N.mod_lt x 10 ltac:(done)) as Hlt.
  destruct (pretty_digit (x mod 10) Hlt) as [Hb Hd].
  exists (d +:+ String (pretty_N_char (x mod 10)) ""). split_and!.
  - by rewrite pretty_N_go_step, Hg, str_app_assoc by lia.
  - intros t. rewrite str_app_assoc, Hv, app_cons, app_nil_l'. cbn [digits_val]. rewrite Hd, Hb. f_equal. lia.
  - intros t Hte. rewrite str_app_assoc, app_cons, app_nil_l'.
    assert (K : forall d, (forall t, digit_end t -> take_digits (d +:+ t) = (d, t)) ->
      take_digits (d +:+ String (pretty_N_char (x mod 10)) t) = (d +:+ String (pretty_N_char (x mod 10)) "", t)).
    { clear -Hd Hte. intros d Hdd. induction d as [|c d IHd].
      - rewrite !app_nil_l'. cbn [take_digits]. rewrite Hd. destruct t as [|b t]; [done|].
        cbn [take_digits]. simpl in Hte. by rewrite Hte.
      - rewrite !app_cons. cbn [take_digits]. specialize (Hdd "" I) as Hc. rewrite app_cons in Hc.
        cbn [take_digits] in Hc. destruct (is_digit c) eqn:Hic; [|done]. rewrite IHd; [done|].
        intros u Hu. specialize (Hdd u Hu). rewrite app_cons in Hdd. cbn [take_digits] in Hdd.
        rewrite Hic in Hdd. destruct (take_digits (d +:+ u)). by injection Hdd as -> ->. }
    by apply K.
  - intros _. destruct (decide (x / 10 = 0)%N) as [Hz|Hz].
    + rewrite H0 by done. rewrite app_nil_l'. eexists _, _. split_and!; [done|done|]. rewrite Hb. lia.
    + destruct Hf as (a & d' & -> & Ha & Hne); [lia|]. rewrite app_cons. by eexists _, _.
  - done.
Qed.

(** A number literal: read back whole before anything that cannot continue it. *)
Definition number_literal (lit : string) : Prop :=
  forall rest, num_end rest -> parse_number (lit +:+ rest) = Some (lit, rest).

Lemma num_end_parts rest : num_end rest ->
  digit_end rest /\ frac_part rest = Some ("", rest) /\ exp_part rest = Some ("", rest).
Proof.
  destruct rest as [|a r]; [done|]. intros (Hd & H1 & H2 & H3). split; [done|]. unfold frac_part, exp_part.
  by rewrite (proj2 (Z.eqb_neq _ _) H1), (proj2 (Z.eqb_neq _ _) H2), (proj2 (Z.eqb_neq _ _) H3).
Qed.

Lemma pretty_pos_literal p :
  exists a d, pretty (N.pos p) = String a d /\ is_digit a = true /\ digits_val 0 (String a d) = Some (Z.pos p)
    /\ forall rest, digit_end rest -> int_part (String a d +:+ rest) = Some (String a d, rest).
Proof.
  unfold pretty, pretty_N. destruct (decide (N.pos p = 0%N)); [done|].
  destruct (pretty_digits (N.pos p) "") as (s & Hg & Hv & Ht & Hf & _).
  destruct Hf as (a & d & -> & Hd & Hne); [lia|]. rewrite str_app_nil_r in Hg. exists a, d.
  split_and!; [done|done| |].
  - specialize (Hv ""). by rewrite str_app_nil_r in Hv.
  - intros rest Hr. specialize (Ht rest Hr). rewrite app_cons in *. unfold int_part.
    rewrite (proj2 (Z.eqb_neq _ _) Hne), Hd. by rewrite Ht.
Qed.

Lemma digit_not_dash a : is_digit a = true -> byte_val a =? 45 = false.
Proof. unfold is_digit. rewrite andb_true_iff, !Z.leb_le. intros. apply Z.eqb_neq. lia. Qed.

Lemma Itoa_literal z : number_literal (Itoa z).
Proof.
  intros rest (Hd & Hf & He)%num_end_parts. destruct z as [|p|p].
  - change (Itoa 0 +:+ rest) with (String "0" rest). unfold parse_number.
    change (byte_val "0" =? 45) with false. cbn iota.
    change (int_part (String "0" rest)) with (Some ("0", rest)). cbn [mbind option_bind].
    rewrite Hf. cbn [mbind option_bind]. by rewrite He.
  - destruct (pretty_pos_literal p) as (a & d & Hp & Ha & _ & Hi).
    change (Itoa (Z.pos p)) with (pretty (N.pos p)). rewrite Hp. unfold parse_number.
    rewrite app_cons, (digit_not_dash a Ha), <- app_cons, (Hi rest Hd). cbn [mbind option_bind].
    rewrite Hf. cbn [mbind option_bind]. rewrite He. cbn [mbind option_bind]. by rewrite !str_app_nil_r, app_nil_l'.
  - destruct (pretty_pos_literal p) as (a & d & Hp & Ha & _ & Hi).
    change (Itoa (Z.neg p)) with ("-" +:+ pretty (N.pos p)). rewrite Hp, str_app_assoc. unfold parse_number.
    rewrite (app_cons "-" ""), app_nil_l'.
    change (byte_val "-" =? 45) with true. cbn iota beta. rewrite (Hi rest Hd). cbn [mbind option_bind].
    rewrite Hf. cbn [mbind option_bind]. rewrite He. cbn [mbind option_bind]. by rewrite !str_app_nil_r.
Qed.

Lemma ParseInt64_Itoa z : int64_range z -> ParseInt64 (Itoa z) = Some z.
Proof.
  intros Hz. unfold ParseInt64.
  assert (Hr : ((- 2^63 <=? z) && (z <? 2^63))%bool = true)
    by (rewrite andb_true_iff, Z.leb_le, Z.ltb_lt; exact Hz).
  destruct z as [|p|p]; [done| |].
  - destruct (pretty_pos_literal p) as (a & d & Hp & Ha & Hv & _).
    change (Itoa (Z.pos p)) with (pretty (N.pos p)). rewrite Hp, (digit_not_dash a Ha), Hv.
    cbn [mbind option_bind]. by rewrite Hr.
  - destruct (pretty_pos_literal p) as (a & d & Hp & Ha & Hv & _).
    change (Itoa (Z.neg p)) with ("-" +:+ pretty (N.pos p)). rewrite Hp.
    change ("-" +:+ String a d) with (String "-" (String a d)). cbn iota beta.
    change (byte_val "-" =? 45) with true. cbn iota. change (String.eqb (String a d) "") with false. cbn iota. rewrite Hv.
    change (Z.opp <$> Some (Z.pos p)) with (Some (Z.neg p)). cbn [mbind option_bind]. by rewrite Hr.
Qed.

(** ** Values: parsing undoes encoding *)

(** Induction over values with the hypothesis for every element and member. *)
Lemma json_tree_ind (P : json -> Prop) :
  P JNull -> (forall b, P (JBool b)) -> (forall l, P (JNum l)) -> (forall s, P (JStr s)) ->
  (forall l, Forall P l -> P (JArr l)) -> (forall fs, Forall (fun kv => P kv.2) fs -> P (JObj fs)) ->
  forall v, P v.
Proof.
  intros H0 H1 H2 H3 H4 H5. fix IH 1. intros [|b|l|s|l|fs]; [exact H0|apply H1|apply H2|apply H3| |].
  - apply H4. induction l as [|x l IHl]; constructor; [apply IH|exact IHl].
  - apply H5. induction fs as [|[k x] fs IHl]; constructor; [apply IH|exact IHl].
Qed.

Fixpoint json_norm (v : json) : json :=
  match v with
  | JStr s => JStr (json_text s)
  | JArr l => JArr (map json_norm l)
  | JObj fs => JObj (map (fun kv => (json_text kv.1, json_norm kv.2)) fs)
  | _ => v
  end.
Fixpoint json_wf (v : json) : Prop :=
  match v with
  | JNum lit => number_literal lit
  | JArr l => foldr (fun x acc => json_wf x /\ acc) True l
  | JObj fs => foldr (fun kv acc => json_wf kv.2 /\ acc) True fs
  | _ => True
  end.

Lemma number_start lit : number_literal lit ->
  exists a s, lit = String a s /\ (byte_val a = 45 \/ 48 <= byte_val a <= 57).
Proof.
  intros H. specialize (H "" I). rewrite str_app_nil_r in H. destruct lit as [|a s]; [done|].
  exists a, s. split; [done|]. unfold parse_number in H.
  destruct (Z.eqb_spec (byte_val a) 45) as [|Hne]; [by left|right].
  apply bind_Some in H as ([i r] & H & _). unfold int_part in H.
  destruct (Z.eqb_spec (byte_val a) 48); [lia|]. destruct (is_digit a) eqn:Hd; [|done].
  unfold is_digit in Hd. by rewrite andb_true_iff, !Z.leb_le in Hd.
Qed.

(** No encoding starts with white space or a closing bracket. *)
Definition value_start (s : string) : Prop :=
  match s with
  | "" => False
  | String a _ => json_space a = false /\ byte_val a <> 93 /\ byte_val a <> 125
  end.
Lemma json_encode_start v rest : json_wf v -> value_start (json_encode v +:+ rest).
Proof.
  destruct v as [|[]|lit|s|l|fs]; intros Hw; try done.
  destruct (number_start lit Hw) as (a & s & -> & Ha). cbn [json_encode]. rewrite app_cons.
  cbn [value_start]. unfold json_space.
  rewrite !(proj2 (Z.eqb_neq (byte_val a) _)) by lia. split; [done|]. lia.
Qed.
Lemma skip_ws_start s : value_start s -> skip_ws s = s.
Proof. destruct s as [|a s]; [done|]. intros [H _]. simpl. by rewrite H. Qed.

(** What may follow a value: the end, a comma or a closing bracket. *)
Definition value_end (s : string) : Prop :=
  match s with "" => True | String a _ => byte_val a = 44 \/ byte_val a = 93 \/ byte_val a = 125 end.
Lemma value_end_num s : value_end s -> num_end s.
Proof.
  destruct s as [|a s]; [done|]. simpl. intros H. unfold is_digit. rewrite andb_false_iff, !Z.leb_gt. lia.
Qed.

Lemma parse_quote n s rest : parse_value (S n) (json_quote s +:+ rest) = Some (JStr (json_text s), rest).
Proof.
  unfold json_quote. rewrite !str_app_assoc. cbn [parse_value]. unfold dq at 1.
  rewrite app_cons, app_nil_l', (skip_ws_start (String (byte_of 34) _)) by done. cbn zeta.
  change (byte_val (byte_of 34) =? 34) with true. cbn iota. by rewrite parse_string_quote.
Qed.

Definition reads_back (v : json) : Prop :=
  forall n rest, (2 * String.length (json_encode v) <= n)%nat -> value_end rest ->
    parse_value n (json_encode v +:+ rest) = Some (json_norm v, rest).

Lemma Join_cons2 w w' ws sep : Join (w :: w' :: ws) sep = w +:+ sep +:+ Join (w' :: ws) sep.
Proof. reflexivity. Qed.

Lemma elems_read_back v l : Forall reads_back (v :: l) -> forall n rest,
  (2 * String.length (Join (map json_encode (v :: l)) ",") + 1 <= n)%nat ->
  parse_elems n (Join (map json_encode (v :: l)) "," +:+ "]" +:+ rest) = Some (map json_norm (v :: l), rest).
Proof.
  revert v. induction l as [|v' l IH]; intros v [Hv Hl]%Forall_cons n rest Hn;
    (destruct n as [|n]; [lia|]); cbn [parse_elems].
  - cbn [map Join] in *. rewrite Hv by (lia || by right; left). reflexivity.
  - cbn [map] in *. rewrite Join_cons2 in *. rewrite !length_str_app in Hn.
    change (String.length ",") with 1%nat in Hn.
    rewrite !str_app_assoc, Hv by (lia || by left).
    rewrite (app_cons "," ""), app_nil_l'. cbn [mbind option_bind].
    rewrite (skip_ws_start (String "," _)) by done. change (byte_val "," =? 44) with true. cbn iota.
    rewrite (IH v' Hl n rest) by (cbn [map]; lia). reflexivity.
Qed.

Definition encode_member (kv : string * json) : string := json_quote kv.1 +:+ ":" +:+ json_encode kv.2.
Definition norm_member (kv : string * json) : string * json := (json_text kv.1, json_norm kv.2).

(** The head of the members: one member, up to what follows its value. *)
Lemma parse_member n kv rest :
  reads_back kv.2 -> (2 * String.length (json_encode kv.2) <= n)%nat -> value_end rest ->
  parse_members (S n) (encode_member kv +:+ rest)
  = match skip_ws rest with
    | String d r3 =>
        if byte_val d =? 44 then '(kvs, r4) ← parse_members n r3; Some (norm_member kv :: kvs, r4)
        else if byte_val d =? 125 then Some ([norm_member kv], r3) else None
    | "" => None
    end.
Proof.
  intros Hr Hn He. unfold encode_member, json_quote. rewrite !str_app_assoc. cbn [parse_members]. unfold dq at 1.
  rewrite app_cons, app_nil_l', (skip_ws_start (String (byte_of 34) _)) by done.
  change (byte_val (byte_of 34) =? 34) with true. cbn iota. rewrite parse_string_quote. cbn [mbind option_bind].
  rewrite (app_cons ":" ""), app_nil_l'.
  rewrite (skip_ws_start (String ":" _)) by done. cbn iota beta.
  change (byte_val ":" =? 58) with true. cbn iota. rewrite Hr by done. reflexivity.
Qed.

Lemma members_read_back kv l : Forall (fun kv => reads_back kv.2) (kv :: l) -> forall n rest,
  (2 * String.length (Join (map encode_member (kv :: l)) ",") + 1 <= n)%nat ->
  parse_members n (Join (map encode_member (kv :: l)) "," +:+ "}" +:+ rest) = Some (map norm_member (kv :: l), rest).
Proof.
  revert kv. induction l as [|kv' l IH]; intros kv [Hv Hl]%Forall_cons n rest Hn;
    (destruct n as [|n]; [lia|]).
  - cbn [map Join] in *. unfold encode_member in Hn at 1. rewrite !length_str_app in Hn.
    rewrite parse_member by (try done; (lia || by right; right)). reflexivity.
  - cbn [map] in *. rewrite Join_cons2 in *. rewrite !length_str_app in Hn.
    unfold encode_member in Hn at 1. rewrite !length_str_app in Hn. change (String.length ",") with 1%nat in Hn.
    rewrite !str_app_assoc, parse_member by (try done; (lia || by left)).
    rewrite (app_cons "," ""), app_nil_l'. rewrite (skip_ws_start (String "," _)) by done.
    cbn iota beta. change (byte_val "," =? 44) with true. cbn iota.
    rewrite (IH kv' Hl n rest) by (cbn [map]; lia). reflexivity.
Qed.

Lemma wf_list l : foldr (fun x acc => json_wf x /\ acc) True l <-> Forall json_wf l.
Proof. induction l as [|x l IH]; simpl; [done|]. by rewrite IH, Forall_cons. Qed.
Lemma wf_members fs :
  foldr (fun (kv : string * json) acc => json_wf kv.2 /\ acc) True fs <-> Forall (fun kv => json_wf kv.2) fs.
Proof. induction fs as [|x l IH]; simpl; [done|]. by rewrite IH, Forall_cons. Qed.

Lemma value_start_ne s :
  value_start s -> exists a s', skip_ws s = String a s' /\ byte_val a =? 93 = false /\ byte_val a =? 125 = false.
Proof.
  intros H. rewrite (skip_ws_start _ H). destruct s as [|a s]; [done|]. exists a, s.
  destruct H as (_ & H1 & H2). by rewrite !(proj2 (Z.eqb_neq _ _)).
Qed.

Lemma expect_app lit v rest : expect lit v (lit +:+ rest) = Some (v, rest).
Proof.
  unfold expect, HasPrefix. replace (String.prefix lit (lit +:+ rest)) with true.
  - by rewrite str_drop_app, str_drop_all, app_nil_l'.
  - induction lit as [|a s IH]; [by destruct rest|]. rewrite app_cons. simpl. by destruct (ascii_dec a a).
Qed.

Lemma json_read_back v : json_wf v -> reads_back v.
Proof.
  induction v as [|b|lit|s|l IH|fs IH] using json_tree_ind; intros Hw n rest Hn He.
  - destruct n as [|n]; [simpl in Hn; lia|]. apply (expect_app "null").
  - destruct n as [|n]; [destruct b; simpl in Hn; lia|].
    destruct b; [apply (expect_app "true")|apply (expect_app "false")].
  - destruct (number_start lit Hw) as (a & s & Hl & Ha). cbn [json_encode json_norm] in *.
    destruct n as [|n]; [rewrite Hl in Hn; simpl in Hn; lia|]. cbn [parse_value].
    pose proof (json_encode_start (JNum lit) rest Hw) as Hs. cbn [json_encode] in Hs.
    rewrite (skip_ws_start _ Hs), Hl, app_cons. cbn zeta.
    rewrite !(proj2 (Z.eqb_neq (byte_val a) _)) by lia. rewrite <- app_cons, <- Hl.
    by rewrite Hw by (by apply value_end_num).
  - destruct n as [|n]; [simpl in Hn; lia|]. apply parse_quote.
  - apply wf_list in Hw. cbn [json_encode] in Hn |- *. rewrite !length_str_app in Hn.
    change (String.length "[") with 1%nat in Hn. destruct n as [|n]; [lia|].
    rewrite !str_app_assoc, (app_cons "[" ""), app_nil_l'. cbn [parse_value].
    rewrite (skip_ws_start (String "[" _)) by done. cbn zeta.
    destruct l as [|v l]; [reflexivity|]. change (byte_val "[" =? 34) with false.
    change (byte_val "[" =? 91) with true. cbn iota.
    assert (Hst : value_start (Join (map json_encode (v :: l)) "," +:+ "]" +:+ rest)).
    { apply Forall_cons in Hw as [Hw _]. destruct l as [|v' l]; cbn [map];
        [|rewrite Join_cons2, str_app_assoc]; by apply json_encode_start. }
    destruct (value_start_ne _ Hst) as (a & s' & -> & -> & _).
    assert (HF : Forall reads_back (v :: l)) by (rewrite !Forall_forall in *; naive_solver).
    rewrite (elems_read_back _ _ HF) by lia. reflexivity.
  - apply wf_members in Hw. cbn [json_encode] in Hn |- *. rewrite !length_str_app in Hn.
    change (String.length "{") with 1%nat in Hn. destruct n as [|n]; [lia|].
    rewrite !str_app_assoc, (app_cons "{" ""), app_nil_l'. cbn [parse_value].
    rewrite (skip_ws_start (String "{" _)) by done. cbn zeta.
    destruct fs as [|kv fs]; [reflexivity|]. change (byte_val "{" =? 34) with false.
    change (byte_val "{" =? 91) with false. change (byte_val "{" =? 123) with true. cbn iota.
    change (map (fun kv => json_quote kv.1 +:+ ":" +:+ json_encode kv.2)) with (map encode_member) in *.
    assert (Hst : value_start (Join (map encode_member (kv :: fs)) "," +:+ "}" +:+ rest))
      by (destruct fs; done).
    destruct (value_start_ne _ Hst) as (a & s' & -> & _ & ->).
    assert (HF : Forall (fun kv => reads_back kv.2) (kv :: fs)) by (rewrite !Forall_forall in *; naive_solver).
    rewrite (members_read_back _ _ HF) by lia. reflexivity.
Qed.

Lemma json_depth_norm v : json_depth (json_norm v) = json_depth v.
Proof.
  induction v as [|b|lit|s|l IH|fs IH] using json_tree_ind; try done; cbn [json_norm json_depth]; f_equal.
  - induction IH as [|v l Hv _ IHl]; [done|]. cbn [map foldr]. by rewrite Hv, IHl.
  - induction IH as [|[k v] fs Hv _ IHl]; [done|]. cbn [map foldr fst snd] in *. by rewrite Hv, IHl.
Qed.

(** Text in ASCII is valid UTF-8. *)
Fixpoint ascii_only (s : string) : bool :=
  match s with "" => true | String a s' => (byte_val a <? 128) && ascii_only s' end.
Lemma ascii_only_app s t : ascii_only (s +:+ t) = ascii_only s && ascii_only t.
Proof. induction s as [|a s IH]; [done|]. rewrite app_cons. simpl. by rewrite IH, andb_assoc. Qed.
Lemma ascii_only_valid s : ascii_only s = true -> valid_utf8 s = true.
Proof.
  unfold valid_utf8. induction s as [|a s IH]; [done|]. cbn [ascii_only]. intros [Ha Hs]%andb_true_iff.
  rewrite glyphs_unfold by done. unfold decode_rune. cbn zeta. rewrite Ha. cbn [str_drop forallb fst snd].
  rewrite IH by done. apply Z.ltb_lt in Ha.
  destruct (Z.eqb_spec (byte_val a) RuneError) as [E|]; [|done]. unfold RuneError in E. lia.
Qed.
Lemma ascii_only_digits s : forall acc v, digits_val acc s = Some v -> ascii_only s = true.
Proof.
  induction s as [|a s IH]; intros acc v; [done|]. cbn [digits_val ascii_only].
  destruct (is_digit a) eqn:Hd; [|done]. intros Hv. unfold is_digit in Hd. rewrite (IH _ _ Hv).
  apply andb_true_iff in Hd as [_ Hd%Z.leb_le]. by rewrite (proj2 (Z.ltb_lt _ _)) by lia.
Qed.

(** Unmarshalling undoes marshalling, up to the replacement of invalid UTF-8. *)
Lemma json_roundtrip v :
  json_wf v -> json_depth v <= 10000 -> json_parse (json_encode v) = Some (json_norm v).
Proof.
  intros Hw Hd. unfold json_parse. rewrite <- (str_app_nil_r (json_encode v)) at 2.
  rewrite json_read_back by (done || lia). cbn [mbind option_bind].
  rewrite json_depth_norm, (proj2 (Z.leb_le _ _) Hd). done.
Qed.
