(* ===== verification/GoTimeParse.v ===== *)
(** * GoTimeParse: RFC 3339 times in JSON

    [time.Time] marshals to a string in RFC 3339 with nanoseconds and unmarshals
    from any RFC 3339 string ([time.parseStrictRFC3339]).  The fact: parsing
    undoes formatting for the years 1 to 9999. *)

From stdpp Require Import pretty.
From Stdlib Require Import Ascii.
From S2P Require Import Prelude GoStrings GoTime Sha256 GoJSON.

#[local] Open Scope Z_scope.

(** [w] digits with a value in a range, and what follows. *)
Definition take_uint (w : nat) (lo hi : Z) (s : string) : option (Z * string) :=
  if (w <=? String.length s)%nat then
    x ← digits_val 0 (str_take w s);
    if (lo <=? x) && (x <=? hi) then Some (x, str_drop w s) else None
  else None.
Definition lit (c : ascii) (s : string) : option string :=
  match s with String a s' => if Ascii.eqb a c then Some s' else None | "" => None end.

Definition daysIn (m y : Z) : Z :=
  days_before_month (leap y) (m + 1) - days_before_month (leap y) m + if m =? 12 then 365 else 0.

(** The fraction: a point and digits, of which nine count. *)
Definition take_fraction (s : string) : Z * string :=
  match s with
  | String a s' =>
      if Ascii.eqb a "." then
        let '(d, r) := take_digits s' in
        if String.eqb d "" then (0, s)
        else
          let d := str_take 9 d in
          (default 0 (digits_val 0 d) * 10 ^ (9 - Z.of_nat (String.length d)), r)
      else (0, s)
  | "" => (0, s)
  end.

(** The offset in seconds: [Z], or a sign, hours and minutes. *)
Definition parse_zone (s : string) : option Z :=
  if String.eqb s "Z" then Some 0
  else match s with
  | String a s' =>
      if Ascii.eqb a "+" || Ascii.eqb a "-" then
        '(hr, s1) ← take_uint 2 0 23 s';
        s2 ← lit ":" s1;
        '(mm, s3) ← take_uint 2 0 59 s2;
        if String.eqb s3 "" then Some ((if Ascii.eqb a "-" then -1 else 1) * (hr * 60 + mm) * 60) else None
      else None
  | "" => None
  end.

Definition parse_RFC3339 (s : string) : option Time :=
  '(year, s) ← take_uint 4 0 9999 s; s ← lit "-" s;
  '(month, s) ← take_uint 2 1 12 s; s ← lit "-" s;
  '(day, s) ← take_uint 2 1 (daysIn month year) s; s ← lit "T" s;
  '(hour, s) ← take_uint 2 0 23 s; s ← lit ":" s;
  '(min, s) ← take_uint 2 0 59 s; s ← lit ":" s;
  '(sec, s) ← take_uint 2 0 59 s;
  let '(nsec, s) := take_fraction s in
  zone ← parse_zone s;
  let days := days_before_year year + days_before_month (leap year) month + day - 1 in
  Some (days * nanos_per_day + hour * Hour + min * Minute + (sec - zone) * Second + nsec).

(** [Time.MarshalJSON]: an error outside the years 0 to 9999. *)
Definition time_json (t : Time) : option json :=
  if (0 <=? Year (Date t)) && (Year (Date t) <=? 9999) then Some (JStr (Format_RFC3339Nano t)) else None.
(** [Time.UnmarshalJSON]: null leaves the time alone. *)
Definition set_time (old : Time) (v : json) : option Time :=
  match v with
  | JNull => Some old
  | JStr s => parse_RFC3339 s
  | _ => None
  end.

Example parse_offset : parse_RFC3339 "2024-02-29T12:34:56.5-01:30" = Some (unix_time 1709215496 500000000).
Proof. vm_compute. reflexivity. Qed.
Example parse_bad_day : parse_RFC3339 "2023-02-29T00:00:00Z" = None.
Proof. vm_compute. reflexivity. Qed.

(** * Facts *)

Lemma pretty_length k : forall x s, (x < 10 ^ N.of_nat k)%N ->
  (String.length (pretty_N_go x s) <= k + String.length s)%nat.
Proof.
  induction k as [|k IH]; intros x s Hx.
  { assert (x = 0%N) by (change (10 ^ N.of_nat 0)%N with 1%N in Hx; lia). by subst. }
  destruct (decide (x = 0%N)) as [->|Hne]; [rewrite pretty_N_go_0; lia|].
  rewrite pretty_N_go_step by lia. etrans; [apply IH|simpl; lia].
  rewrite Nat2N.inj_succ, N.pow_succ_r' in Hx. apply N.Div0.div_lt_upper_bound. lia.
Qed.

(** The digits of a number are read back. *)
Lemma Itoa_digits n : 0 <= n -> digits_val 0 (Itoa n) = Some n.
Proof.
  intros Hn. destruct n as [|p|p]; [done| |lia]. change (Itoa (Z.pos p)) with (pretty (N.pos p)).
  destruct (pretty_pos_literal p) as (a & d & Hp & _ & Hv & _). by rewrite Hp.
Qed.

(** A number below [10^w] is read back from its [w] digits. *)
Lemma pad_digits w n : (0 < w)%nat -> 0 <= n < 10 ^ Z.of_nat w ->
  String.length (pad w n) = w /\ digits_val 0 (pad w n) = Some n.
Proof.
  intros Hw Hn. unfold pad. cbn zeta. pose proof (Itoa_digits n (proj1 Hn)) as Hv.
  assert (Hl : (String.length (Itoa n) <= w)%nat).
  { destruct n as [|p|p]; [change (Itoa 0) with "0"; simpl; lia| |lia].
    change (Itoa (Z.pos p)) with (pretty (N.pos p)). unfold pretty, pretty_N. destruct (decide _); [done|].
    etrans; [apply (pretty_length w)|simpl; lia].
    assert (Z.of_N (10 ^ N.of_nat w) = 10 ^ Z.of_nat w) by (rewrite N2Z.inj_pow, nat_N_Z; done). lia. } assert (Hz : forall k, String.length (zeros k) = k) by (intros k; induction k; simpl; lia).
  split; [rewrite length_str_app, Hz; lia|].
  generalize (w - String.length (Itoa n))%nat as k. intros k. induction k as [|k IH]; [done|].
  cbn [zeros]. rewrite app_cons. cbn [digits_val]. exact IH.
Qed.

Lemma take_uint_pad w lo hi n rest :
  (0 < w)%nat -> 0 <= n < 10 ^ Z.of_nat w -> lo <= n <= hi ->
  take_uint w lo hi (pad w n +:+ rest) = Some (n, rest).
Proof.
  intros Hw Hn Hr. destruct (pad_digits w n Hw Hn) as [Hl Hv]. unfold take_uint.
  rewrite length_str_app, Hl, str_take_app, str_take_all, str_drop_app, str_drop_all, app_nil_l', Hv by lia.
  destruct (Nat.leb_spec w (w + String.length rest)); [|lia]. cbn [mbind option_bind].
  by rewrite (proj2 (Z.leb_le lo n)), (proj2 (Z.leb_le n hi)) by lia.
Qed.
Lemma lit_app c s : lit c (String c s) = Some s.
Proof. simpl. by rewrite Ascii.eqb_refl. Qed.

Lemma digits_val_app a b : forall acc, digits_val acc (a +:+ b) = (v ← digits_val acc a; digits_val v b).
Proof.
  induction a as [|c a IH]; intros acc; [done|]. rewrite app_cons. cbn [digits_val].
  destruct (is_digit c); [apply IH|done].
Qed.
Lemma digits_zeros k : forall acc, digits_val acc (zeros k) = Some (acc * 10 ^ Z.of_nat k).
Proof.
  induction k as [|k IH]; intros acc; cbn [zeros digits_val]; [f_equal; lia|].
  change (is_digit "0") with true. cbn iota. rewrite IH. f_equal. change (byte_val "0" - 48) with 0.
  rewrite Nat2Z.inj_succ, Z.pow_succ_r by lia. lia.
Qed.
Lemma digits_take a rest : forall acc v, digits_val acc a = Some v -> digit_end rest ->
  take_digits (a +:+ rest) = (a, rest).
Proof.
  induction a as [|c a IH]; intros acc v Hv Hr.
  - rewrite app_nil_l'. destruct rest as [|b r]; [done|]. simpl in *. by rewrite Hr.
  - rewrite app_cons. cbn [digits_val take_digits] in *. destruct (is_digit c); [|done].
    by rewrite (IH _ _ Hv Hr).
Qed.
Lemma trim_zeros_split s : exists k, s = trim_zeros s +:+ zeros k.
Proof.
  induction s as [|a s [k IH]]; [by exists 0%nat|]. cbn [trim_zeros].
  destruct (trim_zeros s) as [|b t] eqn:E.
  - rewrite app_nil_l' in IH. destruct (Ascii.eqb_spec a "0") as [->|].
    + exists (S k). by rewrite IH.
    + exists k. by rewrite app_cons, app_nil_l', IH.
  - exists k. by rewrite app_cons, IH at 1.
Qed.

Lemma take_fraction_format ns : 0 <= ns < 10 ^ 9 -> take_fraction (fraction ns +:+ "Z") = (ns, "Z").
Proof.
  intros Hn. unfold fraction. destruct (Z.eqb_spec ns 0) as [->|Hne]; [done|].
  destruct (pad_digits 9 ns) as [Hl Hv]; [lia|exact Hn|].
  destruct (trim_zeros_split (pad 9 ns)) as [k Hk]. set (d := trim_zeros (pad 9 ns)) in *.
  rewrite Hk in Hv, Hl. rewrite digits_val_app in Hv. apply bind_Some in Hv as (v & Hd & Hz).
  rewrite digits_zeros in Hz. injection Hz as Hz.
  assert (Hzl : String.length (zeros k) = k) by (clear; induction k; simpl; lia).
  rewrite length_str_app, Hzl in Hl. autorewrite with str. cbn [take_fraction].
  change (Ascii.eqb "." ".") with true. cbn iota.
  rewrite (digits_take d "Z" 0 v Hd) by done. destruct (String.eqb_spec d "") as [E|_].
  { rewrite E in Hd. injection Hd as <-. lia. }
  cbn zeta. rewrite str_take_all by lia. rewrite Hd. cbn [default from_option].
  replace (9 - Z.of_nat (String.length d)) with (Z.of_nat k) by lia. unfold default, id. by rewrite Hz.
Qed.

Lemma month_length lp yd :
  0 <= yd < (if lp : bool then 366 else 365) ->
  yd - days_before_month lp (month_of lp yd) + 1
  <= days_before_month lp (month_of lp yd + 1) - days_before_month lp (month_of lp yd)
     + if month_of lp yd =? 12 then 365 else 0.
Proof.
  intros H.
  assert (Hb : forallb (fun k => let m := month_of lp (Z.of_nat k) in
      Z.of_nat k - days_before_month lp m + 1
      <=? days_before_month lp (m + 1) - days_before_month lp m + if m =? 12 then 365 else 0)
      (seq 0 (if lp then 366 else 365)) = true) by (destruct lp; vm_compute; reflexivity).
  assert (Hin : In (Z.to_nat yd) (seq 0 (if lp then 366 else 365))) by (apply in_seq; destruct lp; lia).
  rewrite forallb_forall in Hb. apply Hb in Hin. cbn zeta in Hin.
  rewrite Z2Nat.id in Hin by lia. by apply Z.leb_le.
Qed.

Lemma month_at_most_31 lp m : 1 <= m <= 12 ->
  days_before_month lp (m + 1) - days_before_month lp m + (if m =? 12 then 365 else 0) <= 31.
Proof.
  intros Hm. assert (Hb : forallb (fun m => days_before_month lp (m + 1) - days_before_month lp m
    + (if m =? 12 then 365 else 0) <=? 31) [1;2;3;4;5;6;7;8;9;10;11;12] = true) by (by destruct lp).
  rewrite forallb_forall in Hb. apply Z.leb_le, Hb. simpl. lia.
Qed.

(** The date of a time is within the ranges of the parser. *)
Lemma Date_ranges t : 0 <= t ->
  1 <= Year (Date t) /\ 1 <= Month (Date t) <= 12
  /\ 1 <= Day (Date t) <= daysIn (Month (Date t)) (Year (Date t)) /\ Day (Date t) <= 31
  /\ days_before_year (Year (Date t)) + days_before_month (leap (Year (Date t))) (Month (Date t))
     + Day (Date t) - 1 = day_of t.
Proof.
  intros Ht. pose proof (Date_day t Ht) as (Hday & Hm & Hd).
  assert (Hd0 : 0 <= day_of t) by (apply Z.div_pos; [done|unfold nanos_per_day, Hour, Minute, Second; lia]).
  pose proof (year_of_spec _ Hd0) as Hys. rewrite days_before_year_step in Hys.
  assert (Hml : Day (Date t) <= daysIn (Month (Date t)) (Year (Date t))).
  { unfold daysIn, Date. cbn zeta. cbn [Year Month Day]. apply month_length. destruct (leap _); lia. }
  pose proof (month_at_most_31 (leap (Year (Date t))) (Month (Date t)) Hm) as H31.
  fold (daysIn (Month (Date t)) (Year (Date t))) in H31. split_and!; try lia.
  change (Year (Date t)) with (year_of (day_of t)). destruct (Z.le_gt_cases 1 (year_of (day_of t))); [done|].
  exfalso. unfold days_before_year in Hys. destruct (leap _); Z.to_euclidean_division_equations; lia.
Qed.

(** The clock of a day splits into hours, minutes, seconds and nanoseconds. *)
Lemma clock_split t :
  t = day_of t * nanos_per_day + clock_of t / Hour * Hour + clock_of t / Minute mod 60 * Minute
      + clock_of t / Second mod 60 * Second + clock_of t mod Second
  /\ 0 <= clock_of t / Hour <= 23 /\ 0 <= clock_of t / Minute mod 60 <= 59
  /\ 0 <= clock_of t / Second mod 60 <= 59 /\ 0 <= clock_of t mod Second < 10 ^ 9.
Proof.
  assert (Hc : 0 <= clock_of t < nanos_per_day) by (apply Z.mod_pos_bound; done).
  assert (Htd : t = day_of t * nanos_per_day + clock_of t)
    by (unfold day_of, clock_of; pose proof (Z.div_mod t nanos_per_day ltac:(done)); lia).
  unfold nanos_per_day, Hour, Minute, Second in *. Z.to_euclidean_division_equations; lia.
Qed.

(** Parsing undoes formatting. *)
Lemma parse_format t : 0 <= t -> Year (Date t) <= 9999 -> parse_RFC3339 (Format_RFC3339Nano t) = Some t.
Proof.
  intros Ht Hy. destruct (Date_ranges t Ht) as (Hy1 & Hm & Hd & Hd31 & Hday).
  destruct (clock_split t) as (Hclock & Hh & Hmi & Hs & Hns).
  unfold parse_RFC3339, Format_RFC3339Nano. cbn zeta. autorewrite with str.
  do 6 (rewrite take_uint_pad; [cbn [mbind option_bind]; try (rewrite lit_app; cbn [mbind option_bind])|lia..]).
  rewrite take_fraction_format by exact Hns. change (parse_zone "Z") with (Some 0). cbn [mbind option_bind].
  f_equal. lia.
Qed.

Lemma ascii_only_fraction ns : 0 <= ns < 10 ^ 9 -> ascii_only (fraction ns) = true.
Proof.
  intros Hn. unfold fraction. case_match; [done|]. destruct (pad_digits 9 ns) as [_ Hv]; [lia|exact Hn|].
  apply ascii_only_digits in Hv. destruct (trim_zeros_split (pad 9 ns)) as [k Hk]. rewrite Hk, ascii_only_app in Hv.
  apply andb_true_iff in Hv as [Hv _]. by rewrite app_cons, app_nil_l'.
Qed.
Lemma ascii_only_pad w n : (0 < w)%nat -> 0 <= n < 10 ^ Z.of_nat w -> ascii_only (pad w n) = true.
Proof. intros Hw Hn. destruct (pad_digits w n Hw Hn) as [_ Hv]. by eapply ascii_only_digits. Qed.

(** A formatted time is ASCII. *)
Lemma ascii_only_format t : 0 <= t -> Year (Date t) <= 9999 -> ascii_only (Format_RFC3339Nano t) = true.
Proof.
  intros Ht Hy. destruct (Date_ranges t Ht) as (Hy1 & Hm & Hd & Hd31 & Hday).
  destruct (clock_split t) as (Hclock & Hh & Hmi & Hs & Hns).
  unfold Format_RFC3339Nano. cbn zeta.
  rewrite !ascii_only_app, !ascii_only_pad, ascii_only_fraction by lia. done.
Qed.
