(* ===== verification/GoFloat.v ===== *)
(** * GoFloat: [strconv.ParseFloat] and [strconv.FormatFloat]

    Decimal literals and IEEE floating-point numbers, for the numbers of JSON
    bodies: a literal is rounded to the nearest number, ties to even, and is an
    error beyond the largest one; a number is printed with the fewest digits that
    are read back as the same number. *)

From S2P Require Import Prelude GoStrings GoSort GoTime GoJSON.
From Stdlib Require Import Ascii SpecFloat.

#[local] Open Scope Z_scope.

(** ** Reading *)

Definition first_is (c : ascii) (s : string) : option string :=
  match s with String a s' => if Ascii.eqb a c then Some s' else None | "" => None end.

(** A literal of the JSON grammar as a sign, a whole number and a power of ten. *)
Definition number_parts (lit : string) : bool * Z * Z :=
  let '(neg, s) := match first_is "-" lit with Some s => (true, s) | None => (false, lit) end in
  let '(i, s) := take_digits s in
  let '(f, s) := match first_is "." s with Some s => take_digits s | None => ("", s) end in
  let e := match s with
           | String a s' =>
               if Ascii.eqb a "e" || Ascii.eqb a "E" then
                 match first_is "-" s', first_is "+" s' with
                 | Some d, _ => - default 0 (digits_val 0 d)
                 | _, Some d => default 0 (digits_val 0 d)
                 | None, None => default 0 (digits_val 0 s')
                 end
               else 0
           | "" => 0
           end in
  (neg, default 0 (digits_val 0 (i +:+ f)), e - len f).

(** A positive quotient, rounded once: two bits more than the precision and a
    sticky bit decide the rounding. *)
Definition round_quotient (prec emax num den : Z) : spec_float :=
  let k := Z.max 0 (prec + 3 + Z.log2 den - Z.log2 num) in
  let q := (num * 2 ^ k) / den in
  let r := (num * 2 ^ k) mod den in
  binary_normalize prec emax (2 * q + if r =? 0 then 0 else 1) (- k - 1) false.

(** [ParseFloat] on a literal of the JSON grammar; [None] is out of range.
    A number of more than 310 digits is out of range, one below [10^-400] is
    zero, whatever the literal. *)
Definition ParseFloat (prec emax : Z) (lit : string) : option spec_float :=
  let '(neg, m, e) := number_parts lit in
  if m =? 0 then Some (S754_zero neg)
  else
    let magnitude := len (Itoa m) + e in
    if 310 <? magnitude then None
    else if magnitude <? -400 then Some (S754_zero neg)
    else
      let x := if 0 <=? e then round_quotient prec emax (m * 10 ^ e) 1
               else round_quotient prec emax m (10 ^ (- e)) in
      match x with
      | S754_infinity _ => None
      | _ => Some (if neg then SFopp x else x)
      end.
Definition ParseFloat64 : string -> option float64 := ParseFloat 53 1024.
Definition ParseFloat32 : string -> option float32 := ParseFloat 24 128.

(** ** Printing *)

(** The power of ten of the first digit of the quotient [num / den > 0]. *)
Fixpoint small_exponent (fuel : nat) (num den j : Z) : Z :=
  match fuel with
  | O => j
  | S fuel' => if den <=? num then j else small_exponent fuel' (num * 10) den (j - 1)
  end.
Definition decimal_exponent (num den : Z) : Z :=
  if den <=? num then len (Itoa (num / den)) - 1 else small_exponent 400 num den 0.

(** The shortest digits: [c * 10^k] with the least number of digits such that it
    lies between the neighbours half-way, bounds included for an even mantissa. *)
Section Shortest.
(** Four times the number and its two bounds, as numerators over [den]. *)
Variables (v lo hi den : Z) (even : bool).

Fixpoint shortest_go (fuel : nat) (p n : Z) : Z * Z :=
  let k := p - n + 1 in
  (** [c] units of [10^k]; numerators are compared after scaling by [s] *)
  let s := 10 ^ Z.max 0 (- k) in
  let unit := den * 10 ^ Z.max 0 k in
  let c := (v * s) / unit in
  let ok c := let num := c * unit in
              if even then (lo * s <=? num) && (num <=? hi * s) else (lo * s <? num) && (num <? hi * s) in
  let down := ok c in
  let up := ok (c + 1) in
  match fuel with
  | O => (c, k)
  | S fuel' =>
      if down && up then
        let twice := 2 * (v * s - c * unit) in
        if (twice <? unit) || ((twice =? unit) && Z.even c) then (c, k) else (c + 1, k)
      else if down then (c, k)
      else if up then (c + 1, k)
      else shortest_go fuel' p (n + 1)
  end.
End Shortest.

(** The digits of a positive number and the position of the decimal point:
    the number is [0.digits * 10^point]. *)
Definition shortest_digits (prec emax : Z) (m : positive) (e : Z) : string * Z :=
  let scale := 2 ^ Z.max 0 e in
  let den := 4 * 2 ^ Z.max 0 (- e) in
  let v := 4 * Z.pos m * scale in
  let hi := (4 * Z.pos m + 2) * scale in
  let lo := (4 * Z.pos m - if (Z.pos m =? 2 ^ (prec - 1)) && (3 - emax - prec <? e) then 1 else 2) * scale in
  let '(c, k) := shortest_go v lo hi den (Z.even (Z.pos m)) 17 (decimal_exponent v den) 1 in
  (trim_zeros (Itoa c), len (Itoa c) + k).

Definition zeros_z (n : Z) : string := zeros (Z.to_nat n).
(** The formats [%f] and [%e] with the shortest precision. *)
Definition format_f (d : string) (point : Z) : string :=
  let int := if 0 <? point then str_take (Z.to_nat point) d +:+ zeros_z (point - len d) else "0" in
  let frac := if point <? len d then "." +:+ zeros_z (- point) +:+ str_drop (Z.to_nat point) d else "" in
  int +:+ frac.
Definition format_e (d : string) (point : Z) : string :=
  let e := point - 1 in
  let digits := if len d =? 1 then d else str_take 1 d +:+ "." +:+ str_drop 1 d in
  digits +:+ "e" +:+ (if e <? 0 then "-" else "+") +:+ (if Z.abs e <? 10 then "0" else "") +:+ Itoa (Z.abs e).

(** [strconv.FormatFloat(x, 'f', -1, 64)] for a finite number. *)
Definition signed (s : bool) (t : string) : string := if s then "-" +:+ t else t.
Definition FormatFloat_f (x : float64) : string :=
  match x with
  | S754_zero s => signed s "0"
  | S754_finite s m e => let '(d, p) := shortest_digits 53 1024 m e in signed s (format_f d p)
  | S754_infinity s => if s then "-Inf" else "+Inf"
  | S754_nan => "NaN"
  end.

(** The encoder of [encoding/json]: [None] for a number that is not finite; the
    exponent form below [10^-6] and from [10^21] on, without its leading zero. *)
Definition json_float (x : float64) : option string :=
  match x with
  | S754_zero s => Some (signed s "0")
  | S754_finite s m e =>
      let '(d, p) := shortest_digits 53 1024 m e in
      let abs := S754_finite false m e in
      let tiny := match ParseFloat64 "1e-6" with Some t => flt abs t | None => false end in
      let huge := match ParseFloat64 "1e21" with Some t => negb (flt abs t) | None => false end in
      let t := if tiny || huge then format_e d p else format_f d p in
      let n := String.length t in
      let t := if (tiny || huge) && (4 <=? n)%nat && String.eqb (str_drop (n - 4) (str_take (n - 1) t)) "e-0"
               then str_take (n - 2) t +:+ str_drop (n - 1) t else t in
      Some (signed s t)
  | _ => None
  end.

Definition printed (lit : string) : option string := x ← ParseFloat64 lit; json_float x.
Example float_samples :
  forallb (fun p => bool_decide (printed p.1 = Some p.2))
    [
     ("0.1", "0.1");
     ("1.0", "1");
     ("100.0", "100");
     ("0.5", "0.5");
     ("123456.789", "123456.789");
     ("1e+21", "1e+21");
     ("1e+20", "100000000000000000000");
     ("1.2345678901234568e+20", "123456789012345680000");
     ("1e-06", "0.000001");
     ("1e-07", "1e-7");
     ("5e-324", "5e-324");
     ("1.7976931348623157e+308", "1.7976931348623157e+308");
     ("2.2250738585072014e-308", "2.2250738585072014e-308");
     ("9007199254740992.0", "9007199254740992");
     ("0.30000000000000004", "0.30000000000000004");
     ("4.35", "4.35");
     ("0.3333333333333333", "0.3333333333333333");
     ("1.5e-323", "1.5e-323");
     ("8.41e+21", "8.41e+21");
     ("1.152921504606847e+18", "1152921504606847000");
     ("5e-09", "5e-9");
     ("9.5367431640625e-07", "9.5367431640625e-7");
     ("2.9802322387695312e-08", "2.9802322387695312e-8")] = true.
Proof. vm_compute. reflexivity. Qed.
Example float_range :
  ParseFloat64 "1e309" = None /\ ParseFloat64 "1.7976931348623159e308" = None /\ ParseFloat64 "-1e-400" = Some (S754_zero true)
  /\ printed "-0" = Some "-0" /\ printed "17976931348623158e292" = printed "1.7976931348623157e308"
  /\ FormatFloat_f <$> ParseFloat64 "12e2" = Some "1200" /\ ParseFloat32 "3.5e38" = None.
Proof. vm_compute. auto 10. Qed.

(** ** Values of type [any]

    A JSON value decoded into an interface: numbers become doubles, an object a
    map in which the last value of a key counts. *)

Definition obj_get {A} (fs : list (string * A)) (k : string) : option A :=
  snd <$> last (filter (fun kv => kv.1 = k) fs).
(** A value that is not there is nil. *)
Definition get_any (fs : list (string * json)) (k : string) : json := default JNull (obj_get fs k).

(** [json.Unmarshal] into [any] fails on a number out of range. *)
Fixpoint any_ok (v : json) : bool :=
  match v with
  | JNum lit => match ParseFloat64 lit with Some _ => true | None => false end
  | JArr l => forallb any_ok l
  | JObj fs => forallb (fun kv => any_ok kv.2) fs
  | _ => true
  end.

(** The members of a map in the order in which they are encoded. *)
Definition sorted_keys (fs : list (string * json)) : list string := SliceStable str_less (remove_dups fs.*1).
(** [json.Marshal] of a decoded value: doubles printed anew, keys sorted. *)
Fixpoint any_json (v : json) : json :=
  match v with
  | JNum lit => JNum (default "0" (x ← ParseFloat64 lit; json_float x))
  | JArr l => JArr (map any_json l)
  | JObj fs =>
      let fs' := map (fun kv => (kv.1, any_json kv.2)) fs in
      JObj ((fun k => (k, get_any fs' k)) <$> sorted_keys fs')
  | _ => v
  end.

Example any_sample :
  any_json (JObj [("b", JNum "1.50"); ("a", JArr [JNum "1e3"]); ("b", JNull)]) = JObj [("a", JArr [JNum "1000"]); ("b", JNull)].
Proof. vm_compute. reflexivity. Qed.
