(* ===== verification/GoZlib.v ===== *)
(** * GoZlib: [compress/zlib] reading

    The decoder of zlib streams that the PDF extraction uses: the header, the
    DEFLATE blocks (stored, fixed and dynamic Huffman codes) and the Adler-32 sum.
    A stream that is read through a limit fails only if its error comes within
    the limit, so that the decoder returns what it produced before an error. *)

From S2P Require Import Prelude GoStrings.
From Stdlib Require Import Ascii.

#[local] Open Scope Z_scope.

(** ** Bits, least significant first *)

Definition byte_bits (z : Z) : list bool := Z.testbit z <$> [0; 1; 2; 3; 4; 5; 6; 7].
Fixpoint bits_of (s : string) : list bool :=
  match s with "" => [] | String a s' => byte_bits (byte_val a) ++ bits_of s' end.

Fixpoint take_bits (n : nat) (bits : list bool) : option (Z * list bool) :=
  match n, bits with
  | O, _ => Some (0, bits)
  | S n', b :: bits' => '(v, r) ← take_bits n' bits'; Some ((if b : bool then 1 else 0) + 2 * v, r)
  | S _, [] => None
  end.

(** ** Huffman codes *)

(** A canonical code, from the code length of each symbol: how many symbols have
    each length from 1, and the symbols in the order of their codes. *)
Record huffman := { h_counts : list Z; h_symbols : list Z }.

Definition count_len (lens : list Z) (k : Z) : Z := Z.of_nat (length (filter (fun l => l = k) lens)).
Definition lengths : list Z := [1; 2; 3; 4; 5; 6; 7; 8; 9; 10; 11; 12; 13; 14; 15].
Definition number_lens (lens : list Z) : list (Z * Z) := imap (fun i l => (Z.of_nat i, l)) lens.
(** [huffmanDecoder.init]: a code must be complete, a single one-bit code or empty. *)
Definition huffman_init (lens : list Z) : option huffman :=
  let max := foldr Z.max 0 lens in
  let sum := foldr (fun k acc => count_len lens k * 2 ^ (max - k) + acc) 0 (filter (fun k => k <= max) lengths) in
  if (max =? 0) || (sum =? 2 ^ max) || ((max =? 1) && (sum =? 1)) then
    Some {| h_counts := count_len lens <$> lengths;
            h_symbols := concat ((fun k => fst <$> filter (fun p => p.2 = k) (number_lens lens)) <$> lengths) |}
  else None.

(** [huffSym]: read a code, most significant bit first. *)
Fixpoint decode_sym (counts : list Z) (symbols : list Z) (code first index : Z) (bits : list bool)
    : option (Z * list bool) :=
  match counts, bits with
  | n :: counts', b :: bits' =>
      let code := code + if b : bool then 1 else 0 in
      if code - n <? first then
        s ← symbols !! Z.to_nat (index + (code - first)); Some (s, bits')
      else decode_sym counts' symbols (2 * code) (2 * (first + n)) (index + n) bits'
  | _, _ => None
  end.
Definition huff_sym (h : huffman) (bits : list bool) : option (Z * list bool) :=
  decode_sym (h_counts h) (h_symbols h) 0 0 0 bits.

(** ** Blocks *)

(** The base and the extra bits of a length symbol and of a distance symbol. *)
Definition length_base (v : Z) : option (Z * nat) :=
  if v <? 265 then Some (v - 254, 0%nat)
  else if v <? 269 then Some (v * 2 - (265 * 2 - 11), 1%nat)
  else if v <? 273 then Some (v * 4 - (269 * 4 - 19), 2%nat)
  else if v <? 277 then Some (v * 8 - (273 * 8 - 35), 3%nat)
  else if v <? 281 then Some (v * 16 - (277 * 16 - 67), 4%nat)
  else if v <? 285 then Some (v * 32 - (281 * 32 - 131), 5%nat)
  else if v <? 286 then Some (258, 0%nat)
  else None.
Definition read_distance (hd : option huffman) (bits : list bool) : option (Z * list bool) :=
  '(d, bits) ← match hd with
               | Some h => huff_sym h bits
               | None =>
                   '(v, bits) ← take_bits 5 bits;
                   Some (foldr (fun b acc => acc * 2 + b) 0
                           ((fun i => Z.b2z (Z.testbit v i)) <$> [4; 3; 2; 1; 0]), bits)
               end;
  if d <? 4 then Some (d + 1, bits)
  else if d <? 30 then
    let nb := (d - 2) / 2 in
    '(x, bits) ← take_bits (Z.to_nat nb) bits;
    Some (2 ^ (nb + 1) + 1 + ((d mod 2) * 2 ^ nb + x), bits)
  else None.

(** Copy [n] bytes from [d] back; the output is kept in reverse. *)
Fixpoint copy_back (n : nat) (d : nat) (out : list Z) : list Z :=
  match n with
  | O => out
  | S n' => copy_back n' d (nth (d - 1) out 0 :: out)
  end.

(** The output so far, and the bits that follow unless there was an error. *)
Definition progress : Type := list Z * option (list bool).

(** The symbols of a block up to its end marker; every symbol takes a bit. *)
Fixpoint huffman_block (fuel : nat) (hl : huffman) (hd : option huffman) (out : list Z) (bits : list bool)
    : progress :=
  match fuel with
  | O => (out, None)
  | S fuel' =>
      match huff_sym hl bits with
      | None => (out, None)
      | Some (v, bits) =>
          if v <? 256 then huffman_block fuel' hl hd (v :: out) bits
          else if v =? 256 then (out, Some bits)
          else
            match ('(base, extra) ← length_base v; '(x, bits) ← take_bits extra bits;
                   '(d, bits) ← read_distance hd bits;
                   if Z.of_nat (length out) <? d then None else Some (base + x, d, bits)) with
            | None => (out, None)
            | Some (n, d, bits) => huffman_block fuel' hl hd (copy_back (Z.to_nat n) (Z.to_nat d) out) bits
            end
      end
  end.

Definition fixed_lens : list Z :=
  repeat 8 144 ++ repeat 9 112 ++ repeat 7 24 ++ repeat 8 8.

(** [n] code lengths of three bits, and [n] code lengths in the code of the lengths. *)
Fixpoint read_code_lens (n : nat) (bits : list bool) : option (list Z * list bool) :=
  match n with
  | O => Some ([], bits)
  | S n' => '(v, bits) ← take_bits 3 bits; '(vs, bits) ← read_code_lens n' bits; Some (v :: vs, bits)
  end.
Fixpoint read_lens (fuel : nat) (h : huffman) (n : nat) (acc : list Z) (bits : list bool)
    : option (list Z * list bool) :=
  match fuel with
  | O => None
  | S fuel' =>
      if (n <=? length acc)%nat then Some (acc, bits)
      else
        '(x, bits) ← huff_sym h bits;
        if x <? 16 then read_lens fuel' h n (acc ++ [x]) bits
        else
          '(rep, nb, b) ← (if x =? 16 then b ← last acc; Some (3, 2%nat, b)
                           else if x =? 17 then Some (3, 3%nat, 0) else Some (11, 7%nat, 0));
          '(extra, bits) ← take_bits nb bits;
          let k := Z.to_nat (rep + extra) in
          if (n <? length acc + k)%nat then None
          else read_lens fuel' h n (acc ++ repeat b k) bits
  end.
Definition codeOrder : list nat := [16; 17; 18; 0; 8; 7; 9; 6; 10; 5; 11; 4; 12; 3; 13; 2; 14; 1; 15]%nat.
Definition read_huffman (bits : list bool) : option (huffman * huffman * list bool) :=
  '(hlit, bits) ← take_bits 5 bits; '(hdist, bits) ← take_bits 5 bits; '(hclen, bits) ← take_bits 4 bits;
  let nlit := hlit + 257 in
  let ndist := hdist + 1 in
  if (286 <? nlit) || (30 <? ndist) then None else
  '(cls, bits) ← read_code_lens (Z.to_nat (hclen + 4)) bits;
  h ← huffman_init (foldr (fun p acc => <[p.1 := p.2]> acc) (repeat 0 19) (zip codeOrder cls));
  '(lens, bits) ← read_lens (S (Z.to_nat (nlit + ndist))) h (Z.to_nat (nlit + ndist)) [] bits;
  hl ← huffman_init (take (Z.to_nat nlit) lens);
  hd ← huffman_init (drop (Z.to_nat nlit) lens);
  Some (hl, hd, bits).

(** Drop the bits up to the next byte. *)
Definition align (bits : list bool) : list bool := drop (length bits mod 8) bits.
Fixpoint read_bytes (n : nat) (bits : list bool) (out : list Z) : progress :=
  match n with
  | O => (out, Some bits)
  | S n' => match take_bits 8 bits with
            | Some (v, bits) => read_bytes n' bits (v :: out)
            | None => (out, None)
            end
  end.
Definition stored_block (out : list Z) (bits : list bool) : progress :=
  match ('(n, bits) ← take_bits 16 (align bits); '(nc, bits) ← take_bits 16 bits; Some (n, nc, bits)) with
  | Some (n, nc, bits) => if n =? 65535 - nc then read_bytes (Z.to_nat n) bits out else (out, None)
  | None => (out, None)
  end.

(** Blocks up to the final one; each takes at least three bits. *)
Fixpoint inflate (fuel : nat) (out : list Z) (bits : list bool) : progress :=
  match fuel with
  | O => (out, None)
  | S fuel' =>
      match ('(final, bits) ← take_bits 1 bits; '(typ, bits) ← take_bits 2 bits; Some (final, typ, bits)) with
      | None => (out, None)
      | Some (final, typ, bits) =>
          let '(out, r) :=
            if typ =? 0 then stored_block out bits
            else if typ =? 1 then
              match huffman_init fixed_lens with
              | Some h => huffman_block (length bits) h None out bits
              | None => (out, None)
              end
            else if typ =? 2 then
              match read_huffman bits with
              | Some (hl, hd, bits) => huffman_block (length bits) hl (Some hd) out bits
              | None => (out, None)
              end
            else (out, None) in
          match r with
          | None => (out, None)
          | Some bits => if final =? 1 then (out, Some bits) else inflate fuel' out bits
          end
      end
  end.

(** ** The stream *)

Definition adler32 (bs : list Z) : Z :=
  let '(a, b) := foldl (fun '(a, b) x => let a := (a + x) mod 65521 in (a, (b + a) mod 65521)) (1, 0) bs in
  b * 65536 + a.
Definition be32 (bits : list bool) : option Z :=
  match read_bytes 4 bits [] with
  | (bs, Some _) => Some (foldl (fun acc x => acc * 256 + x) 0 (reverse bs))
  | _ => None
  end.
Definition bytes_string (bs : list Z) : string := String.string_of_list_ascii (byte_of <$> bs).

(** [zlib.NewReader] ([None] on an error), then all that can be read and whether
    the stream ended without an error. *)
Definition zlib_read (s : string) : option (list Z * bool) :=
  match s with
  | String a (String b s') =>
      let cmf := byte_val a in
      let flg := byte_val b in
      if negb (Z.land cmf 15 =? 8) || (7 <? Z.shiftr cmf 4) || negb ((cmf * 256 + flg) mod 31 =? 0) then None
      else
        let bits := bits_of s' in
        bits ← (if Z.testbit flg 5 then
                  match be32 bits with
                  | Some sum => if sum =? 1 then Some (drop 32 bits) else None
                  | None => None
                  end
                else Some bits);
        let '(out, r) := inflate (length bits) [] bits in
        let out := reverse out in
        Some (out, match r with
                   | Some bits => match be32 (align bits) with
                                  | Some sum => sum =? adler32 out
                                  | None => false
                                  end
                   | None => false
                   end)
  | _ => None
  end.

(** [zlib.NewReader] and [io.ReadAll(io.LimitReader(zr, limit))]: [None] on an error. *)
Definition zlib_read_all (limit : Z) (s : string) : option string :=
  '(out, ok) ← zlib_read s;
  if limit <? Z.of_nat (length out) then Some (bytes_string (take (Z.to_nat limit) out))
  else if ok : bool then Some (bytes_string out) else None.

Definition sample_page : string := "BT (Hello world) Tj ET BT (Hello world again) Tj ET".
Definition stored_page : list Z := [120; 1; 1; 51; 0; 204; 255; 66; 84; 32; 40; 72; 101; 108; 108; 111; 32; 119; 111; 114; 108; 100; 41; 32; 84; 106; 32; 69; 84; 32; 66; 84; 32; 40; 72; 101; 108; 108; 111; 32; 119; 111; 114; 108; 100; 32; 97; 103; 97; 105; 110; 41; 32; 84; 106; 32; 69; 84; 156; 30; 15; 245].
Definition fixed_page : list Z := [120; 1; 115; 10; 81; 208; 240; 72; 205; 201; 201; 87; 40; 207; 47; 202; 73; 209; 84; 8; 201; 82; 112; 13; 81; 112; 66; 21; 86; 72; 76; 79; 204; 204; 131; 74; 2; 0; 156; 30; 15; 245].
Example zlib_stored : zlib_read_all 100 (bytes_string stored_page) = Some sample_page.
Proof. vm_compute. reflexivity. Qed.
Example zlib_fixed : zlib_read_all 100 (bytes_string fixed_page) = Some sample_page.
Proof. vm_compute. reflexivity. Qed.
(** A dynamic code, read through a limit. *)
Definition dynamic_stream : list Z :=
  [120; 218; 29; 78; 91; 10; 0; 65; 8; 186; 74; 87; 243; 67; 152; 126; 10; 202; 251; 179; 182; 48; 77; 47; 77; 155; 165; 173; 87; 25; 224; 195; 50; 25; 164; 48; 14; 54; 89; 20; 25; 179; 226; 46; 217; 13; 146; 67; 238; 253; 18; 17; 153; 7; 10; 215; 126; 166; 58; 189; 110; 118; 214; 77; 158; 224; 12; 148; 23; 22; 26; 215; 43; 169; 31; 97; 86; 223; 161; 120; 16; 100; 245; 181; 96; 237; 30; 72; 103; 161; 21; 46; 162; 64; 165; 111; 159; 181; 42; 29; 143; 141; 48; 164; 90; 190; 147; 103; 48; 205; 118; 227; 17; 51; 246; 232; 142; 249; 13; 246; 88; 31; 63; 243; 116; 188; 122; 48; 8; 150; 177; 9; 44; 6; 31; 241; 67; 103; 124].
Example zlib_dynamic : zlib_read_all 1000 (bytes_string dynamic_stream)
  = Some "oentsnhni aehaseie eetaretaeoeenetee rstesseeooaeeereeseerettea iieene ttette eeetthooeointetthtanteaaneeeentrteastttoheaeneoeese hatat aesaeonsstrteteetaot ete naetitteseienntaeneeoa teenotheaitee iesatheenoei steetteerttea oreaaanntaetat eethaei arteeaeasara".
Proof. vm_compute. reflexivity. Qed.
Example zlib_corrupt :
  zlib_read_all 100 (bytes_string (<[20%nat := 0]> fixed_page)) = None
  /\ zlib_read_all 3 (bytes_string (take 20 stored_page)) = Some "BT ".
Proof. vm_compute. auto. Qed.

(** ** The fuel is enough

    Every symbol takes a bit, every block three, and every round of the code lengths
    adds a length: more fuel than the model gives changes nothing. *)

Lemma take_bits_rest n : forall bits v r, take_bits n bits = Some (v, r) -> 0 <= v /\ (length r + n = length bits)%nat.
Proof.
  induction n as [|n IH]; intros [|b bits] v r H; cbn [take_bits] in H; try done; [by simplify_eq|simplify_eq; cbn; lia|].
  destruct (take_bits n bits) as [[v' r']|] eqn:E; [|done]. apply (inj Some) in H. injection H as <- <-.
  apply IH in E as [Hv Hl]. destruct b; cbn [length]; lia.
Qed.

Lemma decode_sym_rest counts symbols : forall code first index bits v r,
  decode_sym counts symbols code first index bits = Some (v, r) -> (length r < length bits)%nat.
Proof.
  induction counts as [|n counts IH]; intros code first index [|b bits] v r H; cbn [decode_sym] in H; try done.
  cbn zeta in H. destruct (_ <? first) in H.
  - destruct (symbols !! _) in H; [|done]. apply (inj Some) in H. injection H as _ <-. cbn. lia.
  - apply IH in H. cbn. lia.
Qed.

Lemma read_distance_rest hd bits d r : read_distance hd bits = Some (d, r) -> (length r <= length bits)%nat.
Proof.
  unfold read_distance. intros H. apply bind_Some in H as ([d' r1] & H1 & H).
  assert (Hr : (length r1 <= length bits)%nat).
  { destruct hd as [h|]; [apply decode_sym_rest in H1; lia|].
    apply bind_Some in H1 as ([v r2] & H2 & H1). apply (inj Some) in H1. injection H1 as _ <-.
    apply take_bits_rest in H2. lia. }
  destruct (d' <? 4); [apply (inj Some) in H; injection H as _ <-; done|]. destruct (d' <? 30); [|done].
  apply bind_Some in H as ([x r2] & H2 & H). apply (inj Some) in H. injection H as _ <-. apply take_bits_rest in H2. lia.
Qed.

(** The bits that a copy leaves. *)
Lemma copy_rest {A} v hd bits (f : Z -> Z -> Z -> list bool -> option A) x :
  ('(base, extra) ← length_base v; '(y, bits) ← take_bits extra bits;
   '(d, bits) ← read_distance hd bits; f base y d bits) = Some x ->
  exists base y d r, f base y d r = Some x /\ (length r <= length bits)%nat.
Proof.
  intros H. apply bind_Some in H as ([base extra] & _ & H). apply bind_Some in H as ([y r1] & H1 & H).
  apply bind_Some in H as ([d r2] & H2 & H). apply take_bits_rest in H1. apply read_distance_rest in H2.
  exists base, y, d, r2. split; [done|lia].
Qed.

Lemma huffman_block_fuel hl hd n : forall m out bits, (length bits <= n)%nat -> (length bits <= m)%nat ->
  huffman_block n hl hd out bits = huffman_block m hl hd out bits
  /\ forall r, (huffman_block n hl hd out bits).2 = Some r -> (length r <= length bits)%nat.
Proof.
  assert (Hnil : forall k hl hd out, huffman_block k hl hd out [] = (out, None)).
  { intros [|k] [counts syms] hd' out; [done|]. cbn [huffman_block]. unfold huff_sym. by destruct counts. }
  induction n as [|n IH]; intros m out bits Hn Hm.
  { destruct bits; [|cbn in Hn; lia]. by rewrite !Hnil. }
  destruct m as [|m]. { destruct bits; [|cbn in Hm; lia]. by rewrite !Hnil. }
  cbn [huffman_block]. destruct (huff_sym hl bits) as [[v r]|] eqn:Es; [|done].
  apply decode_sym_rest in Es. destruct (v <? 256).
  { destruct (IH m (v :: out) r) as [-> H]; [lia..|]. split; [done|]. intros r' Hr%H. lia. }
  destruct (v =? 256); [split; [done|]; cbn; intros r' [= <-]; lia|].
  match goal with |- context [length_base v ≫= ?k] => destruct (length_base v ≫= k) as [[[k' d] r1]|] eqn:Ec; [|done] end.
  apply (copy_rest v hd r (fun base x d bits => if Z.of_nat (length out) <? d then None else Some (base + x, d, bits)))
    in Ec as (base & y & d' & r2 & Hf & Hl).
  destruct (_ <? d') in Hf; [done|]. apply (inj Some) in Hf. injection Hf as <- <- <-.
  destruct (IH m (copy_back (Z.to_nat (base + y)) (Z.to_nat d') out) r2) as [-> H]; [lia..|].
  split; [done|]. intros r' Hr%H. lia.
Qed.

Lemma read_lens_fuel h n f1 : forall f2 acc bits, (n - length acc < f1)%nat -> (n - length acc < f2)%nat ->
  read_lens f1 h n acc bits = read_lens f2 h n acc bits.
Proof.
  induction f1 as [|f1 IH]; intros [|f2] acc bits H1 H2; [lia..|]. cbn [read_lens].
  destruct (Nat.leb_spec n (length acc)); [done|]. destruct (huff_sym h bits) as [[x r]|]; [|done]. cbn.
  destruct (x <? 16); [apply IH; rewrite length_app; cbn; lia|].
  match goal with |- (?o ≫= _) = _ => destruct o as [[[rep nb] b]|] eqn:Eo; [|done] end. cbn.
  assert (Hrep : 3 <= rep).
  { destruct (x =? 16); [destruct (last acc); [|done]|destruct (x =? 17)]; apply (inj Some) in Eo; injection Eo; lia. }
  destruct (take_bits nb r) as [[extra r']|] eqn:Et; [|done]. apply take_bits_rest in Et as [Hx _]. cbn.
  match goal with |- (if ?c then _ else _) = _ => destruct c; [done|] end. apply IH; rewrite length_app, repeat_length; lia.
Qed.

Lemma read_bytes_rest n : forall bits out r, (read_bytes n bits out).2 = Some r -> (length r <= length bits)%nat.
Proof.
  induction n as [|n IH]; intros bits out r H; cbn [read_bytes] in H; [cbn in H; by simplify_eq|].
  destruct (take_bits 8 bits) as [[v r1]|] eqn:E; [|done]. apply take_bits_rest in E. apply IH in H. lia.
Qed.
Lemma stored_block_rest out bits r : (stored_block out bits).2 = Some r -> (length r <= length bits)%nat.
Proof.
  unfold stored_block. intros H.
  match type of H with context [match ?o with _ => _ end] => destruct o as [[[n nc] r1]|] eqn:E; [|done] end.
  apply bind_Some in E as ([n' r2] & E1 & E). apply bind_Some in E as ([nc' r3] & E2 & E).
  apply (inj Some) in E. injection E as _ _ <-. apply take_bits_rest in E1, E2. destruct (_ =? _) in H; [|done].
  apply read_bytes_rest in H. unfold align in E1. rewrite length_drop in E1. lia.
Qed.

Lemma read_code_lens_rest n : forall bits vs r, read_code_lens n bits = Some (vs, r) -> (length r <= length bits)%nat.
Proof.
  induction n as [|n IH]; intros bits vs r H; cbn [read_code_lens] in H; [by simplify_eq|].
  apply bind_Some in H as ([v r1] & H1 & H). apply bind_Some in H as ([vs' r2] & H2 & H). apply (inj Some) in H.
  injection H as _ <-. apply take_bits_rest in H1. apply IH in H2. lia.
Qed.
Lemma read_lens_rest h n f : forall acc bits l r, read_lens f h n acc bits = Some (l, r) -> (length r <= length bits)%nat.
Proof.
  induction f as [|f IH]; intros acc bits l r H; cbn [read_lens] in H; [done|].
  destruct (n <=? length acc)%nat; [apply (inj Some) in H; by injection H as _ <-|].
  apply bind_Some in H as ([x r1] & H1 & H). apply decode_sym_rest in H1. destruct (x <? 16); [apply IH in H; lia|].
  apply bind_Some in H as ([[rep nb] b] & _ & H). apply bind_Some in H as ([extra r2] & H2 & H).
  apply take_bits_rest in H2. destruct (_ <? _)%nat in H; [done|]. apply IH in H. lia.
Qed.
Lemma read_huffman_rest bits hl hd r : read_huffman bits = Some (hl, hd, r) -> (length r <= length bits)%nat.
Proof.
  unfold read_huffman. intros H. apply bind_Some in H as ([a r1] & H1 & H). apply bind_Some in H as ([b r2] & H2 & H).
  apply bind_Some in H as ([c r3] & H3 & H). cbn zeta in H. destruct (_ || _) in H; [done|].
  apply bind_Some in H as ([cls r4] & H4 & H). apply bind_Some in H as (h & _ & H).
  apply bind_Some in H as ([lens r5] & H5 & H). apply bind_Some in H as (hl' & _ & H). apply bind_Some in H as (hd' & _ & H).
  apply (inj Some) in H. injection H as _ _ <-. apply take_bits_rest in H1, H2, H3. apply read_code_lens_rest in H4.
  apply read_lens_rest in H5. lia.
Qed.

(** What one block of a type leaves of the bits. *)
Lemma block_rest typ out bits r :
  (if typ =? 0 then stored_block out bits
   else if typ =? 1 then match huffman_init fixed_lens with
                         | Some h => huffman_block (length bits) h None out bits
                         | None => (out, None)
                         end
   else if typ =? 2 then match read_huffman bits with
                         | Some (hl, hd, bits) => huffman_block (length bits) hl (Some hd) out bits
                         | None => (out, None)
                         end
   else (out, None)).2 = Some r -> (length r <= length bits)%nat.
Proof.
  destruct (typ =? 0); [apply stored_block_rest|]. destruct (typ =? 1).
  { destruct (huffman_init fixed_lens) as [h|]; [|done]. apply (huffman_block_fuel h None (length bits) (length bits)); done. }
  destruct (typ =? 2); [|done]. destruct (read_huffman bits) as [[[hl hd] r1]|] eqn:E; [|done]. apply read_huffman_rest in E.
  intros H. apply (huffman_block_fuel hl (Some hd) (length r1) (length r1)) in H; [lia|done..].
Qed.

Lemma inflate_fuel n : forall m out bits, (length bits <= n)%nat -> (length bits <= m)%nat ->
  inflate n out bits = inflate m out bits.
Proof.
  assert (Hnil : forall k out, inflate k out [] = (out, None)) by (by intros []).
  induction n as [|n IH]; intros m out bits Hn Hm.
  { destruct bits; [|cbn in Hn; lia]. by rewrite !Hnil. }
  destruct m as [|m]. { destruct bits; [|cbn in Hm; lia]. by rewrite !Hnil. }
  cbn [inflate].
  match goal with |- match ?o with _ => _ end = _ => destruct o as [[[final typ] r]|] eqn:E; [|done] end.
  apply bind_Some in E as ([f r1] & E1 & E). apply bind_Some in E as ([t r2] & E2 & E). apply (inj Some) in E.
  injection E as _ _ <-. apply take_bits_rest in E1, E2.
  match goal with |- match ?b with _ => _ end = _ => destruct b as [out' [r3|]] eqn:Eb; [|done] end.
  assert (Hb : (length r3 <= length r2)%nat) by (apply (block_rest typ out r2); unfold progress in *; by rewrite Eb).
  destruct (final =? 1); [done|]. apply IH; lia.
Qed.
