(* ===== verification/GoDuration.v ===== *)
(** * GoDuration: time.ParseDuration and fmt.Sscanf with the verb %d

    The two parsers the configuration uses for durations and counts, at the width of
    [uint64] and [int64], with the overflow checks of the library.  The lemma: a
    duration that is accepted is an [int64]. *)

From Stdlib Require Import SpecFloat.
From S2P Require Import Prelude GoStrings GoSort GoJSON.

#[local] Open Scope Z_scope.

(** [leadingInt]: the leading digits, and what follows. *)
Fixpoint leadingInt (x : Z) (s : string) : option (Z * string) :=
  match s with
  | String a s' =>
      if is_digit a then
        if 2^63 / 10 <? x then None
        else
          let y := x * 10 + (byte_val a - 48) in
          if 2^63 <? y then None else leadingInt y s'
      else Some (x, s)
  | "" => Some (x, "")
  end.
(** [leadingFraction]: digits beyond the precision are skipped; the scale is a power
    of ten. *)
Fixpoint leadingFraction (overflow : bool) (x scale : Z) (s : string) : Z * Z * string :=
  match s with
  | String a s' =>
      if is_digit a then
        if overflow then leadingFraction true x scale s'
        else if (2^63 - 1) / 10 <? x then leadingFraction true x scale s'
        else
          let y := x * 10 + (byte_val a - 48) in
          if 2^63 <? y then leadingFraction true x scale s' else leadingFraction false y (scale * 10) s'
      else (x, scale, s)
  | "" => (x, scale, "")
  end.
(** The unit: everything up to the next digit or period. *)
Fixpoint take_unit (s : string) : string * string :=
  match s with
  | String a s' =>
      if (byte_val a =? 46) || is_digit a then ("", s) else let '(u, r) := take_unit s' in (String a u, r)
  | "" => ("", "")
  end.
Definition unitMap (u : string) : option Z :=
  if String.eqb u "ns" then Some 1
  else if String.eqb u "us" || String.eqb u (encode_rune 0xB5 +:+ "s") || String.eqb u (encode_rune 0x3BC +:+ "s") then Some 1000
  else if String.eqb u "ms" then Some Millisecond
  else if String.eqb u "s" then Some Second
  else if String.eqb u "m" then Some Minute
  else if String.eqb u "h" then Some Hour
  else None.
(** [uint64(x)] for a double that fits. *)
Definition truncate (x : float64) : Z :=
  match x with
  | S754_finite false m e => if 0 <=? e then Zpos m * 2 ^ e else Zpos m / 2 ^ (- e)
  | _ => 0
  end.

(** One number with its unit, and what follows. *)
Definition duration_part (s : string) : option (Z * string) :=
  match s with
  | "" => None
  | String a _ =>
  if negb ((byte_val a =? 46) || is_digit a) then None
  else
  '(v, s1) ← leadingInt 0 s;
  let pre := negb (String.length s1 =? String.length s)%nat in
  let '(f, scale, s2, post) :=
    match s1 with
    | String b s' =>
        if byte_val b =? 46 then
          let '(f, scale, s2) := leadingFraction false 0 1 s' in (f, scale, s2, negb (String.length s2 =? String.length s')%nat)
        else (0, 1, s1, false)
    | "" => (0, 1, s1, false)
    end in
  if negb pre && negb post then None
  else
  let '(u, s3) := take_unit s2 in
  if String.eqb u "" then None
  else
  unit ← unitMap u;
  if 2^63 / unit <? v then None
  else
  let v := v * unit in
  let v := if 0 <? f then v + truncate (fmul (float_of_int f) (fdiv (float_of_int unit) (float_of_int scale))) else v in
  if (0 <? f) && (2^63 <? v) then None else Some (v, s3)
  end.

Fixpoint duration_loop (fuel : nat) (d : Z) (s : string) : option Z :=
  match s with
  | "" => Some d
  | _ =>
  match fuel with
  | O => None
  | S fuel' =>
      '(v, s') ← duration_part s;
      let d := (d + v) mod 2^64 in
      if 2^63 <? d then None else duration_loop fuel' d s'
  end
  end.

(** Each part is at least one byte long, so the length of the text is fuel enough. *)
Definition ParseDuration (s : string) : option Z :=
  let '(neg, s) := match s with
                   | String a s' => if byte_val a =? 45 then (true, s') else if byte_val a =? 43 then (false, s') else (false, s)
                   | "" => (false, s)
                   end in
  if String.eqb s "0" then Some 0
  else if String.eqb s "" then None
  else
  d ← duration_loop (String.length s) 0 s;
  if neg then Some (wrap64 (- d)) else if 2^63 - 1 <? d then None else Some d.

(** [fmt.Sscanf(v, "%d", &x)] on a text without white space in front: the variable
    keeps its value unless a number that fits is read. *)
Definition Sscanf_d (v : string) (old : Z) : Z :=
  let '(sign, s) := match v with
                    | String a s' => if byte_val a =? 45 then ("-", s') else if byte_val a =? 43 then ("", s') else ("", v)
                    | "" => ("", v)
                    end in
  let '(digits, _) := take_digits s in
  if String.eqb digits "" then old else default old (ParseInt64 (sign +:+ digits)).

Example durations :
  ParseDuration "1h30m" = Some (90 * Minute) /\ ParseDuration "-1.5s" = Some (-1500 * Millisecond)
  /\ ParseDuration ".5ms" = Some 500000 /\ ParseDuration "0" = Some 0 /\ ParseDuration "5" = None
  /\ ParseDuration "" = None /\ ParseDuration "1d" = None /\ ParseDuration "2540400h10m10.000000000s" = Some 9145440610000000000
  /\ ParseDuration "9223372036854775808ns" = None /\ ParseDuration "-9223372036854775808ns" = Some (- 2^63)
  /\ ParseDuration "0.9223372036854775807h" = Some 3320413933267.
Proof. vm_compute. auto 20. Qed.
Example scanned : Sscanf_d "12abc" 0 = 12 /\ Sscanf_d "abc" 7 = 7 /\ Sscanf_d "-3" 0 = -3 /\ Sscanf_d "99999999999999999999" 7 = 7.
Proof. vm_compute. auto. Qed.

(** A part consumes at least a byte. *)
Lemma leadingInt_rest s : forall x v r, leadingInt x s = Some (v, r) -> (String.length r <= String.length s)%nat.
Proof.
  induction s as [|a s IH]; intros x v r; cbn [leadingInt]; [intros [= _ <-]; done|].
  destruct (is_digit a); [|intros [= _ <-]; done]. destruct (_ <? x); [discriminate|]. cbn zeta.
  destruct (_ <? _); [discriminate|]. intros H%IH. cbn. lia.
Qed.
Lemma leadingFraction_rest s : forall o x sc, (String.length (leadingFraction o x sc s).2 <= String.length s)%nat.
Proof.
  induction s as [|a s IH]; intros o x sc; cbn [leadingFraction]; [done|]. cbn zeta.
  repeat case_match; cbn [snd]; try done; (etransitivity; [apply IH|cbn; lia]).
Qed.
Lemma take_unit_rest s u r : take_unit s = (u, r) -> u <> "" -> (String.length r < String.length s)%nat.
Proof.
  assert (H : forall s u r, take_unit s = (u, r) -> (String.length r <= String.length s)%nat).
  { clear. induction s as [|a s IH]; intros u r; cbn [take_unit]; [intros [= _ <-]; done|].
    destruct (_ || _); [intros [= _ <-]; done|]. destruct (take_unit s) as [u' r'] eqn:E. intros [= _ <-].
    specialize (IH _ _ eq_refl). cbn. lia. }
  destruct s as [|a s]; cbn [take_unit]; [intros [= <- _]; done|]. destruct (_ || _); [intros [= <- _]; done|].
  destruct (take_unit s) as [u' r'] eqn:E. intros [= _ <-] _. apply H in E. cbn. lia.
Qed.
Lemma duration_part_rest s v r : duration_part s = Some (v, r) -> (String.length r < String.length s)%nat.
Proof.
  unfold duration_part. destruct s as [|a s0]; [discriminate|]. set (s := String a s0).
  destruct (negb _); [discriminate|]. intros (x & H1 & H)%bind_Some. destruct x as [v1 s1]. apply leadingInt_rest in H1.
  cbn zeta in H.
  assert (Hs2 : exists f sc s2 post, (match s1 with
    | String b s' => if byte_val b =? 46 then
          let '(f, scale, s2) := leadingFraction false 0 1 s' in (f, scale, s2, negb (String.length s2 =? String.length s')%nat)
        else (0, 1, s1, false)
    | "" => (0, 1, s1, false) end) = (f, sc, s2, post) /\ (String.length s2 <= String.length s1)%nat).
  { destruct s1 as [|b s']; [by exists 0, 1, "", false|]. destruct (_ =? 46); [|by exists 0, 1, (String b s'), false].
    pose proof (leadingFraction_rest s' false 0 1) as Hf. destruct (leadingFraction _ _ _ s') as [[f sc] s2].
    exists f, sc, s2, (negb (String.length s2 =? String.length s')%nat). split; [done|]. cbn in *. lia. }
  destruct Hs2 as (f & sc & s2 & post & E & Hs2). rewrite E in H. clear E.
  destruct (_ && _); [discriminate|]. destruct (take_unit s2) as [u s3] eqn:Eu.
  destruct (String.eqb_spec u "") as [|Hu]; [discriminate|]. apply take_unit_rest in Eu; [|done].
  apply bind_Some in H as (unit & _ & H). destruct (_ <? v1); [discriminate|].
  destruct (_ && _); [discriminate|]. apply (inj Some) in H. injection H as _ <-. lia.
Qed.
Lemma duration_loop_fuel n : forall m d s, (String.length s <= n)%nat -> (String.length s <= m)%nat ->
  duration_loop n d s = duration_loop m d s.
Proof.
  induction n as [|n IH]; intros m d s Hn Hm.
  { destruct s; [by destruct m|cbn in Hn; lia]. }
  destruct s as [|a s]; [by destruct m|]. destruct m as [|m]; [cbn in Hm; lia|]. cbn [duration_loop].
  destruct (duration_part (String a s)) as [[v r]|] eqn:E; [|done]. apply duration_part_rest in E. cbn.
  destruct (_ <? _); [done|]. apply IH; cbn in *; lia.
Qed.
Lemma duration_loop_range n : forall d s x, 0 <= d <= 2^63 -> duration_loop n d s = Some x -> 0 <= x <= 2^63.
Proof.
  induction n as [|n IH]; intros d s x Hd; destruct s as [|a s]; cbn [duration_loop]; try discriminate;
    try (intros [= <-]; done). intros ([v r] & _ & H)%bind_Some.
  destruct (Z.ltb_spec (2^63) ((d + v) mod 2^64)); [discriminate|]. eapply IH; [|exact H].
  pose proof (Z.mod_pos_bound (d + v) (2^64)). lia.
Qed.
(** A duration is an [int64]. *)
Lemma ParseDuration_range s d : ParseDuration s = Some d -> int64_range d.
Proof.
  unfold ParseDuration. destruct (match s with String a s' => _ | "" => _ end) as [neg s'].
  destruct (String.eqb s' "0"); [intros [= <-]; split; [done|lia]|]. destruct (String.eqb s' ""); [discriminate|].
  intros (x & Hx & H)%bind_Some. apply duration_loop_range in Hx; [|lia]. destruct neg.
  - apply (inj Some) in H as <-. apply wrap64_range.
  - destruct (Z.ltb_spec (2^63 - 1) x); [discriminate|]. apply (inj Some) in H as <-. unfold int64_range. lia.
Qed.
