(* ===== verification/Contracts.v ===== *)
(** * Contracts: internal/contracts

    The data types every component exchanges, their [Validate] methods, the
    request context that carries the tenant and the actor, and the ports
    (Go interfaces) the services call.  A port is a record of operations over
    an abstract world [W]: an implementation may read and change [W], and a
    client's theorems hold for every implementation. *)

From S2P Require Import Prelude GoStrings GoSort.

#[local] Open Scope Z_scope.

(** ** Tenants and the request context *)

Definition TenantID := string.

Definition TenantID_Validate (t : TenantID) : option error :=
  require (negb (String.eqb t "")) "tenant_id is required".

Record TenantContext := { tc_TenantID : TenantID; tc_RequestID : string }.

Definition ErrTenantContextMissing := ErrVar "contracts.ErrTenantContextMissing" "tenant context missing".
Definition ErrTenantContextMalformed := ErrVar "contracts.ErrTenantContextMalformed" "tenant context malformed".
Definition ErrTenantScopeRequired := ErrVar "contracts.ErrTenantScopeRequired" "tenant scope is required".
Definition ErrTenantScopeMismatch := ErrVar "contracts.ErrTenantScopeMismatch" "tenant scope mismatch".

Definition TenantContext_Validate (c : TenantContext) : option error :=
  TenantID_Validate (tc_TenantID c) ;;?
  require (negb (String.eqb (tc_RequestID c) "")) "request_id is required".

(** The keys of [context.WithValue] the program uses, and the values stored. *)
Inductive ctx_key := tenantContextKey | actorContextKey | UserIDKey | RequestIDKey.
Inductive ctx_value :=
| CtxTenant (tc : TenantContext)
| CtxString (s : string)
| CtxInt64 (z : Z).
Inductive Ctx := Background | WithValue (parent : Ctx) (k : ctx_key) (v : ctx_value).
(** A [context.Context] may be nil. *)
Definition context := option Ctx.

#[global] Instance ctx_key_eq_dec : EqDecision ctx_key.
Proof. solve_decision. Defined.

Fixpoint Value (c : Ctx) (k : ctx_key) : option ctx_value :=
  match c with
  | Background => None
  | WithValue parent k' v => if decide (k = k') then Some v else Value parent k
  end.

Definition WithTenantContext (ctx : context) (tc : TenantContext) : result context :=
  let ctx := default Background ctx in
  match TenantContext_Validate tc with
  | Some err => Err (errors_New (Error ErrTenantContextMalformed +:+ ": " +:+ Error err))
  | None => Ok (Some (WithValue ctx tenantContextKey (CtxTenant tc)))
  end.

Definition TenantContextFromContext (ctx : context) : result TenantContext :=
  match ctx with
  | None => Err ErrTenantContextMissing
  | Some c =>
      match Value c tenantContextKey with
      | None => Err ErrTenantContextMissing
      | Some (CtxTenant tc) =>
          match TenantContext_Validate tc with
          | Some err => Err (errors_New (Error ErrTenantContextMalformed +:+ ": " +:+ Error err))
          | None => Ok tc
          end
      | Some _ => Err ErrTenantContextMalformed
      end
  end.

Definition RequireTenantScope (ctx : context) : result TenantContext :=
  match TenantContextFromContext ctx with
  | Err err => Err (errors_New (Error ErrTenantScopeRequired +:+ ": " +:+ Error err))
  | Ok tc => Ok tc
  end.

Definition EnsureTenantMatch (ctx : context) (tenantID : TenantID) : option error :=
  match RequireTenantScope ctx with
  | Err err => Some err
  | Ok tc =>
      TenantID_Validate tenantID ;;?
      if negb (String.eqb (tc_TenantID tc) tenantID)
      then Some (errors_New (Error ErrTenantScopeMismatch +:+ ": scope=" +:+ tc_TenantID tc
                             +:+ " target=" +:+ tenantID))
      else None
  end.

Definition WithActorID (ctx : context) (actorID : string) : context :=
  let ctx := default Background ctx in
  let trimmed := TrimSpace actorID in
  if String.eqb trimmed "" then Some ctx
  else Some (WithValue ctx actorContextKey (CtxString trimmed)).

(** [None] stands for [("", false)]. *)
Definition ActorIDFromContext (ctx : context) : option string :=
  match ctx with
  | None => None
  | Some c =>
      match Value c actorContextKey with
      | Some (CtxString s) =>
          let actorID := TrimSpace s in
          if String.eqb actorID "" then None else Some actorID
      | _ => None
      end
  end.

Definition normalizeProviderUserPart (value : string) : string :=
  let trimmed := TrimSpace value in
  if String.eqb trimmed "" then ""
  else
    let parts := Fields trimmed in
    if (length parts =? 0)%nat then "" else Join parts "_".

Definition ProviderUserIDFromContext (ctx : context) : option string :=
  match ActorIDFromContext ctx with
  | None => None
  | Some actorID =>
      match TenantContextFromContext ctx with
      | Err _ => Some (normalizeProviderUserPart actorID)
      | Ok tc =>
          if String.eqb (TrimSpace (tc_TenantID tc)) ""
          then Some (normalizeProviderUserPart actorID)
          else
            let actorPart := normalizeProviderUserPart actorID in
            let tenantPart := normalizeProviderUserPart (tc_TenantID tc) in
            if String.eqb actorPart ""
            then if String.eqb tenantPart "" then None else Some tenantPart
            else if String.eqb tenantPart "" then Some actorPart
            else Some (actorPart +:+ "_" +:+ tenantPart)
      end
  end.

(** [WrapValidationErr] on an error that is not nil, which is how every caller uses it: the
    case nil is the match of the caller. *)
Definition WrapValidationErr (contract : string) (err : error) : error :=
  errors_New (contract +:+ " contract validation failed: " +:+ Error err).

(** ** Authentication and request metadata *)

Record AuthClaims := {
  ac_TenantID : TenantID; ac_Subject : string; ac_APIKeyID : string;
  ac_Scopes : list string; ac_IssuedAt : Time }.

Definition AuthClaims_Validate (c : AuthClaims) : option error :=
  TenantID_Validate (ac_TenantID c) ;;?
  require (negb (String.eqb (ac_Subject c) "")) "subject is required" ;;?
  require (negb (String.eqb (ac_APIKeyID c) "")) "api_key_id is required" ;;?
  require (negb (IsZero (ac_IssuedAt c))) "issued_at is required".

Record RequestMetadata := {
  rm_TenantID : TenantID; rm_RequestID : string; rm_SourceIP : string; rm_UserAgent : string }.

Definition RequestMetadata_Validate (m : RequestMetadata) : option error :=
  TenantID_Validate (rm_TenantID m) ;;?
  require (negb (String.eqb (rm_RequestID m) "")) "request_id is required".

(** ** Ingestion *)

Definition IngestionStatus := string.
Definition IngestionStatusQueued : IngestionStatus := "queued".
Definition IngestionStatusApproved : IngestionStatus := "approved".
Definition IngestionStatusQuarantine : IngestionStatus := "quarantine".
Definition IngestionStatusRejected : IngestionStatus := "rejected".
Definition IngestionStatusIndexing : IngestionStatus := "indexing".
Definition IngestionStatusIndexed : IngestionStatus := "indexed".
Definition IngestionStatusFailed : IngestionStatus := "failed".

Record IngestionJob := {
  job_JobID : string; job_TenantID : TenantID; job_SourceURI : string;
  job_Checksum : string; job_PolicyDecision : IngestionStatus; job_CreatedAt : Time }.

Definition IngestionJob_Validate (j : IngestionJob) : option error :=
  TenantID_Validate (job_TenantID j) ;;?
  require (negb (String.eqb (job_JobID j) "")) "job_id is required" ;;?
  require (negb (String.eqb (job_SourceURI j) "")) "source_uri is required" ;;?
  require (negb (IsZero (job_CreatedAt j))) "created_at is required".

Record QueueMessage := {
  msg_MessageID : string; msg_Job : IngestionJob; msg_IdempotencyKey : string;
  msg_Attempt : Z; msg_EnqueuedAt : Time }.

Definition QueueMessage_Validate (m : QueueMessage) : option error :=
  require (negb (String.eqb (msg_MessageID m) "")) "message_id is required" ;;?
  match IngestionJob_Validate (msg_Job m) with
  | Some err => Some (errors_New ("job invalid: " +:+ Error err))
  | None =>
      require (negb (msg_Attempt m <? 0)) "attempt must be >= 0" ;;?
      require (negb (IsZero (msg_EnqueuedAt m))) "enqueued_at is required"
  end.

Record VectorRecord := {
  vr_RecordID : string; vr_TenantID : TenantID; vr_JobID : string; vr_ChunkText : string;
  vr_Embedding : list float32; vr_Metadata : gmap string string; vr_IndexedAt : Time;
  vr_SourceURI : string; vr_ObjectKey : string; vr_Checksum : string; vr_RetryCount : Z }.

Definition VectorRecord_Validate (r : VectorRecord) : option error :=
  require (negb (String.eqb (vr_RecordID r) "")) "record_id is required" ;;?
  TenantID_Validate (vr_TenantID r) ;;?
  require (negb (String.eqb (vr_JobID r) "")) "job_id is required" ;;?
  require (negb (String.eqb (TrimSpace (vr_ChunkText r)) "")) "chunk_text is required" ;;?
  require (negb (length (vr_Embedding r) =? 0)%nat) "embedding is required" ;;?
  require (negb (IsZero (vr_IndexedAt r))) "indexed_at is required" ;;?
  require (negb (String.eqb (vr_SourceURI r) "")) "source_uri is required" ;;?
  require (negb (String.eqb (vr_Checksum r) "")) "checksum is required" ;;?
  require (negb (vr_RetryCount r <? 0)) "retry_count must be >= 0".

Definition RetentionClass := string.
Definition RetentionClassRawBlob : RetentionClass := "raw_blob".
Definition RetentionClassChunk : RetentionClass := "chunk".
Definition RetentionClassAuditEvent : RetentionClass := "audit_event".

Record RetentionRecord := {
  rr_TenantID : TenantID; rr_JobID : string; rr_Class : RetentionClass;
  rr_Resource : string; rr_RetentionUntil : Time }.

Definition RetentionRecord_Validate (r : RetentionRecord) : option error :=
  TenantID_Validate (rr_TenantID r) ;;?
  require (negb (String.eqb (rr_JobID r) "")) "job_id is required" ;;?
  require (negb (String.eqb (rr_Class r) "")) "retention class is required" ;;?
  require (negb (String.eqb (TrimSpace (rr_Resource r)) "")) "resource is required" ;;?
  require (negb (IsZero (rr_RetentionUntil r))) "retention_until is required".

Definition PayloadClassification := string.
Definition PayloadClassValid : PayloadClassification := "valid".
Definition PayloadClassInvalidPayload : PayloadClassification := "invalid_payload".
Definition PayloadClassInvalidTenant : PayloadClassification := "invalid_tenant".
Definition PayloadClassInvalidSource : PayloadClassification := "invalid_source".

Record IngestionMetadata := {
  im_TenantID : TenantID; im_ChecksumSHA256 : string; im_SourceURI : string;
  im_LifecycleClass : string; im_CapturedAt : Time }.

Record TenantRecord := {
  tr_TenantID : TenantID; tr_DisplayName : string; tr_PlanTier : string;
  tr_Active : bool; tr_UpdatedAt : Time }.

Definition TenantRecord_Validate (t : TenantRecord) : option error :=
  TenantID_Validate (tr_TenantID t) ;;?
  require (negb (String.eqb (TrimSpace (tr_DisplayName t)) "")) "display_name is required" ;;?
  require (negb (String.eqb (TrimSpace (tr_PlanTier t)) "")) "plan_tier is required" ;;?
  require (negb (IsZero (tr_UpdatedAt t))) "updated_at is required".

Definition IngestionMetadata_Validate (m : IngestionMetadata) : option error :=
  TenantID_Validate (im_TenantID m) ;;?
  require (negb (String.eqb (im_ChecksumSHA256 m) "")) "checksum_sha256 is required" ;;?
  require (negb (String.eqb (im_SourceURI m) "")) "source_uri is required" ;;?
  require (negb (String.eqb (im_LifecycleClass m) "")) "lifecycle_class is required" ;;?
  require (negb (IsZero (im_CapturedAt m))) "captured_at is required".

Record IngestionProfile := {
  ip_Metadata : IngestionMetadata; ip_PayloadBytes : Z; ip_ContentType : string;
  ip_LineCount : Z; ip_WordCount : Z; ip_Classification : PayloadClassification;
  ip_ErrorReason : string }.

Definition IngestionProfile_Validate (p : IngestionProfile) : option error :=
  IngestionMetadata_Validate (ip_Metadata p) ;;?
  require (negb (ip_PayloadBytes p <? 0)) "payload_bytes must be >= 0" ;;?
  require (negb (String.eqb (ip_Classification p) "")) "classification is required" ;;?
  require (negb (negb (String.eqb (ip_Classification p) PayloadClassValid)
                 && String.eqb (ip_ErrorReason p) ""))
    "error_reason is required for invalid classifications".

Record PolicyEngineInput := {
  pe_TenantID : TenantID; pe_ChecksumSHA256 : string; pe_SourceURI : string;
  pe_LifecycleClass : string; pe_Classification : PayloadClassification; pe_ErrorReason : string }.

Definition ToPolicyEngineInput (p : IngestionProfile) : PolicyEngineInput := {|
  pe_TenantID := im_TenantID (ip_Metadata p);
  pe_ChecksumSHA256 := im_ChecksumSHA256 (ip_Metadata p);
  pe_SourceURI := im_SourceURI (ip_Metadata p);
  pe_LifecycleClass := im_LifecycleClass (ip_Metadata p);
  pe_Classification := ip_Classification p;
  pe_ErrorReason := ip_ErrorReason p |}.

(** ** Retrieval *)

Record RetrievalQuery := {
  rq_TenantID : TenantID; rq_RequestID : string; rq_Text : string; rq_TopK : Z }.

Definition RetrievalQuery_Validate (q : RetrievalQuery) : option error :=
  TenantID_Validate (rq_TenantID q) ;;?
  require (negb (String.eqb (rq_RequestID q) "")) "request_id is required" ;;?
  require (negb (String.eqb (rq_Text q) "")) "query text is required" ;;?
  require (negb (rq_TopK q <=? 0)) "top_k must be > 0".

Record MetadataFilters := {
  mf_Category : string; mf_DateRange : string; mf_Priority : option Z }.
Record StructuredQuery := {
  sq_ExpandedQueries : list string; sq_MetadataFilters : MetadataFilters }.

Record RetrievalDocument := {
  doc_DocumentID : string; doc_TenantID : TenantID; doc_Content : string;
  doc_Score : float64; doc_SourceURI : string; doc_Metadata : gmap string string }.

Record RetrievalTrace := {
  rt_TenantFilterApplied : bool; rt_CandidateCount : Z; rt_RerankApplied : bool;
  rt_FallbackReason : string; rt_DurationMillis : Z; rt_VectorProvider : string;
  rt_VectorStatus : string; rt_VectorLatencyMillis : Z; rt_GatewayProvider : string;
  rt_GatewayStatus : string; rt_GatewayModel : string; rt_GatewayLatencyMillis : Z;
  rt_GatewayTokenInput : Z; rt_GatewayTokenOutput : Z; rt_GatewayTokenTotal : Z }.

Record RetrievalResult := {
  res_TenantID : TenantID; res_RequestID : string; res_Documents : list RetrievalDocument;
  res_Citations : list string; res_Trace : RetrievalTrace }.

(** The loop of [RetrievalResult.Validate] over the documents. *)
Fixpoint validate_documents (tenantID : TenantID) (docs : list RetrievalDocument) : option error :=
  match docs with
  | [] => None
  | doc :: docs' =>
      require (negb (String.eqb (doc_DocumentID doc) "")) "document_id is required" ;;?
      TenantID_Validate (doc_TenantID doc) ;;?
      require (String.eqb (doc_TenantID doc) tenantID) "document tenant mismatch" ;;?
      validate_documents tenantID docs'
  end.

Definition RetrievalResult_Validate (r : RetrievalResult) : option error :=
  TenantID_Validate (res_TenantID r) ;;?
  require (negb (String.eqb (res_RequestID r) "")) "request_id is required" ;;?
  validate_documents (res_TenantID r) (res_Documents r).

Record RerankCandidate := {
  cand_DocumentID : string; cand_Text : string; cand_Score : float64 }.

Record RerankRequest := {
  rk_TenantID : TenantID; rk_RequestID : string; rk_QueryText : string;
  rk_Candidates : list RerankCandidate; rk_TopN : Z }.

Definition TopCandidates (r : RerankRequest) : list RerankCandidate :=
  let copyCandidates := SliceStable (by_score cand_Score) (rk_Candidates r) in
  if (rk_TopN r <=? 0) || (Z.of_nat (length copyCandidates) <=? rk_TopN r)
  then copyCandidates
  else take (Z.to_nat (rk_TopN r)) copyCandidates.

Definition RerankRequest_Validate (r : RerankRequest) : option error :=
  TenantID_Validate (rk_TenantID r) ;;?
  require (negb (String.eqb (rk_RequestID r) "")) "request_id is required" ;;?
  require (negb (String.eqb (rk_QueryText r) "")) "query_text is required" ;;?
  require (negb (length (rk_Candidates r) =? 0)%nat) "at least one candidate is required" ;;?
  require (negb (rk_TopN r <=? 0)) "top_n must be > 0".

(** ** Audit and rate limiting *)

Definition AuditOutcome := string.
Definition AuditOutcomeAllowed : AuditOutcome := "allowed".
Definition AuditOutcomeDenied : AuditOutcome := "denied".
Definition AuditOutcomeError : AuditOutcome := "error".

Record AuditEvent := {
  ev_EventID : string; ev_TenantID : TenantID; ev_EventType : string; ev_Resource : string;
  ev_Actor : string; ev_Outcome : AuditOutcome; ev_OccurredAt : Time;
  ev_Attributes : gmap string string }.

Definition AuditEvent_Validate (a : AuditEvent) : option error :=
  TenantID_Validate (ev_TenantID a) ;;?
  require (negb (String.eqb (ev_EventID a) "")) "event_id is required" ;;?
  require (negb (String.eqb (ev_EventType a) "")) "event_type is required" ;;?
  require (negb (IsZero (ev_OccurredAt a))) "occurred_at is required".

Record RateLimitDecision := {
  rl_Allowed : bool; rl_Reason : string; rl_Remaining : Z; rl_RetryAfter : Z }.

Definition RateLimitDecision_Validate (d : RateLimitDecision) : option error :=
  if rl_Allowed d then None
  else require (negb (String.eqb (rl_Reason d) "")) "reason is required when request is denied".

(** ** Providers *)

Definition ProviderErrValidation := "validation".
Definition ProviderErrUnavailable := "unavailable".
Definition ProviderErrTimeout := "timeout".
Definition ProviderErrUnauthorized := "unauthorized".
Definition ProviderErrInternal := "internal".

Record VectorCallTrace := { vt_Provider : string; vt_Status : string; vt_LatencyMillis : Z }.
Record GatewayCallTrace := {
  gt_Provider : string; gt_Model : string; gt_LatencyMillis : Z; gt_TokenInput : Z;
  gt_TokenOutput : Z; gt_TokenTotal : Z; gt_Status : string; gt_FallbackReason : string }.

(** ** Ports *)

Section Ports.
Variable W : Type.

Record IngestionQueueProducer := { Enqueue : context -> QueueMessage -> M W (option error) }.
Record IngestionQueueConsumer := { Dequeue : context -> M W (result QueueMessage) }.
Record DeadLetterQueue := { Publish : context -> QueueMessage -> string -> M W (option error) }.
Record ArtifactBlobStore := { Get : context -> TenantID -> string -> M W (result string) }.
Record EmbeddingProvider := {
  Embed : context -> TenantID -> list string -> M W (result (list (list float32))) }.
Record VectorIndex := { Upsert : context -> list VectorRecord -> M W (option error) }.
Record IdempotencyStore := {
  idem_Exists : context -> string -> M W (result bool);
  idem_Save : context -> string -> Z -> M W (option error) }.
Record RetentionPolicyHook := { Apply : context -> RetentionRecord -> M W (option error) }.
Record AuditSink := { Write : context -> AuditEvent -> M W (option error) }.
Record IngestionMetadataRepository := {
  im_Save : context -> IngestionMetadata -> M W (option error);
  im_GetByChecksum : context -> TenantID -> string -> M W (result IngestionMetadata) }.
Record AuditEventRepository := {
  ae_Save : context -> AuditEvent -> M W (option error);
  ae_ListByTenant : context -> TenantID -> Z -> M W (result (list AuditEvent)) }.

(** [VectorSearcher], with the methods a type assertion may find on it. *)
Record VectorSearcher := {
  Search : context -> TenantID -> string -> Z -> M W (result (list RetrievalDocument));
  SearchByEmbedding :
    option (context -> TenantID -> list float32 -> Z -> M W (result (list RetrievalDocument)));
  LastVectorTrace : option (W -> VectorCallTrace) }.
Record QueryRewriter := {
  RewriteQuery : context -> TenantID -> string -> M W (result StructuredQuery) }.
Record Reranker := {
  Rerank : context -> RerankRequest -> M W (result (list RerankCandidate));
  LastGatewayTrace : option (W -> GatewayCallTrace) }.
End Ports.

Arguments Enqueue {W}.
Arguments Dequeue {W}.
Arguments Publish {W}.
Arguments Get {W}.
Arguments Embed {W}.
Arguments Upsert {W}.
Arguments idem_Exists {W}.
Arguments idem_Save {W}.
Arguments Apply {W}.
Arguments Write {W}.
Arguments im_Save {W}.
Arguments im_GetByChecksum {W}.
Arguments ae_Save {W}.
Arguments ae_ListByTenant {W}.
Arguments Search {W}.
Arguments SearchByEmbedding {W}.
Arguments LastVectorTrace {W}.
Arguments RewriteQuery {W}.
Arguments Rerank {W}.
Arguments LastGatewayTrace {W}.

(** An operation on a world, on a world paired with a log; and an audit sink
    that also logs the events it is asked to write. *)
Definition lift {W L A} (m : M W A) : M (W * L) A := fun wl =>
  let '(a, w') := m wl.1 in (a, (w', wl.2)).
Definition on_snd {L W A} (m : M W A) : M (L * W) A := fun lw =>
  let '(a, w') := m lw.2 in (a, (lw.1, w')).
Definition recording {W} (sink : AuditSink W) : AuditSink (W * list AuditEvent) := {|
  Write ctx ev := fun wl =>
    let '(e, w') := Write sink ctx ev wl.1 in (e, (w', wl.2 ++ [ev])) |}.

(** * Facts *)

Lemma lift_eq {W L A} (m : M W A) (w : W) (l : L) :
  lift m (w, l) = let '(a, w') := m w in (a, (w', l)).
Proof. done. Qed.

(** ** Validation, as propositions *)

Lemma not_empty_true s : negb (String.eqb s "") = true <-> s <> "".
Proof. rewrite negb_true_iff. apply String.eqb_neq. Qed.
Lemma not_zero_true t : negb (IsZero t) = true <-> t <> 0.
Proof. unfold IsZero. rewrite negb_true_iff. apply Z.eqb_neq. Qed.
Lemma not_neg_true z : negb (z <? 0) = true <-> 0 <= z.
Proof. rewrite negb_true_iff. apply Z.ltb_ge. Qed.
Lemma not_nonpos_true z : negb (z <=? 0) = true <-> 0 < z.
Proof. rewrite negb_true_iff. apply Z.leb_gt. Qed.
Lemma not_nil_true {A} (l : list A) : negb (length l =? 0)%nat = true <-> l <> [].
Proof. destruct l; simpl; naive_solver. Qed.

(** Rewrite a [Validate] equation into a conjunction of requirements. *)
Ltac validate_simp :=
  rewrite ?seq_err_None, ?require_None, ?not_empty_true, ?not_zero_true, ?not_neg_true,
    ?not_nonpos_true, ?not_nil_true, ?String.eqb_eq.
Ltac validate_simp_in H :=
  rewrite ?seq_err_None, ?require_None, ?not_empty_true, ?not_zero_true, ?not_neg_true,
    ?not_nonpos_true, ?not_nil_true, ?String.eqb_eq in H.

Lemma TenantID_Validate_None t : TenantID_Validate t = None <-> t <> "".
Proof. unfold TenantID_Validate. by validate_simp. Qed.

Lemma TenantContext_Validate_None c :
  TenantContext_Validate c = None <-> tc_TenantID c <> "" /\ tc_RequestID c <> "".
Proof. unfold TenantContext_Validate. validate_simp. by rewrite TenantID_Validate_None. Qed.

Lemma RequestMetadata_Validate_None m :
  RequestMetadata_Validate m = None <-> rm_TenantID m <> "" /\ rm_RequestID m <> "".
Proof. unfold RequestMetadata_Validate. validate_simp. by rewrite TenantID_Validate_None. Qed.

Lemma IngestionJob_Validate_None j :
  IngestionJob_Validate j = None <->
  job_TenantID j <> "" /\ job_JobID j <> "" /\ job_SourceURI j <> "" /\ job_CreatedAt j <> 0.
Proof. unfold IngestionJob_Validate. validate_simp. by rewrite TenantID_Validate_None. Qed.

Lemma QueueMessage_Validate_None m :
  QueueMessage_Validate m = None <->
  msg_MessageID m <> "" /\ IngestionJob_Validate (msg_Job m) = None
  /\ 0 <= msg_Attempt m /\ msg_EnqueuedAt m <> 0.
Proof.
  unfold QueueMessage_Validate. rewrite seq_err_None, require_None, not_empty_true.
  destruct (IngestionJob_Validate (msg_Job m)); [naive_solver|]. validate_simp. naive_solver.
Qed.

Lemma AuditEvent_Validate_None a :
  AuditEvent_Validate a = None <->
  ev_TenantID a <> "" /\ ev_EventID a <> "" /\ ev_EventType a <> "" /\ ev_OccurredAt a <> 0.
Proof. unfold AuditEvent_Validate. validate_simp. by rewrite TenantID_Validate_None. Qed.

Lemma RetrievalQuery_Validate_None q :
  RetrievalQuery_Validate q = None <->
  rq_TenantID q <> "" /\ rq_RequestID q <> "" /\ rq_Text q <> "" /\ 0 < rq_TopK q.
Proof. unfold RetrievalQuery_Validate. validate_simp. by rewrite TenantID_Validate_None. Qed.

Lemma RerankRequest_Validate_None r :
  RerankRequest_Validate r = None <->
  rk_TenantID r <> "" /\ rk_RequestID r <> "" /\ rk_QueryText r <> ""
  /\ rk_Candidates r <> [] /\ 0 < rk_TopN r.
Proof. unfold RerankRequest_Validate. validate_simp. by rewrite TenantID_Validate_None. Qed.

Lemma VectorRecord_Validate_None r :
  VectorRecord_Validate r = None <->
  vr_RecordID r <> "" /\ vr_TenantID r <> "" /\ vr_JobID r <> "" /\ TrimSpace (vr_ChunkText r) <> ""
  /\ vr_Embedding r <> [] /\ vr_IndexedAt r <> 0 /\ vr_SourceURI r <> "" /\ vr_Checksum r <> ""
  /\ 0 <= vr_RetryCount r.
Proof. unfold VectorRecord_Validate. validate_simp. by rewrite TenantID_Validate_None. Qed.

Lemma RetentionRecord_Validate_None r :
  RetentionRecord_Validate r = None <->
  rr_TenantID r <> "" /\ rr_JobID r <> "" /\ rr_Class r <> "" /\ TrimSpace (rr_Resource r) <> ""
  /\ rr_RetentionUntil r <> 0.
Proof. unfold RetentionRecord_Validate. validate_simp. by rewrite TenantID_Validate_None. Qed.

Lemma validate_documents_None t docs :
  validate_documents t docs = None <->
  Forall (fun d => doc_DocumentID d <> "" /\ doc_TenantID d <> "" /\ doc_TenantID d = t) docs.
Proof.
  induction docs as [|d docs IH]; simpl; [by rewrite Forall_nil|].
  validate_simp. rewrite TenantID_Validate_None, IH, Forall_cons. naive_solver.
Qed.

Lemma RetrievalResult_Validate_None r :
  RetrievalResult_Validate r = None <->
  res_TenantID r <> "" /\ res_RequestID r <> "" /\
  Forall (fun d => doc_DocumentID d <> "" /\ doc_TenantID d <> "" /\ doc_TenantID d = res_TenantID r)
    (res_Documents r).
Proof.
  unfold RetrievalResult_Validate. validate_simp.
  by rewrite TenantID_Validate_None, validate_documents_None.
Qed.

(** ** Tenant scope *)

Lemma RequireTenantScope_Ok ctx tc :
  RequireTenantScope ctx = Ok tc <->
  exists c, ctx = Some c /\ Value c tenantContextKey = Some (CtxTenant tc)
            /\ TenantContext_Validate tc = None.
Proof.
  unfold RequireTenantScope, TenantContextFromContext. split.
  - intros H. repeat case_match; simplify_eq/=. eauto.
  - intros (c & -> & -> & ->). done.
Qed.

Lemma RequireTenantScope_valid ctx tc :
  RequireTenantScope ctx = Ok tc -> tc_TenantID tc <> "" /\ tc_RequestID tc <> "".
Proof. intros (c & _ & _ & H)%RequireTenantScope_Ok. by apply TenantContext_Validate_None. Qed.

Lemma EnsureTenantMatch_None ctx t :
  EnsureTenantMatch ctx t = None <->
  exists tc, RequireTenantScope ctx = Ok tc /\ tc_TenantID tc = t.
Proof.
  unfold EnsureTenantMatch. destruct (RequireTenantScope ctx) as [tc|] eqn:E; [|naive_solver].
  apply RequireTenantScope_valid in E as [Ht _].
  rewrite seq_err_None, TenantID_Validate_None.
  destruct (String.eqb_spec (tc_TenantID tc) t); simpl; naive_solver.
Qed.

(** ** Top candidates *)

Lemma TopCandidates_prefix r :
  exists dropped, SliceStable (by_score cand_Score) (rk_Candidates r) = TopCandidates r ++ dropped.
Proof.
  unfold TopCandidates. case_match.
  - exists []. by rewrite app_nil_r.
  - eexists. by rewrite take_drop.
Qed.

Lemma StronglySorted_app_cross {A} (R : A -> A -> Prop) l1 l2 a b :
  StronglySorted R (l1 ++ l2) -> a ∈ l1 -> b ∈ l2 -> R a b.
Proof.
  induction l1 as [|x l1 IH]; simpl; [by intros _ ?%elem_of_nil|].
  intros Hs [->|Ha]%elem_of_cons Hb; inv Hs; [|by apply IH].
  rewrite Forall_forall in *. apply H2. apply elem_of_app. by right.
Qed.

Lemma StronglySorted_app_l {A} (R : A -> A -> Prop) l1 l2 :
  StronglySorted R (l1 ++ l2) -> StronglySorted R l1.
Proof.
  induction l1 as [|x l1 IH]; simpl; [constructor|]. intros Hs; inv Hs.
  apply Forall_app in H2 as [? _]. constructor; auto.
Qed.

(** ** Provider user identifiers *)

Lemma word_join_underscore s t : word s -> word t -> word (s +:+ "_" +:+ t).
Proof.
  intros [Hs Fs] [Ht Ft]. split.
  - by intros [? _]%str_app_eq_nil.
  - rewrite glyphs_app by done. apply Forall_app. split; [done|].
    rewrite glyphs_unfold by done. constructor; done.
Qed.

Lemma word_Join_underscore w ws : Forall word (w :: ws) -> word (Join (w :: ws) "_").
Proof.
  revert w; induction ws as [|w' ws IH]; intros w H; inv H; [done|].
  cbn [Join]. by apply word_join_underscore, IH.
Qed.

Lemma normalizeProviderUserPart_word v :
  normalizeProviderUserPart v = "" \/ word (normalizeProviderUserPart v).
Proof.
  unfold normalizeProviderUserPart. destruct (String.eqb _ _); [by left|]. rewrite Fields_TrimSpace.
  pose proof (Fields_words v) as H. destruct (Fields v) as [|w ws]; [by left|].
  right. by apply word_Join_underscore.
Qed.

Lemma normalizeProviderUserPart_ne v :
  TrimSpace v <> "" -> normalizeProviderUserPart v <> "".
Proof.
  intros Hv. unfold normalizeProviderUserPart.
  destruct (String.eqb_spec (TrimSpace v) ""); [done|]. rewrite Fields_TrimSpace.
  pose proof (Fields_words v) as H. destruct (Fields v) as [|w ws] eqn:E.
  - by apply TrimSpace_nil_Fields in E.
  - by apply word_Join_underscore in H as [? _].
Qed.

(** * Theorems *)

(** installing a tenant context and reading it back.  When
    [WithTenantContext] succeeds, the new context has exactly that tenant
    scope, and [EnsureTenantMatch] accepts the installed tenant and no other,
    whatever the parent context already carried; it fails only for an empty
    tenant or request id. *)
Theorem tenant_scope_roundtrip (ctx : context) (tc : TenantContext) :
  match WithTenantContext ctx tc with
  | Ok ctx' =>
      RequireTenantScope ctx' = Ok tc
      /\ forall t, EnsureTenantMatch ctx' t = None <-> t = tc_TenantID tc
  | Err _ => tc_TenantID tc = "" \/ tc_RequestID tc = ""
  end.
Proof.
  unfold WithTenantContext. destruct (TenantContext_Validate tc) eqn:E.
  - destruct (decide (tc_TenantID tc = "")); [by left|].
    destruct (decide (tc_RequestID tc = "")); [by right|].
    assert (TenantContext_Validate tc = None) by by apply TenantContext_Validate_None.
    congruence.
  - assert (Hs : RequireTenantScope
        (Some (WithValue (default Background ctx) tenantContextKey (CtxTenant tc))) = Ok tc).
    { apply RequireTenantScope_Ok. by eexists. }
    split; [done|]. intros t. rewrite EnsureTenantMatch_None, Hs. naive_solver.
Qed.

(** the user identifier sent to the model providers is always a single
    non-empty word: never empty, and no white space of the actor or the
    tenant survives in it. *)
Theorem provider_user_id_word (ctx : context) (id : string) :
  ProviderUserIDFromContext ctx = Some id -> word id.
Proof.
  unfold ProviderUserIDFromContext. destruct (ActorIDFromContext ctx) as [a|] eqn:Ha; [|done].
  assert (Hw : word (normalizeProviderUserPart a)).
  { destruct (normalizeProviderUserPart_word a) as [E|]; [|done]. exfalso. revert E.
    apply normalizeProviderUserPart_ne. unfold ActorIDFromContext in Ha.
    repeat case_match; simplify_eq/=. bool_to_prop. by rewrite TrimSpace_idemp. }
  intros H. destruct (TenantContextFromContext ctx) as [tc|]; [|naive_solver].
  destruct (normalizeProviderUserPart_word (tc_TenantID tc)) as [E|Hw'].
  - rewrite E in H. repeat case_match; simplify_eq/=; done.
  - repeat case_match; simplify_eq/=; try done. by apply word_join_underscore.
Qed.

Lemma provider_user_id_word_witness :
  word "Ann_Lee_acme_eu".
Proof.
  apply (provider_user_id_word
    (Some (WithValue (WithValue Background tenantContextKey
             (CtxTenant {| tc_TenantID := " acme  eu"; tc_RequestID := "r1" |}))
           actorContextKey (CtxString "Ann Lee ")))).
  vm_compute. reflexivity.
Defined.

(** [TopCandidates] returns the best candidates.  It returns
    [min(TopN, n)] of the [n] candidates, best score first, and no candidate
    left out scores higher than one returned. *)
Theorem top_candidates_correct (r : RerankRequest) :
  Forall (fun c => not_nan (cand_Score c)) (rk_Candidates r) ->
  exists dropped,
    rk_Candidates r ≡ₚ TopCandidates r ++ dropped
    /\ StronglySorted (fun a b => fgt (cand_Score b) (cand_Score a) = false) (TopCandidates r)
    /\ (forall c d, c ∈ TopCandidates r -> d ∈ dropped -> fgt (cand_Score d) (cand_Score c) = false)
    /\ (0 < rk_TopN r ->
        Z.of_nat (length (TopCandidates r)) = Z.min (rk_TopN r) (Z.of_nat (length (rk_Candidates r)))).
Proof.
  intros Hn. destruct (TopCandidates_prefix r) as [dropped Hd]. exists dropped.
  pose proof (SliceStable_sorted _ _ (by_score_weak_order cand_Score) _ Hn) as Hs.
  rewrite Hd in Hs. repeat split.
  - by rewrite <- Hd, SliceStable_perm.
  - by apply StronglySorted_app_l in Hs.
  - intros c d Hc Hdr. by eapply (StronglySorted_app_cross _ _ _ c d) in Hs.
  - intros Hpos. unfold TopCandidates. rewrite length_SliceStable. case_match; bool_to_prop.
    + rewrite length_SliceStable. apply orb_true_iff in H as [?|?]; lia.
    + rewrite length_take, length_SliceStable. lia.
Qed.

Lemma top_candidates_correct_witness :
  let c i s := {| cand_DocumentID := i; cand_Text := i; cand_Score := float_of_int s |} in
  let r := {| rk_TenantID := "t"; rk_RequestID := "r"; rk_QueryText := "q";
              rk_Candidates := [c "a" 1; c "b" 3; c "d" 2]; rk_TopN := 2 |} in
  TopCandidates r = [c "b" 3; c "d" 2]
  /\ exists dropped, rk_Candidates r ≡ₚ TopCandidates r ++ dropped.
Proof.
  intros c r. split; [reflexivity|].
  destruct (top_candidates_correct r) as (dropped & H & _).
  - repeat constructor; discriminate.
  - exists dropped. exact H.
Defined.
