(* ===== verification/GoHTTP.v ===== *)
(** * GoHTTP: the client side of net/http, and decoding into structs

    A request is its method, address, headers and body.  Sending one is a port,
    [Do]: the network, the time-outs and the far end are the world.  Responses are
    decoded with [encoding/json] into structs, field by field: this file holds the
    decoders of the field types that the clients use. *)

From S2P Require Import Prelude GoStrings GoSort GoJSON GoFloat Contracts.

#[local] Open Scope Z_scope.

(** [textproto.CanonicalMIMEHeaderKey] on a valid field name. *)
Fixpoint canonical_go (up : bool) (s : string) : string :=
  match s with
  | "" => ""
  | String a s' =>
      let c := byte_val a in
      let c' := if up && (97 <=? c) && (c <=? 122) then c - 32
                else if negb up && (65 <=? c) && (c <=? 90) then c + 32 else c in
      String (byte_of c') (canonical_go (c =? 45) s')
  end.
Definition CanonicalHeaderKey (s : string) : string := canonical_go true s.

(** ** Requests and responses *)

Record HTTPRequest := { hq_Method : string; hq_URL : string; hq_Header : gmap string string; hq_Body : string }.
(** The body can be read up to its end, or up to an error. *)
Record HTTPResponse := {
  hp_StatusCode : Z; hp_Header : gmap string (list string); hp_Body : string; hp_ReadErr : option error }.
Record HTTPClient (W : Type) := {
  (** the error of [url.Parse], if the address has no valid form *)
  url_error : string -> option error;
  Do : context -> HTTPRequest -> M W (result HTTPResponse);
  (** the error of decoding a text, and of decoding a body as it is read *)
  json_error : string -> error;
  stream_error : HTTPResponse -> error }.
Arguments url_error {W}.
Arguments Do {W}.
Arguments json_error {W}.
Arguments stream_error {W}.

(** [http.NewRequestWithContext] *)
Definition NewRequest {W} (cl : HTTPClient W) (ctx : context) (method url body : string) : result HTTPRequest :=
  match ctx with
  | None => Err (errors_New "net/http: nil Context")
  | Some _ =>
      match url_error cl url with
      | Some err => Err err
      | None => Ok {| hq_Method := method; hq_URL := url; hq_Header := ∅; hq_Body := body |}
      end
  end.
(** [req.Header.Set] *)
Definition Header_Set (key value : string) (req : HTTPRequest) : HTTPRequest := {|
  hq_Method := hq_Method req; hq_URL := hq_URL req;
  hq_Header := <[CanonicalHeaderKey key := value]> (hq_Header req); hq_Body := hq_Body req |}.
(** [resp.Header.Get] *)
Definition Response_Get (resp : HTTPResponse) (key : string) : string :=
  match hp_Header resp !! CanonicalHeaderKey key with Some (v :: _) => v | _ => "" end.
(** [io.ReadAll(resp.Body)] *)
Definition ReadAll (resp : HTTPResponse) : result string :=
  match hp_ReadErr resp with Some err => Err err | None => Ok (hp_Body resp) end.
Definition is2xx (resp : HTTPResponse) : bool := (200 <=? hp_StatusCode resp) && (hp_StatusCode resp <? 300).

(** ** Decoders of fields

    [null] leaves a field as it is, except a slice, a pointer or an interface, which
    becomes nil. *)

Definition float_field {T} (name : string) (set : T -> float64 -> T) : field T :=
  (name, fun t v => match v with JNum lit => set t <$> ParseFloat64 lit | JNull => Some t | _ => None end).
Definition any_field {T} (name : string) (set : T -> json -> T) : field T :=
  (name, fun t v => if any_ok v then Some (set t v) else None).
Definition struct_field {T S} (name : string) (fields : list (field S)) (get : T -> S) (set : T -> S -> T) : field T :=
  (name, fun t v => set t <$> unmarshal false fields (get t) v).
(** A pointer to an [int]. *)
Definition int_ptr_field {T} (name : string) (set : T -> option Z -> T) : field T :=
  (name, fun t v => match v with
                    | JNum lit => (fun z => set t (Some z)) <$> ParseInt64 lit
                    | JNull => Some (set t None)
                    | _ => None
                    end).
(** The elements of an array are decoded over those the slice already has, when the
    key occurs a second time; [elem] decodes one. *)
Fixpoint decode_elems {S} (elem : S -> json -> option S) (zero : S) (old : list S) (vs : list json) : option (list S) :=
  match vs with
  | [] => Some []
  | v :: vs' =>
      x ← elem (default zero (head old)) v;
      xs ← decode_elems elem zero (tail old) vs';
      Some (x :: xs)
  end.
Definition slice_field {T S} (name : string) (elem : S -> json -> option S) (zero : S) (get : T -> list S)
    (set : T -> list S -> T) : field T :=
  (name, fun t v => match v with
                    | JArr vs => set t <$> decode_elems elem zero (get t) vs
                    | JNull => Some (set t [])
                    | _ => None
                    end).
Definition string_elem (old : string) (v : json) : option string :=
  match v with JStr s => Some s | JNull => Some old | _ => None end.
Definition float32_elem (old : float32) (v : json) : option float32 :=
  match v with JNum lit => ParseFloat32 lit | JNull => Some old | _ => None end.

(** [json.Unmarshal(data, &x)]: one value and nothing after it. *)
Definition Unmarshal {T} (fields : list (field T)) (zero : T) (data : string) : option T :=
  v ← json_parse data; unmarshal false fields zero v.
(** [json.NewDecoder(resp.Body).Decode(&x)]: the first value of the body. *)
Definition Decode {T} (fields : list (field T)) (zero : T) (body : string) : option T :=
  '(v, _) ← parse_value (2 * String.length body + 1) body;
  if json_depth v <=? 10000 then unmarshal false fields zero v else None.

Lemma decode_elems_length {S} (elem : S -> json -> option S) zero : forall vs old xs,
  decode_elems elem zero old vs = Some xs -> length xs = length vs.
Proof.
  induction vs as [|v vs IH]; intros old xs H; cbn [decode_elems] in H; [by apply (inj Some) in H as <-|].
  apply bind_Some in H as (x & _ & H). apply bind_Some in H as (xs' & H1 & H). apply (inj Some) in H as <-.
  simpl. by rewrite (IH _ _ H1).
Qed.
