(* ===== verification/RateLimit.v ===== *)
(** * RateLimit: internal/ratelimit and the server's window limiter

    [Limiter] counts the requests of the current second, per tenant and
    overall; [WindowLimiter] (backend/util/serverUtil.go) counts the requests
    of a key since its window opened.  Both take the clock reading as an
    argument, and both hold their mutex during a whole call, so a run is a
    sequence of calls.  The theorems relate every run to what was admitted:
    [Limiter] refines the abstract counter per second exactly, and
    [WindowLimiter] admits at most twice its limit in any window. *)

From S2P Require Import Prelude GoStrings GoSort Contracts.

#[local] Open Scope Z_scope.

Module PerSecond.

Definition DefaultTenantSteadyRPS : Z := 2.
Definition DefaultTenantBurstRPS : Z := 4.
Definition DefaultGlobalBurstRPS : Z := 600.

Record windowCounter := { windowEpochSecond : Z; count : Z }.
Definition zeroCounter : windowCounter := {| windowEpochSecond := 0; count := 0 |}.

Record Limiter := {
  TenantSteadyRPS : Z; TenantBurstRPS : Z; GlobalBurstRPS : Z;
  tenant : gmap TenantID windowCounter; global : windowCounter }.

Definition NewLimiter : Limiter := {|
  TenantSteadyRPS := DefaultTenantSteadyRPS; TenantBurstRPS := DefaultTenantBurstRPS;
  GlobalBurstRPS := DefaultGlobalBurstRPS; tenant := ∅; global := zeroCounter |}.

Definition nextWindow (counter : windowCounter) (nowSec : Z) : windowCounter :=
  if negb (windowEpochSecond counter =? nowSec)
  then {| windowEpochSecond := nowSec; count := 0 |}
  else counter.

Definition set_global (g : windowCounter) (l : Limiter) : Limiter := {|
  TenantSteadyRPS := TenantSteadyRPS l; TenantBurstRPS := TenantBurstRPS l;
  GlobalBurstRPS := GlobalBurstRPS l; tenant := tenant l; global := g |}.
Definition set_tenant (t : TenantID) (c : windowCounter) (l : Limiter) : Limiter := {|
  TenantSteadyRPS := TenantSteadyRPS l; TenantBurstRPS := TenantBurstRPS l;
  GlobalBurstRPS := GlobalBurstRPS l; tenant := <[t := c]> (tenant l); global := global l |}.
Definition incr (c : windowCounter) : windowCounter :=
  {| windowEpochSecond := windowEpochSecond c; count := count c + 1 |}.

(** [return decision, decision.Validate()] *)
Definition decide_with (d : RateLimitDecision) : result RateLimitDecision :=
  match RateLimitDecision_Validate d with Some e => Err e | None => Ok d end.

(** [Allow] on a non-nil limiter; [now] is the reading of the clock. *)
Definition Allow (now : Time) (tenantID : TenantID) : M Limiter (result RateLimitDecision) :=
  fun l =>
  match TenantID_Validate tenantID with
  | Some err => (Err err, l)
  | None =>
      let nowSec := Unix now in
      let l := set_global (nextWindow (global l) nowSec) l in
      if GlobalBurstRPS l <=? count (global l)
      then (decide_with {| rl_Allowed := false; rl_Reason := "global_burst_limit_exceeded";
                           rl_Remaining := 0; rl_RetryAfter := Second |}, l)
      else
        let tenantCounter := nextWindow (default zeroCounter (tenant l !! tenantID)) nowSec in
        if TenantBurstRPS l <=? count tenantCounter
        then (decide_with {| rl_Allowed := false;
                             rl_Reason := "tenant_burst_limit_exceeded:" +:+ tenantID;
                             rl_Remaining := 0; rl_RetryAfter := Second |}, l)
        else
          let tenantCounter := incr tenantCounter in
          let l := set_tenant tenantID tenantCounter l in
          let l := set_global (incr (global l)) l in
          let remaining := TenantBurstRPS l - count tenantCounter in
          (Ok {| rl_Allowed := true; rl_Reason := ""; rl_Remaining := remaining;
                 rl_RetryAfter := 0 |}, l)
  end.

(** [(l *Limiter).Allow]: the receiver may be nil. *)
Definition Limiter_Allow (now : Time) (tenantID : TenantID) (l : option Limiter)
    : result RateLimitDecision * option Limiter :=
  match l with
  | None => (Err (errors_New "rate limiter is required"), None)
  | Some l => let '(d, l') := Allow now tenantID l in (d, Some l')
  end.

(** ** Runs *)

(** A call: the second it was made in, the tenant, the answer. *)
Definition event : Type := Z * TenantID * result RateLimitDecision.

Definition admitted (d : result RateLimitDecision) : bool :=
  match d with Ok d => rl_Allowed d | Err _ => false end.

(** The calls admitted in second [s], overall and for one tenant. *)
Definition admitted_global (tr : list event) (s : Z) : Z :=
  Z.of_nat (length (filter (fun e : event => (e.1.1 =? s) && admitted e.2 = true) tr)).
Definition admitted_tenant (tr : list event) (t : TenantID) (s : Z) : Z :=
  Z.of_nat (length (filter
    (fun e : event => (e.1.1 =? s) && String.eqb e.1.2 t && admitted e.2 = true) tr)).

(** No call has been made. *)
Definition fresh (l : Limiter) : Prop := tenant l = ∅ /\ global l = zeroCounter.

(** The runs of a limiter from [l0] under a clock that does not go back;
    [last] is the last second read, the most recent call comes first. *)
Inductive run (l0 : Limiter) : list event -> Limiter -> Z -> Prop :=
| run_start last : run l0 [] l0 last
| run_step tr l last now t d l' :
    run l0 tr l last -> last <= Unix now -> Allow now t l = (d, l') ->
    run l0 ((Unix now, t, d) :: tr) l' (Unix now).

(** Replaying a list of calls. *)
Fixpoint replay (calls : list (Time * TenantID)) (tr : list event) (l : Limiter) : list event * Limiter :=
  match calls with
  | [] => (tr, l)
  | (now, t) :: calls' =>
      let '(d, l') := Allow now t l in replay calls' ((Unix now, t, d) :: tr) l'
  end.
(** The clock readings do not go back, from second [last] on. *)
Fixpoint clock_ok (last : Z) (calls : list (Time * TenantID)) : bool :=
  match calls with
  | [] => true
  | (now, _) :: calls' => (last <=? Unix now) && clock_ok (Unix now) calls'
  end.

(** * Facts *)

Lemma replay_run l0 calls tr l last :
  run l0 tr l last -> clock_ok last calls = true ->
  exists last', run l0 (replay calls tr l).1 (replay calls tr l).2 last'.
Proof.
  revert tr l last; induction calls as [|[now t] calls IH]; intros tr l last Hr Hc; simpl; [eauto|].
  simpl in Hc. bool_to_prop. destruct (Allow now t l) as [d l'] eqn:E.
  eapply IH; [|eassumption]. by eapply run_step.
Qed.

(** The counter [c] tracks the number [n s] of calls admitted in second [s]. *)
Record tracks (c : windowCounter) (n : Z -> Z) (last : Z) : Prop := {
  tracks_nonneg s : 0 <= n s;
  tracks_count : n (windowEpochSecond c) = count c;
  tracks_past s : 0 < n s -> s <= windowEpochSecond c <= last }.

Lemma tracks_weaken c n last last' : last <= last' -> tracks c n last -> tracks c n last'.
Proof. intros Hle [H1 H2 H3]. split; [done..|]. intros s Hs. specialize (H3 s Hs). lia. Qed.

Lemma tracks_next c n last now :
  last <= now -> tracks c n last ->
  tracks (nextWindow c now) n now /\ count (nextWindow c now) = n now
  /\ windowEpochSecond (nextWindow c now) = now.
Proof.
  intros Hle [H1 H2 H3]. unfold nextWindow. destruct (Z.eqb_spec (windowEpochSecond c) now); simpl.
  - subst. split; [|done]. split; [done..|]. intros s Hs. specialize (H3 s Hs). lia.
  - assert (n now = 0).
    { destruct (decide (0 < n now)) as [Hn|Hn]; [specialize (H3 _ Hn); lia|].
      specialize (H1 now). lia. }
    split; [|done]. split; [done..|]. intros s Hs. specialize (H3 s Hs). simpl. lia.
Qed.

Lemma tracks_incr c n now :
  windowEpochSecond c = now -> tracks c n now ->
  tracks (incr c) (fun s => n s + if s =? now then 1 else 0) now.
Proof.
  intros <- [H1 H2 H3]. split; simpl.
  - intros s. specialize (H1 s). case_match; lia.
  - rewrite Z.eqb_refl. lia.
  - intros s Hs. destruct (Z.eqb_spec s (windowEpochSecond c)); [lia|]. apply H3. lia.
Qed.

Lemma tracks_ext c n n' last : (forall s, n s = n' s) -> tracks c n last -> tracks c n' last.
Proof. intros E [H1 H2 H3]. split; intros; rewrite <- ?E in *; auto. Qed.

Lemma admitted_global_cons e tr s :
  admitted_global (e :: tr) s
  = admitted_global tr s + if (e.1.1 =? s) && admitted e.2 then 1 else 0.
Proof.
  unfold admitted_global. rewrite filter_cons. case_decide; case_match; simpl in *; try lia; congruence.
Qed.
Lemma admitted_tenant_cons e tr t s :
  admitted_tenant (e :: tr) t s
  = admitted_tenant tr t s + if (e.1.1 =? s) && String.eqb e.1.2 t && admitted e.2 then 1 else 0.
Proof.
  unfold admitted_tenant. rewrite filter_cons. case_decide; case_match; simpl in *; try lia; congruence.
Qed.

Lemma decide_with_denied reason rem ra :
  reason <> "" ->
  decide_with {| rl_Allowed := false; rl_Reason := reason; rl_Remaining := rem; rl_RetryAfter := ra |}
  = Ok {| rl_Allowed := false; rl_Reason := reason; rl_Remaining := rem; rl_RetryAfter := ra |}.
Proof.
  intros H. unfold decide_with, RateLimitDecision_Validate, require. simpl.
  by rewrite (proj2 (not_empty_true _) H).
Qed.

(** The limits never change. *)
Lemma Allow_config now t l d l' :
  Allow now t l = (d, l') ->
  TenantBurstRPS l' = TenantBurstRPS l /\ GlobalBurstRPS l' = GlobalBurstRPS l
  /\ TenantSteadyRPS l' = TenantSteadyRPS l.
Proof. unfold Allow. intros H. repeat case_match; by simplify_eq/=. Qed.

Lemma run_config l0 tr l last :
  run l0 tr l last ->
  TenantBurstRPS l = TenantBurstRPS l0 /\ GlobalBurstRPS l = GlobalBurstRPS l0.
Proof.
  induction 1 as [|tr l last now t d l' _ [IH1 IH2] _ HA]; [done|].
  apply Allow_config in HA as (-> & -> & _). done.
Qed.

(** What the counters mean in a reachable state. *)
Record tracked (tr : list event) (l : Limiter) (last : Z) : Prop := {
  tracked_global : tracks (global l) (admitted_global tr) last;
  tracked_tenant t : tracks (default zeroCounter (tenant l !! t)) (admitted_tenant tr t) last }.

Lemma fresh_tracked l last : fresh l -> tracked [] l last.
Proof.
  intros [Ht Hg]. assert (tracks zeroCounter (fun _ => 0) last) by by split; intros; simpl; lia.
  split; [by rewrite Hg|]. intros t. by rewrite Ht, lookup_empty.
Qed.

(** A call that admits nothing leaves the counts, up to the window roll. *)
Lemma tracked_denied tr l last now t d l' :
  tracked tr l last -> last <= Unix now -> admitted d = false ->
  l' = l \/ l' = set_global (nextWindow (global l) (Unix now)) l ->
  tracked ((Unix now, t, d) :: tr) l' (Unix now).
Proof.
  intros [Hg Ht] Hle Hd Hl'.
  assert (Eg : forall s, admitted_global tr s = admitted_global ((Unix now, t, d) :: tr) s)
    by (intros s; rewrite admitted_global_cons; simpl; rewrite Hd, andb_false_r; lia).
  assert (Et : forall t' s, admitted_tenant tr t' s = admitted_tenant ((Unix now, t, d) :: tr) t' s)
    by (intros t' s; rewrite admitted_tenant_cons; simpl; rewrite Hd, andb_false_r; lia).
  split.
  - eapply tracks_ext; [exact Eg|].
    destruct Hl' as [->| ->]; [by eapply tracks_weaken|]. simpl. by eapply tracks_next.
  - intros t'. eapply tracks_ext; [exact (Et t')|]. eapply tracks_weaken; [exact Hle|].
    destruct Hl' as [->| ->]; apply Ht.
Qed.

(** One call: it is admitted exactly when neither the tenant nor the whole
    system has used up the current second. *)
Lemma Allow_step tr l last now t d l' :
  tracked tr l last -> last <= Unix now -> t <> "" -> Allow now t l = (d, l') ->
  tracked ((Unix now, t, d) :: tr) l' (Unix now)
  /\ admitted d = ((admitted_global tr (Unix now) <? GlobalBurstRPS l)
                   && (admitted_tenant tr t (Unix now) <? TenantBurstRPS l))%bool
  /\ (admitted d = true ->
      d = Ok {| rl_Allowed := true; rl_Reason := "";
                rl_Remaining := TenantBurstRPS l - admitted_tenant tr t (Unix now) - 1;
                rl_RetryAfter := 0 |}).
Proof.
  intros HT Hle Hne HA. pose proof HT as [Hg Ht].
  destruct (tracks_next _ _ _ (Unix now) Hle Hg) as (Hg1 & Hg2 & Hg3).
  destruct (tracks_next _ _ _ (Unix now) Hle (Ht t)) as (Ht1 & Ht2 & Ht3).
  unfold Allow in HA. rewrite (proj2 (TenantID_Validate_None t) Hne) in HA. cbn zeta in HA.
  simpl in HA. rewrite Hg2, Ht2 in HA.
  rewrite !Z.ltb_antisym. destruct (GlobalBurstRPS l <=? _).
  { rewrite decide_with_denied in HA by done. inv HA. split; [|done].
    eapply tracked_denied; eauto. }
  destruct (TenantBurstRPS l <=? _).
  { rewrite decide_with_denied in HA by done. inv HA. split; [|done].
    eapply tracked_denied; eauto. }
  inv HA. split; [|split; [done|]]; simpl.
  2: { intros _. do 2 f_equal. lia. }
  split.
  - simpl. eapply tracks_ext; [|exact (tracks_incr _ _ _ Hg3 Hg1)]. intros s. rewrite admitted_global_cons. simpl.
    rewrite andb_true_r, Z.eqb_sym. done.
  - intros t'. simpl. destruct (decide (t = t')) as [<-|Hn].
    + rewrite lookup_insert_eq. simpl.
      eapply tracks_ext; [|exact (tracks_incr _ _ _ Ht3 Ht1)]. intros s.
      rewrite admitted_tenant_cons. simpl. rewrite String.eqb_refl, !andb_true_r, Z.eqb_sym. done.
    + rewrite lookup_insert_ne by done. eapply tracks_ext; [|eapply tracks_weaken; [exact Hle|apply Ht]].
      intros s. rewrite admitted_tenant_cons. simpl.
      rewrite (proj2 (String.eqb_neq t t') Hn), andb_false_r. simpl. lia.
Qed.

Lemma Allow_empty now l d l' :
  Allow now "" l = (d, l') -> l' = l /\ admitted d = false.
Proof. intros H. by inv H. Qed.

Lemma run_tracked l0 tr l last : fresh l0 -> run l0 tr l last -> tracked tr l last.
Proof.
  intros Hf. induction 1 as [last|tr l last now t d l' _ IH Hle HA]; [by apply fresh_tracked|].
  destruct (decide (t = "")) as [->|Hne].
  - apply Allow_empty in HA as [-> Hd]. eapply tracked_denied; eauto.
  - by apply (Allow_step tr l last now t d l').
Qed.

(** * Theorems *)

(** C5: the limiter refines the abstract quota.  In every state reached from
    a fresh limiter under a clock that does not go back, a call for a tenant
    is admitted exactly when fewer than [GlobalBurstRPS] calls were admitted
    in the current second overall and fewer than [TenantBurstRPS] for that
    tenant: no call is refused while quota is left, none is admitted beyond it. *)
Theorem limiter_refines_quota (l0 l : Limiter) tr last now t :
  fresh l0 -> run l0 tr l last -> last <= Unix now -> t <> "" ->
  admitted (Allow now t l).1
  = ((admitted_global tr (Unix now) <? GlobalBurstRPS l0)
     && (admitted_tenant tr t (Unix now) <? TenantBurstRPS l0))%bool.
Proof.
  intros Hf Hr Hle Hne. destruct (Allow now t l) as [d l'] eqn:E.
  apply (run_tracked _ _ _ _ Hf) in Hr as HT.
  apply run_config in Hr as [<- <-].
  by destruct (Allow_step _ _ _ _ _ _ _ HT Hle Hne E) as (_ & H & _).
Qed.

Lemma limiter_refines_quota_witness :
  admitted (Allow (10^9 * 62135596805) "acme" NewLimiter).1 = true.
Proof.
  rewrite (limiter_refines_quota NewLimiter NewLimiter [] 0).
  - reflexivity.
  - split; reflexivity.
  - constructor.
  - vm_compute. discriminate.
  - discriminate.
Defined.

(** the quotas hold over whole runs: in no second are more than
    [TenantBurstRPS] calls of a tenant, or more than [GlobalBurstRPS] calls
    in all, admitted. *)
Theorem limiter_bound (l0 l : Limiter) tr last :
  fresh l0 -> run l0 tr l last ->
  (forall t s, admitted_tenant tr t s <= Z.max 0 (TenantBurstRPS l0))
  /\ (forall s, admitted_global tr s <= Z.max 0 (GlobalBurstRPS l0)).
Proof.
  intros Hf. induction 1 as [last|tr l last now t d l' Hr [IH1 IH2] Hle HA].
  { split; intros; unfold admitted_tenant, admitted_global; simpl; lia. }
  pose proof (run_tracked _ _ _ _ Hf Hr) as HT. destruct (run_config _ _ _ _ Hr) as [EB EG].
  destruct (decide (t = "")) as [->|Hne].
  { apply Allow_empty in HA as [-> Hd].
    split; intros; rewrite ?admitted_tenant_cons, ?admitted_global_cons; simpl;
      rewrite Hd, ?andb_false_r, Z.add_0_r; auto. }
  destruct (Allow_step _ _ _ _ _ _ _ HT Hle Hne HA) as (_ & Hd & _). rewrite EB, EG in Hd.
  split.
  - intros t' s. rewrite admitted_tenant_cons. simpl. specialize (IH1 t' s).
    destruct (Z.eqb_spec (Unix now) s); simpl; [|lia].
    destruct (String.eqb_spec t t'); simpl; [|lia]. subst. destruct (admitted d); [|lia].
    symmetry in Hd. bool_to_prop. lia.
  - intros s. rewrite admitted_global_cons. simpl. specialize (IH2 s).
    destruct (Z.eqb_spec (Unix now) s); simpl; [|lia]. subst. destruct (admitted d); [|lia].
    symmetry in Hd. bool_to_prop. lia.
Qed.

Lemma limiter_bound_witness :
  let now := 10^9 * 62135596805 in
  admitted_tenant [(5, "acme", (Allow now "acme" NewLimiter).1)] "acme" 5 = 1
  /\ admitted_tenant [(5, "acme", (Allow now "acme" NewLimiter).1)] "acme" 5 <= Z.max 0 4.
Proof.
  intros now. split; [reflexivity|].
  refine (proj1 (limiter_bound NewLimiter (Allow now "acme" NewLimiter).2 _ 5 _ _) "acme" 5).
  - split; reflexivity.
  - apply (run_step NewLimiter [] NewLimiter 5 now "acme"); [constructor|vm_compute; discriminate|reflexivity].
Defined.

(** tenants do not use each other's quota: a call for one tenant leaves
    every other tenant's counter as it was, and a call refused for the
    tenant's own limit does not count against the global limit. *)
Theorem limiter_isolation now t l :
  (forall u, u <> t -> tenant (Allow now t l).2 !! u = tenant l !! u)
  /\ (admitted (Allow now t l).1 = false ->
      (Allow now t l).2 = l
      \/ (Allow now t l).2 = set_global (nextWindow (global l) (Unix now)) l).
Proof.
  unfold Allow. destruct (TenantID_Validate t); [by split; auto|]. cbn zeta. simpl.
  repeat case_match; simpl; split; auto; try done.
  intros u Hu. by rewrite lookup_insert_ne.
Qed.

(** the window is aligned to the clock's seconds, so the limiter is not a
    token bucket: a tenant limited to four calls per second can have eight
    calls admitted within one millisecond across a second boundary. *)
Theorem limiter_boundary_burst :
  exists t0 calls,
    clock_ok 0 calls = true
    /\ Forall (fun c : Time * TenantID => c.2 = "acme" /\ t0 <= c.1 <= t0 + Millisecond) calls
    /\ length calls = 8%nat
    /\ Forall (fun e : event => admitted e.2 = true) (replay calls [] NewLimiter).1
    /\ length (replay calls [] NewLimiter).1 = 8%nat.
Proof.
  set (t0 := 62135596801 * 10^9 - Millisecond). exists t0.
  exists (replicate 4 (t0, "acme") ++ replicate 4 (t0 + Millisecond, "acme")).
  split; [vm_compute; reflexivity|]. split.
  { unfold Millisecond. repeat (constructor; [simpl; split; [done|lia]|]). constructor. }
  split; [reflexivity|]. split; [|vm_compute; reflexivity].
  apply Forall_forall. intros e He%list_elem_of_In. revert e He.
  apply forallb_forall. vm_compute. reflexivity.
Qed.

(** the configured steady rate has no effect: limiters that differ only in
    [TenantSteadyRPS] give the same answers and keep the same counters. *)
Theorem limiter_steady_rate_unused now t l rate :
  let with_rate r l := {| TenantSteadyRPS := r; TenantBurstRPS := TenantBurstRPS l;
                          GlobalBurstRPS := GlobalBurstRPS l; tenant := tenant l;
                          global := global l |} in
  (Allow now t (with_rate rate l)).1 = (Allow now t l).1
  /\ (Allow now t (with_rate rate l)).2 = with_rate rate (Allow now t l).2.
Proof.
  intros with_rate. unfold Allow. destruct (TenantID_Validate t); [done|]. cbn zeta.
  simpl. destruct (GlobalBurstRPS l <=? _); [done|]. by destruct (TenantBurstRPS l <=? _).
Qed.

End PerSecond.

(** ** The server's limiter, per key *)

Module PerKey.

Record windowState := { start : Time; wcount : Z }.

Record WindowLimiter := { limit : Z; window : Z; state : gmap string windowState }.

Definition NewWindowLimiter (limit : Z) : WindowLimiter := {|
  limit := if limit <=? 0 then 120 else limit; window := Minute; state := ∅ |}.

Definition zeroState : windowState := {| start := 0; wcount := 0 |}.
Definition put (l : WindowLimiter) (key : string) (s : windowState) : WindowLimiter :=
  {| limit := limit l; window := window l; state := <[key := s]> (state l) |}.

Definition WindowLimiter_Allow (now : Time) (key : string) : M WindowLimiter bool := fun l =>
  let cur := default zeroState (state l !! key) in
  if IsZero (start cur) || (window l <=? Sub now (start cur))
  then (true, put l key {| start := now; wcount := 1 |})
  else if limit l <=? wcount cur then (false, l)
  else (true, put l key {| start := start cur; wcount := wcount cur + 1 |}).

(** A call: when, for which key, and whether it was admitted. *)
Definition event : Type := Time * string * bool.

(** The calls for [key] admitted in [[a, b)]. *)
Definition admitted_in (tr : list event) (key : string) (a b : Time) : Z :=
  Z.of_nat (length (filter
    (fun e : event => String.eqb e.1.2 key && e.2 && (a <=? e.1.1) && (e.1.1 <? b) = true) tr)).

(** Runs under a clock that does not go back. *)
Inductive run (l0 : WindowLimiter) : list event -> WindowLimiter -> Time -> Prop :=
| run_start last : run l0 [] l0 last
| run_step tr l last now key b l' :
    run l0 tr l last -> last <= now -> 0 < now -> WindowLimiter_Allow now key l = (b, l') ->
    run l0 ((now, key, b) :: tr) l' now.

(** * Facts *)

Lemma admitted_in_cons e tr key a b :
  admitted_in (e :: tr) key a b
  = admitted_in tr key a b
    + if String.eqb e.1.2 key && e.2 && (a <=? e.1.1) && (e.1.1 <? b) then 1 else 0.
Proof.
  unfold admitted_in. rewrite filter_cons. case_decide; case_match; simpl in *; try lia; congruence.
Qed.

Lemma admitted_in_nonneg tr key a b : 0 <= admitted_in tr key a b.
Proof. unfold admitted_in. lia. Qed.

Lemma admitted_in_mono tr key a a' b b' :
  a <= a' -> b' <= b -> admitted_in tr key a' b' <= admitted_in tr key a b.
Proof.
  intros Ha Hb. induction tr as [|e tr IH]; [done|]. rewrite !admitted_in_cons.
  destruct (String.eqb _ _), (e.2); simpl; try lia.
  destruct (Z.leb_spec a' e.1.1), (Z.ltb_spec e.1.1 b'), (Z.leb_spec a e.1.1), (Z.ltb_spec e.1.1 b);
    simpl; lia.
Qed.

Lemma admitted_in_split tr key a m b :
  a <= m -> m <= b -> admitted_in tr key a b = admitted_in tr key a m + admitted_in tr key m b.
Proof.
  intros Ha Hb. induction tr as [|e tr IH]; [done|]. rewrite !admitted_in_cons.
  destruct (String.eqb _ _), (e.2); simpl; try lia.
  destruct (Z.leb_spec a e.1.1), (Z.ltb_spec e.1.1 b), (Z.ltb_spec e.1.1 m), (Z.leb_spec m e.1.1);
    simpl; lia.
Qed.

(** In a reachable state the count of a key is what was admitted since its
    window opened, and the time just before held at most one full quota. *)
Record key_inv (tr : list event) (l : WindowLimiter) (last : Time) (key : string) : Prop := {
  ki_past a b : last < a -> admitted_in tr key a b = 0;
  ki_any a : admitted_in tr key a (a + window l) <= 2 * limit l;
  ki_none : state l !! key = None -> forall a b, admitted_in tr key a b = 0;
  ki_some s : state l !! key = Some s ->
    0 < start s <= last
    /\ admitted_in tr key (start s) (last + 1) = wcount s /\ wcount s <= limit l
    /\ (forall b, admitted_in tr key (start s + window l) b = 0)
    /\ (forall a, start s - window l < a -> admitted_in tr key a (start s) <= limit l) }.

Lemma Sub_ge_iff now s w : 0 < w < 2^63 - 1 -> s <= now -> (w <=? Sub now s) = (w <=? now - s).
Proof. unfold Sub. intros. destruct (Z.leb_spec w (now - s)); [apply Z.leb_le|apply Z.leb_gt]; lia. Qed.

(** Everything admitted from inside the window on is counted. *)
Lemma admitted_from tr l last key s a b :
  key_inv tr l last key -> state l !! key = Some s -> start s <= a ->
  admitted_in tr key a b <= wcount s.
Proof.
  intros K Hs Ha. destruct (ki_some _ _ _ _ K s Hs) as (Hst & Hc & _).
  pose proof (admitted_in_mono tr key (start s) a (Z.max b (last + 1)) b).
  rewrite (admitted_in_split tr key (start s) (last + 1)) in H by lia.
  rewrite (ki_past _ _ _ _ K (last + 1)) in H by lia. lia.
Qed.

(** A call that admits nothing for [key] preserves the invariant of [key]. *)
Lemma key_inv_skip tr l l' last now key k b :
  key_inv tr l last key -> last <= now -> 0 < window l ->
  state l' !! key = state l !! key -> limit l' = limit l -> window l' = window l ->
  k <> key \/ b = false -> key_inv ((now, k, b) :: tr) l' now key.
Proof.
  intros K Hle Hw Hst Hlim Hwin Hskip.
  assert (E : forall a c, admitted_in ((now, k, b) :: tr) key a c = admitted_in tr key a c).
  { intros a c. rewrite admitted_in_cons. simpl. destruct Hskip as [Hn| ->].
    - rewrite (proj2 (String.eqb_neq k key) Hn). simpl. lia.
    - rewrite andb_false_r. simpl. lia. }
  split; rewrite ?Hst, ?Hlim, ?Hwin.
  - intros a c Ha. rewrite E. apply (ki_past _ _ _ _ K). lia.
  - intros a. rewrite E. apply (ki_any _ _ _ _ K).
  - intros Hn a c. rewrite E. by apply (ki_none _ _ _ _ K).
  - intros s Hs. destruct (ki_some _ _ _ _ K s Hs) as (H1 & H2 & H3 & H4 & H5).
    split; [lia|]. split; [|split; [done|]].
    + rewrite E, (admitted_in_split _ _ _ (last + 1)) by lia.
      rewrite (ki_past _ _ _ _ K (last + 1)) by lia. lia.
    + split; intros; rewrite E; auto.
Qed.

(** Opening a window. *)
Lemma key_inv_open tr l last now key :
  key_inv tr l last key -> last <= now -> 0 < now -> 1 <= limit l -> 0 < window l ->
  (forall s, state l !! key = Some s -> window l <= now - start s) ->
  key_inv ((now, key, true) :: tr) (put l key {| start := now; wcount := 1 |}) now key.
Proof.
  intros K Hle Hpos Hlim Hw Hopen.
  assert (Hfrom : forall b, admitted_in tr key now b = 0).
  { intros b. destruct (state l !! key) as [s|] eqn:Hs; [|by apply (ki_none _ _ _ _ K)].
    destruct (ki_some _ _ _ _ K s Hs) as (_ & _ & _ & H4 & _). specialize (Hopen s eq_refl).
    pose proof (admitted_in_mono tr key (start s + window l) now b b).
    rewrite H4 in H. pose proof (admitted_in_nonneg tr key now b). lia. }
  assert (Hrecent : forall a, now - window l < a -> admitted_in tr key a now <= limit l).
  { intros a Ha. destruct (state l !! key) as [s|] eqn:Hs; [|rewrite (ki_none _ _ _ _ K) by done; lia].
    specialize (Hopen s eq_refl). destruct (ki_some _ _ _ _ K s Hs) as (_ & _ & H3 & _).
    pose proof (admitted_from _ _ _ _ s a now K Hs). lia. }
  assert (E : forall a c, admitted_in ((now, key, true) :: tr) key a c
                          = admitted_in tr key a c + if (a <=? now) && (now <? c) then 1 else 0).
  { intros a c. rewrite admitted_in_cons. simpl. by rewrite String.eqb_refl. }
  split; simpl.
  - intros a c Ha. rewrite E, (ki_past _ _ _ _ K) by lia. destruct (Z.leb_spec a now); simpl; lia.
  - intros a. rewrite E. destruct (Z.leb_spec a now), (Z.ltb_spec now (a + window l)); simpl;
      try (pose proof (ki_any _ _ _ _ K a); lia).
    rewrite (admitted_in_split _ _ _ now), Hfrom by lia. specialize (Hrecent a). lia.
  - by rewrite lookup_insert_eq.
  - intros s. rewrite lookup_insert_eq. intros [= <-]. simpl.
    split; [lia|]. rewrite E, Hfrom, Z.leb_refl. split; [destruct (Z.ltb_spec now (now + 1)); simpl; lia|].
    split; [done|]. split.
    + intros b. rewrite E. destruct (Z.leb_spec (now + window l) now); [lia|]. simpl.
      pose proof (admitted_in_mono tr key now (now + window l) b b). rewrite Hfrom in H0.
      pose proof (admitted_in_nonneg tr key (now + window l) b). lia.
    + intros a Ha. rewrite E, Z.ltb_irrefl, andb_false_r, Z.add_0_r. auto.
Qed.

(** Counting one more call of the window. *)
Lemma key_inv_incr tr l last now key s :
  key_inv tr l last key -> last <= now -> 0 < window l -> state l !! key = Some s ->
  now - start s < window l -> wcount s < limit l ->
  key_inv ((now, key, true) :: tr) (put l key {| start := start s; wcount := wcount s + 1 |}) now key.
Proof.
  intros K Hle Hw Hs Hin Hlt. destruct (ki_some _ _ _ _ K s Hs) as (H1 & H2 & H3 & H4 & H5).
  assert (E : forall a c, admitted_in ((now, key, true) :: tr) key a c
                          = admitted_in tr key a c + if (a <=? now) && (now <? c) then 1 else 0).
  { intros a c. rewrite admitted_in_cons. simpl. by rewrite String.eqb_refl. }
  split; simpl.
  - intros a c Ha. rewrite E, (ki_past _ _ _ _ K) by lia. destruct (Z.leb_spec a now); simpl; lia.
  - intros a. rewrite E. destruct (Z.leb_spec a now), (Z.ltb_spec now (a + window l)); simpl;
      try (pose proof (ki_any _ _ _ _ K a); lia).
    destruct (Z.le_gt_cases a (start s)).
    + rewrite (admitted_in_split _ _ _ (start s)) by lia. specialize (H5 a).
      pose proof (admitted_from _ _ _ _ s (start s) (a + window l) K Hs). lia.
    + pose proof (admitted_from _ _ _ _ s a (a + window l) K Hs).
      pose proof (admitted_in_nonneg tr key (start s) (last + 1)). lia.
  - by rewrite lookup_insert_eq.
  - intros s'. rewrite lookup_insert_eq. intros [= <-]. simpl. split; [lia|]. split.
    + rewrite E, (admitted_in_split _ _ _ (last + 1)) by lia.
      rewrite (ki_past _ _ _ _ K (last + 1)) by lia.
      destruct (Z.leb_spec (start s) now), (Z.ltb_spec now (now + 1)); simpl; lia.
    + split; [lia|]. split; intros; rewrite E.
      * rewrite H4. destruct (Z.leb_spec (start s + window l) now); simpl; lia.
      * destruct (Z.leb_spec a now), (Z.ltb_spec now (start s)); simpl; try lia;
          rewrite Z.add_0_r; auto.
Qed.

Lemma window_Allow_config now key l b l' :
  WindowLimiter_Allow now key l = (b, l') -> limit l' = limit l /\ window l' = window l.
Proof. unfold WindowLimiter_Allow. cbn zeta. repeat case_match; naive_solver. Qed.

Lemma Allow_other now key l b l' k :
  WindowLimiter_Allow now key l = (b, l') -> k <> key -> state l' !! k = state l !! k.
Proof.
  unfold WindowLimiter_Allow. cbn zeta. intros H Hk.
  repeat case_match; simplify_eq/=; by rewrite ?lookup_insert_ne.
Qed.

(** Each call preserves the invariant of every key. *)
Lemma key_inv_step tr l last now k b l' key :
  key_inv tr l last key -> last <= now -> 0 < now -> 1 <= limit l -> 0 < window l < 2^63 - 1 ->
  WindowLimiter_Allow now k l = (b, l') -> key_inv ((now, k, b) :: tr) l' now key.
Proof.
  intros K Hle Hpos Hlim Hw HA. destruct (window_Allow_config _ _ _ _ _ HA) as [Hl Hwin].
  destruct (decide (k = key)) as [->|Hne].
  2:{ apply (key_inv_skip tr l l' last); try done; [lia| |by left].
      by apply (Allow_other now k l b). }
  unfold WindowLimiter_Allow in HA. cbn zeta in HA.
  destruct (state l !! key) as [s|] eqn:Hs; simpl in HA.
  - destruct (ki_some _ _ _ _ K s Hs) as (H1 & _). rewrite Sub_ge_iff in HA by lia.
    unfold IsZero in HA. destruct (Z.eqb_spec (start s) 0); [lia|]. simpl in HA.
    destruct (Z.leb_spec (window l) (now - start s)); [|destruct (Z.leb_spec (limit l) (wcount s))];
      injection HA as <- <-.
    + apply (key_inv_open _ _ last); [done..|lia|]. intros s'. rewrite Hs. by intros [= <-].
    + apply (key_inv_skip tr l l last); auto; lia.
    + apply (key_inv_incr _ _ last); auto; lia.
  - injection HA as <- <-. apply (key_inv_open _ _ last); [done..|lia|]. by rewrite Hs.
Qed.

Lemma window_run_config l0 tr l last : run l0 tr l last -> limit l = limit l0 /\ window l = window l0.
Proof.
  induction 1 as [|tr l last now key b l' _ [IH1 IH2] _ _ HA]; [done|].
  apply window_Allow_config in HA. naive_solver congruence.
Qed.

Lemma run_inv n tr l last :
  run (NewWindowLimiter n) tr l last -> forall key, key_inv tr l last key.
Proof.
  intros R. induction R as [last|tr l last now k b l' R IH Hle Hpos HA]; intros key.
  - assert (1 <= limit (NewWindowLimiter n)) by (simpl; destruct (Z.leb_spec n 0); lia).
    split; [done|intros a; change (0 <= 2 * limit (NewWindowLimiter n)); lia|done|].
    intros s. simpl. by rewrite lookup_empty.
  - destruct (window_run_config _ _ _ _ R) as [Hl Hw].
    apply (key_inv_step tr l last); [done..| | |done].
    + rewrite Hl. simpl. destruct (Z.leb_spec n 0); lia.
    + rewrite Hw. simpl. unfold Minute, Second. lia.
Qed.

(** whatever the sequence of calls and keys, in any time interval of one
    minute a key is admitted at most twice its quota, and the interval that
    starts with the current window of the key holds at most one quota. *)
Theorem window_limiter_bound n tr l last key :
  run (NewWindowLimiter n) tr l last ->
  let quota := if n <=? 0 then 120 else n in
  (forall a, admitted_in tr key a (a + Minute) <= 2 * quota)
  /\ (forall s, state l !! key = Some s -> admitted_in tr key (start s) (start s + Minute) <= quota).
Proof.
  intros R. pose proof (run_inv _ _ _ _ R key) as K. destruct (window_run_config _ _ _ _ R) as [Hl Hw].
  simpl in Hl, Hw. rewrite <- Hl, <- Hw. split; [apply (ki_any _ _ _ _ K)|].
  intros s Hs. destruct (ki_some _ _ _ _ K s Hs) as (_ & _ & H3 & _).
  pose proof (admitted_from _ _ _ _ s (start s) (start s + window l) K Hs). lia.
Qed.

(** a call is refused only when the key was admitted a full quota of times
    in the minute that ends with the call. *)
Theorem window_limiter_no_starvation n tr l last now key l' :
  run (NewWindowLimiter n) tr l last -> last <= now -> 0 < now ->
  WindowLimiter_Allow now key l = (false, l') ->
  limit l <= admitted_in tr key (now - Minute + 1) (now + 1) /\ l' = l.
Proof.
  intros R Hle Hpos HA. pose proof (run_inv _ _ _ _ R key) as K.
  destruct (window_run_config _ _ _ _ R) as [_ Hw]. simpl in Hw.
  unfold WindowLimiter_Allow in HA. cbn zeta in HA.
  destruct (state l !! key) as [s|] eqn:Hs; simpl in HA; [|done].
  destruct (ki_some _ _ _ _ K s Hs) as (H1 & H2 & H3 & _).
  rewrite Sub_ge_iff in HA by (rewrite ?Hw; unfold Minute, Second; lia).
  destruct (IsZero (start s)); [done|]. simpl in HA.
  destruct (Z.leb_spec (window l) (now - start s)); [done|].
  destruct (Z.leb_spec (limit l) (wcount s)); [|done]. injection HA as <-. split; [|done].
  pose proof (admitted_in_mono tr key (now - Minute + 1) (start s) (now + 1) (last + 1)).
  rewrite Hw in *. lia.
Qed.

(** Executable replay of a list of calls, oldest first. *)
Fixpoint replay (cs : list (Time * string)) (tr : list event) (l : WindowLimiter)
    : list event * WindowLimiter :=
  match cs with
  | [] => (tr, l)
  | (now, key) :: cs =>
      let '(b, l') := WindowLimiter_Allow now key l in replay cs ((now, key, b) :: tr) l'
  end.

Lemma window_replay_run l0 cs : forall tr l last,
  run l0 tr l last -> Forall (fun c => 0 < c.1) cs -> Sorted (fun c d => c.1 <= d.1) cs ->
  (forall c, hd_error cs = Some c -> last <= c.1) ->
  exists last', run l0 (replay cs tr l).1 (replay cs tr l).2 last'.
Proof.
  induction cs as [|[now key] cs IH]; intros tr l last R HF HS Hhd; simpl; [eauto|].
  destruct (WindowLimiter_Allow now key l) as [b l'] eqn:HA.
  apply Forall_cons in HF as [Hp HF]. apply Sorted_inv in HS as [HS Hd].
  apply (IH _ _ now); [|done..|].
  - apply (run_step _ _ l last); [done| |done..]. apply (Hhd (now, key)). done.
  - intros c Hc. destruct cs as [|c' cs]; simplify_eq/=. by inv Hd.
Qed.

(** Two calls at second 1, three at second 61: with a quota of two the key gets
    four of them within one minute and one nanosecond of the first. *)
Definition sample_calls : list (Time * string) :=
  [(1 * Second, "10.0.0.1"); (60 * Second, "10.0.0.1");
   (61 * Second, "10.0.0.1"); (61 * Second + 1, "10.0.0.1"); (61 * Second + 2, "10.0.0.1")].

Lemma sample_run : exists last,
  run (NewWindowLimiter 2) (replay sample_calls [] (NewWindowLimiter 2)).1
      (replay sample_calls [] (NewWindowLimiter 2)).2 last.
Proof.
  apply (window_replay_run _ _ _ _ 0); [constructor| | |by intros ? [= <-]].
  - unfold sample_calls, Second. repeat (apply Forall_cons; split; [simpl; lia|]). constructor.
  - unfold sample_calls, Second. repeat (constructor; [|constructor; simpl; lia]).
    repeat constructor.
Qed.

Lemma window_limiter_bound_witness :
  exists last, run (NewWindowLimiter 2) (replay sample_calls [] (NewWindowLimiter 2)).1
      (replay sample_calls [] (NewWindowLimiter 2)).2 last
  /\ admitted_in (replay sample_calls [] (NewWindowLimiter 2)).1 "10.0.0.1"
       (60 * Second) (60 * Second + Minute) = 3
  /\ admitted_in (replay sample_calls [] (NewWindowLimiter 2)).1 "10.0.0.1"
       (60 * Second) (60 * Second + Minute) <= 4.
Proof.
  destruct sample_run as [last R]. exists last. split; [exact R|]. split; [vm_compute; reflexivity|].
  exact (proj1 (window_limiter_bound 2 _ _ _ "10.0.0.1" R) (60 * Second)).
Defined.

Lemma window_limiter_no_starvation_witness :
  2 <= admitted_in (replay sample_calls [] (NewWindowLimiter 2)).1 "10.0.0.1"
         (61 * Second + 3 - Minute + 1) (61 * Second + 3 + 1).
Proof.
  destruct (window_replay_run (NewWindowLimiter 2) sample_calls [] (NewWindowLimiter 2) 0) as [last R].
  { constructor. }
  { unfold sample_calls, Second. repeat (apply Forall_cons; split; [simpl; lia|]). constructor. }
  { unfold sample_calls, Second. repeat (constructor; [|constructor; simpl; lia]).
    repeat constructor. }
  { by intros ? [= <-]. }
  assert (Hl : last = 61 * Second + 2) by (vm_compute in R; inv R; reflexivity).
  refine (proj1 (window_limiter_no_starvation 2 _ _ last (61 * Second + 3) "10.0.0.1" _ R _ _ _)).
  - rewrite Hl. unfold Second. lia.
  - unfold Second. lia.
  - vm_compute. reflexivity.
Defined.

End PerKey.
