(* ===== verification/Governance.v ===== *)
(** * Governance: internal/services/governance

    The deterministic policy service that gates ingestion.
    [EvaluateIngestion] decides from the source URI of a job alone, writes one
    audit event and returns the decision; a decision whose event could not be
    recorded is a rejection with an error.  The audit sink and the clock are
    ports over a world [W]. *)

From S2P Require Import Prelude GoStrings GoTime Sha256 GoSort Contracts.

#[local] Open Scope Z_scope.

Record DeterministicPolicyService (W : Type) := {
  auditSink : option (AuditSink W);
  clock : M W Time;
  residencyRegion : string }.
Arguments auditSink {W}.
Arguments clock {W}.
Arguments residencyRegion {W}.

(** The system clock [now] is read where the source calls [time.Now]. *)
Definition NewDeterministicPolicyServiceWithClock {W} (now : M W Time)
    (sink : option (AuditSink W)) (clk : option (M W Time)) : DeterministicPolicyService W :=
  let clk := default now clk in
  {| auditSink := sink; clock := clk; residencyRegion := "ap-south-1" |}.

Definition NewDeterministicPolicyService {W} (now : M W Time) (sink : option (AuditSink W)) :=
  NewDeterministicPolicyServiceWithClock now sink (Some now).

Definition auditRepositorySink {W} (repo : AuditEventRepository W) : AuditSink W :=
  {| Write ctx event := ae_Save repo ctx event |}.

Definition NewDeterministicPolicyServiceWithRepository {W} (now : M W Time)
    (repo : option (AuditEventRepository W)) : DeterministicPolicyService W :=
  match repo with
  | None => NewDeterministicPolicyService now None
  | Some repo => NewDeterministicPolicyService now (Some (auditRepositorySink repo))
  end.

Section Service.
Context `{U : UnicodeTables} {W : Type}.

Definition containsRequiredResidency (sourceURI requiredRegion : string) : bool :=
  Contains (ToLower sourceURI) (ToLower requiredRegion).

Definition hasPIIMarker (sourceURI : string) : bool :=
  let normalized := ToLower sourceURI in
  Contains normalized "pii" || Contains normalized "ssn" || Contains normalized "passport".

Definition deterministicEventID (metadata : RequestMetadata) (job : IngestionJob)
    (decision : IngestionStatus) (policyCode : string) : string :=
  let raw := rm_TenantID metadata +:+ "|" +:+ rm_RequestID metadata +:+ "|" +:+ job_JobID job
             +:+ "|" +:+ decision +:+ "|" +:+ policyCode in
  "evt_" +:+ hex (str_take 8 (Sum256 raw)).

Definition toAuditOutcome (decision : IngestionStatus) : AuditOutcome :=
  if String.eqb decision IngestionStatusApproved then AuditOutcomeAllowed else AuditOutcomeDenied.

Definition RecordAuditEvent (s : DeterministicPolicyService W) (ctx : context) (event : AuditEvent)
    : M W (option error) :=
  match AuditEvent_Validate event with
  | Some err => mret (Some (WrapValidationErr "audit_event" err))
  | None =>
      match auditSink s with
      | None => mret None
      | Some sink => Write sink ctx event
      end
  end.

Definition policyEvent (metadata : RequestMetadata) (job : IngestionJob)
    (decision : IngestionStatus) (policyCode : string) (now : Time) : AuditEvent := {|
  ev_EventID := deterministicEventID metadata job decision policyCode;
  ev_TenantID := rm_TenantID metadata;
  ev_EventType := "governance.ingestion.policy_decision";
  ev_Resource := job_SourceURI job;
  ev_Actor := "governance.policy_engine";
  ev_Outcome := toAuditOutcome decision;
  ev_OccurredAt := now;
  ev_Attributes := list_to_map [
    ("request_id", rm_RequestID metadata); ("job_id", job_JobID job);
    ("source_uri", job_SourceURI job); ("policy_code", policyCode);
    ("decision", decision); ("timestamp", Format_RFC3339Nano now)] |}.

Definition EvaluateIngestion (s : DeterministicPolicyService W) (ctx : context)
    (metadata : RequestMetadata) (job : IngestionJob) : M W (IngestionStatus * option error) :=
  match RequestMetadata_Validate metadata with
  | Some err => mret (IngestionStatusRejected, Some (WrapValidationErr "request_metadata" err))
  | None =>
  match IngestionJob_Validate job with
  | Some err => mret (IngestionStatusRejected, Some (WrapValidationErr "ingestion_job" err))
  | None =>
  if negb (String.eqb (rm_TenantID metadata) (job_TenantID job))
  then mret (IngestionStatusRejected,
             Some (errors_New ("tenant mismatch: metadata=" +:+ rm_TenantID metadata
                               +:+ " job=" +:+ job_TenantID job)))
  else
    now ← clock s;
    let '(decision, policyCode) :=
      if negb (containsRequiredResidency (job_SourceURI job) (residencyRegion s))
      then (IngestionStatusRejected, "residency_lock_violation")
      else if hasPIIMarker (job_SourceURI job)
      then (IngestionStatusQuarantine, "pii_redaction_required")
      else (IngestionStatusApproved, "policy_approved") in
    let auditEvent := policyEvent metadata job decision policyCode now in
    err ← RecordAuditEvent s ctx auditEvent;
    match err with
    | Some err => mret (IngestionStatusRejected, Some err)
    | None => mret (decision, None)
    end
  end
  end.

(** The policy: reject outside the region, quarantine marked content, approve
    the rest. *)
Definition policy (region uri : string) : IngestionStatus * string :=
  if negb (containsRequiredResidency uri region)
  then (IngestionStatusRejected, "residency_lock_violation")
  else if hasPIIMarker uri
  then (IngestionStatusQuarantine, "pii_redaction_required")
  else (IngestionStatusApproved, "policy_approved").

(** A request the service evaluates: valid parts, one tenant. *)
Definition admissible (metadata : RequestMetadata) (job : IngestionJob) : Prop :=
  RequestMetadata_Validate metadata = None /\ IngestionJob_Validate job = None
  /\ rm_TenantID metadata = job_TenantID job.

#[global] Instance admissible_dec md job : Decision (admissible md job).
Proof. unfold admissible. apply _. Defined.

Lemma EvaluateIngestion_admissible s ctx md job w :
  admissible md job ->
  EvaluateIngestion s ctx md job w
  = let '(now, w1) := clock s w in
    let d := policy (residencyRegion s) (job_SourceURI job) in
    let '(err, w2) := RecordAuditEvent s ctx (policyEvent md job d.1 d.2 now) w1 in
    (match err with Some e => (IngestionStatusRejected, Some e) | None => (d.1, None) end, w2).
Proof.
  intros (H1 & H2 & H3). unfold EvaluateIngestion, policy. rewrite H1, H2, H3, String.eqb_refl. simpl.
  unfold mbind, M_bind. destruct (clock s w) as [now w1].
  destruct (negb _); [|destruct (hasPIIMarker _)]; simpl;
    (destruct (RecordAuditEvent _ _ _ _) as [[e|] w2]; done).
Qed.

Lemma EvaluateIngestion_inadmissible s ctx md job w :
  ~ admissible md job ->
  exists e, EvaluateIngestion s ctx md job w = ((IngestionStatusRejected, Some e), w).
Proof.
  intros H. unfold EvaluateIngestion, admissible in *.
  destruct (RequestMetadata_Validate md); [by eexists|].
  destruct (IngestionJob_Validate job); [by eexists|].
  destruct (String.eqb_spec (rm_TenantID md) (job_TenantID job)); simpl; [naive_solver|by eexists].
Qed.

Lemma policyEvent_valid md job d code now :
  admissible md job -> now <> 0 -> AuditEvent_Validate (policyEvent md job d code now) = None.
Proof.
  intros (H1%RequestMetadata_Validate_None & _ & _) Hn. apply AuditEvent_Validate_None. simpl.
  split; [naive_solver|]. split; [|done]. unfold deterministicEventID. done.
Qed.

Lemma policy_cases region uri :
  (policy region uri).1 = IngestionStatusApproved <->
  containsRequiredResidency uri region = true /\ hasPIIMarker uri = false.
Proof.
  unfold policy. destruct (containsRequiredResidency uri region), (hasPIIMarker uri); simpl;
    split; naive_solver.
Qed.

End Service.

(** ** Theorems *)

Section Theorems.
Context `{U : UnicodeTables} {W : Type}.
Variables (sink : AuditSink W) (now : M W Time) (region : string).

(** The service with a sink that logs the events it is asked to write. *)
Definition audited : DeterministicPolicyService (W * list AuditEvent) := {|
  auditSink := Some (recording sink); clock := lift now; residencyRegion := region |}.

(** The service with the sink it was built with, or none. *)
Definition governed (osink : option (AuditSink W)) : DeterministicPolicyService (W * list AuditEvent) := {|
  auditSink := recording <$> osink; clock := lift now; residencyRegion := region |}.

(** C8: approval is sound, and audited by a service that has a sink.  Whether it
    has one or not, [EvaluateIngestion] returns a status without an error only
    for an admissible request, and it is the status that the policy gives to the
    source URI.  With a sink, exactly one event was written before, which carries
    the decision, the tenant, the resource and the deterministic identifier, and
    the sink accepted it.  Without a sink nothing is written: the decision is
    returned unaudited, and the only effect is the reading of the clock. *)
Theorem governance_decision_audited (osink : option (AuditSink W)) ctx md job w log st w' log' :
  EvaluateIngestion (governed osink) ctx md job (w, log) = ((st, None), (w', log')) ->
  admissible md job /\ st = (policy region (job_SourceURI job)).1
  /\ match osink with
     | Some k => exists ev, log' = log ++ [ev]
         /\ ev_TenantID ev = job_TenantID job /\ ev_Resource ev = job_SourceURI job
         /\ ev_Attributes ev !! "decision" = Some st
         /\ ev_EventID ev = deterministicEventID md job st (policy region (job_SourceURI job)).2
         /\ (ev_Outcome ev = AuditOutcomeAllowed <-> st = IngestionStatusApproved)
         /\ ev_OccurredAt ev = (now w).1 /\ Write k ctx ev (now w).2 = (None, w')
     | None => log' = log /\ w' = (now w).2
     end.
Proof.
  intros H. destruct (decide (admissible md job)) as [Ha|Hn].
  2:{ destruct (EvaluateIngestion_inadmissible (governed osink) ctx md job (w, log) Hn) as [e He]. congruence. }
  split; [done|].
  rewrite EvaluateIngestion_admissible in H by done. cbn zeta in H. simpl in H.
  unfold lift, RecordAuditEvent in H. simpl in H. destruct (now w) as [n w1].
  destruct (AuditEvent_Validate _) eqn:Hv; [simplify_eq/=|]. destruct osink as [k|]; simpl in H; [|by simplify_eq/=].
  destruct (Write k ctx _ _) as [[e|] w2] eqn:Hs; simplify_eq/=. split; [done|].
  destruct Ha as (_ & _ & Ht). eexists. split; [done|]. simpl. split; [done|]. split; [done|].
  split; [done|]. split; [done|]. split; [|done]. unfold toAuditOutcome.
  destruct (String.eqb_spec (policy region (job_SourceURI job)).1 IngestionStatusApproved); naive_solver.
Qed.

(** C9: fail closed, on every branch.  An inadmissible request is rejected with
    an error and leaves the world and the audit log alone.  An admissible one
    at a non-zero time writes exactly one event; its answer is the decision of
    the policy when the sink accepts the event, and a rejection that carries
    the error of the sink when it does not, even if the policy would approve. *)
Theorem governance_fail_closed ctx md job w log :
  let r := EvaluateIngestion audited ctx md job (w, log) in
  (~ admissible md job -> exists e, r = ((IngestionStatusRejected, Some e), (w, log)))
  /\ (admissible md job -> (now w).1 <> 0 ->
      exists ev, r.2.2 = log ++ [ev] /\ ev_OccurredAt ev = (now w).1
        /\ r.2.1 = (Write sink ctx ev (now w).2).2
        /\ r.1 = match (Write sink ctx ev (now w).2).1 with
                 | None => ((policy region (job_SourceURI job)).1, None)
                 | Some e => (IngestionStatusRejected, Some e)
                 end).
Proof.
  cbn zeta. split; [apply EvaluateIngestion_inadmissible|]. intros Ha Hn.
  rewrite EvaluateIngestion_admissible by done. cbn zeta. simpl. unfold lift, RecordAuditEvent. simpl.
  destruct (now w) as [n w1]. simpl in Hn.
  rewrite policyEvent_valid by done. simpl.
  destruct (policy region (job_SourceURI job)) as [d code]. exists (policyEvent md job d code n).
  simpl. destruct (Write sink ctx _ _) as [[e|] w2]; done.
Qed.
End Theorems.


(** ** Examples *)

Definition sample_metadata : RequestMetadata := {|
  rm_TenantID := "acme"; rm_RequestID := "req-1"; rm_SourceIP := "10.0.0.1"; rm_UserAgent := "cli" |}.
Definition sample_job (uri : string) : IngestionJob := {|
  job_JobID := "job-1"; job_TenantID := "acme"; job_SourceURI := uri; job_Checksum := "c1";
  job_PolicyDecision := IngestionStatusQueued; job_CreatedAt := unix_time 1700000000 0 |}.
(** A sink that accepts [n] events and then fails. *)
Definition bounded_sink : AuditSink nat := {|
  Write _ _ := fun n => match n with O => (Some (errors_New "audit store down"), O) | S m => (None, m) end |}.

Lemma governance_decision_audited_witness :
  let s sink := governed (mret (unix_time 1700000000 0)) "ap-south-1" sink in
  let job := sample_job "s3://AP-South-1/handbook.pdf" in
  (exists ev, (EvaluateIngestion (U := latin1) (s (Some bounded_sink)) None sample_metadata job (1%nat, [])).2.2 = [ev]
    /\ ev_Attributes ev !! "decision" = Some IngestionStatusApproved
    /\ ev_Outcome ev = AuditOutcomeAllowed)
  /\ (EvaluateIngestion (U := latin1) (s None) None sample_metadata job (1%nat, [])).2.2 = [].
Proof.
  intros s job. split.
  - destruct (governance_decision_audited (U := latin1) (mret (unix_time 1700000000 0))
      "ap-south-1" (Some bounded_sink) None sample_metadata job 1%nat [] IngestionStatusApproved 0%nat
      (EvaluateIngestion (U := latin1) (s (Some bounded_sink)) None sample_metadata job (1%nat, [])).2.2)
      as (_ & _ & ev & Hl & _ & _ & Hd & _ & Ho & _).
    + vm_compute. reflexivity.
    + exists ev. split; [exact Hl|]. split; [exact Hd|]. by apply Ho.
  - destruct (governance_decision_audited (U := latin1) (mret (unix_time 1700000000 0))
      "ap-south-1" None None sample_metadata job 1%nat [] IngestionStatusApproved 1%nat
      (EvaluateIngestion (U := latin1) (s None) None sample_metadata job (1%nat, [])).2.2)
      as (_ & _ & Hl & _); [vm_compute; reflexivity|exact Hl].
Defined.

Lemma governance_fail_closed_witness :
  let s := audited bounded_sink (mret (unix_time 1700000000 0)) "ap-south-1" in
  let job := sample_job "s3://ap-south-1/handbook.pdf" in
  admissible sample_metadata job
  /\ exists ev, (EvaluateIngestion (U := latin1) s None sample_metadata job (0%nat, [])).2.2 = [ev]
    /\ (EvaluateIngestion (U := latin1) s None sample_metadata job (0%nat, [])).1
       = (IngestionStatusRejected, Some (errors_New "audit store down")).
Proof.
  intros s job. split; [done|].
  destruct (proj2 (governance_fail_closed (U := latin1) bounded_sink (mret (unix_time 1700000000 0))
    "ap-south-1" None sample_metadata job 0%nat [])) as (ev & Hl & _ & _ & Hr).
  - done.
  - by vm_compute.
  - exists ev. split; [exact Hl|exact Hr].
Defined.
