(* ===== verification/Auth.v ===== *)
(** * Auth: internal/auth and internal/middleware

    API keys and the tenant context of a request.  [APIKeyAuthenticator]
    looks an API key up by its SHA-256 digest in a store (a port, with the
    in-memory implementation), checks the record and writes one audit event on
    every path; [TenantContextMiddleware] turns the authenticated headers into
    a tenant scope or rejects the request. *)

From S2P Require Import Prelude GoStrings GoTime Sha256 GoSort Contracts.

#[local] Open Scope Z_scope.

(** ** API keys (internal/auth/apikey.go) *)

Definition ErrAPIKeyMissing := ErrVar "auth.ErrAPIKeyMissing" "api key is required".
Definition ErrAPIKeyInvalid := ErrVar "auth.ErrAPIKeyInvalid" "api key is invalid".
Definition ErrAPIKeyRevoked := ErrVar "auth.ErrAPIKeyRevoked" "api key is revoked".

Record APIKeyRecord := {
  APIKeyID : string; TenantID' : TenantID; Subject : string; RawKeySHA256 : string;
  Revoked : bool; RevokedAt : Time; IssuedAt : Time; AllowedScopes : list string }.

(** [GetByHash] returns [None] for a key that is not there. *)
Record APIKeyStore (W : Type) := {
  GetByHash : context -> string -> M W (result (option APIKeyRecord)) }.
Arguments GetByHash {W}.

Definition HashAPIKey (raw : string) : string := hex (Sum256 raw).

(** The in-memory store. *)
Record InMemoryAPIKeyStore := { records : gmap string APIKeyRecord }.

Definition NewInMemoryAPIKeyStore : InMemoryAPIKeyStore := {| records := ∅ |}.

Definition Put (record : APIKeyRecord) (s : InMemoryAPIKeyStore) : InMemoryAPIKeyStore :=
  {| records := <[RawKeySHA256 record := record]> (records s) |}.

Definition InMemory_GetByHash (_ : context) (keySHA256 : string)
    : M InMemoryAPIKeyStore (result (option APIKeyRecord)) := fun s =>
  (Ok (records s !! keySHA256), s).

Definition inMemoryStore : APIKeyStore InMemoryAPIKeyStore := {| GetByHash := InMemory_GetByHash |}.

Section Authenticator.
Context {W : Type}.
Variable now : M W Time.

Record APIKeyAuthenticator := { Store : option (APIKeyStore W); AuditSink' : option (AuditSink W) }.

Definition auditEvent (metadata : RequestMetadata) (eventType : string) (outcome : AuditOutcome)
    (attrs : gmap string string) (t1 t2 : Time) : AuditEvent := {|
  ev_EventID := "evt-" +:+ Itoa (UnixNano t1);
  ev_TenantID := rm_TenantID metadata;
  ev_EventType := eventType;
  ev_Resource := "api_key";
  ev_Actor := rm_RequestID metadata;
  ev_Outcome := outcome;
  ev_OccurredAt := t2;
  ev_Attributes := attrs |}.

(** The error of the sink is dropped. *)
Definition writeAudit (a : APIKeyAuthenticator) (ctx : context) (metadata : RequestMetadata)
    (eventType : string) (outcome : AuditOutcome) (attrs : gmap string string) : M W unit :=
  match AuditSink' a with
  | None => mret tt
  | Some sink =>
      t1 ← now; t2 ← now;
      _ ← Write sink ctx (auditEvent metadata eventType outcome attrs t1 t2);
      mret tt
  end.

Definition Authenticate (a : APIKeyAuthenticator) (ctx : context) (rawAPIKey : string)
    (metadata : RequestMetadata) : M W (result AuthClaims) :=
  match Store a with
  | None => mret (Err (errors_New "api key store is required"))
  | Some store =>
  match RequestMetadata_Validate metadata with
  | Some err => mret (Err (WrapValidationErr "request_metadata" err))
  | None =>
  if String.eqb rawAPIKey "" then
    _ ← writeAudit a ctx metadata "api_key.auth" AuditOutcomeDenied {["reason" := "missing_key"]};
    mret (Err ErrAPIKeyMissing)
  else
  r ← GetByHash store ctx (HashAPIKey rawAPIKey);
  match r with
  | Err err =>
      _ ← writeAudit a ctx metadata "api_key.auth" AuditOutcomeError {["reason" := "store_error"]};
      mret (Err err)
  | Ok None =>
      _ ← writeAudit a ctx metadata "api_key.auth" AuditOutcomeDenied {["reason" := "invalid_key"]};
      mret (Err ErrAPIKeyInvalid)
  | Ok (Some record) =>
  if Revoked record then
    _ ← writeAudit a ctx metadata "api_key.auth" AuditOutcomeDenied
          (<["reason" := "revoked_key"]> {["api_key_id" := APIKeyID record]});
    mret (Err ErrAPIKeyRevoked)
  else
  let claims := {|
    ac_TenantID := TenantID' record; ac_Subject := Subject record; ac_APIKeyID := APIKeyID record;
    ac_Scopes := AllowedScopes record; ac_IssuedAt := IssuedAt record |} in
  match AuthClaims_Validate claims with
  | Some err =>
      _ ← writeAudit a ctx metadata "api_key.auth" AuditOutcomeError
            (<["reason" := "invalid_claims"]> {["api_key_id" := APIKeyID record]});
      mret (Err (Errorf_w "auth claims validation failed: " err ""))
  | None =>
      _ ← writeAudit a ctx metadata "api_key.auth" AuditOutcomeAllowed
            {["api_key_id" := APIKeyID record]};
      mret (Ok claims)
  end
  end
  end
  end.
End Authenticator.
Arguments Store {W}.
Arguments AuditSink' {W}.
Arguments APIKeyAuthenticator : clear implicits.

(** ** The tenant middleware (internal/middleware/tenant_context.go) *)

(** What a handler does with a request: answer with an error object, or pass
    the request on with a context. *)
Inductive outcome :=
| Rejection (status : Z) (code message : string)
| Next (ctx : context).

(** [tenantHeader] and [requestHeader] are the values [r.Header.Get] returns
    for [X-Authenticated-Tenant-ID] and [X-Request-ID], empty when absent. *)
Definition TenantContextMiddleware (ctx : context) (tenantHeader requestHeader : string) : outcome :=
  let tenantRaw := TrimSpace tenantHeader in
  if String.eqb tenantRaw ""
  then Rejection 401 "tenant_context_missing" "authenticated tenant context is required"
  else
    let requestID := TrimSpace requestHeader in
    if String.eqb requestID ""
    then Rejection 400 "request_id_missing" "request id is required"
    else
      match WithTenantContext ctx {| tc_TenantID := tenantRaw; tc_RequestID := requestID |} with
      | Err _ => Rejection 400 "tenant_context_malformed" "tenant context is malformed"
      | Ok ctx' => Next ctx'
      end.

(** The 32-bit FNV-1a hash of [hash/fnv]. *)
Definition fnv32a (s : string) : Z :=
  fold_left (fun h b => (Z.lxor h b * 16777619) mod 2^32) (str_bytes s) 2166136261.

Definition tenantLabel (tenantID : TenantID) : string := "tenant_" +:+ hex_fixed 8 (fnv32a tenantID).

Record TenantObservabilityMetadata := { om_RequestID : string; om_TenantLabel : string }.

Definition ObservabilityMetadataFromContext (ctx : context) : result TenantObservabilityMetadata :=
  match TenantContextFromContext ctx with
  | Err err => Err err
  | Ok tc => Ok {| om_RequestID := tc_RequestID tc; om_TenantLabel := tenantLabel (tc_TenantID tc) |}
  end.

(** * Facts *)

Example fnv_vector : fnv32a "foobar" = 0xbf9cf968.
Proof. vm_compute. reflexivity. Qed.
Example label_vector : tenantLabel "foobar" = "tenant_bf9cf968".
Proof. vm_compute. reflexivity. Qed.

Lemma AuthClaims_Validate_None c :
  AuthClaims_Validate c = None <->
  ac_TenantID c <> "" /\ ac_Subject c <> "" /\ ac_APIKeyID c <> "" /\ ac_IssuedAt c <> 0.
Proof. unfold AuthClaims_Validate. validate_simp. by rewrite TenantID_Validate_None. Qed.

(** The claims a usable record gives. *)
Definition claims_of (r : APIKeyRecord) : AuthClaims := {|
  ac_TenantID := TenantID' r; ac_Subject := Subject r; ac_APIKeyID := APIKeyID r;
  ac_Scopes := AllowedScopes r; ac_IssuedAt := IssuedAt r |}.
Definition usable (r : APIKeyRecord) : Prop :=
  Revoked r = false /\ AuthClaims_Validate (claims_of r) = None.

Section Facts.
Context {W : Type}.
Variables (now : M W Time) (sink : option (AuditSink W)) (store : APIKeyStore W).
Definition authn : APIKeyAuthenticator W := {| Store := Some store; AuditSink' := sink |}.

(** The record that authenticated a key is the store's answer for its digest. *)
Lemma Authenticate_Ok ctx key md w claims w' :
  Authenticate now authn ctx key md w = (Ok claims, w') ->
  key <> "" /\ RequestMetadata_Validate md = None /\
  exists r w1, GetByHash store ctx (HashAPIKey key) w = (Ok (Some r), w1)
    /\ usable r /\ claims = claims_of r.
Proof.
  unfold Authenticate. run_M. simpl. intros H.
  destruct (RequestMetadata_Validate md); [done|].
  destruct (String.eqb_spec key ""); [by destruct (writeAudit _ _ _ _ _ _ _ _)|].
  split; [done|]. split; [done|].
  destruct (GetByHash _ _ _ _) as [[[r|]|e] w1];
    [|by destruct (writeAudit _ _ _ _ _ _ _ _)|by destruct (writeAudit _ _ _ _ _ _ _ _)].
  destruct (Revoked r) eqn:Hr; [by destruct (writeAudit _ _ _ _ _ _ _ _)|].
  exists r, w1. split; [done|].
  fold (claims_of r) in H. destruct (AuthClaims_Validate (claims_of r)) eqn:Hc.
  - by destruct (writeAudit _ _ _ _ _ _ _ _).
  - destruct (writeAudit _ _ _ _ _ _ _ _). simplify_eq/=. done.
Qed.

Lemma Authenticate_usable ctx key md w r w1 :
  key <> "" -> RequestMetadata_Validate md = None ->
  GetByHash store ctx (HashAPIKey key) w = (Ok (Some r), w1) -> usable r ->
  (Authenticate now authn ctx key md w).1 = Ok (claims_of r).
Proof.
  intros Hk Hm Hg [Hr Hc]. unfold Authenticate. run_M. simpl.
  rewrite Hm, (proj2 (String.eqb_neq _ _) Hk), Hg, Hr. fold (claims_of r). rewrite Hc.
  by destruct (writeAudit _ _ _ _ _ _ _ _).
Qed.
End Facts.

(** * Theorems *)

Section Audit.
Context {W : Type}.
Variables (now : M W Time) (sink : AuditSink W) (store : APIKeyStore W).

(** The authenticator with a sink that logs the events it is asked to write. *)
Definition logged_authn : APIKeyAuthenticator (W * list AuditEvent) := {|
  Store := Some {| GetByHash ctx h := lift (GetByHash store ctx h) |};
  AuditSink' := Some (recording sink) |}.

Lemma writeAudit_logs ctx md et oc attrs w log :
  exists ev, (writeAudit (lift now) logged_authn ctx md et oc attrs (w, log)).2.2 = log ++ [ev]
    /\ ev_TenantID ev = rm_TenantID md /\ ev_Outcome ev = oc /\ ev_Actor ev = rm_RequestID md.
Proof.
  unfold writeAudit, mbind, M_bind, mret, M_ret, lift. simpl.
  destruct (now w) as [t1 w1]. simpl. destruct (now w1) as [t2 w2]. simpl.
  destruct (Write _ _ _ _) as [e w3]. simpl. by eexists.
Qed.

(** An answer after one audit event. *)
Lemma audited_answer ctx md oc attrs w log (r : result AuthClaims) :
  (oc = AuditOutcomeAllowed <-> is_Ok r = true) ->
  let a := (let '(_, s') := writeAudit (lift now) logged_authn ctx md "api_key.auth" oc attrs
                              (w, log) in (r, s')) in
  exists ev, a.2.2 = log ++ [ev]
    /\ ev_TenantID ev = rm_TenantID md /\ ev_Actor ev = rm_RequestID md
    /\ (ev_Outcome ev = AuditOutcomeAllowed <-> is_Ok a.1 = true).
Proof.
  intros Hr. destruct (writeAudit_logs ctx md "api_key.auth" oc attrs w log) as (ev & H1 & H2 & H3 & H4).
  exists ev. destruct (writeAudit _ _ _ _ _ _ _) as [u s']. simpl in *. by rewrite H3.
Qed.

(** every authentication attempt is audited exactly once.  For valid
    request metadata [Authenticate] writes one event, whatever the store and
    the sink answer, under the tenant and the request identifier of the
    metadata, and its outcome is [allowed] exactly when the attempt succeeds;
    invalid metadata is refused without touching store or sink. *)
Theorem authenticate_audits_once ctx key md w log :
  let r := Authenticate (lift now) logged_authn ctx key md (w, log) in
  (RequestMetadata_Validate md <> None -> is_Ok r.1 = false /\ r.2 = (w, log))
  /\ (RequestMetadata_Validate md = None ->
      exists ev, r.2.2 = log ++ [ev] /\ ev_TenantID ev = rm_TenantID md
        /\ ev_Actor ev = rm_RequestID md
        /\ (ev_Outcome ev = AuditOutcomeAllowed <-> is_Ok r.1 = true)).
Proof.
  cbn zeta. unfold Authenticate. run_M. simpl.
  destruct (RequestMetadata_Validate md) as [e|]; simpl; [by split|].
  split; [done|]. intros _.
  destruct (String.eqb key ""); [by apply audited_answer|]. rewrite lift_eq.
  destruct (GetByHash _ _ _ _) as [[[r|]|e] w1]; [|by apply audited_answer..].
  destruct (Revoked r); [by apply audited_answer|].
  destruct (AuthClaims_Validate _); by apply audited_answer.
Qed.
End Audit.

Lemma authenticate_audits_once_witness :
  let md := {| rm_TenantID := "acme"; rm_RequestID := "r1"; rm_SourceIP := ""; rm_UserAgent := "" |} in
  let down := {| Write _ _ := fun w : InMemoryAPIKeyStore => (Some (errors_New "down"), w) |} in
  exists ev, (Authenticate (lift (mret 1)) (logged_authn down inMemoryStore) None "secret" md
                (NewInMemoryAPIKeyStore, [])).2.2 = [ev]
    /\ ev_TenantID ev = "acme" /\ ev_Outcome ev <> AuditOutcomeAllowed.
Proof.
  intros md down.
  destruct (proj2 (authenticate_audits_once (mret 1) down inMemoryStore None "secret" md
    NewInMemoryAPIKeyStore []) eq_refl) as (ev & Hl & Ht & _ & Ho).
  exists ev. split; [exact Hl|]. split; [exact Ht|]. rewrite Ho. vm_compute. discriminate.
Defined.

Section InMemory.
Context {W : Type}.
Variables (now : M W Time) (sink : option (AuditSink W)).

(** The authenticator over the in-memory store; clock and sink have a world
    of their own. *)
Definition inMemoryAuthn : APIKeyAuthenticator (InMemoryAPIKeyStore * W) := {|
  Store := Some {| GetByHash ctx h := lift (InMemory_GetByHash ctx h) |};
  AuditSink' := (fun s => {| Write ctx ev := on_snd (Write s ctx ev) |}) <$> sink |}.

(** The record put last for a digest. *)
Definition last_for (h : string) (puts : list APIKeyRecord) : option APIKeyRecord :=
  last (filter (fun r => RawKeySHA256 r = h) puts).

Lemma puts_lookup puts : forall s h,
  records (fold_left (fun s r => Put r s) puts s) !! h
  = match last_for h puts with Some r => Some r | None => records s !! h end.
Proof.
  unfold last_for. induction puts as [|r puts IH] using rev_ind; intros s h; [done|].
  rewrite fold_left_app. simpl. rewrite filter_app, filter_cons, filter_nil.
  case_decide as E.
  - rewrite last_snoc, E, lookup_insert_eq. done.
  - by rewrite app_nil_r, lookup_insert_ne.
Qed.

(** C10: authentication against the in-memory store is exact.  After any
    sequence of [Put]s an API key is accepted if and only if it is non-empty
    and the last record put for its digest is not revoked and complete, and
    the claims are those of that record: putting a revoked record shuts the
    key out, and no other key is affected. *)
Theorem authenticate_in_memory_iff puts ctx key md w claims :
  RequestMetadata_Validate md = None ->
  (Authenticate (on_snd now) inMemoryAuthn ctx key md
     (fold_left (fun s r => Put r s) puts NewInMemoryAPIKeyStore, w)).1 = Ok claims
  <-> key <> "" /\ exists r, last_for (HashAPIKey key) puts = Some r /\ usable r /\ claims = claims_of r.
Proof.
  intros Hm. set (s := fold_left _ _ _).
  assert (Hg : forall h, lift (L := W) (InMemory_GetByHash ctx h) (s, w)
                         = (Ok (last_for h puts), (s, w))).
  { intros h. rewrite lift_eq. unfold InMemory_GetByHash, s. rewrite puts_lookup.
    simpl. by destruct (last_for h puts). }
  split.
  - destruct (Authenticate _ _ _ _ _ _) as [r' w'] eqn:E. simpl. intros ->.
    apply Authenticate_Ok in E as (Hk & _ & r & w1 & Hr & Hu & ->). split; [done|].
    simpl in Hr. rewrite Hg in Hr. simplify_eq. eauto.
  - intros (Hk & r & Hl & Hu & ->). apply (Authenticate_usable _ _ _ _ _ _ _ _ (s, w)); [done..| |done].
    simpl. by rewrite Hg, Hl.
Qed.

(** only issued keys authenticate.  If every stored digest is the digest of
    an issued raw key, an accepted key is that raw key, or the two are a
    collision of SHA-256. *)
Theorem authenticate_only_issued puts ctx key md w claims (issued : APIKeyRecord -> string) :
  Forall (fun r => RawKeySHA256 r = HashAPIKey (issued r)) puts ->
  (Authenticate (on_snd now) inMemoryAuthn ctx key md
     (fold_left (fun s r => Put r s) puts NewInMemoryAPIKeyStore, w)).1 = Ok claims ->
  exists r, r ∈ puts /\ claims = claims_of r /\ (key = issued r \/ sha256_collision key (issued r)).
Proof.
  intros HF. destruct (Authenticate _ _ _ _ _ _) as [r' w'] eqn:E. simpl. intros ->.
  apply Authenticate_Ok in E as (Hk & _ & r & w1 & Hr & Hu & ->).
  simpl in Hr. rewrite lift_eq in Hr. unfold InMemory_GetByHash in Hr. rewrite puts_lookup in Hr.
  destruct (last_for (HashAPIKey key) puts) as [r'|] eqn:Hl; simpl in Hr; simplify_eq.
  apply last_Some_elem_of, list_elem_of_filter in Hl as [Hh Hin].
  exists r. split; [done|]. split; [done|].
  rewrite Forall_forall in HF. apply sha256_hex_eq. unfold sha256_hex. fold (HashAPIKey key).
  rewrite <- Hh. by rewrite HF.
Qed.
End InMemory.

Definition sample_record (id raw : string) (revoked : bool) : APIKeyRecord := {|
  APIKeyID := id; TenantID' := "acme"; Subject := "svc"; RawKeySHA256 := HashAPIKey raw;
  Revoked := revoked; RevokedAt := 0; IssuedAt := 5; AllowedScopes := ["search"] |}.
Definition sample_md : RequestMetadata :=
  {| rm_TenantID := "acme"; rm_RequestID := "r1"; rm_SourceIP := ""; rm_UserAgent := "" |}.

Lemma authenticate_in_memory_iff_witness :
  let puts := [sample_record "k1" "alpha" false; sample_record "k2" "beta" false;
               sample_record "k1" "alpha" true] in
  let run key := (Authenticate (on_snd (mret 1)) (inMemoryAuthn (W := unit) None) None key sample_md
     (fold_left (fun s r => Put r s) puts NewInMemoryAPIKeyStore, tt)).1 in
  run "beta" = Ok (claims_of (sample_record "k2" "beta" false)) /\ run "alpha" = Err ErrAPIKeyRevoked.
Proof.
  intros puts run. split; [|vm_compute; reflexivity].
  apply (authenticate_in_memory_iff (mret 1) None puts None "beta" sample_md tt); [reflexivity|].
  split; [discriminate|]. exists (sample_record "k2" "beta" false).
  split; [vm_compute; reflexivity|]. split; [split; reflexivity|reflexivity].
Defined.

Lemma authenticate_only_issued_witness :
  exists r, r ∈ [sample_record "k2" "beta" false]
    /\ claims_of (sample_record "k2" "beta" false) = claims_of r
    /\ ("beta" = "beta" \/ sha256_collision "beta" "beta").
Proof.
  apply (authenticate_only_issued (mret 1) None [sample_record "k2" "beta" false] None "beta" sample_md
    tt _ (fun _ => "beta")).
  - repeat constructor.
  - vm_compute. reflexivity.
Defined.

(** the tenant middleware lets a request through exactly when both headers
    are non-blank, and then the handler runs under the trimmed tenant of the
    header, whatever scope the incoming context carried; the rejections are
    401 for a missing tenant and 400 for a missing request identifier, and the
    third rejection of the code is unreachable. *)
Theorem tenant_middleware_scope ctx tenantHeader requestHeader :
  match TenantContextMiddleware ctx tenantHeader requestHeader with
  | Next ctx' =>
      TrimSpace tenantHeader <> "" /\ TrimSpace requestHeader <> ""
      /\ RequireTenantScope ctx'
         = Ok {| tc_TenantID := TrimSpace tenantHeader; tc_RequestID := TrimSpace requestHeader |}
      /\ ObservabilityMetadataFromContext ctx'
         = Ok {| om_RequestID := TrimSpace requestHeader;
                 om_TenantLabel := tenantLabel (TrimSpace tenantHeader) |}
  | Rejection status code _ =>
      (TrimSpace tenantHeader = "" /\ status = 401 /\ code = "tenant_context_missing")
      \/ (TrimSpace tenantHeader <> "" /\ TrimSpace requestHeader = ""
          /\ status = 400 /\ code = "request_id_missing")
  end.
Proof.
  unfold TenantContextMiddleware. cbn zeta.
  destruct (String.eqb_spec (TrimSpace tenantHeader) ""); [by left|].
  destruct (String.eqb_spec (TrimSpace requestHeader) ""); [by right|].
  unfold WithTenantContext. cbn zeta.
  rewrite (proj2 (TenantContext_Validate_None _)) by done.
  split; [done|]. split; [done|].
  assert (Hs : RequireTenantScope (Some (WithValue (default Background ctx) tenantContextKey
     (CtxTenant {| tc_TenantID := TrimSpace tenantHeader; tc_RequestID := TrimSpace requestHeader |})))
     = Ok {| tc_TenantID := TrimSpace tenantHeader; tc_RequestID := TrimSpace requestHeader |}).
  { apply RequireTenantScope_Ok. eexists. split; [done|]. split; [done|].
    by apply TenantContext_Validate_None. }
  split; [done|]. unfold ObservabilityMetadataFromContext. unfold RequireTenantScope in Hs.
  by destruct (TenantContextFromContext _); simplify_eq.
Qed.
