(* ===== verification/Queue.v ===== *)
(** * Queue: internal/services/ingestion/queue_provider.go

    The configuration of the queue provider, the in-memory queue adapter (a
    first-in first-out queue with a dead-letter list) and the selection of
    the adapter.  The in-memory adapter is shown to implement the queue ports
    as a FIFO. *)

From S2P Require Import Prelude GoStrings GoSort Contracts.

#[local] Open Scope Z_scope.

Definition ErrQueueEmpty := ErrVar "ingestion.ErrQueueEmpty" "ingestion queue empty".

(** ** Configuration *)

Record QueueProviderConfig := {
  Provider : string; AWSRegion : string; QueueURL : string; DLQURL : string;
  MessageGroupID : string; LocalFallbackMode : bool }.

(** [lookupEnv] is the environment; an unset variable is [None]. *)
Definition getEnv (lookupEnv : string -> option string) (key : string) : string :=
  default "" (lookupEnv key).

Section Config.
Context `{U : UnicodeTables}.

Definition LoadQueueProviderConfigFromEnv (lookupEnv : string -> option string) : QueueProviderConfig :=
  let provider :=
    match lookupEnv "FINE_RAG_QUEUE_PROVIDER" with
    | Some v => if negb (String.eqb (TrimSpace v) "") then ToLower (TrimSpace v) else "memory"
    | None => "memory"
    end in
  let fallback :=
    match lookupEnv "FINE_RAG_QUEUE_LOCAL_FALLBACK" with
    | Some v => if EqualFold_ascii (TrimSpace v) "false" then false else true
    | None => true
    end in
  let messageGroupID := TrimSpace (getEnv lookupEnv "FINE_RAG_SQS_MESSAGE_GROUP_ID") in
  let messageGroupID := if String.eqb messageGroupID "" then "ingestion-jobs" else messageGroupID in
  {| Provider := provider;
     AWSRegion := TrimSpace (getEnv lookupEnv "AWS_REGION");
     QueueURL := TrimSpace (getEnv lookupEnv "FINE_RAG_SQS_QUEUE_URL");
     DLQURL := TrimSpace (getEnv lookupEnv "FINE_RAG_SQS_DLQ_URL");
     MessageGroupID := messageGroupID;
     LocalFallbackMode := fallback |}.

Definition QueueProviderConfig_Validate (c : QueueProviderConfig) : option error :=
  if String.eqb (Provider c) "" || String.eqb (Provider c) "memory" then None
  else if String.eqb (Provider c) "sqs" then
    require (negb (String.eqb (AWSRegion c) ""))
      "AWS_REGION is required when FINE_RAG_QUEUE_PROVIDER=sqs" ;;?
    require (negb (String.eqb (QueueURL c) ""))
      "FINE_RAG_SQS_QUEUE_URL is required when FINE_RAG_QUEUE_PROVIDER=sqs" ;;?
    require (negb (String.eqb (DLQURL c) ""))
      "FINE_RAG_SQS_DLQ_URL is required when FINE_RAG_QUEUE_PROVIDER=sqs"
  else Some (errors_New ("unsupported FINE_RAG_QUEUE_PROVIDER " +:+ Quote (Provider c))).

(** ** Selection of the adapter *)

(** The adapter that serves as producer, consumer and dead-letter queue. *)
Inductive adapter := InMemoryQueue | SQSQueue (cfg : QueueProviderConfig).

(** [hasClient] says whether an SQS client was supplied. *)
Definition NewSQSQueueAdapter (hasClient : bool) (cfg : QueueProviderConfig) : result adapter :=
  if negb hasClient then Err (errors_New "sqs client is required")
  else check QueueProviderConfig_Validate cfg ;; Ok (SQSQueue cfg).

Definition BuildQueueAdapters (cfg : QueueProviderConfig) (hasClient : bool)
    : result (adapter * string) :=
  if String.eqb (Provider cfg) "" || String.eqb (Provider cfg) "memory"
  then Ok (InMemoryQueue, "memory")
  else if negb (String.eqb (Provider cfg) "sqs")
  then Err (errors_New ("unsupported queue provider " +:+ Quote (Provider cfg)))
  else match QueueProviderConfig_Validate cfg with
  | Some err => if LocalFallbackMode cfg then Ok (InMemoryQueue, "memory-fallback") else Err err
  | None =>
      match NewSQSQueueAdapter hasClient cfg with
      | Err err => if LocalFallbackMode cfg then Ok (InMemoryQueue, "memory-fallback") else Err err
      | Ok a => Ok (a, "sqs")
      end
  end.

(** selection of the queue adapter.  The SQS adapter is chosen only for the
    provider [sqs] with a client and a complete configuration; without local
    fallback an incomplete [sqs] configuration is an error, never a silent
    in-memory queue; an unknown provider is always an error. *)
Theorem build_queue_adapters_correct cfg hasClient :
  let complete := hasClient = true /\ AWSRegion cfg <> "" /\ QueueURL cfg <> "" /\ DLQURL cfg <> "" in
  match BuildQueueAdapters cfg hasClient with
  | Ok (SQSQueue cfg', name) => cfg' = cfg /\ name = "sqs" /\ Provider cfg = "sqs" /\ complete
  | Ok (InMemoryQueue, name) =>
      (name = "memory" /\ (Provider cfg = "" \/ Provider cfg = "memory"))
      \/ (name = "memory-fallback" /\ Provider cfg = "sqs" /\ LocalFallbackMode cfg = true /\ ~ complete)
  | Err _ =>
      Provider cfg <> "" /\ Provider cfg <> "memory"
      /\ (Provider cfg <> "sqs" \/ (LocalFallbackMode cfg = false /\ ~ complete))
  end.
Proof.
  cbn zeta. unfold BuildQueueAdapters.
  destruct (String.eqb_spec (Provider cfg) ""); [simpl; tauto|].
  destruct (String.eqb_spec (Provider cfg) "memory"); [simpl; tauto|]. simpl.
  destruct (String.eqb_spec (Provider cfg) "sqs") as [E|]; [|simpl; tauto].
  destruct (QueueProviderConfig_Validate cfg) eqn:Hv; simpl.
  - assert (~ (AWSRegion cfg <> "" /\ QueueURL cfg <> "" /\ DLQURL cfg <> "")).
    { intros H. assert (QueueProviderConfig_Validate cfg = None); [|congruence].
      unfold QueueProviderConfig_Validate. rewrite E. simpl. by validate_simp. }
    destruct (LocalFallbackMode cfg); [right|]; naive_solver.
  - assert (AWSRegion cfg <> "" /\ QueueURL cfg <> "" /\ DLQURL cfg <> "").
    { unfold QueueProviderConfig_Validate in Hv. rewrite E in Hv. simpl in Hv. by validate_simp_in Hv. }
    unfold NewSQSQueueAdapter. rewrite Hv.
    destruct hasClient; simpl; [naive_solver|]. destruct (LocalFallbackMode cfg); [right|]; naive_solver.
Qed.
End Config.

(** ** The in-memory adapter *)

Record InMemoryQueueAdapter := { messages : list QueueMessage; dlq : list QueueMessage }.

Definition NewInMemoryQueueAdapter : InMemoryQueueAdapter := {| messages := []; dlq := [] |}.

Definition mem_Enqueue (_ : context) (message : QueueMessage) : M InMemoryQueueAdapter (option error) :=
  fun q => (None, {| messages := messages q ++ [message]; dlq := dlq q |}).

Definition mem_Dequeue (_ : context) : M InMemoryQueueAdapter (result QueueMessage) := fun q =>
  match messages q with
  | [] => (Err ErrQueueEmpty, q)
  | msg :: rest => (Ok msg, {| messages := rest; dlq := dlq q |})
  end.

Definition mem_Publish (_ : context) (message : QueueMessage) (_ : string)
    : M InMemoryQueueAdapter (option error) :=
  fun q => (None, {| messages := messages q; dlq := dlq q ++ [message] |}).

(** ** FIFO behaviour

    A history of calls, with the messages they carried. *)
Inductive op := OpEnqueue (m : QueueMessage) | OpDequeue | OpPublish (m : QueueMessage).

(** Run a history: the messages delivered, oldest first, and the final state. *)
Fixpoint exec (ops : list op) (q : InMemoryQueueAdapter) : list QueueMessage * InMemoryQueueAdapter :=
  match ops with
  | [] => ([], q)
  | OpEnqueue m :: ops => exec ops (mem_Enqueue None m q).2
  | OpPublish m :: ops => exec ops (mem_Publish None m "" q).2
  | OpDequeue :: ops =>
      let '(r, q') := mem_Dequeue None q in
      let '(ds, q'') := exec ops q' in
      (match r with Ok m => m :: ds | Err _ => ds end, q'')
  end.

Definition enqueued (ops : list op) : list QueueMessage :=
  omap (fun o => match o with OpEnqueue m => Some m | _ => None end) ops.
Definition published (ops : list op) : list QueueMessage :=
  omap (fun o => match o with OpPublish m => Some m | _ => None end) ops.

(** the in-memory adapter is a lossless FIFO.  In any history of calls the
    messages delivered followed by the messages still queued are the initial
    contents followed by the messages enqueued, in order: nothing is lost,
    duplicated, reordered or invented; the dead-letter list holds exactly what
    was published, in order. *)
Theorem in_memory_queue_fifo ops q :
  let '(delivered, q') := exec ops q in
  delivered ++ messages q' = messages q ++ enqueued ops /\ dlq q' = dlq q ++ published ops.
Proof.
  revert q. induction ops as [|[m| |m] ops IH]; intros q; cbn [exec].
  - by rewrite !app_nil_r.
  - specialize (IH (mem_Enqueue None m q).2). destruct (exec ops _) as [ds q'']. simpl in IH.
    destruct IH as [IH1 IH2]. split; [|done]. rewrite IH1. cbn. by rewrite <- app_assoc.
  - unfold mem_Dequeue. destruct (messages q) as [|m rest] eqn:E.
    + specialize (IH q). destruct (exec ops q) as [ds q'']. by rewrite E in IH.
    + specialize (IH {| messages := rest; dlq := dlq q |}). destruct (exec ops _) as [ds q''].
      simpl in *. destruct IH as [IH1 IH2]. split; [|done]. by rewrite IH1.
  - specialize (IH (mem_Publish None m "" q).2). destruct (exec ops _) as [ds q'']. simpl in IH.
    destruct IH as [IH1 IH2]. split; [done|]. rewrite IH2. cbn. by rewrite <- app_assoc.
Qed.
