(* ===== verification/Ingestion.v ===== *)
(** * Ingestion: internal/services/ingestion

    The profiler that classifies a payload, the metadata recorder, and the
    asynchronous worker: [EnqueueApprovedJob] queues approved jobs,
    [ProcessNext] and [ProcessMessage] chunk, embed and index a message,
    [retryOrDLQ] bounds the retries.  The worker talks to its collaborators
    through the ports of [Contracts]; a nil port is [None]. *)

From S2P Require Import Prelude GoStrings Sha256 GoSort GoTime Contracts Queue.
From Stdlib Require Import Ascii.

#[local] Open Scope Z_scope.
#[local] Opaque Sum256.

(** ** The profiler *)

Record ProfileInput := {
  in_TenantID : TenantID; in_SourceURI : string; in_LifecycleClass : string;
  in_ContentType : string; in_Payload : string }.

Definition fallbackLifecycleClass (v : string) : string :=
  let v := TrimSpace v in if String.eqb v "" then "standard" else v.

Definition fallbackContentType (v : string) : string :=
  let v := TrimSpace v in if String.eqb v "" then "application/octet-stream" else v.

Definition newline : ascii := byte_of 10.

Definition countLines (v : string) : Z :=
  if String.eqb v "" then 0 else count_byte newline v + 1.

Definition invalidProfile (now : Time) (input : ProfileInput) (class : PayloadClassification)
    (reason : string) : IngestionProfile :=
  let checksum := if 0 <? len (in_Payload input) then hex (Sum256 (in_Payload input)) else "" in
  {| ip_Metadata := {|
       im_TenantID := in_TenantID input; im_ChecksumSHA256 := checksum;
       im_SourceURI := in_SourceURI input;
       im_LifecycleClass := fallbackLifecycleClass (in_LifecycleClass input);
       im_CapturedAt := now |};
     ip_PayloadBytes := len (in_Payload input);
     ip_ContentType := fallbackContentType (in_ContentType input);
     ip_LineCount := countLines (in_Payload input);
     ip_WordCount := Z.of_nat (length (Fields (in_Payload input)));
     ip_Classification := class;
     ip_ErrorReason := reason |}.

(** [now] is the clock reading the profile is stamped with. *)
Definition Profile (now : Time) (input : ProfileInput) : result IngestionProfile :=
  match TenantID_Validate (in_TenantID input) with
  | Some _ => Ok (invalidProfile now input PayloadClassInvalidTenant "tenant_id_missing")
  | None =>
  if String.eqb (TrimSpace (in_SourceURI input)) ""
  then Ok (invalidProfile now input PayloadClassInvalidSource "source_uri_missing")
  else if len (in_Payload input) =? 0
  then Ok (invalidProfile now input PayloadClassInvalidPayload "payload_empty")
  else
    let payloadText := in_Payload input in
    let profile := {|
      ip_Metadata := {|
        im_TenantID := in_TenantID input;
        im_ChecksumSHA256 := hex (Sum256 (in_Payload input));
        im_SourceURI := in_SourceURI input;
        im_LifecycleClass := fallbackLifecycleClass (in_LifecycleClass input);
        im_CapturedAt := now |};
      ip_PayloadBytes := len (in_Payload input);
      ip_ContentType := fallbackContentType (in_ContentType input);
      ip_LineCount := countLines payloadText;
      ip_WordCount := Z.of_nat (length (Fields payloadText));
      ip_Classification := PayloadClassValid;
      ip_ErrorReason := "" |} in
    match IngestionProfile_Validate profile with
    | Some err => Err (Errorf_w "profile validation failed: " err "")
    | None => Ok profile
    end
  end.

(** ** The metadata recorder (metadata_recorder.go) *)

Definition MetadataRecorder_Record {W} (repo : option (IngestionMetadataRepository W)) (ctx : context)
    (profile : IngestionProfile) : M W (option error) :=
  match IngestionProfile_Validate profile with
  | Some err => mret (Some (WrapValidationErr "ingestion_profile" err))
  | None =>
      match repo with
      | None => mret (Some (errors_New "metadata repository is required"))
      | Some repo => im_Save repo ctx (ip_Metadata profile)
      end
  end.

(** ** Keys and chunks *)

Definition hashParts (parts : list string) : string := hex (Sum256 (Join parts "|")).

Definition idempotencyKey (job : IngestionJob) : string :=
  hashParts ["idem"; job_TenantID job; job_JobID job; job_Checksum job].

(** The loop of [chunkPayload]: [current] is the chunk being built. *)
Fixpoint chunk_loop (maxChunkSize : Z) (current : string) (chunks : list string) (words : list string)
    : list string :=
  match words with
  | [] => if negb (String.eqb current "") then chunks ++ [current] else chunks
  | word :: words' =>
      let candidate := if negb (String.eqb current "") then current +:+ " " +:+ word else word in
      if (maxChunkSize <? len candidate) && negb (String.eqb current "")
      then chunk_loop maxChunkSize word (chunks ++ [current]) words'
      else chunk_loop maxChunkSize candidate chunks words'
  end.

Definition chunkPayload (payload : string) (maxChunkSize : Z) : list string :=
  let text := TrimSpace payload in
  if String.eqb text "" then []
  else
    let maxChunkSize := if maxChunkSize <=? 0 then 200 else maxChunkSize in
    let words := Fields text in
    if (length words =? 0)%nat then []
    else chunk_loop maxChunkSize "" [] words.

(** ** The worker *)

Section Worker.
Context {W : Type}.

Record WorkerConfig := {
  cfg_MaxRetries : Z; cfg_ChunkSize : Z; cfg_IdempotencyTTL : Z; cfg_Clock : option (M W Time) }.

Record DeterministicAsyncWorker := {
  producer : option (IngestionQueueProducer W);
  consumer : option (IngestionQueueConsumer W);
  dlq : option (DeadLetterQueue W);
  blobStore : option (ArtifactBlobStore W);
  embedder : option (EmbeddingProvider W);
  index : option (VectorIndex W);
  idem : option (IdempotencyStore W);
  retention : option (RetentionPolicyHook W);
  clock : M W Time;
  maxRetries : Z;
  chunkSize : Z;
  idempotencyTTL : Z }.

Definition NewDeterministicAsyncWorker (now : M W Time) producer consumer dlq blobStore embedder index
    idem retention (config : WorkerConfig) : DeterministicAsyncWorker := {|
  producer := producer; consumer := consumer; dlq := dlq; blobStore := blobStore;
  embedder := embedder; index := index; idem := idem; retention := retention;
  clock := default now (cfg_Clock config);
  maxRetries := if cfg_MaxRetries config <=? 0 then 3 else cfg_MaxRetries config;
  chunkSize := if cfg_ChunkSize config <=? 0 then 200 else cfg_ChunkSize config;
  idempotencyTTL := if cfg_IdempotencyTTL config <=? 0 then 24 * Hour else cfg_IdempotencyTTL config |}.

Definition with_attempt (m : QueueMessage) (attempt : Z) (at_ : Time) : QueueMessage := {|
  msg_MessageID := msg_MessageID m; msg_Job := msg_Job m; msg_IdempotencyKey := msg_IdempotencyKey m;
  msg_Attempt := attempt; msg_EnqueuedAt := at_ |}.

(** [if message.IdempotencyKey == "" { message.IdempotencyKey = idempotencyKey(message.Job) }] *)
Definition with_key (m : QueueMessage) : QueueMessage := {|
  msg_MessageID := msg_MessageID m; msg_Job := msg_Job m;
  msg_IdempotencyKey := if String.eqb (msg_IdempotencyKey m) "" then idempotencyKey (msg_Job m)
                        else msg_IdempotencyKey m;
  msg_Attempt := msg_Attempt m; msg_EnqueuedAt := msg_EnqueuedAt m |}.

Definition EnqueueApprovedJob (w : DeterministicAsyncWorker) (ctx : context)
    (metadata : RequestMetadata) (job : IngestionJob) : M W (result QueueMessage) :=
  match RequestMetadata_Validate metadata with
  | Some err => mret (Err (WrapValidationErr "request_metadata" err))
  | None =>
  match IngestionJob_Validate job with
  | Some err => mret (Err (WrapValidationErr "ingestion_job" err))
  | None =>
  if negb (String.eqb (rm_TenantID metadata) (job_TenantID job))
  then mret (Err (errors_New ("tenant mismatch: metadata=" +:+ rm_TenantID metadata
                              +:+ " job=" +:+ job_TenantID job)))
  else if negb (String.eqb (job_PolicyDecision job) IngestionStatusApproved)
  then mret (Err (errors_New ("job policy decision must be approved, got "
                              +:+ job_PolicyDecision job)))
  else
    now ← clock w;
    let message := {|
      msg_MessageID := hashParts ["msg"; job_TenantID job; job_JobID job; job_Checksum job];
      msg_Job := job;
      msg_IdempotencyKey := idempotencyKey job;
      msg_Attempt := 0;
      msg_EnqueuedAt := now |} in
    match QueueMessage_Validate message with
    | Some err => mret (Err (WrapValidationErr "queue_message" err))
    | None =>
        match producer w with
        | None => mret (Err (errors_New "queue producer is required"))
        | Some p =>
            e ← Enqueue p ctx message;
            match e with
            | Some err => mret (Err err)
            | None => mret (Ok message)
            end
        end
    end
  end
  end.

Definition loadPayload (w : DeterministicAsyncWorker) (ctx : context) (job : IngestionJob)
    : M W (result string) :=
  match blobStore w with
  | None => mret (Err (errors_New "artifact blob store is required"))
  | Some b => Get b ctx (job_TenantID job) (job_SourceURI job)
  end.

Definition retryOrDLQ (w : DeterministicAsyncWorker) (ctx : context) (message : QueueMessage)
    (reason : string) (cause : error) : M W (option error) :=
  let nextAttempt := wrap64 (msg_Attempt message + 1) in
  match (if nextAttempt <=? maxRetries w then producer w else None) with
  | Some p =>
      now ← clock w;
      e ← Enqueue p ctx (with_attempt message nextAttempt now);
      match e with
      | Some err => mret (Some (Errorf_w (reason +:+ ": ") err ""))
      | None => mret (Some (Errorf_w (reason +:+ ": ") cause ""))
      end
  | None =>
      match dlq w with
      | Some d =>
          e ← Publish d ctx message reason;
          match e with
          | Some err => mret (Some (Errorf_w (reason +:+ ": ") err ""))
          | None => mret (Some (Errorf_w (reason +:+ ": ") cause ""))
          end
      | None => mret (Some (Errorf_w (reason +:+ ": ") cause ""))
      end
  end.

Definition vector_record (message : QueueMessage) (now : Time) (i : nat) (chunk : string)
    (vector : list float32) : VectorRecord :=
  let job := msg_Job message in {|
  vr_RecordID := hashParts ["vec"; job_TenantID job; job_JobID job; job_Checksum job; Itoa (Z.of_nat i)];
  vr_TenantID := job_TenantID job;
  vr_JobID := job_JobID job;
  vr_ChunkText := chunk;
  vr_Embedding := vector;
  vr_Metadata := list_to_map [
    ("tenant_id", job_TenantID job); ("job_id", job_JobID job);
    ("source_uri", job_SourceURI job); ("idempotency_key", msg_IdempotencyKey message)];
  vr_IndexedAt := now;
  vr_SourceURI := job_SourceURI job;
  vr_ObjectKey := job_SourceURI job;
  vr_Checksum := job_Checksum job;
  vr_RetryCount := msg_Attempt message |}.

(** The loop that builds the records, from index [i] on. *)
Fixpoint build_records (message : QueueMessage) (now : Time) (i : nat)
    (cvs : list (string * list float32)) : result (list VectorRecord) :=
  match cvs with
  | [] => Ok []
  | (chunk, vector) :: cvs' =>
      let record := vector_record message now i chunk vector in
      match VectorRecord_Validate record with
      | Some err => Err (WrapValidationErr "vector_record" err)
      | None =>
          match build_records message now (S i) cvs' with
          | Err err => Err err
          | Ok records => Ok (record :: records)
          end
      end
  end.

Definition Days (n : Z) : Z := n * 24 * Hour.

Definition retentionSet (message : QueueMessage) (now : Time) : list RetentionRecord :=
  let job := msg_Job message in
  let record class resource days := {|
    rr_TenantID := job_TenantID job; rr_JobID := job_JobID job; rr_Class := class;
    rr_Resource := resource; rr_RetentionUntil := now + Days days |} in
  [ record RetentionClassRawBlob (job_SourceURI job) 30;
    record RetentionClassChunk (job_JobID job) 90;
    record RetentionClassAuditEvent "governance.ingestion.policy_decision" 365 ].

Fixpoint apply_retention (hook : RetentionPolicyHook W) (ctx : context) (rs : list RetentionRecord)
    : M W (option error) :=
  match rs with
  | [] => mret None
  | record :: rs' =>
      match RetentionRecord_Validate record with
      | Some err => mret (Some (WrapValidationErr "retention_record" err))
      | None =>
          e ← Apply hook ctx record;
          match e with
          | Some err => mret (Some err)
          | None => apply_retention hook ctx rs'
          end
      end
  end.

(** The tail of [ProcessMessage] after a successful upsert. *)
Definition finish (w : DeterministicAsyncWorker) (ctx : context) (message : QueueMessage) (now : Time)
    : M W (option error) :=
  saved ← match idem w with
          | Some s => idem_Save s ctx (msg_IdempotencyKey message) (idempotencyTTL w)
          | None => mret None
          end;
  match saved with
  | Some err => mret (Some err)
  | None =>
      match retention w with
      | Some hook => apply_retention hook ctx (retentionSet message now)
      | None => mret None
      end
  end.

(** The indexing part of [ProcessMessage], after the duplicate check. *)
Definition index_message (w : DeterministicAsyncWorker) (ctx : context) (message : QueueMessage)
    : M W (option error) :=
  r ← loadPayload w ctx (msg_Job message);
  match r with
  | Err err => retryOrDLQ w ctx message "blob_fetch_failed" err
  | Ok payload =>
  let chunks := chunkPayload payload (chunkSize w) in
  if (length chunks =? 0)%nat
  then retryOrDLQ w ctx message "chunking_failed" (errors_New "no chunks generated")
  else
  match embedder w with
  | None => mret (Some (errors_New "embedding provider is required"))
  | Some emb =>
  v ← Embed emb ctx (job_TenantID (msg_Job message)) chunks;
  match v with
  | Err err => retryOrDLQ w ctx message "embedding_failed" err
  | Ok vectors =>
  if negb (length vectors =? length chunks)%nat
  then retryOrDLQ w ctx message "embedding_count_mismatch"
         (errors_New ("got=" +:+ Itoa (Z.of_nat (length vectors))
                      +:+ " want=" +:+ Itoa (Z.of_nat (length chunks))))
  else
  now ← clock w;
  match build_records message now 0 (zip chunks vectors) with
  | Err err => mret (Some err)
  | Ok records =>
  match index w with
  | None => mret (Some (errors_New "vector index is required"))
  | Some ix =>
  u ← Upsert ix ctx records;
  match u with
  | Some err => retryOrDLQ w ctx message "vector_upsert_failed" err
  | None => finish w ctx message now
  end
  end
  end
  end
  end
  end.

Definition ProcessMessage (w : DeterministicAsyncWorker) (ctx : context) (message : QueueMessage)
    : M W (option error) :=
  match QueueMessage_Validate message with
  | Some err => mret (Some (WrapValidationErr "queue_message" err))
  | None =>
  let message := with_key message in
  seen ← match idem w with
         | Some s => idem_Exists s ctx (msg_IdempotencyKey message)
         | None => mret (Ok false)
         end;
  match seen with
  | Err err => mret (Some err)
  | Ok true => mret None
  | Ok false => index_message w ctx message
  end
  end.

Definition ProcessNext (w : DeterministicAsyncWorker) (ctx : context) : M W (option error) :=
  match consumer w with
  | None => mret (Some (errors_New "queue consumer is required"))
  | Some c =>
      r ← Dequeue c ctx;
      match r with
      | Err err => mret (Some err)
      | Ok message => ProcessMessage w ctx message
      end
  end.

Definition ReplayDLQMessage (w : DeterministicAsyncWorker) (ctx : context) (message : QueueMessage)
    : M W (option error) :=
  match producer w with
  | None => mret (Some (errors_New "queue producer is required"))
  | Some p =>
      now ← clock w;
      let message := with_key (with_attempt message 0 now) in
      match QueueMessage_Validate message with
      | Some err => mret (Some (WrapValidationErr "queue_message" err))
      | None => Enqueue p ctx message
      end
  end.
End Worker.
Arguments WorkerConfig : clear implicits.
Arguments DeterministicAsyncWorker : clear implicits.

(** * Facts *)

(** ** Chunks *)

Lemma Join_word_ne w ws : word w -> Join (w :: ws) " " <> "".
Proof. intros [Hw _]. destruct ws; [done|]. cbn [Join]. by intros [? _]%str_app_eq_nil. Qed.

(** A group of words fits the limit or is a single word, and the first word of
    the next group would not have fitted. *)
Definition fits (max : Z) (g : list string) : Prop := len (Join g " ") <= max \/ length g = 1%nat.
Definition full (max : Z) (g h : list string) : Prop := max < len (Join (g ++ take 1 h) " ").

Lemma chunk_loop_spec max words : forall w cw chunks,
  Forall word words -> word w -> fits max (w :: cw) ->
  exists ws rest,
    chunk_loop max (Join (w :: cw) " ") chunks words
    = chunks ++ ((fun g => Join g " ") <$> ((w :: cw ++ ws) :: rest))
    /\ words = ws ++ concat rest /\ Forall (fun g => g <> []) rest
    /\ Forall (fits max) ((w :: cw ++ ws) :: rest) /\ Sorted (full max) ((w :: cw ++ ws) :: rest).
Proof.
  induction words as [|x words IH]; intros w cw chunks HF Hw Hfit; cbn [chunk_loop].
  - rewrite (proj2 (String.eqb_neq _ _) (Join_word_ne w cw Hw)). exists [], []. rewrite app_nil_r.
    repeat split; eauto.
  - apply Forall_cons in HF as [Hx HF].
    rewrite (proj2 (String.eqb_neq _ _) (Join_word_ne w cw Hw)). cbn [negb].
    rewrite <- Join_snoc, andb_true_r. destruct (Z.ltb_spec max (len (Join (w :: cw ++ [x]) " "))) as [Hm|Hm].
    + destruct (IH x [] (chunks ++ [Join (w :: cw) " "]) HF Hx) as (ws & rest & E & Hc & Hne & Hf & Hs);
        [by right|].
      exists [], ((x :: ws) :: rest). cbn [app] in E. rewrite app_nil_r.
      change (Join [x] " ") with x in E. rewrite E, <- app_assoc.
      split; [done|]. split; [simpl; by rewrite Hc|]. split; [by constructor|].
      split; [by constructor|]. constructor; [done|]. constructor. done.
    + destruct (IH w (cw ++ [x]) chunks HF Hw) as (ws & rest & E & Hc & Hne & Hf & Hs); [by left|].
      exists (x :: ws), rest. rewrite <- app_assoc in *. split; [done|].
      split; [simpl; by rewrite Hc|]. done.
Qed.

(** ** Keys *)

Definition plain (s : string) : Prop := count_byte "|" s = 0.

Lemma count_byte_nonneg c s : 0 <= count_byte c s.
Proof. induction s as [|a s IH]; simpl; [lia|]. destruct (Ascii.eqb a c); lia. Qed.

Lemma plain_split a b x y :
  plain a -> plain b -> a +:+ "|" +:+ x = b +:+ "|" +:+ y -> a = b /\ x = y.
Proof.
  unfold plain. revert b. induction a as [|c a IH]; intros [|d b] Ha Hb E; simpl in *.
  - rewrite !app_nil_l' in E. by injection E.
  - rewrite app_nil_l', app_cons in E. injection E as <- _.
    pose proof (count_byte_nonneg "|" b). simpl in Hb. lia.
  - rewrite app_nil_l', app_cons in E. injection E as -> _.
    pose proof (count_byte_nonneg "|" a). simpl in Ha. lia.
  - rewrite !app_cons in E. injection E as -> E.
    pose proof (count_byte_nonneg "|" a). pose proof (count_byte_nonneg "|" b).
    destruct (IH b) as [-> ->]; [destruct (Ascii.eqb d "|"); lia..|done|done].
Qed.

Lemma hashParts_eq ps qs :
  hashParts ps = hashParts qs ->
  Join ps "|" = Join qs "|" \/ sha256_collision (Join ps "|") (Join qs "|").
Proof. apply sha256_hex_eq. Qed.

Lemma Fields_groups gs : Forall (Forall word) gs -> Fields <$> ((fun g => Join g " ") <$> gs) = gs.
Proof.
  induction 1 as [|g gs Hg _ IH]; [done|]. rewrite !fmap_cons, Fields_Join by done. by f_equal.
Qed.

Lemma chunkPayload_groups payload max :
  let lim := if max <=? 0 then 200 else max in
  exists groups, chunkPayload payload max = (fun g => Join g " ") <$> groups
    /\ concat groups = Fields payload /\ Forall (fun g => g <> []) groups
    /\ Forall (fits lim) groups /\ Sorted (full lim) groups.
Proof.
  cbn zeta. unfold chunkPayload. cbn zeta.
  destruct (String.eqb_spec (TrimSpace payload) "") as [E|E].
  { apply TrimSpace_nil_Fields in E. exists []. rewrite E. repeat split; constructor. }
  rewrite Fields_TrimSpace. pose proof (Fields_words payload) as Hw.
  destruct (Fields payload) as [|w ws]; [by exists []; repeat split; constructor|].
  apply Forall_cons in Hw as [Hw Hws]. simpl length. cbn [Nat.eqb chunk_loop].
  rewrite String.eqb_refl. cbn [negb]. rewrite andb_false_r.
  destruct (chunk_loop_spec (if max <=? 0 then 200 else max) ws w [] [] Hws Hw)
    as (ws' & rest & E' & Hc & Hne & Hf & Hs); [by right|].
  exists ((w :: ws') :: rest). simpl in *. rewrite E', Hc. repeat split; try done. by constructor.
Qed.

Lemma chunkPayload_words payload max : concat (Fields <$> chunkPayload payload max) = Fields payload.
Proof.
  destruct (chunkPayload_groups payload max) as (gs & -> & Hc & _).
  rewrite Fields_groups; [done|]. apply Forall_concat. rewrite Hc. apply Fields_words.
Qed.

(** * Theorems *)

(** chunking keeps every word and respects the limit.  The words of the
    chunks, in order, are exactly the words of the payload; a chunk is within
    the limit unless it is one over-long word; every chunk is non-empty; and
    the chunks are greedy, the first word of a chunk not fitting the one
    before.  There are no chunks exactly when the payload is blank. *)
Theorem chunk_payload_correct payload max :
  let lim := if max <=? 0 then 200 else max in
  let chunks := chunkPayload payload max in
  concat (Fields <$> chunks) = Fields payload
  /\ Forall (fun c => c <> "" /\ (len c <= lim \/ word c)) chunks
  /\ Sorted (fun c d => match Fields d with w :: _ => lim < len (c +:+ " " +:+ w) | [] => False end) chunks
  /\ (chunks = [] <-> TrimSpace payload = "").
Proof.
  cbn zeta. set (lim := if max <=? 0 then 200 else max).
  destruct (chunkPayload_groups payload max) as (gs & -> & Hc & Hne & Hf & Hs). fold lim in Hf, Hs.
  assert (Hw : Forall (Forall word) gs).
  { apply Forall_concat. rewrite Hc. apply Fields_words. }
  split; [by rewrite Fields_groups|]. split; [|split].
  - rewrite Forall_fmap. rewrite Forall_forall in *. intros g Hg. simpl.
    specialize (Hne g Hg). specialize (Hf g Hg). specialize (Hw g Hg).
    destruct g as [|w g]; [done|]. apply Forall_cons in Hw as [Hww _].
    split; [by apply Join_word_ne|]. destruct Hf as [?|Hl]; [by left|]. right.
    by destruct g.
  - clear Hc Hf. induction Hs as [|g gs Hs IH Hd]; [constructor|]. rewrite fmap_cons.
    apply Forall_cons in Hne as [Hg Hne]. apply Forall_cons in Hw as [Hwg Hw].
    constructor; [by apply IH|]. destruct Hd as [|h gs Hd]; [constructor|].
    apply Forall_cons in Hne as [Hh Hne]. apply Forall_cons in Hw as [Hwh Hw]. constructor.
    rewrite Fields_Join by done. destruct h as [|x h]; [done|]. destruct g as [|w g]; [done|].
    unfold full in Hd. simpl take in Hd. cbn [app] in Hd. by rewrite Join_snoc in Hd.
  - rewrite TrimSpace_nil_Fields, <- Hc. destruct gs as [|g gs]; [done|]. split; [done|].
    apply Forall_cons in Hne as [Hg _]. by destruct g.
Qed.

(** idempotency keys identify jobs.  If the tenants, the job identifiers
    and the checksums of two jobs contain no separator [|], equal keys mean
    the same tenant, job and checksum, or a SHA-256 collision. *)
Theorem idempotency_key_injective j1 j2 :
  plain (job_TenantID j1) -> plain (job_JobID j1) ->
  plain (job_TenantID j2) -> plain (job_JobID j2) ->
  idempotencyKey j1 = idempotencyKey j2 ->
  (job_TenantID j1 = job_TenantID j2 /\ job_JobID j1 = job_JobID j2 /\ job_Checksum j1 = job_Checksum j2)
  \/ exists x y, sha256_collision x y.
Proof.
  intros T1 J1 T2 J2 H. unfold idempotencyKey in H. apply hashParts_eq in H as [E|E].
  2:{ right. eexists _, _. exact E. }
  left. cbn [Join] in E. apply plain_split in E as [_ E]; [|reflexivity..].
  apply plain_split in E as [Ht E]; [|assumption..].
  apply plain_split in E as [Hj Hc]; [|assumption..]. auto.
Qed.

Lemma idempotency_key_injective_witness :
  let job t i := {| job_JobID := i; job_TenantID := t; job_SourceURI := "u"; job_Checksum := "c";
                    job_PolicyDecision := "approved"; job_CreatedAt := 1 |} in
  ("acme" = "acme" /\ "j1" = "j1" /\ "c" = "c") \/ exists x y, sha256_collision x y.
Proof.
  intros job. exact (idempotency_key_injective (job "acme" "j1") (job "acme" "j1")
    eq_refl eq_refl eq_refl eq_refl eq_refl).
Defined.

(** the separator is not escaped: two jobs of different tenants can have
    the same idempotency key, and the same message identifier. *)
Theorem idempotency_key_ambiguous :
  exists j1 j2, job_TenantID j1 <> job_TenantID j2 /\ IngestionJob_Validate j1 = None
    /\ IngestionJob_Validate j2 = None /\ idempotencyKey j1 = idempotencyKey j2.
Proof.
  exists {| job_JobID := "x|y"; job_TenantID := "acme"; job_SourceURI := "u"; job_Checksum := "c";
            job_PolicyDecision := "approved"; job_CreatedAt := 1 |},
         {| job_JobID := "y"; job_TenantID := "acme|x"; job_SourceURI := "u"; job_Checksum := "c";
            job_PolicyDecision := "approved"; job_CreatedAt := 1 |}.
  split; [discriminate|]. split; [reflexivity|]. split; [reflexivity|]. vm_compute. reflexivity.
Qed.

Lemma fallbackLifecycleClass_ne v : fallbackLifecycleClass v <> "".
Proof. unfold fallbackLifecycleClass. destruct (String.eqb_spec (TrimSpace v) ""); done. Qed.

Lemma IngestionMetadata_Validate_None m :
  IngestionMetadata_Validate m = None <->
  im_TenantID m <> "" /\ im_ChecksumSHA256 m <> "" /\ im_SourceURI m <> ""
  /\ im_LifecycleClass m <> "" /\ im_CapturedAt m <> 0.
Proof. unfold IngestionMetadata_Validate. validate_simp. by rewrite TenantID_Validate_None. Qed.

(** What the profile of an invalid payload carries; without a payload the
    recorder refuses it. *)
Lemma invalidProfile_facts now input class reason :
  class <> PayloadClassValid ->
  let p := invalidProfile now input class reason in
  ip_Classification p <> PayloadClassValid
  /\ im_ChecksumSHA256 (ip_Metadata p)
     = (if decide (in_Payload input = "") then "" else sha256_hex (in_Payload input))
  /\ (in_Payload input = "" -> forall W (repo : option (IngestionMetadataRepository W)) ctx w,
      exists e, MetadataRecorder_Record repo ctx p w = (Some e, w)).
Proof.
  intros Hc p. split; [done|].
  assert (Hk : im_ChecksumSHA256 (ip_Metadata p)
     = (if decide (in_Payload input = "") then "" else sha256_hex (in_Payload input))).
  { simpl. unfold sha256_hex. pose proof (len_nonneg (in_Payload input)).
    case_decide as He; destruct (Z.ltb_spec 0 (len (in_Payload input))); try done.
    - apply len_0 in He. lia.
    - destruct He. apply len_0. lia. }
  split; [done|]. intros He W repo ctx w. rewrite He in Hk. simpl in Hk.
  unfold MetadataRecorder_Record. destruct (IngestionProfile_Validate p) eqn:Hv; [by eexists|].
  exfalso. unfold IngestionProfile_Validate in Hv. apply seq_err_None in Hv as [Hv _].
  apply IngestionMetadata_Validate_None in Hv as (_ & Hv & _). done.
Qed.

(** profiling.  With a set clock [Profile] never fails: the profile is
    classified [valid] exactly when the tenant is set, the source is not
    blank and the payload is not empty, and then it carries the SHA-256 of the
    payload and passes its own validation, so that the recorder stores its
    metadata; an empty payload is never recorded. *)
Theorem profile_correct now input :
  now <> 0 ->
  exists p, Profile now input = Ok p
    /\ (ip_Classification p = PayloadClassValid <->
        in_TenantID input <> "" /\ TrimSpace (in_SourceURI input) <> "" /\ in_Payload input <> "")
    /\ ip_PayloadBytes p = len (in_Payload input)
    /\ ip_WordCount p = Z.of_nat (length (Fields (in_Payload input)))
    /\ im_ChecksumSHA256 (ip_Metadata p)
       = (if decide (in_Payload input = "") then "" else sha256_hex (in_Payload input))
    /\ (ip_Classification p = PayloadClassValid -> IngestionProfile_Validate p = None)
    /\ (in_Payload input = "" -> forall W (repo : option (IngestionMetadataRepository W)) ctx w,
        exists e, MetadataRecorder_Record repo ctx p w = (Some e, w)).
Proof.
  intros Hnow.
  unfold Profile. destruct (TenantID_Validate (in_TenantID input)) eqn:Ht.
  { destruct (invalidProfile_facts now input PayloadClassInvalidTenant "tenant_id_missing") as (H1 & H2 & H3); [done|].
    eexists. split; [done|]. split; [|by auto]. split; [done|]. intros (Hx & _).
    apply TenantID_Validate_None in Hx. congruence. }
  apply TenantID_Validate_None in Ht.
  destruct (String.eqb_spec (TrimSpace (in_SourceURI input)) "") as [Hs|Hs].
  { destruct (invalidProfile_facts now input PayloadClassInvalidSource "source_uri_missing") as (H1 & H2 & H3); [done|].
    eexists. split; [done|]. split; [|by auto]. naive_solver. }
  destruct (Z.eqb_spec (len (in_Payload input)) 0) as [Hp|Hp].
  { destruct (invalidProfile_facts now input PayloadClassInvalidPayload "payload_empty") as (H1 & H2 & H3); [done|].
    eexists. split; [done|]. split; [|by auto]. rewrite len_0 in Hp. naive_solver. }
  rewrite len_0 in Hp. cbn zeta.
  match goal with |- context [IngestionProfile_Validate ?p] => assert (Hv : IngestionProfile_Validate p = None) end.
  { unfold IngestionProfile_Validate. cbn [ip_Metadata ip_PayloadBytes ip_Classification ip_ErrorReason].
    rewrite seq_err_None, IngestionMetadata_Validate_None. simpl. split.
    - split; [done|]. split; [apply sha256_hex_ne|]. split; [|split; [apply fallbackLifecycleClass_ne|done]].
      intros E. rewrite E in Hs. done.
    - rewrite !seq_err_None, !require_None, not_neg_true. split; [apply len_nonneg|done]. }
  rewrite Hv. eexists. split; [done|]. simpl. split; [done|]. split; [done|]. split; [done|].
  split; [by rewrite decide_False|]. done.
Qed.

Lemma profile_correct_witness :
  exists p, Profile 7 {| in_TenantID := "acme"; in_SourceURI := "s3://b/k"; in_LifecycleClass := " ";
                         in_ContentType := ""; in_Payload := "one two" |} = Ok p
    /\ ip_WordCount p = 2.
Proof.
  destruct (profile_correct 7 {| in_TenantID := "acme"; in_SourceURI := "s3://b/k";
    in_LifecycleClass := " "; in_ContentType := ""; in_Payload := "one two" |}) as (p & H1 & _ & _ & H2 & _).
  - lia.
  - exists p. split; [exact H1|exact H2].
Defined.
