(* ===== verification/IngestionWorker.v ===== *)
(** * IngestionWorker: the correctness of the ingestion worker

    Theorems on the operations of [Ingestion]: what a successful
    [EnqueueApprovedJob] and [ProcessMessage] guarantee for arbitrary
    collaborators; the retry bound, termination and absence of loss of a
    worker on the in-memory queue; and that a key is indexed again only after its
    record in the idempotency store was lost. *)

From S2P Require Import Prelude GoStrings Sha256 GoSort GoTime Contracts Queue Ingestion.

#[local] Open Scope Z_scope.
#[local] Opaque Sum256.

(** ** Admission *)

Section Admission.
Context {W : Type}.
Variable wk : DeterministicAsyncWorker W.

(** only approved jobs of the caller's tenant enter the queue.
    [EnqueueApprovedJob] succeeds only for a valid job that was approved and
    whose tenant is the caller's; then exactly the returned message was handed
    to the producer, with attempt 0 and the idempotency key of the job.  A job
    that is not approved, or of another tenant, is refused without any
    effect. *)
Theorem enqueue_only_approved ctx md job w :
  match EnqueueApprovedJob wk ctx md job w with
  | (Ok m, w') =>
      IngestionJob_Validate job = None /\ job_PolicyDecision job = IngestionStatusApproved
      /\ rm_TenantID md = job_TenantID job
      /\ msg_Job m = job /\ msg_Attempt m = 0 /\ msg_IdempotencyKey m = idempotencyKey job
      /\ QueueMessage_Validate m = None
      /\ exists p, producer wk = Some p /\ Enqueue p ctx m (clock wk w).2 = (None, w')
  | (Err _, w') =>
      (job_PolicyDecision job <> IngestionStatusApproved \/ rm_TenantID md <> job_TenantID job) -> w' = w
  end.
Proof.
  unfold EnqueueApprovedJob. run_M.
  destruct (RequestMetadata_Validate md); [done|].
  destruct (IngestionJob_Validate job) eqn:Hj; [done|].
  destruct (String.eqb_spec (rm_TenantID md) (job_TenantID job)); [|done]. cbn [negb].
  destruct (String.eqb_spec (job_PolicyDecision job) IngestionStatusApproved); [|done]. cbn [negb].
  destruct (clock wk w) as [now w1]. cbn zeta.
  destruct (QueueMessage_Validate _) eqn:Hm; [naive_solver|].
  destruct (producer wk) as [p|] eqn:Hp; [|naive_solver].
  destruct (Enqueue p ctx _ w1) as [[err|] w2] eqn:He; [naive_solver|].
  repeat (split; [done|]). by exists p.
Qed.
End Admission.

(** ** What success means *)

Section Success.
Context {W : Type}.
Variable wk : DeterministicAsyncWorker W.

Lemma retryOrDLQ_fails ctx m reason cause w : exists e w', retryOrDLQ wk ctx m reason cause w = (Some e, w').
Proof.
  unfold retryOrDLQ. run_M. cbn zeta.
  destruct (if _ <=? _ then _ else _) as [p|].
  - destruct (clock wk w) as [now w1]. destruct (Enqueue p _ _ w1) as [[err|] w2]; eauto.
  - destruct (dlq wk) as [d|]; [|eauto]. destruct (Publish d _ _ _ w) as [[err|] w2]; eauto.
Qed.

Lemma build_records_Ok m now cvs : forall i rs,
  build_records m now i cvs = Ok rs ->
  vr_ChunkText <$> rs = cvs.*1 /\ vr_Embedding <$> rs = cvs.*2
  /\ Forall (fun r => VectorRecord_Validate r = None /\ vr_TenantID r = job_TenantID (msg_Job m)
       /\ vr_JobID r = job_JobID (msg_Job m) /\ vr_SourceURI r = job_SourceURI (msg_Job m)
       /\ vr_Checksum r = job_Checksum (msg_Job m) /\ vr_IndexedAt r = now
       /\ vr_Metadata r !! "idempotency_key" = Some (msg_IdempotencyKey m)) rs.
Proof.
  induction cvs as [|[c v] cvs IH]; intros i rs H; cbn [build_records] in H.
  - injection H as <-. done.
  - cbn zeta in H. destruct (VectorRecord_Validate _) eqn:Hv; [done|].
    destruct (build_records m now (S i) cvs) as [rs'|] eqn:Hr; [|done]. injection H as <-.
    destruct (IH _ _ Hr) as (H1 & H2 & H3). rewrite !fmap_cons, H1, H2.
    split; [done|]. split; [done|]. constructor; [|done]. done.
Qed.

(** The fetch, embed and upsert steps of a message that was indexed. *)
Definition indexed_as (ctx : context) (m : QueueMessage) (records : list VectorRecord) (payload : string)
    (w w' : W) : Prop :=
  let job := msg_Job m in
  exists b emb ix vectors w1 w2 w3 w4 now,
    blobStore wk = Some b /\ embedder wk = Some emb /\ index wk = Some ix
    /\ Get b ctx (job_TenantID job) (job_SourceURI job) w = (Ok payload, w1)
    /\ Embed emb ctx (job_TenantID job) (chunkPayload payload (chunkSize wk)) w1 = (Ok vectors, w2)
    /\ clock wk w2 = (now, w3)
    /\ Upsert ix ctx records w3 = (None, w4)
    /\ finish wk ctx m now w4 = (None, w')
    /\ length vectors = length (chunkPayload payload (chunkSize wk))
    /\ build_records m now 0 (zip (chunkPayload payload (chunkSize wk)) vectors) = Ok records
    /\ chunkPayload payload (chunkSize wk) <> [].

Lemma index_message_None ctx m w w' :
  index_message wk ctx m w = (None, w') -> exists records payload, indexed_as ctx m records payload w w'.
Proof.
  unfold index_message, loadPayload. run_M. intros H.
  assert (R : forall reason cause w0, retryOrDLQ wk ctx m reason cause w0 <> (None, w')).
  { intros reason cause w0. destruct (retryOrDLQ_fails ctx m reason cause w0) as (e & w1 & ->). done. }
  destruct (blobStore wk) as [b|] eqn:Hb; [|by apply R in H].
  destruct (Get b _ _ _ w) as [[payload|err] w1] eqn:Hg; [|by apply R in H]. cbn zeta in H.
  destruct (length (chunkPayload payload (chunkSize wk)) =? 0)%nat eqn:Hc; [by apply R in H|].
  destruct (embedder wk) as [emb|] eqn:Hemb; [|done].
  destruct (Embed emb _ _ _ w1) as [[vectors|err] w2] eqn:He; [|by apply R in H].
  destruct (length vectors =? _)%nat eqn:Hl; [|by apply R in H]. cbn [negb] in H.
  destruct (clock wk w2) as [now w3] eqn:Hn.
  destruct (build_records _ _ _ _) as [records|] eqn:Hr; [|done].
  destruct (index wk) as [ix|] eqn:Hix; [|done].
  destruct (Upsert ix ctx records w3) as [[err|] w4] eqn:Hu; [by apply R in H|].
  apply Nat.eqb_eq in Hl. apply Nat.eqb_neq in Hc.
  exists records, payload, b, emb, ix, vectors, w1, w2, w3, w4, now.
  repeat (split; [done|]). intros E. by rewrite E in Hc.
Qed.

(** The records carry the words of the payload and the identity of the job. *)
Definition content_of (m : QueueMessage) (payload : string) (records : list VectorRecord) : Prop :=
  records <> []
  /\ vr_ChunkText <$> records = chunkPayload payload (chunkSize wk)
  /\ concat (Fields <$> (vr_ChunkText <$> records)) = Fields payload
  /\ Forall (fun r => VectorRecord_Validate r = None /\ vr_TenantID r = job_TenantID (msg_Job m)
       /\ vr_JobID r = job_JobID (msg_Job m) /\ vr_SourceURI r = job_SourceURI (msg_Job m)
       /\ vr_Checksum r = job_Checksum (msg_Job m)) records.

Lemma indexed_content ctx m records payload w w' :
  indexed_as ctx (with_key m) records payload w w' -> content_of m payload records.
Proof.
  intros (b & emb & ix & vs & w1 & w2 & w3 & w4 & now & _ & _ & _ & _ & _ & _ & _ & _ & Hl & Hr & Hne).
  apply build_records_Ok in Hr as (H1 & _ & H3). rewrite fst_zip in H1 by lia.
  split; [|split; [done|split]].
  - intros ->. by rewrite <- H1 in Hne.
  - rewrite H1. apply chunkPayload_words.
  - eapply Forall_impl; [exact H3|]. naive_solver.
Qed.

(** C6: a message is acknowledged only when its content is indexed.
    [ProcessMessage] returns no error only for a valid message that the
    idempotency store already knew, or whose payload was fetched for its own
    tenant and source and upserted as one batch of valid records: their texts
    are the chunks of the payload, so that their words in order are exactly
    the words of the payload; one embedding per record; and tenant, job,
    source and checksum of every record are those of the job. *)
Theorem process_success_means_indexed ctx m w w' :
  ProcessMessage wk ctx m w = (None, w') ->
  QueueMessage_Validate m = None /\
  ((exists s, idem wk = Some s /\ idem_Exists s ctx (msg_IdempotencyKey (with_key m)) w = (Ok true, w'))
   \/ exists records payload w0,
        indexed_as ctx (with_key m) records payload w0 w' /\ content_of m payload records).
Proof.
  unfold ProcessMessage. destruct (QueueMessage_Validate m); [done|]. cbn zeta. intros H. split; [done|].
  run_M in H.
  assert (K : forall w0, index_message wk ctx (with_key m) w0 = (None, w') -> exists records payload w0,
    indexed_as ctx (with_key m) records payload w0 w' /\ content_of m payload records).
  { intros w0 (records & payload & Hi)%index_message_None. exists records, payload, w0.
    split; [done|]. by eapply indexed_content. }
  destruct (idem wk) as [s|].
  - destruct (idem_Exists s ctx _ w) as [[[]|err] w1] eqn:Hx; [left; naive_solver|right; eauto|done].
  - right. eauto.
Qed.
End Success.

(** ** The worker on the in-memory queue *)

Section System.
Context {E : Type}.
Variables (blob : ArtifactBlobStore E) (emb : EmbeddingProvider E) (ix : VectorIndex E)
  (idm : option (IdempotencyStore E)) (ret : option (RetentionPolicyHook E))
  (clk : M E Time) (maxR chunk ttl : Z).

(** Producer, consumer and dead-letter queue are one in-memory adapter; the
    other collaborators work on the rest of the world. *)
Definition system : DeterministicAsyncWorker (InMemoryQueueAdapter * E) := {|
  producer := Some {| Enqueue ctx m := lift (mem_Enqueue ctx m) |};
  consumer := Some {| Dequeue ctx := lift (mem_Dequeue ctx) |};
  dlq := Some {| Publish ctx m reason := lift (mem_Publish ctx m reason) |};
  blobStore := Some {| Get ctx t u := on_snd (Get blob ctx t u) |};
  embedder := Some {| Embed ctx t cs := on_snd (Embed emb ctx t cs) |};
  index := Some {| Upsert ctx rs := on_snd (Upsert ix ctx rs) |};
  idem := (fun s => {| idem_Exists ctx k := on_snd (idem_Exists s ctx k);
                       idem_Save ctx k t := on_snd (idem_Save s ctx k t) |}) <$> idm;
  retention := (fun h => {| Apply ctx r := on_snd (Apply h ctx r) |}) <$> ret;
  clock := on_snd clk;
  maxRetries := maxR; chunkSize := chunk; idempotencyTTL := ttl |}.

(** Collaborators that never fail where the worker does not retry: the
    idempotency store and the retention hook answer without error, the clock
    is set, and embeddings are not empty.  The blob store, the embedder and the
    index may still fail. *)
Record reliable : Prop := {
  re_exists s ctx k e : idm = Some s -> exists b, (idem_Exists s ctx k e).1 = Ok b;
  re_save s ctx k e : idm = Some s -> (idem_Save s ctx k ttl e).1 = None;
  re_apply h ctx r e : ret = Some h -> (Apply h ctx r e).1 = None;
  re_clock e : 0 < (clk e).1;
  re_embed ctx t cs e vs : (Embed emb ctx t cs e).1 = Ok vs -> Forall (fun v => v <> []) vs }.

(** A message whose job has all the data the records need. *)
Definition complete (m : QueueMessage) : Prop :=
  QueueMessage_Validate m = None /\ job_Checksum (msg_Job m) <> ""
  /\ TrimSpace (job_SourceURI (msg_Job m)) <> "" /\ TrimSpace (job_JobID (msg_Job m)) <> "".

(** What happens to a message taken from the queue [q] (the rest of it):
    acknowledged, re-queued with one more attempt, dead-lettered once its
    attempts are used up, or dropped with an error, which needs an unreliable
    collaborator or an incomplete job. *)
Inductive fate (m : QueueMessage) (q : InMemoryQueueAdapter)
    : option error -> InMemoryQueueAdapter -> Prop :=
| fate_done : fate m q None q
| fate_retry e ce :
    wrap64 (msg_Attempt m + 1) <= maxR ->
    fate m q (Some e)
      {| messages := messages q
           ++ [with_attempt (with_key m) (wrap64 (msg_Attempt m + 1)) (clk ce).1];
         Queue.dlq := Queue.dlq q |}
| fate_dead e :
    maxR < wrap64 (msg_Attempt m + 1) ->
    fate m q (Some e) {| messages := messages q; Queue.dlq := Queue.dlq q ++ [with_key m] |}
| fate_dropped e : ~ (reliable /\ complete m) -> fate m q (Some e) q.

(** Operations on the rest of the world leave the queue alone. *)
Lemma triple_on_snd {A} (m : M E A) q :
  triple (fun s : InMemoryQueueAdapter * E => s.1 = q) (on_snd m)
    (fun r s => s.1 = q /\ exists e, r = (m e).1).
Proof.
  intros [q' e] Hq. unfold on_snd. simpl in *. destruct (m e) as [r e'] eqn:Em. simpl.
  split; [done|]. exists e. by rewrite Em.
Qed.

Lemma retry_fate ctx m reason cause q (P : InMemoryQueueAdapter * E -> Prop) :
  (forall s, P s -> s.1 = q) ->
  triple P (retryOrDLQ system ctx (with_key m) reason cause) (fun r s => fate m q r s.1).
Proof.
  intros HP. eapply triple_conseq; [|exact HP|intros a s Hs; exact Hs].
  unfold retryOrDLQ. cbn zeta. cbn [maxRetries system producer dlq].
  replace (msg_Attempt (with_key m)) with (msg_Attempt m) by done.
  destruct (Z.leb_spec (wrap64 (msg_Attempt m + 1)) maxR).
  - eapply triple_bind; [apply triple_on_snd|]. intros now [q' e] [Hq [ce ->]]. simpl in *. subst.
    by constructor.
  - intros [q' e] Hq. simpl in *. subst. by constructor.
Qed.

Lemma retention_valid m now :
  complete m -> 0 < now -> Forall (fun r => RetentionRecord_Validate r = None) (retentionSet m now).
Proof.
  intros ([Hmid [Hj _]]%QueueMessage_Validate_None & Hck & Hu & Hid) Hn.
  apply IngestionJob_Validate_None in Hj as (Ht & Hi & _).
  unfold retentionSet. repeat constructor; apply RetentionRecord_Validate_None; simpl;
    (repeat split; try done; unfold Days, Hour, Minute, Second; lia).
Qed.

(** A post-condition for steps that end with [q] and an error only when the
    message may be dropped. *)
Definition stays (m : QueueMessage) (q : InMemoryQueueAdapter) (r : option error)
    (s : InMemoryQueueAdapter * E) : Prop :=
  s.1 = q /\ (r <> None -> ~ (reliable /\ complete m)).

Lemma stays_fate m q r s : stays m q r s -> fate m q r s.1.
Proof. intros [-> Hr]. destruct r; constructor. by apply Hr. Qed.

Lemma triple_apply_retention h ctx m rs q :
  ret = Some h -> (reliable /\ complete m -> Forall (fun r => RetentionRecord_Validate r = None) rs) ->
  triple (fun s : InMemoryQueueAdapter * E => s.1 = q)
    (apply_retention {| Apply ctx r := on_snd (Apply h ctx r) |} ctx rs) (stays m q).
Proof.
  intros Hret. induction rs as [|r rs IH]; intros Hv; cbn [apply_retention]; [by apply triple_ret|].
  destruct (RetentionRecord_Validate r) eqn:Er.
  { apply triple_ret. intros s Hs. split; [done|]. intros _ Hrel.
    apply Hv, Forall_cons in Hrel as [? _]. congruence. }
  eapply triple_bind; [apply triple_on_snd|]. intros [e|].
  - apply triple_ret. intros s [Hs [ce Hce]]. split; [done|]. intros _ [Hrel _].
    by rewrite (re_apply Hrel) in Hce.
  - eapply triple_conseq; [apply IH|by intros s [? _]|done].
    intros Hrel. by apply Hv, Forall_cons in Hrel as [_ ?].
Qed.

Lemma finish_fate ctx m ce q :
  triple (fun s => s.1 = q) (finish system ctx (with_key m) (clk ce).1) (stays m q).
Proof.
  unfold finish. cbn [idem retention system].
  eapply (triple_bind _ _ _ (stays m q)).
  { destruct idm as [s|] eqn:Ei; simpl; [|by apply triple_ret].
    eapply triple_conseq; [apply (triple_on_snd _ q)|done|]. intros r s' [Hs [e ->]].
    split; [done|]. intros Hr [Hrel _]. apply Hr. by apply (re_save Hrel). }
  intros [e|]; [by apply triple_ret|].
  eapply (triple_conseq _ (fun s => s.1 = q)); [|by intros s [? _]|intros a s Hs; exact Hs].
  destruct ret as [h|] eqn:Er; cbn [fmap option_fmap option_map]; [|by apply triple_ret].
  apply triple_apply_retention; [done|]. intros [Hrel Hc].
  apply (retention_valid m (clk ce).1); [done|]. by apply (re_clock Hrel).
Qed.

Lemma build_records_total m now cvs :
  complete m -> 0 < now -> Forall (fun cv => TrimSpace cv.1 <> "" /\ cv.2 <> []) cvs ->
  forall i, exists rs, build_records (with_key m) now i cvs = Ok rs.
Proof.
  intros Hc Hn HF. induction HF as [|[c v] cvs [Hcb Hv] _ IH]; intros i; [by exists []|].
  cbn [build_records]. cbn zeta. rewrite (proj2 (VectorRecord_Validate_None _)).
  - destruct (IH (S i)) as [rs ->]. by eexists.
  - destruct Hc as ((Hmid & Hj & Ha & _)%QueueMessage_Validate_None & Hck & _).
    apply IngestionJob_Validate_None in Hj as (Ht & Hi & Hu & _). simpl.
    split; [apply sha256_hex_ne|]. repeat (split; [done|]). split; [lia|]. done.
Qed.

Lemma chunks_nonblank payload n : Forall (fun c => TrimSpace c <> "") (chunkPayload payload n).
Proof.
  destruct (chunkPayload_groups payload n) as (gs & -> & Hc & Hne & _).
  assert (Hw : Forall (Forall word) gs) by (apply Forall_concat; rewrite Hc; apply Fields_words).
  apply Forall_fmap. rewrite Forall_forall in *. intros g Hg. simpl.
  rewrite TrimSpace_nil_Fields, Fields_Join by auto. auto.
Qed.

Lemma index_message_fate ctx m q :
  triple (fun s => s.1 = q) (index_message system ctx (with_key m)) (fun r s => fate m q r s.1).
Proof.
  unfold index_message, loadPayload. cbn [blobStore embedder index chunkSize clock system].
  eapply triple_bind; [apply triple_on_snd|].
  intros [payload|err]; [|apply retry_fate; by intros s [? _]]. cbn zeta.
  destruct (_ =? 0)%nat; [apply retry_fate; by intros s [? _]|].
  eapply triple_bind; [eapply triple_conseq; [apply (triple_on_snd _ q)|by intros s [? _]|intros a s Hs; exact Hs]|].
  intros [vectors|err]; [|apply retry_fate; by intros s [? _]].
  destruct (_ =? _)%nat eqn:Hl; [|apply retry_fate; by intros s [? _]]. cbn [negb]. apply Nat.eqb_eq in Hl.
  apply triple_pure. intros [e0 Hv].
  eapply triple_bind; [apply triple_on_snd|]. intros now.
  apply triple_pure. intros [ce ->].
  destruct (build_records _ _ _ _) as [records|err] eqn:Hr.
  2:{ apply triple_ret. intros s Hs. apply stays_fate. split; [done|]. intros _ [Hrel Hc]. revert Hr.
      destruct (build_records_total m (clk ce).1 (zip (chunkPayload payload chunk) vectors)) with (i := 0%nat)
        as [rs ->]; [done|by apply (re_clock Hrel)| |done].
      rewrite Forall_forall. intros [c v] Hin. simpl.
      split; [|apply elem_of_zip_r in Hin; symmetry in Hv; apply (re_embed Hrel) in Hv;
               rewrite Forall_forall in Hv; auto].
      apply elem_of_zip_l in Hin. pose proof (chunks_nonblank payload chunk) as Hb.
      rewrite Forall_forall in Hb. auto. }
  eapply triple_bind; [apply triple_on_snd|].
  intros [err|]; [apply retry_fate; by intros s [? _]|].
  eapply triple_conseq; [apply (finish_fate ctx m ce q)|by intros s [? _]|]. intros r s. apply stays_fate.
Qed.

Lemma ProcessMessage_fate ctx m q :
  triple (fun s => s.1 = q) (ProcessMessage system ctx m) (fun r s => fate m q r s.1).
Proof.
  unfold ProcessMessage. destruct (QueueMessage_Validate m) eqn:Hv.
  { apply triple_ret. intros s Hs. apply stays_fate. split; [done|].
    intros _ [_ [Hc _]]. congruence. }
  cbn zeta.
  eapply (triple_bind _ _ _ (fun r s => s.1 = q /\ (is_Ok r = false -> ~ reliable))).
  { cbn [idem system]. destruct idm as [s|] eqn:Ei; simpl; [|by apply triple_ret].
    eapply triple_conseq; [apply (triple_on_snd _ q)|done|]. intros r s' [Hs [e ->]].
    split; [done|]. intros Hr Hrel. destruct (re_exists Hrel s ctx (msg_IdempotencyKey (with_key m)) e Ei) as [b Hb].
    simpl in Hb. by rewrite Hb in Hr. }
  intros [[]|err].
  - apply triple_ret. intros s [Hs _]. by apply stays_fate.
  - eapply triple_conseq; [apply index_message_fate|by intros s [? _]|done].
  - apply triple_ret. intros s [Hs Hr]. apply stays_fate. split; [done|]. intros _ [Hrel _]. by apply Hr.
Qed.

Lemma ProcessNext_fate ctx m q dl :
  triple (fun s => s.1 = {| messages := m :: q; Queue.dlq := dl |}) (ProcessNext system ctx)
    (fun r s => fate m {| messages := q; Queue.dlq := dl |} r s.1).
Proof.
  unfold ProcessNext. cbn [consumer system].
  eapply (triple_bind _ _ _ (fun r s => r = Ok m /\ s.1 = {| messages := q; Queue.dlq := dl |})).
  { intros [q' e] Hq. simpl in *. by subst. }
  intros r s [-> Hs]. by apply ProcessMessage_fate.
Qed.

Lemma ProcessNext_empty ctx dl e :
  ProcessNext system ctx ({| messages := []; Queue.dlq := dl |}, e)
  = (Some ErrQueueEmpty, ({| messages := []; Queue.dlq := dl |}, e)).
Proof. done. Qed.

(** The attempts of queued messages are within bounds. *)
Definition attempts_ok (q : InMemoryQueueAdapter) : Prop :=
  Forall (fun m => 0 <= msg_Attempt m <= maxR) (messages q).

(** The number of processing steps the queue can still cause. *)
Definition budget (q : InMemoryQueueAdapter) : nat :=
  list_sum ((fun m => Z.to_nat (maxR + 1 - msg_Attempt m)) <$> messages q).

(** [n] calls of [ProcessNext]; the answers, oldest first, and the final world. *)
Fixpoint drain (n : nat) (ctx : context) (s : InMemoryQueueAdapter * E)
    : list (option error) * (InMemoryQueueAdapter * E) :=
  match n with
  | O => ([], s)
  | S n' =>
      let '(r, s1) := ProcessNext system ctx s in
      let '(rs, s2) := drain n' ctx s1 in (r :: rs, s2)
  end.

Hypothesis Hmax : 0 <= maxR < 2^63 - 1.

Lemma next_attempt m : 0 <= msg_Attempt m <= maxR -> wrap64 (msg_Attempt m + 1) = msg_Attempt m + 1.
Proof. intros H. apply wrap64_id. unfold int64_range. lia. Qed.

(** A step on a non-empty queue keeps the bounds and uses up budget. *)
Lemma fate_budget m q r q' dl :
  fate m {| messages := q; Queue.dlq := dl |} r q' ->
  attempts_ok {| messages := m :: q; Queue.dlq := dl |} ->
  attempts_ok q' /\ (budget q' < budget {| messages := m :: q; Queue.dlq := dl |})%nat.
Proof.
  intros Hf [Hm Hq]%Forall_cons. unfold budget. cbn [messages]. rewrite fmap_cons. simpl.
  destruct Hf; simpl; rewrite ?fmap_app, ?list_sum_app; simpl;
    (split; [|rewrite ?next_attempt by done; lia]); try done.
  apply Forall_app. split; [done|]. constructor; [|done]. cbn. rewrite next_attempt in * by done. lia.
Qed.

Lemma drain_step n ctx s :
  drain (S n) ctx s = (let r := ProcessNext system ctx s in
                       let d := drain n ctx r.2 in (r.1 :: d.1, d.2)).
Proof. cbn [drain]. destruct (ProcessNext system ctx s) as [r s1]. simpl. by destruct (drain n ctx s1). Qed.

Lemma drain_empties n ctx : forall s,
  attempts_ok s.1 -> (budget s.1 <= n)%nat -> messages (drain n ctx s).2.1 = [].
Proof.
  induction n as [|n IH]; intros [[ms dl] e] Hok Hb.
  - destruct ms as [|m ms]; [done|]. exfalso. unfold budget in Hb. simpl in Hb.
    apply Forall_cons in Hok as [Hm _]. lia.
  - rewrite drain_step. cbn zeta. destruct ms as [|m ms].
    + rewrite ProcessNext_empty. apply IH; [done|]. simpl. unfold budget. simpl. lia.
    + pose proof (ProcessNext_fate ctx m ms dl ({| messages := m :: ms; Queue.dlq := dl |}, e) eq_refl) as Hf.
      destruct (fate_budget _ _ _ _ _ Hf Hok) as [Hok' Hlt]. apply IH; [done|]. simpl in *. lia.
Qed.

(** What a retry keeps of a message: all but the attempt and the time. *)
Definition identity (m : QueueMessage) : string * IngestionJob * string :=
  (msg_MessageID m, msg_Job m, msg_IdempotencyKey (with_key m)).

Lemma identity_key m : identity (with_key m) = identity m.
Proof. unfold identity, with_key. destruct (String.eqb (msg_IdempotencyKey m) "") eqn:Ek; simpl; [|by rewrite Ek]. by case_match. Qed.

(** The messages that [n] calls of [ProcessNext] take off the queue, each with the
    answer of its call. *)
Fixpoint taken (n : nat) (ctx : context) (s : InMemoryQueueAdapter * E) : list (QueueMessage * option error) :=
  match n with
  | O => []
  | S n' =>
      let '(r, s1) := ProcessNext system ctx s in
      match messages s.1 with m :: _ => [(m, r)] | [] => [] end ++ taken n' ctx s1
  end.
(** The messages of the calls that returned no error. *)
Definition acknowledged (calls : list (QueueMessage * option error)) : list QueueMessage :=
  (filter (fun c => c.2 = None) calls).*1.

(** How the messages [before] have ended, in the world after some calls: each is acknowledged,
    dead-lettered, dropped, or still in the queue. *)
Record settled (before : list QueueMessage) (q' : InMemoryQueueAdapter) (dl : list QueueMessage)
    (calls : list (QueueMessage * option error)) (dead dropped : list QueueMessage) : Prop := {
  se_all : identity <$> before ≡ₚ identity <$> (acknowledged calls ++ dead ++ dropped ++ messages q');
  se_dead : Queue.dlq q' = dl ++ dead;
  se_attempts : Forall (fun m => msg_Attempt m = maxR) dead;
  se_dropped : Forall (fun m => exists e, (m, Some e) ∈ calls /\ ~ (reliable /\ complete m)) dropped }.

Lemma fate_settled m q r q' dl :
  fate m {| messages := q; Queue.dlq := dl |} r q' ->
  attempts_ok {| messages := m :: q; Queue.dlq := dl |} ->
  exists dead dropped, settled (m :: q) q' dl [(m, r)] dead dropped.
Proof.
  intros Hf [Hm _]%Forall_cons. destruct Hf as [|e ce Hle|e Hlt|e Hd]; cbn [messages].
  - exists [], []. split; [done|by rewrite app_nil_r|done|done].
  - exists [], []. split; [|by rewrite app_nil_r|done|done]. cbn [messages].
    change (acknowledged [(m, Some e)]) with (@nil QueueMessage). rewrite !app_nil_l, fmap_app, !fmap_cons, fmap_nil.
    assert (Hi : identity (with_attempt (with_key m) (wrap64 (msg_Attempt m + 1)) (clk ce).1) = identity m)
      by apply (identity_key m). rewrite Hi. apply Permutation_cons_append.
  - exists [with_key m], []. split; [|done| |done].
    + change (acknowledged [(m, Some e)]) with (@nil QueueMessage). cbn [messages app]. by rewrite !fmap_cons, identity_key.
    + constructor; [|done]. rewrite next_attempt in Hlt by done. cbn. lia.
  - exists [], [m]. split; [done|by rewrite app_nil_r|done|]. constructor; [|done]. exists e. split; [|done].
    by apply list_elem_of_singleton.
Qed.

Lemma settled_trans before q1 q2 dl c1 c2 dead1 dead2 drop1 drop2 :
  settled before q1 dl c1 dead1 drop1 -> settled (messages q1) q2 (Queue.dlq q1) c2 dead2 drop2 ->
  settled before q2 dl (c1 ++ c2) (dead1 ++ dead2) (drop1 ++ drop2).
Proof.
  intros [A1 A2 A3 A4] [B1 B2 B3 B4]. split.
  - rewrite A1. unfold acknowledged. rewrite filter_app, !fmap_app. unfold acknowledged in B1. rewrite !fmap_app in B1.
    rewrite B1. solve_Permutation.
  - by rewrite B2, A2, app_assoc.
  - by apply Forall_app.
  - apply Forall_app. split; eapply Forall_impl; [exact A4| |exact B4|]; intros m (e & Hin & Hd); exists e;
      (split; [apply elem_of_app; tauto|done]).
Qed.

Lemma taken_settled n ctx : forall s, attempts_ok s.1 ->
  exists dead dropped, settled (messages s.1) (drain n ctx s).2.1 (Queue.dlq s.1) (taken n ctx s) dead dropped.
Proof.
  induction n as [|n IH]; intros [[ms dl] e] Hok.
  { exists [], []. split; [done|by rewrite app_nil_r|done|done]. }
  rewrite drain_step. cbn zeta. cbn [taken]. destruct ms as [|m ms].
  - rewrite ProcessNext_empty. cbn [fst snd messages app]. apply (IH ({| messages := []; Queue.dlq := dl |}, e) Hok).
  - pose proof (ProcessNext_fate ctx m ms dl ({| messages := m :: ms; Queue.dlq := dl |}, e) eq_refl) as Hf.
    destruct (ProcessNext system ctx _) as [r s1]. cbn [fst snd messages] in *.
    destruct (fate_budget _ _ _ _ _ Hf Hok) as [Hok' _].
    destruct (fate_settled _ _ _ _ _ Hf Hok) as (dead1 & drop1 & H1). destruct (IH s1 Hok') as (dead2 & drop2 & H2).
    exists (dead1 ++ dead2), (drop1 ++ drop2). by eapply settled_trans.
Qed.

Lemma drain_taken n ctx : forall s, attempts_ok s.1 -> (budget s.1 <= n)%nat ->
  exists dead dropped, settled (messages s.1) (drain n ctx s).2.1 (Queue.dlq s.1) (taken n ctx s) dead dropped
    /\ messages (drain n ctx s).2.1 = [].
Proof.
  intros s Hok Hb. destruct (taken_settled n ctx s Hok) as (dead & dropped & H). exists dead, dropped.
  split; [done|by apply drain_empties].
Qed.

(** C11: the queue drains.  Whatever the blob store, the embedder, the index,
    the idempotency store and the retention hook answer, and however often
    they fail, [ProcessNext] empties the queue after at most [maxRetries + 1]
    calls per message (fewer for messages already retried), counted by
    [budget]: no message is retried for ever. *)
Theorem worker_drains ctx s n :
  attempts_ok s.1 -> (budget s.1 <= n)%nat -> messages (drain n ctx s).2.1 = [].
Proof. apply drain_empties. Qed.

End System.

(** *** A concrete environment: one blob, an embedder that fails [n] times, an
    index that accepts everything, and an idempotency store. *)
Record env := { failures : nat; saved : list string; batches : list (list VectorRecord) }.

Definition env_blob : ArtifactBlobStore env := {| Get _ _ _ := mret (Ok "alpha beta") |}.
Definition env_embedder : EmbeddingProvider env := {|
  Embed _ _ cs := fun e => match failures e with
    | O => (Ok ((fun _ => [float_of_int 1]) <$> cs), e)
    | S n => (Err (errors_New "embedding backend down"),
              {| failures := n; saved := saved e; batches := batches e |})
    end |}.
Definition env_index : VectorIndex env := {|
  Upsert _ rs := fun e => (None, {| failures := failures e; saved := saved e; batches := batches e ++ [rs] |}) |}.
Definition env_idem : IdempotencyStore env := {|
  idem_Exists _ k := fun e => (Ok (bool_decide (k ∈ saved e)), e);
  idem_Save _ k _ := fun e => (None, {| failures := failures e; saved := k :: saved e; batches := batches e |}) |}.
Definition env_retention : RetentionPolicyHook env := {| Apply _ _ := mret None |}.

Definition sample_worker := system env_blob env_embedder env_index (Some env_idem) (Some env_retention)
  (mret 5) 2 200 Hour.
Definition sample_job (id checksum : string) : IngestionJob := {|
  job_JobID := id; job_TenantID := "acme"; job_SourceURI := "s3://b/k"; job_Checksum := checksum;
  job_PolicyDecision := IngestionStatusApproved; job_CreatedAt := 1 |}.
Definition sample_message (id checksum : string) : QueueMessage := {|
  msg_MessageID := "m"; msg_Job := sample_job id checksum; msg_IdempotencyKey := "";
  msg_Attempt := 0; msg_EnqueuedAt := 1 |}.
Definition sample_queue : InMemoryQueueAdapter :=
  {| messages := [sample_message "j1" "c1"; sample_message "j2" "c2"]; Queue.dlq := [] |}.
Definition fresh_env (n : nat) : env := {| failures := n; saved := []; batches := [] |}.

Lemma sample_reliable :
  reliable env_embedder (Some env_idem) (Some env_retention) (mret 5) Hour.
Proof.
  split.
  - intros s ctx k e [= <-]. by eexists.
  - by intros s ctx k e [= <-].
  - by intros h ctx r e [= <-].
  - intros e. unfold mret, M_ret. simpl. lia.
  - intros ctx t cs e vs. simpl. destruct (failures e); [|done]. intros [= <-].
    apply Forall_fmap, Forall_forall. done.
Qed.

Lemma worker_drains_witness :
  messages (drain env_blob env_embedder env_index (Some env_idem) (Some env_retention)
    (mret 5) 2 200 Hour 6 None (sample_queue, fresh_env 100)).2.1 = [].
Proof.
  apply worker_drains.
  - lia.
  - repeat constructor; simpl; lia.
  - unfold budget. simpl. lia.
Defined.


(** ** At most one batch per key

    What happened to the keys, in order: the index accepted a batch, the idempotency store
    recorded a key, it failed to, or it forgot one whose time was over. *)
Inductive event := Accepted (k : string) | Saved (k : string) | SaveFailed (k : string) | Expired (k : string).

(** What the store knows after a history. *)
Definition live_step (k : string) (b : bool) (ev : event) : bool :=
  match ev with
  | Saved k' => if String.eqb k' k then true else b
  | Expired k' => if String.eqb k' k then false else b
  | _ => b
  end.
Definition live (log : list event) (k : string) : bool := foldl (live_step k) false log.

Definition is_expiry (ev : event) : Prop := match ev with Expired _ => True | _ => False end.
(** Time passes: keys may expire, and nothing else happens. *)
Definition passes (l l' : list event) : Prop := exists es, l' = l ++ es /\ Forall is_expiry es.

(** What the worker expects of its collaborators, on the history of a world.  Keys may
    expire at any time, and saving may fail, with or without effect. *)
Class IndexingEnv {W : Type} (wk : DeterministicAsyncWorker W) (st : IdempotencyStore W)
    (history : W -> list event) : Prop := {
  ie_idem : idem wk = Some st;
  (** the store answers from what it knows *)
  ie_exists ctx k w :
    let '(r, w') := idem_Exists st ctx k w in
    passes (history w) (history w')
    /\ match r with Ok b => b = live (history w') k | Err _ => True end;
  ie_save ctx k t w :
    let '(r, w') := idem_Save st ctx k t w in
    exists l, passes (history w) l
      /\ match r with
         | None => history w' = l ++ [Saved k]
         | Some _ => history w' = l ++ [Saved k] \/ history w' = l ++ [SaveFailed k]
         end;
  (** the index accepts a batch or does not *)
  ie_upsert ix ctx rs k w :
    index wk = Some ix -> rs <> [] ->
    Forall (fun r => vr_Metadata r !! "idempotency_key" = Some k) rs ->
    let '(r, w') := Upsert ix ctx rs w in
    match r with
    | None => exists l, passes (history w) l /\ history w' = l ++ [Accepted k]
    | Some _ => passes (history w) (history w')
    end;
  (** nobody else saves keys or indexes *)
  ie_clock w : passes (history w) (history (clock wk w).2);
  ie_get b ctx t u w : blobStore wk = Some b -> passes (history w) (history (Get b ctx t u w).2);
  ie_embed m ctx t cs w : embedder wk = Some m -> passes (history w) (history (Embed m ctx t cs w).2);
  ie_enqueue p ctx m w : producer wk = Some p -> passes (history w) (history (Enqueue p ctx m w).2);
  ie_publish d ctx m r w : dlq wk = Some d -> passes (history w) (history (Publish d ctx m r w).2);
  ie_apply h ctx r w : retention wk = Some h -> passes (history w) (history (Apply h ctx r w).2) }.

Section ExactlyOnce.
Context {W : Type} (wk : DeterministicAsyncWorker W) (st : IdempotencyStore W)
  (history : W -> list event) `{L : !IndexingEnv wk st history}.

(** The key has a batch in the index and its record has not been lost since. *)
Definition held_step (k : string) (b : bool) (ev : event) : bool :=
  match ev with
  | Accepted k' => if String.eqb k' k then true else b
  | SaveFailed k' | Expired k' => if String.eqb k' k then false else b
  | Saved _ => b
  end.
Definition held (log : list event) (k : string) : bool := foldl (held_step k) false log.
(** No batch is accepted for a key that is held. *)
Fixpoint good (b : string -> bool) (log : list event) : Prop :=
  match log with
  | [] => True
  | ev :: log' => (forall k, ev = Accepted k -> b k = false) /\ good (fun k => held_step k (b k) ev) log'
  end.

Lemma good_app log1 log2 : forall b,
  good b (log1 ++ log2) <-> good b log1 /\ good (fun k => foldl (held_step k) (b k) log1) log2.
Proof. induction log1 as [|ev log1 IH]; intros b; cbn; [tauto|]. rewrite IH. tauto. Qed.

Lemma held_snoc log ev k : held (log ++ [ev]) k = held_step k (held log k) ev.
Proof. unfold held. by rewrite foldl_app. Qed.
Lemma live_snoc log ev k : live (log ++ [ev]) k = live_step k (live log k) ev.
Proof. unfold live. by rewrite foldl_app. Qed.

(** The bookkeeping between two messages: what is held is known to the store. *)
Definition kept (log : list event) : Prop :=
  good (fun _ => false) log /\ forall k, held log k = true -> live log k = true.
(** The same while a message with key [k] is worked on: [k] is free. *)
Definition free (k : string) (log : list event) : Prop := kept log /\ held log k = false.
(** The same once its batch is accepted and not yet recorded. *)
Definition pending (k : string) (log : list event) : Prop :=
  good (fun _ => false) log /\ forall k', k' <> k -> held log k' = true -> live log k' = true.

Lemma kept_expired log k : kept log -> kept (log ++ [Expired k]).
Proof.
  intros [Hg Hh]. split; [apply good_app; by split|]. intros k'. rewrite held_snoc, live_snoc. simpl.
  by destruct (String.eqb k k'); [|apply Hh].
Qed.
Lemma free_expired k log k' : free k log -> free k (log ++ [Expired k']).
Proof.
  intros [Hk Hf]. split; [by apply kept_expired|]. rewrite held_snoc. simpl. by destruct (String.eqb k' k).
Qed.
Lemma pending_expired k log k' : pending k log -> pending k (log ++ [Expired k']).
Proof.
  intros [Hg Hh]. split; [apply good_app; by split|]. intros k2 Hne. rewrite held_snoc, live_snoc. simpl.
  by destruct (String.eqb k' k2); [|apply Hh].
Qed.
Lemma passes_keeps (P : list event -> Prop) l l' :
  (forall l k, P l -> P (l ++ [Expired k])) -> passes l l' -> P l -> P l'.
Proof.
  intros HP (es & -> & HF). revert l. induction HF as [|ev es Hev _ IH]; intros l Hl; [by rewrite app_nil_r|].
  destruct ev; try done. rewrite (app_assoc l [_] es : l ++ Expired k :: es = (l ++ [Expired k]) ++ es). by apply IH, HP.
Qed.

Lemma free_accepted k log : free k log -> pending k (log ++ [Accepted k]).
Proof.
  intros [[Hg Hh] Hf]. split.
  - apply good_app. split; [done|]. simpl. split; [|done]. by intros ? [= <-].
  - intros k' Hne. rewrite held_snoc, live_snoc. simpl. destruct (String.eqb_spec k k'); [congruence|]. apply Hh.
Qed.
Lemma pending_recorded k log ev : pending k log -> ev = Saved k \/ ev = SaveFailed k -> kept (log ++ [ev]).
Proof.
  intros [Hg Hh] Hev. split; [apply good_app; split; [done|]; simpl; split; [|done]; by intros k' ->; destruct Hev|].
  intros k'. rewrite held_snoc, live_snoc. destruct Hev as [->| ->]; simpl; destruct (String.eqb_spec k k') as [->|];
    try done; apply Hh; congruence.
Qed.

(** A step that only lets time pass. *)
Lemma triple_passes {A} (m : M W A) (P : list event -> Prop) :
  (forall l k, P l -> P (l ++ [Expired k])) -> (forall w, passes (history w) (history (m w).2)) ->
  triple (fun w => P (history w)) m (fun _ w => P (history w)).
Proof. intros HP Hm w Hw. by apply (passes_keeps P _ _ HP (Hm w)). Qed.

Lemma retryOrDLQ_passes ctx m reason cause P :
  (forall l k, P l -> P (l ++ [Expired k])) ->
  triple (fun w => P (history w)) (retryOrDLQ wk ctx m reason cause) (fun _ w => P (history w)).
Proof.
  intros HP. unfold retryOrDLQ. cbn zeta. destruct (if _ <=? _ then _ else _) as [p|] eqn:Hp.
  - assert (producer wk = Some p) by (by case_match). eapply triple_bind; [apply (triple_passes _ P HP), ie_clock|].
    intros now. eapply triple_bind; [apply (triple_passes _ P HP); intros; by apply ie_enqueue|].
    intros [e|]; by apply triple_ret.
  - destruct (dlq wk) as [q|] eqn:Hq; [|by apply triple_ret].
    eapply triple_bind; [apply (triple_passes _ P HP); intros; by apply ie_publish|]. intros [e|]; by apply triple_ret.
Qed.

Lemma apply_retention_passes h ctx rs P :
  (forall l k, P l -> P (l ++ [Expired k])) -> retention wk = Some h ->
  triple (fun w => P (history w)) (apply_retention h ctx rs) (fun _ w => P (history w)).
Proof.
  intros HP Hh. induction rs as [|r rs IH]; cbn [apply_retention]; [by apply triple_ret|].
  destruct (RetentionRecord_Validate r); [by apply triple_ret|].
  eapply triple_bind; [apply (triple_passes _ P HP); intros; by apply ie_apply|].
  intros [e|]; [by apply triple_ret|done].
Qed.

Lemma finish_records ctx m now :
  triple (fun w => pending (msg_IdempotencyKey m) (history w)) (finish wk ctx m now) (fun _ w => kept (history w)).
Proof.
  unfold finish. rewrite ie_idem. eapply (triple_bind _ _ _ (fun _ w => kept (history w))).
  { intros w Hw. pose proof (ie_save ctx (msg_IdempotencyKey m) (idempotencyTTL wk) w) as H.
    destruct (idem_Save st _ _ _ _) as [r w']. destruct H as (l & Hl & Hr).
    apply (passes_keeps (pending (msg_IdempotencyKey m)) _ _ (pending_expired _) Hl) in Hw. cbn.
    assert (Hev : exists ev, history w' = l ++ [ev] /\ (ev = Saved (msg_IdempotencyKey m) \/ ev = SaveFailed (msg_IdempotencyKey m)))
      by (destruct r; naive_solver).
    destruct Hev as (ev & -> & Hev). by eapply pending_recorded. }
  intros [e|]; [by apply triple_ret|]. destruct (retention wk) as [h|] eqn:Hh; [|by apply triple_ret].
  by apply (apply_retention_passes h ctx _ kept kept_expired).
Qed.

Lemma index_message_keeps ctx m :
  triple (fun w => free (msg_IdempotencyKey m) (history w)) (index_message wk ctx m) (fun _ w => kept (history w)).
Proof.
  set (k := msg_IdempotencyKey m). pose proof (free_expired k) as HF.
  assert (R : forall reason cause, triple (fun w => free k (history w)) (retryOrDLQ wk ctx m reason cause)
    (fun _ w => kept (history w))).
  { intros. eapply triple_conseq; [apply (retryOrDLQ_passes ctx m reason cause (free k) HF)|auto|by intros ? ? []]. }
  assert (T : forall e : option error, triple (fun w => free k (history w)) (mret e) (fun _ w => kept (history w))).
  { intros e. apply triple_ret. by intros ? []. }
  unfold index_message, loadPayload. eapply (triple_bind _ _ _ (fun _ w => free k (history w))).
  { destruct (blobStore wk) eqn:Hb; [apply (triple_passes _ _ HF); intros; by apply ie_get|by apply triple_ret]. }
  intros [payload|err]; [|apply R]. cbn zeta. destruct (_ =? 0)%nat eqn:Hne; [apply R|].
  destruct (embedder wk) as [emb|] eqn:Hemb; [|apply T].
  eapply triple_bind; [apply (triple_passes _ _ HF); intros; by apply ie_embed|]. intros [vectors|err]; [|apply R].
  destruct (length vectors =? _)%nat eqn:Hl; [|apply R]. cbn [negb].
  eapply triple_bind; [apply (triple_passes _ _ HF), ie_clock|]. intros now.
  destruct (build_records _ _ _ _) as [records|err] eqn:Hr; [|apply T].
  destruct (index wk) as [ix|] eqn:Hix; [|apply T].
  apply build_records_Ok in Hr as (H1 & _ & H3).
  eapply (triple_bind _ _ _ (fun r w => match r with None => pending k (history w) | Some _ => free k (history w) end)).
  { intros w Hw. pose proof (ie_upsert ix ctx records k w Hix) as H.
    destruct (Upsert ix ctx records w) as [r w']. cbn.
    assert (H' : match r with None => exists l, passes (history w) l /\ history w' = l ++ [Accepted k]
                         | Some _ => passes (history w) (history w') end).
    { apply H.
      - intros ->. apply Nat.eqb_eq in Hl. apply Nat.eqb_neq in Hne.
        rewrite fst_zip in H1 by lia. by rewrite <- H1 in Hne.
      - eapply Forall_impl; [exact H3|]. naive_solver. }
    destruct r as [err|]; [by apply (passes_keeps _ _ _ HF H')|]. destruct H' as (l & Hp & ->).
    by apply free_accepted, (passes_keeps _ _ _ HF Hp). }
  intros [err|]; [apply R|apply finish_records].
Qed.

Lemma ProcessMessage_keeps ctx m w : kept (history w) -> kept (history (ProcessMessage wk ctx m w).2).
Proof.
  intros Ho. unfold ProcessMessage. destruct (QueueMessage_Validate m); [done|]. cbn zeta.
  rewrite ie_idem. set (k := msg_IdempotencyKey (with_key m)). unfold mbind, M_bind.
  pose proof (ie_exists ctx k w) as Hx. destruct (idem_Exists st ctx k w) as [r w1]. destruct Hx as (Hp & Hb).
  pose proof (passes_keeps kept _ _ kept_expired Hp Ho) as Ho1. destruct r as [[]|err]; [done| |done].
  apply (index_message_keeps ctx (with_key m)). split; [done|].
  destruct (held (history w1) (msg_IdempotencyKey (with_key m))) eqn:Eh; [|done].
  apply (proj2 Ho1) in Eh. fold k in Eh. congruence.
Qed.

(** Two batches for one key have a loss of its record between them. *)
Lemma good_between k l1 l2 l3 :
  good (fun _ => false) (l1 ++ Accepted k :: l2 ++ Accepted k :: l3) -> SaveFailed k ∈ l2 \/ Expired k ∈ l2.
Proof.
  intros (_ & _ & H)%good_app. apply good_app in H as (_ & H & _). specialize (H k eq_refl). cbn in H.
  rewrite String.eqb_refl in H. revert H. clear. induction l2 as [|ev l2 IH]; [done|]. cbn [foldl]. rewrite !elem_of_cons.
  destruct ev as [k'|k'|k'|k']; simpl; try (destruct (String.eqb_spec k' k) as [->|]); intros H; try tauto;
    apply IH in H as [|]; tauto.
Qed.

(** C4: a key is indexed at most once for each time that its record is kept.  However messages
    are delivered (repeatedly, reordered, replayed from the dead-letter queue), and whatever fails, the index accepts
    a second batch for an idempotency key only if, after the first, the idempotency store failed to record the
    key or forgot it, when its time to live was over.  Between two batches of a key there is such a
    loss in the history; while records are kept, no key is indexed twice. *)
Theorem worker_indexes_once ctx ms w k l1 l2 l3 :
  history w = [] ->
  history (fold_left (fun w m => (ProcessMessage wk ctx m w).2) ms w) = l1 ++ Accepted k :: l2 ++ Accepted k :: l3 ->
  SaveFailed k ∈ l2 \/ Expired k ∈ l2.
Proof.
  intros H0 H. eapply good_between. rewrite <- H. clear H.
  assert (Ho : kept (history w)) by (rewrite H0; split; [done|by intros ?]). clear H0.
  enough (kept (history (fold_left (fun w m => (ProcessMessage wk ctx m w).2) ms w))) as [? _] by done.
  revert w Ho. induction ms as [|m ms IH]; intros w Ho; [done|]. simpl. by apply IH, ProcessMessage_keeps.
Qed.
End ExactlyOnce.

(** A world that keeps its history, with a store whose first saves fail. *)
Definition logged : Type := nat * list event.
Definition log_index : VectorIndex logged := {|
  Upsert _ rs := fun e =>
    (None, (e.1, e.2 ++ match (r ← head rs; vr_Metadata r !! "idempotency_key") with Some k => [Accepted k] | None => [] end)) |}.
Definition log_idem : IdempotencyStore logged := {|
  idem_Exists _ k := fun e => (Ok (live e.2 k), e);
  idem_Save _ k _ := fun e => match e.1 with
    | O => (None, (O, e.2 ++ [Saved k]))
    | S n => (Some (errors_New "store down"), (n, e.2 ++ [SaveFailed k]))
    end |}.
Definition log_embedder : EmbeddingProvider logged := {|
  Embed _ _ cs := mret (Ok ((fun _ => [float_of_int 1]) <$> cs)) |}.
Definition log_worker := system {| Get _ _ _ := mret (Ok "alpha beta") |} log_embedder log_index (Some log_idem) None (mret 5) 2 200 Hour.
Definition log_store : IdempotencyStore (InMemoryQueueAdapter * logged) := {|
  idem_Exists ctx k := on_snd (idem_Exists log_idem ctx k);
  idem_Save ctx k t := on_snd (idem_Save log_idem ctx k t) |}.
Definition log_history (s : InMemoryQueueAdapter * logged) : list event := s.2.2.

Lemma passes_refl l : passes l l.
Proof. exists []. by rewrite app_nil_r. Qed.

#[global] Instance log_env_laws : IndexingEnv log_worker log_store log_history.
Proof.
  split; try (intros; apply passes_refl).
  - done.
  - intros ctx k [q e]. cbn. split; [apply passes_refl|done].
  - intros ctx k t [q [[|n] l]]; cbn; exists l; (split; [apply passes_refl|auto]).
  - intros ix ctx rs k [q [n l]] [= <-] Hne HF. cbn. exists l. split; [apply passes_refl|].
    destruct rs as [|r rs]; [done|]. apply Forall_cons in HF as [Hk _]. cbn. by rewrite Hk.
  - intros b ctx t u w [= <-]. apply passes_refl.
  - intros m ctx t cs w [= <-]. apply passes_refl.
  - intros p ctx m w [= <-]. apply passes_refl.
  - intros d ctx m r w [= <-]. apply passes_refl.
  - intros h ctx r w [=].
Qed.

(** One job delivered three times; the first save fails. *)
Lemma worker_indexes_once_witness :
  let w := fold_left (fun w m => (ProcessMessage log_worker None m w).2)
             (repeat (sample_message "j1" "c1") 3) (NewInMemoryQueueAdapter, (1%nat, [])) in
  let k := idempotencyKey (sample_job "j1" "c1") in
  log_history w = [Accepted k; SaveFailed k; Accepted k; Saved k] /\ (SaveFailed k ∈ [SaveFailed k] \/ Expired k ∈ [SaveFailed k]).
Proof.
  intros w k. assert (H : log_history w = [] ++ Accepted k :: [SaveFailed k] ++ Accepted k :: [Saved k]) by (vm_compute; reflexivity).
  split; [exact H|]. exact (worker_indexes_once log_worker log_store log_history None (repeat (sample_message "j1" "c1") 3)
    (NewInMemoryQueueAdapter, (1%nat, [])) k [] [SaveFailed k] [Saved k] eq_refl H).
Defined.

Lemma process_success_means_indexed_witness :
  let r := ProcessMessage sample_worker None (sample_message "j1" "c1")
             (NewInMemoryQueueAdapter, fresh_env 0) in
  r.1 = None /\ QueueMessage_Validate (sample_message "j1" "c1") = None.
Proof.
  intros r. assert (H : r = (None, r.2)) by (vm_compute; reflexivity).
  split; [by rewrite H|]. apply (process_success_means_indexed sample_worker None
    (sample_message "j1" "c1") (NewInMemoryQueueAdapter, fresh_env 0) r.2 H).
Defined.

(** an approved job without a checksum is accepted and then lost.
    [EnqueueApprovedJob] queues it, and the first [ProcessNext] takes it off
    the queue and returns an error, with nothing indexed, nothing re-queued
    and nothing in the dead-letter queue, although every collaborator works. *)
Theorem missing_checksum_lost :
  exists md job w1 w2 e,
    job_Checksum job = "" /\
    (let '(r, w) := EnqueueApprovedJob sample_worker None md job (NewInMemoryQueueAdapter, fresh_env 0) in
     is_Ok r = true /\ w = w1) /\ length (messages w1.1) = 1%nat /\
    ProcessNext sample_worker None w1 = (Some e, w2)
    /\ messages w2.1 = [] /\ Queue.dlq w2.1 = [] /\ batches w2.2 = [] /\ saved w2.2 = [].
Proof.
  set (md := {| rm_TenantID := "acme"; rm_RequestID := "r1"; rm_SourceIP := ""; rm_UserAgent := "" |}).
  set (w1 := (EnqueueApprovedJob sample_worker None md (sample_job "j1" "")
    (NewInMemoryQueueAdapter, fresh_env 0)).2).
  exists md, (sample_job "j1" ""), w1, (ProcessNext sample_worker None w1).2,
    (WrapValidationErr "vector_record" (errors_New "checksum is required")).
  split; [reflexivity|]. split; [split; vm_compute; reflexivity|].
  repeat (split; [vm_compute; reflexivity|]). vm_compute. reflexivity.
Qed.
