(* ===== verification/Sqs.v ===== *)
(** * Sqs: the SQS adapter of internal/services/ingestion/queue_provider.go

    [Enqueue], [Dequeue] and [Publish] over a client of Amazon SQS, which is a
    port; queue messages travel as JSON.  The theorems: over a FIFO queue the
    adapter is a queue of messages, up to deduplication; and, because a retry
    reuses the deduplication identifier of the first attempt, a message retried
    within the deduplication interval is neither queued nor dead-lettered. *)

From stdpp Require Import pretty.
From S2P Require Import Prelude GoStrings GoTime GoJSON GoTimeParse Contracts Queue Ingestion.

#[local] Open Scope Z_scope.

(** ** Messages as JSON *)

Definition job_json (j : IngestionJob) : option json :=
  created ← time_json (job_CreatedAt j);
  Some (JObj [("JobID", JStr (job_JobID j)); ("TenantID", JStr (job_TenantID j));
              ("SourceURI", JStr (job_SourceURI j)); ("Checksum", JStr (job_Checksum j));
              ("PolicyDecision", JStr (job_PolicyDecision j)); ("CreatedAt", created)]).
Definition message_json (m : QueueMessage) : option json :=
  job ← job_json (msg_Job m);
  enqueued ← time_json (msg_EnqueuedAt m);
  Some (JObj [("MessageID", JStr (msg_MessageID m)); ("Job", job);
              ("IdempotencyKey", JStr (msg_IdempotencyKey m)); ("Attempt", JNum (Itoa (msg_Attempt m)));
              ("EnqueuedAt", enqueued)]).
(** The map [{"message": ..., "reason": ...}], encoded with its keys sorted. *)
Definition wrapped_json (m : QueueMessage) (reason : string) : option json :=
  v ← message_json m; Some (JObj [("message", v); ("reason", JStr reason)]).

Definition no_job : IngestionJob := {|
  job_JobID := ""; job_TenantID := ""; job_SourceURI := ""; job_Checksum := ""; job_PolicyDecision := "";
  job_CreatedAt := 0 |}.
Definition no_message : QueueMessage := {|
  msg_MessageID := ""; msg_Job := no_job; msg_IdempotencyKey := ""; msg_Attempt := 0; msg_EnqueuedAt := 0 |}.

Definition time_field {T} (name : string) (get : T -> Time) (set : T -> Time -> T) : field T :=
  (name, fun t v => set t <$> set_time (get t) v).

Definition job_fields : list (field IngestionJob) := [
  str_field "JobID" (fun '(Build_IngestionJob _ b c d e f) x => Build_IngestionJob x b c d e f);
  str_field "TenantID" (fun '(Build_IngestionJob a _ c d e f) x => Build_IngestionJob a x c d e f);
  str_field "SourceURI" (fun '(Build_IngestionJob a b _ d e f) x => Build_IngestionJob a b x d e f);
  str_field "Checksum" (fun '(Build_IngestionJob a b c _ e f) x => Build_IngestionJob a b c x e f);
  str_field "PolicyDecision" (fun '(Build_IngestionJob a b c d _ f) x => Build_IngestionJob a b c d x f);
  time_field "CreatedAt" job_CreatedAt (fun '(Build_IngestionJob a b c d e _) x => Build_IngestionJob a b c d e x)].
Definition message_fields : list (field QueueMessage) := [
  str_field "MessageID" (fun '(Build_QueueMessage _ b c d e) x => Build_QueueMessage x b c d e);
  ("Job", fun '(Build_QueueMessage a b c d e) v =>
     j ← unmarshal false job_fields b v; Some (Build_QueueMessage a j c d e));
  str_field "IdempotencyKey" (fun '(Build_QueueMessage a b _ d e) x => Build_QueueMessage a b x d e);
  int_field "Attempt" (fun '(Build_QueueMessage a b c _ e) x => Build_QueueMessage a b c x e);
  time_field "EnqueuedAt" msg_EnqueuedAt (fun '(Build_QueueMessage a b c d _) x => Build_QueueMessage a b c d x)].

(** [json.Unmarshal(body, &decoded)] *)
Definition decode_message (body : string) : option QueueMessage :=
  v ← json_parse body; unmarshal false message_fields no_message v.

(** ** The client and the adapter *)

Record SQSSendInput := {
  si_QueueURL : string; si_Body : string; si_MessageGroupID : string; si_MessageDeduplicationID : string }.
Record SQSReceiveInput := { ri_QueueURL : string; ri_MaxNumberOfMessages : Z; ri_WaitTimeSeconds : Z }.
Record SQSMessage := { sm_MessageID : string; sm_Body : string; sm_ReceiptHandle : string }.

Record SQSClient (W : Type) := {
  SendMessage : context -> SQSSendInput -> M W (result string);
  ReceiveMessages : context -> SQSReceiveInput -> M W (result (list SQSMessage));
  DeleteMessage : context -> string -> string -> M W (option error) }.
Arguments SendMessage {W}.
Arguments ReceiveMessages {W}.
Arguments DeleteMessage {W}.

Definition dedupID (m : QueueMessage) : string :=
  if String.eqb (msg_IdempotencyKey m) "" then msg_MessageID m else msg_IdempotencyKey m.

(** The defaults of [Dequeue] for a message that was decoded. *)
Definition fill_message (now : Time) (rawID : string) (m : QueueMessage) : QueueMessage :=
  let at_ := if IsZero (msg_EnqueuedAt m) then now else msg_EnqueuedAt m in
  let id := if String.eqb (msg_MessageID m) "" then rawID else msg_MessageID m in
  {| msg_MessageID := id; msg_Job := msg_Job m; msg_IdempotencyKey := msg_IdempotencyKey m;
     msg_Attempt := msg_Attempt m; msg_EnqueuedAt := at_ |}.

Section Adapter.
Context {W : Type}.
Variables (client : SQSClient W) (cfg : QueueProviderConfig) (now : M W Time).
(** The errors of [encoding/json], by what could not be encoded or decoded. *)
Variables (marshal_error : QueueMessage -> error) (unmarshal_error : string -> error).

Definition send (ctx : context) (url : string) (payload : option json) (m : QueueMessage)
    : M W (option error) :=
  match payload with
  | None => mret (Some (marshal_error m))
  | Some v =>
      r ← SendMessage client ctx {| si_QueueURL := url; si_Body := json_encode v;
            si_MessageGroupID := MessageGroupID cfg; si_MessageDeduplicationID := dedupID m |};
      mret match r with Ok _ => None | Err err => Some err end
  end.

Definition sqs_Enqueue (ctx : context) (message : QueueMessage) : M W (option error) :=
  match QueueMessage_Validate message with
  | Some err => mret (Some (WrapValidationErr "queue_message" err))
  | None => send ctx (QueueURL cfg) (message_json message) message
  end.

Definition sqs_Dequeue (ctx : context) : M W (result QueueMessage) :=
  r ← ReceiveMessages client ctx
        {| ri_QueueURL := QueueURL cfg; ri_MaxNumberOfMessages := 1; ri_WaitTimeSeconds := 5 |};
  match r with
  | Err err => mret (Err err)
  | Ok [] => mret (Err ErrQueueEmpty)
  | Ok (raw :: _) =>
      match decode_message (sm_Body raw) with
      | None => mret (Err (Errorf_w ("decode sqs message " +:+ sm_MessageID raw +:+ ": ")
                             (unmarshal_error (sm_Body raw)) ""))
      | Some decoded =>
          t ← (if IsZero (msg_EnqueuedAt decoded) then now else mret 0);
          let decoded := fill_message t (sm_MessageID raw) decoded in
          e ← DeleteMessage client ctx (QueueURL cfg) (sm_ReceiptHandle raw);
          mret match e with Some err => Err err | None => Ok decoded end
      end
  end.

Definition sqs_Publish (ctx : context) (message : QueueMessage) (reason : string) : M W (option error) :=
  match QueueMessage_Validate message with
  | Some err => mret (Some (WrapValidationErr "queue_message" err))
  | None => send ctx (DLQURL cfg) (wrapped_json message reason) message
  end.

Definition sqs_producer : IngestionQueueProducer W := {| Enqueue := sqs_Enqueue |}.
Definition sqs_consumer : IngestionQueueConsumer W := {| Dequeue := sqs_Dequeue |}.
Definition sqs_dlq : DeadLetterQueue W := {| Publish := sqs_Publish |}.
End Adapter.

(** * Facts *)

(** ** The codec *)

(** A message that JSON carries unchanged: text in UTF-8, the attempt an [int],
    times in the years 1 to 9999. *)
Definition time_portable (t : Time) : Prop := 0 <= t /\ Year (Date t) <= 9999.
Definition portable (m : QueueMessage) : Prop :=
  Forall (fun s => valid_utf8 s = true)
    [msg_MessageID m; msg_IdempotencyKey m; job_JobID (msg_Job m); job_TenantID (msg_Job m);
     job_SourceURI (msg_Job m); job_Checksum (msg_Job m); job_PolicyDecision (msg_Job m)]
  /\ int64_range (msg_Attempt m) /\ time_portable (msg_EnqueuedAt m) /\ time_portable (job_CreatedAt (msg_Job m)).

Lemma time_json_portable t : time_portable t ->
  time_json t = Some (JStr (Format_RFC3339Nano t)) /\ json_text (Format_RFC3339Nano t) = Format_RFC3339Nano t.
Proof.
  intros [H1 H2]. destruct (Date_ranges t H1) as [Hy _]. unfold time_json.
  rewrite (proj2 (Z.leb_le _ _)), (proj2 (Z.leb_le _ _)) by lia. split; [done|].
  by apply json_text_valid, ascii_only_valid, ascii_only_format.
Qed.

Lemma message_roundtrip m : portable m ->
  exists v, message_json m = Some v /\ decode_message (json_encode v) = Some m.
Proof.
  destruct m as [mid [jid ten uri ck dec cr] key att enq]. intros (Hs & Ha & He & Hc). cbn in Hs, Ha, He, Hc.
  rewrite !Forall_cons in Hs. destruct Hs as (H1 & H2 & H3 & H4 & H5 & H6 & H7 & _).
  destruct (time_json_portable _ He) as [Je Te]. destruct (time_json_portable _ Hc) as [Jc Tc].
  eexists. split.
  { unfold message_json, job_json. cbn. rewrite Je, Jc. reflexivity. }
  unfold decode_message. rewrite json_roundtrip; [|repeat split; apply Itoa_literal|by vm_compute].
  cbn [mbind option_bind json_norm map fst snd]. rewrite Te, Tc, !json_text_valid by done.
  repeat match goal with |- context [json_text ?s] => let r := eval vm_compute in (json_text s) in change (json_text s) with r end.
  pose proof (parse_format enq (proj1 He) (proj2 He)) as Pe. pose proof (parse_format cr (proj1 Hc) (proj2 Hc)) as Pc.
  cbn -[parse_RFC3339 ParseInt64 Itoa Format_RFC3339Nano]. rewrite Pc, (ParseInt64_Itoa _ Ha).
  cbn -[parse_RFC3339 Format_RFC3339Nano]. by rewrite Pe.
Qed.

(** ** A FIFO queue

    What is relied on of SQS FIFO queues.  [queue w url] holds the messages not
    yet deleted, oldest first, with their identifiers; [remembered w url] the
    deduplication identifiers of the last five minutes; [handles w url] the
    message a receipt handle stands for.  A call that fails may have had its
    effect.  A receive for at most one message returns nothing or the oldest. *)
Class FifoSQS {W} (client : SQSClient W) (now : M W Time) (queue : W -> string -> list (string * string))
    (remembered : W -> string -> gset string) (handles : W -> string -> string -> option string) : Prop := {
  fs_ids w url : NoDup (queue w url).*1;
  fs_send ctx i w : let '(r, w') := SendMessage client ctx i w in
    let url := si_QueueURL i in
    (forall u, u <> url -> queue w' u = queue w u)
    /\ (is_Ok r = true -> si_MessageDeduplicationID i ∈ remembered w' url)
    /\ (if bool_decide (si_MessageDeduplicationID i ∈ remembered w url)
        then queue w' url = queue w url
        else (queue w' url = queue w url /\ is_Ok r = false)
             \/ exists id, queue w' url = queue w url ++ [(id, si_Body i)]);
  fs_receive ctx i w : ri_MaxNumberOfMessages i = 1 ->
    let '(r, w') := ReceiveMessages client ctx i w in
    let url := ri_QueueURL i in
    (forall u, queue w' u = queue w u)
    /\ (forall ms, r = Ok ms -> ms = [] \/ exists raw, ms = [raw]
         /\ head (queue w url) = Some (sm_MessageID raw, sm_Body raw)
         /\ handles w' url (sm_ReceiptHandle raw) = Some (sm_MessageID raw));
  fs_delete ctx url h id w : handles w url h = Some id ->
    let '(r, w') := DeleteMessage client ctx url h w in
    (forall u, u <> url -> queue w' u = queue w u)
    /\ (queue w' url = filter (fun kv => kv.1 <> id) (queue w url) \/ (queue w' url = queue w url /\ r <> None));
  fs_now w : queue (now w).2 = queue w /\ handles (now w).2 = handles w }.

Lemma delete_head (q : list (string * string)) id body :
  NoDup q.*1 -> head q = Some (id, body) -> q = (id, body) :: filter (fun kv => kv.1 <> id) q.
Proof.
  destruct q as [|kv q]; [done|]. rewrite fmap_cons. intros [Hn Hd]%NoDup_cons [= ->]. cbn [fst] in Hn. rewrite filter_cons.
  rewrite decide_False by (cbn [fst]; tauto). f_equal. clear Hd. induction q as [|[k v] q IH]; [done|].
  rewrite fmap_cons in Hn. apply not_elem_of_cons in Hn as [H1 H2]. rewrite filter_cons, decide_True by done.
  f_equal. by apply IH.
Qed.

Section Fifo.
Context {W : Type} (client : SQSClient W) (cfg : QueueProviderConfig) (now : M W Time)
  (marshal_error : QueueMessage -> error) (unmarshal_error : string -> error)
  (queue : W -> string -> list (string * string)) (remembered : W -> string -> gset string)
  (handles : W -> string -> string -> option string) `{L : !FifoSQS client now queue remembered handles}.

Notation enqueue := (sqs_Enqueue client cfg marshal_error).
Notation dequeue := (sqs_Dequeue client cfg now unmarshal_error).

(** The messages in the queue; [None] is a body that does not decode. *)
Definition pending (w : W) : list (option QueueMessage) :=
  (fun kv => decode_message kv.2) <$> queue w (QueueURL cfg).

(** The message that [Dequeue] makes of a decoded one. *)
Definition delivered (m m0 : QueueMessage) : Prop :=
  (exists t id, m = fill_message t id m0) /\ (QueueMessage_Validate m0 = None -> m = m0).

Lemma fill_delivered t id m0 : delivered (fill_message t id m0) m0.
Proof.
  split; [by exists t, id|]. intros (H1 & _ & _ & H2)%QueueMessage_Validate_None. destruct m0 as [a b c d e].
  unfold fill_message, IsZero. cbn in *. destruct (Z.eqb_spec e 0); [done|]. by destruct (String.eqb_spec a "").
Qed.

(** A client call fails, or there is nothing to receive. *)
Definition client_trouble (ctx : context) (w : W) : Prop :=
  match ReceiveMessages client ctx {| ri_QueueURL := QueueURL cfg; ri_MaxNumberOfMessages := 1;
          ri_WaitTimeSeconds := 5 |} w with
  | (Ok (raw :: _), _) => exists w2, (DeleteMessage client ctx (QueueURL cfg) (sm_ReceiptHandle raw) w2).1 <> None
  | _ => True
  end.

(** What a call of [Enqueue] or [Dequeue] may do to the queue. *)
Definition enqueues (m : QueueMessage) (w : W) (e : option error) (w' : W) : Prop :=
  (pending w' = pending w \/ pending w' = pending w ++ [Some m])
  /\ (e = None -> pending w' = pending w
        ++ if bool_decide (dedupID m ∈ remembered w (QueueURL cfg)) then [] else [Some m]).
Definition dequeues (ctx : context) (w : W) (r : result QueueMessage) (w' : W) : Prop :=
  match r with
  | Ok m => exists m0, pending w = Some m0 :: pending w' /\ delivered m m0
  | Err _ =>
      (pending w' = pending w \/ exists x, pending w = x :: pending w')
      /\ (head (pending w) = Some None \/ client_trouble ctx w)
  end.

Lemma enqueue_pending ctx m w : portable m -> let '(e, w') := enqueue ctx m w in enqueues m w e w'.
Proof.
  intros Hp. unfold enqueues. destruct (message_roundtrip m Hp) as (v & Hv & Hd). unfold sqs_Enqueue. rewrite Hv.
  destruct (QueueMessage_Validate m); [split; [by left|done]|]. unfold send. run_M.
  match goal with |- context [SendMessage client ctx ?i w] => pose proof (fs_send ctx i w) as Hs;
    destruct (SendMessage client ctx i w) as [r w'] end.
  cbn [si_QueueURL si_Body si_MessageDeduplicationID] in Hs. destruct Hs as (_ & _ & Hs). unfold pending.
  destruct (bool_decide _).
  - rewrite Hs, app_nil_r. split; [by left|done].
  - destruct Hs as [[-> Hr]|[id ->]]; [split; [by left|by destruct r]|].
    rewrite fmap_app. cbn [fmap list_fmap snd]. rewrite Hd. split; [by right|done].
Qed.

Lemma dequeue_pending ctx w : let '(r, w') := dequeue ctx w in dequeues ctx w r w'.
Proof.
  unfold dequeues, sqs_Dequeue, client_trouble. run_M.
  set (i := {| ri_QueueURL := _ |}). pose proof (fs_receive ctx i w eq_refl) as Hr.
  destruct (ReceiveMessages client ctx i w) as [r w1]. cbn [ri_QueueURL i] in Hr. destruct Hr as [Hq Hr].
  assert (P1 : pending w1 = pending w) by (unfold pending; by rewrite Hq).
  destruct r as [[|raw ms]|err]; [split; [by left|by right]| |split; [by left|by right]].
  destruct (Hr _ eq_refl) as [?|(raw' & [= -> ->] & Hh & Hx)]; [done|].
  assert (Hhd : head (pending w) = Some (decode_message (sm_Body raw'))).
  { unfold pending. by destruct (queue w (QueueURL cfg)); [|injection Hh as ->]. }
  destruct (decode_message (sm_Body raw')) as [m0|] eqn:Hd; [|split; [by left|by left]].
  assert (Ht : exists t w2, (if IsZero (msg_EnqueuedAt m0) then now else fun s => (0, s)) w1 = (t, w2)
    /\ queue w2 = queue w1 /\ handles w2 = handles w1).
  { destruct (IsZero _); [|by exists 0, w1]. pose proof (fs_now w1). by destruct (now w1) as [t w2]; exists t, w2. }
  destruct Ht as (t & w2 & -> & Hq2 & Hh2). cbn beta iota zeta.
  rewrite <- Hh2 in Hx. pose proof (fs_delete ctx _ _ _ w2 Hx) as Hdel.
  destruct (DeleteMessage client ctx _ _ w2) as [e w3] eqn:Ee. destruct Hdel as [_ Hdel].
  rewrite <- Hq, <- Hq2 in Hh.
  assert (P2 : pending w2 = pending w) by (unfold pending in *; by rewrite Hq2).
  assert (P3 : pending w3 = pending w /\ e <> None \/ pending w = Some m0 :: pending w3).
  { destruct Hdel as [Hdel|[Hdel He]]; [right|left; unfold pending in *; by rewrite Hdel].
    rewrite <- P2. unfold pending. rewrite (delete_head _ _ _ (fs_ids w2 _) Hh), fmap_cons, Hdel. cbn [snd].
    by rewrite Hd. }
  destruct e as [err|].
  - split; [destruct P3 as [[? _]|?]; eauto|]. right. exists w2. by rewrite Ee.
  - destruct P3 as [[_ ?]|P3]; [done|]. exists m0. split; [done|apply fill_delivered].
Qed.

(** * Theorems *)

(** C21: over a FIFO queue the adapter is a queue of messages.  [Enqueue] without
    an error appends its message at the end, exactly as given, unless the queue
    remembers its deduplication identifier, and even with an error it adds at
    most that message; [Dequeue] removes the oldest message and returns it, and
    it fails only when the client fails, when nothing is received or when the
    oldest body does not decode. *)
Theorem sqs_refines_fifo :
  (forall ctx m w, portable m -> let '(e, w') := enqueue ctx m w in enqueues m w e w')
  /\ (forall ctx w, let '(r, w') := dequeue ctx w in dequeues ctx w r w').
Proof. split; [apply enqueue_pending|apply dequeue_pending]. Qed.

(** a retry within the deduplication interval loses the message.  A worker
    that enqueues with the SQS adapter and retries a message whose identifier
    the queue still remembers from the first attempt changes no queue at all:
    the message is neither queued again nor dead-lettered. *)
Theorem sqs_retry_lost (wk : DeterministicAsyncWorker W) ctx m reason cause w :
  producer wk = Some (sqs_producer client cfg marshal_error) -> clock wk = now ->
  wrap64 (msg_Attempt m + 1) <= maxRetries wk ->
  dedupID m ∈ remembered (now w).2 (QueueURL cfg) ->
  let '(r, w') := retryOrDLQ wk ctx m reason cause w in
  r <> None /\ forall url, queue w' url = queue w url.
Proof.
  intros Hp Hc Ha Hm. unfold retryOrDLQ. cbn zeta. rewrite (proj2 (Z.leb_le _ _) Ha), Hp, Hc. run_M.
  pose proof (fs_now w) as [Hq _]. destruct (now w) as [t w1]. cbn [snd] in *. rewrite <- Hq.
  set (m' := with_attempt m _ _). assert (E : dedupID m' = dedupID m) by done.
  cbn [Enqueue sqs_producer]. unfold sqs_Enqueue.
  destruct (QueueMessage_Validate m'); [done|]. unfold send. destruct (message_json m') as [v|]; [|done]. run_M.
  match goal with |- context [SendMessage client ctx ?i w1] => pose proof (fs_send ctx i w1) as Hs;
    destruct (SendMessage client ctx i w1) as [r w2] end.
  cbn [si_QueueURL si_Body si_MessageDeduplicationID] in Hs. rewrite E, bool_decide_true in Hs by done.
  destruct Hs as (Ho & _ & Hs). destruct r; cbn; (split; [done|]); intros url;
    (destruct (decide (url = QueueURL cfg)) as [->|]; auto).
Qed.
End Fifo.

(** ** A client in memory

    Queues of bodies, numbered in the order of arrival; the receipt handle of the
    oldest message is its number.  The clock stands still. *)

Record sqs_world := { sq_queue : gmap string (Z * list string); sq_seen : gmap string (gset string) }.
Definition no_queue : Z * list string := (0, []).
Definition sq_get (w : sqs_world) (url : string) : Z * list string := default no_queue (sq_queue w !! url).
Definition sq_put (w : sqs_world) (url : string) (q : Z * list string) : sqs_world :=
  {| sq_queue := <[url := q]> (sq_queue w); sq_seen := sq_seen w |}.
Fixpoint number (n : Z) (l : list string) : list (string * string) :=
  match l with [] => [] | b :: l' => (Itoa n, b) :: number (n + 1) l' end.
Definition sq_messages (w : sqs_world) (url : string) : list (string * string) :=
  number (sq_get w url).1 (sq_get w url).2.
Definition sq_remembered (w : sqs_world) (url : string) : gset string := default ∅ (sq_seen w !! url).
Definition sq_handles (w : sqs_world) (url h : string) : option string :=
  if String.eqb h (Itoa (sq_get w url).1) && negb (Nat.eqb (length (sq_get w url).2) 0) then Some h else None.

Definition sample_client : SQSClient sqs_world := {|
  SendMessage ctx i w :=
    let url := si_QueueURL i in
    let '(n, l) := sq_get w url in
    let id := Itoa (n + Z.of_nat (length l)) in
    if bool_decide (si_MessageDeduplicationID i ∈ sq_remembered w url) then (Ok id, w)
    else (Ok id, {| sq_queue := <[url := (n, l ++ [si_Body i])]> (sq_queue w);
                    sq_seen := <[url := {[si_MessageDeduplicationID i]} ∪ sq_remembered w url]> (sq_seen w) |});
  ReceiveMessages ctx i w :=
    (Ok (match sq_get w (ri_QueueURL i) with
         | (n, b :: _) => [{| sm_MessageID := Itoa n; sm_Body := b; sm_ReceiptHandle := Itoa n |}]
         | (_, []) => []
         end), w);
  DeleteMessage ctx url h w :=
    match sq_get w url with
    | (n, _ :: l) => if String.eqb h (Itoa n) then (None, sq_put w url (n + 1, l))
                     else (Some (errors_New "unknown receipt handle"), w)
    | (_, []) => (Some (errors_New "unknown receipt handle"), w)
    end |}.
Definition sample_sqs_now : M sqs_world Time := fun w => (unix_time 1700000000 0, w).

Lemma number_ids n l id : id ∈ (number n l).*1 -> exists k, n <= k /\ id = Itoa k.
Proof.
  revert n. induction l as [|b l IH]; intros n; cbn [number]; [by intros ?%elem_of_nil|].
  rewrite fmap_cons. intros [->|H]%elem_of_cons; [exists n; split; [lia|done]|].
  apply IH in H as (k & Hk & ->). exists k. split; [lia|done].
Qed.
Lemma number_fresh n l : Itoa n ∉ (number (n + 1) l).*1.
Proof. intros (k & Hk & E)%number_ids. apply (inj (pretty : Z -> string)) in E. lia. Qed.
Lemma number_nodup n l : NoDup (number n l).*1.
Proof.
  revert n. induction l as [|b l IH]; intros n; cbn [number]; [constructor|]. rewrite fmap_cons.
  apply NoDup_cons. split; [apply number_fresh|apply IH].
Qed.
Lemma number_app n l b : number n (l ++ [b]) = number n l ++ [(Itoa (n + Z.of_nat (length l)), b)].
Proof.
  revert n. induction l as [|c l IH]; intros n; cbn [number app length]; [by rewrite Z.add_0_r|].
  rewrite IH, Nat2Z.inj_succ. by replace (n + 1 + Z.of_nat (length l)) with (n + Z.succ (Z.of_nat (length l))) by lia.
Qed.
Lemma sq_get_insert q w seen url u :
  sq_get {| sq_queue := <[url := q]> (sq_queue w); sq_seen := seen |} u = if decide (u = url) then q else sq_get w u.
Proof.
  unfold sq_get. cbn [sq_queue]. case_decide; [subst; by rewrite lookup_insert_eq|by rewrite lookup_insert_ne].
Qed.

#[global] Instance sample_client_laws : FifoSQS sample_client sample_sqs_now sq_messages sq_remembered sq_handles.
Proof.
  split.
  - intros w url. apply number_nodup.
  - intros ctx i w. cbn. destruct (sq_get w (si_QueueURL i)) as [n l] eqn:Eg.
    destruct (bool_decide _) eqn:Ed; [split_and!; [done| |done]; intros _; by apply bool_decide_eq_true in Ed|].
    split_and!.
    + intros u Hu. unfold sq_messages. by rewrite sq_get_insert, decide_False.
    + intros _. unfold sq_remembered at 1. cbn [sq_seen]. rewrite lookup_insert_eq. cbn [from_option id]. apply elem_of_union_l. by apply elem_of_singleton.
    + right. eexists. unfold sq_messages. rewrite sq_get_insert, decide_True, Eg by done. apply number_app.
  - intros ctx [url mx wt] w _. cbn. split; [done|]. intros ms [= <-].
    unfold sq_messages, sq_handles. destruct (sq_get w url) as [n [|b l]]; [by left|right].
    eexists. split; [done|]. cbn. by rewrite String.eqb_refl.
  - intros ctx url h id w. unfold sq_handles, sq_messages. cbn.
    destruct (sq_get w url) as [n [|b l]] eqn:Eg; cbn; [by rewrite andb_false_r|]. rewrite andb_true_r.
    destruct (String.eqb_spec h (Itoa n)) as [->|]; [|done]. intros [= <-]. split.
    + intros u Hu. unfold sq_put. by rewrite sq_get_insert, decide_False.
    + left. unfold sq_put. rewrite sq_get_insert, decide_True by done. cbn.
      pose proof (delete_head (number n (b :: l)) (Itoa n) b (number_nodup _ _) eq_refl) as H.
      by injection H.
  - done.
Qed.

Definition sample_cfg : QueueProviderConfig := {|
  Provider := "sqs"; AWSRegion := "eu-west-1"; QueueURL := "jobs.fifo"; DLQURL := "dead.fifo";
  MessageGroupID := "ingestion-jobs"; LocalFallbackMode := false |}.
Definition sample_job : IngestionJob := {|
  job_JobID := "job-1"; job_TenantID := "acme"; job_SourceURI := "s3://b/k"; job_Checksum := "c";
  job_PolicyDecision := IngestionStatusApproved; job_CreatedAt := unix_time 1700000000 5 |}.
Definition sample_message : QueueMessage := {|
  msg_MessageID := "m1"; msg_Job := sample_job; msg_IdempotencyKey := "k1"; msg_Attempt := 0;
  msg_EnqueuedAt := unix_time 1700000001 0 |}.
Definition sample_error (_ : QueueMessage) : error := errors_New "json: unsupported value".
Definition sample_decode_error (_ : string) : error := errors_New "invalid character".
Definition sample_sqs : sqs_world := {| sq_queue := ∅; sq_seen := ∅ |}.

(** A worker on this client whose blob store is down. *)
Definition sample_worker : DeterministicAsyncWorker sqs_world := {|
  producer := Some (sqs_producer sample_client sample_cfg sample_error);
  consumer := Some (sqs_consumer sample_client sample_cfg sample_sqs_now sample_decode_error);
  Ingestion.dlq := Some (sqs_dlq sample_client sample_cfg sample_error);
  blobStore := Some {| Get _ _ _ := mret (Err (errors_New "blob store down")) |};
  embedder := None; index := None; idem := None; retention := None; clock := sample_sqs_now;
  maxRetries := 3; chunkSize := 200; idempotencyTTL := Hour |}.

Lemma sqs_refines_fifo_witness :
  let '(e, w) := sqs_Enqueue sample_client sample_cfg sample_error None sample_message sample_sqs in
  e = None /\ enqueues sample_cfg sq_messages sq_remembered sample_message sample_sqs e w
  /\ (sqs_Dequeue sample_client sample_cfg sample_sqs_now sample_decode_error None w).1 = Ok sample_message.
Proof.
  pose proof (proj1 (sqs_refines_fifo sample_client sample_cfg sample_sqs_now sample_error sample_decode_error
    sq_messages sq_remembered sq_handles) None sample_message sample_sqs) as H.
  destruct (sqs_Enqueue _ _ _ _ _ _) as [e w] eqn:E in H |- *. vm_compute in E. injection E as <- <-.
  split; [done|]. split; [apply H|by vm_compute].
  split; [repeat constructor|]. split; [done|]. unfold time_portable. split; (split; [done|by vm_compute]).
Defined.

(** One failed read of the blob store loses the message: it was queued, it is
    taken from the queue, the retry is dropped. *)
Lemma sqs_retry_lost_witness :
  let w := (sqs_Enqueue sample_client sample_cfg sample_error None sample_message sample_sqs).2 in
  let w1 := (sqs_Dequeue sample_client sample_cfg sample_sqs_now sample_decode_error None w).2 in
  let '(r, w') := retryOrDLQ sample_worker None sample_message "source_fetch_failed" (errors_New "down") w1 in
  (r <> None /\ forall url, sq_messages w' url = sq_messages w1 url)
  /\ length (sq_messages w "jobs.fifo") = 1%nat /\ sq_messages w' "jobs.fifo" = [] /\ sq_messages w' "dead.fifo" = []
  /\ (let '(e, w2) := ProcessNext sample_worker None w in
      e <> None /\ sq_messages w2 "jobs.fifo" = [] /\ sq_messages w2 "dead.fifo" = []).
Proof.
  cbn zeta.
  pose proof (sqs_retry_lost sample_client sample_cfg sample_sqs_now sample_error sq_messages
    sq_remembered sq_handles sample_worker None sample_message "source_fetch_failed" (errors_New "down")
    (sqs_Dequeue sample_client sample_cfg sample_sqs_now sample_decode_error None
      (sqs_Enqueue sample_client sample_cfg sample_error None sample_message sample_sqs).2).2
    eq_refl eq_refl) as H.
  destruct (retryOrDLQ _ _ _ _ _ _) as [r w'] eqn:E in H |- *. split.
  { apply H; [done|]. vm_compute. reflexivity. }
  vm_compute in E. injection E as <- <-. split_and!; [by vm_compute..|].
  destruct (ProcessNext _ _ _) as [e w2] eqn:E2. vm_compute in E2. injection E2 as <- <-. by split_and!.
Defined.

(** A dead letter put back on the queue is received as a message without a job. *)
Example dead_letter_redriven :
  match wrapped_json sample_message "chunking_failed" with
  | Some v => option_map QueueMessage_Validate (decode_message (json_encode v))
  | None => None
  end = Some (Some (errors_New "message_id is required")).
Proof. vm_compute. reflexivity. Qed.
