(* ===== verification/VectorStub.v ===== *)
(** * VectorStub: internal/adapters/vector

    The in-memory vector store (stub/adapter.go): a list of records per
    tenant with search by text and by embedding, and the classification of
    provider errors (errors.go).  The store is shown to implement an abstract
    list of records, and its searches to be exact top-k selections of the
    records of one tenant. *)

From S2P Require Import Prelude GoStrings GoSort Contracts.

#[local] Open Scope Z_scope.

(** ** Provider errors (errors.go) *)

Section Errors.
Context `{U : UnicodeTables}.

Definition DeadlineExceeded := "context.DeadlineExceeded".

(** On a non-nil error; nil is mapped to nil. *)
Definition NormalizeProviderError (provider op : string) (err : error) : error :=
  let msg := ToLower (Error err) in
  let category :=
    if errors_Is err DeadlineExceeded || Contains msg "timeout" then ProviderErrTimeout
    else if Contains msg "unauthorized" || Contains msg "forbidden" || Contains msg "auth"
    then ProviderErrUnauthorized
    else if Contains msg "invalid" || Contains msg "malformed" || Contains msg "required"
    then ProviderErrValidation
    else if Contains msg "unavailable" || Contains msg "connection refused" || Contains msg "temporarily"
    then ProviderErrUnavailable
    else ProviderErrInternal in
  ProviderError category provider op (Some err).
End Errors.

(** ** The store *)

Record Adapter := { store : gmap TenantID (list VectorRecord); lastTrace : VectorCallTrace }.

Definition zeroTrace : VectorCallTrace := {| vt_Provider := ""; vt_Status := ""; vt_LatencyMillis := 0 |}.
Definition NewAdapter : Adapter := {| store := ∅; lastTrace := zeroTrace |}.

(** [elapsed] is the time since the start of the call, in nanoseconds. *)
Definition markTrace (status : string) (elapsed : Z) (a : Adapter) : Adapter :=
  {| store := store a;
     lastTrace := {| vt_Provider := "stub"; vt_Status := status;
                     vt_LatencyMillis := Milliseconds elapsed |} |}.

Definition LastVectorTrace (a : Adapter) : VectorCallTrace := lastTrace a.

(** The records of a tenant; a missing key reads as the empty slice. *)
Definition records_of (a : Adapter) (t : TenantID) : list VectorRecord := default [] (store a !! t).

Fixpoint upsert_loop (records : list VectorRecord) (a : Adapter) : option error * Adapter :=
  match records with
  | [] => (None, a)
  | record :: records' =>
      match VectorRecord_Validate record with
      | Some err => (Some err, a)
      | None =>
          upsert_loop records'
            {| store := <[vr_TenantID record := records_of a (vr_TenantID record) ++ [record]]> (store a);
               lastTrace := lastTrace a |}
      end
  end.

Definition Upsert (elapsed : Z) (records : list VectorRecord) : M Adapter (option error) := fun a =>
  let a := markTrace "ok" elapsed a in
  if (length records =? 0)%nat then (Some (errors_New "at least one record is required"), a)
  else upsert_loop records a.

Definition PurgeTenant (tenantID : TenantID) : M Adapter (option error) := fun a =>
  match TenantID_Validate tenantID with
  | Some err => (Some err, a)
  | None => (None, {| store := delete tenantID (store a); lastTrace := lastTrace a |})
  end.

(** The document of a record, with a score. *)
Definition to_document (score : float64) (record : VectorRecord) : RetrievalDocument := {|
  doc_DocumentID := vr_RecordID record; doc_TenantID := vr_TenantID record;
  doc_Content := vr_ChunkText record; doc_Score := score; doc_SourceURI := vr_SourceURI record;
  doc_Metadata := ∅ |}.

(** [sort.SliceStable] by descending score, cut at [topK]. *)
Definition top_documents (topK : Z) (docs : list RetrievalDocument) : list RetrievalDocument :=
  let docs := SliceStable (by_score doc_Score) docs in
  if topK <? Z.of_nat (length docs) then take (Z.to_nat topK) docs else docs.

(** The doubles 0.1 and 1. *)
Definition point_one : float64 := SpecFloat.S754_finite false 7205759403792794 (-56).
Definition one : float64 := float_of_int 1.

Section Search.
Context `{U : UnicodeTables}.

Definition text_score (queryText : string) (record : VectorRecord) : float64 :=
  if Contains (ToLower (vr_ChunkText record)) (ToLower (TrimSpace queryText)) then one else point_one.

Definition Search (elapsed : Z) (tenantID : TenantID) (queryText : string) (topK : Z)
    : M Adapter (result (list RetrievalDocument)) := fun a =>
  let a := markTrace "ok" elapsed a in
  (check TenantID_Validate tenantID ;;
   check require (negb (String.eqb (TrimSpace queryText) "")) "query text is required" ;;
   check require (negb (topK <=? 0)) "top_k must be > 0" ;;
   let records := records_of a tenantID in
   Ok (top_documents topK ((fun r => to_document (text_score queryText r) r) <$> records)), a).
End Search.

(** The loop of [cosineSimilarity] over the common prefix. *)
Fixpoint cosine_loop (left right : list float32) (dot leftNorm rightNorm : float64)
    : float64 * float64 * float64 :=
  match left, right with
  | l :: left', r :: right' =>
      let l := float64_of_float32 l in
      let r := float64_of_float32 r in
      cosine_loop left' right' (fadd dot (fmul l r)) (fadd leftNorm (fmul l l)) (fadd rightNorm (fmul r r))
  | _, _ => (dot, leftNorm, rightNorm)
  end.

Definition cosineSimilarity (left right : list float32) : float64 :=
  let zero := float_of_int 0 in
  if (length left =? 0)%nat || (length right =? 0)%nat then zero
  else
    let '(dot, leftNorm, rightNorm) := cosine_loop left right zero zero zero in
    if feq leftNorm zero || feq rightNorm zero then zero
    else fdiv dot (fmul (fsqrt leftNorm) (fsqrt rightNorm)).

Definition SearchByEmbedding (elapsed : Z) (tenantID : TenantID) (queryEmbedding : list float32)
    (topK : Z) : M Adapter (result (list RetrievalDocument)) := fun a =>
  let a := markTrace "ok" elapsed a in
  (check TenantID_Validate tenantID ;;
   check require (negb (length queryEmbedding =? 0)%nat) "query embedding is required" ;;
   check require (negb (topK <=? 0)) "top_k must be > 0" ;;
   let records := records_of a tenantID in
   Ok (top_documents topK
         ((fun r => to_document (cosineSimilarity queryEmbedding (vr_Embedding r)) r) <$> records)), a).

(** * Facts *)

Example cosine_same : cosineSimilarity [float_of_int 3; float_of_int 4] [float_of_int 3; float_of_int 4] = one.
Proof. vm_compute. reflexivity. Qed.
Example cosine_orthogonal :
  cosineSimilarity [float_of_int 3; float_of_int 0] [float_of_int 0; float_of_int 4] = float_of_int 0.
Proof. vm_compute. reflexivity. Qed.

(** ** Top-k *)

(** The [k] best of [docs]: as many as there are, best first, and nothing left
    out scores higher than something kept. *)
Definition top_k (topK : Z) (docs out : list RetrievalDocument) : Prop :=
  exists dropped, docs ≡ₚ out ++ dropped
    /\ Z.of_nat (length out) = Z.min topK (Z.of_nat (length docs))
    /\ StronglySorted (fun a b => fgt (doc_Score b) (doc_Score a) = false) out
    /\ forall a b, a ∈ out -> b ∈ dropped -> fgt (doc_Score b) (doc_Score a) = false.

Lemma top_documents_top_k topK docs :
  0 < topK -> Forall (fun d => not_nan (doc_Score d)) docs -> top_k topK docs (top_documents topK docs).
Proof.
  intros Hk Hn. unfold top_documents. cbn zeta.
  pose proof (SliceStable_sorted _ _ (by_score_weak_order doc_Score) docs Hn) as Hs.
  rewrite length_SliceStable. destruct (Z.ltb_spec topK (Z.of_nat (length docs))).
  - exists (drop (Z.to_nat topK) (SliceStable (by_score doc_Score) docs)).
    rewrite take_drop. split; [by rewrite SliceStable_perm|].
    rewrite <- (take_drop (Z.to_nat topK) (SliceStable (by_score doc_Score) docs)) in Hs.
    split; [rewrite length_take, length_SliceStable; lia|].
    split; [by apply StronglySorted_app_l in Hs|]. intros a b Ha Hb.
    by apply (StronglySorted_app_cross _ _ _ a b Hs).
  - exists []. rewrite app_nil_r, length_SliceStable.
    split; [by rewrite SliceStable_perm|]. split; [lia|]. split; [done|]. by intros a b _ ?%elem_of_nil.
Qed.

Lemma text_score_not_nan `{UnicodeTables} q r : not_nan (text_score q r).
Proof. unfold text_score. by destruct (Contains _ _). Qed.

(** ** The abstract store: one list of records *)

(** The records an [Upsert] accepts: the longest valid prefix. *)
Fixpoint valid_prefix (rs : list VectorRecord) : list VectorRecord :=
  match rs with
  | [] => []
  | r :: rs' => match VectorRecord_Validate r with None => r :: valid_prefix rs' | Some _ => [] end
  end.

Definition represents (a : Adapter) (l : list VectorRecord) : Prop :=
  forall t, records_of a t = filter (fun r => vr_TenantID r = t) l.

Lemma represents_new : represents NewAdapter [].
Proof. intros t. unfold records_of. simpl. by rewrite lookup_empty. Qed.

Lemma represents_mark a l status elapsed : represents a l -> represents (markTrace status elapsed a) l.
Proof. done. Qed.

Lemma upsert_loop_spec rs : forall a l, represents a l ->
  represents (upsert_loop rs a).2 (l ++ valid_prefix rs)
  /\ ((upsert_loop rs a).1 = None <-> valid_prefix rs = rs).
Proof.
  induction rs as [|r rs IH]; intros a l Ha; cbn [upsert_loop valid_prefix]; [by rewrite app_nil_r|].
  destruct (VectorRecord_Validate r) as [e|]; [by rewrite app_nil_r|].
  set (a' := {| store := _; lastTrace := _ |}).
  assert (Ha' : represents a' (l ++ [r])).
  { intros t. rewrite filter_app, filter_cons, filter_nil. unfold a', records_of at 1. simpl.
    case_decide as Ht.
    - subst. rewrite lookup_insert_eq. simpl. by rewrite Ha.
    - rewrite lookup_insert_ne by done. rewrite app_nil_r. apply Ha. }
  destruct (IH a' (l ++ [r]) Ha') as [H1 H2]. rewrite <- app_assoc in H1. split; [done|].
  rewrite H2. naive_solver congruence.
Qed.

(** ** Histories *)

Inductive op :=
| OpUpsert (elapsed : Z) (rs : list VectorRecord)
| OpPurge (t : TenantID)
| OpSearch (elapsed : Z) (t : TenantID) (q : string) (k : Z)
| OpSearchByEmbedding (elapsed : Z) (t : TenantID) (v : list float32) (k : Z).

Definition exec `{UnicodeTables} (o : op) (a : Adapter) : Adapter :=
  match o with
  | OpUpsert el rs => (Upsert el rs a).2
  | OpPurge t => (PurgeTenant t a).2
  | OpSearch el t q k => (Search el t q k a).2
  | OpSearchByEmbedding el t v k => (SearchByEmbedding el t v k a).2
  end.

(** The same history on the abstract list. *)
Definition spec (o : op) (l : list VectorRecord) : list VectorRecord :=
  match o with
  | OpUpsert _ rs => l ++ valid_prefix rs
  | OpPurge t => if decide (t = "") then l else filter (fun r => vr_TenantID r <> t) l
  | _ => l
  end.

Lemma exec_spec `{UnicodeTables} o a l : represents a l -> represents (exec o a) (spec o l).
Proof.
  intros Ha. destruct o as [el rs|t|el t q k|el t v k]; simpl; [| |done|done].
  - unfold Upsert. destruct rs as [|r rs]; [by rewrite app_nil_r|].
    by apply (upsert_loop_spec (r :: rs) (markTrace "ok" el a) l).
  - unfold PurgeTenant. destruct (TenantID_Validate t) eqn:E.
    + rewrite decide_True; [done|]. destruct (decide (t = "")) as [|Hn]; [done|].
      apply TenantID_Validate_None in Hn. congruence.
    + apply TenantID_Validate_None in E. rewrite decide_False by done.
      intros t'. unfold records_of at 1. simpl. rewrite list_filter_filter.
      destruct (decide (t = t')) as [<-|Hn].
      * rewrite lookup_delete_eq. simpl. symmetry.
        rewrite (filter_ext_elem _ (fun _ => False)) by tauto. apply filter_none.
      * rewrite lookup_delete_ne by done. fold (records_of a t'). rewrite Ha.
        apply list_filter_iff. naive_solver.
Qed.

Lemma reachable_represents `{UnicodeTables} ops :
  represents (fold_left (fun a o => exec o a) ops NewAdapter) (fold_left (fun l o => spec o l) ops []).
Proof.
  generalize represents_new. generalize NewAdapter (@nil VectorRecord).
  induction ops as [|o ops IH]; intros a0 l0 H0; [done|]. simpl. by apply IH, exec_spec.
Qed.

Lemma top_documents_elem k docs d : d ∈ top_documents k docs -> d ∈ docs.
Proof.
  unfold top_documents. cbn zeta. case_match; intros Hd; [apply elem_of_take in Hd as (i & Hi & _)|].
  - apply list_elem_of_lookup_2 in Hi. by rewrite SliceStable_perm in Hi.
  - by rewrite SliceStable_perm in Hd.
Qed.

(** Documents of scored records of one tenant are of that tenant. *)
Lemma top_documents_tenant k score l t :
  Forall (fun d => doc_TenantID d = t)
    (top_documents k ((fun r => to_document (score r) r) <$> filter (fun r => vr_TenantID r = t) l)).
Proof.
  apply Forall_forall. intros d (r & -> & Hin)%top_documents_elem%list_elem_of_fmap.
  by apply list_elem_of_filter in Hin as [? _].
Qed.

(** * Theorems *)

Section Theorems.
Context `{U : UnicodeTables}.

(** C38: the store implements a list of records.  After any history of calls
    the records of each tenant are exactly those of the abstract list: every
    [Upsert] appends the longest valid prefix of its records, a purge removes
    all records of its tenant and of no other, and searches change nothing.
    An [Upsert] succeeds exactly when it has records and all are valid. *)
Theorem stub_refines_list ops :
  let a := fold_left (fun a o => exec o a) ops NewAdapter in
  let l := fold_left (fun l o => spec o l) ops [] in
  represents a l
  /\ forall el rs, (Upsert el rs a).1 = None <->
       rs <> [] /\ Forall (fun r => VectorRecord_Validate r = None) rs.
Proof.
  cbn zeta. set (a := fold_left _ _ _). set (l := fold_left _ _ _).
  assert (H : represents a l) by apply reachable_represents.
  split; [done|]. intros el rs. unfold Upsert. destruct rs as [|r rs].
  { simpl. split; [done|by intros [? _]]. }
  cbn [length Nat.eqb].
  destruct (upsert_loop_spec (r :: rs) (markTrace "ok" el a) l H) as [_ ->].
  assert (Hv : forall rs, valid_prefix rs = rs <-> Forall (fun r => VectorRecord_Validate r = None) rs).
  { clear. induction rs as [|r rs IH]; [by rewrite Forall_nil|]. cbn [valid_prefix].
    rewrite Forall_cons, <- IH. destruct (VectorRecord_Validate r); (split; [|by intros [? ?]; f_equal]).
    - done.
    - intros [= ?]. auto. }
  rewrite Hv. split; [done|]. by intros [_ ?].
Qed.

(** search by text is an exact, tenant-isolated top-k.  In every reachable
    state a search returns, for its arguments valid, the [topK] best of
    exactly the records that tenant stored and did not purge, records that
    contain the query text before the others; no record of another tenant can
    be returned. *)
Theorem stub_search_exact ops el t q k docs a' :
  let a := fold_left (fun a o => exec o a) ops NewAdapter in
  let l := fold_left (fun l o => spec o l) ops [] in
  Search el t q k a = (Ok docs, a') ->
  t <> "" /\ TrimSpace q <> "" /\ 0 < k
  /\ top_k k ((fun r => to_document (text_score q r) r) <$> filter (fun r => vr_TenantID r = t) l) docs
  /\ Forall (fun d => doc_TenantID d = t) docs.
Proof.
  cbn zeta. set (a := fold_left _ _ _). set (l := fold_left _ _ _). intros H.
  assert (Hr : represents a l) by apply reachable_represents.
  unfold Search in H. destruct (TenantID_Validate t) eqn:E1; [done|].
  destruct (require _ "query text is required") eqn:E2; [done|].
  destruct (require _ "top_k must be > 0") eqn:E3; [done|].
  apply TenantID_Validate_None in E1. validate_simp_in E2. validate_simp_in E3.
  injection H as <- _. cbn zeta. replace (records_of _ t) with (records_of a t) by done. rewrite Hr.
  repeat (split; [done|]). split; [|apply top_documents_tenant].
  apply top_documents_top_k; [done|]. apply Forall_fmap, Forall_forall. intros r _. apply text_score_not_nan.
Qed.

(** search by embedding is tenant-isolated, and an exact top-k by cosine
    similarity when no similarity is NaN. *)
Theorem stub_search_by_embedding_exact ops el t v k docs a' :
  let a := fold_left (fun a o => exec o a) ops NewAdapter in
  let l := fold_left (fun l o => spec o l) ops [] in
  let mine := filter (fun r => vr_TenantID r = t) l in
  SearchByEmbedding el t v k a = (Ok docs, a') ->
  Forall (fun d => doc_TenantID d = t) docs
  /\ (Forall (fun r => not_nan (cosineSimilarity v (vr_Embedding r))) mine ->
      top_k k ((fun r => to_document (cosineSimilarity v (vr_Embedding r)) r) <$> mine) docs).
Proof.
  cbn zeta. set (a := fold_left _ _ _). set (l := fold_left _ _ _). intros H.
  assert (Hr : represents a l) by apply reachable_represents.
  unfold SearchByEmbedding in H. destruct (TenantID_Validate t) eqn:E1; [done|].
  destruct (require _ "query embedding is required") eqn:E2; [done|].
  destruct (require _ "top_k must be > 0") eqn:E3; [done|]. validate_simp_in E3.
  injection H as <- _. cbn zeta. replace (records_of _ t) with (records_of a t) by done. rewrite Hr.
  split; [apply top_documents_tenant|]. intros Hn. apply top_documents_top_k; [done|].
  by apply Forall_fmap.
Qed.

(** [Upsert] does not replace.  Storing a record again under the same
    identifier keeps both versions, and a search returns both. *)
Theorem stub_upsert_appends el r1 r2 :
  VectorRecord_Validate r1 = None -> VectorRecord_Validate r2 = None ->
  vr_TenantID r1 = vr_TenantID r2 ->
  records_of (Upsert el [r2] (Upsert el [r1] NewAdapter).2).2 (vr_TenantID r1) = [r1; r2].
Proof.
  intros H1 H2 Ht.
  pose proof (reachable_represents [OpUpsert el [r1]; OpUpsert el [r2]] (vr_TenantID r1)) as H.
  simpl in H. rewrite H1, H2 in H. simpl in H. rewrite H, !filter_cons, filter_nil.
  by rewrite !decide_True.
Qed.

(** provider errors keep their cause.  Normalisation hides nothing from
    [errors.Is], a deadline is always classified as a timeout, and the
    category is one of the five the contracts define. *)
Theorem normalize_error_correct provider op err :
  exists category, NormalizeProviderError provider op err = ProviderError category provider op (Some err)
    /\ (forall target, errors_Is (NormalizeProviderError provider op err) target = errors_Is err target)
    /\ (errors_Is err DeadlineExceeded = true -> category = ProviderErrTimeout)
    /\ category ∈ [ProviderErrTimeout; ProviderErrUnauthorized; ProviderErrValidation;
                   ProviderErrUnavailable; ProviderErrInternal].
Proof.
  unfold NormalizeProviderError. cbn zeta. eexists. split; [done|]. split; [done|]. split.
  - by intros ->.
  - repeat case_match; set_solver.
Qed.
End Theorems.

(** ** Examples *)

Definition sample_record (id tenant text : string) : VectorRecord := {|
  vr_RecordID := id; vr_TenantID := tenant; vr_JobID := "j"; vr_ChunkText := text;
  vr_Embedding := [float_of_int 1]; vr_Metadata := ∅; vr_IndexedAt := 1; vr_SourceURI := "u";
  vr_ObjectKey := "u"; vr_Checksum := "c"; vr_RetryCount := 0 |}.
Definition sample_ops : list op := [
  OpUpsert 0 [sample_record "a" "acme" "the cat"; sample_record "b" "globex" "A DOG"];
  OpUpsert 0 [sample_record "c" "acme" "a dog"]].

#[local] Existing Instance latin1.

Lemma stub_search_exact_witness :
  let a := fold_left (fun a o => exec o a) sample_ops NewAdapter in
  exists docs, (Search 0 "acme" " Dog" 5 a).1 = Ok docs /\ doc_DocumentID <$> docs = ["c"; "a"]
    /\ Forall (fun d => doc_TenantID d = "acme") docs.
Proof.
  cbn zeta. destruct (Search 0 "acme" " Dog" 5 (fold_left (fun a o => exec o a) sample_ops NewAdapter))
    as [[docs|e] a'] eqn:E; [|vm_compute in E; discriminate].
  exists docs. split; [reflexivity|]. split; [vm_compute in E; injection E as <- _; reflexivity|].
  apply (stub_search_exact sample_ops 0 "acme" " Dog" 5 docs a' E).
Defined.

Lemma stub_search_by_embedding_exact_witness :
  let a := fold_left (fun a o => exec o a) sample_ops NewAdapter in
  exists docs, (SearchByEmbedding 0 "acme" [float_of_int 2] 1 a).1 = Ok docs
    /\ Forall (fun d => doc_TenantID d = "acme") docs.
Proof.
  cbn zeta. destruct (SearchByEmbedding 0 "acme" [float_of_int 2] 1
    (fold_left (fun a o => exec o a) sample_ops NewAdapter))
    as [[docs|e] a'] eqn:E; [|vm_compute in E; discriminate].
  exists docs. split; [reflexivity|].
  apply (stub_search_by_embedding_exact sample_ops 0 "acme" [float_of_int 2] 1 docs a' E).
Defined.

Lemma stub_upsert_appends_witness :
  records_of (Upsert 0 [sample_record "a" "acme" "new"]
    (Upsert 0 [sample_record "a" "acme" "old"] NewAdapter).2).2 "acme"
  = [sample_record "a" "acme" "old"; sample_record "a" "acme" "new"].
Proof.
  apply (stub_upsert_appends 0 (sample_record "a" "acme" "old") (sample_record "a" "acme" "new")).
  - reflexivity.
  - reflexivity.
  - reflexivity.
Defined.
