(* ===== verification/Retrieval.v ===== *)
(** * Retrieval: internal/services/retrieval/service.go

    The retrieval service: query expansion, vector search, tenant filter,
    ranking by identity terms, reranking behind a timeout and a circuit
    breaker, citations and trace.  The mutable field of the service,
    [consecutiveRerankFailures], is the state [failures]; the collaborators
    are ports over the rest of the world.  Log lines are not modelled. *)

From S2P Require Import Prelude GoStrings GoSort Contracts.
From Stdlib Require Import Ascii.

#[local] Open Scope Z_scope.

(** ** Identity terms *)

Section Terms.
Context `{U : UnicodeTables}.

Definition stopWords : gset string := list_to_set [
  "resume"; "cv"; "pdf"; "skills"; "skill"; "top"; "show"; "list";
  "what"; "who"; "for"; "of"; "the"; "and"; "with"; "from";
  "candidate"; "profile"; "about"; "document"; "documents"].

(** The bytes written for one rune of the input. *)
Definition normalize_rune (r : Z) : string :=
  if unicode_IsLetter r || unicode_IsDigit r || is_space r
  then encode_rune (unicode_ToLower r) else " ".

Definition all_digits (word : string) : bool :=
  forallb (fun ch => negb ((ch <? 48) || (57 <? ch))) (runes word).

Definition tokenizeIdentityTerms (input : string) : list string :=
  if String.eqb (TrimSpace input) "" then []
  else
    let b := foldr (fun r acc => normalize_rune r +:+ acc) "" (runes input) in
    let words := Fields b in
    filter (fun word => negb (bool_decide (word ∈ stopWords))
                        && negb (all_digits word || (len word <? 3)) = true) words.

(** Keep the first occurrence of each term. *)
Fixpoint dedup (set : gset string) (terms : list string) : list string :=
  match terms with
  | [] => []
  | term :: terms' =>
      if bool_decide (term ∈ set) then dedup set terms'
      else term :: dedup ({[term]} ∪ set) terms'
  end.

Definition identityKeys : list string :=
  ["person_hint"; "file_name"; "relative_path"; "source_uri"; "object_key"].

Definition documentIdentityTerms (doc : RetrievalDocument) : list string :=
  let terms := if negb (String.eqb (doc_SourceURI doc) "")
               then tokenizeIdentityTerms (path_Base (doc_SourceURI doc)) else [] in
  let terms := fold_left (fun terms key =>
    let value := default "" (doc_Metadata doc !! key) in
    if negb (String.eqb (TrimSpace value) "") then terms ++ tokenizeIdentityTerms value else terms)
    identityKeys terms in
  if (length terms =? 0)%nat then [] else dedup ∅ terms.

Definition countIdentityMatches (doc : RetrievalDocument) (targeted : gset string) : Z :=
  let terms := documentIdentityTerms doc in
  if (length terms =? 0)%nat then 0
  else Z.of_nat (length (filter (fun term => term ∈ targeted) terms)).

Definition applyMetadataIntentRanking (queryText : string) (docs : list RetrievalDocument)
    : list RetrievalDocument :=
  if (length docs <? 2)%nat then docs
  else
    let queryTerms := tokenizeIdentityTerms queryText in
    if (length queryTerms =? 0)%nat then docs
    else
      let knownIdentityTerms : gset string :=
        fold_left (fun known doc =>
          fold_left (fun known term => {[term]} ∪ known) (documentIdentityTerms doc) known) docs ∅ in
      let targeted : gset string :=
        fold_left (fun targeted term =>
          if bool_decide (term ∈ knownIdentityTerms) then {[term]} ∪ targeted else targeted)
          queryTerms ∅ in
      if bool_decide (targeted = ∅) then docs
      else SliceStable (by_rank (fun doc => countIdentityMatches doc targeted) doc_Score) docs.

(** The loop of [buildHeuristicRetrievalQuery] over the extra phrases. *)
Fixpoint augment_loop (augmented : string) (seen : gset string) (extra : list string) : string :=
  match extra with
  | [] => augmented
  | phrase :: extra' =>
      let phrase := TrimSpace phrase in
      if String.eqb phrase "" then augment_loop augmented seen extra'
      else
        let phraseTokens := Fields (ToLower phrase) in
        if forallb (fun tok => bool_decide (tok ∈ seen)) phraseTokens
        then augment_loop augmented seen extra'
        else augment_loop (augmented +:+ " " +:+ phrase)
               (fold_left (fun s tok => {[tok]} ∪ s) phraseTokens seen) extra'
  end.

Definition buildHeuristicRetrievalQuery (originalQuery effectiveQuery : string) : string :=
  let base := TrimSpace effectiveQuery in
  let base := if String.eqb base "" then TrimSpace originalQuery else base in
  if String.eqb base "" then ""
  else
    let extra := tokenizeIdentityTerms originalQuery in
    if (length extra =? 0)%nat then base
    else
      let seen : gset string :=
        fold_left (fun s tok => {[tok]} ∪ s) (Fields (ToLower base)) ∅ in
      let augmented := augment_loop base seen extra in
      if 512 <? len augmented then str_take 512 augmented else augmented.
End Terms.

Definition buildCitations (docs : list RetrievalDocument) : list string :=
  (fun doc => if negb (String.eqb (doc_SourceURI doc) "") then doc_SourceURI doc
              else "doc:" +:+ doc_DocumentID doc) <$> docs.

(** ** The service *)

Section Service.
Context `{U : UnicodeTables} {W : Type}.

(** The mutable state of the service and the world of its collaborators. *)
Record RetrievalState := { consecutiveRerankFailures : Z; world : W }.

Definition onW {A} (m : M W A) : M RetrievalState A := fun st =>
  let '(a, w) := m (world st) in
  (a, {| consecutiveRerankFailures := consecutiveRerankFailures st; world := w |}).

Definition readW : M RetrievalState W := fun st => (world st, st).

Record Config := {
  cfg_RerankTopK : Z; cfg_RerankTimeout : Z; cfg_FailureThreshold : Z;
  cfg_Clock : option (M W Time); cfg_EmbeddingProvider : option (EmbeddingProvider W);
  cfg_QueryRewriter : option (QueryRewriter W) }.

Record DeterministicRetrievalService := {
  searcher : option (VectorSearcher W);
  reranker : option (Reranker W);
  embedder : option (EmbeddingProvider W);
  queryRewriter : option (QueryRewriter W);
  clock : M W Time;
  rerankTopK : Z;
  rerankTimeout : Z;
  failureThreshold : Z;
  (** The race of the timeout against the reranker goroutine: [Some err] when
      the context with deadline [rerankTimeout] ends first.  The reranker goes on
      then, with nobody to read its answer; what it still does is part of the effect
      of this call. *)
  deadline : context -> Z -> RerankRequest -> M W (option error) }.

Definition NewDeterministicRetrievalService (now : M W Time)
    (race : context -> Z -> RerankRequest -> M W (option error))
    (searcher : option (VectorSearcher W)) (reranker : option (Reranker W)) (cfg : Config)
    : DeterministicRetrievalService := {|
  searcher := searcher; reranker := reranker; embedder := cfg_EmbeddingProvider cfg;
  queryRewriter := cfg_QueryRewriter cfg; clock := default now (cfg_Clock cfg);
  rerankTopK := if cfg_RerankTopK cfg <=? 0 then 5 else cfg_RerankTopK cfg;
  rerankTimeout := if cfg_RerankTimeout cfg <=? 0 then 15 * Second else cfg_RerankTimeout cfg;
  failureThreshold := if cfg_FailureThreshold cfg <=? 0 then 3 else cfg_FailureThreshold cfg;
  deadline := race |}.

Definition isCircuitOpen (s : DeterministicRetrievalService) : M RetrievalState bool := fun st =>
  (failureThreshold s <=? consecutiveRerankFailures st, st).

Definition registerFailure : M RetrievalState unit := fun st =>
  (tt, {| consecutiveRerankFailures := wrap64 (consecutiveRerankFailures st + 1); world := world st |}).

Definition resetFailures : M RetrievalState unit := fun st =>
  (tt, {| consecutiveRerankFailures := 0; world := world st |}).

Definition rerankWithTimeout (s : DeterministicRetrievalService) (r : Reranker W) (ctx : context)
    (req : RerankRequest) : M RetrievalState (result (list RerankCandidate)) :=
  t ← onW (deadline s ctx (rerankTimeout s) req);
  match t with
  | Some err => mret (Err err)
  | None => onW (Contracts.Rerank r ctx req)
  end.

(** The answer of [Rerank]: candidates, and the error returned with them. *)
Definition Rerank (s : DeterministicRetrievalService) (ctx : context) (metadata : RequestMetadata)
    (req : RerankRequest) : M RetrievalState (list RerankCandidate * option error) :=
  match RequestMetadata_Validate metadata with
  | Some err => mret ([], Some (WrapValidationErr "request_metadata" err))
  | None =>
  match RerankRequest_Validate req with
  | Some err => mret ([], Some (WrapValidationErr "rerank_request" err))
  | None =>
  if negb (String.eqb (rm_TenantID metadata) (rk_TenantID req))
  then mret ([], Some (errors_New "tenant mismatch between metadata and rerank request"))
  else
  match reranker s with
  | None => mret (TopCandidates req, None)
  | Some r =>
  opened ← isCircuitOpen s;
  if (opened : bool) then mret (TopCandidates req, Some (errors_New "rerank circuit breaker open"))
  else
  out ← rerankWithTimeout s r ctx req;
  match out with
  | Err err =>
      _ ← registerFailure; mret (TopCandidates req, Some err)
  | Ok ranked =>
      _ ← resetFailures;
      if Z.of_nat (length ranked) <=? rk_TopN req then mret (ranked, None)
      else mret (take (Z.to_nat (rk_TopN req)) ranked, None)
  end
  end
  end
  end.

(** [scoreByDocument]: a later candidate with the same identifier overwrites. *)
Fixpoint score_by_document (n : nat) (ranked : list RerankCandidate) (acc : gmap string float64)
    : gmap string float64 :=
  match ranked with
  | [] => acc
  | c :: ranked' =>
      (** here [n] is [len(ranked) - idx] *)
      score_by_document (n - 1) ranked'
        (<[cand_DocumentID c := fadd (float_of_int (Z.of_nat n)) (cand_Score c)]> acc)
  end.

Definition score_of (scores : gmap string float64) (doc : RetrievalDocument) : float64 :=
  default (float_of_int 0) (scores !! doc_DocumentID doc).

Definition order_by_rerank (ranked : list RerankCandidate) (docs : list RetrievalDocument)
    : list RetrievalDocument :=
  let scoreByDocument := score_by_document (length ranked) ranked ∅ in
  SliceStable (by_scores (score_of scoreByDocument) doc_Score) docs.

Definition rerankDocuments (s : DeterministicRetrievalService) (ctx : context) (query : RetrievalQuery)
    (docs : list RetrievalDocument) : M RetrievalState (list RetrievalDocument * option error) :=
  match reranker s with
  | None => mret (docs, None)
  | Some _ =>
  let limit := if rerankTopK s <? Z.of_nat (length docs) then rerankTopK s else Z.of_nat (length docs) in
  let candidates := (fun doc => {| cand_DocumentID := doc_DocumentID doc; cand_Text := doc_Content doc;
                                   cand_Score := doc_Score doc |}) <$> take (Z.to_nat limit) docs in
  if (length candidates =? 0)%nat then mret (docs, None)
  else
  a ← Rerank s ctx
        {| rm_TenantID := rq_TenantID query; rm_RequestID := rq_RequestID query;
           rm_SourceIP := ""; rm_UserAgent := "" |}
        {| rk_TenantID := rq_TenantID query; rk_RequestID := rq_RequestID query;
           rk_QueryText := rq_Text query; rk_Candidates := candidates;
           rk_TopN := Z.of_nat (length candidates) |};
  match a with
  | (_, Some err) => mret (docs, Some err)
  | (ranked, None) => mret (order_by_rerank ranked docs, None)
  end
  end.

(** The documents of one expanded query; a failure gives none. *)
Definition search_one (s : DeterministicRetrievalService) (sr : VectorSearcher W) (ctx : context)
    (query : RetrievalQuery) (qText : string) : M RetrievalState (list RetrievalDocument) :=
  match SearchByEmbedding sr, embedder s with
  | Some byEmbedding, Some emb =>
      v ← onW (Embed emb ctx (rq_TenantID query) [qText]);
      match v with
      | Err _ => mret []
      | Ok [vector] =>
          if (0 <? length vector)%nat then
            d ← onW (byEmbedding ctx (rq_TenantID query) vector (rq_TopK query));
            mret (match d with Ok docs => docs | Err _ => [] end)
          else mret []
      | Ok _ => mret []
      end
  | _, _ =>
      d ← onW (Contracts.Search sr ctx (rq_TenantID query) qText (rq_TopK query));
      mret (match d with Ok docs => docs | Err _ => [] end)
  end.

(** The inner loop: append the documents not seen before. *)
Fixpoint add_unseen (seen : gset string) (all docs : list RetrievalDocument)
    : gset string * list RetrievalDocument :=
  match docs with
  | [] => (seen, all)
  | d :: docs' =>
      if bool_decide (doc_DocumentID d ∈ seen) then add_unseen seen all docs'
      else add_unseen ({[doc_DocumentID d]} ∪ seen) (all ++ [d]) docs'
  end.

Fixpoint search_loop (s : DeterministicRetrievalService) (sr : VectorSearcher W) (ctx : context)
    (query : RetrievalQuery) (seen : gset string) (all : list RetrievalDocument) (qs : list string)
    : M RetrievalState (list RetrievalDocument) :=
  match qs with
  | [] => mret all
  | qText :: qs' =>
      docs ← search_one s sr ctx query qText;
      let '(seen', all') := add_unseen seen all docs in
      search_loop s sr ctx query seen' all' qs'
  end.

(** The documents and the expanded queries; the error result is always nil
    and the metadata filters are not used by the caller. *)
Definition searchDocuments (s : DeterministicRetrievalService) (sr : VectorSearcher W) (ctx : context)
    (query : RetrievalQuery) : M RetrievalState (list RetrievalDocument * list string) :=
  expanded ← match queryRewriter s with
             | None => mret [rq_Text query]
             | Some rw =>
                 r ← onW (RewriteQuery rw ctx (rq_TenantID query) (rq_Text query));
                 mret (match r with
                       | Err _ => [rq_Text query]
                       | Ok rewritten => sq_ExpandedQueries rewritten
                       end)
             end;
  docs ← search_loop s sr ctx query ∅ [] expanded;
  mret (docs, expanded).

(** The trace of a result, completed with the traces of the providers. *)
Definition build_trace (s : DeterministicRetrievalService) (sr : VectorSearcher W) (w : W)
    (candidateCount : Z) (rerankApplied : bool) (fallbackReason : string) (millis : Z) : RetrievalTrace :=
  let vt := match LastVectorTrace sr with
            | Some last => last w
            | None => {| vt_Provider := ""; vt_Status := ""; vt_LatencyMillis := 0 |}
            end in
  let gt := match reranker s with
            | Some r => match LastGatewayTrace r with Some last => Some (last w) | None => None end
            | None => None
            end in
  {| rt_TenantFilterApplied := true; rt_CandidateCount := candidateCount;
     rt_RerankApplied := rerankApplied;
     rt_FallbackReason :=
       match gt with
       | Some g => if String.eqb fallbackReason "" then gt_FallbackReason g else fallbackReason
       | None => fallbackReason
       end;
     rt_DurationMillis := millis;
     rt_VectorProvider := vt_Provider vt; rt_VectorStatus := vt_Status vt;
     rt_VectorLatencyMillis := vt_LatencyMillis vt;
     rt_GatewayProvider := default "" (gt_Provider <$> gt);
     rt_GatewayStatus := default "" (gt_Status <$> gt);
     rt_GatewayModel := default "" (gt_Model <$> gt);
     rt_GatewayLatencyMillis := default 0 (gt_LatencyMillis <$> gt);
     rt_GatewayTokenInput := default 0 (gt_TokenInput <$> gt);
     rt_GatewayTokenOutput := default 0 (gt_TokenOutput <$> gt);
     rt_GatewayTokenTotal := default 0 (gt_TokenTotal <$> gt) |}.

Definition Search (s : DeterministicRetrievalService) (ctx : context) (metadata : RequestMetadata)
    (query : RetrievalQuery) : M RetrievalState (result RetrievalResult) :=
  start ← onW (clock s);
  match RequestMetadata_Validate metadata with
  | Some err => mret (Err (WrapValidationErr "request_metadata" err))
  | None =>
  match RetrievalQuery_Validate query with
  | Some err => mret (Err (WrapValidationErr "retrieval_query" err))
  | None =>
  if negb (String.eqb (rm_TenantID metadata) (rq_TenantID query))
  then mret (Err (errors_New "tenant mismatch between metadata and retrieval query"))
  else
  match searcher s with
  | None => mret (Err (errors_New "vector searcher is required"))
  | Some sr =>
  found ← searchDocuments s sr ctx query;
  let '(docs, effectiveQueries) := found in
  let filtered := filter (fun doc => doc_TenantID doc = rq_TenantID query) docs in
  let rankingQuery := match effectiveQueries with q :: _ => q | [] => rq_Text query end in
  let filtered := applyMetadataIntentRanking rankingQuery filtered in
  ranking ←
    (if (0 <? length filtered)%nat then
       a ← rerankDocuments s ctx query filtered;
       match a with
       | (ranked, None) =>
           mret (ranked, match reranker s with Some _ => true | None => false end, "")
       | (_, Some rankErr) => mret (filtered, false, Error rankErr)
       end
     else mret (filtered, false, ""));
  let '(documents, rerankApplied, fallbackReason) := ranking in
  now ← onW (clock s);
  w ← readW;
  let result := {|
    res_TenantID := rq_TenantID query;
    res_RequestID := rq_RequestID query;
    res_Documents := documents;
    res_Citations := buildCitations documents;
    res_Trace := build_trace s sr w (Z.of_nat (length documents)) rerankApplied
                   fallbackReason (Milliseconds (Sub now start)) |} in
  match RetrievalResult_Validate result with
  | Some err => mret (Err (WrapValidationErr "retrieval_result" err))
  | None => mret (Ok result)
  end
  end
  end
  end.
End Service.
Arguments RetrievalState : clear implicits.
Arguments Config : clear implicits.
Arguments DeterministicRetrievalService : clear implicits.

(** * Facts *)

Section SearchFacts.
Context `{U : UnicodeTables} {W : Type}.
Variable s : DeterministicRetrievalService W.

Definition any (_ : RetrievalState W) : Prop := True.

Lemma triple_any {A} (m : M (RetrievalState W) A) : triple any m (fun _ => any).
Proof. done. Qed.

(** The document came from an answer of the searcher to the query's tenant. *)
Definition returned_by (sr : VectorSearcher W) (ctx : context) (query : RetrievalQuery)
    (d : RetrievalDocument) : Prop :=
  exists w docs, d ∈ docs /\
    ((exists q, (Contracts.Search sr ctx (rq_TenantID query) q (rq_TopK query) w).1 = Ok docs)
     \/ (exists f v, SearchByEmbedding sr = Some f
          /\ (f ctx (rq_TenantID query) v (rq_TopK query) w).1 = Ok docs)).

Lemma triple_onW {A} (m : M W A) (Q : A -> Prop) :
  (forall w, Q (m w).1) -> triple any (onW m) (fun a _ => Q a).
Proof. intros H [n w] _. unfold onW. simpl. specialize (H w). by destruct (m w). Qed.

Lemma search_one_returned sr ctx query qText :
  triple any (search_one s sr ctx query qText) (fun docs _ => Forall (returned_by sr ctx query) docs).
Proof.
  assert (K : triple any (d ← onW (Contracts.Search sr ctx (rq_TenantID query) qText (rq_TopK query));
      mret (match d with Ok docs => docs | Err _ => [] end))
    (fun docs _ => Forall (returned_by sr ctx query) docs)).
  { eapply triple_bind; [apply (triple_onW _ (fun a => forall docs, a = Ok docs ->
      Forall (returned_by sr ctx query) docs))|].
    - intros w docs Hd. apply Forall_forall. intros d Hin. exists w, docs. split; [done|]. left. eauto.
    - intros [docs|e]; apply triple_ret; eauto. }
  unfold search_one. destruct (SearchByEmbedding sr) as [f|] eqn:Ef; [|done].
  destruct (embedder s) as [emb|]; [|done].
  eapply triple_bind; [apply triple_any|]. intros [[|v [|v' vs]]|e]; try (by apply triple_ret).
  destruct (0 <? length v)%nat; [|by apply triple_ret].
  eapply triple_bind; [apply (triple_onW _ (fun a => forall docs, a = Ok docs ->
      Forall (returned_by sr ctx query) docs))|].
  - intros w docs Hd. apply Forall_forall. intros d Hin. exists w, docs. split; [done|]. right. eauto.
  - intros [docs|e]; apply triple_ret; eauto.
Qed.

(** The accumulator of the search loop: distinct identifiers, all seen. *)
Definition acc_ok (sr : VectorSearcher W) (ctx : context) (query : RetrievalQuery) (seen : gset string)
    (all : list RetrievalDocument) : Prop :=
  NoDup (doc_DocumentID <$> all) /\ seen = list_to_set (doc_DocumentID <$> all)
  /\ Forall (returned_by sr ctx query) all.

Lemma add_unseen_ok sr ctx query docs : forall seen all,
  acc_ok sr ctx query seen all -> Forall (returned_by sr ctx query) docs ->
  acc_ok sr ctx query (add_unseen seen all docs).1 (add_unseen seen all docs).2.
Proof.
  induction docs as [|d docs IH]; intros seen all Hok HF; [done|].
  apply Forall_cons in HF as [Hd HF]. cbn [add_unseen]. case_bool_decide as Hs; [by apply IH|].
  apply IH; [|done]. destruct Hok as (Hn & -> & Hr). unfold acc_ok. rewrite fmap_app. simpl.
  split; [|split].
  - apply NoDup_app. split; [done|]. split; [|apply NoDup_singleton].
    intros x Hx ->%list_elem_of_singleton. apply Hs. by apply elem_of_list_to_set.
  - rewrite list_to_set_app_L. simpl. set_solver.
  - apply Forall_app. auto.
Qed.

Lemma search_loop_ok sr ctx query qs : forall seen all,
  acc_ok sr ctx query seen all ->
  triple any (search_loop s sr ctx query seen all qs)
    (fun docs _ => NoDup (doc_DocumentID <$> docs) /\ Forall (returned_by sr ctx query) docs).
Proof.
  induction qs as [|q qs IH]; intros seen all Hok; cbn [search_loop].
  - apply triple_ret. unfold acc_ok in Hok. naive_solver.
  - eapply triple_bind; [apply search_one_returned|]. intros docs st HF.
    pose proof (add_unseen_ok sr ctx query docs seen all Hok HF) as Hok'.
    destruct (add_unseen seen all docs) as [seen' all']. by apply IH.
Qed.

Lemma searchDocuments_ok sr ctx query :
  triple any (searchDocuments s sr ctx query)
    (fun r _ => NoDup (doc_DocumentID <$> r.1) /\ Forall (returned_by sr ctx query) r.1).
Proof.
  unfold searchDocuments. eapply triple_bind; [apply triple_any|]. intros qs.
  eapply triple_bind.
  - apply search_loop_ok. split; [constructor|]. split; [done|constructor].
  - intros docs. by apply triple_ret.
Qed.

Lemma applyMetadataIntentRanking_perm q docs : applyMetadataIntentRanking q docs ≡ₚ docs.
Proof.
  unfold applyMetadataIntentRanking. destruct (_ <? 2)%nat; [done|]. cbn zeta.
  destruct (_ =? 0)%nat; [done|]. case_bool_decide; [done|]. apply SliceStable_perm.
Qed.

Lemma rerankDocuments_perm ctx query docs :
  triple any (rerankDocuments s ctx query docs) (fun a _ => a.1 ≡ₚ docs).
Proof.
  unfold rerankDocuments. destruct (reranker s); [|by apply triple_ret]. cbn zeta.
  destruct (_ =? 0)%nat; [by apply triple_ret|]. eapply triple_bind; [apply triple_any|].
  intros [ranked [err|]]; apply triple_ret; [done|]. intros _ _. apply SliceStable_perm.
Qed.

(** What a successful search returns. *)
Definition sound_result (ctx : context) (md : RequestMetadata) (query : RetrievalQuery)
    (r : RetrievalResult) : Prop :=
  rm_TenantID md = rq_TenantID query /\ res_TenantID r = rq_TenantID query
  /\ res_RequestID r = rq_RequestID query
  /\ NoDup (doc_DocumentID <$> res_Documents r)
  /\ Forall (fun d => doc_TenantID d = rq_TenantID query /\ doc_DocumentID d <> ""
       /\ exists sr, searcher s = Some sr /\ returned_by sr ctx query d) (res_Documents r)
  /\ res_Citations r = buildCitations (res_Documents r)
  /\ rt_CandidateCount (res_Trace r) = Z.of_nat (length (res_Documents r))
  /\ rt_TenantFilterApplied (res_Trace r) = true.

(** [Search] fails on an invalid request; otherwise it answers with the
    validated result made of the documents of its tenant, in some order. *)
Lemma Search_cases ctx md query (Q : result RetrievalResult -> Prop) :
  (forall e, (RequestMetadata_Validate md <> None \/ RetrievalQuery_Validate query <> None
              \/ rm_TenantID md <> rq_TenantID query \/ searcher s = None) -> Q (Err e)) ->
  (forall sr docs r, searcher s = Some sr -> rm_TenantID md = rq_TenantID query ->
     NoDup (doc_DocumentID <$> docs) -> Forall (returned_by sr ctx query) docs ->
     res_TenantID r = rq_TenantID query -> res_RequestID r = rq_RequestID query ->
     res_Documents r ≡ₚ filter (fun d => doc_TenantID d = rq_TenantID query) docs ->
     res_Citations r = buildCitations (res_Documents r) ->
     rt_CandidateCount (res_Trace r) = Z.of_nat (length (res_Documents r)) ->
     rt_TenantFilterApplied (res_Trace r) = true ->
     Q (match RetrievalResult_Validate r with
        | Some err => Err (WrapValidationErr "retrieval_result" err)
        | None => Ok r
        end)) ->
  triple any (Search s ctx md query) (fun a _ => Q a).
Proof.
  intros Hbad Hgood. unfold Search. eapply triple_bind; [apply triple_any|]. intros start.
  destruct (RequestMetadata_Validate md); [apply triple_ret; intros; by apply Hbad; auto|].
  destruct (RetrievalQuery_Validate query); [apply triple_ret; intros; by apply Hbad; auto|].
  destruct (String.eqb_spec (rm_TenantID md) (rq_TenantID query)) as [Ht|];
    [|apply triple_ret; intros; by apply Hbad; auto].
  cbn [negb]. destruct (searcher s) as [sr|] eqn:Hsr; [|apply triple_ret; intros; by apply Hbad; auto].
  eapply triple_bind_pure; [apply searchDocuments_ok|]. intros [docs qs] [Hnd Hret]. cbn [fst] in *. cbn zeta.
  set (filtered := applyMetadataIntentRanking _ _).
  assert (Hf : filtered ≡ₚ filter (fun d => doc_TenantID d = rq_TenantID query) docs)
    by apply applyMetadataIntentRanking_perm.
  eapply (triple_bind_pure _ _ _ (fun a => a.1.1 ≡ₚ filtered)).
  { destruct (0 <? length filtered)%nat; [|by apply triple_ret].
    eapply triple_bind_pure; [apply rerankDocuments_perm|].
    intros [ranked [err|]] Hp; by apply triple_ret. }
  intros [[documents applied] reason] Hp. cbn [fst] in Hp. rewrite Hf in Hp.
  eapply triple_bind; [apply triple_any|]. intros now. eapply triple_bind; [apply triple_any|]. intros w.
  cbn zeta. match goal with |- context [RetrievalResult_Validate ?r] => pose proof (Hgood sr docs r) as Hg end.
  specialize (Hg eq_refl Ht Hnd Hret eq_refl eq_refl Hp eq_refl eq_refl eq_refl).
  destruct (RetrievalResult_Validate _); by apply triple_ret.
Qed.
End SearchFacts.

(** ** The circuit breaker, with concurrent calls

    Calls of [Rerank] that run at the same time interleave at the three
    mutex-protected operations.  A call checks the breaker and is refused or
    goes to the reranker; a call in flight ends with a failure or a success. *)

Section Breaker.
Context {W : Type}.
Variable s : DeterministicRetrievalService W.

Inductive breaker_event := Refused | Started | Failed | Succeeded.

(** The state of the service and the number of calls in flight. *)
Inductive breaker_step : RetrievalState W * nat -> breaker_event -> RetrievalState W * nat -> Prop :=
| step_refused st n : (isCircuitOpen s st).1 = true -> breaker_step (st, n) Refused (st, n)
| step_started st n w : (isCircuitOpen s st).1 = false ->
    breaker_step (st, n) Started
      ({| consecutiveRerankFailures := consecutiveRerankFailures st; world := w |}, S n)
| step_failed st n : breaker_step (st, S n) Failed ((registerFailure st).2, n)
| step_succeeded st n : breaker_step (st, S n) Succeeded ((resetFailures st).2, n).

(** Executions, newest event first. *)
Inductive breaker_run (c0 : RetrievalState W * nat)
    : list breaker_event -> RetrievalState W * nat -> Prop :=
| run_nil : breaker_run c0 [] c0
| run_cons tr c e c' : breaker_run c0 tr c -> breaker_step c e c' -> breaker_run c0 (e :: tr) c'.

(** The failures since the last success. *)
Fixpoint failures_since (tr : list breaker_event) : Z :=
  match tr with
  | [] => 0
  | Failed :: tr' => failures_since tr' + 1
  | Succeeded :: _ => 0
  | _ :: tr' => failures_since tr'
  end.

Lemma failures_since_bound tr : 0 <= failures_since tr <= Z.of_nat (length tr).
Proof. induction tr as [|[] tr IH]; simpl length; cbn [failures_since]; lia. Qed.

Lemma breaker_counts w0 tr c :
  breaker_run ({| consecutiveRerankFailures := 0; world := w0 |}, 0%nat) tr c ->
  Z.of_nat (length tr) < 2^63 -> consecutiveRerankFailures c.1 = failures_since tr.
Proof.
  induction 1 as [|tr c e c' R IH Hs]; intros Hl; [done|]. simpl length in Hl.
  specialize (IH ltac:(lia)). destruct Hs; simpl in *; try done.
  rewrite IH. pose proof (failures_since_bound tr). apply wrap64_id. unfold int64_range. lia.
Qed.

(** A step out of an open circuit without calls in flight. *)
Lemma breaker_stays_open c e c' :
  breaker_step c e c' -> (isCircuitOpen s c.1).1 = true -> c.2 = 0%nat -> e = Refused /\ c' = c.
Proof. intros Hs Ho Hn. destruct Hs; simpl in *; [done|congruence|done|done]. Qed.
End Breaker.

(** ** Identity ranking *)

Lemma fold_add_set (l : list string) (s0 : gset string) :
  fold_left (fun s t => {[t]} ∪ s) l s0 = list_to_set l ∪ s0.
Proof. revert s0. induction l as [|t l IH]; intros s0; simpl; [set_solver|]. rewrite IH. set_solver. Qed.

Lemma fold_add_if (P : string -> bool) (l : list string) (s0 : gset string) :
  fold_left (fun s t => if P t then {[t]} ∪ s else s) l s0
  = list_to_set (filter (fun t => P t = true) l) ∪ s0.
Proof.
  revert s0. induction l as [|t l IH]; intros s0; simpl; [set_solver|]. rewrite IH.
  rewrite filter_cons. destruct (P t) eqn:E; case_decide; simpl; set_solver.
Qed.

Section Ranking.
Context `{U : UnicodeTables}.

Definition known_terms (docs : list RetrievalDocument) : gset string :=
  fold_left (fun known doc =>
    fold_left (fun known term => {[term]} ∪ known) (documentIdentityTerms doc) known) docs ∅.
Definition targeted_terms (q : string) (docs : list RetrievalDocument) : gset string :=
  fold_left (fun targeted term =>
    if bool_decide (term ∈ known_terms docs) then {[term]} ∪ targeted else targeted)
    (tokenizeIdentityTerms q) ∅.

(** The identity terms of a document that the query mentions. *)
Definition query_matches (q : string) (doc : RetrievalDocument) : Z :=
  Z.of_nat (length (filter (fun t => t ∈ tokenizeIdentityTerms q) (documentIdentityTerms doc))).

Lemma elem_of_known t docs :
  t ∈ known_terms docs <-> exists d, d ∈ docs /\ t ∈ documentIdentityTerms d.
Proof.
  unfold known_terms.
  enough (G : forall s0 : gset string, t ∈ fold_left (fun known doc =>
    fold_left (fun known term => {[term]} ∪ known) (documentIdentityTerms doc) known) docs s0
    <-> t ∈ s0 \/ exists d, d ∈ docs /\ t ∈ documentIdentityTerms d) by (rewrite G; set_solver).
  induction docs as [|d docs IH]; intros s0; simpl; [set_solver|].
  rewrite IH, fold_add_set, elem_of_union, elem_of_list_to_set. set_solver.
Qed.

Lemma elem_of_targeted t q docs :
  t ∈ targeted_terms q docs <-> t ∈ tokenizeIdentityTerms q /\ t ∈ known_terms docs.
Proof.
  unfold targeted_terms. rewrite fold_add_if, union_empty_r_L, elem_of_list_to_set, list_elem_of_filter.
  rewrite bool_decide_eq_true. tauto.
Qed.

Lemma matches_targeted q docs d :
  d ∈ docs -> countIdentityMatches d (targeted_terms q docs) = query_matches q d.
Proof.
  intros Hd. unfold countIdentityMatches, query_matches. cbn zeta.
  rewrite (filter_ext_elem (fun t => t ∈ targeted_terms q docs) (fun t => t ∈ tokenizeIdentityTerms q)).
  - by destruct (documentIdentityTerms d).
  - intros t Ht. rewrite elem_of_targeted. split; [naive_solver|]. intros. split; [done|].
    apply elem_of_known. eauto.
Qed.

Lemma query_matches_nonneg q d : 0 <= query_matches q d.
Proof. unfold query_matches. lia. Qed.

Lemma query_matches_pos q d t :
  t ∈ documentIdentityTerms d -> t ∈ tokenizeIdentityTerms q -> 0 < query_matches q d.
Proof.
  intros H1 H2. unfold query_matches.
  assert (Hin : t ∈ filter (fun t => t ∈ tokenizeIdentityTerms q) (documentIdentityTerms d))
    by (by apply list_elem_of_filter).
  destruct (filter _ _); [by apply elem_of_nil in Hin|]. simpl. lia.
Qed.

Lemma query_matches_zero q d :
  query_matches q d = 0 -> forall t, t ∈ documentIdentityTerms d -> t ∉ tokenizeIdentityTerms q.
Proof. intros H t H1 H2. pose proof (query_matches_pos q d t H1 H2). lia. Qed.

Lemma targeted_empty q docs :
  targeted_terms q docs = ∅ <-> Forall (fun d => query_matches q d = 0) docs.
Proof.
  rewrite Forall_forall. split.
  - intros He d Hd. rewrite <- (matches_targeted q docs) by done. rewrite He.
    unfold countIdentityMatches. cbn zeta. destruct (_ =? 0)%nat; [done|].
    rewrite (filter_ext_elem _ (fun _ => False)) by set_solver.
    by rewrite filter_none.
  - intros H. apply set_eq. intros t. rewrite elem_of_targeted, elem_of_known.
    split; [|set_solver]. intros (Hq & d & Hd & Ht). by apply (query_matches_zero q d (H d Hd)) in Ht.
Qed.

(** ranking by identity terms.  The ranking never adds or drops a document.
    If no document mentions an identity term of the query (or there are fewer
    than two documents) the order of the vector search is kept; otherwise the
    documents are ordered by the number of distinct identity terms they share
    with the query, ties by descending score. *)
Theorem intent_ranking_correct q docs :
  Forall (fun d => not_nan (doc_Score d)) docs ->
  let out := applyMetadataIntentRanking q docs in
  out ≡ₚ docs
  /\ (Forall (fun d => query_matches q d = 0) docs -> out = docs)
  /\ (Exists (fun d => 0 < query_matches q d) docs ->
      StronglySorted (fun a b => query_matches q b < query_matches q a
        \/ (query_matches q a = query_matches q b /\ fgt (doc_Score b) (doc_Score a) = false)) out).
Proof.
  intros Hn. cbn zeta. split; [apply applyMetadataIntentRanking_perm|].
  unfold applyMetadataIntentRanking. fold (known_terms docs). cbn zeta.
  fold (targeted_terms q docs). split.
  - intros H0%targeted_empty. rewrite H0. rewrite bool_decide_true by done. repeat case_match; done.
  - intros (d & Hd & Hpos)%Exists_exists.
    destruct (Nat.ltb_spec (length docs) 2) as [Hl|_].
    { destruct docs as [|x [|y docs]]; [constructor|by repeat constructor|simpl in Hl; lia]. }
    destruct (Nat.eqb_spec (length (tokenizeIdentityTerms q)) 0) as [Hl|_].
    { apply nil_length_inv in Hl. exfalso. unfold query_matches in Hpos. rewrite Hl in Hpos.
      rewrite (filter_ext_elem _ (fun _ => False)), filter_none in Hpos by set_solver. simpl in Hpos. lia. }
    rewrite bool_decide_false.
    2:{ rewrite targeted_empty, Forall_forall. intros H0. specialize (H0 d Hd). lia. }
    pose proof (SliceStable_sorted _ _ (by_rank_weak_order
      (fun doc => countIdentityMatches doc (targeted_terms q docs)) doc_Score) docs Hn) as Hs.
    eapply StronglySorted_weaken; [|exact Hs]. intros a b Ha Hb.
    rewrite SliceStable_perm in Ha, Hb. unfold ordered, by_rank.
    rewrite !matches_targeted by done.
    destruct (Z.eqb_spec (query_matches q b) (query_matches q a)); [by right|].
    intros Hlt. apply Z.ltb_ge in Hlt. left. lia.
Qed.

Lemma dedup_spec terms : forall set,
  NoDup (dedup set terms) /\ forall t, t ∈ dedup set terms <-> t ∈ terms /\ t ∉ set.
Proof.
  induction terms as [|x terms IH]; intros set; cbn [dedup].
  - split; [constructor|]. set_solver.
  - case_bool_decide as Hx.
    + destruct (IH set) as [H1 H2]. split; [done|]. intros t. rewrite H2. set_solver.
    + destruct (IH ({[x]} ∪ set)) as [H1 H2]. split.
      * constructor; [|done]. rewrite H2. set_solver.
      * intros t. rewrite elem_of_cons, H2. destruct (decide (t = x)); set_solver.
Qed.

(** An identity term: a word of at least three bytes that is neither a stop
    word nor a number. *)
Definition identity_term (t : string) : Prop :=
  word t /\ t ∉ stopWords /\ 3 <= len t /\ all_digits t = false.

Lemma tokenizeIdentityTerms_terms input : Forall identity_term (tokenizeIdentityTerms input).
Proof.
  unfold tokenizeIdentityTerms. destruct (String.eqb _ _); [constructor|]. cbn zeta.
  set (b := foldr _ _ _). apply Forall_forall. intros t [Hp Hin]%list_elem_of_filter.
  pose proof (Fields_words b) as Hw. rewrite Forall_forall in Hw. specialize (Hw t Hin).
  bool_to_prop. apply bool_decide_eq_false in H. unfold identity_term. auto.
Qed.

(** identity terms.  The identity terms of a document are distinct, and
    every one is a word of at least three bytes that is neither a stop word
    nor a number. *)
Theorem identity_terms_clean doc :
  NoDup (documentIdentityTerms doc) /\ Forall identity_term (documentIdentityTerms doc).
Proof.
  unfold documentIdentityTerms. cbn zeta. set (start := if negb _ then _ else _).
  assert (Hs : Forall identity_term start).
  { unfold start. destruct (negb _); [apply tokenizeIdentityTerms_terms|constructor]. }
  clearbody start. destruct (_ =? 0)%nat; [split; constructor|].
  set (terms := fold_left _ _ _).
  assert (Ht : Forall identity_term terms).
  { unfold terms. clear terms. revert start Hs. induction identityKeys as [|k ks IH]; intros start Hs; [done|].
    simpl. apply IH. destruct (negb _); [|done]. apply Forall_app. split; [done|].
    apply tokenizeIdentityTerms_terms. }
  destruct (dedup_spec terms ∅) as [H1 H2]. split; [done|].
  rewrite Forall_forall in *. intros t Hin. apply H2 in Hin as [Hin _]. auto.
Qed.

End Ranking.

Lemma score_by_document_other id ranked : forall n acc,
  (forall c, c ∈ ranked -> cand_DocumentID c <> id) ->
  score_by_document n ranked acc !! id = acc !! id.
Proof.
  induction ranked as [|c ranked IH]; intros n acc Hno; [done|]. cbn [score_by_document].
  rewrite IH by (intros; apply Hno; by constructor).
  apply lookup_insert_ne, Hno. by constructor.
Qed.

(** * Theorems *)

Section Theorems.
Context `{U : UnicodeTables} {W : Type}.
Variable s : DeterministicRetrievalService W.

Lemma Search_sound ctx md query st r st' :
  Search s ctx md query st = (Ok r, st') -> sound_result s ctx md query r.
Proof.
  intros H. revert r H.
  enough (T : triple any (Search s ctx md query) (fun a _ => forall r, a = Ok r -> sound_result s ctx md query r)).
  { intros r H. specialize (T st I r). rewrite H in T. by apply T. }
  apply Search_cases; [done|]. intros sr docs r Hsr Ht Hnd Hret Hr1 Hr2 Hp Hc Hn Hf r'.
  destruct (RetrievalResult_Validate r) eqn:Hv; [done|]. intros [= <-].
  apply RetrievalResult_Validate_None in Hv as (_ & _ & Hv).
  split; [done|]. split; [done|]. split; [done|]. split.
  { rewrite Hp. eapply sublist_NoDup; [exact Hnd|]. apply fmap_sublist. apply sublist_filter. }
  split; [|done]. rewrite Forall_forall in *. intros d Hd. specialize (Hv d Hd). rewrite Hp in Hd.
  apply list_elem_of_filter in Hd as [Hd1 Hd2]. naive_solver.
Qed.

(** C2: tenant isolation of search.  Whatever the query rewriter, the
    embedder, the vector searcher and the reranker answer, every document of a
    successful search belongs to the tenant of the query, which is the
    caller's, was returned by the searcher for that tenant, and occurs once;
    there is one citation per document, and the trace counts them. *)
Theorem search_tenant_isolation ctx md query st r st' :
  Search s ctx md query st = (Ok r, st') -> sound_result s ctx md query r.
Proof. apply Search_sound. Qed.

(** C37: search degrades gracefully.  For a valid request of the caller's
    tenant, and a searcher whose documents all have an identifier, [Search]
    always returns a result: failures of the query rewriter, of the embedder,
    of the searcher itself, of the reranker, a timeout or an open circuit
    breaker never become an error of the search. *)
Theorem search_never_fails ctx md query sr st :
  RequestMetadata_Validate md = None -> RetrievalQuery_Validate query = None ->
  rm_TenantID md = rq_TenantID query -> searcher s = Some sr ->
  (forall d, returned_by sr ctx query d -> doc_DocumentID d <> "") ->
  exists r, (Search s ctx md query st).1 = Ok r.
Proof.
  intros Hmd Hq Ht Hsr Hids.
  enough (T : triple any (Search s ctx md query) (fun a _ => exists r, a = Ok r)) by (by apply (T st)).
  apply Search_cases; [naive_solver|]. intros sr' docs r Hsr' _ _ Hret Hr1 Hr2 Hp _ _ _.
  rewrite Hsr in Hsr'. injection Hsr' as <-.
  rewrite (proj2 (RetrievalResult_Validate_None r)); [by eexists|].
  apply RetrievalQuery_Validate_None in Hq as (Hq1 & Hq2 & _). rewrite Hr1, Hr2.
  split; [done|]. split; [done|].
  rewrite Hp. rewrite Forall_forall in *. intros d [Hd1 Hd2]%list_elem_of_filter.
  split; [by apply Hids, Hret|]. by rewrite Hd1.
Qed.

(** C20: the circuit breaker.  Under any interleaving of concurrent calls the
    counter is the number of failures since the last success, so a call is
    refused only after [failureThreshold] failures without a success in
    between. *)
Theorem breaker_refuses_only_after_failures w0 tr c c' :
  breaker_run s ({| consecutiveRerankFailures := 0; world := w0 |}, 0%nat) tr c ->
  Z.of_nat (length tr) < 2^63 ->
  breaker_step s c Refused c' -> failureThreshold s <= failures_since tr.
Proof.
  intros R Hl Hs. rewrite <- (breaker_counts s w0 tr c) by done.
  inversion Hs as [st n Ho| | |]; subst. simpl in Ho. by apply Z.leb_le in Ho.
Qed.

(** the breaker never closes.  Once the circuit is open and no call is in
    flight, every later call is refused, for ever: only a call in flight can
    reset the counter, and there is no time-out or trial call. *)
Theorem breaker_open_is_permanent c tr c' :
  (isCircuitOpen s c.1).1 = true -> c.2 = 0%nat -> breaker_run s c tr c' ->
  c' = c /\ Forall (fun e => e = Refused) tr.
Proof.
  intros Ho Hn R. induction R as [|tr c1 e c2 R IH Hs]; [done|].
  destruct IH as [-> HF]. apply breaker_stays_open in Hs as [-> ->]; [|done..]. auto.
Qed.
(** C19: [Rerank] refines the breaker, and always answers with candidates.  For
    a valid request of the caller's tenant a call of [Rerank] is one of the
    three executions of the breaker: refused, and then nothing of the world is
    touched; started and failed; started and succeeded.  An error is returned
    exactly when it did not succeed, always together with the local top
    candidates, and a success returns at most [TopN] candidates, a prefix of
    the reranker's ranking. *)
Theorem rerank_refines_breaker ctx md req rr st :
  RequestMetadata_Validate md = None -> RerankRequest_Validate req = None ->
  rm_TenantID md = rk_TenantID req -> reranker s = Some rr ->
  let '((cands, err), st') := Rerank s ctx md req st in
  exists tr, breaker_run s (st, 0%nat) tr (st', 0%nat) /\
    match err with
    | None =>
        tr = [Succeeded; Started] /\ Z.of_nat (length cands) <= rk_TopN req
        /\ exists w ranked, (Contracts.Rerank rr ctx req w).1 = Ok ranked /\ cands `prefix_of` ranked
    | Some _ =>
        cands = TopCandidates req /\ ((tr = [Refused] /\ st' = st) \/ tr = [Failed; Started])
    end.
Proof.
  intros Hmd Hreq Ht Hrr. apply RerankRequest_Validate_None in Hreq as Hreq'.
  unfold Rerank. rewrite Hmd, Hreq, Ht, String.eqb_refl, Hrr. cbn [negb].
  unfold rerankWithTimeout, isCircuitOpen. run_M.
  destruct (failureThreshold s <=? consecutiveRerankFailures st) eqn:Ho.
  { exists [Refused]. split; [by econstructor; [constructor|constructor]|]. eauto. }
  assert (R1 : forall w, breaker_run s (st, 0%nat) [Started]
    ({| consecutiveRerankFailures := consecutiveRerankFailures st; world := w |}, 1%nat)).
  { intros w. econstructor; [constructor|]. by constructor. }
  unfold onW. destruct (deadline s _ _ _ _) as [[err|] w1]; cbn [world consecutiveRerankFailures].
  { exists [Failed; Started]. split; [|eauto]. econstructor; [apply (R1 w1)|]. constructor. }
  destruct (Contracts.Rerank rr ctx req w1) as [[ranked|err] w2] eqn:Hc.
  - unfold resetFailures. cbn [world].
    destruct (Z.leb_spec (Z.of_nat (length ranked)) (rk_TopN req)); (exists [Succeeded; Started]; split;
      [econstructor; [apply (R1 w2)|]; constructor|]; split; [done|]).
    + split; [done|]. exists w1, ranked. by rewrite Hc.
    + split; [rewrite length_take; lia|]. exists w1, ranked. rewrite Hc. split; [done|]. apply prefix_take.
  - exists [Failed; Started]. split; [|eauto]. econstructor; [apply (R1 w2)|]. constructor.
Qed.
(** the order after a successful rerank.  Documents are ordered by the
    score the reranker's answer gives their identifier (zero for the documents
    it did not mention), ties by descending vector score, and documents that
    tie in both keep their order; none is added or dropped. *)
Theorem rerank_order_correct ranked docs :
  let scores := score_by_document (length ranked) ranked ∅ in
  let less := by_scores (score_of scores) doc_Score in
  Forall (fun d => not_nan (score_of scores d) /\ not_nan (doc_Score d)) docs ->
  order_by_rerank ranked docs ≡ₚ docs
  /\ StronglySorted (fun a b => less b a = false) (order_by_rerank ranked docs)
  /\ (forall a, a ∈ docs ->
      filter (fun y => tie less a y = true) (order_by_rerank ranked docs)
      = filter (fun y => tie less a y = true) docs)
  /\ Forall (fun d => (forall c, c ∈ ranked -> cand_DocumentID c <> doc_DocumentID d) ->
       score_of scores d = float_of_int 0) docs.
Proof.
  cbn zeta. intros HF. pose proof (by_scores_weak_order
    (score_of (score_by_document (length ranked) ranked ∅)) doc_Score) as Hw.
  split; [apply SliceStable_perm|]. split; [by apply (SliceStable_sorted _ _ Hw)|]. split.
  - intros a Ha. apply (SliceStable_stable _ _ Hw); [|done].
    rewrite Forall_forall in HF. by apply HF.
  - apply Forall_forall. intros d _ Hno. unfold score_of. rewrite score_by_document_other; [done|done].
Qed.
End Theorems.

(** ** A concrete service

    Three documents, one of another tenant; a reranker that reverses the
    candidates until it fails. *)

Definition sample_doc (id tenant uri : string) (score : Z) : RetrievalDocument := {|
  doc_DocumentID := id; doc_TenantID := tenant; doc_Content := id; doc_Score := float_of_int score;
  doc_SourceURI := uri; doc_Metadata := ∅ |}.
Definition sample_docs : list RetrievalDocument := [
  sample_doc "d1" "acme" "s3://b/alice_smith.pdf" 3; sample_doc "d2" "globex" "s3://b/x.pdf" 2;
  sample_doc "d3" "acme" "s3://b/bob_jones.pdf" 1; sample_doc "d1" "acme" "s3://b/alice_smith.pdf" 3].

(** The world counts the rerank calls that still succeed. *)
Definition sample_searcher : VectorSearcher nat := {|
  Contracts.Search _ _ _ _ := mret (Ok sample_docs); SearchByEmbedding := None; LastVectorTrace := None |}.
Definition sample_reranker : Reranker nat := {|
  Contracts.Rerank _ req := fun n => match n with
    | O => (Err (errors_New "rerank backend down"), O)
    | S m => (Ok (reverse (rk_Candidates req)), m)
    end;
  LastGatewayTrace := None |}.
Definition sample_service : DeterministicRetrievalService nat :=
  NewDeterministicRetrievalService (mret 5) (fun _ _ _ => mret None) (Some sample_searcher)
    (Some sample_reranker)
    {| cfg_RerankTopK := 0; cfg_RerankTimeout := 0; cfg_FailureThreshold := 2; cfg_Clock := None;
       cfg_EmbeddingProvider := None; cfg_QueryRewriter := None |}.
Definition sample_query : RetrievalQuery :=
  {| rq_TenantID := "acme"; rq_RequestID := "r1"; rq_Text := "notes of Bob"; rq_TopK := 10 |}.
Definition sample_metadata : RequestMetadata :=
  {| rm_TenantID := "acme"; rm_RequestID := "r1"; rm_SourceIP := ""; rm_UserAgent := "" |}.
Definition sample_state (count : Z) (left : nat) : RetrievalState nat :=
  {| consecutiveRerankFailures := count; world := left |}.

#[local] Existing Instance latin1.

Lemma search_tenant_isolation_witness :
  let r := Search sample_service None sample_metadata sample_query (sample_state 0 0) in
  exists res, r.1 = Ok res /\ doc_DocumentID <$> res_Documents res = ["d3"; "d1"]
    /\ rt_FallbackReason (res_Trace res) = "rerank backend down"
    /\ Forall (fun d => doc_TenantID d = "acme") (res_Documents res).
Proof.
  cbn zeta. destruct (Search sample_service None sample_metadata sample_query (sample_state 0 0))
    as [[res|e] st'] eqn:E; [|vm_compute in E; discriminate]. exists res. split; [reflexivity|].
  assert (H : res_Documents res = [sample_doc "d3" "acme" "s3://b/bob_jones.pdf" 1;
                                   sample_doc "d1" "acme" "s3://b/alice_smith.pdf" 3]
              /\ rt_FallbackReason (res_Trace res) = "rerank backend down").
  { vm_compute in E. injection E as <- _. split; reflexivity. }
  destruct H as [H ->]. split; [rewrite H; reflexivity|]. split; [reflexivity|].
  destruct (search_tenant_isolation sample_service None sample_metadata sample_query
    (sample_state 0 0) res st' E)
    as (_ & _ & _ & _ & HF & _).
  eapply Forall_impl; [exact HF|]. by intros d (? & _).
Defined.

Lemma search_never_fails_witness :
  exists r, (Search sample_service None sample_metadata sample_query (sample_state 0 1)).1 = Ok r.
Proof.
  apply (search_never_fails sample_service None sample_metadata sample_query sample_searcher).
  - reflexivity.
  - reflexivity.
  - reflexivity.
  - reflexivity.
  - intros d (w & docs & Hd & [[q Hq]|(f & v & Hf & _)]); [|discriminate Hf].
    injection Hq as <-. revert d Hd. apply Forall_forall.
    repeat (apply Forall_cons; split; [discriminate|]). constructor.
Defined.

Lemma breaker_refuses_only_after_failures_witness :
  2 <= failures_since [Failed; Started; Failed; Started].
Proof.
  refine (breaker_refuses_only_after_failures sample_service 0%nat [Failed; Started; Failed; Started]
    (sample_state 2 0, 0%nat) (sample_state 2 0, 0%nat) _ _ _).
  - eapply run_cons; [eapply run_cons; [eapply run_cons; [eapply run_cons; [apply run_nil|]|]|]|].
    + apply (step_started _ _ _ 0%nat). reflexivity.
    + apply step_failed.
    + apply (step_started _ _ _ 0%nat). reflexivity.
    + exact (step_failed sample_service (sample_state 1 0) 0).
  - simpl. lia.
  - apply step_refused. reflexivity.
Defined.

Lemma breaker_open_is_permanent_witness :
  (sample_state 2 7, 0%nat) = (sample_state 2 7, 0%nat) /\ Forall (fun e => e = Refused) [Refused; Refused].
Proof.
  apply (breaker_open_is_permanent sample_service (sample_state 2 7, 0%nat) [Refused; Refused]
    (sample_state 2 7, 0%nat)).
  - reflexivity.
  - reflexivity.
  - eapply run_cons; [eapply run_cons; [apply run_nil|]|]; apply step_refused; reflexivity.
Defined.

Definition sample_request : RerankRequest := {|
  rk_TenantID := "acme"; rk_RequestID := "r1"; rk_QueryText := "q";
  rk_Candidates := [{| cand_DocumentID := "d1"; cand_Text := ""; cand_Score := float_of_int 1 |}];
  rk_TopN := 1 |}.

Lemma rerank_refines_breaker_witness :
  let '(_, st') := Rerank sample_service None sample_metadata sample_request (sample_state 1 0) in
  exists tr, breaker_run sample_service (sample_state 1 0, 0%nat) tr (st', 0%nat).
Proof.
  pose proof (rerank_refines_breaker sample_service None sample_metadata sample_request sample_reranker
    (sample_state 1 0) eq_refl eq_refl eq_refl eq_refl) as H.
  destruct (Rerank _ _ _ _ _) as [[cands err] st']. destruct H as (tr & H & _). exists tr. exact H.
Defined.

Lemma intent_ranking_correct_witness :
  applyMetadataIntentRanking "notes of Bob" sample_docs ≡ₚ sample_docs
  /\ query_matches "notes of Bob" (sample_doc "d3" "acme" "s3://b/bob_jones.pdf" 1) = 1.
Proof.
  split; [|vm_compute; reflexivity].
  apply (intent_ranking_correct "notes of Bob" sample_docs).
  repeat (apply Forall_cons; split; [discriminate|]). constructor.
Defined.

Lemma rerank_order_correct_witness :
  let ranked := [{| cand_DocumentID := "d3"; cand_Text := ""; cand_Score := float_of_int 1 |}] in
  order_by_rerank ranked sample_docs ≡ₚ sample_docs
  /\ head (order_by_rerank ranked sample_docs) = Some (sample_doc "d3" "acme" "s3://b/bob_jones.pdf" 1).
Proof.
  intros ranked. split; [|vm_compute; reflexivity].
  apply (rerank_order_correct ranked sample_docs).
  repeat (apply Forall_cons; split; [split; vm_compute; discriminate|]). constructor.
Defined.
