(* ===== verification/Gateway.v ===== *)
(** * Gateway: internal/adapters/gateway/portkey/reranker.go

    The reranker behind the Portkey gateway: bounded retries, a circuit
    breaker over consecutive failed calls, and a fallback policy.  The gateway
    client is a port over a world [W]; the adapter's own fields are a state
    next to it.  [now] is the system clock. *)

From S2P Require Import Prelude GoStrings GoSort Contracts VectorStub.

#[local] Open Scope Z_scope.

Record TokenUsage := { Input : Z; Output : Z; Total : Z }.

(** The gateway's request type. *)
Record GatewayRequest := {
  gr_TenantID : TenantID; gr_RequestID : string; gr_QueryText : string;
  gr_Candidates : list RerankCandidate; gr_TopN : Z; gr_Metadata : gmap string string }.

Record Client (W : Type) := {
  client_Rerank : context -> GatewayRequest -> M W (result (list RerankCandidate * TokenUsage)) }.
Arguments client_Rerank {W}.

Record Config := {
  BaseURL : string; APIKey : string; Timeout : Z; RetryMax : Z; CircuitFailureThreshold : Z;
  FallbackMode : string; DirectAllowlist : list string; Model : string; ProviderKey : string }.

Definition validateFallbackMode `{UnicodeTables} (mode : string) : option error :=
  if String.eqb mode "fail_closed" || String.eqb mode "direct_allowlist" || String.eqb mode "retrieval_only"
  then None
  else Some (errors_New ("unsupported FINE_RAG_GATEWAY_FALLBACK_MODE " +:+ Quote mode)).

(** The configuration with defaults, or the constructor's error. *)
Definition NewRerankerAdapter `{UnicodeTables} (cfg : Config) : result Config :=
  if String.eqb (TrimSpace (BaseURL cfg)) ""
  then Err (errors_New "FINE_RAG_PORTKEY_BASE_URL is required when FINE_RAG_GATEWAY_PROVIDER=portkey")
  else if String.eqb (TrimSpace (APIKey cfg)) ""
  then Err (errors_New "FINE_RAG_PORTKEY_API_KEY is required when FINE_RAG_GATEWAY_PROVIDER=portkey")
  else
    let cfg := {|
      BaseURL := BaseURL cfg; APIKey := APIKey cfg;
      Timeout := if Timeout cfg <=? 0 then 12 * Second else Timeout cfg;
      RetryMax := if RetryMax cfg <? 0 then 0 else RetryMax cfg;
      CircuitFailureThreshold :=
        if CircuitFailureThreshold cfg <=? 0 then 3 else CircuitFailureThreshold cfg;
      FallbackMode := if String.eqb (FallbackMode cfg) "" then "retrieval_only" else FallbackMode cfg;
      DirectAllowlist := DirectAllowlist cfg; Model := Model cfg; ProviderKey := ProviderKey cfg |} in
    check validateFallbackMode (FallbackMode cfg) ;; Ok cfg.

Definition toGatewayRequest (req : RerankRequest) : GatewayRequest := {|
  gr_TenantID := rk_TenantID req; gr_RequestID := rk_RequestID req; gr_QueryText := rk_QueryText req;
  gr_Candidates := rk_Candidates req; gr_TopN := rk_TopN req;
  gr_Metadata := list_to_map [("tenant_id", rk_TenantID req); ("request_id", rk_RequestID req)] |}.

Definition isAllowlisted (tenantID : TenantID) (allowlist : list string) : bool :=
  existsb (fun item => String.eqb item tenantID) allowlist.

(** [err] is nil only when no attempt was made. *)
Definition applyFallback (cfg : Config) (req : RerankRequest) (err : option error)
    : result (list RerankCandidate) :=
  let fail e := match e with Some err => Err err | None => Ok [] end in
  if String.eqb (FallbackMode cfg) "retrieval_only" then Ok (TopCandidates req)
  else if String.eqb (FallbackMode cfg) "direct_allowlist" then
    if isAllowlisted (rk_TenantID req) (DirectAllowlist cfg) then Ok (TopCandidates req)
    else Err (Errorf_w "fallback blocked for tenant: " (default (errors_New "%!w(<nil>)") err) "")
  else fail err.

Definition RedactedAPIKey (cfg : Config) : string :=
  if String.eqb (TrimSpace (APIKey cfg)) "" then "" else "REDACTED".

Definition BuildAuditAttributes (req : RerankRequest) (trace : GatewayCallTrace) : gmap string string :=
  list_to_map [
    ("tenant_id", rk_TenantID req); ("request_id", rk_RequestID req); ("provider", gt_Provider trace);
    ("status", gt_Status trace); ("fallback_reason", gt_FallbackReason trace)].

(** The stub used without a gateway. *)
Definition stubReranker {W} : Reranker W :=
  {| Contracts.Rerank _ req := mret (Ok (TopCandidates req)); LastGatewayTrace := None |}.

Section Adapter.
Context `{U : UnicodeTables} {W : Type}.
Variables (client : Client W) (now : M W Time) (cfg : Config).

(** The mutable fields of the adapter, and the world. *)
Record RerankerAdapter := {
  failures : Z; lastTrace : GatewayCallTrace; lastMetadata : gmap string string; world : W }.

Definition onW {A} (m : M W A) : M RerankerAdapter A := fun r =>
  let '(a, w) := m (world r) in
  (a, {| failures := failures r; lastTrace := lastTrace r; lastMetadata := lastMetadata r; world := w |}).

Definition isCircuitOpen : M RerankerAdapter bool := fun r =>
  (CircuitFailureThreshold cfg <=? failures r, r).
Definition registerFailure : M RerankerAdapter unit := fun r =>
  (tt, {| failures := wrap64 (failures r + 1); lastTrace := lastTrace r;
          lastMetadata := lastMetadata r; world := world r |}).
Definition resetFailures : M RerankerAdapter unit := fun r =>
  (tt, {| failures := 0; lastTrace := lastTrace r; lastMetadata := lastMetadata r; world := world r |}).
Definition recordTrace (t : GatewayCallTrace) : M RerankerAdapter unit := fun r =>
  (tt, {| failures := failures r; lastTrace := t; lastMetadata := lastMetadata r; world := world r |}).
Definition setMetadata (m : gmap string string) : M RerankerAdapter unit := fun r =>
  (tt, {| failures := failures r; lastTrace := lastTrace r; lastMetadata := m; world := world r |}).

Definition status_trace (status reason : string) : GatewayCallTrace := {|
  gt_Provider := "portkey"; gt_Model := ""; gt_LatencyMillis := 0; gt_TokenInput := 0;
  gt_TokenOutput := 0; gt_TokenTotal := 0; gt_Status := status; gt_FallbackReason := reason |}.

(** The attempts: the answer of the first that succeeds, or the last error. *)
Fixpoint attempts (n : nat) (ctx : context) (req : RerankRequest) (lastErr : option error)
    : M RerankerAdapter (list RerankCandidate + option error) :=
  match n with
  | O => mret (inr lastErr)
  | S n' =>
      start ← onW now;
      let gwReq := toGatewayRequest req in
      _ ← setMetadata (list_to_map [
            ("tenant_id", default "" (gr_Metadata gwReq !! "tenant_id"));
            ("request_id", default "" (gr_Metadata gwReq !! "request_id"))]);
      r ← onW (client_Rerank client ctx gwReq);
      match r with
      | Ok (candidates, usage) =>
          _ ← resetFailures;
          stop ← onW now;
          _ ← recordTrace {|
            gt_Provider := "portkey"; gt_Model := "portkey-rerank";
            gt_LatencyMillis := Milliseconds (Sub stop start); gt_TokenInput := Input usage;
            gt_TokenOutput := Output usage; gt_TokenTotal := Total usage; gt_Status := "ok";
            gt_FallbackReason := "" |};
          mret (inl candidates)
      | Err err => attempts n' ctx req (Some (NormalizeProviderError "portkey" "rerank" err))
      end
  end.

Definition Rerank (ctx : context) (req : RerankRequest)
    : M RerankerAdapter (result (list RerankCandidate)) :=
  match RerankRequest_Validate req with
  | Some err => mret (Err (WrapValidationErr "rerank_request" err))
  | None =>
  opened ← isCircuitOpen;
  if (opened : bool) then
    _ ← recordTrace (status_trace "circuit_open" "gateway_circuit_open");
    mret (applyFallback cfg req (Some (errors_New "gateway_circuit_open")))
  else
  out ← attempts (Z.to_nat (RetryMax cfg + 1)) ctx req None;
  match out with
  | inl candidates => mret (Ok candidates)
  | inr lastErr =>
      _ ← registerFailure;
      let reason := if match lastErr with Some e => errors_Is e DeadlineExceeded | None => false end
                    then "gateway_timeout" else "gateway_error" in
      _ ← recordTrace (status_trace "fallback" reason);
      mret (applyFallback cfg req lastErr)
  end
  end.
End Adapter.
Arguments RerankerAdapter : clear implicits.

(** * Facts *)

(** A client that logs the requests it is asked to send. *)
Definition logged {W} (client : Client W) : Client (W * list GatewayRequest) := {|
  client_Rerank ctx req := fun wl =>
    let '(r, w') := client_Rerank client ctx req wl.1 in (r, (w', wl.2 ++ [req])) |}.

Section Facts.
Context `{U : UnicodeTables} {W : Type}.
Variables (client : Client W) (now : M W Time).

(** The attempts send at most [n] copies of the request, all but the last of
    which failed; they succeed exactly when the last one did. *)
Lemma attempts_spec n ctx req : forall lastErr r,
  let '(out, r') := attempts (logged client) (lift now) n ctx req lastErr r in
  exists k, (world r').2 = (world r).2 ++ repeat (toGatewayRequest req) k /\ (k <= n)%nat
    /\ match out with
       | inl cands => (1 <= k)%nat /\ failures r' = 0
           /\ exists w usage, (client_Rerank client ctx (toGatewayRequest req) w).1 = Ok (cands, usage)
       | inr e => k = n /\ failures r' = failures r /\ (n = 0%nat -> e = lastErr)
           /\ ((0 < n)%nat -> exists w err, (client_Rerank client ctx (toGatewayRequest req) w).1 = Err err
                 /\ e = Some (NormalizeProviderError "portkey" "rerank" err))
       end.
Proof.
  induction n as [|n IH]; intros lastErr r; cbn [attempts].
  { exists 0%nat. simpl. rewrite app_nil_r. repeat split; auto; lia. }
  unfold mbind, M_bind, onW, lift. destruct (now (world r).1) as [start w1]. cbn. cbn [fst snd].
  destruct (client_Rerank client ctx (toGatewayRequest req) w1) as [[[cands usage]|err] w2] eqn:Hc.
  - cbn. destruct (now w2) as [stop w3]. cbn. exists 1%nat. split; [done|]. split; [lia|].
    split; [lia|]. split; [done|]. exists w1, usage. by rewrite Hc.
  - set (r1 := {| failures := _; lastTrace := _; lastMetadata := _; world := _ |}).
    specialize (IH (Some (NormalizeProviderError "portkey" "rerank" err)) r1).
    fold r1. destruct (attempts _ _ n ctx req _ r1) as [out r'].
    destruct IH as (k & Hlog & Hk & Hout). exists (S k). simpl in Hlog. split; [|split; [lia|]].
    { rewrite Hlog, <- app_assoc. done. }
    destruct out as [cands|e].
    + destruct Hout as (? & ? & ?). repeat split; auto; lia.
    + destruct Hout as (-> & Hf & He0 & He1). split; [done|]. split; [done|]. split; [lia|].
      intros _. destruct n as [|n]; [|apply He1; lia].
      rewrite He0 by done. exists w1, err. by rewrite Hc.
Qed.
End Facts.

Lemma NewRerankerAdapter_Ok `{U : UnicodeTables} cfg cfg' :
  NewRerankerAdapter cfg = Ok cfg' ->
  0 <= RetryMax cfg' /\ 0 < CircuitFailureThreshold cfg' /\ 0 < Timeout cfg'
  /\ FallbackMode cfg' ∈ ["fail_closed"; "direct_allowlist"; "retrieval_only"].
Proof.
  unfold NewRerankerAdapter. cbn zeta. destruct (String.eqb _ _); [done|]. destruct (String.eqb _ _); [done|].
  destruct (validateFallbackMode _) eqn:Hm; [done|]. intros [= <-].
  cbn [RetryMax CircuitFailureThreshold Timeout FallbackMode] in *.
  split; [destruct (Z.ltb_spec (RetryMax cfg) 0); lia|].
  split; [destruct (Z.leb_spec (CircuitFailureThreshold cfg) 0); lia|].
  split; [destruct (Z.leb_spec (Timeout cfg) 0); unfold Second; lia|].
  unfold validateFallbackMode in Hm. destruct (_ || _) eqn:E; [|done].
  rewrite !orb_true_iff, !String.eqb_eq in E. set_solver.
Qed.

(** * Theorems *)

Section Theorems.
Context `{U : UnicodeTables} {W : Type}.
Variables (client : Client W) (now : M W Time) (cfg0 cfg : Config).
Hypothesis Hcfg : NewRerankerAdapter cfg0 = Ok cfg.

(** C40: the gateway is called a bounded number of times, and only for the
    tenant of the request.  A call of [Rerank] on a valid request with the
    circuit closed sends between one and [RetryMax + 1] requests, all of them
    the request it was given, and counts one failure if none succeeds and
    resets the counter otherwise; with the circuit open, or for an invalid
    request, it sends nothing. *)
Theorem gateway_bounded_attempts ctx req r :
  let '(out, r') := Rerank (logged client) (lift now) cfg ctx req r in
  exists k, (world r').2 = (world r).2 ++ repeat (toGatewayRequest req) k
    /\ Z.of_nat k <= RetryMax cfg + 1
    /\ (RerankRequest_Validate req <> None -> k = 0%nat)
    /\ (CircuitFailureThreshold cfg <= failures r -> k = 0%nat)
    /\ (RerankRequest_Validate req = None -> failures r < CircuitFailureThreshold cfg ->
        (1 <= k)%nat /\
        ((failures r' = 0 /\ exists cands w usage, out = Ok cands
            /\ (client_Rerank client ctx (toGatewayRequest req) w).1 = Ok (cands, usage))
         \/ failures r' = wrap64 (failures r + 1))).
Proof.
  destruct (NewRerankerAdapter_Ok _ _ Hcfg) as (Hr & _ & _ & _).
  unfold Rerank. destruct (RerankRequest_Validate req).
  { exists 0%nat. simpl. rewrite app_nil_r. repeat split; try done; lia. }
  unfold mbind, M_bind, isCircuitOpen.
  destruct (Z.leb_spec (CircuitFailureThreshold cfg) (failures r)).
  { exists 0%nat. simpl. rewrite app_nil_r. repeat split; try done; lia. }
  pose proof (attempts_spec client now (Z.to_nat (RetryMax cfg + 1)) ctx req None r) as HA.
  destruct (attempts _ _ _ _ _ _ _) as [[cands|e] r1]; destruct HA as (k & Hlog & Hk & Hout).
  - exists k. cbn. split; [done|]. split; [lia|]. split; [done|]. split; [lia|]. intros _ _.
    destruct Hout as (Hk1 & Hf & w & usage & Hc). split; [done|]. left. split; [done|]. eauto.
  - exists k. cbn. split; [done|]. split; [lia|]. split; [done|]. split; [lia|]. intros _ _.
    destruct Hout as (-> & -> & _). split; [lia|]. by right.
Qed.

(** the fallback policy.  For a valid request: in mode [retrieval_only] the
    reranker never returns an error; in mode [direct_allowlist] it answers
    without the gateway only for the tenants of the list; in mode
    [fail_closed] it answers only with what the gateway returned. *)
Theorem gateway_fallback_policy ctx req r :
  RerankRequest_Validate req = None ->
  let out := (Rerank (logged client) (lift now) cfg ctx req r).1 in
  let from_gateway := exists cands w usage, out = Ok cands
    /\ (client_Rerank client ctx (toGatewayRequest req) w).1 = Ok (cands, usage) in
  from_gateway
  \/ (FallbackMode cfg = "retrieval_only" /\ out = Ok (TopCandidates req))
  \/ (FallbackMode cfg = "direct_allowlist" /\
      if bool_decide (rk_TenantID req ∈ DirectAllowlist cfg) then out = Ok (TopCandidates req)
      else exists e, out = Err e)
  \/ (FallbackMode cfg = "fail_closed" /\ exists e, out = Err e).
Proof.
  intros Hv. destruct (NewRerankerAdapter_Ok _ _ Hcfg) as (Hr & _ & _ & Hmode).
  assert (HF : forall e,
    (FallbackMode cfg = "retrieval_only" /\ applyFallback cfg req (Some e) = Ok (TopCandidates req))
    \/ (FallbackMode cfg = "direct_allowlist" /\
      if bool_decide (rk_TenantID req ∈ DirectAllowlist cfg)
      then applyFallback cfg req (Some e) = Ok (TopCandidates req)
      else exists e', applyFallback cfg req (Some e) = Err e')
    \/ (FallbackMode cfg = "fail_closed" /\ exists e', applyFallback cfg req (Some e) = Err e')).
  { intros e. unfold applyFallback.
    assert (Hal : isAllowlisted (rk_TenantID req) (DirectAllowlist cfg)
                  = bool_decide (rk_TenantID req ∈ DirectAllowlist cfg)).
    { unfold isAllowlisted. apply eq_iff_eq_true. rewrite existsb_exists, bool_decide_eq_true.
      setoid_rewrite String.eqb_eq. setoid_rewrite <- list_elem_of_In. naive_solver. }
    rewrite Hal. apply elem_of_cons in Hmode as [->|Hmode]; [right; right; simpl; eauto|].
    apply elem_of_cons in Hmode as [->|Hmode]; [|apply list_elem_of_singleton in Hmode as ->; by left]. simpl.
    right. left. split; [done|]. case_bool_decide; eauto. }
  cbn zeta. unfold Rerank. rewrite Hv. unfold mbind, M_bind, isCircuitOpen.
  destruct (Z.leb_spec (CircuitFailureThreshold cfg) (failures r)); [right; apply HF|].
  pose proof (attempts_spec client now (Z.to_nat (RetryMax cfg + 1)) ctx req None r) as HA.
  destruct (attempts _ _ _ _ _ _ _) as [[cands|e] r1]; destruct HA as (k & Hlog & Hk & Hout).
  - left. destruct Hout as (_ & _ & w & usage & Hc). exists cands, w, usage. done.
  - right. destruct Hout as (_ & _ & _ & He). destruct He as (w & err & _ & ->); [lia|]. apply HF.
Qed.

(** once the circuit of the gateway is open it stays open: no call reaches
    the gateway any more, and the counter does not change. *)
Theorem gateway_open_is_permanent ctx reqs r :
  CircuitFailureThreshold cfg <= failures r ->
  let r' := fold_left (fun r req => (Rerank (logged client) (lift now) cfg ctx req r).2) reqs r in
  failures r' = failures r /\ (world r').2 = (world r).2.
Proof.
  cbn zeta. revert r. induction reqs as [|req reqs IH]; intros r Ho; [done|]. simpl.
  assert (Hs : failures (Rerank (logged client) (lift now) cfg ctx req r).2 = failures r
    /\ world (Rerank (logged client) (lift now) cfg ctx req r).2 = world r).
  { unfold Rerank. destruct (RerankRequest_Validate req); [done|]. unfold mbind, M_bind, isCircuitOpen.
    by rewrite (proj2 (Z.leb_le _ _) Ho). }
  destruct Hs as [Hf Hw]. destruct (IH (Rerank (logged client) (lift now) cfg ctx req r).2) as [H1 H2];
    [by rewrite Hf|]. by rewrite H1, H2, Hf, Hw.
Qed.
End Theorems.

(** ** Examples *)

#[local] Existing Instance latin1.

Definition sample_config : Config := {|
  BaseURL := "https://gw"; APIKey := "k"; Timeout := 0; RetryMax := 2; CircuitFailureThreshold := 2;
  FallbackMode := "direct_allowlist"; DirectAllowlist := ["acme"]; Model := ""; ProviderKey := "" |}.
Definition sample_config' : Config := {|
  BaseURL := "https://gw"; APIKey := "k"; Timeout := 12 * Second; RetryMax := 2;
  CircuitFailureThreshold := 2; FallbackMode := "direct_allowlist"; DirectAllowlist := ["acme"];
  Model := ""; ProviderKey := "" |}.
(** A client that fails. *)
Definition failingClient : Client unit :=
  {| client_Rerank _ _ := mret (Err (errors_New "portkey unavailable")) |}.
Definition sample_request (t : TenantID) : RerankRequest := {|
  rk_TenantID := t; rk_RequestID := "r1"; rk_QueryText := "q";
  rk_Candidates := [{| cand_DocumentID := "d1"; cand_Text := ""; cand_Score := float_of_int 1 |}];
  rk_TopN := 1 |}.
Definition fresh (n : Z) : RerankerAdapter (unit * list GatewayRequest) := {|
  failures := n; lastTrace := status_trace "" ""; lastMetadata := ∅; world := (tt, []) |}.

Lemma gateway_bounded_attempts_witness :
  let r' := (Rerank (logged failingClient) (lift (mret 0)) sample_config' None (sample_request "acme") (fresh 0)).2 in
  length (world r').2 = 3%nat /\ failures r' = 1
  /\ exists k, (world r').2 = [] ++ repeat (toGatewayRequest (sample_request "acme")) k
       /\ Z.of_nat k <= 3.
Proof.
  cbn zeta. split; [vm_compute; reflexivity|]. split; [vm_compute; reflexivity|].
  pose proof (gateway_bounded_attempts failingClient (mret 0) sample_config sample_config' eq_refl
    None (sample_request "acme") (fresh 0)) as H.
  destruct (Rerank _ _ _ _ _ _) as [out r']. destruct H as (k & H1 & H2 & _). exists k. split; [exact H1|exact H2].
Defined.

Lemma gateway_fallback_policy_witness :
  (Rerank (logged failingClient) (lift (mret 0)) sample_config' None (sample_request "acme") (fresh 0)).1
  = Ok (TopCandidates (sample_request "acme")).
Proof.
  destruct (gateway_fallback_policy failingClient (mret 0) sample_config sample_config' eq_refl
    None (sample_request "acme") (fresh 0) eq_refl) as [(cands & w & usage & _ & H)|[[H _]|[[_ H]|[H _]]]].
  - discriminate H.
  - discriminate H.
  - exact H.
  - discriminate H.
Defined.

Lemma gateway_open_is_permanent_witness :
  let r' := fold_left (fun r req => (Rerank (logged failingClient) (lift (mret 0)) sample_config' None req r).2)
              [sample_request "acme"; sample_request "globex"] (fresh 2) in
  failures r' = 2 /\ (world r').2 = [].
Proof.
  apply (gateway_open_is_permanent failingClient (mret 0) sample_config' None
    [sample_request "acme"; sample_request "globex"] (fresh 2)).
  vm_compute. discriminate.
Defined.
