(* ===== verification/RerankClients.v ===== *)
(** * RerankClients: internal/adapters/gateway/cohere/reranker.go and the HTTP client of
    portkey/reranker.go

    The two rerankers that speak HTTP.  Both send the texts of the candidates and get
    back positions and scores; a position outside the candidates is skipped.  The
    Cohere reranker keeps a failure counter and answers with the candidates as they
    are, best first, whenever the service is of no use; the Portkey client reports
    errors, which [Gateway] retries.  The theorems: what comes back are candidates of
    the request, under every failure; the breaker of the Cohere reranker; and the
    composition of the Portkey client with the adapter of [Gateway]. *)

From S2P Require Import Prelude GoStrings GoSort GoJSON GoFloat Contracts GoHTTP VectorStub Gateway.

#[local] Open Scope Z_scope.

(** ** The answer of a rerank service *)

(** One result: a position in the documents that were sent, and its score. *)
Record rerank_hit := { hit_Index : Z; hit_Score : float64 }.
Definition no_hit : rerank_hit := {| hit_Index := 0; hit_Score := float_of_int 0 |}.
Definition hit_fields : list (field rerank_hit) := [
  int_field "index" (fun h z => {| hit_Index := z; hit_Score := hit_Score h |});
  float_field "relevance_score" (fun h x => {| hit_Index := hit_Index h; hit_Score := x |})].

(** The results, and the units that were billed. *)
Record rerank_payload := { rp_Results : list rerank_hit; rp_Units : Z }.
Definition no_payload : rerank_payload := {| rp_Results := []; rp_Units := 0 |}.
Definition results_field : field rerank_payload :=
  slice_field "results" (unmarshal false hit_fields) no_hit rp_Results
    (fun p hs => {| rp_Results := hs; rp_Units := rp_Units p |}).
Definition set_units (p : rerank_payload) (z : Z) : rerank_payload := {| rp_Results := rp_Results p; rp_Units := z |}.
(** [meta.billed_units.search_units], and [usage.total_tokens] *)
Definition cohere_fields : list (field rerank_payload) := [
  results_field;
  struct_field "meta" [struct_field "billed_units" [int_field "search_units" (fun _ z => z)] id (fun _ z => z)]
    rp_Units set_units].
Definition portkey_fields : list (field rerank_payload) := [
  results_field; struct_field "usage" [int_field "total_tokens" (fun _ z => z)] rp_Units set_units].

(** The candidate at the position of a result, with its score.  The lookup is total, as an
    index expression is: what keeps it inside the slice is the guard alone. *)
Definition zero_candidate : RerankCandidate := {| cand_DocumentID := ""; cand_Text := ""; cand_Score := float_of_int 0 |}.
Definition pick (cands : list RerankCandidate) (h : rerank_hit) : option RerankCandidate :=
  if (hit_Index h <? 0) || (Z.of_nat (length cands) <=? hit_Index h) then None
  else let orig := nth (Z.to_nat (hit_Index h)) cands zero_candidate in
       Some {| cand_DocumentID := cand_DocumentID orig; cand_Text := cand_Text orig; cand_Score := hit_Score h |}.
Definition picked (cands : list RerankCandidate) (hits : list rerank_hit) : list RerankCandidate := omap (pick cands) hits.

(** ** The Cohere reranker *)

Module Cohere.

Record Config := {
  APIKey : string; Model : string; Timeout : Z; RetryMax : Z; CircuitFailureThreshold : Z }.

Definition NewCohereReranker `{UnicodeTables} (cfg : Config) : result Config :=
  if String.eqb (TrimSpace (APIKey cfg)) "" then Err (errors_New "cohere api key is required")
  else Ok {|
    APIKey := APIKey cfg;
    Model := if String.eqb (TrimSpace (Model cfg)) "" then "rerank-v4.0-pro" else Model cfg;
    Timeout := if Timeout cfg <=? 0 then 12 * Second else Timeout cfg;
    RetryMax := RetryMax cfg;
    CircuitFailureThreshold := if CircuitFailureThreshold cfg <=? 0 then 3 else CircuitFailureThreshold cfg |}.

Definition rerank_url : string := "https://api.cohere.com/v2/rerank".

Section Reranker.
Context `{U : UnicodeTables} {W : Type}.
Variables (cl : HTTPClient W) (now : M W Time) (cfg : Config).

Record CohereReranker := { failures : Z; lastTrace : GatewayCallTrace; world : W }.

Definition onW {A} (m : M W A) : M CohereReranker A := fun r =>
  let '(a, w) := m (world r) in (a, {| failures := failures r; lastTrace := lastTrace r; world := w |}).
Definition isCircuitOpen : M CohereReranker bool := fun r => (CircuitFailureThreshold cfg <=? failures r, r).
Definition recordFailure : M CohereReranker unit := fun r =>
  (tt, {| failures := wrap64 (failures r + 1); lastTrace := lastTrace r; world := world r |}).
Definition resetFailures : M CohereReranker unit := fun r =>
  (tt, {| failures := 0; lastTrace := lastTrace r; world := world r |}).
Definition recordTrace (status : string) (latency units : Z) : M CohereReranker unit := fun r =>
  (tt, {| failures := failures r;
          lastTrace := {| gt_Provider := "cohere"; gt_Model := Model cfg; gt_LatencyMillis := latency; gt_TokenInput := 0;
                          gt_TokenOutput := 0; gt_TokenTotal := units; gt_Status := status; gt_FallbackReason := "" |};
          world := world r |}).
Definition LastGatewayTrace (r : CohereReranker) : GatewayCallTrace := lastTrace r.
(** [time.Since(started).Milliseconds()] *)
Definition since (started : Time) : M CohereReranker Z :=
  t ← onW now; mret (Milliseconds (Sub t started)).

Definition payload_json (req : RerankRequest) : json :=
  JObj [("documents", JArr ((fun c => JStr (cand_Text c)) <$> rk_Candidates req)); ("model", JStr (Model cfg));
        ("query", JStr (rk_QueryText req)); ("top_n", int_json (rk_TopN req))].

(** The end of a call that got no answer: a failure is counted. *)
Definition gave_up (status : string) (started : Time) (req : RerankRequest) : M CohereReranker (result (list RerankCandidate)) :=
  _ ← recordFailure;
  latency ← since started;
  _ ← recordTrace status latency 0;
  mret (Ok (TopCandidates req)).

Definition Rerank (ctx : context) (req : RerankRequest) : M CohereReranker (result (list RerankCandidate)) :=
  match RerankRequest_Validate req with
  | Some err => mret (Err (WrapValidationErr "cohere_rerank_request" err))
  | None =>
  if (length (rk_Candidates req) <? 3)%nat then mret (Ok (TopCandidates req))
  else
  opened ← isCircuitOpen;
  if (opened : bool) then mret (Ok (TopCandidates req))
  else
  started ← onW now;
  match NewRequest cl ctx "POST" rerank_url (json_encode (payload_json req)) with
  | Err err => mret (Err err)
  | Ok httpReq =>
  let httpReq := Header_Set "Authorization" ("Bearer " +:+ TrimSpace (APIKey cfg)) httpReq in
  let httpReq := Header_Set "Content-Type" "application/json" httpReq in
  resp ← onW (Do cl ctx httpReq);
  match resp with
  | Err _ => gave_up "timeout" started req
  | Ok resp =>
  if negb (is2xx resp) then gave_up "error" started req
  else
  _ ← resetFailures;
  match Unmarshal cohere_fields no_payload (hp_Body resp) with
  | None => mret (Ok (TopCandidates req))
  | Some result =>
      if (length (rp_Results result) =? 0)%nat then mret (Ok (TopCandidates req))
      else
        let out := picked (rk_Candidates req) (rp_Results result) in
        latency ← since started;
        _ ← recordTrace "ok" latency (rp_Units result);
        mret (Ok out)
  end
  end
  end
  end.
End Reranker.
Arguments CohereReranker : clear implicits.
End Cohere.

(** ** The HTTP client of the Portkey adapter *)

Module PortkeyHTTP.

Record portkeyRerankClient := { apiKey : string; baseURL : string; model : string; providerKey : string }.
(** The client that [NewRerankerAdapter] makes. *)
Definition default_client (cfg : Gateway.Config) : portkeyRerankClient := {|
  apiKey := Gateway.APIKey cfg; baseURL := Gateway.BaseURL cfg; model := Gateway.Model cfg;
  providerKey := Gateway.ProviderKey cfg |}.

Section Client.
Context `{U : UnicodeTables} {W : Type}.
Variables (cl : HTTPClient W) (c : portkeyRerankClient).

Definition body_json (req : GatewayRequest) : json :=
  let modelName := if String.eqb (model c) "" then "portkey-rerank" else model c in
  JObj ([("documents", JArr ((fun c => JStr (cand_Text c)) <$> gr_Candidates req)); ("model", JStr modelName);
         ("query", JStr (gr_QueryText req))]
        ++ if 0 <? gr_TopN req then [("top_n", int_json (gr_TopN req))] else []).

Definition Rerank (ctx : context) (req : GatewayRequest) : M W (result (list RerankCandidate * TokenUsage)) :=
  match NewRequest cl ctx "POST" (trim_right_slashes (baseURL c) +:+ "/v1/rerank") (json_encode (body_json req)) with
  | Err err => mret (Err err)
  | Ok httpReq =>
  let httpReq := Header_Set "Content-Type" "application/json" httpReq in
  let httpReq := Header_Set "x-portkey-api-key" (TrimSpace (apiKey c)) httpReq in
  let httpReq := if negb (String.eqb (providerKey c) "")
                 then Header_Set "Authorization" ("Bearer " +:+ TrimSpace (providerKey c)) httpReq else httpReq in
  resp ← Do cl ctx httpReq;
  match resp with
  | Err err => mret (Err err)
  | Ok resp =>
  if negb (is2xx resp) then
    mret (Err (errors_New ("portkey rerank failed: status=" +:+ Itoa (hp_StatusCode resp) +:+ " body=" +:+ hp_Body resp)))
  else
  match Decode portkey_fields no_payload (hp_Body resp) with
  | None => mret (Err (stream_error cl resp))
  | Some payload =>
      if (length (rp_Results payload) =? 0)%nat then mret (Err (errors_New "empty rerank response"))
      else mret (Ok (picked (gr_Candidates req) (rp_Results payload),
                     {| Input := 0; Output := 0; Total := rp_Units payload |}))
  end
  end
  end.

Definition client : Gateway.Client W := {| client_Rerank := Rerank |}.
End Client.
End PortkeyHTTP.

Example cohere_answer :
  let q s := dq +:+ s +:+ dq in
  (fun p => (hit_Index <$> rp_Results p, rp_Units p)) <$>
    Unmarshal cohere_fields no_payload
      ("{" +:+ q "id" +:+ ":" +:+ q "x" +:+ "," +:+ q "results" +:+ ":[{" +:+ q "index" +:+ ":2,"
       +:+ q "relevance_score" +:+ ":0.9},{" +:+ q "index" +:+ ":0}]," +:+ q "meta" +:+ ":{" +:+ q "billed_units"
       +:+ ":{" +:+ q "search_units" +:+ ":1}}}")
  = Some ([2; 0], 1).
Proof. vm_compute. reflexivity. Qed.

(** * Facts *)

(** [c] is a candidate of [cands], up to its score. *)
Definition candidate_of (cands : list RerankCandidate) (c : RerankCandidate) : Prop :=
  exists orig, orig ∈ cands /\ cand_DocumentID c = cand_DocumentID orig /\ cand_Text c = cand_Text orig.

(** The reading of a list of results: each position that exists gives its candidate with
    the score of the result, in the order of the results, and the others give nothing. *)
Inductive reads (cands : list RerankCandidate) : list rerank_hit -> list RerankCandidate -> Prop :=
| reads_nil : reads cands [] []
| reads_hit i score orig hits out :
    0 <= i -> cands !! Z.to_nat i = Some orig -> reads cands hits out ->
    reads cands ({| hit_Index := i; hit_Score := score |} :: hits)
      ({| cand_DocumentID := cand_DocumentID orig; cand_Text := cand_Text orig; cand_Score := score |} :: out)
| reads_skip i score hits out :
    i < 0 \/ Z.of_nat (length cands) <= i -> reads cands hits out ->
    reads cands ({| hit_Index := i; hit_Score := score |} :: hits) out.

Lemma picked_reads cands hits : reads cands hits (picked cands hits).
Proof.
  induction hits as [|[i score] hits IH]; [constructor|]. unfold picked in *. cbn [omap list_omap]. unfold pick. cbn [hit_Index hit_Score].
  destruct (Z.ltb_spec i 0); [constructor; [by left|done]|].
  destruct (Z.leb_spec (Z.of_nat (length cands)) i); [constructor; [by right|done]|]. cbn [orb].
  destruct (lookup_lt_is_Some_2 cands (Z.to_nat i)) as [orig Ho]; [lia|].
  rewrite (nth_lookup_Some _ _ _ _ Ho). by constructor.
Qed.
Lemma reads_candidates cands hits out : reads cands hits out -> Forall (candidate_of cands) out.
Proof.
  induction 1 as [|i score orig hits out _ Ho _ IH|]; [constructor| |done]. constructor; [|done].
  exists orig. split; [by eapply list_elem_of_lookup_2|done].
Qed.
Lemma picked_candidates cands hits : Forall (candidate_of cands) (picked cands hits).
Proof. eapply reads_candidates, picked_reads. Qed.
Lemma TopCandidates_candidates req : Forall (candidate_of (rk_Candidates req)) (TopCandidates req).
Proof.
  apply Forall_forall. intros c Hc. exists c. split; [|done]. destruct (TopCandidates_prefix req) as [dropped E].
  rewrite <- (SliceStable_perm (by_score cand_Score) (rk_Candidates req)), E. apply elem_of_app. by left.
Qed.

(** What the adapter answers comes from its client or is the fallback. *)
Lemma attempts_from `{U : UnicodeTables} {W} (client : Gateway.Client W) (now : M W Time) n ctx req : forall lastErr r cands,
  (attempts client now n ctx req lastErr r).1 = inl cands ->
  exists w usage, (client_Rerank client ctx (toGatewayRequest req) w).1 = Ok (cands, usage).
Proof.
  induction n as [|n IH]; intros lastErr r cands; cbn [attempts]; [discriminate|]. unfold mbind, M_bind, Gateway.onW.
  destruct (now _) as [start w1]. cbn -[toGatewayRequest].
  destruct (client_Rerank client ctx (toGatewayRequest req) w1) as [[[cs usage]|err] w2] eqn:Hc.
  - cbn. destruct (now w2) as [stop w3]. cbn. intros [= <-]. exists w1, usage. by rewrite Hc.
  - apply IH.
Qed.
Lemma gateway_answers `{U : UnicodeTables} {W} (client : Gateway.Client W) (now : M W Time) cfg ctx req r out :
  (Gateway.Rerank client now cfg ctx req r).1 = Ok out ->
  out = TopCandidates req \/ out = []
  \/ exists w usage, (client_Rerank client ctx (toGatewayRequest req) w).1 = Ok (out, usage).
Proof.
  assert (HF : forall e, applyFallback cfg req e = Ok out -> out = TopCandidates req \/ out = []).
  { intros e. unfold applyFallback. cbn zeta. repeat case_match; naive_solver. }
  unfold Gateway.Rerank. destruct (RerankRequest_Validate req); [discriminate|].
  unfold mbind, M_bind, Gateway.isCircuitOpen. destruct (_ <=? _); [intros H%HF; tauto|].
  destruct (attempts _ _ _ _ _ _ _) as [[cands|e] r1] eqn:E; cbn.
  - intros [= <-]. right. right. eapply attempts_from. by rewrite E.
  - intros H%HF. tauto.
Qed.

(** * Theorems *)

Section CohereTheorems.
Import Cohere.
Context `{U : UnicodeTables} {W : Type}.
Variables (cl : HTTPClient W) (now : M W Time) (cfg : Config).

(** What a call that was sent comes to: the candidates [out], and the state [r'] it leaves
    behind the state [r], by the outcome of the HTTP exchange. *)
Definition answered (req : RerankRequest) (outcome : result HTTPResponse) (r : CohereReranker W)
    (out : list RerankCandidate) (r' : CohereReranker W) : Prop :=
  match outcome with
  | Err _ => failures r' = wrap64 (failures r + 1) /\ out = TopCandidates req /\ gt_Status (lastTrace r') = "timeout"
  | Ok resp =>
      if (200 <=? hp_StatusCode resp) && (hp_StatusCode resp <? 300) then
        failures r' = 0
        /\ match Unmarshal cohere_fields no_payload (hp_Body resp) with
           | None => out = TopCandidates req /\ lastTrace r' = lastTrace r
           | Some {| rp_Results := [] |} => out = TopCandidates req /\ lastTrace r' = lastTrace r
           | Some {| rp_Results := hits; rp_Units := units |} =>
               reads (rk_Candidates req) hits out
               /\ gt_Status (lastTrace r') = "ok" /\ gt_TokenTotal (lastTrace r') = units
           end
      else failures r' = wrap64 (failures r + 1) /\ out = TopCandidates req /\ gt_Status (lastTrace r') = "error"
  end.

Lemma answered_candidates req outcome r out r' :
  answered req outcome r out r' -> Forall (candidate_of (rk_Candidates req)) out.
Proof.
  pose proof (TopCandidates_candidates req) as HT. unfold answered. destruct outcome as [resp|e].
  - destruct (_ && _); [|by intros (_ & -> & _)]. intros [_ H]. revert H.
    destruct (Unmarshal _ _ _) as [[[|h hits] units]|]; [by intros [-> _]| |by intros [-> _]].
    intros [H _]. by eapply reads_candidates.
  - by intros (_ & -> & _).
Qed.

(** A call that sends the request, and what becomes of it. *)
Lemma rerank_sends c req r :
  url_error cl rerank_url = None -> RerankRequest_Validate req = None ->
  (3 <= length (rk_Candidates req))%nat -> failures r < CircuitFailureThreshold cfg ->
  exists hreq out r', Rerank cl now cfg (Some c) req r = (Ok out, r')
    /\ hq_Method hreq = "POST" /\ hq_URL hreq = rerank_url /\ hq_Body hreq = json_encode (payload_json cfg req)
    /\ hq_Header hreq !! "Authorization" = Some ("Bearer " +:+ TrimSpace (APIKey cfg))
    /\ answered req (Do cl (Some c) hreq (now (world r)).2).1 r out r'.
Proof.
  intros Hu Hv Hl Ho. unfold Rerank. rewrite Hv, (proj2 (Nat.ltb_ge _ _) Hl).
  unfold mbind, M_bind, isCircuitOpen. rewrite (proj2 (Z.leb_gt _ _) Ho). unfold onW at 1.
  destruct (now (world r)) as [started w1] eqn:En. unfold NewRequest. rewrite Hu. cbn zeta.
  set (hreq := Header_Set _ _ _). exists hreq. unfold answered.
  unfold onW at 1. cbn [world snd]. destruct (Do cl (Some c) hreq w1) as [[resp|err] w2]; cbn [fst].
  2: { unfold gave_up, since, onW. run_M. cbn. destruct (now w2). by eexists _, _. }
  change ((200 <=? hp_StatusCode resp) && (hp_StatusCode resp <? 300)) with (is2xx resp).
  destruct (is2xx resp); cbn [negb].
  2: { unfold gave_up, since, onW. run_M. cbn. destruct (now w2). by eexists _, _. }
  cbn -[Unmarshal]. destruct (Unmarshal cohere_fields no_payload (hp_Body resp)) as [[hits units]|] eqn:Ep; [|by eexists _, _].
  cbn [rp_Results rp_Units]. destruct hits as [|h hits]; [by eexists _, _|]. cbn [length Nat.eqb].
  unfold since, onW. run_M. cbn -[picked]. destruct (now w2). eexists _, _. split_and!; try done. apply picked_reads.
Qed.

(** C24: the Cohere reranker never fails a search.  For a valid request it returns no error,
    and all it returns are candidates of the request up to their scores (none, if the
    service names only positions that do not exist).  With fewer than three candidates,
    or the circuit open, it returns the best candidates, makes no call and keeps its
    state.  Otherwise it posts the query and the texts of the candidates in their order.
    When the exchange fails it counts one failure, returns the best candidates and traces
    timeout; with a status outside 200-299 it does the same and traces error; with one
    inside the count goes to zero, and the result is the best candidates when the body
    does not decode or has no results, and otherwise exactly the candidates at the
    positions the service names, in its order and with its scores, where positions that do
    not exist are skipped. *)
Theorem cohere_rerank_total c req r :
  url_error cl rerank_url = None -> RerankRequest_Validate req = None ->
  exists out r', Rerank cl now cfg (Some c) req r = (Ok out, r')
    /\ Forall (candidate_of (rk_Candidates req)) out
    /\ ((length (rk_Candidates req) < 3)%nat \/ CircuitFailureThreshold cfg <= failures r ->
          out = TopCandidates req /\ r' = r)
    /\ ((3 <= length (rk_Candidates req))%nat -> failures r < CircuitFailureThreshold cfg ->
          exists hreq, hq_Method hreq = "POST" /\ hq_URL hreq = "https://api.cohere.com/v2/rerank"
            /\ hq_Header hreq !! "Authorization" = Some ("Bearer " +:+ TrimSpace (APIKey cfg))
            /\ hq_Body hreq = json_encode (JObj [
                 ("documents", JArr (map (fun cand => JStr (cand_Text cand)) (rk_Candidates req)));
                 ("model", JStr (Model cfg)); ("query", JStr (rk_QueryText req)); ("top_n", int_json (rk_TopN req))])
            /\ answered req (Do cl (Some c) hreq (now (world r)).2).1 r out r').
Proof.
  intros Hu Hv. pose proof (TopCandidates_candidates req) as HT.
  destruct (decide (length (rk_Candidates req) < 3)%nat) as [Hl|Hl].
  { exists (TopCandidates req), r. unfold Rerank. rewrite Hv, (proj2 (Nat.ltb_lt _ _) Hl). split_and!; try done; lia. }
  destruct (decide (CircuitFailureThreshold cfg <= failures r)) as [Ho|Ho].
  { exists (TopCandidates req), r. unfold Rerank. rewrite Hv, (proj2 (Nat.ltb_ge _ _)) by lia.
    unfold mbind, M_bind, isCircuitOpen. rewrite (proj2 (Z.leb_le _ _) Ho). split_and!; try done; lia. }
  destruct (rerank_sends c req r Hu Hv ltac:(lia) ltac:(lia)) as (hreq & out & r' & E & Hm & HU & HB & HA & HS).
  exists out, r'. split; [done|]. split; [by eapply answered_candidates|]. split; [lia|]. intros _ _. by exists hreq.
Qed.
End CohereTheorems.

(** C25: the adapter of [Gateway] with its HTTP client returns candidates of the request
    only, whatever the gateway answers and in every fallback mode: no text and no
    identifier of a document comes from the gateway. *)
Theorem portkey_rerank_from_request `{U : UnicodeTables} {W} (cl : HTTPClient W) (now : M W Time) cfg ctx req r out :
  (Gateway.Rerank (PortkeyHTTP.client cl (PortkeyHTTP.default_client cfg)) now cfg ctx req r).1 = Ok out ->
  Forall (candidate_of (rk_Candidates req)) out.
Proof.
  intros [->|[->|(w & usage & H)]]%gateway_answers; [apply TopCandidates_candidates|constructor|].
  revert H. cbn [PortkeyHTTP.client client_Rerank]. unfold PortkeyHTTP.Rerank, NewRequest.
  destruct ctx as [c|]; [|discriminate]. destruct (url_error cl _); [discriminate|]. cbn zeta. run_M.
  destruct (Do cl (Some c) _ w) as [[resp|e] w']; [|discriminate].
  destruct (negb (is2xx resp)); [discriminate|]. destruct (Decode _ _ _) as [p|]; [|discriminate].
  destruct (_ =? 0)%nat; [discriminate|]. cbn [fst]. intros [= <- _]. apply (picked_candidates (rk_Candidates req)).
Qed.

(** ** Witnesses *)

#[local] Existing Instance latin1.

(** A service that answers with positions 2, 7 and 0, as long as the world is positive. *)
Definition sample_answer : string :=
  let q s := dq +:+ s +:+ dq in
  "{" +:+ q "results" +:+ ":[{" +:+ q "index" +:+ ":2},{" +:+ q "index" +:+ ":7},{" +:+ q "index" +:+ ":0}]}".
Definition sample_http : HTTPClient nat := {|
  url_error _ := None;
  Do _ req := fun n => match n with
    | O => (Err (errors_New "connection refused"), O)
    | S m => (Ok {| hp_StatusCode := 200; hp_Header := ∅; hp_Body := sample_answer; hp_ReadErr := None |}, m)
    end;
  json_error s := errors_New s; stream_error _ := errors_New "unexpected EOF" |}.
Definition sample_rerank : RerankRequest := {|
  rk_TenantID := "acme"; rk_RequestID := "r1"; rk_QueryText := "q"; rk_TopN := 2;
  rk_Candidates := (fun id => {| cand_DocumentID := id; cand_Text := "text " +:+ id; cand_Score := float_of_int 1 |})
    <$> ["d1"; "d2"; "d3"] |}.
Definition sample_cohere : Cohere.Config := {|
  Cohere.APIKey := "k"; Cohere.Model := "m"; Cohere.Timeout := Second; Cohere.RetryMax := 0; Cohere.CircuitFailureThreshold := 1 |}.
Definition fresh_cohere (failures : Z) (n : nat) : Cohere.CohereReranker nat := {|
  Cohere.failures := failures; Cohere.lastTrace := status_trace "" ""; Cohere.world := n |}.

(** A first call that is answered, one that fails, and one with the circuit open. *)
Lemma cohere_rerank_total_witness :
  let r := Cohere.Rerank sample_http (mret 0) sample_cohere (Some Background) sample_rerank in
  (exists out r' hreq, r (fresh_cohere 0 1) = (Ok out, r') /\ cand_DocumentID <$> out = ["d3"; "d1"]
     /\ answered sample_rerank (Do sample_http (Some Background) hreq 1%nat).1 (fresh_cohere 0 1) out r')
  /\ (exists out r' hreq, r (fresh_cohere 0 0) = (Ok out, r') /\ cand_DocumentID <$> out = ["d1"; "d2"]
     /\ Cohere.failures r' = 1
     /\ answered sample_rerank (Do sample_http (Some Background) hreq 0%nat).1 (fresh_cohere 0 0) out r')
  /\ exists out r', r (fresh_cohere 1 1) = (Ok out, r') /\ r' = fresh_cohere 1 1.
Proof.
  pose proof (fun f n => cohere_rerank_total sample_http (mret 0) sample_cohere Background sample_rerank (fresh_cohere f n)
    eq_refl eq_refl) as T. cbn zeta. split; [|split].
  - destruct (T 0 1%nat) as (out & r' & E & _ & _ & H). destruct H as (hreq & _ & _ & _ & _ & H); [vm_compute; lia|reflexivity|].
    exists out, r', hreq. split; [exact E|]. split; [|exact H]. vm_compute in E. injection E as <- _. reflexivity.
  - destruct (T 0 0%nat) as (out & r' & E & _ & _ & H). destruct H as (hreq & _ & _ & _ & _ & H); [vm_compute; lia|reflexivity|].
    exists out, r', hreq. split; [exact E|]. split; [|split; [|exact H]]; vm_compute in E; injection E as <- <-; reflexivity.
  - destruct (T 1 1%nat) as (out & r' & E & _ & H & _). exists out, r'. split; [exact E|]. apply H. right. vm_compute. discriminate.
Defined.

Lemma portkey_rerank_from_request_witness :
  exists out, (Gateway.Rerank (PortkeyHTTP.client sample_http (PortkeyHTTP.default_client Gateway.sample_config')) (mret 0)
                 Gateway.sample_config' (Some Background) sample_rerank
                 {| Gateway.failures := 0; Gateway.lastTrace := status_trace "" ""; Gateway.lastMetadata := ∅; Gateway.world := 1%nat |}).1
              = Ok out /\ cand_DocumentID <$> out = ["d3"; "d1"] /\ Forall (candidate_of (rk_Candidates sample_rerank)) out.
Proof.
  eexists. split; [|split].
  2: { instantiate (1 := picked (rk_Candidates sample_rerank)
         ((fun i => {| hit_Index := i; hit_Score := float_of_int 0 |}) <$> [2; 7; 0])). reflexivity. }
  - vm_compute. reflexivity.
  - eapply (portkey_rerank_from_request sample_http (mret 0) Gateway.sample_config' (Some Background) sample_rerank
      {| Gateway.failures := 0; Gateway.lastTrace := status_trace "" ""; Gateway.lastMetadata := ∅; Gateway.world := 1%nat |}).
    vm_compute. reflexivity.
Defined.
