(* ===== verification/Chat.v ===== *)
(** * Chat: internal/adapters/gateway/portkey/chat.go

    The client of the language model: the answer to a question from the retrieved
    context, and the rewriting of a query.  Both post a chat completion and read the
    text of the first choice, which a provider may send as a string, as a list of
    parts or as nested objects.  The theorems: what is sent and under which
    credentials; the answer is what the first choice of a 2xx response says, a relation
    on the JSON of the body that does not mention the decoder; a rewritten query is the
    object the model wrote, inside the Markdown fence that models put around JSON, with
    the query itself in place of an empty list. *)

From Stdlib Require Import Ascii.
From S2P Require Import Prelude GoStrings GoSort GoJSON GoFloat Contracts GoHTTP.

#[local] Open Scope Z_scope.

Record ChatConfig := {
  BaseURL : string; PortkeyAPIKey : string; OpenRouterKey : string; Model : string; Timeout : Z; ProviderHeader : string }.

Section Pure.
Context `{U : UnicodeTables}.

Definition chatRequiresOpenRouterAuth (model : string) : bool := negb (HasPrefix (TrimSpace model) "@").

(** The configuration of the client, with its defaults. *)
Definition NewChatClient (cfg : ChatConfig) : result ChatConfig :=
  if String.eqb (TrimSpace (BaseURL cfg)) "" then Err (errors_New "portkey base url is required")
  else if String.eqb (TrimSpace (PortkeyAPIKey cfg)) "" then Err (errors_New "portkey api key is required")
  else if chatRequiresOpenRouterAuth (Model cfg) && String.eqb (TrimSpace (OpenRouterKey cfg)) ""
  then Err (errors_New "openrouter api key is required")
  else
    let model := if String.eqb (TrimSpace (Model cfg)) "" then "@groq-key/openai/gpt-oss-120b" else Model cfg in
    Ok {|
      BaseURL := BaseURL cfg; PortkeyAPIKey := PortkeyAPIKey cfg; OpenRouterKey := OpenRouterKey cfg; Model := model;
      Timeout := if Timeout cfg <=? 0 then 12 * Second else Timeout cfg;
      ProviderHeader := if String.eqb (TrimSpace (ProviderHeader cfg)) "" && chatRequiresOpenRouterAuth model
                        then "openrouter" else ProviderHeader cfg |}.

Definition truncateChatBody (body : string) : string :=
  if len body <=? 240 then body else str_take 240 body +:+ "...".

(** The text of a message: a string, a list of parts, or an object that holds it
    under [text], [content] or [value], the first of them that is there. *)
Fixpoint flattenMessageContent (content : json) : string :=
  match content with
  | JStr s => TrimSpace s
  | JArr l =>
      let parts := filter (fun segment => segment <> "") (map (fun item => TrimSpace (flattenMessageContent item)) l) in
      TrimSpace (Join parts " ")
  | JObj fs =>
      let v := map (fun kv => (kv.1, flattenMessageContent kv.2)) fs in
      match obj_get v "text" with
      | Some text => text
      | None => match obj_get v "content" with
                | Some contentValue => contentValue
                | None => default "" (obj_get v "value")
                end
      end
  | JNum lit => match ParseFloat64 lit with Some x => TrimSpace (FormatFloat_f x) | None => "" end
  | _ => ""
  end.

(** A choice: its message's content, and its text. *)
Record choice := { ch_Content : json; ch_Text : string }.
Definition no_choice : choice := {| ch_Content := JNull; ch_Text := "" |}.
Definition choice_fields : list (field choice) := [
  struct_field "message" [any_field "content" (fun _ v => v)] ch_Content
    (fun c v => {| ch_Content := v; ch_Text := ch_Text c |});
  str_field "text" (fun c s => {| ch_Content := ch_Content c; ch_Text := s |})].
Definition choices_fields : list (field (list choice)) := [
  slice_field "choices" (unmarshal false choice_fields) no_choice id (fun _ cs => cs)].

Definition extractChatChoiceText (json_error : string -> error) (rawBody : string) : result string :=
  match Unmarshal choices_fields [] rawBody with
  | None => Err (json_error rawBody)
  | Some [] => Err (errors_New "empty query rewrite response")
  | Some (choice :: _) =>
      let text := TrimSpace (ch_Text choice) in
      if negb (String.eqb text "") then Ok text
      else
        let text := TrimSpace (flattenMessageContent (ch_Content choice)) in
        if String.eqb text "" then Err (errors_New "empty query rewrite response") else Ok text
  end.

(** ** The requests *)

Definition nl : string := String (byte_of 10) "".
Definition message (role content : string) : json := JObj [("content", JStr content); ("role", JStr role)].
(** [body["user"]], when the context names a user. *)
Definition user_member (ctx : context) : list (string * json) :=
  match ProviderUserIDFromContext ctx with Some id => [("user", JStr id)] | None => [] end.

Definition system_prompt : string :=
  "You are a RAG answer generator. Use only the provided Context. Do not use outside knowledge. If Context is insufficient, clearly say so. Return output in this exact order and format:" +:+ nl
  +:+ "1. ANSWER: <one concise factual answer>" +:+ nl
  +:+ "2. CONFIDENCE: <High|Medium|Low>" +:+ nl
  +:+ "3. GAPS: <what is missing, or 'None'>" +:+ nl
  +:+ "Rules: keep facts grounded to context, do not invent values, do not reorder sections, and do not add extra sections.".
Definition user_prompt (query prompt : string) : string :=
  "Question:" +:+ nl +:+ TrimSpace query +:+ nl +:+ nl +:+ "Context:" +:+ nl +:+ prompt +:+ nl +:+ nl
  +:+ "Return strictly in the required 3-section order.".
Definition answer_body (cfg : ChatConfig) (ctx : context) (query prompt : string) : json :=
  JObj ([("max_tokens", JNum "512");
         ("messages", JArr [message "system" system_prompt; message "user" (user_prompt query prompt)]);
         ("model", JStr (Model cfg)); ("temperature", JNum "0.1")] ++ user_member ctx).

Definition rewrite_prompt (trimmed : string) : string :=
  let line s := s +:+ nl in
  let quoted s := dq +:+ s +:+ dq in
  line "You are a Search Optimization Expert. Your goal is to take a raw user query and transform it into a structured search request for a Retrieval-Augmented Generation (RAG) system."
  +:+ nl +:+ line "Instructions:" +:+ nl
  +:+ line "Decompose/Expand: Generate 3 distinct search queries that capture different facets of the user's intent (e.g., technical, conceptual, and summary-based)." +:+ nl
  +:+ line "Extract Metadata: Identify constraints mentioned in the query (e.g., date, author, category, status) and map them to the provided metadata schema." +:+ nl
  +:+ line "Format: Output ONLY a valid JSON object." +:+ nl
  +:+ line "Metadata Schema:" +:+ nl
  +:+ line "category: (e.g., 'financial', 'legal', 'technical')" +:+ nl
  +:+ line "date_range: (e.g., 'last_24h', '2024', 'none')" +:+ nl
  +:+ line "priority: (1 to 5)" +:+ nl
  +:+ line ("User Input: " +:+ quoted trimmed) +:+ nl
  +:+ line "JSON Output Format:" +:+ line "{"
  +:+ line (quoted "expanded_queries" +:+ ": [" +:+ quoted "query 1" +:+ ", " +:+ quoted "query 2" +:+ ", " +:+ quoted "query 3" +:+ "],")
  +:+ line (quoted "metadata_filters" +:+ ": {")
  +:+ line (quoted "category" +:+ ": " +:+ quoted "value" +:+ ",")
  +:+ line (quoted "date_range" +:+ ": " +:+ quoted "value" +:+ ",")
  +:+ line (quoted "priority" +:+ ": integer or null")
  +:+ line "}" +:+ line "}".
Definition rewrite_body (ctx : context) (trimmed : string) : json :=
  JObj ([("max_tokens", JNum "512"); ("messages", JArr [message "user" (rewrite_prompt trimmed)]);
         ("model", JStr "@google-gemini/gemini-2.5-flash"); ("temperature", JNum "0")] ++ user_member ctx).

(** The text without the Markdown fence around it. *)
Definition strip_fence (responseText : string) : string :=
  let responseText := TrimSpace responseText in
  let responseText :=
    if HasPrefix responseText "```json" then TrimSuffix (TrimPrefix responseText "```json") "```"
    else if HasPrefix responseText "```" then TrimSuffix (TrimPrefix responseText "```") "```"
    else responseText in
  TrimSpace responseText.

Definition no_query : StructuredQuery := {|
  sq_ExpandedQueries := []; sq_MetadataFilters := {| mf_Category := ""; mf_DateRange := ""; mf_Priority := None |} |}.
Definition filter_fields : list (field MetadataFilters) := [
  str_field "category" (fun f s => {| mf_Category := s; mf_DateRange := mf_DateRange f; mf_Priority := mf_Priority f |});
  str_field "date_range" (fun f s => {| mf_Category := mf_Category f; mf_DateRange := s; mf_Priority := mf_Priority f |});
  int_ptr_field "priority" (fun f p => {| mf_Category := mf_Category f; mf_DateRange := mf_DateRange f; mf_Priority := p |})].
Definition query_fields : list (field StructuredQuery) := [
  slice_field "expanded_queries" string_elem "" sq_ExpandedQueries
    (fun q l => {| sq_ExpandedQueries := l; sq_MetadataFilters := sq_MetadataFilters q |});
  struct_field "metadata_filters" filter_fields sq_MetadataFilters
    (fun q f => {| sq_ExpandedQueries := sq_ExpandedQueries q; sq_MetadataFilters := f |})].
End Pure.

(** ** The client *)

Section Client.
Context `{U : UnicodeTables} {W : Type}.
Variables (cl : HTTPClient W) (cfg : ChatConfig).

Definition completions_url : string := trim_right_slashes (BaseURL cfg) +:+ "/v1/chat/completions".
Definition with_provider (req : HTTPRequest) : HTTPRequest :=
  let provider := TrimSpace (ProviderHeader cfg) in
  if negb (String.eqb provider "") then Header_Set "x-portkey-provider" provider req else req.
Definition with_portkey (req : HTTPRequest) : HTTPRequest :=
  Header_Set "x-portkey-api-key" (TrimSpace (PortkeyAPIKey cfg)) (Header_Set "Content-Type" "application/json" req).
Definition with_authorization (req : HTTPRequest) : HTTPRequest :=
  if chatRequiresOpenRouterAuth (Model cfg) then
    let key := TrimSpace (OpenRouterKey cfg) in
    if negb (String.eqb key "") then Header_Set "Authorization" ("Bearer " +:+ key) req else req
  else req.

Definition GenerateAnswer (ctx : context) (query contextText : string) : M W (result string) :=
  let prompt := TrimSpace contextText in
  if String.eqb prompt "" then mret (Err (errors_New "empty retrieval context"))
  else
  match NewRequest cl ctx "POST" completions_url (json_encode (answer_body cfg ctx query prompt)) with
  | Err err => mret (Err err)
  | Ok req =>
  let req := with_provider (with_authorization (with_portkey req)) in
  resp ← Do cl ctx req;
  match resp with
  | Err err => mret (Err err)
  | Ok resp =>
  match ReadAll resp with
  | Err err => mret (Err err)
  | Ok rawBody =>
  if negb (is2xx resp) then
    let msg := TrimSpace rawBody in
    let pre := "portkey chat request failed: model=" +:+ Model cfg +:+ " status=" +:+ Itoa (hp_StatusCode resp) in
    mret (Err (errors_New (if String.eqb msg "" then pre else pre +:+ " body=" +:+ truncateChatBody msg)))
  else
  match extractChatChoiceText (json_error cl) rawBody with
  | Err err => mret (Err err)
  | Ok content =>
      if String.eqb (TrimSpace content) "" then mret (Err (errors_New "empty llm response"))
      else mret (Ok (TrimSpace content))
  end
  end
  end
  end.

Definition RewriteQuery (ctx : context) (tenantID : TenantID) (originalQuery : string) : M W (result StructuredQuery) :=
  match TenantID_Validate tenantID with
  | Some err => mret (Err err)
  | None =>
  let trimmed := TrimSpace originalQuery in
  if String.eqb trimmed "" then mret (Err (errors_New "query is required"))
  else
  match NewRequest cl ctx "POST" completions_url (json_encode (rewrite_body ctx trimmed)) with
  | Err err => mret (Err err)
  | Ok req =>
  let req := with_provider (with_portkey req) in
  resp ← Do cl ctx req;
  match resp with
  | Err err => mret (Err err)
  | Ok resp =>
  match ReadAll resp with
  | Err err => mret (Err err)
  | Ok rawBody =>
  if negb (is2xx resp) then
    mret (Err (errors_New ("portkey query rewrite failed: status=" +:+ Itoa (hp_StatusCode resp)
                           +:+ " body=" +:+ truncateChatBody rawBody)))
  else
  match extractChatChoiceText (json_error cl) rawBody with
  | Err err => mret (Err err)
  | Ok responseText =>
  let responseText := strip_fence responseText in
  match Unmarshal query_fields no_query responseText with
  | None => mret (Err (Errorf_w "failed to parse structured query JSON: " (json_error cl responseText) ""))
  | Some structured =>
      mret (Ok (match sq_ExpandedQueries structured with
                | [] => {| sq_ExpandedQueries := [trimmed]; sq_MetadataFilters := sq_MetadataFilters structured |}
                | _ => structured
                end))
  end
  end
  end
  end
  end
  end.

Definition rewriter : QueryRewriter W := {| Contracts.RewriteQuery := RewriteQuery |}.
End Client.

(** * Facts *)

Section Facts.
Context `{U : UnicodeTables}.

Lemma TrimSpace_pad s : TrimSpace (nl +:+ s +:+ nl) = TrimSpace s.
Proof.
  unfold TrimSpace. fold (trim space_glyph (glyphs (nl +:+ s +:+ nl))). fold (trim space_glyph (glyphs s)). f_equal.
  rewrite (glyphs_unfold (nl +:+ _)) by done. change (str_drop _ _) with (s +:+ nl). rewrite glyphs_app by done.
  by apply (trim_pad space_glyph _ _ (10, nl)).
Qed.

Definition fence (info s : string) : string := "```" +:+ info +:+ nl +:+ s +:+ nl +:+ "```".

Lemma TrimSpace_fence info s : TrimSpace (fence info s) = fence info s.
Proof.
  assert (E : exists l, glyphs (fence info s) = (96, "`") :: l ++ [(96, "`")]).
  { unfold fence. rewrite <- !str_app_assoc, glyphs_app by done. rewrite !str_app_assoc.
    rewrite (glyphs_unfold ("```" +:+ _)) by done.
    change (glyphs "```") with ([(96, "`"); (96, "`")] ++ [(96, "`")]).
    eexists. rewrite <- app_comm_cons, app_assoc. reflexivity. }
  destruct E as [l El]. by apply (TrimSpace_ends _ _ _ _ El).
Qed.

Lemma prefix_more p q s : HasPrefix s p = false -> HasPrefix s (p +:+ q) = false.
Proof.
  unfold HasPrefix. revert s. induction p as [|a p IH]; intros [|b s] H; try done.
  rewrite app_cons. cbn [String.prefix] in *. destruct (ascii_dec a b); [by apply IH|done].
Qed.
Lemma TrimSuffix_app s t : TrimSuffix (s +:+ t) t = s.
Proof.
  unfold TrimSuffix, HasSuffix. rewrite length_str_app.
  replace (String.length s + String.length t - String.length t)%nat with (String.length s) by lia.
  rewrite (proj2 (Nat.leb_le _ _)) by lia. rewrite str_drop_app, str_take_app by lia.
  rewrite str_drop_all, str_take_all, app_nil_l', String.eqb_refl by lia. done.
Qed.

Lemma flatten_trimmed v : TrimSpace (flattenMessageContent v) = flattenMessageContent v.
Proof.
  induction v as [|b|lit|s|l IH|fs IH] using json_tree_ind; cbn [flattenMessageContent]; try done.
  - destruct (ParseFloat64 lit); [apply TrimSpace_idemp|done].
  - apply TrimSpace_idemp.
  - apply TrimSpace_idemp.
  - set (v := map _ fs).
    assert (H : forall k t, obj_get v k = Some t -> TrimSpace t = t).
    { intros k t Hg. unfold obj_get in Hg. apply fmap_Some in Hg as ([k' t'] & Hl & ->).
      apply last_Some in Hl as [l' Hl]. cbn [snd].
      assert (Hin : (k', t') ∈ v) by (eapply list_elem_of_filter; rewrite Hl; apply elem_of_app; right; constructor).
      apply list_elem_of_In, in_map_iff in Hin as ([k0 v0] & [= <- <-] & Hin).
      rewrite Forall_forall in IH. by apply (IH (k0, v0)), list_elem_of_In. }
    destruct (obj_get v "text") eqn:E1; [by apply (H "text")|].
    destruct (obj_get v "content") eqn:E2; [by apply (H "content")|].
    destruct (obj_get v "value") eqn:E3; [by apply (H "value")|done].
Qed.

Lemma extract_Ok je raw t : extractChatChoiceText je raw = Ok t -> t <> "" /\ TrimSpace t = t.
Proof.
  unfold extractChatChoiceText. destruct (Unmarshal _ _ raw) as [[|c cs]|]; [discriminate| |discriminate]. cbn zeta.
  destruct (String.eqb_spec (TrimSpace (ch_Text c)) "") as [|Hn]; cbn [negb].
  - rewrite flatten_trimmed. destruct (String.eqb_spec (flattenMessageContent (ch_Content c)) ""); [discriminate|].
    intros [= <-]. split; [done|apply flatten_trimmed].
  - intros [= <-]. split; [done|apply TrimSpace_idemp].
Qed.

(** *** What a response says *)

(** The values an object has under a name; the case of a key does not count. *)
Definition named (name : string) (fs : list (string * json)) : list json :=
  snd <$> filter (fun kv => EqualFold_ascii kv.1 name = true) fs.

(** The words of a message's content: a string, the words of its parts one after the
    other, or those of the member an object keeps them in. *)
Inductive content_says : json -> string -> Prop :=
| says_string s : content_says (JStr s) (TrimSpace s)
| says_parts l ts : Forall2 content_says l ts ->
    content_says (JArr l) (TrimSpace (Join (filter (fun t => t <> "") ts) " "))
| says_text fs v t : obj_get fs "text" = Some v -> content_says v t -> content_says (JObj fs) t
| says_content fs v t : obj_get fs "text" = None -> obj_get fs "content" = Some v ->
    content_says v t -> content_says (JObj fs) t
| says_value fs v t : obj_get fs "text" = None -> obj_get fs "content" = None -> obj_get fs "value" = Some v ->
    content_says v t -> content_says (JObj fs) t
| says_no_member fs : obj_get fs "text" = None -> obj_get fs "content" = None -> obj_get fs "value" = None ->
    content_says (JObj fs) ""
| says_number lit x : ParseFloat64 lit = Some x -> content_says (JNum lit) (TrimSpace (FormatFloat_f x))
| says_nothing v : match v with JNull | JBool _ => True | JNum lit => ParseFloat64 lit = None | _ => False end ->
    content_says v "".

(** The words of a choice: its text, unless it is blank, and else the content of its
    message. *)
Definition choice_texts (fs : list (string * json)) : list string :=
  omap (fun v => match v with JStr t => Some t | _ => None end) (named "text" fs).
Definition choice_contents (fs : list (string * json)) : list json :=
  m ← named "message" fs; match m with JObj ms => named "content" ms | _ => [] end.
Definition choice_says (choice : json) (words : string) : Prop :=
  exists fs, choice = JObj fs /\
    let text := TrimSpace (default "" (last (choice_texts fs))) in
    if String.eqb text "" then exists v, last (choice_contents fs) = Some v /\ content_says v words else words = text.

(** What a response says: the words of the first of its choices, where the body names
    them once. *)
Definition response_says (body words : string) : Prop :=
  forall members first others, json_parse body = Some (JObj members) ->
    named "choices" members = [JArr (first :: others)] -> choice_says first words.

Lemma obj_get_map {A B} (f : A -> B) (fs : list (string * A)) k :
  obj_get (map (fun kv => (kv.1, f kv.2)) fs) k = f <$> obj_get fs k.
Proof.
  unfold obj_get. set (g := fun kv : string * A => (kv.1, f kv.2)).
  assert (E : filter (fun kv : string * B => kv.1 = k) (map g fs) = g <$> filter (fun kv : string * A => kv.1 = k) fs).
  { induction fs as [|[k' v] fs IH]; [done|]. cbn [map]. rewrite !filter_cons, IH. cbn [fst g]. by destruct (decide (k' = k)). }
  rewrite E, fmap_last. by destruct (last _).
Qed.
Lemma obj_get_elem {A} (fs : list (string * A)) k v : obj_get fs k = Some v -> (k, v) ∈ fs.
Proof.
  unfold obj_get. intros ([k' v'] & Hl & ->)%fmap_Some. apply last_Some in Hl as [l' Hl].
  assert (H : (k', v') ∈ filter (fun kv : string * A => kv.1 = k) fs) by (rewrite Hl; apply elem_of_app; right; constructor).
  apply list_elem_of_filter in H as [Hk H]. cbn in *. by subst.
Qed.
Lemma flatten_says v : content_says v (flattenMessageContent v).
Proof.
  induction v as [|b|lit|s|l IH|fs IH] using json_tree_ind; cbn [flattenMessageContent]; try by constructor.
  - destruct (ParseFloat64 lit) as [x|] eqn:E; [by eapply says_number|by constructor].
  - apply says_parts. induction IH as [|v l Hv _ IHl]; [constructor|]. cbn. constructor; [|done]. by rewrite flatten_trimmed.
  - assert (H : forall k v, obj_get fs k = Some v -> content_says v (flattenMessageContent v)).
    { intros k v Hv%obj_get_elem. rewrite Forall_forall in IH. exact (IH _ Hv). }
    rewrite !obj_get_map. destruct (obj_get fs "text") as [v|] eqn:E1; [eapply says_text; eauto|].
    destruct (obj_get fs "content") as [v|] eqn:E2; [eapply says_content; eauto|].
    destruct (obj_get fs "value") as [v|] eqn:E3; [eapply says_value; eauto|by apply says_no_member].
Qed.

Lemma find_one {T} (f : field T) k : find_field [f] k = if EqualFold_ascii k f.1 then Some f else None.
Proof.
  unfold find_field. cbn. destruct (String.eqb_spec f.1 k) as [<-|]; [|done].
  unfold EqualFold_ascii. by rewrite bool_decide_true.
Qed.
Lemma find_two {T} (f g : field T) k : EqualFold_ascii f.1 g.1 = false -> EqualFold_ascii g.1 f.1 = false ->
  find_field [f; g] k = if EqualFold_ascii k f.1 then Some f else if EqualFold_ascii k g.1 then Some g else None.
Proof.
  intros Hf Hg. unfold find_field. cbn. destruct (String.eqb_spec f.1 k) as [<-|].
  { unfold EqualFold_ascii. by rewrite bool_decide_true. }
  destruct (String.eqb_spec g.1 k) as [<-|]; [|done]. rewrite Hg. unfold EqualFold_ascii. by rewrite bool_decide_true.
Qed.
Lemma named_cons name k v fs : named name ((k, v) :: fs) = (if EqualFold_ascii k name then [v] else []) ++ named name fs.
Proof. unfold named. rewrite filter_cons. cbn. by destruct (EqualFold_ascii k name). Qed.
(** Names that differ are not the names of one key. *)
Lemma named_apart k a b : EqualFold_ascii a b = false -> EqualFold_ascii k a = true -> EqualFold_ascii k b = false.
Proof.
  unfold EqualFold_ascii. intros Hab Ha%bool_decide_eq_true. apply bool_decide_eq_false. apply bool_decide_eq_false in Hab.
  congruence.
Qed.

(** The values under a name decode one over the other, and what the other members set
    does not matter. *)
Fixpoint decode_all {A} (step : A -> json -> option A) (a : A) (vs : list json) : option A :=
  match vs with [] => Some a | v :: vs' => a' ← step a v; decode_all step a' vs' end.
Lemma set_fields_project {T A} (fields : list (field T)) name (get : T -> A) (step : A -> json -> option A) :
  (forall k, match find_field fields k with
             | Some f => forall t v t', f.2 t v = Some t' ->
                 if EqualFold_ascii k name then step (get t) v = Some (get t') else get t' = get t
             | None => EqualFold_ascii k name = false
             end) ->
  forall fs t t', set_fields false fields t fs = Some t' -> decode_all step (get t) (named name fs) = Some (get t').
Proof.
  intros Hf. induction fs as [|[k v] fs IH]; intros t t' H; [by apply (inj Some) in H as <-|].
  cbn [set_fields] in H. specialize (Hf k). rewrite named_cons. destruct (find_field fields k) as [f|]; [|rewrite Hf; by apply IH].
  apply bind_Some in H as (t1 & H1 & H). apply Hf in H1. apply IH in H.
  destruct (EqualFold_ascii k name); cbn [app decode_all]; [by rewrite H1|by rewrite <- H1].
Qed.
Lemma decode_all_last {A} (step : A -> json -> option A) (reading : json -> list A) vs :
  (forall a v a', step a v = Some a' -> a' = default a (last (reading v))) ->
  forall a a', decode_all step a vs = Some a' -> a' = default a (last (mbind reading vs)).
Proof.
  intros Hr. induction vs as [|v vs IH]; intros a a' H; [by apply (inj Some) in H as <-|].
  cbn [decode_all] in H. apply bind_Some in H as (a1 & H1%Hr & H%IH). cbn [mbind list_bind].
  rewrite last_app. fold (mbind (M := list) reading vs). subst. by destruct (last (vs ≫= reading)).
Qed.

Lemma singletons {A} (l : list A) : (l ≫= fun a => [a]) = l.
Proof. induction l as [|a l IH]; [done|]. change ((a :: l) ≫= fun a => [a]) with (a :: (l ≫= fun a => [a])). by rewrite IH. Qed.

(** A choice, as it is decoded. *)
Definition content_step (old v : json) : option json := unmarshal false [any_field "content" (fun _ v => v)] old v.
Lemma content_read old v new : content_step old v = Some new ->
  new = default old (last (match v with JObj ms => named "content" ms | _ => [] end)).
Proof.
  destruct v as [| | | | |ms]; try discriminate; cbn [content_step unmarshal]; [by intros [= <-]|]. intros H.
  apply (set_fields_project _ "content" id (fun _ v => Some v)) in H.
  - apply (decode_all_last _ (fun v => [v])) in H; [|by intros ? ? ? [= <-]].
    by rewrite singletons in H.
  - intros k. rewrite find_one. cbn [fst any_field]. destruct (EqualFold_ascii k "content"); [|done].
    cbn. intros t v t'. case_match; [|done]. by intros [= <-].
Qed.
Lemma strings_read vs : (vs ≫= fun v => match v with JStr t => [t] | _ => [] end)
  = omap (fun v => match v with JStr t => Some t | _ => None end) vs.
Proof.
  induction vs as [|v vs IH]; [done|]. cbn [omap list_omap]. rewrite <- IH. by destruct v.
Qed.
Lemma choice_read fs c : set_fields false choice_fields no_choice fs = Some c ->
  ch_Text c = default "" (last (choice_texts fs)) /\ ch_Content c = default JNull (last (choice_contents fs)).
Proof.
  intros H. split.
  - apply (set_fields_project _ "text" ch_Text string_elem) in H.
    + apply (decode_all_last _ (fun v => match v with JStr t => [t] | _ => [] end)) in H.
      * rewrite H. unfold choice_texts. f_equal. f_equal. apply strings_read.
      * intros a v a'. destruct v; cbn; intros [= <-]; done.
    + intros k. unfold choice_fields. rewrite find_two by (vm_compute; reflexivity). cbn [fst struct_field str_field].
      destruct (EqualFold_ascii k "message") eqn:Em.
      * rewrite (named_apart k "message" "text") by done. cbn [snd]. intros t v t' (x & _ & ->)%fmap_Some. done.
      * destruct (EqualFold_ascii k "text"); [|done]. cbn [snd]. intros t [] t'; cbn; intros [= <-]; done.
  - apply (set_fields_project _ "message" ch_Content content_step) in H.
    + apply (decode_all_last _ (fun m => match m with JObj ms => named "content" ms | _ => [] end)) in H; [done|apply content_read].
    + intros k. unfold choice_fields. rewrite find_two by (vm_compute; reflexivity). cbn [fst struct_field str_field].
      destruct (EqualFold_ascii k "message") eqn:Em.
      * cbn [snd]. intros t v t' (x & Hx & ->)%fmap_Some. done.
      * destruct (EqualFold_ascii k "text"); [|done]. cbn [snd]. intros t [] t'; cbn; intros [= <-]; done.
Qed.
Lemma extract_says je raw t : extractChatChoiceText je raw = Ok t -> response_says raw t.
Proof.
  unfold extractChatChoiceText, Unmarshal. intros H members first others Hp Hn. rewrite Hp in H. cbn [mbind option_bind unmarshal] in H.
  destruct (set_fields false choices_fields [] members) as [cs|] eqn:Es; [|discriminate].
  apply (set_fields_project _ "choices" id (fun old v => (slice_field "choices" (unmarshal false choice_fields) no_choice id (fun _ cs => cs)).2 old v)) in Es.
  2: { intros k. unfold choices_fields. rewrite find_one. cbn [fst slice_field]. by destruct (EqualFold_ascii k "choices"). }
  rewrite Hn in Es. cbn [decode_all slice_field snd id] in Es. apply bind_Some in Es as (cs' & Es & [= ->]).
  cbn [decode_elems] in Es. rewrite fmap_Some in Es. destruct Es as (cs' & Es & ->).
  apply bind_Some in Es as (c & Hc & Es). apply bind_Some in Es as (others' & _ & [= <-]). cbn [head default] in Hc.
  destruct first as [| | | | |fs]; try discriminate.
  { injection Hc as <-. cbn in H. discriminate. }
  cbn [unmarshal] in Hc. destruct (choice_read _ _ Hc) as [Ht Hv]. exists fs. split; [done|]. cbn zeta in *.
  rewrite <- Ht. destruct (String.eqb_spec (TrimSpace (ch_Text c)) ""); cbn [negb] in H; [|by injection H as <-].
  rewrite flatten_trimmed in H. destruct (String.eqb_spec (flattenMessageContent (ch_Content c)) "") as [|Hne]; [discriminate|].
  injection H as <-. destruct (last (choice_contents fs)) as [v|]; cbn in Hv; [|by rewrite Hv in Hne].
  exists v. split; [done|]. rewrite Hv. apply flatten_says.
Qed.

(** *** The text inside a Markdown fence *)

(** [unfenced text inner]: [inner] is the text without its fence.  The fence opens with
    or without the language [json], and need not be closed. *)
Inductive unfenced : string -> string -> Prop :=
| unfenced_plain s : HasPrefix s "```" = false -> unfenced s s
| unfenced_json s : unfenced ("```json" +:+ s +:+ "```") s
| unfenced_json_open s : HasSuffix s "```" = false -> unfenced ("```json" +:+ s) s
| unfenced_bare s : HasPrefix ("```" +:+ s +:+ "```") "```json" = false -> unfenced ("```" +:+ s +:+ "```") s
| unfenced_bare_open s : HasPrefix ("```" +:+ s) "```json" = false -> HasSuffix s "```" = false -> unfenced ("```" +:+ s) s.

Lemma TrimSuffix_other s t : HasSuffix s t = false -> TrimSuffix s t = s.
Proof. unfold TrimSuffix. by intros ->. Qed.
Lemma HasPrefix_iff s p : HasPrefix s p = true <-> exists t, s = p +:+ t.
Proof.
  unfold HasPrefix. revert s. induction p as [|a p IH]; intros s; [split; [by exists s|by destruct s]|].
  split.
  - destruct s as [|b s]; [done|]. cbn [String.prefix]. destruct (ascii_dec a b) as [<-|]; [|done].
    intros [t ->]%IH. by exists t.
  - intros [t ->]. rewrite app_cons. cbn [String.prefix]. destruct (ascii_dec a a); [|done]. apply IH. by exists t.
Qed.
Lemma HasPrefix_app p t : HasPrefix (p +:+ t) p = true.
Proof. apply HasPrefix_iff. by exists t. Qed.
Lemma HasSuffix_app s t : HasSuffix s t = true -> exists r, s = r +:+ t.
Proof.
  unfold HasSuffix. intros [_ H%String.eqb_eq]%andb_true_iff. set (n := (_ - _)%nat) in H.
  exists (str_take n s). rewrite <- H. symmetry. apply str_take_drop.
Qed.
Lemma TrimPrefix_app s t : TrimPrefix (t +:+ s) t = s.
Proof.
  unfold TrimPrefix. rewrite HasPrefix_app.
  by rewrite str_drop_app, str_drop_all by lia.
Qed.
(** Every text is plain or fenced. *)
Lemma unfenced_total text : exists inner, unfenced text inner.
Proof.
  destruct (HasPrefix text "```") eqn:Hp; [|exists text; by constructor].
  destruct (HasPrefix text "```json") eqn:Hj.
  - apply HasPrefix_iff in Hj as [s ->]. destruct (HasSuffix s "```") eqn:Hs; [|exists s; by constructor].
    apply HasSuffix_app in Hs as [r ->]. exists r. constructor.
  - apply HasPrefix_iff in Hp as [s ->]. destruct (HasSuffix s "```") eqn:Hs; [|exists s; by constructor].
    apply HasSuffix_app in Hs as [r ->]. exists r. by constructor.
Qed.
Lemma unfenced_strip text inner : TrimSpace text = text -> unfenced text inner -> strip_fence text = TrimSpace inner.
Proof.
  intros Ht H. unfold strip_fence. cbn zeta. rewrite Ht. destruct H as [s H|s|s H|s H|s H1 H2].
  - assert (HasPrefix s "```json" = false) as -> by (change "```json" with ("```" +:+ "json"); by apply prefix_more).
    by rewrite H.
  - rewrite HasPrefix_app. by rewrite TrimPrefix_app, TrimSuffix_app.
  - rewrite HasPrefix_app. by rewrite TrimPrefix_app, TrimSuffix_other.
  - rewrite H, HasPrefix_app. by rewrite TrimPrefix_app, TrimSuffix_app.
  - rewrite H1, HasPrefix_app. by rewrite TrimPrefix_app, TrimSuffix_other.
Qed.

(** The queries of the object the model wrote. *)
Definition queries_step (old : list string) (v : json) : option (list string) :=
  match v with JArr vs => decode_elems string_elem "" old vs | JNull => Some [] | _ => None end.
Lemma query_read text sq members : Unmarshal query_fields no_query text = Some sq -> json_parse text = Some (JObj members) ->
  decode_all queries_step [] (named "expanded_queries" members) = Some (sq_ExpandedQueries sq).
Proof.
  unfold Unmarshal. intros H E. rewrite E in H. cbn [mbind option_bind unmarshal] in H.
  apply (set_fields_project _ "expanded_queries" sq_ExpandedQueries queries_step) in H; [done|].
  intros k. unfold query_fields. rewrite find_two by (vm_compute; reflexivity). cbn [fst slice_field struct_field].
  destruct (EqualFold_ascii k "expanded_queries") eqn:Eq.
  - cbn [snd]. intros t [| | | |vs|] t'; try discriminate; cbn [queries_step]; [by intros [= <-]|].
    by intros (l & -> & ->)%fmap_Some.
  - destruct (EqualFold_ascii k "metadata_filters"); [|done]. cbn [snd]. by intros t v t' (x & _ & ->)%fmap_Some.
Qed.
Lemma decode_strings qs : forall old, decode_elems string_elem "" old (JStr <$> qs) = Some qs.
Proof. induction qs as [|q qs IH]; intros old; [done|]. cbn. by rewrite IH. Qed.

Lemma user_member_wf ctx : foldr (fun kv acc => json_wf kv.2 /\ acc) True (user_member ctx)
  /\ foldr (fun kv acc => Z.max (json_depth kv.2) acc) 0 (user_member ctx) = 0.
Proof. unfold user_member. by destruct (ProviderUserIDFromContext ctx). Qed.
End Facts.

(** * Theorems *)

Section Theorems.
Context `{U : UnicodeTables} {W : Type}.
Variables (cl : HTTPClient W) (cfg : ChatConfig).

(** The credentials of a request that carried none. *)
Lemma answer_headers req : hq_Header req = ∅ ->
  let h := hq_Header (with_provider cfg (with_authorization cfg (with_portkey cfg req))) in
  h !! "X-Portkey-Api-Key" = Some (TrimSpace (PortkeyAPIKey cfg))
  /\ h !! "Authorization" = (if chatRequiresOpenRouterAuth (Model cfg) && negb (String.eqb (TrimSpace (OpenRouterKey cfg)) "")
                             then Some ("Bearer " +:+ TrimSpace (OpenRouterKey cfg)) else None).
Proof.
  intros He. cbn zeta. unfold with_provider, with_authorization, with_portkey.
  destruct (chatRequiresOpenRouterAuth (Model cfg)), (String.eqb (TrimSpace (OpenRouterKey cfg)) "");
    cbn [negb andb]; destruct (negb (String.eqb (TrimSpace (ProviderHeader cfg)) "")); cbn [Header_Set hq_Header]; rewrite He;
    change (CanonicalHeaderKey "x-portkey-api-key") with "X-Portkey-Api-Key";
    change (CanonicalHeaderKey "Content-Type") with "Content-Type";
    change (CanonicalHeaderKey "x-portkey-provider") with "X-Portkey-Provider";
    change (CanonicalHeaderKey "Authorization") with "Authorization"; by simplify_map_eq.
Qed.
Lemma rewrite_headers req : hq_Header req = ∅ ->
  hq_Header (with_provider cfg (with_portkey cfg req)) !! "Authorization" = None.
Proof.
  intros He. unfold with_provider, with_portkey. destruct (negb _); cbn [Header_Set hq_Header]; rewrite He;
    change (CanonicalHeaderKey "x-portkey-api-key") with "X-Portkey-Api-Key";
    change (CanonicalHeaderKey "Content-Type") with "Content-Type";
    change (CanonicalHeaderKey "x-portkey-provider") with "X-Portkey-Provider"; by simplify_map_eq.
Qed.
Lemma is2xx_range resp : is2xx resp = true -> 200 <= hp_StatusCode resp < 300.
Proof. unfold is2xx. lia. Qed.
Lemma provider_keeps req : hq_Method (with_provider cfg req) = hq_Method req
  /\ hq_URL (with_provider cfg req) = hq_URL req /\ hq_Body (with_provider cfg req) = hq_Body req.
Proof. unfold with_provider. by destruct (negb _). Qed.
Lemma authorization_keeps req : hq_Method (with_authorization cfg req) = hq_Method req /\
  hq_URL (with_authorization cfg req) = hq_URL req /\ hq_Body (with_authorization cfg req) = hq_Body req.
Proof. unfold with_authorization. by repeat case_match. Qed.

Lemma literal_512 : number_literal "512".
Proof. exact (Itoa_literal 512). Qed.
Lemma literal_0 : number_literal "0".
Proof. exact (Itoa_literal 0). Qed.
Lemma literal_0_1 : number_literal "0.1".
Proof.
  intros rest Hr. destruct (num_end_parts rest Hr) as (Hd & _ & He). unfold parse_number.
  change ("0.1" +:+ rest) with (String "0"%char (String "."%char (String "1"%char rest))).
  cbn iota beta. change (byte_val "0"%char =? 45) with false. cbn iota.
  change (int_part (String "0"%char (String "."%char (String "1"%char rest)))) with (Some ("0", String "."%char (String "1"%char rest))).
  cbn [mbind option_bind]. assert (frac_part (String "."%char (String "1"%char rest)) = Some (".1", rest)) as ->.
  { unfold frac_part. cbn iota beta. change (byte_val "."%char =? 46) with true. cbn iota. cbn [take_digits].
    change (is_digit "1"%char) with true. cbn iota. destruct rest as [|a r]; [done|]. cbn [take_digits].
    cbn in Hd. by rewrite Hd. }
  cbn [mbind option_bind]. by rewrite He.
Qed.

Lemma answer_body_read ctx query prompt :
  json_parse (json_encode (answer_body cfg ctx query prompt)) = Some (json_norm (answer_body cfg ctx query prompt)).
Proof.
  destruct (user_member_wf ctx) as [Hw Hd]. apply json_roundtrip.
  - cbn [answer_body json_wf app foldr snd message]. split_and!; try done; auto using literal_512, literal_0, literal_0_1.
  - cbn [answer_body json_depth app foldr snd message]. rewrite Hd. lia.
Qed.
Lemma rewrite_body_read ctx trimmed :
  json_parse (json_encode (rewrite_body ctx trimmed)) = Some (json_norm (rewrite_body ctx trimmed)).
Proof.
  destruct (user_member_wf ctx) as [Hw Hd]. apply json_roundtrip.
  - cbn [rewrite_body json_wf app foldr snd message]. split_and!; try done; auto using literal_512, literal_0, literal_0_1.
  - cbn [rewrite_body json_depth app foldr snd message]. rewrite Hd. lia.
Qed.

Lemma within_app x s m : (exists before after, s = before +:+ m +:+ after) ->
  exists before after, x +:+ s = before +:+ m +:+ after.
Proof. intros (before & after & ->). exists (x +:+ before), after. by rewrite !str_app_assoc. Qed.
(** The prompt quotes the query. *)
Lemma rewrite_prompt_quotes trimmed : exists before after,
  rewrite_prompt trimmed = before +:+ ("User Input: " +:+ dq +:+ trimmed +:+ dq) +:+ after.
Proof.
  unfold rewrite_prompt. cbn zeta. rewrite !str_app_assoc.
  repeat (first [by exists ""; eexists; rewrite app_nil_l', !str_app_assoc; reflexivity|apply within_app]).
Qed.

(** C26: an answer of the language model is what the model said for this question and
    this context.  A call that succeeds made exactly one request, a POST to the
    completions endpoint of the gateway; the body reads back as the JSON object with the
    model, the system prompt and a user message that holds the trimmed question and the
    trimmed context; it carries the gateway key, and the provider key only for a model
    that is not a gateway virtual key and only when there is one.  The answer comes from a
    2xx response; it is the trimmed text of the first of the choices, or, when that is
    blank, what the content of its message says (for a body that names its choices once),
    not empty and without white space around it. *)
Theorem chat_answer_sound ctx query contextText w answer w' :
  GenerateAnswer cl cfg ctx query contextText w = (Ok answer, w') ->
  exists req resp, Do cl ctx req w = (Ok resp, w') /\ 200 <= hp_StatusCode resp < 300 /\ hp_ReadErr resp = None
    /\ response_says (hp_Body resp) answer /\ answer <> "" /\ TrimSpace answer = answer
    /\ TrimSpace contextText <> "" /\ hq_Method req = "POST"
    /\ hq_URL req = trim_right_slashes (BaseURL cfg) +:+ "/v1/chat/completions"
    /\ json_parse (hq_Body req) = Some (json_norm (JObj ([
         ("max_tokens", JNum "512");
         ("messages", JArr [
            JObj [("content", JStr system_prompt); ("role", JStr "system")];
            JObj [("content", JStr ("Question:" +:+ nl +:+ TrimSpace query +:+ nl +:+ nl
                                    +:+ "Context:" +:+ nl +:+ TrimSpace contextText +:+ nl +:+ nl
                                    +:+ "Return strictly in the required 3-section order."));
                  ("role", JStr "user")]]);
         ("model", JStr (Model cfg)); ("temperature", JNum "0.1")]
         ++ match ProviderUserIDFromContext ctx with Some id => [("user", JStr id)] | None => [] end)))
    /\ hq_Header req !! "X-Portkey-Api-Key" = Some (TrimSpace (PortkeyAPIKey cfg))
    /\ hq_Header req !! "Authorization"
       = (if negb (HasPrefix (TrimSpace (Model cfg)) "@") && negb (String.eqb (TrimSpace (OpenRouterKey cfg)) "")
          then Some ("Bearer " +:+ TrimSpace (OpenRouterKey cfg)) else None).
Proof.
  unfold GenerateAnswer, NewRequest, ReadAll. cbn zeta.
  destruct (String.eqb_spec (TrimSpace contextText) "") as [|Hp]; [discriminate|].
  destruct ctx as [c|]; [|discriminate]. destruct (url_error cl _); [discriminate|]. set (req0 := {| hq_Method := _ |}).
  run_M. set (req := with_provider cfg _). destruct (Do cl (Some c) req w) as [[resp|e] w1] eqn:ED; [|discriminate].
  destruct (hp_ReadErr resp) as [|] eqn:Er; [discriminate|]. destruct (is2xx resp) eqn:E2; cbn [negb]; [|discriminate].
  destruct (extractChatChoiceText _ _) as [content|] eqn:Ex; [|discriminate].
  pose proof (extract_Ok _ _ _ Ex) as [Hne Ht]. rewrite Ht.
  destruct (String.eqb_spec content ""); [done|]. intros H. injection H as <- <-.
  exists req, resp. destruct (answer_headers req0 eq_refl) as [H1 H2]. cbn zeta in H1, H2.
  apply is2xx_range in E2 as [E2 E3]. apply extract_says in Ex.
  destruct (provider_keeps (with_authorization cfg (with_portkey cfg req0))) as (Km & Ku & Kb).
  destruct (authorization_keeps (with_portkey cfg req0)) as (Lm & Lu & Lb).
  unfold req. rewrite Km, Ku, Kb, Lm, Lu, Lb. split_and!; try done. apply answer_body_read.
Qed.

(** C27: a rewritten query is the one the model wrote.  A call that succeeds is for a
    tenant and a query that are not empty, and made one request without a provider key,
    whose body reads back as the JSON object with a user message that quotes the trimmed
    query.  The text of the first choice of the 2xx response is plain or has a Markdown
    fence, with or without the language and closed or not; what is inside decodes to an
    object, whose filters are returned.  When it has expanded queries they are returned as
    they are (blank ones included); without any, the query itself is the one expanded
    query, so the list is never empty. *)
Theorem rewrite_query_sound ctx tenantID originalQuery w sq w' :
  RewriteQuery cl cfg ctx tenantID originalQuery w = (Ok sq, w') ->
  sq_ExpandedQueries sq <> [] /\ tenantID <> "" /\ TrimSpace originalQuery <> ""
  /\ exists req resp text inner s, Do cl ctx req w = (Ok resp, w') /\ 200 <= hp_StatusCode resp < 300
    /\ response_says (hp_Body resp) text
    /\ unfenced text inner /\ Unmarshal query_fields no_query (TrimSpace inner) = Some s
    /\ sq_MetadataFilters sq = sq_MetadataFilters s
    /\ (forall members qs, json_parse (TrimSpace inner) = Some (JObj members) ->
          named "expanded_queries" members = [JArr (map JStr qs)] -> qs <> [] -> sq_ExpandedQueries sq = qs)
    /\ (forall members, json_parse (TrimSpace inner) = Some (JObj members) ->
          named "expanded_queries" members = [] -> sq_ExpandedQueries sq = [TrimSpace originalQuery])
    /\ hq_Header req !! "Authorization" = None
    /\ exists before after, json_parse (hq_Body req) = Some (json_norm (JObj ([
         ("max_tokens", JNum "512");
         ("messages", JArr [
            JObj [("content", JStr (before +:+ "User Input: " +:+ dq +:+ TrimSpace originalQuery +:+ dq +:+ after));
                  ("role", JStr "user")]]);
         ("model", JStr "@google-gemini/gemini-2.5-flash"); ("temperature", JNum "0")]
         ++ match ProviderUserIDFromContext ctx with Some id => [("user", JStr id)] | None => [] end))).
Proof.
  unfold RewriteQuery, NewRequest, ReadAll. cbn zeta.
  destruct (TenantID_Validate tenantID) eqn:Et; [discriminate|]. apply TenantID_Validate_None in Et.
  destruct (String.eqb_spec (TrimSpace originalQuery) "") as [|Hp]; [discriminate|].
  destruct ctx as [c|]; [|discriminate]. destruct (url_error cl _); [discriminate|]. set (req0 := {| hq_Method := _ |}).
  run_M. set (req := with_provider cfg _). destruct (Do cl (Some c) req w) as [[resp|e] w1] eqn:ED; [|discriminate].
  destruct (hp_ReadErr resp) as [|] eqn:Er; [discriminate|]. destruct (is2xx resp) eqn:E2; cbn [negb]; [|discriminate].
  destruct (extractChatChoiceText _ _) as [text|] eqn:Ex; [|discriminate].
  destruct (Unmarshal query_fields no_query (strip_fence text)) as [s|] eqn:Es; [|discriminate].
  intros H. injection H as <- <-. split; [by destruct (sq_ExpandedQueries s) eqn:E; [|rewrite E]|]. split; [done|].
  split; [done|]. destruct (extract_Ok _ _ _ Ex) as [_ Ht]. apply extract_says in Ex. apply is2xx_range in E2 as [E2 E3].
  destruct (unfenced_total text) as [inner Hi]. rewrite (unfenced_strip _ _ Ht Hi) in Es.
  destruct (provider_keeps (with_portkey cfg req0)) as (_ & _ & Kb).
  exists req, resp, text, inner, s. unfold req. rewrite Kb. split_and!; try done.
  - by destruct (sq_ExpandedQueries s).
  - intros members qs Hm Hq Hne. pose proof (query_read _ _ _ Es Hm) as Hr. rewrite Hq in Hr.
    cbn [decode_all queries_step] in Hr. change (map JStr qs) with (JStr <$> qs) in Hr. rewrite decode_strings in Hr.
    injection Hr as Hr. rewrite <- Hr. destruct qs; [done|]. by rewrite <- Hr.
  - intros members Hm Hq. pose proof (query_read _ _ _ Es Hm) as Hr. rewrite Hq in Hr. injection Hr as Hr. by rewrite <- Hr.
  - by apply rewrite_headers.
  - destruct (rewrite_prompt_quotes (TrimSpace originalQuery)) as (before & after & Hb). exists before, after.
    rewrite !str_app_assoc in Hb. rewrite <- Hb. apply rewrite_body_read.
Qed.
End Theorems.

(** the Markdown fence that models put around JSON makes no difference: a text in a
    fence, with or without the language [json], is read as the text alone. *)
Theorem fence_transparent `{U : UnicodeTables} info s :
  info = "json" \/ info = "" -> HasPrefix (TrimSpace s) "```" = false ->
  strip_fence (fence info s) = strip_fence s /\ strip_fence s = TrimSpace s.
Proof.
  intros Hi Hs. assert (E : strip_fence s = TrimSpace s).
  { unfold strip_fence. cbn zeta. assert (HasPrefix (TrimSpace s) "```json" = false) as ->.
    { change "```json" with ("```" +:+ "json"). by apply prefix_more. }
    by rewrite Hs, TrimSpace_idemp. }
  split; [|done]. rewrite E. unfold strip_fence. cbn zeta. rewrite TrimSpace_fence.
  assert (Hc : fence info s = "```" +:+ info +:+ (nl +:+ s +:+ nl) +:+ "```") by (unfold fence; by rewrite !str_app_assoc).
  rewrite <- (TrimSpace_pad s), Hc. destruct Hi as [->| ->].
  - change (HasPrefix _ "```json") with true. cbv iota. f_equal.
    change (TrimPrefix _ "```json") with ((nl +:+ s +:+ nl) +:+ "```"). apply TrimSuffix_app.
  - change (HasPrefix _ "```json") with false. change (HasPrefix _ "```") with true. cbv iota. f_equal.
    change (TrimPrefix _ "```") with ((nl +:+ s +:+ nl) +:+ "```"). apply TrimSuffix_app.
Qed.

(** ** Examples *)

#[local] Existing Instance latin1.

Definition q (s : string) : string := dq +:+ s +:+ dq.

Example flatten_parts :
  flattenMessageContent (JArr [JStr " a "; JObj [("type", JStr "text"); ("text", JObj [("value", JStr "b ")])]; JNull; JNum "1.50"])
  = "a b 1.5".
Proof. vm_compute. reflexivity. Qed.
Example choice_text :
  extractChatChoiceText errors_New
    ("{" +:+ q "choices" +:+ ":[{" +:+ q "message" +:+ ":{" +:+ q "content" +:+ ":[{" +:+ q "text" +:+ ":" +:+ q " hi" +:+ "}]}}]}")
  = Ok "hi".
Proof. vm_compute. reflexivity. Qed.
Example fenced : strip_fence ("```json" +:+ nl +:+ "{}" +:+ nl +:+ "```") = "{}".
Proof. vm_compute. reflexivity. Qed.
(** A configuration without a model needs the key of a provider that the default
    model does not use. *)
Example empty_model_needs_key :
  let cfg model := {| BaseURL := "https://gw"; PortkeyAPIKey := "k"; OpenRouterKey := ""; Model := model; Timeout := 0;
                      ProviderHeader := "" |} in
  NewChatClient (cfg "") = Err (errors_New "openrouter api key is required")
  /\ is_Ok (NewChatClient (cfg "@groq-key/openai/gpt-oss-120b")) = true.
Proof. vm_compute. auto. Qed.

(** ** Witnesses *)

Definition sample_config : ChatConfig := {|
  BaseURL := "https://gw/"; PortkeyAPIKey := "pk"; OpenRouterKey := " or "; Model := "openai/gpt"; Timeout := Second;
  ProviderHeader := "openrouter" |}.
Definition chat_reply (text : string) : string :=
  json_encode (JObj [("choices", JArr [JObj [("text", JStr text)]; JObj [("text", JStr "other")]])]).
(** A gateway that answers with two choices, the text first, and counts its calls. *)
Definition sample_http (text : string) : HTTPClient nat := {|
  url_error _ := None;
  Do _ _ := fun n => (Ok {| hp_StatusCode := 200; hp_Header := ∅; hp_Body := chat_reply text; hp_ReadErr := None |}, S n);
  json_error s := errors_New s; stream_error _ := errors_New "unexpected EOF" |}.
Definition fenced_query : string :=
  fence "json" ("{" +:+ q "metadata_filters" +:+ ":{" +:+ q "category" +:+ ":" +:+ q "legal" +:+ "}}").

Lemma chat_answer_sound_witness :
  exists answer req, GenerateAnswer (sample_http " 42 ") sample_config (Some Background) "why?" " because " 0%nat = (Ok answer, 1%nat)
    /\ answer = "42" /\ choice_says (JObj [("text", JStr " 42 ")]) answer
    /\ hq_URL req = "https://gw/v1/chat/completions" /\ hq_Header req !! "Authorization" = Some "Bearer or"
    /\ json_parse (hq_Body req) <> None.
Proof.
  destruct (GenerateAnswer (sample_http " 42 ") sample_config (Some Background) "why?" " because " 0%nat)
    as [[answer|e] n] eqn:E; [|vm_compute in E; discriminate].
  assert (H : answer = "42" /\ n = 1%nat) by (vm_compute in E; injection E as <- <-; split; reflexivity).
  destruct H as [Ha ->].
  destruct (chat_answer_sound (sample_http " 42 ") sample_config (Some Background) "why?" " because " 0%nat answer 1%nat E)
    as (req & resp & HD & _ & _ & Hs & _ & _ & _ & _ & Hu & Hb & _ & Hk).
  exists answer, req. split; [reflexivity|]. split; [exact Ha|]. split.
  - injection HD as <-. eapply Hs; [vm_compute; reflexivity|vm_compute; reflexivity].
  - split; [exact Hu|]. split; [exact Hk|]. rewrite Hb. discriminate.
Defined.

(** An object in a fence, without queries of its own. *)
Lemma rewrite_query_sound_witness :
  exists sq, RewriteQuery (sample_http fenced_query) sample_config (Some Background) "acme" " contracts " 0%nat = (Ok sq, 1%nat)
    /\ sq_ExpandedQueries sq = ["contracts"] /\ mf_Category (sq_MetadataFilters sq) = "legal"
    /\ sq_ExpandedQueries sq <> []
    /\ exists req resp text inner, response_says (hp_Body resp) text /\ unfenced text inner
         /\ Do (sample_http fenced_query) (Some Background) req 0%nat = (Ok resp, 1%nat).
Proof.
  destruct (RewriteQuery (sample_http fenced_query) sample_config (Some Background) "acme" " contracts " 0%nat)
    as [[sq|e] n] eqn:E; [|vm_compute in E; discriminate].
  assert (H : sq_ExpandedQueries sq = ["contracts"] /\ mf_Category (sq_MetadataFilters sq) = "legal" /\ n = 1%nat)
    by (vm_compute in E; injection E as <- <-; auto).
  destruct H as (H1 & H2 & ->). exists sq. split; [reflexivity|]. split; [exact H1|]. split; [exact H2|].
  destruct (rewrite_query_sound (sample_http fenced_query) sample_config (Some Background) "acme" " contracts " 0%nat sq 1%nat E)
    as (Hn & _ & _ & req & resp & text & inner & s & HD & _ & Hs & Hi & _).
  split; [exact Hn|]. exists req, resp, text, inner. split; [exact Hs|]. split; [exact Hi|exact HD].
Defined.

Lemma fence_transparent_witness : strip_fence (fence "json" " {} ") = strip_fence " {} " /\ strip_fence " {} " = "{}".
Proof. apply (fence_transparent "json" " {} "); [left; reflexivity|vm_compute; reflexivity]. Defined.
