(* ===== verification/Embeddings.v ===== *)
(** * Embeddings: internal/adapters/gateway/portkey/embeddings.go

    The client of the embedding model: requests at least [MinInterval] apart, bounded
    retries after a failed or refused call, and a second model for a provider that
    does not embed.  The clock, the sleep and the HTTP client are ports.  The
    theorems: a result has one non-empty vector per non-blank chunk, from one
    response; the number of requests is bounded; the delays; the spacing of the
    requests of one caller, and that it does not hold for concurrent callers. *)

From Stdlib Require Import SpecFloat.
From S2P Require Import Prelude GoStrings GoSort GoJSON GoFloat Contracts GoHTTP Chat.

#[local] Open Scope Z_scope.

Record EmbeddingConfig := {
  BaseURL : string; PortkeyAPIKey : string; OpenRouterKey : string; Model : string; FallbackModel : string;
  Timeout : Z; ProviderHeader : string; MinInterval : Z; RetryMax : Z }.

Section Pure.
Context `{U : UnicodeTables}.

Definition requiresOpenRouterAuth (model : string) : bool := negb (HasPrefix (TrimSpace model) "@").

(** The configuration of the client, with its defaults. *)
Definition NewEmbeddingClient (cfg : EmbeddingConfig) : result EmbeddingConfig :=
  if String.eqb (TrimSpace (BaseURL cfg)) "" then Err (errors_New "portkey base url is required")
  else if String.eqb (TrimSpace (PortkeyAPIKey cfg)) "" then Err (errors_New "portkey api key is required")
  else if requiresOpenRouterAuth (Model cfg) && String.eqb (TrimSpace (OpenRouterKey cfg)) ""
  then Err (errors_New "openrouter api key is required")
  else
    let model := if String.eqb (TrimSpace (Model cfg)) ""
                 then "@openrouter-key/nvidia/llama-nemotron-embed-vl-1b-v2:free" else Model cfg in
    let cfg' := {|
      BaseURL := BaseURL cfg; PortkeyAPIKey := PortkeyAPIKey cfg; OpenRouterKey := OpenRouterKey cfg; Model := model;
      FallbackModel := FallbackModel cfg;
      Timeout := if Timeout cfg <=? 0 then 12 * Second else Timeout cfg;
      ProviderHeader := if String.eqb (TrimSpace (ProviderHeader cfg)) "" && requiresOpenRouterAuth model
                        then "openrouter" else ProviderHeader cfg;
      MinInterval := if MinInterval cfg <=? 0 then 900 * Millisecond else MinInterval cfg;
      RetryMax := if RetryMax cfg <? 0 then 0 else RetryMax cfg |} in
    if negb (String.eqb (TrimSpace (FallbackModel cfg)) "") && requiresOpenRouterAuth (FallbackModel cfg)
       && String.eqb (TrimSpace (OpenRouterKey cfg)) ""
    then Err (errors_New "openrouter api key is required for embedding fallback model")
    else Ok cfg'.

Definition truncateErrorBody (body : string) : string :=
  if len body <=? 240 then body else str_take 240 body +:+ "...".

Definition isEmbeddingUnsupportedError (err : error) : bool :=
  let msg := ToLower (Error err) in
  Contains msg "embed is not supported" || Contains msg "embedding is not supported".

Definition providerHeaderForModel (model configured : string) : string :=
  if requiresOpenRouterAuth model then
    if negb (String.eqb (TrimSpace configured) "") then TrimSpace configured else "openrouter"
  else "".

(** The chunks that are sent: trimmed, without the blank ones. *)
Definition embed_input (chunks : list string) : list string :=
  filter (fun s => s <> "") (TrimSpace <$> chunks).

Definition embed_body (ctx : context) (input : list string) (model : string) : json :=
  JObj ([("encoding_format", JStr "float"); ("input", JArr (JStr <$> input)); ("model", JStr model)] ++ user_member ctx).

(** [data[i].embedding] *)
Definition zero32 : float32 := S754_zero false.
Definition data_fields : list (field (list (list float32))) := [
  slice_field "data" (unmarshal false [slice_field "embedding" float32_elem zero32 id (fun _ v => v)]) []
    id (fun _ d => d)].
End Pure.

(** ** The client *)

Section Client.
Context `{U : UnicodeTables} {W : Type}.
Variables (cl : HTTPClient W) (now : M W Time) (cfg : EmbeddingConfig).
(** Waiting for a timer or for the end of the context, whose error it then is. *)
Variable sleep : context -> Z -> M W (option error).
(** [http.ParseTime]: a date of one of three layouts, in the time zone of the host. *)
Variable ParseTime : string -> option Time.

Record EmbeddingClient := { lastRequest : Time; world : W }.

Definition onW {A} (m : M W A) : M EmbeddingClient A := fun c =>
  let '(a, w) := m (world c) in (a, {| lastRequest := lastRequest c; world := w |}).
Definition get_last : M EmbeddingClient Time := fun c => (lastRequest c, c).
Definition set_last (t : Time) : M EmbeddingClient unit := fun c => (tt, {| lastRequest := t; world := world c |}).

Definition sleepContext (ctx : context) (d : Z) : M W (option error) :=
  if d <=? 0 then mret None else sleep ctx d.

(** The turn of one caller; see [turn_step] for several. *)
Definition waitTurn (ctx : context) : M EmbeddingClient (option error) :=
  t ← onW now;
  last ← get_last;
  let next := last + MinInterval cfg in
  err ← (if t <? next then onW (sleepContext ctx (Sub next t)) else mret None);
  match err with
  | Some err => mret (Some err)
  | None => t ← onW now; _ ← set_last t; mret None
  end.

(** The delay without a usable [Retry-After] header, at the width of [int64]. *)
Definition backoff (attempt : Z) : Z :=
  let base := 900 * Millisecond in
  let base := if 0 <? attempt then wrap64 (base * wrap64 (Z.shiftl 1 attempt)) else base in
  if 8 * Second <? base then 8 * Second else base.

Definition retryDelay (retryAfterHeader : string) (attempt : Z) : M W Z :=
  let parsed := TrimSpace retryAfterHeader in
  if negb (String.eqb parsed "") then
    match Atoi parsed with
    | Some secs =>
        if 0 <? secs then mret (wrap64 (secs * Second))
        else match ParseTime parsed with
             | Some when => t ← now; let d := Sub when t in mret (if 0 <? d then d else backoff attempt)
             | None => mret (backoff attempt)
             end
    | None =>
        match ParseTime parsed with
        | Some when => t ← now; let d := Sub when t in mret (if 0 <? d then d else backoff attempt)
        | None => mret (backoff attempt)
        end
    end
  else mret (backoff attempt).

Definition embeddings_url : string := trim_right_slashes (BaseURL cfg) +:+ "/v1/embeddings".
Definition with_headers (model : string) (req : HTTPRequest) : HTTPRequest :=
  let req := Header_Set "Content-Type" "application/json" req in
  let req := Header_Set "x-portkey-api-key" (TrimSpace (PortkeyAPIKey cfg)) req in
  let req := if requiresOpenRouterAuth model then
               let key := TrimSpace (OpenRouterKey cfg) in
               if negb (String.eqb key "") then Header_Set "Authorization" ("Bearer " +:+ key) req else req
             else req in
  let provider := providerHeaderForModel model (ProviderHeader cfg) in
  if negb (String.eqb provider "") then Header_Set "x-portkey-provider" provider req else req.

(** How the loop of attempts ends: by a return, with a payload, or with the last error. *)
Inductive outcome :=
| Returned (err : error)
| Decoded (data : list (list float32))
| Exhausted (lastErr : option error).

Definition rate_limited : error := errors_New "portkey embedding request rate-limited: status=429".
Definition failed_status (model : string) (resp : HTTPResponse) : error :=
  let pre := "portkey embedding request failed: model=" +:+ model +:+ " status=" +:+ Itoa (hp_StatusCode resp) in
  let msg := TrimSpace (hp_Body resp) in
  errors_New (if negb (String.eqb msg "") then pre +:+ " body=" +:+ truncateErrorBody msg else pre).

(** The attempts [attempt], ..., [RetryMax]: [n] of them. *)
Fixpoint attempts (n : nat) (attempt : Z) (ctx : context) (raw model : string) (lastErr : option error)
    : M EmbeddingClient outcome :=
  match n with
  | O => mret (Exhausted lastErr)
  | S n' =>
  turn ← waitTurn ctx;
  match turn with
  | Some err => mret (Returned err)
  | None =>
  match NewRequest cl ctx "POST" embeddings_url raw with
  | Err err => mret (Returned err)
  | Ok req =>
  resp ← onW (Do cl ctx (with_headers model req));
  match resp with
  | Err err => attempts n' (attempt + 1) ctx raw model (Some err)
  | Ok resp =>
  if hp_StatusCode resp =? 429 then
    delay ← onW (retryDelay (Response_Get resp "Retry-After") attempt);
    if attempt <? RetryMax cfg then
      err ← onW (sleepContext ctx delay);
      match err with
      | Some err => mret (Returned err)
      | None => attempts n' (attempt + 1) ctx raw model (Some rate_limited)
      end
    else mret (Exhausted (Some rate_limited))
  else if negb (is2xx resp) then mret (Returned (failed_status model resp))
  else
  match Decode data_fields [] (hp_Body resp) with
  | None => mret (Returned (stream_error cl resp))
  | Some data => mret (Decoded data)
  end
  end
  end
  end
  end.

Definition embedWithModel (ctx : context) (input : list string) (model : string)
    : M EmbeddingClient (result (list (list float32))) :=
  let raw := json_encode (embed_body ctx input model) in
  out ← attempts (Z.to_nat (RetryMax cfg + 1)) 0 ctx raw model None;
  let verified data :=
    if negb (length data =? length input)%nat
    then Err (errors_New ("embedding count mismatch: got=" +:+ Itoa (Z.of_nat (length data))
                          +:+ " want=" +:+ Itoa (Z.of_nat (length input))))
    else if existsb (fun v => (length v =? 0)%nat) data then Err (errors_New "empty embedding in response")
    else Ok data in
  mret match out with
       | Returned err => Err err
       | Exhausted (Some err) => Err err
       | Exhausted None => verified []
       | Decoded data => verified data
       end.

Definition Embed (ctx : context) (tenantID : TenantID) (chunks : list string)
    : M EmbeddingClient (result (list (list float32))) :=
  match TenantID_Validate tenantID with
  | Some err => mret (Err err)
  | None =>
  if (length chunks =? 0)%nat then mret (Err (errors_New "at least one chunk is required"))
  else
  let input := embed_input chunks in
  if (length input =? 0)%nat then mret (Err (errors_New "at least one non-empty chunk is required"))
  else
  let finish vectors := if negb (length vectors =? length input)%nat
    then Err (errors_New ("embedding count mismatch: got=" +:+ Itoa (Z.of_nat (length vectors))
                          +:+ " want=" +:+ Itoa (Z.of_nat (length input))))
    else Ok vectors in
  vectors ← embedWithModel ctx input (Model cfg);
  match vectors with
  | Ok vectors => mret (finish vectors)
  | Err err =>
      let fallback := TrimSpace (FallbackModel cfg) in
      if String.eqb fallback "" || String.eqb fallback (TrimSpace (Model cfg)) || negb (isEmbeddingUnsupportedError err)
      then mret (Err err)
      else
        vectors ← embedWithModel ctx input fallback;
        match vectors with
        | Ok vectors => mret (finish vectors)
        | Err err => mret (Err (Errorf_w ("primary embedding failed and fallback failed: primary_model=" +:+ Model cfg
                                          +:+ " fallback_model=" +:+ fallback +:+ " err=") err ""))
        end
  end
  end.
End Client.
Arguments EmbeddingClient : clear implicits.

Example atoi_samples : Atoi "12" = Some 12 /\ Atoi "+3" = Some 3 /\ Atoi "-3" = Some (-3) /\ Atoi "" = None /\ Atoi "1 " = None
  /\ Atoi "+-3" = None /\ Atoi "99999999999999999999" = None.
Proof. vm_compute. auto 10. Qed.

(** * Facts *)

(** A client that logs the requests it is asked to send. *)
Definition logged_http {W} (cl : HTTPClient W) : HTTPClient (W * list HTTPRequest) := {|
  url_error := url_error cl;
  Do ctx req := fun wl => let '(r, w') := Do cl ctx req wl.1 in (r, (w', wl.2 ++ [req]));
  json_error := json_error cl; stream_error := stream_error cl |}.

Section Facts.
Context `{U : UnicodeTables} {W : Type}.
Variables (cl : HTTPClient W) (now : M W Time) (cfg : EmbeddingConfig).
Variable sleep : context -> Z -> M W (option error).
Variable ParseTime : string -> option Time.

Notation L := (W * list HTTPRequest)%type.
Notation now' := (lift now : M L Time).
Notation sleep' := (fun ctx d => lift (sleep ctx d) : M L (option error)).

Definition log_of (c : EmbeddingClient L) : list HTTPRequest := (world c).2.
(** Code that sends nothing. *)
Definition quiet {A} (m : M (EmbeddingClient L) A) : Prop := forall c, log_of (m c).2 = log_of c.

Lemma http_quiet_ret {A} (a : A) : quiet (mret a).
Proof. done. Qed.
Lemma http_quiet_bind {A B} (m : M (EmbeddingClient L) A) (f : A -> M (EmbeddingClient L) B) :
  quiet m -> (forall a, quiet (f a)) -> quiet (m ≫= f).
Proof. intros Hm Hf c. run_M. specialize (Hm c). destruct (m c) as [a c1]. by rewrite Hf. Qed.
Lemma quiet_lift {A} (m : M W A) : quiet (onW (lift m)).
Proof. intros c. unfold onW, lift. by destruct (m (world c).1). Qed.
Lemma quiet_sleep ctx d : quiet (onW (sleepContext sleep' ctx d)).
Proof. unfold sleepContext. destruct (d <=? 0); [done|]. apply quiet_lift. Qed.
Lemma quiet_wait ctx : quiet (waitTurn now' cfg sleep' ctx).
Proof.
  unfold waitTurn. apply http_quiet_bind; [apply quiet_lift|]. intros t. apply http_quiet_bind; [done|]. intros last.
  apply http_quiet_bind; [destruct (t <? _); [apply quiet_sleep|done]|]. intros [err|]; [done|].
  apply http_quiet_bind; [apply quiet_lift|]. done.
Qed.
Lemma quiet_delay h k : quiet (onW (retryDelay now' ParseTime h k)).
Proof.
  assert (Hn : forall f : Time -> Z, quiet (onW (t ← now'; mret (f t)))).
  { intros f c. unfold onW, lift. run_M. by destruct (now (world c).1). }
  unfold retryDelay. cbn zeta. repeat case_match; done || apply (Hn (fun t => if 0 <? Sub _ t then Sub _ t else _)).
Qed.

(** A request with this body for this model. *)
Definition sent (model raw : string) (req : HTTPRequest) : Prop :=
  req = with_headers cfg model {| hq_Method := "POST"; hq_URL := embeddings_url cfg; hq_Header := ∅; hq_Body := raw |}.

(** [n] attempts send at most [n] copies of the request; a payload is that of the last. *)
Lemma embed_attempts_spec n ctx raw model : forall k lastErr c,
  let '(out, c') := attempts (logged_http cl) now' cfg sleep' ParseTime n k ctx raw model lastErr c in
  exists reqs, log_of c' = log_of c ++ reqs /\ (length reqs <= n)%nat /\ Forall (sent model raw) reqs
    /\ match out with
       | Decoded data => exists req resp w, last reqs = Some req /\ (Do cl ctx req w).1 = Ok resp /\ is2xx resp = true
           /\ Decode data_fields [] (hp_Body resp) = Some data
       | Exhausted e => (0 < n)%nat -> e <> None
       | Returned _ => True
       end.
Proof.
  induction n as [|n IH]; intros k lastErr c; cbn [attempts].
  { exists []. rewrite app_nil_r. split_and!; try done. lia. }
  run_M. pose proof (quiet_wait ctx c) as Hq. destruct (waitTurn _ _ _ _ c) as [[err|] c1]; cbn [snd] in Hq.
  { exists []. rewrite app_nil_r. split_and!; try done. cbn. lia. }
  unfold NewRequest. cbn [logged_http url_error Do]. destruct ctx as [ctx|].
  2: { exists []. rewrite app_nil_r. split_and!; try done. cbn. lia. }
  destruct (url_error cl (embeddings_url cfg)).
  { exists []. rewrite app_nil_r. split_and!; try done. cbn. lia. }
  set (req := with_headers cfg model _). assert (H1 : (length [req] <= S n)%nat) by apply le_n_S, Nat.le_0_l.
  unfold onW at 1. cbn [logged_http url_error Do].
  destruct (Do cl (Some ctx) req (world c1).1) as [r w2] eqn:ED.
  set (c2 := {| lastRequest := lastRequest c1; world := (w2, (world c1).2 ++ [req]) |}).
  assert (Hc2 : log_of c2 = log_of c ++ [req]) by (unfold c2, log_of in *; cbn; by rewrite Hq).
  assert (HIH : forall c3 k lastErr, log_of c3 = log_of c2 -> lastErr <> None ->
    let '(out, c') := attempts (logged_http cl) now' cfg sleep' ParseTime n k (Some ctx) raw model lastErr c3 in
    exists reqs, log_of c' = log_of c ++ reqs /\ (length reqs <= S n)%nat /\ Forall (sent model raw) reqs
    /\ match out with
       | Decoded data => exists req resp w, last reqs = Some req /\ (Do cl (Some ctx) req w).1 = Ok resp /\ is2xx resp = true
           /\ Decode data_fields [] (hp_Body resp) = Some data
       | Exhausted e => (0 < S n)%nat -> e <> None
       | Returned _ => True
       end).
  { intros c3 k' le Hc3 Hle. destruct n as [|n'].
    { cbn [attempts]. run_M. exists [req]. rewrite Hc3, Hc2. split_and!; (done || by constructor || (cbn; lia)). }
    specialize (IH k' le c3). destruct (attempts _ _ _ _ _ (S n') _ _ _ _ _ c3) as [out c'].
    destruct IH as (reqs & Hl & Hn & HF & Hout). exists (req :: reqs). rewrite Hl, Hc3, Hc2, <- app_assoc.
    split_and!; [done|cbn; lia|by constructor|]. destruct out; [done| |intros _; apply Hout; lia].
    destruct Hout as (req' & resp & w & Hlast & Hrest). exists req', resp, w. split; [|done].
    by destruct reqs. }
  destruct r as [resp|err]; [|by apply HIH].
  destruct (hp_StatusCode resp =? 429).
  - pose proof (quiet_delay (Response_Get resp "Retry-After") k c2) as Hd.
    destruct (onW (retryDelay _ _ _ _) c2) as [delay c3]. cbn [snd] in Hd.
    destruct (k <? RetryMax cfg).
    + pose proof (quiet_sleep (Some ctx) delay c3) as Hs. destruct (onW (sleepContext _ _ _) c3) as [[err|] c4]; cbn [snd] in Hs.
      * exists [req]. split_and!; (done || by constructor || (cbn; lia) || by rewrite Hs, Hd, Hc2).
      * apply HIH; [by rewrite Hs, Hd|done].
    + exists [req]. split_and!; (done || by constructor || (cbn; lia) || by rewrite Hd, Hc2).
  - destruct (is2xx resp) eqn:E2; cbn [negb].
    2: { exists [req]. split_and!; (done || by constructor || (cbn; lia)). }
    destruct (Decode data_fields [] (hp_Body resp)) as [data|] eqn:Ed.
    + exists [req]. split_and!; [done|cbn; lia|by constructor|]. exists req, resp, (world c1).1. by rewrite ED.
    + exists [req]. split_and!; (done || by constructor || (cbn; lia)).
Qed.
End Facts.

Lemma NewEmbeddingClient_Ok `{U : UnicodeTables} cfg0 cfg :
  NewEmbeddingClient cfg0 = Ok cfg -> 0 <= RetryMax cfg /\ 0 < MinInterval cfg /\ 0 < Timeout cfg.
Proof.
  unfold NewEmbeddingClient. cbn zeta. destruct (String.eqb _ _); [discriminate|]. destruct (String.eqb _ _); [discriminate|].
  destruct (_ && _); [discriminate|]. destruct (_ && _); [discriminate|]. intros [= <-].
  cbn [RetryMax MinInterval Timeout]. unfold Second, Millisecond.
  destruct (Z.ltb_spec (RetryMax cfg0) 0), (Z.leb_spec (MinInterval cfg0) 0), (Z.leb_spec (Timeout cfg0) 0); lia.
Qed.

Section ModelFacts.
Context `{U : UnicodeTables} {W : Type}.
Variables (cl : HTTPClient W) (now : M W Time) (cfg : EmbeddingConfig).
Variable sleep : context -> Z -> M W (option error).
Variable ParseTime : string -> option Time.
Hypothesis Hretry : 0 <= RetryMax cfg.

Notation L := (W * list HTTPRequest)%type.

(** The vectors of a 2xx response to the last of the requests. *)
Definition answered_by (ctx : context) (input : list string) (reqs : list HTTPRequest) (vs : list (list float32)) : Prop :=
  length vs = length input /\ Forall (fun v => v <> []) vs
  /\ exists req resp w, last reqs = Some req /\ (Do cl ctx req w).1 = Ok resp /\ is2xx resp = true
       /\ Decode data_fields [] (hp_Body resp) = Some vs.

Lemma embedWithModel_spec ctx input model c :
  let '(r, c') := embedWithModel (logged_http cl) (lift now) cfg (fun ctx d => lift (sleep ctx d)) ParseTime ctx input model c in
  exists reqs, log_of c' = log_of c ++ reqs /\ Z.of_nat (length reqs) <= RetryMax cfg + 1
    /\ Forall (sent cfg model (json_encode (embed_body ctx input model))) reqs
    /\ forall vs, r = Ok vs -> answered_by ctx input reqs vs.
Proof.
  unfold embedWithModel. run_M. cbn zeta.
  pose proof (embed_attempts_spec cl now cfg sleep ParseTime (Z.to_nat (RetryMax cfg + 1)) ctx
    (json_encode (embed_body ctx input model)) model 0 None c) as HA.
  destruct (attempts _ _ _ _ _ _ _ _ _ _ _ c) as [out c']. destruct HA as (reqs & Hl & Hn & HF & Hout).
  exists reqs. split; [done|]. split; [lia|]. split; [done|]. intros vs.
  destruct out as [err|data|[err|]]; [discriminate| |discriminate|exfalso; apply Hout; [lia|done]].
  destruct (Nat.eqb_spec (length data) (length input)) as [Hlen|]; cbn [negb]; [|discriminate].
  destruct (existsb _ data) eqn:Ee; [discriminate|]. intros [= <-]. split; [done|]. split; [|done].
  apply Forall_forall. intros v Hv ->. apply not_true_iff_false in Ee. apply Ee, existsb_exists. exists [].
  split; [by apply list_elem_of_In|done].
Qed.
End ModelFacts.

(** * Theorems *)

Section Theorems.
Context `{U : UnicodeTables} {W : Type}.
Variables (cl : HTTPClient W) (now : M W Time) (cfg0 cfg : EmbeddingConfig).
Variable sleep : context -> Z -> M W (option error).
Variable ParseTime : string -> option Time.

(** C22: embedding is bounded and pairs vectors with chunks.  Whatever the gateway
    answers, a call sends at most [RetryMax + 1] requests for the model, and at most
    as many for the fallback model, which is asked only if it is configured and
    different; each request is for the chunks that are not blank, trimmed; without a
    tenant or without such a chunk nothing is sent.  On success there is exactly one
    vector per chunk sent, none of them empty, and all come from one 2xx response,
    to the last request. *)
Theorem embed_bounded_and_paired ctx t chunks c :
  NewEmbeddingClient cfg0 = Ok cfg ->
  let input := embed_input chunks in
  let fallback := TrimSpace (FallbackModel cfg) in
  let '(r, c') := Embed (logged_http cl) (lift now) cfg (fun ctx d => lift (sleep ctx d)) ParseTime ctx t chunks c in
  exists p f, log_of c' = log_of c ++ p ++ f
    /\ Z.of_nat (length p) <= RetryMax cfg + 1 /\ Z.of_nat (length f) <= RetryMax cfg + 1
    /\ Forall (sent cfg (Model cfg) (json_encode (embed_body ctx input (Model cfg)))) p
    /\ Forall (sent cfg fallback (json_encode (embed_body ctx input fallback))) f
    /\ (f <> [] -> fallback <> "" /\ fallback <> TrimSpace (Model cfg))
    /\ (t = "" \/ input = [] -> p = [] /\ f = [] /\ is_Ok r = false)
    /\ forall vs, r = Ok vs -> answered_by cl ctx input p vs \/ answered_by cl ctx input f vs.
Proof.
  intros (Hr & _ & _)%NewEmbeddingClient_Ok. cbn zeta. unfold Embed.
  assert (Hno : forall e : error, exists p f, log_of c = log_of c ++ p ++ f
    /\ Z.of_nat (length p) <= RetryMax cfg + 1 /\ Z.of_nat (length f) <= RetryMax cfg + 1
    /\ Forall (sent cfg (Model cfg) (json_encode (embed_body ctx (embed_input chunks) (Model cfg)))) p
    /\ Forall (sent cfg (TrimSpace (FallbackModel cfg)) (json_encode (embed_body ctx (embed_input chunks) (TrimSpace (FallbackModel cfg))))) f
    /\ (f <> [] -> TrimSpace (FallbackModel cfg) <> "" /\ TrimSpace (FallbackModel cfg) <> TrimSpace (Model cfg))
    /\ (t = "" \/ embed_input chunks = [] -> p = [] /\ f = [] /\ is_Ok (@Err (list (list float32)) e) = false)
    /\ forall vs, Err e = Ok vs -> answered_by cl ctx (embed_input chunks) p vs \/ answered_by cl ctx (embed_input chunks) f vs).
  { intros e. exists [], []. rewrite app_nil_r. split_and!; try done; cbn; lia. }
  destruct (TenantID_Validate t) eqn:Et; [apply Hno|]. apply TenantID_Validate_None in Et.
  destruct (length chunks =? 0)%nat; [apply Hno|].
  destruct (Nat.eqb_spec (length (embed_input chunks)) 0) as [|Hi]; [apply Hno|]. run_M.
  assert (Hv : t = "" \/ embed_input chunks = [] -> False) by (intros [->|E]; [done|by rewrite E in Hi]).
  pose proof (embedWithModel_spec cl now cfg sleep ParseTime Hr ctx (embed_input chunks) (Model cfg) c) as HP.
  destruct (embedWithModel _ _ _ _ _ _ _ (Model cfg) c) as [[vs|e] c1]; destruct HP as (p & Hl & Hn & HF & Hok).
  { destruct (Hok vs eq_refl) as (Hlen & Hrest). rewrite Hlen, Nat.eqb_refl. cbn [negb]. exists p, [].
    rewrite app_nil_r. split_and!; try done; [cbn; lia|]. intros vs' [= <-]. left. by split. }
  destruct (String.eqb_spec (TrimSpace (FallbackModel cfg)) "") as [|Hf1]; cbn [orb].
  { exists p, []. rewrite app_nil_r. split_and!; try done. cbn. lia. }
  destruct (String.eqb_spec (TrimSpace (FallbackModel cfg)) (TrimSpace (Model cfg))) as [|Hf2]; cbn [orb].
  { exists p, []. rewrite app_nil_r. split_and!; try done. cbn. lia. }
  destruct (isEmbeddingUnsupportedError e); cbn [negb].
  2: { exists p, []. rewrite app_nil_r. split_and!; try done. cbn. lia. }
  pose proof (embedWithModel_spec cl now cfg sleep ParseTime Hr ctx (embed_input chunks) (TrimSpace (FallbackModel cfg)) c1) as HQ.
  destruct (embedWithModel _ _ _ _ _ _ _ (TrimSpace (FallbackModel cfg)) c1) as [[vs|e'] c2];
    destruct HQ as (f & Hl' & Hn' & HF' & Hok').
  - destruct (Hok' vs eq_refl) as (Hlen & Hrest). rewrite Hlen, Nat.eqb_refl. cbn [negb]. exists p, f.
    split_and!; try done; [by rewrite Hl', Hl, app_assoc|]. intros vs' [= <-]. right. by split.
  - exists p, f. split_and!; try done. by rewrite Hl', Hl, app_assoc.
Qed.

(** the delay before a retry.  Without a usable [Retry-After] header it doubles from
    0.9 seconds and is never more than 8 seconds; but from the 34th retry on the
    product leaves the range of [int64], and the delay is negative, that is, none.  A
    header of up to nine thousand million seconds is followed to the second. *)
Theorem retry_delay_bounds :
  (forall attempt, backoff attempt <= 8 * Second)
  /\ (forall attempt, 0 <= attempt <= 33 ->
        backoff attempt = Z.min (8 * Second) (900 * Millisecond * 2 ^ attempt) /\ 0 < backoff attempt)
  /\ backoff 34 < 0
  /\ (forall header attempt secs w, Atoi (TrimSpace header) = Some secs -> 0 < secs <= 9 * 10 ^ 9 ->
        (retryDelay now ParseTime header attempt w).1 = secs * Second).
Proof.
  split_and!.
  - intros k. unfold backoff. cbn zeta. destruct (Z.ltb_spec (8 * Second) (if 0 <? k then wrap64 (900 * Millisecond * wrap64 (Z.shiftl 1 k))
      else 900 * Millisecond)); lia.
  - intros k Hk. assert (Hall : Forall (fun k => backoff k = Z.min (8 * Second) (900 * Millisecond * 2 ^ k) /\ 0 < backoff k)
      (seqZ 0 34)) by (apply (bool_decide_unpack _); vm_compute; exact I).
    rewrite Forall_forall in Hall. apply Hall, elem_of_seqZ. lia.
  - vm_compute. reflexivity.
  - intros h k secs w Ha Hs. unfold retryDelay. cbn zeta. destruct (String.eqb_spec (TrimSpace h) "") as [E|E].
    { rewrite E in Ha. discriminate. }
    cbn [negb]. rewrite Ha, (proj2 (Z.ltb_lt 0 secs)) by lia. run_M. cbn [fst]. apply wrap64_id.
    unfold int64_range, Second. lia.
Qed.
End Theorems.

(** ** Turns *)

(** What a clock and a sleep promise: the clock does not go back, and a sleep that is
    not cut short lasts at least as long as it was asked to. *)
Class Sleeper {W} (now : M W Time) (sleep : context -> Z -> M W (option error)) (time : W -> Time) : Prop := {
  now_reads : forall w, (now w).1 = time (now w).2 /\ time w <= time (now w).2;
  sleep_forward : forall ctx d w, time w <= time (sleep ctx d w).2;
  sleep_waits : forall ctx d w, (sleep ctx d w).1 = None -> time w + d <= time (sleep ctx d w).2 }.

Section Turns.
Context {W : Type}.
Variables (now : M W Time) (cfg : EmbeddingConfig).
Variable sleep : context -> Z -> M W (option error).

(** The instants of the turns that callers get one after the other. *)
Fixpoint turns (ctxs : list context) : M (EmbeddingClient W) (list Time) :=
  match ctxs with
  | [] => mret []
  | ctx :: ctxs' =>
      err ← waitTurn now cfg sleep ctx;
      t ← get_last;
      rest ← turns ctxs';
      mret (match err with None => t :: rest | Some _ => rest end)
  end.

Context `{S : Sleeper W now sleep time}.

Lemma sleepContext_waits ctx d w :
  time w <= time (sleepContext sleep ctx d w).2
  /\ ((sleepContext sleep ctx d w).1 = None -> time w + d <= time (sleepContext sleep ctx d w).2).
Proof.
  unfold sleepContext. destruct (Z.leb_spec d 0); [cbn; lia|]. split; [apply sleep_forward|apply sleep_waits].
Qed.

Lemma waitTurn_spaced ctx c :
  0 < MinInterval cfg < 2 ^ 63 -> lastRequest c <= time (world c) ->
  let '(err, c') := waitTurn now cfg sleep ctx c in
  lastRequest c' <= time (world c')
  /\ match err with
     | None => lastRequest c + MinInterval cfg <= lastRequest c'
     | Some _ => lastRequest c' = lastRequest c
     end.
Proof.
  intros Hi Hl. unfold waitTurn, get_last, set_last. run_M. unfold onW at 1.
  destruct (now_reads (world c)) as [Ht Hle]. destruct (now (world c)) as [t w1]. cbn [fst snd] in *. cbn zeta.
  cbn [lastRequest world]. destruct (Z.ltb_spec t (lastRequest c + MinInterval cfg)) as [Hn|Hn].
  - unfold onW at 1. cbn [lastRequest world].
    destruct (sleepContext_waits ctx (Sub (lastRequest c + MinInterval cfg) t) w1) as [Hf Hs].
    assert (Hd : Sub (lastRequest c + MinInterval cfg) t = lastRequest c + MinInterval cfg - t) by (unfold Sub; lia).
    destruct (sleepContext sleep ctx _ w1) as [[err|] w2]; cbn [fst snd lastRequest world] in *; [lia|].
    specialize (Hs eq_refl). unfold onW. cbn [lastRequest world].
    destruct (now_reads w2) as [Ht' Hle']. destruct (now w2) as [t' w3]. cbn [fst snd lastRequest world] in *. lia.
  - unfold onW. cbn [lastRequest world]. destruct (now_reads w1) as [Ht' Hle']. destruct (now w1) as [t' w2].
    cbn [fst snd lastRequest world] in *. lia.
Qed.

Lemma turns_spaced ctxs : 0 < MinInterval cfg < 2 ^ 63 -> forall c, lastRequest c <= time (world c) ->
  StronglySorted (fun a b => a + MinInterval cfg <= b) (turns ctxs c).1
  /\ Forall (fun t => lastRequest c + MinInterval cfg <= t) (turns ctxs c).1.
Proof.
  intros Hi. induction ctxs as [|ctx ctxs IH]; intros c Hc; cbn [turns]; [by repeat constructor|].
  run_M. pose proof (waitTurn_spaced ctx c Hi Hc) as H. destruct (waitTurn _ _ _ ctx c) as [err c1].
  destruct H as [Hc1 He]. cbn. specialize (IH c1 Hc1). destruct (turns ctxs c1) as [rest c2]. cbn in *.
  destruct IH as [Hs HF]. destruct err as [err|]; [by rewrite He in HF|]. split; constructor; try done.
  eapply Forall_impl; [exact HF|]. cbn. lia.
Qed.
End Turns.

(** Callers that share a client.  [waitTurn] holds the lock while it reads the last
    request, and again while it records its own, but not while it sleeps. *)
Inductive phase := Arriving | Asleep (until : Time) | Sent (at_time : Time).
Record shared := { sh_clock : Time; sh_last : Time; sh_callers : list phase }.

Inductive turn_step (interval : Z) : shared -> shared -> Prop :=
| step_tick t t' last callers : t <= t' ->
    turn_step interval {| sh_clock := t; sh_last := last; sh_callers := callers |}
                       {| sh_clock := t'; sh_last := last; sh_callers := callers |}
| step_now t last l1 l2 : last + interval <= t ->
    turn_step interval {| sh_clock := t; sh_last := last; sh_callers := l1 ++ Arriving :: l2 |}
                       {| sh_clock := t; sh_last := t; sh_callers := l1 ++ Sent t :: l2 |}
| step_wait t last l1 l2 : t < last + interval ->
    turn_step interval {| sh_clock := t; sh_last := last; sh_callers := l1 ++ Arriving :: l2 |}
                       {| sh_clock := t; sh_last := last; sh_callers := l1 ++ Asleep (last + interval) :: l2 |}
| step_wake t last until l1 l2 : until <= t ->
    turn_step interval {| sh_clock := t; sh_last := last; sh_callers := l1 ++ Asleep until :: l2 |}
                       {| sh_clock := t; sh_last := t; sh_callers := l1 ++ Sent t :: l2 |}.

(** No caller has sent, or will, before [lo]. *)
Definition not_before (lo interval : Z) (s : shared) : Prop :=
  lo <= sh_last s + interval
  /\ Forall (fun p => match p with Arriving => True | Asleep u => lo <= u | Sent a => lo <= a end) (sh_callers s).

Lemma not_before_step lo interval s s' :
  0 < interval -> turn_step interval s s' -> not_before lo interval s -> not_before lo interval s'.
Proof.
  intros Hi Hs [Hl HF]. destruct Hs; cbn [sh_last sh_callers] in *; split; cbn; try lia; try done;
    apply Forall_app in HF as [H1 H2]; apply Forall_cons in H2 as [Hp H2]; try lia;
    apply Forall_app; (split; [done|]); constructor; (done || lia).
Qed.

Lemma all_asleep interval t last l n : t < last + interval ->
  rtc (turn_step interval) {| sh_clock := t; sh_last := last; sh_callers := l ++ replicate n Arriving |}
    {| sh_clock := t; sh_last := last; sh_callers := l ++ replicate n (Asleep (last + interval)) |}.
Proof.
  intros Ht. revert l. induction n as [|n IH]; intros l; [done|]. cbn [replicate].
  eapply rtc_l; [by apply step_wait|].
  specialize (IH (l ++ [Asleep (last + interval)])). by rewrite <- !app_assoc in IH.
Qed.
Lemma all_sent interval t last until l n : until <= t ->
  exists last', rtc (turn_step interval) {| sh_clock := t; sh_last := last; sh_callers := l ++ replicate n (Asleep until) |}
    {| sh_clock := t; sh_last := last'; sh_callers := l ++ replicate n (Sent t) |}.
Proof.
  intros Ht. revert l last. induction n as [|n IH]; intros l last; [by exists last|]. cbn [replicate].
  destruct (IH (l ++ [Sent t]) t) as [last' H]. exists last'. rewrite <- !app_assoc in H.
  eapply rtc_l; [by apply (step_wake interval t last until)|exact H].
Qed.

(** C23: the turns of one caller are spaced.  However often the client is used, one call
    after the other, and whatever the contexts do, any two of the turns it grants are
    at least [MinInterval] apart. *)
Theorem embedding_turns_spaced {W} (now : M W Time) cfg sleep (time : W -> Time) ctxs c :
  Sleeper now sleep time -> 0 < MinInterval cfg < 2 ^ 63 -> lastRequest c <= time (world c) ->
  StronglySorted (fun a b => a + MinInterval cfg <= b) (turns now cfg sleep ctxs c).1.
Proof. intros S Hi Hc. by apply (turns_spaced now cfg sleep ctxs Hi c Hc). Qed.

(** the turns of concurrent callers are not spaced.  No caller sends earlier than one
    interval after the last request it has seen, but any number of callers that arrive
    within the interval send at the same instant: they compute the same instant, and
    sleep without the lock. *)
Theorem embedding_turns_burst interval t0 n :
  0 < interval ->
  let start := {| sh_clock := t0; sh_last := t0; sh_callers := replicate n Arriving |} in
  (forall s, rtc (turn_step interval) start s ->
     Forall (fun p => match p with Sent a => t0 + interval <= a | _ => True end) (sh_callers s))
  /\ exists s, rtc (turn_step interval) start s /\ sh_callers s = replicate n (Sent (t0 + interval)).
Proof.
  intros Hi. cbn zeta. split.
  - intros s Hs. assert (H : not_before (t0 + interval) interval s).
    { remember {| sh_clock := _ |} as s0 eqn:E0. assert (H0 : not_before (t0 + interval) interval s0).
      { rewrite E0. split; cbn; [lia|]. apply Forall_replicate. done. }
      clear E0. induction Hs as [|x y z Hxy _ IH]; [done|]. apply IH. by eapply not_before_step. }
    eapply Forall_impl; [exact (proj2 H)|]. by intros [].
  - destruct (all_sent interval (t0 + interval) t0 (t0 + interval) [] n ltac:(lia)) as [last' H].
    exists {| sh_clock := t0 + interval; sh_last := last'; sh_callers := replicate n (Sent (t0 + interval)) |}.
    split; [|done]. etransitivity; [apply (all_asleep interval t0 t0 []); lia|].
    eapply rtc_l; [apply (step_tick interval t0 (t0 + interval)); lia|]. exact H.
Qed.

(** ** Witnesses *)

#[local] Existing Instance latin1.

Definition sample_embedding : EmbeddingConfig := {|
  BaseURL := "https://gw/"; PortkeyAPIKey := "pk"; OpenRouterKey := "or"; Model := "m"; FallbackModel := " m2 ";
  Timeout := 12 * Second; ProviderHeader := "openrouter"; MinInterval := 900 * Millisecond; RetryMax := 1 |}.
(** The first model is refused, the second one answers with two vectors; the world is the clock. *)
Definition sample_gateway : HTTPClient Z := {|
  url_error _ := None;
  Do _ req := fun t =>
    let reply code body := Ok {| hp_StatusCode := code; hp_Header := ∅; hp_Body := body; hp_ReadErr := None |} in
    (if Contains (hq_Body req) "m2"
     then reply 200 ("{" +:+ q "data" +:+ ":[{" +:+ q "embedding" +:+ ":[1,0.5]},{" +:+ q "embedding" +:+ ":[0,-2]}]}")
     else reply 400 "Embedding is not supported", t + 5);
  json_error s := errors_New s; stream_error _ := errors_New "unexpected EOF" |}.
Definition sample_now : M Z Time := fun t => (t, t).
Definition sample_sleep (ctx : context) (d : Z) : M Z (option error) := fun t => (None, t + Z.max d 0).

#[local] Instance sample_sleeper : Sleeper sample_now sample_sleep id.
Proof. split; intros; cbn; lia. Qed.

Definition embed_once :=
  Embed (logged_http sample_gateway) (lift sample_now) sample_embedding
    (fun ctx d => lift (sample_sleep ctx d)) (fun _ => None) (Some Background) "acme" ["a "; " "; "b"]
    {| lastRequest := 0; world := (100, []) |}.

Lemma embed_bounded_and_paired_witness :
  length (log_of embed_once.2) = 2%nat
  /\ exists vs, embed_once.1 = Ok vs /\ length vs = 2%nat
       /\ exists reqs, answered_by sample_gateway (Some Background) ["a"; "b"] reqs vs.
Proof.
  split; [vm_compute; reflexivity|].
  pose proof (embed_bounded_and_paired sample_gateway sample_now sample_embedding sample_embedding sample_sleep
    (fun _ => None) (Some Background) "acme" ["a "; " "; "b"] {| lastRequest := 0; world := (100, []) |} eq_refl) as H.
  cbv zeta in H. fold embed_once in H. destruct embed_once as [r c'] eqn:E.
  destruct H as (p & f & _ & _ & _ & _ & _ & _ & _ & H).
  destruct r as [vs|e]; [|vm_compute in E; discriminate]. exists vs. split; [reflexivity|].
  destruct (H vs eq_refl) as [A|A]; destruct A as (Hl & A); (split; [exact Hl|]); [exists p|exists f]; (split; [exact Hl|exact A]).
Defined.

Lemma embedding_turns_spaced_witness :
  let ts := (turns sample_now sample_embedding sample_sleep [None; None; None] {| lastRequest := 0; world := 100 |}).1 in
  ts = [900 * Millisecond; 1800 * Millisecond; 2700 * Millisecond]
  /\ StronglySorted (fun a b => a + 900 * Millisecond <= b) ts.
Proof.
  cbn zeta. split; [vm_compute; reflexivity|].
  apply (embedding_turns_spaced sample_now sample_embedding sample_sleep id [None; None; None]
    {| lastRequest := 0; world := 100 |} sample_sleeper); cbn; unfold Millisecond; lia.
Defined.

Lemma embedding_turns_burst_witness :
  exists s, rtc (turn_step 5) {| sh_clock := 7; sh_last := 7; sh_callers := [Arriving; Arriving] |} s
    /\ sh_callers s = [Sent 12; Sent 12].
Proof. apply (embedding_turns_burst 5 7 2). lia. Defined.

Lemma retry_delay_bounds_witness :
  (retryDelay sample_now (fun _ => None) " 7 " 0 100).1 = 7 * Second /\ backoff 2 = 3600 * Millisecond.
Proof.
  split; [|vm_compute; reflexivity].
  apply (retry_delay_bounds sample_now (fun _ => None)); [vm_compute; reflexivity|lia].
Defined.
