(* ===== verification/TextUtil.v ===== *)
(** * TextUtil: backend/util/apiutil/text.go

    Text processing of the API server: normalisation of extracted text, noise
    detection, term extraction and intent ranking, answer snippets, and the
    chunker [ChunkText] that splits documents for embedding.  A slice
    expression that is out of range is a panic, [None]. *)

From S2P Require Import Prelude GoStrings GoRegexp GoSort Contracts.
From Stdlib Require Import Ascii.

#[local] Open Scope Z_scope.

(** ** Byte-level helpers of the package [strings] *)

(** [strings.ReplaceAll(s, old, new)] for a non-empty [old]. *)
Fixpoint replace_all (old new : string) (skip : nat) (s : string) : string :=
  match s with
  | "" => ""
  | String a s' =>
      match skip with
      | S k => replace_all old new k s'
      | O => if HasPrefix s old then new +:+ replace_all old new (String.length old - 1) s'
             else String a (replace_all old new 0 s')
      end
  end.
Definition ReplaceAll (s old new : string) : string := replace_all old new 0 s.

(** [strings.Index(s, sub)]; [None] for -1. *)
Fixpoint Index (s sub : string) : option nat :=
  if HasPrefix s sub then Some O
  else match s with "" => None | String _ s' => S <$> Index s' sub end.

(** [s[i:j]] *)
Definition slice (s : string) (i j : Z) : option string :=
  if (0 <=? i) && (i <=? j) && (j <=? len s)
  then Some (str_take (Z.to_nat (j - i)) (str_drop (Z.to_nat i) s)) else None.

(** A [strings.Replacer] of single bytes by a space. *)
Fixpoint blank_bytes (p : Z -> bool) (s : string) : string :=
  match s with
  | "" => ""
  | String a s' => String (if p (byte_val a) then " "%char else a) (blank_bytes p s')
  end.

(** The double of a decimal constant [n/d]. *)
Definition ratio (n d : Z) : float64 := fdiv (float_of_int n) (float_of_int d).

(** The double quote. *)
Definition dquote : string := String (byte_of 34) "".

(** ** Patterns *)

Definition NoisySequenceRegexp : re :=
  Alt (Rep 36 None (Cls (fun z => alnum z || char_in "+/=" z))) (Rep 2 None (Cls (char_in "{}<>|~^"))).
Definition decimal : re :=
  Seq (Rep 1 (Some 2%nat) (Cls digit)) (opt (Seq (lit ".") (Rep 1 (Some 2%nat) (Cls digit)))).
Definition spaces : re := star (Cls re_space).
Definition CGPAValueRegexp : re :=
  Alt (Seq Bound (Seq decimal (Seq spaces (Seq (lit "/") (Seq spaces (Seq (lit "10") Bound))))))
      (Seq Bound (Seq (lit "cgpa") (Seq spaces (Seq (opt (Cls (char_in ":=-")))
        (Seq spaces (Seq decimal Bound)))))).
Definition glyph_byte (z : Z) : bool := alnum z || char_in "@._#+-" z.
Definition SpacedGlyphRunRegexp : re :=
  Seq (Rep 3 None (Seq (Cls glyph_byte) (Rep 1 None (Cls re_space)))) (Cls glyph_byte).

(** ** Normalisation *)

Definition compactSpacedGlyphRun (raw : string) : string :=
  let tokens := Fields raw in
  if (length tokens <? 4)%nat then raw
  else
    let joined := foldr (fun tok acc =>
      foldr (fun r acc => if glyph_byte r then encode_rune r +:+ acc else acc) acc (runes tok))
      "" tokens in
    if len joined <? 4 then raw else joined.

Definition NormalizeExtractedText (text : string) : string :=
  let trimmed := TrimSpace text in
  if String.eqb trimmed "" then ""
  else
    let trimmed := ReplaceAll trimmed (encode_rune RuneError) " " in
    let trimmed := Join (Fields trimmed) " " in
    let trimmed := ReplaceAllStringFunc SpacedGlyphRunRegexp trimmed compactSpacedGlyphRun in
    Join (Fields trimmed) " ".

(** ** Noise *)

Definition MaxInt (a b : Z) : Z := if b <? a then a else b.

Definition is_alpha (r : Z) : bool := range 97 122 r || range 65 90 r.

(** The punctuation that does not count as a symbol. *)
Definition plain_punctuation (r : Z) : bool :=
  char_in ("_-.,:;?!/()[]'" +:+ dquote) r.

Record counts := { alpha : Z; cnt_alnum : Z; total : Z; suspicious : Z; symbol : Z }.

(** The inner loop: one rune of a token; [tokenAlpha] and [tokenAlnum] last. *)
Definition count_rune (c : counts * Z * Z) (r : Z) : counts * Z * Z :=
  let '(c, tokenAlpha, tokenAlnum) := c in
  let c := {| alpha := alpha c; cnt_alnum := cnt_alnum c; total := total c + 1;
              suspicious := suspicious c; symbol := symbol c |} in
  if is_alpha r then
    ({| alpha := alpha c + 1; cnt_alnum := cnt_alnum c + 1; total := total c;
        suspicious := suspicious c; symbol := symbol c |}, tokenAlpha + 1, tokenAlnum + 1)
  else if digit r then
    ({| alpha := alpha c; cnt_alnum := cnt_alnum c + 1; total := total c;
        suspicious := suspicious c; symbol := symbol c |}, tokenAlpha, tokenAlnum + 1)
  else if negb (plain_punctuation r) then
    ({| alpha := alpha c; cnt_alnum := cnt_alnum c; total := total c;
        suspicious := suspicious c; symbol := symbol c + 1 |}, tokenAlpha, tokenAlnum)
  else (c, tokenAlpha, tokenAlnum).

Definition count_token (c : counts) (token : string) : counts :=
  let '(c, tokenAlpha, tokenAlnum) := fold_left count_rune (runes token) (c, 0, 0) in
  if 24 <=? len token then
    if flt (fdiv (float_of_int tokenAlpha) (float_of_int (MaxInt tokenAlnum 1))) (ratio 35 100)
    then {| alpha := alpha c; cnt_alnum := cnt_alnum c; total := total c;
            suspicious := suspicious c + 1; symbol := symbol c |}
    else c
  else c.

Definition IsLikelyNoisyText (text : string) : bool :=
  if String.eqb text "" then true
  else if (64 <=? len text) && MatchString NoisySequenceRegexp text then true
  else
    let tokens := Fields text in
    if (length tokens =? 0)%nat then true
    else
      let c := fold_left count_token tokens
                 {| alpha := 0; cnt_alnum := 0; total := 0; suspicious := 0; symbol := 0 |} in
      if total c =? 0 then true
      else
        let alphaRatio := fdiv (float_of_int (alpha c)) (float_of_int (total c)) in
        let alnumRatio := fdiv (float_of_int (cnt_alnum c)) (float_of_int (total c)) in
        let suspiciousRatio :=
          fdiv (float_of_int (suspicious c)) (float_of_int (Z.of_nat (length tokens))) in
        let symbolRatio := fdiv (float_of_int (symbol c)) (float_of_int (total c)) in
        flt alphaRatio (ratio 28 100) || flt alnumRatio (ratio 45 100)
        || fgt suspiciousRatio (ratio 25 100) || fgt symbolRatio (ratio 18 100).

Definition HasReadableSignal (text : string) : bool :=
  if String.eqb (TrimSpace text) "" then false
  else
    let total := Z.of_nat (length (runes text)) in
    let letters := Z.of_nat (length (filter (fun r => is_alpha r = true) (runes text))) in
    if (total =? 0) || (letters =? 0) then false
    else negb (flt (fdiv (float_of_int letters) (float_of_int total)) (ratio 15 100)).

(** ** Sanitising *)

Definition sanitize (limit : Z) (raw : string) : string :=
  let text := TrimSpace raw in
  if String.eqb text "" then ""
  else
    let text := Join (Fields text) " " in
    if IsLikelyNoisyText text then ""
    else if limit <? len text then str_take (Z.to_nat limit) text else text.

Definition SanitizeAnswerChunk (raw : string) : string := sanitize 320 raw.
Definition SanitizeStreamAnswer (raw : string) : string := sanitize 1200 raw.

Definition SanitizeContextChunk (raw : string) : string :=
  let text := NormalizeExtractedText (TrimSpace raw) in
  if String.eqb text "" then ""
  else
    let text := Join (Fields text) " " in
    let text := if 1800 <? len text then str_take 1800 text else text in
    if negb (HasReadableSignal text) then ""
    else if MatchString NoisySequenceRegexp text && (length (Fields text) <=? 3)%nat then ""
    else text.

(** ** Terms and ranking *)

Section Ranking.
Context `{U : UnicodeTables}.

Definition separators : string := "?!.,:;()[]{}'" +:+ dquote.
Definition searchStop : list string :=
  ["what"; "is"; "the"; "of"; "for"; "and"; "with"; "from"; "about"; "tell"; "me"].

Definition TokenizeSearchTerms (input : string) : list string :=
  let value := ToLower (TrimSpace input) in
  if String.eqb value "" then []
  else
    let parts := Fields (blank_bytes (char_in separators) value) in
    filter (fun p => p ∉ searchStop /\ 3 <= len p) parts.

Definition ContainsAny (terms values : list string) : bool :=
  if (length terms =? 0)%nat || (length values =? 0)%nat then false
  else existsb (fun v => bool_decide (v ∈ (list_to_set terms : gset string))) values.

(** The metadata text: [range] visits the map in any order, [entries]. *)
Definition metadata_text (entries : list (string * string)) : string :=
  foldr (fun kv acc => " " +:+ ToLower kv.1 +:+ " " +:+ ToLower kv.2 +:+ acc) "" entries.

Definition intent_score (queryTerms : list string) (entries : list (string * string))
    (doc : RetrievalDocument) : Z :=
  let content := ToLower (doc_Content doc) in
  let source := ToLower (doc_SourceURI doc) in
  let metadataStr := metadata_text entries in
  let score := fold_left (fun score term =>
    if Contains content term then score + 8
    else if Contains metadataStr term then score + 5
    else if Contains source term then score + 4
    else score) queryTerms 0 in
  let score :=
    if ContainsAny queryTerms ["cgpa"; "gpa"] then
      let score := if Contains content "cgpa" || Contains content "gpa" then score + 20 else score in
      if MatchString CGPAValueRegexp content then score + 12 else score
    else score in
  if ContainsAny queryTerms ["education"; "qualification"; "degree"] then
    if Contains content "education" || Contains content "qualification" || Contains content "degree"
    then score + 10 else score
  else score.

(** [queryIntentScore] with the entries in the order of [map_to_list]. *)
Definition queryIntentScore (queryTerms : list string) (doc : RetrievalDocument) : Z :=
  intent_score queryTerms (map_to_list (doc_Metadata doc)) doc.

Definition RankDocumentsByQueryIntent (query : string) (docs : list RetrievalDocument)
    : list RetrievalDocument :=
  if (length docs <=? 1)%nat then docs
  else
    let queryTerms := TokenizeSearchTerms query in
    if (length queryTerms =? 0)%nat then docs
    else SliceStable (by_rank (queryIntentScore queryTerms) doc_Score) docs.

(** ** Snippets *)

Fixpoint first_long (tokens : list string) : string :=
  match tokens with
  | [] => ""
  | token :: tokens' => if 4 <=? len token then token else first_long tokens'
  end.

Definition PrimaryQuerySignal (query : string) : string :=
  let q := ToLower (TrimSpace query) in
  if Contains q "cgpa" then "cgpa"
  else if Contains q "gpa" then "gpa"
  else if Contains q "education" then "education"
  else if Contains q "qualification" then "qualification"
  else first_long (Fields q).

(** [None] is a panic of the slice expression. *)
Definition BuildAnswerSnippet (query raw : string) : option string :=
  let text := TrimSpace (Join (Fields raw) " ") in
  if String.eqb text "" then Some ""
  else
    let needle := PrimaryQuerySignal query in
    let fallback := Some (SanitizeAnswerChunk text) in
    if negb (String.eqb needle "") then
      let lower := ToLower text in
      match Index lower needle with
      | Some i =>
          let idx := Z.of_nat i in
          let start := idx - 120 in
          let start := if start <? 0 then 0 else start in
          let end_ := idx + len needle + 160 in
          let end_ := if len text <? end_ then len text else end_ in
          match slice text start end_ with
          | None => None
          | Some w =>
              let sanitized := SanitizeAnswerChunk (TrimSpace w) in
              if negb (String.eqb sanitized "") then Some sanitized else fallback
          end
      | None => fallback
      end
    else fallback.

Definition BuildContextPart (query raw : string) : option string :=
  match BuildAnswerSnippet query raw with
  | None => None
  | Some cleaned => if negb (String.eqb cleaned "") then Some cleaned else Some (SanitizeContextChunk raw)
  end.
End Ranking.

(** ** Chunking *)

(** The inner loop of [ChunkText]: how many words from [start] on the chunk
    takes; [first] says whether [end == start]. *)
Fixpoint take_words (maxLen : Z) (first : bool) (currentLen : Z) (ws : list string) : nat :=
  match ws with
  | [] => 0
  | w :: ws' =>
      let candidateLen := currentLen + len w + (if first then 0 else 1) in
      if (maxLen <? candidateLen) && negb first then 0
      else if maxLen <=? candidateLen then 1
      else S (take_words maxLen false candidateLen ws')
  end.

(** The outer loop; [fuel] bounds the number of chunks. *)
Fixpoint chunk_words (fuel : nat) (words : list string) (maxLen overlapWords : Z) (start : nat)
    : option (list string) :=
  if (length words <=? start)%nat then Some []
  else match fuel with
  | O => None
  | S fuel' =>
      let end_ := (start + take_words maxLen true 0 (drop start words))%nat in
      let end_ := if (end_ <=? start)%nat then S start else end_ in
      let chunk := Join (take (end_ - start) (drop start words)) " " in
      if (length words <=? end_)%nat then Some [chunk]
      else
        let nextStart := Z.of_nat end_ - overlapWords in
        let nextStart := if nextStart <=? Z.of_nat start then end_ else Z.to_nat nextStart in
        (fun rest => chunk :: rest) <$> chunk_words fuel' words maxLen overlapWords nextStart
  end.

(** One unit of fuel per word is enough: the start of the chunks increases. *)
Definition ChunkText (text : string) (maxLen overlapWords : Z) : option (list string) :=
  let trimmed := TrimSpace text in
  if String.eqb trimmed "" then Some []
  else
    let maxLen := if maxLen <=? 0 then 900 else maxLen in
    let overlapWords := if overlapWords <? 0 then 0 else overlapWords in
    let words := Fields trimmed in
    if (length words =? 0)%nat then Some []
    else chunk_words (length words) words maxLen overlapWords 0.

(** * Facts *)

(** ** Chunking *)

(** A chunk takes at least one word, and fits unless it is that word. *)
Lemma take_words_more maxLen ws : forall pre cur,
  pre <> [] -> cur = len (Join pre " ") -> cur <= maxLen ->
  let n := take_words maxLen false cur ws in
  (n <= length ws)%nat /\ len (Join (pre ++ take n ws) " ") <= maxLen.
Proof.
  induction ws as [|w ws IH]; intros pre cur Hp -> Hle; cbn zeta; cbn [take_words].
  { rewrite app_nil_r. split; [simpl; lia|done]. }
  cbn zeta. rewrite andb_true_r. destruct (Z.ltb_spec maxLen (len (Join pre " ") + len w + 1)) as [Hg|Hg].
  { rewrite app_nil_r. split; [lia|done]. }
  destruct (Z.leb_spec maxLen (len (Join pre " ") + len w + 1)).
  - split; [simpl; lia|]. cbn [take]. by rewrite len_Join_snoc.
  - destruct (IH (pre ++ [w]) (len (Join pre " ") + len w + 1)) as [H1 H2];
      [by destruct pre|by rewrite len_Join_snoc|lia|].
    split; [simpl; lia|]. cbn [take]. by rewrite cons_middle, app_assoc.
Qed.

Lemma take_words_first maxLen w ws :
  let n := take_words maxLen true 0 (w :: ws) in
  (1 <= n <= S (length ws))%nat /\ (len (Join (take n (w :: ws)) " ") <= maxLen \/ n = 1%nat).
Proof.
  cbn zeta. cbn [take_words]. cbn zeta. rewrite andb_false_r, Z.add_0_l, Z.add_0_r.
  destruct (Z.leb_spec maxLen (len w)); [by split; [lia|right]|].
  destruct (take_words_more maxLen ws [w] (len w)) as [H1 H2]; [done|done|lia|].
  split; [lia|]. left. exact H2.
Qed.

(** The words [s .. e-1] as a chunk. *)
Definition span_text (words : list string) (p : nat * nat) : string :=
  Join (take (p.2 - p.1) (drop p.1 words)) " ".

Record spans_ok (words : list string) (maxLen overlap : Z) (start : nat) (spans : list (nat * nat)) : Prop := {
  so_head : exists e rest, spans = (start, e) :: rest;
  so_fit : Forall (fun p => (p.1 < p.2 <= length words)%nat
             /\ (len (span_text words p) <= maxLen \/ p.2 = S p.1)) spans;
  so_next : Sorted (fun p q => (p.1 < q.1 <= p.2)%nat /\ Z.of_nat p.2 - Z.of_nat q.1 <= overlap) spans;
  so_cover i : (start <= i < length words)%nat -> exists p, p ∈ spans /\ (p.1 <= i < p.2)%nat }.

Lemma chunk_words_spec words maxLen overlap : 0 <= overlap -> forall fuel start,
  (start < length words)%nat -> (length words - start <= fuel)%nat ->
  exists spans, chunk_words fuel words maxLen overlap start = Some (span_text words <$> spans)
    /\ spans_ok words maxLen overlap start spans.
Proof.
  intros Ho. induction fuel as [|fuel IH]; intros start Hs Hf; [lia|]. cbn [chunk_words].
  destruct (Nat.leb_spec (length words) start) as [|_]; [lia|]. cbn zeta.
  destruct (drop start words) as [|w ws] eqn:Hd.
  { apply (f_equal length) in Hd. rewrite length_drop in Hd. simpl in Hd. lia. }
  destruct (take_words_first maxLen w ws) as [Hn Hfit]. set (n := take_words maxLen true 0 (w :: ws)) in *.
  assert (Hl : length words = (start + S (length ws))%nat).
  { apply (f_equal length) in Hd. rewrite length_drop in Hd. simpl in Hd. lia. }
  destruct (Nat.leb_spec (start + n) start) as [|_]; [lia|].
  replace (start + n - start)%nat with n by lia.
  assert (Hspan : span_text words (start, (start + n)%nat) = Join (take n (w :: ws)) " ").
  { unfold span_text. cbn [fst snd]. rewrite Hd. by replace (start + n - start)%nat with n by lia. }
  assert (Hok : (start < start + n <= length words)%nat
    /\ (len (span_text words (start, (start + n)%nat)) <= maxLen \/ (start + n)%nat = S start)).
  { rewrite Hspan. split; [lia|]. destruct Hfit; [by left|right; lia]. }
  destruct (Nat.leb_spec (length words) (start + n)) as [Hend|Hmore].
  - exists [(start, (start + n)%nat)]. split; [by rewrite (fmap_cons _ (start, _)), Hspan|]. split.
    + by eexists _, [].
    + by constructor.
    + repeat constructor.
    + intros i Hi. eexists. split; [by constructor|]. simpl. lia.
  - set (next := if _ <=? _ then _ else _).
    assert (Hnext : (start < next <= start + n)%nat /\ Z.of_nat (start + n) - Z.of_nat next <= overlap).
    { unfold next. destruct (Z.leb_spec (Z.of_nat (start + n) - overlap) (Z.of_nat start)); lia. }
    destruct (IH next) as (spans & -> & [(e & rest & ->) Hfs Hss Hcs]); [lia..|].
    exists ((start, (start + n)%nat) :: (next, e) :: rest). split; [by rewrite (fmap_cons _ (start, _)), Hspan|]. split.
    + by eexists _, _.
    + by constructor.
    + constructor; [done|]. by constructor.
    + intros i Hi. destruct (decide (i < next)%nat).
      * eexists. split; [by constructor|]. simpl. lia.
      * destruct (Hcs i) as (p & Hp & Hip); [lia|]. exists p. split; [by constructor|done].
Qed.

(** ** Metadata *)

Fixpoint no_space (t : string) : Prop :=
  match t with "" => True | String a t' => a <> " "%char /\ no_space t' end.

Lemma no_space_or_split t : no_space t \/ exists x y, t = x +:+ " " +:+ y.
Proof.
  induction t as [|a t [IH|(x & y & ->)]]; [by left| |].
  - destruct (decide (a = " "%char)) as [->|Ha]; [right; by exists "", t|by left].
  - right. by exists (String a x), y.
Qed.

Lemma word_no_space t : word t -> no_space t.
Proof.
  intros [_ HF]. destruct (no_space_or_split t) as [|(x & y & ->)]; [done|]. exfalso.
  rewrite glyphs_app, glyphs_space in HF by done.
  apply Forall_app in HF as [_ HF]. by apply Forall_cons in HF as [? _].
Qed.

Lemma prefix_before_space t a b :
  no_space t -> String.prefix t (a +:+ String " " b) = String.prefix t a.
Proof.
  revert a. induction t as [|c t IH]; intros [|d a] Ht; simpl in Ht; try done.
  - rewrite app_nil_l'. destruct Ht as [Hc _]. simpl. destruct (ascii_dec c " "); congruence.
  - rewrite app_cons. simpl. destruct (ascii_dec c d); [|done]. apply IH. tauto.
Qed.

Lemma Contains_space t a b :
  no_space t -> t <> "" -> Contains (a +:+ String " " b) t = Contains a t || Contains b t.
Proof.
  intros Ht Hne. induction a as [|c a IH].
  - rewrite app_nil_l'. cbn [Contains]. rewrite <- (app_nil_l' (String " " b)) at 1.
    rewrite prefix_before_space by done. by destruct t, b.
  - rewrite app_cons. cbn [Contains]. rewrite IH, <- app_cons, prefix_before_space by done.
    by rewrite orb_assoc.
Qed.

Lemma Contains_leading_space t b : no_space t -> t <> "" -> Contains (String " " b) t = Contains b t.
Proof.
  intros Ht Hne. rewrite <- (app_nil_l' (String " " b)), Contains_space by done. by destruct t.
Qed.

Section MetadataFacts.
Context `{U : UnicodeTables}.

(** A term is in the metadata text exactly when it is in a key or a value. *)
Lemma Contains_metadata t entries :
  no_space t -> t <> "" ->
  Contains (metadata_text entries) t
  = existsb (fun kv => Contains (ToLower kv.1) t || Contains (ToLower kv.2) t) entries.
Proof.
  intros Ht Hne. induction entries as [|[k v] entries IH]; [by destruct t|].
  change (metadata_text ((k, v) :: entries))
    with (String " " (ToLower k +:+ String " " (ToLower v +:+ metadata_text entries))).
  rewrite Contains_leading_space, Contains_space by done. cbn [existsb fst snd]. rewrite <- orb_assoc, <- IH.
  f_equal. destruct entries as [|[k' v'] entries].
  { change (metadata_text []) with "". rewrite str_app_nil_r. replace (Contains "" t) with false by (by destruct t).
    by rewrite orb_false_r. }
  change (metadata_text ((k', v') :: entries))
    with (String " " (ToLower k' +:+ String " " (ToLower v' +:+ metadata_text entries))).
  by rewrite Contains_space, Contains_leading_space.
Qed.

Lemma existsb_perm {A} (f : A -> bool) l l' : l ≡ₚ l' -> existsb f l = existsb f l'.
Proof.
  induction 1; simpl; [done|by f_equal| |congruence].
  destruct (f x), (f y); done.
Qed.

Lemma intent_score_perm terms entries entries' doc :
  Forall (fun t => no_space t /\ t <> "") terms -> entries ≡ₚ entries' ->
  intent_score terms entries doc = intent_score terms entries' doc.
Proof.
  intros HF Hp. unfold intent_score. cbn zeta.
  assert (E : forall z, fold_left (fun score term =>
    if Contains (ToLower (doc_Content doc)) term then score + 8
    else if Contains (metadata_text entries) term then score + 5
    else if Contains (ToLower (doc_SourceURI doc)) term then score + 4 else score) terms z
    = fold_left (fun score term =>
    if Contains (ToLower (doc_Content doc)) term then score + 8
    else if Contains (metadata_text entries') term then score + 5
    else if Contains (ToLower (doc_SourceURI doc)) term then score + 4 else score) terms z).
  { induction HF as [|t terms [Ht Hne] _ IH]; intros z; [done|]. simpl.
    rewrite !Contains_metadata by done. rewrite (existsb_perm _ _ _ Hp). apply IH. }
  by rewrite E.
Qed.

Lemma TokenizeSearchTerms_terms q : Forall (fun t => no_space t /\ t <> "") (TokenizeSearchTerms q).
Proof.
  unfold TokenizeSearchTerms. cbn zeta. destruct (String.eqb _ _); [constructor|].
  apply Forall_forall. intros t [_ Hin]%list_elem_of_filter.
  pose proof (Fields_words (blank_bytes (char_in separators) (ToLower (TrimSpace q)))) as Hw.
  rewrite Forall_forall in Hw. specialize (Hw t Hin). split; [by apply word_no_space|]. by destruct Hw.
Qed.
End MetadataFacts.

(** ** Snippets *)

Lemma prefix_length t s : String.prefix t s = true -> (String.length t <= String.length s)%nat.
Proof.
  revert s. induction t as [|c t IH]; intros [|d s] H; simpl in *; try done; try lia.
  destruct (ascii_dec c d); [|done]. apply IH in H. lia.
Qed.

Lemma Index_bound s sub i : Index s sub = Some i -> Z.of_nat i + len sub <= len s.
Proof.
  unfold len. revert i. induction s as [|a s IH]; intros i H; cbn [Index] in H; unfold HasPrefix in H.
  - destruct (String.prefix sub "") eqn:E; [|done]. injection H as <-. apply prefix_length in E. simpl in *. lia.
  - destruct (String.prefix sub (String a s)) eqn:E.
    + injection H as <-. apply prefix_length in E. lia.
    + destruct (Index s sub) as [j|]; [|done]. injection H as <-. specialize (IH j eq_refl). simpl. lia.
Qed.

Lemma sanitize_bound limit raw : 0 <= limit -> len (sanitize limit raw) <= limit.
Proof.
  intros H. unfold sanitize. cbn zeta. destruct (String.eqb _ _); [done|].
  destruct (IsLikelyNoisyText _); [done|].
  destruct (Z.ltb_spec limit (len (Join (Fields (TrimSpace raw)) " "))); [|done].
  unfold len. rewrite length_str_take. lia.
Qed.

(** * Theorems *)

(** C39: [ChunkText] terminates and covers the text.  The loop always ends.  The
    chunks are spans of consecutive words of the text: the first starts at the
    first word, each next one starts after the start and at or before the end
    of the previous one with at most [overlapWords] words in common, every
    word of the text is in a chunk, and a chunk is longer than [maxLen] bytes
    only if it is a single word. *)
Theorem chunk_text_correct text maxLen overlapWords :
  let lim := if maxLen <=? 0 then 900 else maxLen in
  let ov := if overlapWords <? 0 then 0 else overlapWords in
  let words := Fields text in
  (words = [] -> ChunkText text maxLen overlapWords = Some [])
  /\ (words <> [] -> exists spans,
        ChunkText text maxLen overlapWords = Some (span_text words <$> spans)
        /\ spans_ok words lim ov 0 spans).
Proof.
  cbn zeta. unfold ChunkText. cbn zeta. rewrite Fields_TrimSpace. split.
  - intros He. rewrite (proj2 (TrimSpace_nil_Fields text) He). done.
  - intros Hne. destruct (String.eqb_spec (TrimSpace text) "") as [E|_].
    { by apply TrimSpace_nil_Fields in E. }
    destruct (Fields text) as [|w ws] eqn:Hw; [done|]. cbn [length Nat.eqb].
    apply chunk_words_spec; [destruct (Z.ltb_spec overlapWords 0); lia|simpl; lia..].
Qed.

Section Theorems.
Context `{U : UnicodeTables}.

Lemma rank_perm query docs : RankDocumentsByQueryIntent query docs ≡ₚ docs.
Proof.
  unfold RankDocumentsByQueryIntent. cbn zeta. destruct (length docs <=? 1)%nat; [done|].
  destruct (_ =? 0)%nat; [done|]. apply SliceStable_perm.
Qed.

(** intent ranking is deterministic.  [queryIntentScore] concatenates the
    metadata in the iteration order of a Go map, which is random; because no
    search term contains a space, the score is the same for every order.  The
    ranking keeps all documents and orders them by descending intent score,
    ties by descending vector score. *)
Theorem intent_rank_deterministic query docs :
  Forall (fun d => not_nan (doc_Score d)) docs ->
  let terms := TokenizeSearchTerms query in
  let out := RankDocumentsByQueryIntent query docs in
  (forall d entries, entries ≡ₚ map_to_list (doc_Metadata d) ->
     intent_score terms entries d = queryIntentScore terms d)
  /\ out ≡ₚ docs
  /\ (terms <> [] -> StronglySorted (fun a b => queryIntentScore terms b < queryIntentScore terms a
        \/ (queryIntentScore terms a = queryIntentScore terms b
            /\ fgt (doc_Score b) (doc_Score a) = false)) out).
Proof.
  intros Hn. cbn zeta. split; [intros d entries Hp; apply intent_score_perm;
    [apply TokenizeSearchTerms_terms|done]|].
  split; [apply rank_perm|]. unfold RankDocumentsByQueryIntent. cbn zeta.
  - intros Hne. destruct (Nat.leb_spec (length docs) 1) as [Hl|_].
    { destruct docs as [|x [|y docs]]; [constructor|by repeat constructor|simpl in Hl; lia]. }
    destruct (TokenizeSearchTerms query) as [|t terms]; [done|]. cbn [length Nat.eqb].
    eapply StronglySorted_weaken;
      [|exact (SliceStable_sorted _ _ (by_rank_weak_order (queryIntentScore (t :: terms)) doc_Score) docs Hn)].
    intros a b _ _. unfold ordered, by_rank.
    destruct (Z.eqb_spec (queryIntentScore (t :: terms) b) (queryIntentScore (t :: terms) a)); [by right|].
    intros Hlt. apply Z.ltb_ge in Hlt. left. lia.
Qed.

(** answer snippets are bounded, and do not panic as long as lower-casing
    the text does not lengthen it by more than 120 bytes. *)
Theorem snippet_bounded query raw :
  let text := TrimSpace (Join (Fields raw) " ") in
  len (ToLower text) <= len text + 120 ->
  exists out, BuildAnswerSnippet query raw = Some out /\ len out <= 320.
Proof.
  cbn zeta. intros Hlow. unfold BuildAnswerSnippet. cbn zeta. set (text := TrimSpace _) in *.
  assert (HF : exists out, Some (SanitizeAnswerChunk text) = Some out /\ len out <= 320).
  { eexists. split; [done|]. by apply sanitize_bound. }
  destruct (String.eqb text ""); [by exists ""|].
  destruct (negb _); [|done]. destruct (Index (ToLower text) (PrimaryQuerySignal query)) as [i|] eqn:Hi; [|done].
  apply Index_bound in Hi. set (needle := PrimaryQuerySignal query) in *.
  pose proof (len_nonneg needle). pose proof (len_nonneg text).
  set (lo := if Z.of_nat i - 120 <? 0 then 0 else Z.of_nat i - 120).
  set (hi := if len text <? Z.of_nat i + len needle + 160 then len text else Z.of_nat i + len needle + 160).
  assert (Hs : slice text lo hi <> None).
  { unfold slice. rewrite (proj2 (andb_true_iff _ _)); [done|].
    rewrite andb_true_iff, !Z.leb_le. unfold lo, hi.
    destruct (Z.ltb_spec (Z.of_nat i - 120) 0), (Z.ltb_spec (len text) (Z.of_nat i + len needle + 160)); lia. }
  destruct (slice text lo hi) as [w|]; [|done]. destruct (negb _); [|done].
  eexists. split; [done|]. by apply sanitize_bound.
Qed.
End Theorems.

(** The letter U+023A is two bytes long, its lower case U+2C65 three. *)
Definition latin_extended : UnicodeTables := {|
  table_to_lower r := if r =? 0x23A then 0x2C65 else @table_to_lower latin1 r;
  table_to_upper := @table_to_upper latin1;
  table_is_letter r := (r =? 0x23A) || (r =? 0x2C65) || @table_is_letter latin1 r;
  table_is_digit := @table_is_digit latin1;
  table_is_print r := (r =? 0x23A) || (r =? 0x2C65) || @table_is_print latin1 r |}.

Fixpoint repeat_str (n : nat) (s : string) : string :=
  match n with O => "" | S n' => s +:+ repeat_str n' s end.

(** [BuildAnswerSnippet] can panic.  It searches in the lower-cased text and
    slices the original; when lower-casing lengthens the text the window can
    start beyond its end. *)
Theorem snippet_panics :
  BuildAnswerSnippet (U := latin_extended) "cgpa?"
    (repeat_str 300 (encode_rune 0x23A) +:+ " cgpa") = None.
Proof. vm_compute. reflexivity. Qed.

Lemma snippet_bounded_witness :
  exists out, BuildAnswerSnippet (U := latin1) "what is the CGPA" "Education: the CGPA is 9.1/10 overall" = Some out
    /\ len out <= 320.
Proof. apply (snippet_bounded (U := latin1)). vm_compute. discriminate. Defined.

Lemma intent_rank_deterministic_witness :
  let d id c s := {| doc_DocumentID := id; doc_TenantID := "t"; doc_Content := c;
                     doc_Score := float_of_int s; doc_SourceURI := ""; doc_Metadata := ∅ |} in
  let docs := [d "a" "nothing here" 9; d "b" "a CGPA of 9.1/10" 1] in
  RankDocumentsByQueryIntent (U := latin1) "the cgpa?" docs ≡ₚ docs
  /\ head (RankDocumentsByQueryIntent (U := latin1) "the cgpa?" docs) = Some (d "b" "a CGPA of 9.1/10" 1).
Proof.
  intros d docs. split; [|vm_compute; reflexivity].
  apply (intent_rank_deterministic (U := latin1) "the cgpa?" docs).
  repeat (apply Forall_cons; split; [discriminate|]). constructor.
Defined.
