(* ===== verification/Pdf.v ===== *)
(** * Pdf: backend/util/apiutil/pdf.go (and the hexadecimal literals of text.go)

    Text extraction from PDF uploads: the results of two PDF libraries, and as a
    last resort a scan of the bytes for literal strings, in the file and in its
    compressed streams.  The libraries are arguments; a literal is read by a state
    machine over the bytes.  The theorems: literals are found in order and decoded
    as the scan means them, every stream is inflated once in order and the search
    ends, and the text is at most 12000 bytes. *)

From S2P Require Import Prelude GoStrings GoSort Sha256 GoJSON GoZlib Contracts TextUtil.
From Stdlib Require Import Ascii.

#[local] Open Scope Z_scope.

(** ** Hexadecimal literals (text.go) *)

(** [hex.DecodeString] *)
Fixpoint hex_decode (s : string) : option (list Z) :=
  match s with
  | "" => Some []
  | String a (String b s') =>
      x ← hex_val a; y ← hex_val b; bs ← hex_decode s'; Some (x * 16 + y :: bs)
  | String _ "" => None
  end.

(** [utf16.Decode] *)
Fixpoint utf16_Decode (ws : list Z) : list Z :=
  match ws with
  | [] => []
  | w :: ws' =>
      if (w <? 0xD800) || (0xE000 <=? w) then w :: utf16_Decode ws'
      else match ws' with
           | w2 :: ws'' =>
               if (w <? 0xDC00) && ((0xDC00 <=? w2) && (w2 <? 0xE000))
               then (w - 0xD800) * 1024 + (w2 - 0xDC00) + 0x10000 :: utf16_Decode ws''
               else RuneError :: utf16_Decode ws'
           | [] => [RuneError]
           end
  end.

Definition text_byte (z : Z) : bool := (z =? 10) || (z =? 13) || (z =? 9) || ((32 <=? z) && (z <=? 126)).

Fixpoint pairs_of (bs : list Z) : list (Z * Z) :=
  match bs with x :: y :: bs' => (x, y) :: pairs_of bs' | _ => [] end.

(** [None] is the answer [false]. *)
Definition decodeLikelyPDFUTF16 (decoded : list Z) : option string :=
  if (length decoded <? 4)%nat then None
  else
    let ps := pairs_of decoded in
    let zeros (f : Z * Z -> Z) := Z.of_nat (length (filter (fun p => f p = 0) ps)) in
    let evenZero := zeros fst in
    let oddZero := zeros snd in
    let n := Z.of_nat (length ps) in
    if (evenZero * 3 <? n) && (oddZero * 3 <? n) then None
    else
      let words := if oddZero <=? evenZero then (fun p => p.1 * 256 + p.2) <$> ps
                   else (fun p => p.2 * 256 + p.1) <$> ps in
      let clean := foldr (fun r acc => (if text_byte r then encode_rune r else " ") +:+ acc) "" (utf16_Decode words) in
      let text := Join (Fields clean) " " in
      if (len text <? 3) || IsLikelyNoisyText text then None else Some text.

Definition DecodePDFHexLiteral (raw : string) : string :=
  let trimmed := TrimSpace raw in
  if String.eqb trimmed "" then ""
  else
    let trimmed := if Z.odd (len trimmed) then trimmed +:+ "0" else trimmed in
    match hex_decode trimmed with
    | None | Some [] => ""
    | Some decoded =>
        match decodeLikelyPDFUTF16 decoded with
        | Some s => TrimSpace s
        | None => TrimSpace (bytes_string ((fun ch => if text_byte ch then ch else 32) <$> decoded))
        end
    end.

(** ** Literals *)

(** [current] and [hexCurrent] as lists of bytes in reverse, which are also their
    runes: only ASCII is kept. *)
Record scan_state := {
  ss_segments : list string; ss_current : list Z; ss_hex : list Z;
  ss_inLiteral : bool; ss_escape : bool; ss_inHex : bool }.
Definition scan_start : scan_state := {|
  ss_segments := []; ss_current := []; ss_hex := []; ss_inLiteral := false; ss_escape := false; ss_inHex := false |}.

Definition appendCandidate (segments : list string) (candidate : string) : list string :=
  let candidate := Join (Fields candidate) " " in
  if (len candidate <? 3) || IsLikelyNoisyText candidate then segments else segments ++ [candidate].
Definition flush (s : scan_state) : scan_state :=
  match ss_current s with
  | [] => s
  | current => {| ss_segments := appendCandidate (ss_segments s) (bytes_string (reverse current)); ss_current := [];
                  ss_hex := ss_hex s; ss_inLiteral := ss_inLiteral s; ss_escape := ss_escape s; ss_inHex := ss_inHex s |}
  end.
Definition flushHex (s : scan_state) : scan_state :=
  match ss_hex s with
  | [] => s
  | hexCurrent =>
      let decoded := DecodePDFHexLiteral (bytes_string (reverse hexCurrent)) in
      {| ss_segments := if String.eqb decoded "" then ss_segments s else appendCandidate (ss_segments s) decoded;
         ss_current := ss_current s; ss_hex := []; ss_inLiteral := ss_inLiteral s; ss_escape := ss_escape s;
         ss_inHex := ss_inHex s |}
  end.

Definition set_flags (s : scan_state) (inLiteral escape inHex : bool) : scan_state := {|
  ss_segments := ss_segments s; ss_current := ss_current s; ss_hex := ss_hex s;
  ss_inLiteral := inLiteral; ss_escape := escape; ss_inHex := inHex |}.
Definition push (s : scan_state) (r : Z) : scan_state := {|
  ss_segments := ss_segments s; ss_current := r :: ss_current s; ss_hex := ss_hex s;
  ss_inLiteral := ss_inLiteral s; ss_escape := ss_escape s; ss_inHex := ss_inHex s |}.
Definition push_hex (s : scan_state) (r : Z) : scan_state := {|
  ss_segments := ss_segments s; ss_current := ss_current s; ss_hex := r :: ss_hex s;
  ss_inLiteral := ss_inLiteral s; ss_escape := ss_escape s; ss_inHex := ss_inHex s |}.
Definition clear (current hex : bool) (s : scan_state) : scan_state := {|
  ss_segments := ss_segments s; ss_current := if current then [] else ss_current s;
  ss_hex := if hex then [] else ss_hex s;
  ss_inLiteral := ss_inLiteral s; ss_escape := ss_escape s; ss_inHex := ss_inHex s |}.

(** One byte of the payload. *)
Definition scan_byte (s : scan_state) (r : Z) : scan_state :=
  if negb (ss_inLiteral s) && negb (ss_inHex s) then
    if r =? 40 then clear true false (set_flags s true false (ss_inHex s))
    else if r =? 60 then clear false true (set_flags s (ss_inLiteral s) (ss_escape s) true)
    else s
  else if ss_inHex s then
    if r =? 62 then set_flags (flushHex s) (ss_inLiteral s) (ss_escape s) false
    else if ((48 <=? r) && (r <=? 57)) || ((97 <=? r) && (r <=? 102)) || ((65 <=? r) && (r <=? 70))
    then push_hex s r else s
  else if ss_escape s then
    let s := set_flags s (ss_inLiteral s) false (ss_inHex s) in
    if (32 <=? r) && (r <=? 126) then push s r else s
  else if r =? 92 then set_flags s (ss_inLiteral s) true (ss_inHex s)
  else if r =? 41 then set_flags (flush s) false (ss_escape s) (ss_inHex s)
  else if text_byte r then push s r else s.

Definition bytes_of (s : string) : list Z := byte_val <$> String.list_ascii_of_string s.
Definition extractPDFTextSegments (payload : string) : list string :=
  ss_segments (flushHex (flush (foldl scan_byte scan_start (bytes_of payload)))).

(** ** Streams *)

Definition lower_byte (a : ascii) : ascii :=
  let c := byte_val a in if (65 <=? c) && (c <=? 90) then byte_of (c + 32) else a.
Definition toASCIILower (s : string) : string :=
  String.string_of_list_ascii (lower_byte <$> String.list_ascii_of_string s).

Definition byte_at (s : string) (i : nat) : option Z := byte_val <$> String.get i s.

(** Past the line end after the keyword. *)
Definition skip_eol (payload : string) (dataStart : nat) : nat :=
  if (dataStart <? String.length payload)%nat then
    let dataStart := if bool_decide (byte_at payload dataStart = Some 13) then S dataStart else dataStart in
    if bool_decide (byte_at payload dataStart = Some 10) then S dataStart else dataStart
  else dataStart.

Definition inflate_limit : Z := 2 * 1024 * 1024.

(** The loop; [start] grows in every round, so that the length bounds the rounds.
    [None]: out of fuel. *)
Fixpoint flate_loop (fuel : nat) (payload lower : string) (start : nat) : option (list string) :=
  match fuel with
  | O => None
  | S fuel' =>
      if (String.length lower <=? start)%nat then Some []
      else match Index (str_drop start lower) "stream" with
      | None => Some []
      | Some streamIdx =>
          let streamIdx := (streamIdx + start)%nat in
          let dataStart := skip_eol payload (streamIdx + 6) in
          if (String.length lower <=? dataStart)%nat then Some []
          else match Index (str_drop dataStart lower) "endstream" with
          | None => Some []
          | Some endIdx =>
              let endIdx := (endIdx + dataStart)%nat in
              if (endIdx <=? dataStart)%nat then flate_loop fuel' payload lower (S dataStart)
              else
                let raw := str_take (endIdx - dataStart) (str_drop dataStart payload) in
                let here := match zlib_read_all inflate_limit raw with
                            | Some decoded => if 0 <? len decoded then [decoded] else []
                            | None => []
                            end in
                (fun rest => here ++ rest) <$> flate_loop fuel' payload lower (endIdx + 9)
          end
      end
  end.
Definition extractPDFFlateStreams (payload : string) : option (list string) :=
  flate_loop (S (String.length payload)) payload (toASCIILower payload) 0.

(** ** Extraction *)

(** The loop over the segments: trimmed, without repetitions. *)
Fixpoint unique_segments (seen : gset string) (segments : list string) : list string :=
  match segments with
  | [] => []
  | seg :: segments' =>
      let trimmed := TrimSpace seg in
      if String.eqb trimmed "" then unique_segments seen segments'
      else if bool_decide (trimmed ∈ seen) then unique_segments seen segments'
      else trimmed :: unique_segments ({[trimmed]} ∪ seen) segments'
  end.

Definition cut (text : string) : string := if 12000 <? len text then str_take (Z.to_nat 12000) text else text.

Section Extract.
(** The libraries: the plain text of [ledongthuc/pdf] as read through the limit,
    [None] on an error; the texts of the pages of [rsc.io/pdf], a null page is
    [None]. *)
Variables (pdf_plain : string -> option string) (rsc_pages : string -> option (list (option (list string)))).

Definition extractPDFTextWithLibrary (payload : string) : string :=
  match pdf_plain payload with
  | None => ""
  | Some raw =>
      if String.eqb raw "" then ""
      else
        let text := Join (Fields raw) " " in
        if len text <? 10 then "" else if IsLikelyNoisyText text then "" else text
  end.

Definition extractPDFTextWithRscLibrary (payload : string) : string :=
  match rsc_pages payload with
  | None => ""
  | Some pages =>
      let parts := concat (default [] <$> pages) in
      let b := foldl (fun b textPart =>
        let segment := TrimSpace textPart in
        if String.eqb segment "" then b
        else (if 0 <? len b then b +:+ " " else b) +:+ segment) "" parts in
      let text := Join (Fields b) " " in
      if (len text <? 10) || IsLikelyNoisyText text then "" else text
  end.

(** [None]: the search for streams did not end. *)
Definition ExtractPDFSearchableText (payload : string) : option string :=
  if String.eqb payload "" then Some ""
  else
    let parsed := extractPDFTextWithLibrary payload in
    if negb (String.eqb parsed "") then Some (cut (NormalizeExtractedText parsed))
    else
    let parsed := extractPDFTextWithRscLibrary payload in
    if negb (String.eqb parsed "") then Some (cut (NormalizeExtractedText parsed))
    else
    streams ← extractPDFFlateStreams payload;
    let segments := extractPDFTextSegments payload ++ concat (extractPDFTextSegments <$> streams) in
    match unique_segments ∅ segments with
    | [] => Some ""
    | unique =>
        let text := NormalizeExtractedText (Join unique " ") in
        if String.eqb text "" then Some ""
        else if IsLikelyNoisyText text then Some ""
        else Some (cut text)
    end.
End Extract.

Example extract_escapes :
  extractPDFTextSegments ("junk <</A 1>> (Grade\nnine) (a) <48656c6c6f20> x (open" +:+ " end")
  = ["Graden" +:+ "nine"; "Hello"; "open end"].
Proof. vm_compute. reflexivity. Qed.

(** * Facts *)

(** ** A reference for the scan

    A payload as a sequence of items: bytes outside of literals, literals with
    escapes, hexadecimal literals; and the text of each. *)

Inductive lit_char := Plain (z : Z) | Escaped (z : Z).
Inductive item := Junk (bs : list Z) | Lit (body : list lit_char) | Hex (bs : list Z).

Definition lit_bytes (c : lit_char) : list Z := match c with Plain z => [z] | Escaped z => [92; z] end.
Definition item_bytes (i : item) : list Z :=
  match i with
  | Junk bs => bs
  | Lit body => [40] ++ concat (lit_bytes <$> body) ++ [41]
  | Hex bs => [60] ++ bs ++ [62]
  end.

Definition hex_digit (r : Z) : bool :=
  ((48 <=? r) && (r <=? 57)) || ((97 <=? r) && (r <=? 102)) || ((65 <=? r) && (r <=? 70)).
Definition lit_text (c : lit_char) : list Z :=
  match c with
  | Plain z => if text_byte z then [z] else []
  | Escaped z => if (32 <=? z) && (z <=? 126) then [z] else []
  end.
Definition item_text (i : item) : string :=
  match i with
  | Junk _ => ""
  | Lit body => bytes_string (concat (lit_text <$> body))
  | Hex bs => DecodePDFHexLiteral (bytes_string (filter (fun r => hex_digit r = true) bs))
  end.

(** Items that the scan separates where they are written. *)
Definition item_ok (i : item) : Prop :=
  match i with
  | Junk bs => Forall (fun z => z <> 40 /\ z <> 60) bs
  | Lit body => Forall (fun c => match c with Plain z => z <> 41 /\ z <> 92 | Escaped _ => True end) body
  | Hex bs => Forall (fun z => z <> 62) bs
  end.

(** The state between items. *)
Definition idle (segments : list string) : scan_state := {|
  ss_segments := segments; ss_current := []; ss_hex := []; ss_inLiteral := false; ss_escape := false; ss_inHex := false |}.

Lemma appendCandidate_nil segs : appendCandidate segs "" = segs.
Proof. reflexivity. Qed.

Lemma scan_junk bs segs : Forall (fun z => z <> 40 /\ z <> 60) bs -> foldl scan_byte (idle segs) bs = idle segs.
Proof.
  induction 1 as [|z bs [H1 H2] _ IH]; [done|]. cbn [foldl].
  rewrite <- IH at 2. f_equal. unfold scan_byte. cbn. by rewrite !(proj2 (Z.eqb_neq _ _)).
Qed.

Definition in_literal (segs : list string) (cur : list Z) : scan_state := {|
  ss_segments := segs; ss_current := cur; ss_hex := []; ss_inLiteral := true; ss_escape := false; ss_inHex := false |}.
Lemma scan_lit_char segs cur c :
  match c with Plain z => z <> 41 /\ z <> 92 | Escaped _ => True end ->
  foldl scan_byte (in_literal segs cur) (lit_bytes c) = in_literal segs (reverse (lit_text c) ++ cur).
Proof.
  destruct c as [z|z]; cbn.
  - intros [H1 H2]. unfold scan_byte. cbn. rewrite !(proj2 (Z.eqb_neq _ _)) by done. by destruct (text_byte z).
  - intros _. unfold scan_byte. cbn. by destruct (_ && _).
Qed.
Lemma scan_body segs body : forall cur,
  Forall (fun c => match c with Plain z => z <> 41 /\ z <> 92 | Escaped _ => True end) body ->
  foldl scan_byte (in_literal segs cur) (concat (lit_bytes <$> body))
  = in_literal segs (reverse (concat (lit_text <$> body)) ++ cur).
Proof.
  induction body as [|c body IH]; intros cur Hb; [done|]. apply Forall_cons in Hb as [Hc Hb].
  rewrite !fmap_cons. cbn [concat]. rewrite foldl_app, scan_lit_char, IH by done.
  by rewrite reverse_app, <- app_assoc.
Qed.
Lemma close_literal segs cur :
  scan_byte (in_literal segs cur) 41 = idle (appendCandidate segs (bytes_string (reverse cur))).
Proof. unfold scan_byte. cbn. unfold flush. cbn. by destruct cur. Qed.

Definition in_hex (segs : list string) (hex : list Z) : scan_state := {|
  ss_segments := segs; ss_current := []; ss_hex := hex; ss_inLiteral := false; ss_escape := false; ss_inHex := true |}.
Lemma scan_hex segs bs : forall hex, Forall (fun z => z <> 62) bs ->
  foldl scan_byte (in_hex segs hex) bs = in_hex segs (reverse (filter (fun r => hex_digit r = true) bs) ++ hex).
Proof.
  induction bs as [|z bs IH]; intros hex Hb; [done|]. apply Forall_cons in Hb as [Hz Hb].
  cbn [foldl]. rewrite filter_cons.
  assert (E : scan_byte (in_hex segs hex) z = in_hex segs (if hex_digit z then z :: hex else hex)).
  { unfold scan_byte. cbn -[hex_digit]. rewrite (proj2 (Z.eqb_neq _ _)) by done. fold (hex_digit z). by destruct (hex_digit z). }
  rewrite E. destruct (hex_digit z).
  - rewrite decide_True, reverse_cons, <- app_assoc by done. by apply (IH (z :: hex)).
  - rewrite decide_False by done. by apply IH.
Qed.
Lemma close_hex segs hex :
  scan_byte (in_hex segs hex) 62
  = idle (appendCandidate segs (DecodePDFHexLiteral (bytes_string (reverse hex)))).
Proof.
  unfold scan_byte. cbn -[DecodePDFHexLiteral]. unfold flushHex. destruct hex as [|z hex]; [done|].
  cbn -[DecodePDFHexLiteral reverse]. destruct (String.eqb_spec (DecodePDFHexLiteral (bytes_string (reverse (z :: hex)))) "") as [->|];
    reflexivity.
Qed.

Lemma scan_item segs i : item_ok i ->
  foldl scan_byte (idle segs) (item_bytes i) = idle (appendCandidate segs (item_text i)).
Proof.
  destruct i as [bs|body|bs]; cbn [item_ok item_bytes item_text]; intros Hi.
  - rewrite appendCandidate_nil. by apply scan_junk.
  - rewrite !foldl_app. cbn [foldl]. change (scan_byte (idle segs) 40) with (in_literal segs []).
    rewrite scan_body, app_nil_r by done. by rewrite close_literal, reverse_involutive.
  - rewrite !foldl_app. cbn [foldl]. change (scan_byte (idle segs) 60) with (in_hex segs []).
    rewrite scan_hex, app_nil_r by done. by rewrite close_hex, reverse_involutive.
Qed.

Lemma bytes_of_string bs : Forall (fun z => 0 <= z < 256) bs -> bytes_of (bytes_string bs) = bs.
Proof.
  unfold bytes_of, bytes_string. rewrite String.list_ascii_of_string_of_list_ascii.
  induction 1 as [|z bs Hz _ IH]; [done|]. rewrite !fmap_cons, IH. f_equal. by apply byte_val_of.
Qed.

(** ** Streams *)

Lemma length_toASCIILower s : String.length (toASCIILower s) = String.length s.
Proof.
  unfold toASCIILower. induction s as [|a s IH]; [done|]. cbn. by rewrite <- IH.
Qed.

Lemma skip_eol_ge p n : (n <= skip_eol p n)%nat.
Proof. unfold skip_eol. repeat case_match; lia. Qed.

Lemma flate_loop_total payload lower : forall fuel start,
  (String.length lower - start < fuel)%nat -> is_Some (flate_loop fuel payload lower start).
Proof.
  induction fuel as [|fuel IH]; intros start Hf; [lia|]. cbn [flate_loop].
  destruct (Nat.leb_spec (String.length lower) start); [by eexists|].
  destruct (Index _ "stream") as [i|]; [|by eexists]. cbn zeta.
  pose proof (skip_eol_ge payload (i + start + 6)) as Hg. set (ds := skip_eol _ _) in *.
  destruct (Nat.leb_spec (String.length lower) ds); [by eexists|].
  destruct (Index _ "endstream") as [j|]; [|by eexists].
  destruct (Nat.leb_spec (j + ds) ds).
  - apply IH. lia.
  - rewrite fmap_is_Some. apply IH. lia.
Qed.

Lemma cut_bound s : len (cut s) <= 12000.
Proof.
  unfold cut. destruct (Z.ltb_spec 12000 (len s)); [|lia]. unfold len. rewrite length_str_take. lia.
Qed.

Lemma unique_segments_facts segs : forall seen,
  NoDup (unique_segments seen segs)
  /\ forall t, t ∈ unique_segments seen segs <-> t ∉ seen /\ t <> "" /\ exists s, s ∈ segs /\ TrimSpace s = t.
Proof.
  induction segs as [|s segs IH]; intros seen; cbn [unique_segments]; cbn zeta.
  { split; [constructor|]. intros t. split; [by intros ?%elem_of_nil|]. by intros (_ & _ & s & ?%elem_of_nil & _). }
  assert (Hc : forall t, (exists s', s' ∈ s :: segs /\ TrimSpace s' = t) <-> TrimSpace s = t \/ exists s', s' ∈ segs /\ TrimSpace s' = t).
  { intros t. split.
    - intros (s' & [->|H]%elem_of_cons & E); eauto.
    - intros [E|(s' & H & E)]; [exists s|exists s']; (split; [by constructor|done]). }
  destruct (String.eqb_spec (TrimSpace s) "") as [Hb|Hb].
  { destruct (IH seen) as [H1 H2]. split; [done|]. intros t. rewrite H2, Hc. split; [tauto|].
    intros (? & ? & [E|?]); [congruence|tauto]. }
  destruct (bool_decide_reflect (TrimSpace s ∈ seen)) as [Hs|Hs].
  { destruct (IH seen) as [H1 H2]. split; [done|]. intros t. rewrite H2, Hc. split; [tauto|].
    intros (? & ? & [E|?]); [congruence|tauto]. }
  destruct (IH ({[TrimSpace s]} ∪ seen)) as [H1 H2]. split.
  - constructor; [|done]. rewrite H2. intros (Hn & _). apply Hn, elem_of_union_l. by apply elem_of_singleton.
  - intros t. rewrite elem_of_cons, H2, Hc, not_elem_of_union, not_elem_of_singleton.
    destruct (decide (t = TrimSpace s)) as [->|]; [tauto|]. split; [naive_solver|].
    intros (? & ? & [E|?]); [congruence|tauto].
Qed.

(** * Theorems *)

(** C28: the byte scan is the reference reading of literals.  For a payload written
    as any sequence of items (bytes outside of literals, literals with escapes,
    hexadecimal literals) the segments are the texts of the literals in the order
    in which they appear, each with single spaces, without those that are
    shorter than three bytes or noisy. *)
Theorem pdf_segments_reference items :
  Forall item_ok items -> Forall (fun i => Forall (fun z => 0 <= z < 256) (item_bytes i)) items ->
  extractPDFTextSegments (bytes_string (concat (item_bytes <$> items)))
  = foldl appendCandidate [] (item_text <$> items).
Proof.
  intros Ho Hb. unfold extractPDFTextSegments. rewrite bytes_of_string by (by apply Forall_concat, Forall_fmap).
  assert (E : forall segs, foldl scan_byte (idle segs) (concat (item_bytes <$> items))
    = idle (foldl appendCandidate segs (item_text <$> items))); [|by change scan_start with (idle []); rewrite (E [])].
  clear Hb. induction Ho as [|i items Hi _ IH]; intros segs; [done|]. rewrite !fmap_cons. cbn [concat foldl].
  by rewrite foldl_app, scan_item, IH.
Qed.

Lemma pdf_segments_reference_witness :
  let items := [Junk [66; 84; 32]; Lit [Plain 67; Plain 71; Escaped 41; Plain 65]; Junk [32];
                Hex [52; 56; 54; 53; 54; 67; 54; 67; 54; 70]] in
  extractPDFTextSegments (bytes_string (concat (item_bytes <$> items))) = ["CG)A"; "Hello"].
Proof.
  cbn zeta. rewrite pdf_segments_reference; [vm_compute; reflexivity|repeat constructor; lia|].
  repeat (constructor; [repeat constructor; lia|]). constructor.
Defined.

(** extraction always ends with a text of at most 12000 bytes.  Whatever the
    bytes of the payload and the answers of the PDF libraries, the search for
    compressed streams comes to its end, and the text is within the limit. *)
Theorem pdf_text_bounded pdf_plain rsc_pages payload :
  exists text, ExtractPDFSearchableText pdf_plain rsc_pages payload = Some text /\ len text <= 12000.
Proof.
  unfold ExtractPDFSearchableText. cbn zeta.
  destruct (String.eqb payload ""); [by exists ""|].
  destruct (negb _); [eexists; split; [done|apply cut_bound]|].
  destruct (negb _); [eexists; split; [done|apply cut_bound]|].
  destruct (flate_loop_total payload (toASCIILower payload) (S (String.length payload)) 0) as [streams Hs].
  { rewrite length_toASCIILower. lia. }
  unfold extractPDFFlateStreams. rewrite Hs. cbn [mbind option_bind].
  destruct (unique_segments _ _); [by exists ""|]. destruct (String.eqb _ ""); [by exists ""|].
  destruct (IsLikelyNoisyText _); [by exists ""|]. eexists. split; [done|apply cut_bound].
Qed.

(** A file with one compressed stream, read without the libraries; the compressed
    bytes are scanned as well, and here hold what looks like a literal. *)
Example extract_compressed :
  ExtractPDFSearchableText (fun _ => None) (fun _ => None)
    ("%PDF <</Filter/FlateDecode>> STREAM" +:+ String (byte_of 10) "" +:+ bytes_string fixed_page +:+ "endstream")
  = Some "/ITRp QpBVHLOJendstream Hello world Hello world again".
Proof. vm_compute. reflexivity. Qed.
