(* ===== verification/Repository.v ===== *)
(** * Repository: internal/repository

    Tenant-scoped persistence: the guards that tie a database access to the
    tenant scope of the request, the Postgres repositories of the tenant
    registry and of the ingestion metadata, and the migration runner.  The
    database server is a port: one operation per SQL statement of the source,
    with what the statements mean stated as laws on views of the tables. *)

From S2P Require Import Prelude GoStrings GoSort Contracts.
From Stdlib Require Import Ascii.

#[local] Open Scope Z_scope.

(** ** Guards (tenant_guard.go) *)

Definition ErrUnscopedRepositoryAccess :=
  ErrVar "repository.ErrUnscopedRepositoryAccess" "repository access requires tenant scope".
Definition ErrRecordNotFound := ErrVar "repository.ErrRecordNotFound" "record not found".

Definition GuardReadScope (ctx : context) (targetTenant : TenantID) : option error :=
  match EnsureTenantMatch ctx targetTenant with
  | Some err => Some (Errorf_w "" ErrUnscopedRepositoryAccess (": " +:+ Error err))
  | None => None
  end.

Definition GuardWriteScope (ctx : context) (targetTenant : TenantID) : option error :=
  match EnsureTenantMatch ctx targetTenant with
  | Some err => Some (Errorf_w "" ErrUnscopedRepositoryAccess (": " +:+ Error err))
  | None => None
  end.

(** ** Postgres (postgres_adapter.go) *)

Definition PostgresConfig := Z.
(** The query timeout, in nanoseconds. *)
Definition withDefaults (QueryTimeout : PostgresConfig) : PostgresConfig :=
  if QueryTimeout <=? 0 then 3 * Second else QueryTimeout.

(** The SQL statements of the repositories; a query without rows is [None]. *)
Record Postgres (W : Type) := {
  upsert_tenant : TenantRecord -> M W (option error);
  select_tenant : string -> M W (result (option TenantRecord));
  upsert_metadata : IngestionMetadata -> M W (option error);
  select_metadata : string -> string -> M W (result (option IngestionMetadata)) }.
Arguments upsert_tenant {W}.
Arguments select_tenant {W}.
Arguments upsert_metadata {W}.
Arguments select_metadata {W}.

Section Repositories.
Context {W : Type}.
(** A nil [*sql.DB] is [None]. *)
Variable db : option (Postgres W).

Definition TenantRegistry_Upsert (ctx : context) (tenant : TenantRecord) : M W (option error) :=
  match TenantRecord_Validate tenant with
  | Some err => mret (Some (WrapValidationErr "tenant_record" err))
  | None =>
  match GuardWriteScope ctx (tr_TenantID tenant) with
  | Some err => mret (Some err)
  | None =>
  match db with
  | None => mret (Some (errors_New "postgres db is required"))
  | Some d => upsert_tenant d tenant
  end
  end
  end.

Definition TenantRegistry_GetByTenantID (ctx : context) (tenantID : TenantID)
    : M W (result TenantRecord) :=
  match TenantID_Validate tenantID with
  | Some err => mret (Err (WrapValidationErr "tenant_id" err))
  | None =>
  match GuardReadScope ctx tenantID with
  | Some err => mret (Err err)
  | None =>
  match db with
  | None => mret (Err (errors_New "postgres db is required"))
  | Some d =>
      r ← select_tenant d tenantID;
      match r with
      | Ok None => mret (Err ErrRecordNotFound)
      | Err err => mret (Err err)
      | Ok (Some record) => mret (Ok record)
      end
  end
  end
  end.

Definition IngestionMetadata_Save (ctx : context) (metadata : IngestionMetadata) : M W (option error) :=
  match IngestionMetadata_Validate metadata with
  | Some err => mret (Some (WrapValidationErr "ingestion_metadata" err))
  | None =>
  match GuardWriteScope ctx (im_TenantID metadata) with
  | Some err => mret (Some err)
  | None =>
  match db with
  | None => mret (Some (errors_New "postgres db is required"))
  | Some d => upsert_metadata d metadata
  end
  end
  end.

Definition IngestionMetadata_GetByChecksum (ctx : context) (tenantID : TenantID) (checksumSHA256 : string)
    : M W (result IngestionMetadata) :=
  match TenantID_Validate tenantID with
  | Some err => mret (Err (WrapValidationErr "tenant_id" err))
  | None =>
  if String.eqb checksumSHA256 "" then mret (Err (errors_New "checksum_sha256 is required"))
  else
  match GuardReadScope ctx tenantID with
  | Some err => mret (Err err)
  | None =>
  match db with
  | None => mret (Err (errors_New "postgres db is required"))
  | Some d =>
      r ← select_metadata d tenantID checksumSHA256;
      match r with
      | Ok None => mret (Err ErrRecordNotFound)
      | Err err => mret (Err err)
      | Ok (Some metadata) => mret (Ok metadata)
      end
  end
  end
  end.
End Repositories.

(** [PostgresAuditSink]: a nil repository accepts and drops the event. *)
Definition PostgresAuditSink_Write {W} (repo : option (AuditEventRepository W)) (ctx : context)
    (event : AuditEvent) : M W (option error) :=
  match repo with
  | None => mret None
  | Some r => ae_Save r ctx event
  end.

(** ** Migrations (migration_bootstrap.go) *)

(** The statements of the runner. *)
Record MigrationDB (W : Type) := {
  ensure_table : M W (option error);
  version_exists : string -> M W (result bool);
  exec_sql : string -> M W (option error);
  insert_version : string -> M W (option error) }.
Arguments ensure_table {W}.
Arguments version_exists {W}.
Arguments exec_sql {W}.
Arguments insert_version {W}.

(** [fs.ReadDir(fsys, dir)], each entry with its [IsDir], and
    [fs.ReadFile(fsys, filepath.Join(dir, name))]. *)
Record MigrationFS (W : Type) := {
  read_dir : string -> M W (result (list (string * bool)));
  read_file : string -> string -> M W (result string) }.
Arguments read_dir {W}.
Arguments read_file {W}.

(** [filepath.Ext(name)] for a name without a separator: from the last dot on. *)
Fixpoint path_Ext (s : string) : string :=
  match s with
  | "" => ""
  | String a s' =>
      if Ascii.eqb a "." && (count_byte "." s' =? 0) then s else path_Ext s'
  end.

(** [strings.TrimSuffix(s, ".sql")] *)
Definition trim_sql (s : string) : string :=
  if HasSuffix s ".sql" then str_take (String.length s - 4) s else s.

Section Migrations.
Context `{U : UnicodeTables} {W : Type}.

Definition migration_files (entries : list (string * bool)) : list string :=
  SliceStable str_less
    (fst <$> filter (fun e => negb e.2 && String.eqb (ToLower (path_Ext e.1)) ".sql" = true) entries).

Fixpoint apply_loop (db : MigrationDB W) (fsys : MigrationFS W) (dir : string) (applied files : list string) : M W (result (list string)) :=
  match files with
  | [] => mret (Ok applied)
  | fileName :: files' =>
      let version := trim_sql fileName in
      e ← version_exists db version;
      match e with
      | Err err => mret (Err (Errorf_w ("lookup migration version " +:+ version +:+ ": ") err ""))
      | Ok true => apply_loop db fsys dir applied files'
      | Ok false =>
      r ← read_file fsys dir fileName;
      match r with
      | Err err => mret (Err (Errorf_w ("read migration file " +:+ fileName +:+ ": ") err ""))
      | Ok raw =>
      let sqlText := TrimSpace raw in
      if String.eqb sqlText "" then apply_loop db fsys dir applied files'
      else
      x ← exec_sql db sqlText;
      match x with
      | Some err => mret (Err (Errorf_w ("apply migration " +:+ fileName +:+ ": ") err ""))
      | None =>
      i ← insert_version db version;
      match i with
      | Some err => mret (Err (Errorf_w ("record migration " +:+ fileName +:+ ": ") err ""))
      | None => apply_loop db fsys dir (applied ++ [fileName]) files'
      end
      end
      end
      end
  end.

(** A nil [*sql.DB] and a nil [fs.FS] are [None]. *)
Definition MigrationRunner_Apply (db : option (MigrationDB W)) (Filesystem : option (MigrationFS W))
    (Dir : string) : M W (result (list string)) :=
  match db with
  | None => mret (Err (errors_New "postgres db is required"))
  | Some db =>
  match Filesystem with
  | None => mret (Err (errors_New "migration filesystem is required"))
  | Some fsys =>
  let dir := TrimSpace Dir in
  let dir := if String.eqb dir "" then "." else dir in
  t ← ensure_table db;
  match t with
  | Some err => mret (Err (Errorf_w "ensure schema_migrations table: " err ""))
  | None =>
  d ← read_dir fsys dir;
  match d with
  | Err err => mret (Err (Errorf_w "read migrations dir: " err ""))
  | Ok entries => apply_loop db fsys dir [] (migration_files entries)
  end
  end
  end
  end.
End Migrations.

(** * Facts *)

(** A record as its row holds it: [tz t] is what a TIMESTAMPTZ column keeps of [t]. *)
Definition tenant_row (tz : Time -> Time) (t : TenantRecord) : TenantRecord := {|
  tr_TenantID := tr_TenantID t; tr_DisplayName := tr_DisplayName t; tr_PlanTier := tr_PlanTier t;
  tr_Active := tr_Active t; tr_UpdatedAt := tz (tr_UpdatedAt t) |}.
Definition metadata_row (tz : Time -> Time) (m : IngestionMetadata) : IngestionMetadata := {|
  im_TenantID := im_TenantID m; im_ChecksumSHA256 := im_ChecksumSHA256 m; im_SourceURI := im_SourceURI m;
  im_LifecycleClass := im_LifecycleClass m; im_CapturedAt := tz (im_CapturedAt m) |}.

(** What the SQL statements mean, on views of the two tables. *)
Class PostgresLaws {W} (d : Postgres W) (tenants : W -> gmap string TenantRecord)
    (metadata : W -> gmap (string * string) IngestionMetadata) (tz : Time -> Time) : Prop := {
  (** TIMESTAMPTZ has a resolution of one microsecond *)
  pl_tz t : t mod 1000 = 0 -> tz t = t;
  (** INSERT .. ON CONFLICT DO UPDATE: the row of the key is the new one; a
      statement that reports an error (a lost connection, a timeout) may or may
      not have been committed *)
  pl_upsert_tenant t w :
    let '(e, w') := upsert_tenant d t w in
    let new := <[tr_TenantID t := tenant_row tz t]> (tenants w) in
    metadata w' = metadata w
    /\ match e with None => tenants w' = new | Some _ => tenants w' = tenants w \/ tenants w' = new end;
  pl_upsert_metadata m w :
    let '(e, w') := upsert_metadata d m w in
    let new := <[(im_TenantID m, im_ChecksumSHA256 m) := metadata_row tz m]> (metadata w) in
    tenants w' = tenants w
    /\ match e with None => metadata w' = new | Some _ => metadata w' = metadata w \/ metadata w' = new end;
  (** SELECT .. WHERE key = $1: the row of the key, unless the query fails *)
  pl_select_tenant t w :
    let '(r, w') := select_tenant d t w in
    tenants w' = tenants w /\ metadata w' = metadata w
    /\ match r with Ok o => o = tenants w !! t | Err _ => True end;
  pl_select_metadata t c w :
    let '(r, w') := select_metadata d t c w in
    tenants w' = tenants w /\ metadata w' = metadata w
    /\ match r with Ok o => o = metadata w !! (t, c) | Err _ => True end }.

Lemma GuardWriteScope_None ctx t :
  GuardWriteScope ctx t = None <-> exists tc, RequireTenantScope ctx = Ok tc /\ tc_TenantID tc = t.
Proof.
  unfold GuardWriteScope. rewrite <- EnsureTenantMatch_None. by destruct (EnsureTenantMatch ctx t).
Qed.
Lemma GuardReadScope_None ctx t :
  GuardReadScope ctx t = None <-> exists tc, RequireTenantScope ctx = Ok tc /\ tc_TenantID tc = t.
Proof. apply GuardWriteScope_None. Qed.

(** A read-only file system, and what the statements of the runner mean on two
    views: the recorded versions, and the scripts executed so far. *)
Class MigrationLaws {W} (db : MigrationDB W) (fsys : MigrationFS W) (entries : list (string * bool))
    (content : string -> string) (versions : W -> gset string) (executed : W -> list string) : Prop := {
  ml_read_dir d w : exists r, read_dir fsys d w = (r, w) /\ forall l, r = Ok l -> l = entries;
  ml_read_file d f w : exists r, read_file fsys d f w = (r, w) /\ forall c, r = Ok c -> c = content f;
  ml_ensure w : versions (ensure_table db w).2 = versions w /\ executed (ensure_table db w).2 = executed w;
  ml_exists v w :
    let '(r, w') := version_exists db v w in
    versions w' = versions w /\ executed w' = executed w
    /\ match r with Ok b => b = bool_decide (v ∈ versions w) | Err _ => True end;
  ml_exec sql w : versions (exec_sql db sql w).2 = versions w
    /\ executed (exec_sql db sql w).2 = executed w ++ [sql];
  ml_insert v w :
    let '(e, w') := insert_version db v w in
    executed w' = executed w
    /\ match e with
       | None => versions w' = {[v]} ∪ versions w
       | Some _ => versions w' = versions w \/ versions w' = {[v]} ∪ versions w
       end }.

Section MigrationFacts.
Context `{U : UnicodeTables} {W : Type} (db : MigrationDB W) (fsys : MigrationFS W)
  (entries : list (string * bool)) (content : string -> string) (versions : W -> gset string)
  (executed : W -> list string) `{L : !MigrationLaws db fsys entries content versions executed}.

(** A file that needs no more work: recorded, or blank. *)
Definition settled (w : W) (f : string) : Prop :=
  trim_sql f ∈ versions w \/ TrimSpace (content f) = "".

(** The loop runs the scripts it reports, in order, and settles every file
    when it succeeds. *)
Lemma apply_loop_spec dir files : forall applied w,
  let '(r, w') := apply_loop db fsys dir applied files w in
  versions w ⊆ versions w'
  /\ match r with
     | Err _ => True
     | Ok out => exists new, out = applied ++ new /\ new `sublist_of` files
         /\ executed w' = executed w ++ ((fun f => TrimSpace (content f)) <$> new)
         /\ Forall (settled w') files
         /\ Forall (fun f => trim_sql f ∉ versions w) new
     end.
Proof.
  induction files as [|f files IH]; intros applied w; cbn [apply_loop].
  { split; [done|]. exists []. rewrite !app_nil_r. repeat split; constructor. }
  cbn zeta. run_M.
  pose proof (ml_exists (trim_sql f) w) as Hx. destruct (version_exists db (trim_sql f) w) as [[[]|err] w1];
    destruct Hx as (Hv1 & He1 & Hb); [| |by rewrite Hv1].
  - symmetry in Hb. apply bool_decide_eq_true in Hb. specialize (IH applied w1).
    destruct (apply_loop db fsys dir applied files w1) as [[out|e] w']; rewrite Hv1 in IH;
      (destruct IH as [Hs IH]; split; [done|]); [|done].
    destruct IH as (new & Ho & Hsub & Hex & Hset & Hnew). exists new. split; [done|].
    split; [by constructor|]. split; [by rewrite Hex, He1|]. split; [|done].
    constructor; [|done]. left. set_solver.
  - symmetry in Hb. apply bool_decide_eq_false in Hb.
    destruct (ml_read_file dir f w1) as ([raw|err] & -> & Hraw); [|by rewrite Hv1].
    rewrite (Hraw raw eq_refl). clear raw Hraw.
    destruct (String.eqb_spec (TrimSpace (content f)) "") as [Hblank|Hne].
    { specialize (IH applied w1). destruct (apply_loop db fsys dir applied files w1) as [[out|e] w'];
        rewrite Hv1 in IH; (destruct IH as [Hs IH]; split; [done|]); [|done].
      destruct IH as (new & Ho & Hsub & Hex & Hset & Hnew). exists new. split; [done|].
      split; [by constructor|]. split; [by rewrite Hex, He1|]. split; [|done].
      constructor; [by right|done]. }
    pose proof (ml_exec (TrimSpace (content f)) w1) as [Hv2 He2].
    destruct (exec_sql db (TrimSpace (content f)) w1) as [[err|] w2]; simpl in Hv2, He2;
      [by rewrite Hv2, Hv1|].
    pose proof (ml_insert (trim_sql f) w2) as Hi. destruct (insert_version db (trim_sql f) w2) as [[err|] w3];
      destruct Hi as [He3 Hv3];
      [split; [|done]; rewrite <- Hv1, <- Hv2; destruct Hv3 as [-> | ->]; set_solver|].
    specialize (IH (applied ++ [f]) w3). destruct (apply_loop db fsys dir (applied ++ [f]) files w3) as [[out|e] w'];
      rewrite Hv3, Hv2, Hv1 in IH; (destruct IH as [Hs IH]; split; [set_solver|]); [|done].
    destruct IH as (new & Ho & Hsub & Hex & Hset & Hnew). exists (f :: new).
    split; [by rewrite Ho, <- app_assoc|]. split; [by constructor|].
    split; [by rewrite Hex, He3, He2, He1, <- app_assoc|].
    split; [constructor; [left; set_solver|done]|]. constructor; [done|].
    eapply Forall_impl; [exact Hnew|]. set_solver.
Qed.

(** On settled files the loop runs nothing. *)
Lemma apply_loop_settled dir files : forall applied w,
  Forall (settled w) files ->
  let '(r, w') := apply_loop db fsys dir applied files w in
  executed w' = executed w /\ match r with Ok out => out = applied | Err _ => True end.
Proof.
  induction files as [|f files IH]; intros applied w HF; cbn [apply_loop]; [done|].
  apply Forall_cons in HF as [Hf HF]. cbn zeta. run_M.
  pose proof (ml_exists (trim_sql f) w) as Hx. destruct (version_exists db (trim_sql f) w) as [[b|err] w1];
    destruct Hx as (Hv1 & He1 & Hb); [|by rewrite He1].
  assert (HF1 : Forall (settled w1) files) by (eapply Forall_impl; [exact HF|]; unfold settled; by rewrite Hv1).
  specialize (IH applied w1 HF1).
  assert (K : let '(r, w') := apply_loop db fsys dir applied files w1 in
    executed w' = executed w /\ match r with Ok out => out = applied | Err _ => True end).
  { destruct (apply_loop db fsys dir applied files w1). by rewrite <- He1. }
  destruct b; [done|]. destruct (ml_read_file dir f w1) as ([raw|err] & -> & Hraw); [|by rewrite He1].
  rewrite (Hraw raw eq_refl). clear raw Hraw.
  destruct Hf as [Hin|Hbl]; [by rewrite bool_decide_true in Hb|]. rewrite Hbl. done.
Qed.
End MigrationFacts.

(** * Theorems *)

Section Theorems.
Context {W : Type} (d : Postgres W) (tenants : W -> gmap string TenantRecord)
  (metadata : W -> gmap (string * string) IngestionMetadata) (tz : Time -> Time)
  `{L : !PostgresLaws d tenants metadata tz}.

(** writes stay in the tenant.  A call of [Save] under any context changes
    the metadata table only at the key of the record it was given, to the row
    of that record, and only if the tenant scope of the context is the tenant
    of that record; without a matching scope nothing changes and the error is
    [ErrUnscopedRepositoryAccess]. *)
Theorem metadata_write_isolated ctx m w :
  let '(e, w') := IngestionMetadata_Save (Some d) ctx m w in
  tenants w' = tenants w
  /\ (forall key, metadata w' !! key <> metadata w !! key ->
        key = (im_TenantID m, im_ChecksumSHA256 m) /\ metadata w' !! key = Some (metadata_row tz m)
        /\ exists tc, RequireTenantScope ctx = Ok tc /\ tc_TenantID tc = key.1)
  /\ (IngestionMetadata_Validate m = None ->
      (forall tc, RequireTenantScope ctx = Ok tc -> tc_TenantID tc <> im_TenantID m) ->
      w' = w /\ exists err, e = Some err /\ errors_Is err "repository.ErrUnscopedRepositoryAccess" = true).
Proof.
  unfold IngestionMetadata_Save, mret, M_ret. destruct (IngestionMetadata_Validate m); [naive_solver|].
  destruct (GuardWriteScope ctx (im_TenantID m)) as [err|] eqn:Hg.
  { split; [done|]. split; [naive_solver|]. intros _ _. split; [done|]. exists err. split; [done|].
    unfold GuardWriteScope in Hg. destruct (EnsureTenantMatch _ _); [|done]. by injection Hg as <-. }
  apply GuardWriteScope_None in Hg as (tc & Htc & Ht).
  pose proof (pl_upsert_metadata m w) as Hu. destruct (upsert_metadata d m w) as [e w'].
  cbn zeta in Hu. destruct Hu as [Hu1 Hu2]. split; [done|]. split; [|intros _ Hno; by destruct (Hno tc Htc)].
  intros key Hk.
  assert (H : metadata w' = metadata w \/
    metadata w' = <[(im_TenantID m, im_ChecksumSHA256 m) := metadata_row tz m]> (metadata w))
    by (destruct e; tauto). destruct H as [H|H]; rewrite H in *; [done|].
  destruct (decide (key = (im_TenantID m, im_ChecksumSHA256 m))) as [->|Hne].
  - rewrite lookup_insert_eq. split; [done|]. split; [done|]. by exists tc.
  - by rewrite lookup_insert_ne in Hk.
Qed.

(** save and get are a round trip, per tenant.  After a successful [Save],
    [GetByChecksum] in the same scope returns the record saved, its capture
    time as the column keeps it (exactly the record saved when that time is a
    whole number of microseconds), or the error of the query if the database
    fails; in the scope of another tenant it returns an error without reaching
    the database. *)
Theorem metadata_roundtrip ctx m w w' :
  IngestionMetadata_Save (Some d) ctx m w = (None, w') ->
  let get ctx := IngestionMetadata_GetByChecksum (Some d) ctx (im_TenantID m) (im_ChecksumSHA256 m) w' in
  ((get ctx).1 = Ok (metadata_row tz m) \/ exists err,
     (select_metadata d (im_TenantID m) (im_ChecksumSHA256 m) w').1 = Err err /\ (get ctx).1 = Err err)
  /\ (im_CapturedAt m mod 1000 = 0 -> metadata_row tz m = m)
  /\ (forall ctx' tc', RequireTenantScope ctx' = Ok tc' -> tc_TenantID tc' <> im_TenantID m ->
        is_Ok (get ctx').1 = false /\ (get ctx').2 = w').
Proof.
  intros Hs. unfold IngestionMetadata_Save, mret, M_ret in Hs.
  destruct (IngestionMetadata_Validate m) eqn:Hv; [done|]. destruct (GuardWriteScope _ _) eqn:Hg; [done|].
  pose proof (pl_upsert_metadata m w) as Hu. rewrite Hs in Hu. destruct Hu as [_ Hu].
  unfold IngestionMetadata_Validate in Hv. validate_simp_in Hv. destruct Hv as (Ht & Hc & _).
  cbn zeta. unfold IngestionMetadata_GetByChecksum. run_M.
  rewrite Ht, (proj2 (String.eqb_neq _ _) Hc). split; [|split].
  - change (GuardReadScope ctx (im_TenantID m)) with (GuardWriteScope ctx (im_TenantID m)). rewrite Hg.
    pose proof (pl_select_metadata (im_TenantID m) (im_ChecksumSHA256 m) w') as Hq.
    destruct (select_metadata d _ _ w') as [[o|err] w'']; destruct Hq as (_ & _ & Hq).
    + rewrite Hu, lookup_insert_eq in Hq. subst o. by left.
    + right. by exists err.
  - intros Hus. unfold metadata_row. rewrite pl_tz by done. by destruct m.
  - intros ctx' tc' Htc Hne. destruct (GuardReadScope ctx' (im_TenantID m)) eqn:Hg'; [done|].
    apply GuardReadScope_None in Hg' as (tc & Htc2 & Heq). rewrite Htc in Htc2. by injection Htc2 as ->.
Qed.
End Theorems.

Section MigrationTheorem.
Context `{U : UnicodeTables} {W : Type} (db : MigrationDB W) (fsys : MigrationFS W)
  (entries : list (string * bool)) (content : string -> string) (versions : W -> gset string)
  (executed : W -> list string) `{L : !MigrationLaws db fsys entries content versions executed}.

(** migrations are ordered and run once.  A successful [Apply] executes
    exactly the scripts it reports, in the order of the sorted file names,
    none of them recorded before; and a second [Apply] over the same
    directory executes nothing and reports nothing, or fails on a query or a read. *)
Theorem migrations_run_once dir w applied w1 :
  MigrationRunner_Apply (Some db) (Some fsys) dir w = (Ok applied, w1) ->
  applied `sublist_of` migration_files entries
  /\ executed w1 = executed w ++ ((fun f => TrimSpace (content f)) <$> applied)
  /\ Forall (fun f => trim_sql f ∉ versions w) applied
  /\ let '(r, w2) := MigrationRunner_Apply (Some db) (Some fsys) dir w1 in
     executed w2 = executed w1 /\ (forall l, r = Ok l -> l = []).
Proof.
  unfold MigrationRunner_Apply. run_M. cbn zeta. intros H.
  set (dir' := if String.eqb (TrimSpace dir) "" then "." else TrimSpace dir) in *.
  pose proof (ml_ensure w) as [Hv He]. destruct (ensure_table db w) as [[err|] w0]; [done|]. simpl in Hv, He.
  destruct (ml_read_dir dir' w0) as (rd & Hrd & Hent). rewrite Hrd in H. destruct rd as [l|]; [|done].
  rewrite (Hent l eq_refl) in H. clear l Hrd Hent. pose proof (apply_loop_spec db fsys entries content versions executed dir'
    (migration_files entries) [] w0) as HA. rewrite H in HA.
  destruct HA as (Hsub & new & -> & Hsl & Hex & Hset & Hnew). rewrite app_nil_l. rewrite He in Hex.
  rewrite Hv in Hnew. split; [done|]. split; [done|]. split; [done|].
  pose proof (ml_ensure w1) as [Hv1 He1]. destruct (ensure_table db w1) as [[err|] w2]; simpl in Hv1, He1.
  { by rewrite He1. }
  destruct (ml_read_dir dir' w2) as ([l|err] & -> & Hent); [rewrite (Hent l eq_refl)|by rewrite He1].
  pose proof (apply_loop_settled db fsys entries content versions executed dir'
    (migration_files entries) [] w2) as HB.
  destruct (apply_loop db fsys dir' [] (migration_files entries) w2) as [r w3].
  destruct HB as [HB1 HB2]; [eapply Forall_impl; [exact Hset|]; unfold settled; by rewrite Hv1|].
  rewrite HB1, He1. split; [done|]. by intros l' ->.
Qed.
End MigrationTheorem.

(** ** A concrete database *)

Record tables := { tb_tenants : gmap string TenantRecord; tb_metadata : gmap (string * string) IngestionMetadata }.
Definition micros (t : Time) : Time := t / 1000 * 1000.
Definition sample_db : Postgres tables := {|
  upsert_tenant t := fun w =>
    (None, {| tb_tenants := <[tr_TenantID t := tenant_row micros t]> (tb_tenants w); tb_metadata := tb_metadata w |});
  select_tenant t := fun w => (Ok (tb_tenants w !! t), w);
  upsert_metadata m := fun w =>
    (None, {| tb_tenants := tb_tenants w;
              tb_metadata := <[(im_TenantID m, im_ChecksumSHA256 m) := metadata_row micros m]> (tb_metadata w) |});
  select_metadata t c := fun w => (Ok (tb_metadata w !! (t, c)), w) |}.
#[global] Instance sample_db_laws : PostgresLaws sample_db tb_tenants tb_metadata micros.
Proof.
  split; try done. intros t Ht. unfold micros. pose proof (Z.div_mod t 1000). lia.
Qed.

Definition scope (t : string) : context :=
  Some (WithValue Background tenantContextKey (CtxTenant {| tc_TenantID := t; tc_RequestID := "r" |})).
Definition sample_metadata : IngestionMetadata := {|
  im_TenantID := "acme"; im_ChecksumSHA256 := "c1"; im_SourceURI := "u"; im_LifecycleClass := "standard";
  im_CapturedAt := 5000 |}.
Definition empty_tables : tables := {| tb_tenants := ∅; tb_metadata := ∅ |}.

Lemma metadata_write_isolated_witness :
  let w' := (IngestionMetadata_Save (Some sample_db) (scope "acme") sample_metadata empty_tables).2 in
  tb_tenants w' = tb_tenants empty_tables /\ tb_metadata w' !! ("acme", "c1") = Some sample_metadata.
Proof.
  cbn zeta. split; [|vm_compute; reflexivity].
  pose proof (metadata_write_isolated sample_db tb_tenants tb_metadata micros (scope "acme") sample_metadata
    empty_tables) as H.
  destruct (IngestionMetadata_Save _ _ _ _) as [e w']. exact (proj1 H).
Defined.

Lemma metadata_roundtrip_witness :
  let w' := (IngestionMetadata_Save (Some sample_db) (scope "acme") sample_metadata empty_tables).2 in
  let get ctx := IngestionMetadata_GetByChecksum (Some sample_db) ctx "acme" "c1" w' in
  (get (scope "acme")).1 = Ok sample_metadata /\ is_Ok (get (scope "globex")).1 = false.
Proof.
  cbn zeta.
  destruct (metadata_roundtrip sample_db tb_tenants tb_metadata micros (scope "acme") sample_metadata empty_tables
    (IngestionMetadata_Save (Some sample_db) (scope "acme") sample_metadata empty_tables).2 eq_refl)
    as ([H|(err & H & _)] & Hm & H2).
  - rewrite (Hm eq_refl) in H. split; [exact H|]. apply (H2 (scope "globex") {| tc_TenantID := "globex"; tc_RequestID := "r" |} eq_refl).
    discriminate.
  - discriminate H.
Defined.

(** The world of the migration example: recorded versions, scripts run. *)
Definition sample_migrations : MigrationDB (gset string * list string) := {|
  ensure_table := mret None;
  version_exists v := fun w => (Ok (bool_decide (v ∈ w.1)), w);
  exec_sql s := fun w => (None, (w.1, w.2 ++ [s]));
  insert_version v := fun w => (None, ({[v]} ∪ w.1, w.2)) |}.
Definition sample_entries : list (string * bool) :=
  [("0002_b.sql", false); ("notes.txt", false); ("0001_a.SQL", false); ("old.sql", true)].
Definition sample_fs : MigrationFS (gset string * list string) := {|
  read_dir _ := mret (Ok sample_entries);
  read_file _ f := mret (Ok (" create " +:+ f)) |}.
#[global] Instance sample_migration_laws : MigrationLaws sample_migrations sample_fs sample_entries
  (fun f => " create " +:+ f) fst snd.
Proof. split; try done; intros; eexists; (split; [reflexivity|]); by intros ? [= <-]. Qed.

#[local] Existing Instance latin1.

Lemma migrations_run_once_witness :
  let w1 := (MigrationRunner_Apply (Some sample_migrations) (Some sample_fs) "" (∅, [])).2 in
  w1.2 = ["create 0001_a.SQL"; "create 0002_b.sql"]
  /\ (MigrationRunner_Apply (Some sample_migrations) (Some sample_fs) "" w1).2.2 = w1.2.
Proof.
  cbn zeta. split; [vm_compute; reflexivity|].
  destruct (MigrationRunner_Apply (Some sample_migrations) (Some sample_fs) "" (∅, []))
    as [[applied|e] w1] eqn:E; [|vm_compute in E; discriminate].
  destruct (migrations_run_once sample_migrations sample_fs sample_entries
    (fun f => " create " +:+ f) fst snd "" (∅, []) applied w1 E) as (_ & _ & _ & H).
  cbn [snd]. destruct (MigrationRunner_Apply _ _ "" w1) as [r w2]. exact (proj1 H).
Defined.
