(* ===== verification/AuditRepo.v ===== *)
(** * AuditRepo: the audit events of internal/repository/postgres_adapter.go

    [PostgresAuditEventRepository]: [Save] and [ListByTenant] over two SQL
    statements, with the attributes of an event as JSON.  The database is a port
    whose statements are described by laws on the table.  The theorems: the
    trail is append-only and written in the scope of its tenant only; a listing
    holds the newest events of its tenant; what was saved is listed. *)

From stdpp Require Import sorting.
From S2P Require Import Prelude GoStrings GoSort GoTime GoJSON Contracts Repository.

#[local] Open Scope Z_scope.

(** ** Attributes as JSON *)

(** [json.Marshal] of a map: keys in order.  A nil map is written [null], which
    reads back as the empty map as well. *)
Definition attribute_members (m : gmap string string) : list (string * json) :=
  (fun k => (k, JStr (default "" (m !! k)))) <$> SliceStable str_less (map_to_list m).*1.
Definition encode_attributes (m : gmap string string) : string := json_encode (JObj (attribute_members m)).

(** [json.Unmarshal] into an empty map: the last value of a key counts, [null]
    is the empty string. *)
Fixpoint set_attributes (m : gmap string string) (fs : list (string * json)) : option (gmap string string) :=
  match fs with
  | [] => Some m
  | (k, v) :: fs' =>
      s ← match v with JStr s => Some s | JNull => Some "" | _ => None end;
      set_attributes (<[k := s]> m) fs'
  end.
Definition decode_attributes (s : string) : option (gmap string string) :=
  v ← json_parse s;
  match v with
  | JNull => Some ∅
  | JObj fs => set_attributes ∅ fs
  | _ => None
  end.

(** ** The repository *)

Record audit_row := {
  ar_event_id : string; ar_tenant_id : string; ar_event_type : string; ar_resource : string;
  ar_actor : string; ar_outcome : string; ar_occurred_at : Time; ar_attributes_json : string }.

(** [select_events tenant limit]: the error of the query, or the rows that were
    scanned and the error that ended the iteration early, if any. *)
Record AuditDB (W : Type) := {
  insert_event : audit_row -> M W (option error);
  select_events : string -> Z -> M W (result (list audit_row * option error)) }.
Arguments insert_event {W}.
Arguments select_events {W}.

Definition row_of_event (event : AuditEvent) : audit_row := {|
  ar_event_id := ev_EventID event; ar_tenant_id := ev_TenantID event; ar_event_type := ev_EventType event;
  ar_resource := ev_Resource event; ar_actor := ev_Actor event; ar_outcome := ev_Outcome event;
  ar_occurred_at := ev_OccurredAt event; ar_attributes_json := encode_attributes (ev_Attributes event) |}.

Section AuditEvents.
Context {W : Type}.
Variable db : option (AuditDB W).
(** The error of [json.Unmarshal] on a text. *)
Variable unmarshal_error : string -> error.

Definition AuditEvents_Save (ctx : context) (event : AuditEvent) : M W (option error) :=
  match AuditEvent_Validate event with
  | Some err => mret (Some (WrapValidationErr "audit_event" err))
  | None =>
  match GuardWriteScope ctx (ev_TenantID event) with
  | Some err => mret (Some err)
  | None =>
  match db with
  | None => mret (Some (errors_New "postgres db is required"))
  | Some d => insert_event d (row_of_event event)
  end
  end
  end.

Definition event_of_row (r : audit_row) : result AuditEvent :=
  attrs ← (if String.eqb (ar_attributes_json r) "" then Ok ∅
           else match decode_attributes (ar_attributes_json r) with
                | Some m => Ok m
                | None => Err (Errorf_w "unmarshal audit attributes: " (unmarshal_error (ar_attributes_json r)) "")
                end);
  Ok {| ev_EventID := ar_event_id r; ev_TenantID := ar_tenant_id r; ev_EventType := ar_event_type r;
        ev_Resource := ar_resource r; ev_Actor := ar_actor r; ev_Outcome := ar_outcome r;
        ev_OccurredAt := ar_occurred_at r; ev_Attributes := attrs |}.

Fixpoint scan_rows (rows : list audit_row) : result (list AuditEvent) :=
  match rows with
  | [] => Ok []
  | r :: rows' => e ← event_of_row r; es ← scan_rows rows'; Ok (e :: es)
  end.

Definition AuditEvents_ListByTenant (ctx : context) (tenantID : TenantID) (limit : Z)
    : M W (result (list AuditEvent)) :=
  match TenantID_Validate tenantID with
  | Some err => mret (Err (WrapValidationErr "tenant_id" err))
  | None =>
  match GuardReadScope ctx tenantID with
  | Some err => mret (Err err)
  | None =>
  match db with
  | None => mret (Err (errors_New "postgres db is required"))
  | Some d =>
      let limit := if limit <=? 0 then 50 else limit in
      r ← select_events d tenantID limit;
      match r with
      | Err err => mret (Err err)
      | Ok (rows, iterErr) =>
          mret (es ← scan_rows rows; match iterErr with Some err => Err err | None => Ok es end)
      end
  end
  end
  end.

Definition PostgresAuditEventRepository : AuditEventRepository W := {|
  ae_Save := AuditEvents_Save; ae_ListByTenant := AuditEvents_ListByTenant |}.
End AuditEvents.

(** * Facts *)

Definition portable_attributes (m : gmap string string) : Prop :=
  map_Forall (fun k v => valid_utf8 k = true /\ valid_utf8 v = true) m.

Lemma set_attributes_members (m : gmap string string) ks : forall acc,
  (forall k, k ∈ ks -> is_Some (m !! k)) ->
  exists acc', set_attributes acc ((fun k => (k, JStr (default "" (m !! k)))) <$> ks) = Some acc'
    /\ forall k, acc' !! k = if decide (k ∈ ks) then m !! k else acc !! k.
Proof.
  induction ks as [|x ks IH]; intros acc Hk.
  - exists acc. split; [done|]. intros k. rewrite decide_False by (by intros ?%elem_of_nil). done.
  - rewrite fmap_cons. cbn [set_attributes mbind option_bind].
    destruct (Hk x) as [v Hv]; [by constructor|]. rewrite Hv. cbn [default from_option id].
    destruct (IH (<[x := v]> acc)) as (acc' & -> & Ha); [intros k ?; apply Hk; by constructor|].
    exists acc'. split; [done|]. intros k. rewrite Ha.
    destruct (decide (k ∈ ks)); [by rewrite decide_True by (by constructor)|].
    destruct (decide (k = x)) as [->|Hne].
    + by rewrite lookup_insert_eq, decide_True by (by constructor).
    + rewrite lookup_insert_ne, decide_False by (done || intros [?|?]%elem_of_cons; done). done.
Qed.

(** The keys of the members are those of the map. *)
Lemma member_keys (m : gmap string string) k : k ∈ SliceStable str_less (map_to_list m).*1 <-> is_Some (m !! k).
Proof.
  rewrite SliceStable_perm, list_elem_of_fmap. split.
  - intros ([k' v] & -> & H%elem_of_map_to_list). by exists v.
  - intros [v H]. exists (k, v). split; [done|]. by apply elem_of_map_to_list.
Qed.

Lemma attributes_roundtrip m : portable_attributes m -> decode_attributes (encode_attributes m) = Some m.
Proof.
  intros Hp. unfold decode_attributes, encode_attributes.
  assert (Hn : forall ks, (forall k, k ∈ ks -> is_Some (m !! k)) ->
    map norm_member ((fun k => (k, JStr (default "" (m !! k)))) <$> ks) = (fun k => (k, JStr (default "" (m !! k)))) <$> ks).
  { induction ks as [|k ks IH]; intros Hk; [done|].
    destruct (Hk k) as [v Hv]; [by constructor|]. destruct (Hp k v Hv) as [H1 H2]. rewrite !fmap_cons.
    refine (f_equal2 cons _ (IH _)); [|intros; apply Hk; by constructor].
    unfold norm_member. cbn [fst snd json_norm]. rewrite Hv. cbn [default from_option id].
    by rewrite !json_text_valid. }
  rewrite json_roundtrip.
  - cbn [mbind option_bind json_norm]. change (map _ (attribute_members m)) with (map norm_member (attribute_members m)).
    unfold attribute_members. rewrite Hn by (intros k; apply member_keys).
    destruct (set_attributes_members m (SliceStable str_less (map_to_list m).*1) ∅) as (acc & -> & Ha);
      [intros k; apply member_keys|].
    f_equal. apply map_eq. intros k. rewrite Ha. case_decide as Hk; [done|].
    rewrite member_keys in Hk. rewrite lookup_empty. symmetry. by apply eq_None_not_Some.
  - apply wf_members. unfold attribute_members. apply Forall_fmap, Forall_true. done.
  - cbn [json_depth]. assert (foldr (fun kv acc => Z.max (json_depth kv.2) acc) 0 (attribute_members m) = 0) as ->; [|done].
    unfold attribute_members. induction (SliceStable _ _) as [|k ks IH]; [done|]. rewrite fmap_cons. cbn [foldr snd].
    by rewrite IH.
Qed.

(** ** The table *)

(** An event as the table keeps it. *)
Definition stored_row (tz : Time -> Time) (jsonb : string -> string) (r : audit_row) : audit_row := {|
  ar_event_id := ar_event_id r; ar_tenant_id := ar_tenant_id r; ar_event_type := ar_event_type r;
  ar_resource := ar_resource r; ar_actor := ar_actor r; ar_outcome := ar_outcome r;
  ar_occurred_at := tz (ar_occurred_at r); ar_attributes_json := jsonb (ar_attributes_json r) |}.
Definition stored_event (tz : Time -> Time) (e : AuditEvent) : AuditEvent := {|
  ev_EventID := ev_EventID e; ev_TenantID := ev_TenantID e; ev_EventType := ev_EventType e;
  ev_Resource := ev_Resource e; ev_Actor := ev_Actor e; ev_Outcome := ev_Outcome e;
  ev_OccurredAt := tz (ev_OccurredAt e); ev_Attributes := ev_Attributes e |}.

Definition newest_first (a b : audit_row) : Prop := ar_occurred_at b <= ar_occurred_at a.
(** [rows] in the order of a query for the events of [tenant]. *)
Definition listing (events : gmap string audit_row) (tenant : string) (rows : list audit_row) : Prop :=
  rows ≡ₚ filter (fun r => ar_tenant_id r = tenant) (map_to_list events).*2 /\ StronglySorted newest_first rows.

(** What the statements mean on a view of the table, by event identifier.  A
    JSONB column gives back a text of the same value, never an empty one. *)
Class AuditDBLaws {W} (d : AuditDB W) (events : W -> gmap string audit_row) (tz : Time -> Time)
    (jsonb : string -> string) : Prop := {
  al_jsonb s m : decode_attributes s = Some m -> jsonb s <> "" /\ decode_attributes (jsonb s) = Some m;
  (** INSERT .. ON CONFLICT (event_id) DO NOTHING; a statement that reports an
      error may or may not have been committed *)
  al_insert r w :
    let '(e, w') := insert_event d r w in
    let new := match events w !! ar_event_id r with
               | Some _ => events w
               | None => <[ar_event_id r := stored_row tz jsonb r]> (events w)
               end in
    match e with None => events w' = new | Some _ => events w' = events w \/ events w' = new end;
  (** SELECT .. WHERE tenant_id = $1 ORDER BY occurred_at DESC LIMIT $2 *)
  al_select t n w :
    let '(r, w') := select_events d t n w in
    events w' = events w
    /\ forall rows, r = Ok (rows, None) -> exists all, listing (events w) t all /\ rows = take (Z.to_nat n) all }.

Section Laws.
Context {W : Type} (d : AuditDB W) (unmarshal_error : string -> error) (events : W -> gmap string audit_row)
  (tz : Time -> Time) (jsonb : string -> string) `{L : !AuditDBLaws d events tz jsonb}.

Notation save := (AuditEvents_Save (Some d)).
Notation list_events := (AuditEvents_ListByTenant (Some d) unmarshal_error).

(** What a successful [Save] went through. *)
Lemma Save_cases ctx ev w :
  let '(e, w') := save ctx ev w in
  (w' = w /\ e <> None)
  \/ (AuditEvent_Validate ev = None /\ (exists tc, RequireTenantScope ctx = Ok tc /\ tc_TenantID tc = ev_TenantID ev)
      /\ insert_event d (row_of_event ev) w = (e, w')).
Proof.
  unfold AuditEvents_Save. run_M. destruct (AuditEvent_Validate ev); [by left|].
  destruct (GuardWriteScope ctx _) eqn:Hg; [by left|]. apply GuardWriteScope_None in Hg.
  destruct (insert_event d _ w) as [e w']. by right.
Qed.

Lemma event_of_stored ev :
  portable_attributes (ev_Attributes ev) ->
  event_of_row unmarshal_error (stored_row tz jsonb (row_of_event ev)) = Ok (stored_event tz ev).
Proof.
  intros Hp. destruct (al_jsonb _ _ (attributes_roundtrip _ Hp)) as [Hne Hd]. unfold event_of_row.
  cbn [stored_row row_of_event ar_attributes_json]. by rewrite (proj2 (String.eqb_neq _ _) Hne), Hd.
Qed.

Lemma scan_rows_Ok rows : forall es, scan_rows unmarshal_error rows = Ok es <->
  Forall2 (fun r e => event_of_row unmarshal_error r = Ok e) rows es.
Proof.
  induction rows as [|r rows IH]; intros es; cbn [scan_rows].
  - split; [intros [= <-]; constructor|by inversion 1].
  - destruct (event_of_row unmarshal_error r) as [e|err] eqn:He; cbn; [|split; [done|inversion 1; congruence]].
    destruct (scan_rows unmarshal_error rows) as [es'|err] eqn:Hs; cbn.
    + split; [intros [= <-]; constructor; [done|by apply IH]|].
      inversion 1 as [|? e' ? es2 H1 H2]; subst. rewrite He in H1. injection H1 as ->.
      apply IH in H2. by injection H2 as ->.
    + split; [done|]. inversion 1 as [|? e' ? es2 H1 H2]; subst. by apply IH in H2.
Qed.

Lemma event_of_row_fields r e : event_of_row unmarshal_error r = Ok e ->
  ev_TenantID e = ar_tenant_id r /\ ev_EventID e = ar_event_id r /\ ev_OccurredAt e = ar_occurred_at r.
Proof. unfold event_of_row. case_match; cbn; [|case_match; cbn; [|done]]; intros [= <-]; done. Qed.

Lemma List_cases ctx t n w es w' :
  list_events ctx t n w = (Ok es, w') ->
  (exists tc, RequireTenantScope ctx = Ok tc /\ tc_TenantID tc = t) /\ events w' = events w
  /\ exists all, listing (events w) t all
     /\ Forall2 (fun r e => event_of_row unmarshal_error r = Ok e)
          (take (Z.to_nat (if n <=? 0 then 50 else n)) all) es.
Proof.
  unfold AuditEvents_ListByTenant. run_M. destruct (TenantID_Validate t); [done|].
  destruct (GuardReadScope ctx t) eqn:Hg; [done|]. apply GuardReadScope_None in Hg.
  pose proof (al_select t (if n <=? 0 then 50 else n) w) as Hs.
  destruct (select_events d t _ w) as [[[rows [ie|]]|err] w1]; destruct Hs as [He Hs]; cbn;
    [destruct (scan_rows unmarshal_error rows); by intros [=]| |done].
  destruct (scan_rows unmarshal_error rows) as [es'|] eqn:Hc; cbn; intros [= <- <-].
  destruct (Hs rows eq_refl) as (all & Hl & ->). apply scan_rows_Ok in Hc. eauto.
Qed.

(** * Theorems *)

(** the audit trail is append-only.  [Save] never changes or removes an event
    that is in the table; it adds at most the event it was given, and only in
    the scope of the tenant of that event; without an error the identifier is in
    the table afterwards, with this event unless it was taken before. *)
Theorem audit_append_only ctx ev w :
  let '(e, w') := save ctx ev w in
  events w ⊆ events w'
  /\ (forall id, events w' !! id <> events w !! id ->
        id = ev_EventID ev /\ events w' !! id = Some (stored_row tz jsonb (row_of_event ev))
        /\ exists tc, RequireTenantScope ctx = Ok tc /\ tc_TenantID tc = ev_TenantID ev)
  /\ (e = None -> is_Some (events w' !! ev_EventID ev)).
Proof.
  pose proof (Save_cases ctx ev w) as Hc. destruct (save ctx ev w) as [e w'].
  destruct Hc as [[-> He]|(_ & Htc & Hi)]; [done|]. pose proof (al_insert (row_of_event ev) w) as Hn.
  rewrite Hi in Hn. cbn zeta in Hn. change (ar_event_id (row_of_event ev)) with (ev_EventID ev) in Hn.
  destruct (events w !! ev_EventID ev) as [old|] eqn:Ho.
  { assert (events w' = events w) as -> by (destruct e; tauto). split; [done|]. split; [done|]. by eexists. }
  assert (H : events w' = events w \/ events w' = <[ev_EventID ev := stored_row tz jsonb (row_of_event ev)]> (events w))
    by (destruct e; tauto).
  split; [|split].
  - destruct H as [->| ->]; [done|]. by apply insert_subseteq.
  - intros id Hid. destruct H as [H|H]; rewrite H in *; [done|].
    destruct (decide (id = ev_EventID ev)) as [->|]; [by rewrite lookup_insert_eq|by rewrite lookup_insert_ne in Hid].
  - intros ->. rewrite Hn, lookup_insert_eq. by eexists.
Qed.

(** a listing shows the tenant its own trail.  [ListByTenant] succeeds only
    in the scope of the tenant it is asked for; it returns at most [limit]
    events (50 by default), all of that tenant, newest first, as many as there
    are, and changes nothing. *)
Theorem audit_list_correct ctx t n w es w' :
  list_events ctx t n w = (Ok es, w') ->
  let limit := Z.to_nat (if n <=? 0 then 50 else n) in
  (exists tc, RequireTenantScope ctx = Ok tc /\ tc_TenantID tc = t) /\ events w' = events w
  /\ length es = Nat.min limit (length (filter (fun r => ar_tenant_id r = t) (map_to_list (events w)).*2))
  /\ Forall (fun e => ev_TenantID e = t) es
  /\ StronglySorted (fun a b => ev_OccurredAt b <= ev_OccurredAt a) es.
Proof.
  intros (Htc & He & all & [Hp Hs] & HF)%List_cases. cbn zeta. split; [done|]. split; [done|].
  set (k := Z.to_nat _) in *. split_and!.
  - by rewrite <- (Forall2_length _ _ _ HF), length_take, <- Hp.
  - apply Forall_forall. intros e Hin. apply list_elem_of_lookup in Hin as [i Hi].
    destruct (Forall2_lookup_r _ _ _ _ _ HF Hi) as (r & Hr & Her). destruct (event_of_row_fields _ _ Her) as [-> _].
    apply list_elem_of_lookup_2, elem_of_take in Hr as (j & Hj & _). apply list_elem_of_lookup_2 in Hj.
    rewrite Hp in Hj. by apply list_elem_of_filter in Hj as [? _].
  - assert (Hst : StronglySorted newest_first (take k all)).
    { rewrite <- (take_drop k all) in Hs. clear -Hs. by apply StronglySorted_app_1_l in Hs. }
    clear -Hst HF. revert es HF. induction Hst as [|r rows Hst IH Hall]; intros es HF; inversion HF as [|? e ? es' H1 H2]; subst;
      [constructor|]. constructor; [by apply IH|].
    apply Forall_forall. intros e' Hin. apply list_elem_of_lookup in Hin as [i Hi].
    destruct (Forall2_lookup_r _ _ _ _ _ H2 Hi) as (r' & Hr & Her).
    apply event_of_row_fields in H1 as (_ & _ & ->). apply event_of_row_fields in Her as (_ & _ & ->).
    rewrite Forall_forall in Hall. by apply (Hall r'), list_elem_of_lookup_2 with i.
Qed.

(** C29: what is saved is listed.  After a successful [Save] of an event with a new
    identifier, a listing of its tenant that is long enough contains the event,
    with its time as the column keeps it and its attributes unchanged. *)
Theorem audit_roundtrip ctx ev w w1 n es w2 :
  events w !! ev_EventID ev = None -> portable_attributes (ev_Attributes ev) ->
  save ctx ev w = (None, w1) ->
  Z.of_nat (size (events w1)) <= n -> list_events ctx (ev_TenantID ev) n w1 = (Ok es, w2) ->
  stored_event tz ev ∈ es.
Proof.
  intros Hnew Hp Hsave Hn Hl. pose proof (Save_cases ctx ev w) as Hc. rewrite Hsave in Hc.
  destruct Hc as [[_ ?]|(_ & _ & Hi)]; [done|]. pose proof (al_insert (row_of_event ev) w) as H1.
  rewrite Hi in H1. cbn zeta in H1. change (ar_event_id (row_of_event ev)) with (ev_EventID ev) in H1.
  rewrite Hnew in H1. apply List_cases in Hl as (_ & _ & all & [Hperm _] & HF).
  set (row := stored_row tz jsonb (row_of_event ev)) in *.
  assert (Hin : row ∈ all).
  { rewrite Hperm. apply list_elem_of_filter. split; [done|]. apply list_elem_of_fmap. exists (ev_EventID ev, row).
    split; [done|]. apply elem_of_map_to_list. by rewrite H1, lookup_insert_eq. }
  assert (Hlen : (length all <= size (events w1))%nat).
  { rewrite Hperm. etrans; [apply length_filter|]. by rewrite length_fmap, length_map_to_list. }
  assert (0 < length all)%nat by (destruct all; [by apply elem_of_nil in Hin|simpl; lia]).
  rewrite (proj2 (Z.leb_gt n 0)), take_ge in HF by lia.
  apply list_elem_of_lookup in Hin as [i Hi']. destruct (Forall2_lookup_l _ _ _ _ _ HF Hi') as (e & He & Her).
  unfold row in Her. rewrite event_of_stored in Her by done. injection Her as <-. by eapply list_elem_of_lookup_2.
Qed.
End Laws.

(** ** A database in memory *)

Definition later (a b : audit_row) : bool := ar_occurred_at b <? ar_occurred_at a.
Definition sample_audit_db : AuditDB (gmap string audit_row) := {|
  insert_event r w := (None, match w !! ar_event_id r with Some _ => w | None => <[ar_event_id r := r]> w end);
  select_events t n w :=
    (Ok (take (Z.to_nat n) (SliceStable later (filter (fun r => ar_tenant_id r = t) (map_to_list w).*2)), None), w) |}.

Lemma later_order : weak_order (fun _ => True) later.
Proof. split; intros; unfold later in *; rewrite ?Z.ltb_lt, ?Z.ltb_ge in *; lia. Qed.

#[global] Instance sample_audit_laws : AuditDBLaws sample_audit_db id (fun t => t) id.
Proof.
  split.
  - intros s m H. split; [|done]. intros E. cbn in E. by rewrite E in H.
  - intros [] w. cbn. by destruct (w !! _).
  - intros t n w. cbn. split; [done|]. intros rows [= <-]. eexists. split; [|done]. split; [apply SliceStable_perm|].
    eapply StronglySorted_weaken; [|apply (SliceStable_sorted later _ later_order), Forall_true; done].
    intros a b _ _. unfold ordered, later, newest_first. rewrite Z.ltb_ge. done.
Qed.

Definition sample_event (id : string) (at_ : Time) : AuditEvent := {|
  ev_EventID := id; ev_TenantID := "acme"; ev_EventType := "t"; ev_Resource := "r"; ev_Actor := "a";
  ev_Outcome := AuditOutcomeAllowed; ev_OccurredAt := at_; ev_Attributes := {[ "job_id" := "j1" ]} |}.

Lemma audit_append_only_witness :
  let '(e, w') := AuditEvents_Save (Some sample_audit_db) (scope "acme") (sample_event "e1" 5)
                    {[ "e1" := row_of_event (sample_event "e1" 3) ]} in
  e = None /\ w' !! "e1" = Some (row_of_event (sample_event "e1" 3)) /\ is_Some (w' !! "e1").
Proof.
  pose proof (audit_append_only sample_audit_db id (fun t => t) id (scope "acme") (sample_event "e1" 5)
    {[ "e1" := row_of_event (sample_event "e1" 3) ]}) as H.
  destruct (AuditEvents_Save _ _ _ _) as [e w'] eqn:E. destruct H as (H1 & _ & H2).
  assert (He : e = None) by (vm_compute in E; by injection E as <- _).
  split; [done|]. split; [|by apply H2]. apply (lookup_weaken _ _ _ _ (lookup_singleton_eq _ _) H1).
Defined.

Definition sample_table : gmap string audit_row :=
  {[ "e1" := row_of_event (sample_event "e1" 3); "e2" := row_of_event (sample_event "e2" 7) ]}.
Definition sample_attr_error (_ : string) : error := errors_New "json".

Lemma audit_list_correct_witness :
  let es := [sample_event "e2" 7; sample_event "e1" 3] in
  (AuditEvents_ListByTenant (Some sample_audit_db) sample_attr_error (scope "acme") "acme" 0 sample_table).1 = Ok es
  /\ Forall (fun e => ev_TenantID e = "acme") es /\ StronglySorted (fun a b => ev_OccurredAt b <= ev_OccurredAt a) es.
Proof.
  cbn zeta. split; [vm_compute; reflexivity|].
  destruct (audit_list_correct sample_audit_db sample_attr_error id (fun t => t) id (scope "acme") "acme" 0 sample_table
    [sample_event "e2" 7; sample_event "e1" 3] sample_table) as (_ & _ & _ & H1 & H2); [vm_compute; reflexivity|].
  done.
Defined.

Lemma audit_roundtrip_witness :
  let w1 := (AuditEvents_Save (Some sample_audit_db) (scope "acme") (sample_event "e3" 9) sample_table).2 in
  exists es, (AuditEvents_ListByTenant (Some sample_audit_db) sample_attr_error (scope "acme") "acme" 10 w1).1 = Ok es
  /\ sample_event "e3" 9 ∈ es.
Proof.
  cbn zeta. eexists. split; [vm_compute; reflexivity|].
  eapply (audit_roundtrip sample_audit_db sample_attr_error id (fun t => t) id (scope "acme") (sample_event "e3" 9)
    sample_table (AuditEvents_Save (Some sample_audit_db) (scope "acme") (sample_event "e3" 9) sample_table).2 10);
    [vm_compute; reflexivity| |vm_compute; reflexivity|vm_compute; discriminate|vm_compute; reflexivity].
  apply map_Forall_singleton. vm_compute. auto.
Defined.
