(* ===== verification/Milvus.v ===== *)
(** * Milvus: internal/adapters/vector/milvus/adapter.go

    The adapter over the Milvus vector database: it creates the collection on first
    use, writes records column by column, and reads and deletes the rows of one
    tenant through a filter expression.  The client of the SDK is a port.  The
    theorems: what a write, a purge and a search do to the rows of the collection,
    for a database that follows its documented contract; the filter escapes twice,
    so for an identifier with a quote or a backslash it selects other rows. *)

From Stdlib Require Import SpecFloat.
From S2P Require Import Prelude GoStrings GoSort GoJSON GoFloat Contracts VectorStub AuditRepo.

#[local] Open Scope Z_scope.

Record Config := {
  Endpoint : string; Database : string; Collection : string; Username : string; Password : string; Token : string;
  TLS : bool }.

(** ** The SDK *)

Inductive field_type := FieldVarChar (maxLength : Z) | FieldInt64 | FieldFloatVector (dim : Z).
Record schema_field := { sf_Name : string; sf_Type : field_type; sf_Primary : bool }.
Record schema := { sc_Name : string; sc_Description : string; sc_Fields : list schema_field }.

(** The columns of a write. *)
Inductive column :=
| ColumnVarChar (name : string) (values : list string)
| ColumnInt64 (name : string) (values : list Z)
| ColumnFloatVector (name : string) (dim : Z) (values : list (list float32)).

(** A column of an answer: its values as strings, or printed, if they can be read. *)
Record Column := { col_Name : string; col_Len : Z; GetAsString : Z -> option string; Get : Z -> option string }.
Record SearchResult := {
  ResultCount : Z; IDs : option Column; sr_Fields : list Column; Scores : list float32 }.

Record Client (W : Type) := {
  HasCollection : context -> string -> M W (result bool);
  (** the names of the fields, and their dimension if they have one *)
  DescribeCollection : context -> string -> M W (result (list (string * option string)));
  CreateCollection : context -> schema -> Z -> M W (option error);
  CreateIndex : context -> string -> string -> M W (option error);
  LoadCollection : context -> string -> M W (option error);
  cli_Upsert : context -> string -> list column -> M W (option error);
  Query : context -> string -> string -> list string -> Z -> M W (result (list Column));
  cli_Search : context -> string -> string -> list string -> list float32 -> string -> Z -> M W (result (list SearchResult));
  Delete : context -> string -> string -> M W (option error);
  Flush : context -> string -> M W (option error);
  (** the errors of making the index and the search parameter, if they have any *)
  index_error : option error;
  search_param_error : option error }.
Arguments HasCollection {W}.
Arguments DescribeCollection {W}.
Arguments CreateCollection {W}.
Arguments CreateIndex {W}.
Arguments LoadCollection {W}.
Arguments cli_Upsert {W}.
Arguments Query {W}.
Arguments cli_Search {W}.
Arguments Delete {W}.
Arguments Flush {W}.
Arguments index_error {W}.
Arguments search_param_error {W}.

Definition fieldRecordID : string := "record_id".
Definition fieldTenantID : string := "tenant_id".
Definition fieldJobID : string := "job_id".
Definition fieldChunkText : string := "chunk_text".
Definition fieldSourceURI : string := "source_uri".
Definition fieldObjectKey : string := "object_key".
Definition fieldChecksum : string := "checksum".
Definition fieldRetryCount : string := "retry_count".
Definition fieldIndexedAtMs : string := "indexed_at_ms".
Definition fieldMetadata : string := "metadata_json".
Definition fieldEmbedding : string := "embedding".

(** ** Pure parts *)

Section Pure.
Context `{U : UnicodeTables}.

(** [parse_host]: the host of [url.Parse]. *)
Definition normalizeMilvusAddress (parse_host : string -> result string) (endpoint : string) : result string :=
  let raw := TrimSpace endpoint in
  if String.eqb raw "" then Err (errors_New "milvus endpoint is empty")
  else if HasPrefix raw "http://" || HasPrefix raw "https://" then
    match parse_host raw with
    | Err err => Err (Errorf_w "invalid milvus endpoint: " err "")
    | Ok host =>
        let host := TrimSpace host in
        if String.eqb host "" then Err (errors_New "invalid milvus endpoint host")
        else if Contains host ":" then Ok host
        else if HasPrefix raw "https://" then Ok (host +:+ ":443")
        else Ok (host +:+ ":80")
    end
  else if Contains raw ":" then Ok raw
  else Ok (raw +:+ ":19530").

(** The configuration of the SDK's client. *)
Record ClientConfig := {
  cc_Address : string; cc_DBName : string; cc_EnableTLSAuth : bool; cc_APIKey : string; cc_Username : string;
  cc_Password : string }.
Definition client_config (address : string) (cfg : Config) : ClientConfig :=
  let tok := TrimSpace (Token cfg) in
  if negb (String.eqb tok "") then
    {| cc_Address := address; cc_DBName := TrimSpace (Database cfg); cc_EnableTLSAuth := TLS cfg; cc_APIKey := tok;
       cc_Username := ""; cc_Password := "" |}
  else
    {| cc_Address := address; cc_DBName := TrimSpace (Database cfg); cc_EnableTLSAuth := TLS cfg; cc_APIKey := "";
       cc_Username := TrimSpace (Username cfg); cc_Password := TrimSpace (Password cfg) |}.

(** [strings.NewReplacer] of a backslash and a quote by themselves after a backslash. *)
Definition backslash : string := String (byte_of 92) "".
Fixpoint escapeExprString (input : string) : string :=
  match input with
  | "" => ""
  | String a s =>
      let c := byte_val a in
      if (c =? 92) || (c =? 34) then String (byte_of 92) (String a (escapeExprString s)) else String a (escapeExprString s)
  end.
(** [fmt.Sprintf("%s == %q", ...)] *)
Definition filter_expr (tenantID : TenantID) : string :=
  fieldTenantID +:+ " == " +:+ Quote (escapeExprString tenantID).

Definition marshalMetadata (metadata : gmap string string) : string :=
  if decide (metadata = ∅) then "{}" else encode_attributes metadata.
Definition unmarshalMetadata (raw : string) : gmap string string :=
  let text := TrimSpace raw in
  if String.eqb text "" then ∅ else default ∅ (decode_attributes text).

Definition lexicalScore (query content : string) : float64 :=
  let queryTokens := Fields (ToLower (TrimSpace query)) in
  let contentLC := ToLower content in
  if (length queryTokens =? 0)%nat then float_of_int 0
  else
    let hits := Z.of_nat (length (filter (fun token => Contains contentLC token = true) queryTokens)) in
    if hits =? 0 then fdiv (float_of_int (len content mod 13)) (float_of_int 100)
    else fadd (float_of_int hits) (fdiv (float_of_int (len content mod 10)) (float_of_int 100)).

Definition readColumn (col : Column) (idx : Z) : string :=
  match GetAsString col idx with
  | Some v => TrimSpace v
  | None => match Get col idx with Some v => TrimSpace v | None => "" end
  end.
Definition readResultField (cols : list Column) (field : string) (idx : Z) : string :=
  match List.find (fun col => String.eqb (col_Name col) field) cols with
  | Some col => readColumn col idx
  | None => ""
  end.
Definition readColumnString (col : option Column) (idx : Z) : string :=
  match col with Some col => readColumn col idx | None => "" end.

Definition rowsFromResultSet (resultSet : list Column) (tenantID : TenantID) : list RetrievalDocument :=
  match resultSet with
  | [] => []
  | first :: _ =>
      (fun i => {| doc_DocumentID := readResultField resultSet fieldRecordID i; doc_TenantID := tenantID;
                   doc_Content := readResultField resultSet fieldChunkText i; doc_Score := float_of_int 0;
                   doc_SourceURI := readResultField resultSet fieldSourceURI i;
                   doc_Metadata := unmarshalMetadata (readResultField resultSet fieldMetadata i) |})
      <$> seqZ 0 (col_Len first)
  end.
Definition rowsFromSearch (result : SearchResult) (tenantID : TenantID) : list RetrievalDocument :=
  (fun i => {| doc_DocumentID := readColumnString (IDs result) i; doc_TenantID := tenantID;
               doc_Content := readResultField (sr_Fields result) fieldChunkText i;
               doc_Score := match Scores result !! Z.to_nat i with Some x => float64_of_float32 x | None => float_of_int 0 end;
               doc_SourceURI := readResultField (sr_Fields result) fieldSourceURI i;
               doc_Metadata := unmarshalMetadata (readResultField (sr_Fields result) fieldMetadata i) |})
  <$> seqZ 0 (ResultCount result).

(** [t.UTC().UnixMilli()] *)
Definition UnixMilli (t : Time) : Z := t / Millisecond - 62135596800000.

Definition upsert_columns (dim : Z) (records : list VectorRecord) : list column := [
  ColumnVarChar fieldRecordID (vr_RecordID <$> records); ColumnVarChar fieldTenantID (vr_TenantID <$> records);
  ColumnVarChar fieldJobID (vr_JobID <$> records); ColumnVarChar fieldChunkText (vr_ChunkText <$> records);
  ColumnVarChar fieldSourceURI (vr_SourceURI <$> records); ColumnVarChar fieldObjectKey (vr_ObjectKey <$> records);
  ColumnVarChar fieldChecksum (vr_Checksum <$> records); ColumnInt64 fieldRetryCount (vr_RetryCount <$> records);
  ColumnInt64 fieldIndexedAtMs ((fun r => UnixMilli (vr_IndexedAt r)) <$> records);
  ColumnVarChar fieldMetadata ((fun r => marshalMetadata (vr_Metadata r)) <$> records);
  ColumnFloatVector fieldEmbedding dim (vr_Embedding <$> records)].

(** The first record that is not valid or has another dimension. *)
Fixpoint check_records (dim : Z) (records : list VectorRecord) : option error :=
  match records with
  | [] => None
  | record :: records' =>
      match VectorRecord_Validate record with
      | Some err => Some err
      | None =>
          if negb (Z.of_nat (length (vr_Embedding record)) =? dim)
          then Some (errors_New ("embedding dimension mismatch: got=" +:+ Itoa (Z.of_nat (length (vr_Embedding record)))
                                 +:+ " want=" +:+ Itoa dim))
          else check_records dim records'
      end
  end.

(** The number of rows that a text search looks at, at the width of [int]. *)
Definition query_limit (topK : Z) : Z :=
  let limit := wrap64 (topK * 24) in
  let limit := if limit <? topK then topK else limit in
  if 512 <? limit then 512 else limit.
End Pure.

Definition collection_schema (collection : string) (dim : Z) : schema :=
  let varchar name maxLength := {| sf_Name := name; sf_Type := FieldVarChar maxLength; sf_Primary := false |} in
  {| sc_Name := collection; sc_Description := "FineR tenant-scoped vector collection";
     sc_Fields := [
       {| sf_Name := fieldRecordID; sf_Type := FieldVarChar 256; sf_Primary := true |};
       varchar fieldTenantID 128; varchar fieldJobID 128; varchar fieldChunkText 65535; varchar fieldSourceURI 2048;
       varchar fieldObjectKey 1024; varchar fieldChecksum 128;
       {| sf_Name := fieldRetryCount; sf_Type := FieldInt64; sf_Primary := false |};
       {| sf_Name := fieldIndexedAtMs; sf_Type := FieldInt64; sf_Primary := false |};
       varchar fieldMetadata 65535;
       {| sf_Name := fieldEmbedding; sf_Type := FieldFloatVector dim; sf_Primary := false |}] |}.

(** ** The adapter *)

Section Adapter.
Context `{U : UnicodeTables} {W : Type}.
Variables (cfg : Config) (cli : Client W) (now : M W Time).

Record Adapter := { lastTrace : VectorCallTrace; dim : Z; world : W }.

Definition onW {A} (m : M W A) : M Adapter A := fun a =>
  let '(x, w) := m (world a) in (x, {| lastTrace := lastTrace a; dim := dim a; world := w |}).
Definition get_dim : M Adapter Z := fun a => (dim a, a).
Definition set_dim (d : Z) : M Adapter unit := fun a => (tt, {| lastTrace := lastTrace a; dim := d; world := world a |}).
Definition set_trace (t : VectorCallTrace) : M Adapter unit := fun a =>
  (tt, {| lastTrace := t; dim := dim a; world := world a |}).
Definition markTrace (status : string) (start : Time) : M Adapter unit :=
  t ← onW now;
  set_trace {| vt_Provider := "milvus"; vt_Status := status; vt_LatencyMillis := Milliseconds (Sub t start) |}.
Definition LastVectorTrace (a : Adapter) : VectorCallTrace := lastTrace a.
(** A call that ends with an error: the trace, and the error of the provider. *)
Definition failed (status op : string) (started : Time) (err : error) : M Adapter error :=
  _ ← markTrace status started; mret (NormalizeProviderError "milvus" op err).

Definition tolerated (err : error) (words : list string) : bool :=
  existsb (Contains (ToLower (Error err))) words.

Definition load (ctx : context) : M W (option error) :=
  err ← LoadCollection cli ctx (Collection cfg);
  mret match err with
       | Some err => if negb (tolerated err ["already"; "loaded"]) then Some err else None
       | None => None
       end.
Definition ensureIndexAndLoad (ctx : context) : M W (option error) :=
  match index_error cli with
  | Some err => mret (Some err)
  | None =>
  err ← CreateIndex cli ctx (Collection cfg) fieldEmbedding;
  match err with
  | Some err => if negb (tolerated err ["already"; "exist"]) then mret (Some err) else load ctx
  | None => load ctx
  end
  end.

(** The dimension that the description of the collection shows, if any. *)
Definition described_dim (old : Z) (fields : list (string * option string)) : Z :=
  fold_left (fun d f => if String.eqb f.1 fieldEmbedding then
                          match f.2 with
                          | Some text => match Atoi text with Some parsed => if 0 <? parsed then parsed else d | None => d end
                          | None => d
                          end
                        else d) fields old.

Definition schema_mismatch : error := errors_New
  ("milvus collection schema mismatch: " +:+ fieldObjectKey +:+ " field is missing in " +:+ Collection cfg
   +:+ ". Please drop the collection to allow the backend to recreate it with the correct schema (required for efficient purging).").

Definition ensureCollection (ctx : context) (dim : Z) : M Adapter (option error) :=
  knownDim ← get_dim;
  let dim := if dim <=? 0 then knownDim else dim in
  exist ← onW (HasCollection cli ctx (Collection cfg));
  match exist with
  | Err err => mret (Some err)
  | Ok true =>
      coll ← onW (DescribeCollection cli ctx (Collection cfg));
      match coll with
      | Err _ => onW (ensureIndexAndLoad ctx)
      | Ok fields =>
          old ← get_dim;
          _ ← set_dim (described_dim old fields);
          if negb (existsb (fun f => String.eqb f.1 fieldObjectKey) fields) then mret (Some schema_mismatch)
          else onW (ensureIndexAndLoad ctx)
      end
  | Ok false =>
      if dim <=? 0 then mret (Some (errors_New "embedding dimension is required to initialize collection"))
      else
        err ← onW (CreateCollection cli ctx (collection_schema (Collection cfg) dim) 2);
        match err with
        | Some err => mret (Some err)
        | None => _ ← set_dim dim; onW (ensureIndexAndLoad ctx)
        end
  end.

Definition Upsert (ctx : context) (records : list VectorRecord) : M Adapter (option error) :=
  started ← onW now;
  match records with
  | [] => e ← failed "validation_error" "upsert" started (errors_New "at least one record is required"); mret (Some e)
  | first :: _ =>
  let dim := Z.of_nat (length (vr_Embedding first)) in
  if dim <=? 0 then e ← failed "validation_error" "upsert" started (errors_New "embedding is required"); mret (Some e)
  else
  match check_records dim records with
  | Some err => e ← failed "validation_error" "upsert" started err; mret (Some e)
  | None =>
  err ← ensureCollection ctx dim;
  match err with
  | Some err => e ← failed "collection_error" "upsert" started err; mret (Some e)
  | None =>
  err ← onW (cli_Upsert cli ctx (Collection cfg) (upsert_columns dim records));
  match err with
  | Some err => e ← failed "error" "upsert" started err; mret (Some e)
  | None =>
  err ← onW (Flush cli ctx (Collection cfg));
  match err with
  | Some err => e ← failed "error" "upsert" started err; mret (Some e)
  | None => _ ← markTrace "ok" started; mret None
  end
  end
  end
  end
  end.

Definition Search (ctx : context) (tenantID : TenantID) (queryText : string) (topK : Z)
    : M Adapter (result (list RetrievalDocument)) :=
  started ← onW now;
  match TenantID_Validate tenantID with
  | Some err => e ← failed "validation_error" "search" started err; mret (Err e)
  | None =>
  if String.eqb (TrimSpace queryText) ""
  then e ← failed "validation_error" "search" started (errors_New "query text is required"); mret (Err e)
  else if topK <=? 0
  then e ← failed "validation_error" "search" started (errors_New "top_k must be > 0"); mret (Err e)
  else
  err ← ensureCollection ctx 0;
  match err with
  | Some err => e ← failed "error" "search" started err; mret (Err e)
  | None =>
  resultSet ← onW (Query cli ctx (Collection cfg) (filter_expr tenantID)
                     [fieldRecordID; fieldChunkText; fieldSourceURI; fieldMetadata] (query_limit topK));
  match resultSet with
  | Err err => e ← failed "error" "search" started err; mret (Err e)
  | Ok [] => _ ← markTrace "ok" started; mret (Ok [])
  | Ok resultSet =>
      let query := TrimSpace (ToLower queryText) in
      let docs := (fun d => {| doc_DocumentID := doc_DocumentID d; doc_TenantID := doc_TenantID d;
                               doc_Content := doc_Content d; doc_Score := lexicalScore query (doc_Content d);
                               doc_SourceURI := doc_SourceURI d; doc_Metadata := doc_Metadata d |})
                  <$> rowsFromResultSet resultSet tenantID in
      _ ← markTrace "ok" started;
      mret (Ok (top_documents topK docs))
  end
  end
  end.

Definition SearchByEmbedding (ctx : context) (tenantID : TenantID) (queryEmbedding : list float32) (topK : Z)
    : M Adapter (result (list RetrievalDocument)) :=
  let op := "search_by_embedding" in
  started ← onW now;
  match TenantID_Validate tenantID with
  | Some err => e ← failed "validation_error" op started err; mret (Err e)
  | None =>
  if (length queryEmbedding =? 0)%nat
  then e ← failed "validation_error" op started (errors_New "query embedding is required"); mret (Err e)
  else if topK <=? 0
  then e ← failed "validation_error" op started (errors_New "top_k must be > 0"); mret (Err e)
  else
  err ← ensureCollection ctx (Z.of_nat (length queryEmbedding));
  match err with
  | Some err => e ← failed "error" op started err; mret (Err e)
  | None =>
  err ← onW (LoadCollection cli ctx (Collection cfg));
  match err with
  | Some err => e ← failed "error" op started err; mret (Err e)
  | None =>
  match search_param_error cli with
  | Some err => e ← failed "error" op started err; mret (Err e)
  | None =>
  results ← onW (cli_Search cli ctx (Collection cfg) (filter_expr tenantID) [fieldChunkText; fieldSourceURI; fieldMetadata]
                   queryEmbedding fieldEmbedding topK);
  match results with
  | Err err => e ← failed "error" op started err; mret (Err e)
  | Ok [] => _ ← markTrace "ok" started; mret (Ok [])
  | Ok (result :: _) => _ ← markTrace "ok" started; mret (Ok (rowsFromSearch result tenantID))
  end
  end
  end
  end
  end.

Definition PurgeTenant (ctx : context) (tenantID : TenantID) : M Adapter (option error) :=
  started ← onW now;
  match TenantID_Validate tenantID with
  | Some err => e ← failed "validation_error" "purge" started err; mret (Some e)
  | None =>
  err ← ensureCollection ctx 0;
  match err with
  | Some err => e ← failed "error" "purge" started err; mret (Some e)
  | None =>
  err ← onW (Delete cli ctx (Collection cfg) (filter_expr tenantID));
  match err with
  | Some err => e ← failed "error" "purge" started err; mret (Some e)
  | None =>
  err ← onW (Flush cli ctx (Collection cfg));
  match err with
  | Some err => e ← failed "error" "purge" started err; mret (Some e)
  | None => _ ← markTrace "ok" started; mret None
  end
  end
  end
  end.
End Adapter.
Arguments Adapter : clear implicits.

Definition DebugString (cfg : Config) : string := "milvus(" +:+ Database cfg +:+ "/" +:+ Collection cfg +:+ ")".

(** [NewAdapter]: [connect] is [mclient.NewClient]. *)
Definition NewAdapter `{UnicodeTables} {W} (parse_host : string -> result string)
    (connect : ClientConfig -> M W (result (Client W))) (now : M W Time) (cfg : Config)
    : M W (result (Client W * VectorCallTrace)) :=
  if String.eqb (TrimSpace (Endpoint cfg)) ""
  then mret (Err (errors_New "FINE_RAG_MILVUS_ENDPOINT is required when FINE_RAG_VECTOR_PROVIDER=milvus"))
  else if String.eqb (TrimSpace (Database cfg)) ""
  then mret (Err (errors_New "FINE_RAG_MILVUS_DATABASE is required when FINE_RAG_VECTOR_PROVIDER=milvus"))
  else if String.eqb (TrimSpace (Collection cfg)) ""
  then mret (Err (errors_New "FINE_RAG_MILVUS_COLLECTION is required when FINE_RAG_VECTOR_PROVIDER=milvus"))
  else if negb (TLS cfg) then mret (Err (errors_New "FINE_RAG_MILVUS_TLS must be true for milvus provider"))
  else
  match normalizeMilvusAddress parse_host (Endpoint cfg) with
  | Err err => mret (Err err)
  | Ok address =>
  cli ← connect (client_config address cfg);
  match cli with
  | Err err => mret (Err (NormalizeProviderError "milvus" "connect" err))
  | Ok cli =>
      started ← now; t ← now;
      mret (Ok (cli, {| vt_Provider := "milvus"; vt_Status := "ok"; vt_LatencyMillis := Milliseconds (Sub t started) |}))
  end
  end.

(** * Facts *)

(** ** The filter expression *)

(** Printable ASCII. *)
Fixpoint printable (s : string) : bool :=
  match s with "" => true | String a s' => (32 <=? byte_val a) && (byte_val a <? 127) && printable s' end.
(** No quote and no backslash. *)
Fixpoint plain (s : string) : bool :=
  match s with "" => true | String a s' => negb ((byte_val a =? 92) || (byte_val a =? 34)) && plain s' end.

Lemma escape_plain s : plain s = true -> escapeExprString s = s.
Proof.
  induction s as [|a s IH]; [done|]. cbn [plain escapeExprString]. cbn zeta. intros [H1 H2]%andb_true_iff.
  apply negb_true_iff in H1. by rewrite H1, IH.
Qed.
Lemma escape_longer s : (String.length s <= String.length (escapeExprString s))%nat.
Proof. induction s as [|a s IH]; [done|]. cbn [escapeExprString]. cbn zeta. destruct (_ || _); cbn; lia. Qed.
Lemma escape_not_plain s : plain s = false -> escapeExprString s <> s.
Proof.
  intros Hs E. apply (f_equal String.length) in E. revert Hs E. induction s as [|a s IH]; [done|].
  cbn [plain escapeExprString]. cbn zeta. pose proof (escape_longer s).
  destruct (_ || _); cbn; [lia|]. intros Hs E. apply IH; [done|]. lia.
Qed.
Lemma escape_printable s : printable s = true -> printable (escapeExprString s) = true.
Proof.
  induction s as [|a s IH]; [done|]. cbn [printable escapeExprString]. cbn zeta. intros [H1 H2]%andb_true_iff.
  destruct (_ || _); cbn [printable]; rewrite H1, IH by done; done.
Qed.
(** Escaping is injective: the escapes can be removed. *)
Fixpoint unescape (s : string) : string :=
  match s with
  | String a (String b s' as rest) => if byte_val a =? 92 then String b (unescape s') else String a (unescape rest)
  | _ => s
  end.
Lemma unescape_escape s : unescape (escapeExprString s) = s.
Proof.
  induction s as [|a s IH]; [done|]. cbn [escapeExprString]. cbn zeta. destruct (_ || _) eqn:E.
  - cbn [unescape]. change (byte_val (byte_of 92) =? 92) with true. cbn iota. by rewrite IH.
  - apply orb_false_iff in E as [E _]. destruct (escapeExprString s) as [|b r] eqn:Es.
    + assert (s = "") as -> by (by rewrite <- IH). done.
    + change (unescape (String a (String b r))) with
        (if byte_val a =? 92 then String b (unescape r) else String a (unescape (String b r))).
      by rewrite E, IH.
Qed.
#[global] Instance escape_inj : Inj (=) (=) escapeExprString.
Proof. intros s t H. by rewrite <- (unescape_escape s), H, unescape_escape. Qed.

(** On printable ASCII, [%q] escapes like [escapeExprString]: the identifier is
    escaped twice. *)
Lemma Quote_printable `{U : UnicodeTables} s : printable s = true -> Quote s = dq +:+ escapeExprString s +:+ dq.
Proof.
  intros Hs. unfold Quote. cbn zeta. fold dq. f_equal. f_equal.
  induction s as [|a s IH]; [done|]. cbn [printable] in Hs. apply andb_true_iff in Hs as [H1 H2].
  apply andb_true_iff in H1 as [Ha Hb]. apply Z.leb_le in Ha. apply Z.ltb_lt in Hb.
  assert (Hd : decode_rune (String a s) = (byte_val a, 1%nat)).
  { unfold decode_rune. by rewrite (proj2 (Z.ltb_lt _ 128)) by lia. }
  rewrite glyphs_unfold by done. rewrite Hd. cbn [fst snd str_take str_drop foldr]. rewrite IH by done.
  cbn [escapeExprString]. cbn zeta. unfold quote_glyph.
  replace (byte_val a =? RuneError) with false by (symmetry; apply Z.eqb_neq; unfold RuneError; lia). cbn [andb].
  destruct (Z.eqb_spec (byte_val a) 34) as [E34|E34].
  { rewrite orb_true_r. assert (a = byte_of 34) as -> by (rewrite <- E34; symmetry; apply byte_of_val). done. }
  destruct (Z.eqb_spec (byte_val a) 92) as [E92|E92].
  { assert (a = byte_of 92) as -> by (rewrite <- E92; symmetry; apply byte_of_val). done. }
  cbn [orb]. unfold is_print. rewrite (proj2 (Z.ltb_lt _ 0x80)) by lia. rewrite (proj2 (Z.leb_le _ _) Ha), (proj2 (Z.ltb_lt _ _) Hb).
  cbn [andb]. rewrite encode_ascii by lia. by rewrite byte_of_val.
Qed.

(** ** The rows of a collection *)

Record row := {
  rw_tenant : string; rw_job : string; rw_text : string; rw_source : string; rw_key : string; rw_checksum : string;
  rw_retry : Z; rw_indexed : Z; rw_metadata : string; rw_embedding : list float32 }.
Definition row_of (r : VectorRecord) : row := {|
  rw_tenant := vr_TenantID r; rw_job := vr_JobID r; rw_text := vr_ChunkText r; rw_source := vr_SourceURI r;
  rw_key := vr_ObjectKey r; rw_checksum := vr_Checksum r; rw_retry := vr_RetryCount r;
  rw_indexed := UnixMilli (vr_IndexedAt r); rw_metadata := marshalMetadata (vr_Metadata r);
  rw_embedding := vr_Embedding r |}.

(** What the columns of a write say: row [i] is made of the values at [i]. *)
Definition column_name (c : column) : string :=
  match c with ColumnVarChar n _ | ColumnInt64 n _ | ColumnFloatVector n _ _ => n end.
Definition strings_at (cols : list column) (name : string) : list string :=
  match List.find (fun c => String.eqb (column_name c) name) cols with Some (ColumnVarChar _ v) => v | _ => [] end.
Definition ints_at (cols : list column) (name : string) : list Z :=
  match List.find (fun c => String.eqb (column_name c) name) cols with Some (ColumnInt64 _ v) => v | _ => [] end.
Definition vectors_at (cols : list column) (name : string) : list (list float32) :=
  match List.find (fun c => String.eqb (column_name c) name) cols with Some (ColumnFloatVector _ _ v) => v | _ => [] end.
Definition rows_of_columns (cols : list column) : list (string * row) :=
  let str name i := nth i (strings_at cols name) "" in
  imap (fun i id => (id, {|
    rw_tenant := str fieldTenantID i; rw_job := str fieldJobID i; rw_text := str fieldChunkText i;
    rw_source := str fieldSourceURI i; rw_key := str fieldObjectKey i; rw_checksum := str fieldChecksum i;
    rw_retry := nth i (ints_at cols fieldRetryCount) 0; rw_indexed := nth i (ints_at cols fieldIndexedAtMs) 0;
    rw_metadata := str fieldMetadata i; rw_embedding := nth i (vectors_at cols fieldEmbedding) [] |}))
    (strings_at cols fieldRecordID).

Lemma nth_fmap {A B} (f : A -> B) l i x d : l !! i = Some x -> nth i (f <$> l) d = f x.
Proof. intros H. apply nth_lookup_Some. by rewrite list_lookup_fmap, H. Qed.
(** The columns of the adapter are aligned. *)
Lemma upsert_columns_rows dim records :
  rows_of_columns (upsert_columns dim records) = (fun r => (vr_RecordID r, row_of r)) <$> records.
Proof.
  unfold rows_of_columns. cbn zeta. change (strings_at _ fieldRecordID) with (vr_RecordID <$> records).
  apply list_eq. intros i. rewrite list_lookup_imap, !list_lookup_fmap.
  destruct (records !! i) as [r|] eqn:E; [|done]. cbn [fmap option_fmap option_map]. f_equal. f_equal. unfold row_of.
  change (strings_at _ fieldTenantID) with (vr_TenantID <$> records).
  change (strings_at _ fieldJobID) with (vr_JobID <$> records).
  change (strings_at _ fieldChunkText) with (vr_ChunkText <$> records).
  change (strings_at _ fieldSourceURI) with (vr_SourceURI <$> records).
  change (strings_at _ fieldObjectKey) with (vr_ObjectKey <$> records).
  change (strings_at _ fieldChecksum) with (vr_Checksum <$> records).
  change (strings_at _ fieldMetadata) with ((fun r => marshalMetadata (vr_Metadata r)) <$> records).
  change (ints_at _ fieldRetryCount) with (vr_RetryCount <$> records).
  change (ints_at _ fieldIndexedAtMs) with ((fun r => UnixMilli (vr_IndexedAt r)) <$> records).
  change (vectors_at _ fieldEmbedding) with (vr_Embedding <$> records).
  by rewrite !(nth_fmap _ records i r) by done.
Qed.

(** The value of a text field of a row. *)
Definition row_field (id : string) (r : row) (field : string) : string :=
  if String.eqb field fieldRecordID then id
  else if String.eqb field fieldChunkText then rw_text r
  else if String.eqb field fieldSourceURI then rw_source r
  else if String.eqb field fieldMetadata then rw_metadata r else "".
(** Columns that show the given rows, for the fields that were asked for. *)
Definition shows (fields : list string) (cols : list Column) (sel : list (string * row)) : Prop :=
  Forall (fun f => exists c, List.find (fun col => String.eqb (col_Name col) f) cols = Some c
     /\ forall i id r, sel !! i = Some (id, r) -> GetAsString c (Z.of_nat i) = Some (row_field id r f)) fields.
(** At most [limit] rows of one tenant, and all of them if they are fewer. *)
Record selection (m : gmap string row) (tenant : string) (limit : Z) (sel : list (string * row)) : Prop := {
  sel_rows : Forall (fun kv => m !! kv.1 = Some kv.2 /\ rw_tenant kv.2 = tenant) sel;
  sel_distinct : NoDup sel.*1;
  sel_limit : Z.of_nat (length sel) <= limit;
  sel_all : Z.of_nat (length sel) < limit -> forall id r, m !! id = Some r -> rw_tenant r = tenant -> (id, r) ∈ sel }.

Definition tenant_filter `{UnicodeTables} (value : string) : string := fieldTenantID +:+ " == " +:+ Quote value.

(** What the database promises: a write replaces rows by primary key; a filter
    [tenant_id == literal], where the literal is a Go string literal of printable
    text, selects the rows with this value; nothing else touches the rows. *)
Class MilvusLaws `{U : UnicodeTables} {W} (cli : Client W) (now : M W Time) (coll : string) (rows : W -> gmap string row) : Prop := {
  law_upsert : forall ctx cols w w', cli_Upsert cli ctx coll cols w = (None, w') ->
    rows w' = foldl (fun m kv => <[kv.1 := kv.2]> m) (rows w) (rows_of_columns cols);
  law_delete : forall ctx s w w', printable s = true -> Delete cli ctx coll (tenant_filter s) w = (None, w') ->
    rows w' = filter (fun kv => rw_tenant kv.2 <> s) (rows w);
  law_query : forall ctx s fields limit w cols w', printable s = true -> fields <> [] -> 0 < limit ->
    Query cli ctx coll (tenant_filter s) fields limit w = (Ok cols, w') ->
    rows w' = rows w /\ exists sel, selection (rows w) s limit sel
      /\ match cols with [] => sel = [] | c :: _ => col_Len c = Z.of_nat (length sel) /\ shows fields cols sel end;
  keep_now : forall w, rows (now w).2 = rows w;
  keep_has : forall ctx w, rows (HasCollection cli ctx coll w).2 = rows w;
  keep_describe : forall ctx w, rows (DescribeCollection cli ctx coll w).2 = rows w;
  keep_create : forall ctx s n w, rows (CreateCollection cli ctx s n w).2 = rows w;
  keep_index : forall ctx f w, rows (CreateIndex cli ctx coll f w).2 = rows w;
  keep_load : forall ctx w, rows (LoadCollection cli ctx coll w).2 = rows w;
  keep_flush : forall ctx w, rows (Flush cli ctx coll w).2 = rows w }.

(** A deletion by a filter removes only rows that the filter selects, also when it reports
    an error. *)
Class FilteredDelete `{U : UnicodeTables} {W} (cli : Client W) (coll : string) (rows : W -> gmap string row) : Prop := {
  fd_rows : forall ctx s w, printable s = true -> let w' := (Delete cli ctx coll (tenant_filter s) w).2 in
    rows w' ⊆ rows w /\ forall id r, rows w !! id = Some r -> rw_tenant r <> s -> rows w' !! id = Some r }.

Section Facts.
Context `{U : UnicodeTables} {W : Type}.
Variables (cfg : Config) (cli : Client W) (now : M W Time) (rows : W -> gmap string row).
Context `{L : !MilvusLaws cli now (Collection cfg) rows}.

Notation held a := (rows (world a)).
Definition keeps {A} (m : M (Adapter W) A) : Prop := forall a, held (m a).2 = held a.

Lemma keeps_ret {A} (x : A) : keeps (mret x).
Proof. done. Qed.
Lemma keeps_bind {A B} (m : M (Adapter W) A) (f : A -> M (Adapter W) B) :
  keeps m -> (forall x, keeps (f x)) -> keeps (m ≫= f).
Proof. intros Hm Hf a. run_M. specialize (Hm a). destruct (m a) as [x a1]. by rewrite Hf. Qed.
Lemma keeps_onW {A} (m : M W A) : (forall w, rows (m w).2 = rows w) -> keeps (onW m).
Proof. intros Hm a. unfold onW. specialize (Hm (world a)). by destruct (m (world a)). Qed.
Lemma keeps_mark status start : keeps (markTrace now status start).
Proof. apply keeps_bind; [apply keeps_onW, keep_now|done]. Qed.
Lemma keeps_failed status op start err : keeps (failed now status op start err).
Proof. apply keeps_bind; [apply keeps_mark|done]. Qed.
Lemma load_keeps ctx w : rows (load cfg cli ctx w).2 = rows w.
Proof. unfold load. run_M. pose proof (keep_load ctx w) as H. by destruct (LoadCollection _ _ _ w) as [[] ?]. Qed.
Lemma ensureIndexAndLoad_keeps ctx w : rows (ensureIndexAndLoad cfg cli ctx w).2 = rows w.
Proof.
  unfold ensureIndexAndLoad. destruct (index_error cli); [done|]. run_M. pose proof (keep_index ctx fieldEmbedding w) as H.
  destruct (CreateIndex _ _ _ _ w) as [[e|] w1]; [destruct (negb _); [done|]|]; by rewrite load_keeps.
Qed.
Lemma ensureCollection_keeps ctx d : keeps (ensureCollection cfg cli ctx d).
Proof.
  unfold ensureCollection. apply keeps_bind; [done|]. intros known. cbn zeta.
  apply keeps_bind; [apply keeps_onW, keep_has|]. intros [[]|err]; [| |done].
  - apply keeps_bind; [apply keeps_onW, keep_describe|]. intros [fields|err].
    + apply keeps_bind; [done|]. intros old. apply keeps_bind; [done|]. intros _.
      destruct (negb _); [done|]. apply keeps_onW, ensureIndexAndLoad_keeps.
    + apply keeps_onW, ensureIndexAndLoad_keeps.
  - destruct (_ <=? 0); [done|]. apply keeps_bind; [apply keeps_onW; intros; apply keep_create|].
    intros [err|]; [done|]. apply keeps_bind; [done|]. intros _. apply keeps_onW, ensureIndexAndLoad_keeps.
Qed.
End Facts.

(** ** Scores *)

Lemma lexicalScore_not_nan `{U : UnicodeTables} query content : not_nan (lexicalScore query content).
Proof.
  unfold lexicalScore. cbn zeta. destruct (_ =? 0)%nat; [done|].
  assert (Hd : forall n, 0 <= n < 13 -> finite (fdiv (float_of_int n) (float_of_int 100))).
  { intros n Hn. assert (HF : forallb (fun n => match fdiv (float_of_int n) (float_of_int 100) with
        S754_zero _ | S754_finite _ _ _ => true | _ => false end) (seqZ 0 13) = true) by (vm_compute; reflexivity).
    rewrite forallb_forall in HF. specialize (HF n). rewrite <- list_elem_of_In, elem_of_seqZ in HF.
    specialize (HF ltac:(lia)). unfold finite. by destruct (fdiv _ _). }
  destruct (_ =? 0).
  - specialize (Hd (len content mod 13) ltac:(apply Z.mod_pos_bound; lia)). unfold not_nan.
    by destruct (fdiv _ _).
  - apply fadd_not_nan; [apply float_of_int_not_nan|]. apply Hd. pose proof (Z.mod_pos_bound (len content) 10). lia.
Qed.

(** The number of rows a text search looks at. *)
Lemma query_limit_range topK : 0 < topK -> 1 <= query_limit topK <= 512.
Proof.
  intros H. unfold query_limit. cbn zeta. destruct (Z.ltb_spec (wrap64 (topK * 24)) topK);
    [destruct (Z.ltb_spec 512 topK)|destruct (Z.ltb_spec 512 (wrap64 (topK * 24)))]; lia.
Qed.

(** The document of a row, for a text search. *)
Definition row_document `{UnicodeTables} (tenantID query : string) (kv : string * row) : RetrievalDocument := {|
  doc_DocumentID := TrimSpace kv.1; doc_TenantID := tenantID; doc_Content := TrimSpace (rw_text kv.2);
  doc_Score := lexicalScore query (TrimSpace (rw_text kv.2)); doc_SourceURI := TrimSpace (rw_source kv.2);
  doc_Metadata := unmarshalMetadata (TrimSpace (rw_metadata kv.2)) |}.

Lemma readResultField_shows `{U : UnicodeTables} fields cols sel f i id r :
  shows fields cols sel -> f ∈ fields -> sel !! i = Some (id, r) ->
  readResultField cols f (Z.of_nat i) = TrimSpace (row_field id r f).
Proof.
  intros Hs Hf Hi. unfold shows in Hs. rewrite Forall_forall in Hs. destruct (Hs f Hf) as (c & Hc & Hv).
  unfold readResultField, readColumn. by rewrite Hc, (Hv i id r Hi).
Qed.

Lemma TrimSpace_object fs : TrimSpace (json_encode (JObj fs)) = json_encode (JObj fs).
Proof.
  cbn [json_encode]. set (body := Join _ ","). rewrite <- (str_app_assoc "{").
  assert (E : exists l, glyphs (("{" +:+ body) +:+ "}") = (123, "{") :: l ++ [(125, "}")]).
  { rewrite glyphs_app by done. rewrite (glyphs_unfold ("{" +:+ body)) by done. by eexists. }
  destruct E as [l El]. by apply (TrimSpace_ends _ _ _ _ El).
Qed.

(** * Theorems *)

Section Theorems.
Context `{U : UnicodeTables} {W : Type}.
Variables (cfg : Config) (cli : Client W) (now : M W Time) (rows : W -> gmap string row).

(** The rows after a write of the records. *)
Definition written (m : gmap string row) (records : list VectorRecord) : gmap string row :=
  foldl (fun m r => <[vr_RecordID r := row_of r]> m) m records.

Lemma check_records_None d records : check_records d records = None ->
  Forall (fun r => VectorRecord_Validate r = None /\ Z.of_nat (length (vr_Embedding r)) = d) records.
Proof.
  induction records as [|r rs IH]; [constructor|]. cbn [check_records].
  destruct (VectorRecord_Validate r) eqn:Hv; [discriminate|].
  destruct (Z.eqb_spec (Z.of_nat (length (vr_Embedding r))) d); cbn [negb]; [|discriminate]. intros H. constructor; auto.
Qed.

(** A batch that passes the checks has none of the defects. *)
Lemma good_batch_not_bad d records : 0 < d ->
  Forall (fun r => VectorRecord_Validate r = None /\ Z.of_nat (length (vr_Embedding r)) = d) records ->
  Exists (fun r => VectorRecord_Validate r <> None) records \/ Exists (fun r => vr_Embedding r = []) records
  \/ (exists r1 r2, r1 ∈ records /\ r2 ∈ records /\ length (vr_Embedding r1) <> length (vr_Embedding r2)) -> False.
Proof.
  rewrite !Exists_exists, Forall_forall. intros Hd HF [(r & Hr & Hb)|[(r & Hr & Hb)|(r1 & r2 & Hr1 & Hr2 & Hb)]].
  - by apply (HF r) in Hr as [? _].
  - apply (HF r) in Hr as [_ Hl]. rewrite Hb in Hl. cbn in Hl. lia.
  - apply (HF r1) in Hr1 as [_ H1]. apply (HF r2) in Hr2 as [_ H2]. lia.
Qed.

(** C16: a write to Milvus stores the records and nothing else.  If [Upsert] succeeds,
    every record was valid, all vectors have the same dimension, and the rows are the
    old ones with the row of every record put under its identifier, in order, all
    columns aligned.  If there is no record, a record is not valid, a vector is empty or
    two vectors differ in dimension, it fails without touching the rows. *)
Theorem milvus_upsert_stores ctx records a :
  MilvusLaws cli now (Collection cfg) rows ->
  let '(err, a') := Upsert cfg cli now ctx records a in
  (err = None -> rows (world a') = written (rows (world a)) records
     /\ exists d, 0 < d /\ Forall (fun r => VectorRecord_Validate r = None /\ Z.of_nat (length (vr_Embedding r)) = d) records)
  /\ (records = [] \/ Exists (fun r => VectorRecord_Validate r <> None) records
      \/ Exists (fun r => vr_Embedding r = []) records
      \/ (exists r1 r2, r1 ∈ records /\ r2 ∈ records /\ length (vr_Embedding r1) <> length (vr_Embedding r2)) ->
        err <> None /\ rows (world a') = rows (world a)).
Proof.
  intros L. unfold Upsert. run_M. pose proof (keep_now (world a)) as Hnow. unfold onW at 1.
  destruct (now (world a)) as [started w1]. cbn [snd] in Hnow.
  set (a1 := {| lastTrace := lastTrace a; dim := dim a; world := w1 |}).
  assert (HF : forall s e, let '(x, a') := failed now s "upsert" started e a1 in rows (world a') = rows (world a)).
  { intros s e. pose proof (keeps_failed cfg cli now rows s "upsert" started e a1) as H.
    destruct (failed _ _ _ _ _ a1). cbn in H. by rewrite H. }
  destruct records as [|first rest].
  { specialize (HF "validation_error" (errors_New "at least one record is required")). destruct (failed _ _ _ _ _ a1). done. }
  cbn zeta. destruct (Z.leb_spec (Z.of_nat (length (vr_Embedding first))) 0) as [|Hd].
  { specialize (HF "validation_error" (errors_New "embedding is required")). destruct (failed _ _ _ _ _ a1). done. }
  destruct (check_records _ _) as [err|] eqn:Ec.
  { specialize (HF "validation_error" err). destruct (failed _ _ _ _ _ a1). done. }
  apply check_records_None in Ec. pose proof (good_batch_not_bad _ _ Hd Ec) as Hno.
  pose proof (ensureCollection_keeps cfg cli now rows ctx (Z.of_nat (length (vr_Embedding first))) a1) as Hec.
  destruct (ensureCollection _ _ _ _ a1) as [[err|] a2]; cbn [snd] in Hec.
  { destruct (failed _ _ _ _ _ a2). split; [done|]. by intros [|?%Hno]. }
  unfold onW at 1. destruct (cli_Upsert _ _ _ _ (world a2)) as [[err|] w3] eqn:Eu.
  { destruct (failed _ _ _ _ _ _). split; [done|]. by intros [|?%Hno]. }
  apply law_upsert in Eu. rewrite upsert_columns_rows in Eu. unfold onW at 1. cbn [world lastTrace dim].
  pose proof (keep_flush ctx w3) as Hfl. destruct (Flush _ _ _ w3) as [[err|] w4]; cbn [snd] in Hfl.
  { destruct (failed _ _ _ _ _ _). split; [done|]. by intros [|?%Hno]. }
  set (a4 := {| lastTrace := lastTrace a2; dim := dim a2; world := w4 |}).
  pose proof (keeps_mark cfg cli now rows "ok" started a4) as Hm. destruct (markTrace _ _ _ a4) as [u a5].
  cbn [snd] in Hm. split; [|by intros [|?%Hno]]. intros _. split; [|by eauto].
  rewrite Hm. unfold a4. cbn [world]. rewrite Hfl, Eu. cbn [world] in Hec.
  assert (rows (world a2) = rows (world a)) as -> by (by rewrite Hec). unfold written.
  generalize (rows (world a)). generalize (first :: rest). clear.
  induction l as [|r l IH]; intros m; [done|]. rewrite fmap_cons. cbn [foldl fst snd]. by rewrite IH.
Qed.

(** The rows a purge that succeeds leaves. *)
Lemma purge_rows `{L : !MilvusLaws cli now (Collection cfg) rows} ctx t a a' :
  printable t = true -> PurgeTenant cfg cli now ctx t a = (None, a') ->
  rows (world a') = filter (fun kv => rw_tenant kv.2 <> escapeExprString t) (rows (world a)).
Proof.
  intros Hp. unfold PurgeTenant. run_M. pose proof (keep_now (world a)) as Hnow. unfold onW at 1.
  destruct (now (world a)) as [started w1]. cbn [snd] in Hnow. set (a1 := {| lastTrace := lastTrace a; dim := dim a; world := w1 |}).
  destruct (TenantID_Validate t) as [err|]; [by destruct (failed _ _ _ _ _ a1)|].
  pose proof (ensureCollection_keeps cfg cli now rows ctx 0 a1) as Hec.
  destruct (ensureCollection _ _ _ _ a1) as [[err|] a2]; cbn [snd] in Hec; [by destruct (failed _ _ _ _ _ a2)|].
  unfold onW at 1. destruct (Delete _ _ _ _ (world a2)) as [[err|] w3] eqn:Ed; [by destruct (failed _ _ _ _ _ _)|].
  apply (law_delete ctx (escapeExprString t)) in Ed; [|by apply escape_printable].
  unfold onW at 1. cbn [world lastTrace dim]. pose proof (keep_flush ctx w3) as Hfl.
  destruct (Flush _ _ _ w3) as [[err|] w4]; cbn [snd] in Hfl; [by destruct (failed _ _ _ _ _ _)|].
  set (a4 := {| lastTrace := lastTrace a2; dim := dim a2; world := w4 |}).
  pose proof (keeps_mark cfg cli now rows "ok" started a4) as Hm. destruct (markTrace _ _ _ a4) as [u a5]. cbn [snd] in Hm.
  intros [= <-]. rewrite Hm. unfold a4. cbn [world]. rewrite Hfl, Ed. change (world a1) with w1 in Hec. by rewrite Hec, Hnow.
Qed.

(** Whatever a purge answers, only rows that its filter selects can be gone. *)
Lemma purge_bounds `{L : !MilvusLaws cli now (Collection cfg) rows} `{LF : !FilteredDelete cli (Collection cfg) rows} ctx t a :
  printable t = true -> let a' := (PurgeTenant cfg cli now ctx t a).2 in
  rows (world a') ⊆ rows (world a)
  /\ forall id r, rows (world a) !! id = Some r -> rw_tenant r <> escapeExprString t -> rows (world a') !! id = Some r.
Proof.
  intros Hp. cbn zeta. set (P (m : gmap string row) := m ⊆ rows (world a)
    /\ forall id r, rows (world a) !! id = Some r -> rw_tenant r <> escapeExprString t -> m !! id = Some r).
  change (P (rows (world (PurgeTenant cfg cli now ctx t a).2))). assert (HP : P (rows (world a))) by (split; [reflexivity|auto]).
  unfold PurgeTenant. run_M. pose proof (keep_now (world a)) as Hnow. unfold onW at 1.
  destruct (now (world a)) as [started w1]. cbn [snd] in Hnow. set (a1 := {| lastTrace := lastTrace a; dim := dim a; world := w1 |}).
  assert (HF : forall s e b, rows (world (failed now s "purge" started e b).2) = rows (world b))
    by (intros; apply (keeps_failed cfg cli now rows)).
  destruct (TenantID_Validate t) as [err|].
  { specialize (HF "validation_error" err a1). destruct (failed _ _ _ _ _ a1). cbn in *. rewrite HF, Hnow. done. }
  pose proof (ensureCollection_keeps cfg cli now rows ctx 0 a1) as Hec.
  destruct (ensureCollection _ _ _ _ a1) as [[err|] a2]; cbn [snd] in Hec; change (world a1) with w1 in Hec.
  { specialize (HF "error" err a2). destruct (failed _ _ _ _ _ a2). cbn in *. rewrite HF, Hec, Hnow. done. }
  unfold onW at 1. pose proof (fd_rows ctx (escapeExprString t) (world a2) (escape_printable t Hp)) as Hd. cbn zeta in Hd.
  rewrite Hec, Hnow in Hd. change (P (rows (Delete cli ctx (Collection cfg) (tenant_filter (escapeExprString t)) (world a2)).2)) in Hd.
  change (tenant_filter (escapeExprString t)) with (filter_expr t) in Hd.
  destruct (Delete _ _ _ _ (world a2)) as [[err|] w3]; cbn [snd] in Hd.
  { specialize (HF "error" err {| lastTrace := lastTrace a2; dim := dim a2; world := w3 |}).
    destruct (failed _ _ _ _ _ _). cbn in *. by rewrite HF. }
  unfold onW at 1. cbn [world lastTrace dim]. pose proof (keep_flush ctx w3) as Hfl.
  destruct (Flush _ _ _ w3) as [[err|] w4]; cbn [snd] in Hfl; rewrite <- Hfl in Hd;
    set (a4 := {| lastTrace := lastTrace a2; dim := dim a2; world := w4 |}).
  { specialize (HF "error" err a4). destruct (failed _ _ _ _ _ _). cbn in *. by rewrite HF. }
  pose proof (keeps_mark cfg cli now rows "ok" started a4) as Hm. destruct (markTrace _ _ _ a4) as [u a5]. cbn in *. by rewrite Hm.
Qed.

(** C18: a purge removes the rows of one tenant and no other, for an identifier without
    quotes and backslashes; for any other it removes the rows of the identifier with
    its quotes and backslashes escaped, and leaves those of the tenant. *)
Theorem milvus_purge_scope ctx t a a' :
  MilvusLaws cli now (Collection cfg) rows -> printable t = true -> PurgeTenant cfg cli now ctx t a = (None, a') ->
  rows (world a') = filter (fun kv => rw_tenant kv.2 <> escapeExprString t) (rows (world a))
  /\ (plain t = true -> rows (world a') = filter (fun kv => rw_tenant kv.2 <> t) (rows (world a)))
  /\ (plain t = false -> forall id r, rows (world a) !! id = Some r -> rw_tenant r = t -> rows (world a') !! id = Some r).
Proof.
  intros L Hp H. pose proof (purge_rows ctx t a a' Hp H) as E.
  split; [done|]. split.
  - intros Hpl. by rewrite E, (escape_plain t Hpl).
  - intros Hpl id r Hr Ht. rewrite E. apply map_lookup_filter_Some. split; [done|]. cbn. rewrite Ht.
    intros Hne. by apply (escape_not_plain t Hpl).
Qed.

(** C17: a text search returns the best of the rows that its filter selects.  The filter
    selects at most [query_limit topK] rows, between 1 and 512, and all of them if
    they are fewer; the documents are their top [topK] by lexical score, best first,
    each with the trimmed text, source and metadata of its row and the tenant of the
    request.  For an identifier without quotes and backslashes the rows are those of
    the tenant; for any other they are the rows of another tenant, under the name of
    the tenant of the request. *)
Theorem milvus_search_scope ctx t query topK a docs a' :
  MilvusLaws cli now (Collection cfg) rows -> printable t = true ->
  Search cfg cli now ctx t query topK a = (Ok docs, a') ->
  exists sel, selection (rows (world a)) (escapeExprString t) (query_limit topK) sel
    /\ top_k topK (row_document t (TrimSpace (ToLower query)) <$> sel) docs
    /\ 1 <= query_limit topK <= 512
    /\ Forall (fun kv => if plain t then rw_tenant kv.2 = t else rw_tenant kv.2 <> t) sel.
Proof.
  intros L Hp. unfold Search. run_M. pose proof (keep_now (world a)) as Hnow. unfold onW at 1.
  destruct (now (world a)) as [started w1]. cbn [snd] in Hnow. set (a1 := {| lastTrace := lastTrace a; dim := dim a; world := w1 |}).
  destruct (TenantID_Validate t) as [err|]; [by destruct (failed _ _ _ _ _ a1)|].
  destruct (String.eqb _ _); [by destruct (failed _ _ _ _ _ a1)|].
  destruct (Z.leb_spec topK 0) as [|Hk]; [by destruct (failed _ _ _ _ _ a1)|].
  pose proof (ensureCollection_keeps cfg cli now rows ctx 0 a1) as Hec.
  destruct (ensureCollection _ _ _ _ a1) as [[err|] a2]; cbn [snd] in Hec; [by destruct (failed _ _ _ _ _ a2)|].
  unfold onW at 1. destruct (Query _ _ _ _ _ _ (world a2)) as [[cols|err] w3] eqn:Eq; [|by destruct (failed _ _ _ _ _ _)].
  pose proof (query_limit_range topK Hk) as Hlim.
  apply (law_query ctx (escapeExprString t)) in Eq; [|by apply escape_printable|done|lia].
  destruct Eq as (_ & sel & Hsel & Hcols). change (world a1) with w1 in Hec. rewrite Hec, Hnow in Hsel.
  assert (HT : Forall (fun kv => if plain t then rw_tenant kv.2 = t else rw_tenant kv.2 <> t) sel).
  { eapply Forall_impl; [exact (sel_rows _ _ _ _ Hsel)|]. intros kv [_ ->]. destruct (plain t) eqn:E;
      [by apply escape_plain|by apply escape_not_plain]. }
  destruct cols as [|c cols].
  { subst sel. destruct (markTrace _ _ _ _) as [u a4]. intros [= <- _]. exists []. split_and!; try done; try lia.
    exists []. split; [done|]. split; [cbn; lia|]. split; [constructor|]. by intros x y ?%elem_of_nil. }
  destruct Hcols as [Hlen Hsh]. cbn zeta. set (all := _ <$> rowsFromResultSet _ _).
  assert (Hall : all = row_document t (TrimSpace (ToLower query)) <$> sel).
  { unfold all, rowsFromResultSet. rewrite Hlen. apply list_eq. intros i. rewrite !list_lookup_fmap.
    destruct (sel !! i) as [[id r]|] eqn:Ei.
    - rewrite lookup_seqZ_lt by (apply lookup_lt_Some in Ei; lia). cbn [fmap option_fmap option_map]. f_equal.
      unfold row_document. cbn [fst snd doc_DocumentID doc_TenantID doc_Content doc_SourceURI doc_Metadata].
      rewrite Z.add_0_l. by rewrite !(readResultField_shows _ _ _ _ _ _ _ Hsh) by (done || set_solver).
    - rewrite lookup_seqZ_ge by (apply lookup_ge_None in Ei; lia). done. }
  destruct (markTrace _ _ _ _) as [u a4]. intros [= <- _]. exists sel. split; [done|]. split; [|done]. rewrite Hall.
  apply top_documents_top_k; [done|]. apply Forall_fmap, Forall_forall. intros kv _. apply lexicalScore_not_nan.
Qed.

(** metadata survives the database: what is written as the metadata column of a
    record is read back as the same map, when its text is valid UTF-8. *)
Theorem milvus_metadata_roundtrip m : portable_attributes m -> unmarshalMetadata (marshalMetadata m) = m.
Proof.
  intros Hm. unfold marshalMetadata. case_decide as E; [by rewrite E|]. unfold unmarshalMetadata. cbn zeta.
  assert (HT : TrimSpace (encode_attributes m) = encode_attributes m) by apply TrimSpace_object.
  rewrite HT. destruct (String.eqb_spec (encode_attributes m) "") as [E0|_]; [by unfold encode_attributes in E0|].
  by rewrite attributes_roundtrip.
Qed.
End Theorems.

#[local] Existing Instance latin1.

Example filter_plain : filter_expr "acme-1" = "tenant_id == " +:+ Quote "acme-1".
Proof. vm_compute. reflexivity. Qed.
Example addresses :
  normalizeMilvusAddress (fun _ => Ok "h.cloud") " https://h.cloud/x " = Ok "h.cloud:443"
  /\ normalizeMilvusAddress (fun _ => Err (errors_New "")) "milvus" = Ok "milvus:19530".
Proof. vm_compute. auto. Qed.

(** ** A database in memory *)

Definition matches (expr : string) (kv : string * row) : bool :=
  String.eqb expr (fieldTenantID +:+ " == " +:+ dq +:+ escapeExprString (rw_tenant kv.2) +:+ dq).
Definition column_of (sel : list (string * row)) (field : string) : Column := {|
  col_Name := field; col_Len := Z.of_nat (length sel);
  GetAsString i := (fun kv => row_field kv.1 kv.2 field) <$> sel !! Z.to_nat i; Get _ := None |}.
Definition memory : Client (gmap string row) := {|
  HasCollection _ _ := mret (Ok true);
  DescribeCollection _ _ := mret (Ok [(fieldObjectKey, None); (fieldEmbedding, Some "2")]);
  CreateCollection _ _ _ := mret None; CreateIndex _ _ _ := mret None; LoadCollection _ _ := mret None;
  cli_Upsert _ _ cols := fun m => (None, foldl (fun m kv => <[kv.1 := kv.2]> m) m (rows_of_columns cols));
  Query _ _ expr fields limit := fun m =>
    let sel := take (Z.to_nat limit) (filter (fun kv => matches expr kv = true) (map_to_list m)) in
    (Ok (column_of sel <$> fields), m);
  cli_Search _ _ _ _ _ _ _ := mret (Ok []);
  Delete _ _ expr := fun m => (None, filter (fun kv => matches expr kv = false) m);
  Flush _ _ := mret None; index_error := None; search_param_error := None |}.
Definition memory_now : M (gmap string row) Time := mret 0.

Lemma app_inj_right (x y t : string) : x +:+ t = y +:+ t -> x = y.
Proof.
  intros H. assert (Hl : String.length x = String.length y).
  { apply (f_equal String.length) in H. rewrite !length_str_app in H. lia. }
  apply (f_equal (str_take (String.length x))) in H. rewrite !str_take_app in H by lia.
  by rewrite !str_take_all in H by lia.
Qed.
Lemma matches_tenant s kv : printable s = true -> matches (tenant_filter s) kv = true <-> rw_tenant kv.2 = s.
Proof.
  intros Hs. unfold matches, tenant_filter. rewrite Quote_printable by done. rewrite String.eqb_eq. split; [|by intros ->].
  intros H. repeat apply (inj (String.append _)) in H. apply app_inj_right in H. by apply (inj escapeExprString) in H.
Qed.

Lemma shows_columns fields sel f : f ∈ fields ->
  List.find (fun col => String.eqb (col_Name col) f) (column_of sel <$> fields) = Some (column_of sel f).
Proof.
  intros Hf. induction fields as [|g fields IH]; [by apply elem_of_nil in Hf|]. rewrite fmap_cons. cbn [List.find col_Name column_of].
  destruct (String.eqb_spec g f) as [->|Hne]; [done|]. apply IH. by apply elem_of_cons in Hf as [->|].
Qed.

Lemma memory_selection (m : gmap string row) s limit : printable s = true -> 0 < limit ->
  selection m s limit (take (Z.to_nat limit) (filter (fun kv => matches (tenant_filter s) kv = true) (map_to_list m))).
Proof.
  intros Hs Hl. set (l := filter _ (map_to_list m)).
  assert (Hin : forall kv, kv ∈ l <-> m !! kv.1 = Some kv.2 /\ rw_tenant kv.2 = s).
  { intros [k r]. unfold l. rewrite list_elem_of_filter, matches_tenant, elem_of_map_to_list by done. cbn. tauto. }
  split.
  - apply Forall_forall. intros kv Hkv. apply Hin. by eapply elem_of_take in Hkv as (i & Hkv & _); apply list_elem_of_lookup_2 in Hkv.
  - apply (sublist_NoDup _ (map_to_list m).*1); [apply NoDup_fst_map_to_list|]. apply fmap_sublist.
    etransitivity; [apply sublist_take|]. apply sublist_filter.
  - rewrite length_take. lia.
  - rewrite length_take. intros Hlt id r Hr Ht. rewrite take_ge by lia. apply Hin. done.
Qed.

#[local] Instance memory_laws coll : MilvusLaws memory memory_now coll id.
Proof.
  split; try done.
  - by intros ctx cols w w' [= <-].
  - intros ctx s w w' Hs [= <-]. cbn. apply map_filter_ext. intros i x _. cbn. rewrite <- (matches_tenant s (i, x)) by done.
    by rewrite not_true_iff_false.
  - intros ctx s fields limit w cols w' Hs Hf Hl H.
    change (Query memory ctx coll (tenant_filter s) fields limit w) with
      (Ok (column_of (take (Z.to_nat limit) (filter (fun kv => matches (tenant_filter s) kv = true) (map_to_list w))) <$> fields), w) in H.
    pose proof (memory_selection w s limit Hs Hl) as Hsel. set (sel := take _ _) in *.
    apply pair_equal_spec in H as [H ->]. injection H as <-. split; [done|]. exists sel. split; [done|].
    destruct fields as [|f fields]; [done|]. rewrite fmap_cons. split; [done|].
    apply Forall_forall. intros g Hg. exists (column_of sel g). split; [by apply (shows_columns (f :: fields))|].
    intros i id r Hi. cbn [GetAsString column_of]. by rewrite Nat2Z.id, Hi.
Qed.
#[local] Instance memory_filtered coll : FilteredDelete memory coll id.
Proof.
  split. intros ctx s w Hs. cbn. split; [apply map_filter_subseteq|]. intros k r Hr Hne. apply map_lookup_filter_Some. split; [done|].
  apply not_true_iff_false. by rewrite (matches_tenant s (k, r)).
Qed.

(** ** Witnesses *)

Definition sample_milvus : Config := {|
  Endpoint := "https://h"; Database := "db"; Collection := "docs"; Username := ""; Password := ""; Token := "t"; TLS := true |}.
Definition sample_vector (id tenant text : string) : VectorRecord := {|
  vr_RecordID := id; vr_TenantID := tenant; vr_JobID := "j"; vr_ChunkText := text;
  vr_Embedding := [float_of_int 1; float_of_int 2]; vr_Metadata := {[ "k" := "v" ]}; vr_IndexedAt := Hour;
  vr_SourceURI := "s3://b/o"; vr_ObjectKey := "o"; vr_Checksum := "c"; vr_RetryCount := 0 |}.
(** Two tenants whose identifiers differ in an escape. *)
Definition quoted_tenant : string := "a" +:+ dq +:+ "b".
Definition escaped_tenant : string := "a" +:+ backslash +:+ dq +:+ "b".
Definition sample_rows : gmap string row :=
  written ∅ [sample_vector "r1" "acme" "the notes"; sample_vector "r2" "globex" "more notes";
             sample_vector "r3" quoted_tenant "mine"; sample_vector "r4" escaped_tenant "not mine"].
Definition sample_adapter (m : gmap string row) : Adapter (gmap string row) := {|
  lastTrace := zeroTrace; dim := 0; world := m |}.

(** A batch of two records, and one whose vectors differ in dimension. *)
Definition short_vector : VectorRecord := {|
  vr_RecordID := "r6"; vr_TenantID := "acme"; vr_JobID := "j"; vr_ChunkText := "x"; vr_Embedding := [float_of_int 1];
  vr_Metadata := ∅; vr_IndexedAt := Hour; vr_SourceURI := "s"; vr_ObjectKey := "o"; vr_Checksum := "c"; vr_RetryCount := 0 |}.
Lemma milvus_upsert_stores_witness :
  (let '(err, a') := Upsert sample_milvus memory memory_now None [sample_vector "r1" "acme" "new"; sample_vector "r5" "acme" "x"]
     (sample_adapter sample_rows) in
   err = None /\ world a' = written sample_rows [sample_vector "r1" "acme" "new"; sample_vector "r5" "acme" "x"]
   /\ rw_text <$> world a' !! "r1" = Some "new")
  /\ let '(err, a') := Upsert sample_milvus memory memory_now None [sample_vector "r1" "acme" "new"; short_vector]
       (sample_adapter sample_rows) in
     err <> None /\ world a' = sample_rows.
Proof.
  split.
  - pose proof (milvus_upsert_stores sample_milvus memory memory_now id None
      [sample_vector "r1" "acme" "new"; sample_vector "r5" "acme" "x"] (sample_adapter sample_rows) (memory_laws _)) as H.
    destruct (Upsert _ _ _ _ _ _) as [[e|] a'] eqn:E; [vm_compute in E; discriminate|].
    destruct H as [H _]. destruct (H eq_refl) as [Hr _]. split; [reflexivity|]. split; [exact Hr|].
    unfold id in Hr. rewrite Hr. vm_compute. reflexivity.
  - pose proof (milvus_upsert_stores sample_milvus memory memory_now id None
      [sample_vector "r1" "acme" "new"; short_vector] (sample_adapter sample_rows) (memory_laws _)) as H.
    destruct (Upsert _ _ _ _ _ _) as [err a']. apply H. right. right. right.
    exists (sample_vector "r1" "acme" "new"), short_vector. split; [left|]. split; [right; left|]. vm_compute. discriminate.
Defined.

Lemma milvus_purge_scope_witness :
  let purged t := (PurgeTenant sample_milvus memory memory_now None t (sample_adapter sample_rows)).2 in
  world (purged "acme") = filter (fun kv => rw_tenant kv.2 <> "acme") sample_rows
  /\ (world (purged quoted_tenant)) !! "r3" = sample_rows !! "r3"
  /\ (world (purged quoted_tenant)) !! "r4" = None.
Proof.
  cbn zeta. split; [|split].
  - destruct (PurgeTenant sample_milvus memory memory_now None "acme" (sample_adapter sample_rows)) as [[e|] a'] eqn:E;
      [vm_compute in E; discriminate|].
    destruct (milvus_purge_scope sample_milvus memory memory_now id None "acme" (sample_adapter sample_rows) a'
      (memory_laws _) eq_refl E) as (_ & H & _). exact (H eq_refl).
  - destruct (PurgeTenant sample_milvus memory memory_now None quoted_tenant (sample_adapter sample_rows)) as [[e|] a'] eqn:E;
      [vm_compute in E; discriminate|].
    destruct (milvus_purge_scope sample_milvus memory memory_now id None quoted_tenant (sample_adapter sample_rows) a'
      (memory_laws _) eq_refl E) as (_ & _ & H). cbn [snd].
    assert (Hr : sample_rows !! "r3" = Some (row_of (sample_vector "r3" quoted_tenant "mine"))) by (vm_compute; reflexivity).
    rewrite Hr. exact (H eq_refl "r3" _ Hr eq_refl).
  - vm_compute. reflexivity.
Defined.

(** The tenant with a quote in its identifier is shown the text of another one as its own. *)
Lemma milvus_search_scope_witness :
  exists docs a', Search sample_milvus memory memory_now None quoted_tenant "mine" 5 (sample_adapter sample_rows) = (Ok docs, a')
    /\ (fun d => (doc_TenantID d, doc_Content d)) <$> docs = [(quoted_tenant, "not mine")]
    /\ exists sel, selection sample_rows escaped_tenant 120 sel /\ Forall (fun kv => rw_tenant kv.2 <> quoted_tenant) sel.
Proof.
  destruct (Search sample_milvus memory memory_now None quoted_tenant "mine" 5 (sample_adapter sample_rows)) as [[docs|e] a'] eqn:E;
    [|vm_compute in E; discriminate].
  exists docs, a'. split; [reflexivity|]. split.
  - vm_compute in E. injection E as <- _. vm_compute. reflexivity.
  - destruct (milvus_search_scope sample_milvus memory memory_now id None quoted_tenant "mine" 5 (sample_adapter sample_rows)
      docs a' (memory_laws _) eq_refl E) as (sel & Hs & _ & _ & HF). exists sel. split; [exact Hs|exact HF].
Defined.

Lemma milvus_metadata_roundtrip_witness :
  unmarshalMetadata (marshalMetadata {[ "page" := "3"; "title" := "a b" ]}) = {[ "page" := "3"; "title" := "a b" ]}.
Proof.
  apply milvus_metadata_roundtrip. intros k v Hk. apply lookup_insert_Some in Hk as [[<- <-]|[_ Hk]].
  - split; vm_compute; reflexivity.
  - apply lookup_singleton_Some in Hk as [<- <-]. split; vm_compute; reflexivity.
Defined.
