(* ===== verification/ApiUtil.v ===== *)
(** * ApiUtil: backend/util/apiutil/util.go

    The helpers of the HTTP layer: settings from the environment, bearer tokens
    (HS256 JSON web tokens), stored secrets, request and user identifiers of the
    context.  The environment, the random source and the clock are arguments.
    The theorems: a token is accepted until it expires with the claims it was
    issued for, a token that was not issued shows a forged MAC, and a stored
    secret is matched by the secret it was made from and no other. *)

From S2P Require Import Prelude GoStrings GoSort GoTime Sha256 GoBase64 GoJSON Contracts.
From Stdlib Require Import Ascii.

#[local] Open Scope Z_scope.
#[local] Opaque Sum256.

(** ** The environment *)

Section Env.
Context `{U : UnicodeTables}.
(** [os.Getenv] and [os.ReadFile] ([None] is an error). *)
Variables (Getenv : string -> string) (ReadFile : string -> option string).

Definition EnvOr (key fallback : string) : string :=
  let v := TrimSpace (Getenv key) in
  if negb (String.eqb v "") then v else fallback.

Definition EnvOrSecret (key fallback : string) : string :=
  let filePath := TrimSpace (Getenv (key +:+ "_FILE")) in
  let from_file :=
    if negb (String.eqb filePath "") then
      match ReadFile filePath with
      | Some raw => let value := TrimSpace raw in if negb (String.eqb value "") then Some value else None
      | None => None
      end
    else None in
  match from_file with
  | Some value => value
  | None =>
      let value := TrimSpace (Getenv key) in
      if negb (String.eqb value "") then value else fallback
  end.

Fixpoint EnvOrAny (keys : list string) (fallback : string) : string :=
  match keys with
  | [] => fallback
  | key :: keys' =>
      let value := TrimSpace (Getenv key) in
      if negb (String.eqb value "") then value else EnvOrAny keys' fallback
  end.

Fixpoint EnvOrSecretAny (keys : list string) (fallback : string) : string :=
  match keys with
  | [] => fallback
  | key :: keys' =>
      let value := TrimSpace (EnvOrSecret key "") in
      if negb (String.eqb value "") then value else EnvOrSecretAny keys' fallback
  end.

Fixpoint EnvBoolAny (keys : list string) (fallback : bool) : bool :=
  match keys with
  | [] => fallback
  | key :: keys' =>
      let value := TrimSpace (Getenv key) in
      if String.eqb value "" then EnvBoolAny keys' fallback
      else
        let v := ToLower value in
        if existsb (String.eqb v) ["1"; "true"; "yes"; "on"] then true
        else if existsb (String.eqb v) ["0"; "false"; "no"; "off"] then false
        else EnvBoolAny keys' fallback
  end.
End Env.

Definition SplitCSV (raw : string) : list string :=
  filter (fun t => t <> "") (TrimSpace <$> Split1 "," raw).

(** ** Secrets and random identifiers *)

Definition HashSecret (raw : string) : string := "sha256$" +:+ hex (Sum256 raw).

(** [hmac.Equal] is equality. *)
Definition VerifySecret (raw stored : string) : bool :=
  if String.eqb (TrimSpace stored) "" then false
  else if HasPrefix stored "sha256$" then String.eqb (HashSecret raw) stored
  else String.eqb raw stored.

(** [read n] is what [rand.Read] puts into a buffer of [n] bytes, [None] for an
    error; [now] is the clock of the fallback. *)
Definition RandomString (read : Z -> option string) (now : Time) (n : Z) : string :=
  let n := if n <=? 0 then 8 else n in
  match read n with
  | None => Itoa (UnixNano now)
  | Some buf => str_take (Z.to_nat n) (b64_EncodeToString buf)
  end.

Definition RandomUUIDv4Like (read : Z -> option string) (now : Time) : string :=
  match read 16 with
  | None => "req-" +:+ RandomString read now 16
  | Some buf =>
      let b i := nth i (str_bytes buf) 0 in
      let b6 := Z.lor (Z.land (b 6%nat) 0x0f) 0x40 in
      let b8 := Z.lor (Z.land (b 8%nat) 0x3f) 0x80 in
      let h l := hex (bytes_str l) in
      h [b 0%nat; b 1%nat; b 2%nat; b 3%nat] +:+ "-" +:+ h [b 4%nat; b 5%nat] +:+ "-"
      +:+ h [b6; b 7%nat] +:+ "-" +:+ h [b8; b 9%nat] +:+ "-"
      +:+ h [b 10%nat; b 11%nat; b 12%nat; b 13%nat; b 14%nat; b 15%nat]
  end.

(** ** Bearer tokens *)

Record AuthClaims := { jwt_Sub : string; jwt_UID : Z; jwt_Iat : Z; jwt_Exp : Z }.
Definition no_claims : AuthClaims := {| jwt_Sub := ""; jwt_UID := 0; jwt_Iat := 0; jwt_Exp := 0 |}.

Definition header_json : json := JObj [("alg", JStr "HS256"); ("typ", JStr "JWT")].
Definition claims_json (c : AuthClaims) : json :=
  JObj [("sub", JStr (jwt_Sub c)); ("uid", JNum (Itoa (jwt_UID c))); ("iat", JNum (Itoa (jwt_Iat c)));
        ("exp", JNum (Itoa (jwt_Exp c)))].

Definition signing_input (c : AuthClaims) : string :=
  b64_EncodeToString (json_encode header_json) +:+ "." +:+ b64_EncodeToString (json_encode (claims_json c)).
Definition SignJWT (claims : AuthClaims) (secret : string) : string :=
  let left := signing_input claims in
  left +:+ "." +:+ b64_EncodeToString (hmacSHA256 secret left).

(** [json.Unmarshal] into the struct: keys match up to simple case folding
    of their runes (for these names the two cases of a letter, and U+017F for s), null leaves
    a field alone, a value of another type is an error. *)
Definition set_claim (c : AuthClaims) (kv : string * json) : option AuthClaims :=
  let str (f : string -> AuthClaims) :=
    match kv.2 with JStr s => Some (f s) | JNull => Some c | _ => None end in
  let int (f : Z -> AuthClaims) :=
    match kv.2 with JNum lit => f <$> ParseInt64 lit | JNull => Some c | _ => None end in
  if EqualFold_ascii kv.1 "sub" then
    str (fun s => {| jwt_Sub := s; jwt_UID := jwt_UID c; jwt_Iat := jwt_Iat c; jwt_Exp := jwt_Exp c |})
  else if EqualFold_ascii kv.1 "uid" then
    int (fun z => {| jwt_Sub := jwt_Sub c; jwt_UID := z; jwt_Iat := jwt_Iat c; jwt_Exp := jwt_Exp c |})
  else if EqualFold_ascii kv.1 "iat" then
    int (fun z => {| jwt_Sub := jwt_Sub c; jwt_UID := jwt_UID c; jwt_Iat := z; jwt_Exp := jwt_Exp c |})
  else if EqualFold_ascii kv.1 "exp" then
    int (fun z => {| jwt_Sub := jwt_Sub c; jwt_UID := jwt_UID c; jwt_Iat := jwt_Iat c; jwt_Exp := z |})
  else Some c.
Fixpoint set_claims (c : AuthClaims) (fs : list (string * json)) : option AuthClaims :=
  match fs with
  | [] => Some c
  | kv :: fs' => c' ← set_claim c kv; set_claims c' fs'
  end.
Definition unmarshal_claims (payload : string) : option AuthClaims :=
  v ← json_parse payload;
  match v with
  | JNull => Some no_claims
  | JObj fs => set_claims no_claims fs
  | _ => None
  end.

(** Errors of the codecs; their texts are not modelled. *)
Definition CorruptInputError := ErrVar "base64.CorruptInputError" "illegal base64 data".
Definition JSONError := ErrVar "json.Error" "invalid json".

Definition VerifyJWT (now : Time) (token secret : string) : result AuthClaims :=
  match Split1 "." token with
  | [p0; p1; p2] =>
      let left := p0 +:+ "." +:+ p1 in
      let want := hmacSHA256 secret left in
      match b64_DecodeString p2 with
      | None => Err CorruptInputError
      | Some got =>
      if negb (String.eqb want got) then Err (errors_New "signature mismatch")
      else
      match b64_DecodeString p1 with
      | None => Err CorruptInputError
      | Some payload =>
      match unmarshal_claims payload with
      | None => Err JSONError
      | Some claims =>
      if jwt_Exp claims <=? Unix now then Err (errors_New "expired") else Ok claims
      end
      end
      end
  | _ => Err (errors_New "invalid token")
  end.

(** ** Context and logging helpers *)

Definition UserIDFromContext (ctx : Ctx) : option Z :=
  match Value ctx UserIDKey with Some (CtxInt64 uid) => Some uid | _ => None end.
Definition RequestIDFromContext (ctx : Ctx) : string :=
  TrimSpace (match Value ctx RequestIDKey with Some (CtxString s) => s | _ => "" end).

Definition TruncateForDebugLog (input : string) (maxLen : Z) : string :=
  let value := TrimSpace input in
  if (maxLen <=? 0) || (len value <=? maxLen) then value
  else str_take (Z.to_nat maxLen) value +:+ "...".

Example uuid_shape :
  RandomUUIDv4Like (fun _ => Some "0123456789abcdef") 0 = "30313233-3435-4637-b839-616263646566".
Proof. vm_compute. reflexivity. Qed.
Example token_accepted :
  is_Ok (VerifyJWT (unix_time 100 0) (SignJWT {| jwt_Sub := "ada"; jwt_UID := 7; jwt_Iat := 1; jwt_Exp := 101 |} "k") "k") = true.
Proof. vm_compute. reflexivity. Qed.

(** * Facts *)

#[local] Opaque hmacSHA256.

(** ** Splitting at a byte *)

Lemma Split1_app c a t : count_byte c a = 0 -> Split1 c (a +:+ String c t) = a :: Split1 c t.
Proof.
  induction a as [|b a IH]; intros H.
  - rewrite app_nil_l'. cbn [Split1]. by rewrite Ascii.eqb_refl.
  - rewrite app_cons. cbn [Split1 count_byte] in *. assert (0 <= count_byte c a) by
      (clear; induction a; simpl; [|case_match]; lia).
    destruct (Ascii.eqb b c); [lia|]. by rewrite IH by lia.
Qed.
Lemma Split1_none c a : count_byte c a = 0 -> Split1 c a = [a].
Proof.
  induction a as [|b a IH]; [done|]. cbn [Split1 count_byte]. intros H.
  assert (0 <= count_byte c a) by (clear; induction a; simpl; [|case_match]; lia).
  destruct (Ascii.eqb b c); [lia|]. by rewrite IH by lia.
Qed.
Lemma Split1_ne c s : Split1 c s <> [].
Proof. destruct s as [|a s]; [done|]. cbn [Split1]. destruct (Ascii.eqb a c); [done|]. by destruct (Split1 c s). Qed.
(** The pieces have no separator, and joined they are the string. *)
Lemma Split1_pieces c s :
  Forall (fun p => count_byte c p = 0) (Split1 c s) /\ Join (Split1 c s) (String c "") = s.
Proof.
  induction s as [|a s [IH1 IH2]]; [split; [repeat constructor|done]|]. cbn [Split1].
  destruct (Ascii.eqb_spec a c) as [->|Hne].
  - split; [by constructor|]. pose proof (Split1_ne c s). destruct (Split1 c s) as [|w ws]; [done|].
    rewrite Join_cons2, app_nil_l', app_cons, app_nil_l'. by rewrite IH2.
  - pose proof (Split1_ne c s). destruct (Split1 c s) as [|w ws]; [done|]. apply Forall_cons in IH1 as [Hw Hws]. split.
    + constructor; [|done]. simpl. rewrite Hw. by destruct (Ascii.eqb_spec a c).
    + destruct ws as [|w' ws]; [cbn [Join] in *; by rewrite IH2|].
      rewrite Join_cons2 in *. by rewrite app_cons, IH2.
Qed.

(** ** Claims *)

(** The claims as they come back: the subject without invalid UTF-8. *)
Definition clean_claims (c : AuthClaims) : AuthClaims :=
  {| jwt_Sub := json_text (jwt_Sub c); jwt_UID := jwt_UID c; jwt_Iat := jwt_Iat c; jwt_Exp := jwt_Exp c |}.
Definition claims_ok (c : AuthClaims) : Prop :=
  int64_range (jwt_UID c) /\ int64_range (jwt_Iat c) /\ int64_range (jwt_Exp c).

Lemma set_sub c s : set_claim c ("sub", JStr s)
  = Some {| jwt_Sub := s; jwt_UID := jwt_UID c; jwt_Iat := jwt_Iat c; jwt_Exp := jwt_Exp c |}.
Proof. reflexivity. Qed.
Lemma set_uid c z : int64_range z -> set_claim c ("uid", JNum (Itoa z))
  = Some {| jwt_Sub := jwt_Sub c; jwt_UID := z; jwt_Iat := jwt_Iat c; jwt_Exp := jwt_Exp c |}.
Proof. intros Hz. apply ParseInt64_Itoa in Hz. unfold set_claim. cbn -[EqualFold_ascii]. by rewrite Hz. Qed.
Lemma set_iat c z : int64_range z -> set_claim c ("iat", JNum (Itoa z))
  = Some {| jwt_Sub := jwt_Sub c; jwt_UID := jwt_UID c; jwt_Iat := z; jwt_Exp := jwt_Exp c |}.
Proof. intros Hz. apply ParseInt64_Itoa in Hz. unfold set_claim. cbn -[EqualFold_ascii]. by rewrite Hz. Qed.
Lemma set_exp c z : int64_range z -> set_claim c ("exp", JNum (Itoa z))
  = Some {| jwt_Sub := jwt_Sub c; jwt_UID := jwt_UID c; jwt_Iat := jwt_Iat c; jwt_Exp := z |}.
Proof. intros Hz. apply ParseInt64_Itoa in Hz. unfold set_claim. cbn -[EqualFold_ascii]. by rewrite Hz. Qed.

Lemma unmarshal_marshal c : claims_ok c -> unmarshal_claims (json_encode (claims_json c)) = Some (clean_claims c).
Proof.
  intros (Hu & Hi & He). unfold unmarshal_claims.
  rewrite json_roundtrip; [|repeat split; apply Itoa_literal|by vm_compute].
  cbn [mbind option_bind claims_json json_norm map fst snd].
  change (json_text "sub") with "sub". change (json_text "uid") with "uid".
  change (json_text "iat") with "iat". change (json_text "exp") with "exp". cbn [set_claims].
  rewrite set_sub. cbn [mbind option_bind]. rewrite set_uid by done. cbn [mbind option_bind].
  rewrite set_iat by done. cbn [mbind option_bind]. by rewrite set_exp.
Qed.

Lemma signing_input_dots c :
  exists h p, signing_input c = h +:+ "." +:+ p /\ count_byte "." h = 0 /\ count_byte "." p = 0
    /\ b64_DecodeString p = Some (json_encode (claims_json c)).
Proof.
  eexists _, _. split; [reflexivity|]. split_and!; [apply b64_no_dot|apply b64_no_dot|apply b64_roundtrip].
Qed.

(** The three parts of an accepted token. *)
Lemma VerifyJWT_Ok now token secret claims :
  VerifyJWT now token secret = Ok claims ->
  exists p0 p1 p2 payload,
    token = p0 +:+ "." +:+ p1 +:+ "." +:+ p2 /\ count_byte "." p0 = 0 /\ count_byte "." p1 = 0
    /\ b64_DecodeString p2 = Some (hmacSHA256 secret (p0 +:+ "." +:+ p1))
    /\ b64_DecodeString p1 = Some payload /\ unmarshal_claims payload = Some claims
    /\ Unix now < jwt_Exp claims.
Proof.
  unfold VerifyJWT. pose proof (Split1_pieces "." token) as [Hp Hj].
  destruct (Split1 "." token) as [|p0 [|p1 [|p2 [|]]]]; try done. intros H.
  apply Forall_cons in Hp as [H0 Hp]. apply Forall_cons in Hp as [H1 _].
  destruct (b64_DecodeString p2) as [got|] eqn:D2; [|done].
  destruct (negb _) eqn:Heq in H; [done|]. apply negb_false_iff, String.eqb_eq in Heq as <-.
  destruct (b64_DecodeString p1) as [payload|] eqn:D1; [|done].
  destruct (unmarshal_claims payload) as [c|] eqn:Dc; [|done].
  destruct (Z.leb_spec (jwt_Exp c) (Unix now)); [done|]. injection H as <-.
  exists p0, p1, p2, payload. split_and!; try done.
Qed.

Lemma dot_split a b x y :
  count_byte "." a = 0 -> count_byte "." b = 0 -> a +:+ "." +:+ x = b +:+ "." +:+ y -> a = b /\ x = y.
Proof.
  intros Ha Hb E. apply (f_equal (fun s => (Split1 "." s, s))) in E. injection E as E E2.
  autorewrite with str in E. rewrite !Split1_app in E by done. injection E as -> _.
  split; [done|]. apply (inj (String.app b)) in E2. by injection E2.
Qed.

(** A string that trims to nothing is white space throughout. *)
Lemma blank_glyphs s : TrimSpace s = "" -> Forall (fun g => space_glyph g = true) (glyphs s).
Proof.
  intros E. apply (f_equal glyphs) in E. rewrite glyphs_TrimSpace in E.
  destruct (trim_split space_glyph (glyphs s)) as (pre & post & Hsp & Hpre & Hpost).
  rewrite E in Hsp. rewrite Hsp, !Forall_app. done.
Qed.
Lemma TrimSpace_ascii a s : byte_val a < 128 -> is_space (byte_val a) = false -> TrimSpace (String a s) <> "".
Proof.
  intros Ha Hs E. apply blank_glyphs in E. rewrite glyphs_unfold in E by done.
  unfold decode_rune in E. rewrite (proj2 (Z.ltb_lt _ _) Ha) in E. cbn [fst snd] in E.
  apply Forall_cons in E as [Hg _]. unfold space_glyph in Hg. simpl in Hg. congruence.
Qed.

(** Verification of a signed token. *)
Lemma VerifyJWT_Sign c secret now :
  claims_ok c ->
  VerifyJWT now (SignJWT c secret) secret
  = if jwt_Exp c <=? Unix now then Err (errors_New "expired") else Ok (clean_claims c).
Proof.
  intros Hc. unfold SignJWT. cbn zeta. destruct (signing_input_dots c) as (h & p & Hs & Hh & Hp & Hd). rewrite Hs.
  unfold VerifyJWT. autorewrite with str.
  rewrite Split1_app, Split1_app, Split1_none by (done || apply b64_no_dot).
  autorewrite with str. rewrite b64_roundtrip, String.eqb_refl. cbn [negb].
  rewrite Hd, unmarshal_marshal by done. reflexivity.
Qed.

(** * Theorems *)

(** C36: tokens round trip until they expire.  [VerifyJWT] with the secret of
    [SignJWT] returns exactly the claims signed, whatever bytes the secret has,
    as long as the clock is before the expiry, and the error for an expired
    token from then on; claims whose subject is valid UTF-8 come back
    unchanged. *)
Theorem jwt_roundtrip c secret now :
  claims_ok c ->
  VerifyJWT now (SignJWT c secret) secret
  = (if jwt_Exp c <=? Unix now then Err (errors_New "expired") else Ok (clean_claims c))
  /\ (valid_utf8 (jwt_Sub c) = true -> clean_claims c = c).
Proof.
  intros Hc. split; [by apply VerifyJWT_Sign|].
  intros Hv. unfold clean_claims. rewrite json_text_valid by done. by destruct c.
Qed.

(** C7: only issued tokens authenticate.  If a token is accepted, its claims are
    those of a token that was issued with the secret and has not expired, or
    the token carries a valid MAC for an input that was never signed: a forgery
    of HMAC-SHA256.  Header, spare bits and line breaks give an attacker no other
    way in. *)
Theorem jwt_only_issued issued now token secret claims :
  Forall claims_ok issued ->
  VerifyJWT now token secret = Ok claims ->
  Unix now < jwt_Exp claims
  /\ ((exists c, c ∈ issued /\ claims = clean_claims c)
      \/ exists left sig, token = left +:+ "." +:+ sig
           /\ b64_DecodeString sig = Some (hmacSHA256 secret left)
           /\ left ∉ (signing_input <$> issued)).
Proof.
  intros Hok (p0 & p1 & p2 & payload & Ht & H0 & H1 & Hs & Hp & Hc & He)%VerifyJWT_Ok. split; [done|].
  destruct (decide (p0 +:+ "." +:+ p1 ∈ signing_input <$> issued)) as [Hin|Hout].
  - left. apply list_elem_of_fmap in Hin as (c & Heq & Hin). exists c. split; [done|].
    destruct (signing_input_dots c) as (h & p & Hsi & Hh & _ & Hd). rewrite Hsi in Heq.
    apply dot_split in Heq as [_ ->]; [|done..]. rewrite Hp in Hd. apply (inj Some) in Hd as ->.
    rewrite Forall_forall in Hok. rewrite unmarshal_marshal in Hc by auto. by apply (inj Some) in Hc.
  - right. exists (p0 +:+ "." +:+ p1), p2. split_and!; [|done|done]. by rewrite Ht, !str_app_assoc.
Qed.

(** stored secrets.  A secret stored by [HashSecret] is matched by itself and
    by no other secret but a SHA-256 collision; a blank stored secret is never
    matched. *)
Theorem verify_secret_correct raw secret stored :
  (VerifySecret raw (HashSecret secret) = true <-> raw = secret \/ sha256_collision raw secret)
  /\ (TrimSpace stored = "" -> VerifySecret raw stored = false).
Proof.
  split; [|unfold VerifySecret; by intros ->]. unfold VerifySecret.
  destruct (String.eqb_spec (TrimSpace (HashSecret secret)) "") as [E|_].
  { exfalso. revert E. unfold HashSecret. change "sha256$" with (String "s" "ha256$").
    rewrite app_cons. by apply TrimSpace_ascii. }
  change (HasPrefix (HashSecret secret) "sha256$") with true. cbn iota. unfold HashSecret.
  rewrite String.eqb_eq. split.
  - intros H. apply (inj (String.app "sha256$")) in H. by apply sha256_hex_eq in H.
  - intros [->|[_ H]]; [done|]. by rewrite H.
Qed.

Definition sample_claims : AuthClaims := {| jwt_Sub := "ada"; jwt_UID := 7; jwt_Iat := 100; jwt_Exp := 3700 |}.

Lemma jwt_roundtrip_witness :
  VerifyJWT (unix_time 200 0) (SignJWT sample_claims "secret") "secret" = Ok sample_claims.
Proof.
  destruct (jwt_roundtrip sample_claims "secret" (unix_time 200 0)) as [-> H];
    [repeat split; vm_compute; congruence|]. rewrite (H eq_refl). reflexivity.
Defined.

Lemma jwt_only_issued_witness :
  let token := SignJWT sample_claims "secret" in
  (exists c, c ∈ [sample_claims] /\ clean_claims sample_claims = clean_claims c)
  \/ exists left sig, token = left +:+ "." +:+ sig
       /\ b64_DecodeString sig = Some (hmacSHA256 "secret" left)
       /\ left ∉ (signing_input <$> [sample_claims]).
Proof.
  intros token.
  assert (H : VerifyJWT (unix_time 200 0) token "secret" = Ok (clean_claims sample_claims))
    by (vm_compute; reflexivity).
  refine (proj2 (jwt_only_issued [sample_claims] (unix_time 200 0) token "secret" _ _ H)).
  constructor; [|constructor]. repeat split; vm_compute; congruence.
Defined.
