(* ===== verification/Server.v ===== *)
(** * Server: the HTTP layer (backend/util/serverUtil.go, backend/mainAPIHandler.go,
    backend/managers/auth.go)

    Requests, responses and handlers; the middleware of the server (request
    identifiers, CORS, authentication by bearer token, tenant authorisation with
    the per-key limiter), the route table, login, and the bootstrap of users and
    tenants.  A handler runs in a request context and the state of the server:
    the limiter and the world of the collaborators.  The access log that wraps
    the handler is in [Startup].
    The database is a port, one operation per SQL statement. *)

From S2P Require Import Prelude GoStrings GoSort GoTime Sha256 GoBase64 GoJSON GoHTTP.
From S2P Require Import Contracts RateLimit Repository ApiUtil.
From Stdlib Require Import Ascii.

#[local] Open Scope Z_scope.
#[local] Opaque Sum256 hmacSHA256.

(** ** Requests and responses *)

Record Request := {
  Method : string; URLPath : string; Header : gmap string (list string); PathValue : string -> string;
  Body : string }.
(** [r.Header.Get(key)] *)
Definition Header_Get (r : Request) (key : string) : string :=
  match Header r !! CanonicalHeaderKey key with Some (v :: _) => v | _ => "" end.

(** A response: its headers, its status and the JSON value of its body, if any. *)
Record Response := { rs_Header : gmap string string; rs_Status : Z; rs_Body : option json }.

Definition WriteJSON (code : Z) (v : json) : Response := {|
  rs_Header := {[ "Content-Type" := "application/json" ]}; rs_Status := code; rs_Body := Some v |}.
Definition WriteError (code : Z) (errCode message : string) : Response :=
  WriteJSON code (JObj [("error", JObj [("code", JStr errCode); ("message", JStr message)])]).
(** Headers set before the handler wrote its own. *)
Definition with_headers (h : gmap string string) (r : Response) : Response := {|
  rs_Header := rs_Header r ∪ h; rs_Status := rs_Status r; rs_Body := rs_Body r |}.

(** [DecodeJSON]: the first value of the first 2 MiB of the body. *)
Definition decode_first (body : string) : option json :=
  let s := str_take (Z.to_nat (2 * 2^20)) body in
  '(v, _) ← parse_value (2 * String.length s + 1) s;
  if json_depth v <=? 10000 then Some v else None.

Definition DecodeJSON {T} (fields : list (field T)) (zero : T) (body : string) : option T :=
  v ← decode_first body; unmarshal true fields zero v.

Definition Handler (S : Type) : Type := Ctx -> Request -> M S Response.

(** ** The server *)

(** The route table, by pattern. *)
Inductive endpoint :=
  | Healthz | Login | ListTenants | CreateTenant | KnowledgeBases | VectorStats | Presign
  | SubmitJob | ListJobs | JobStream | RetryJob | SearchEP | SearchStream | PurgeTenantData.
#[global] Instance endpoint_eq_dec : EqDecision endpoint.
Proof. solve_decision. Defined.

Record UserTenants (W : Type) := {
  count_user_tenants : Z -> string -> M W (result Z) }.
Arguments count_user_tenants {W}.

Section Server.
Context `{U : UnicodeTables} {W : Type}.
Variables (JWTSecret : string) (origins : gset string) (db : UserTenants W).
(** [rand.Read], as a function of the buffer length, and [time.Now]. *)
Variables (rand : M W (Z -> option string)) (now : M W Time).

Definition state : Type := PerKey.WindowLimiter * W.
Definition on_limiter {A} (m : M PerKey.WindowLimiter A) : M state A := fun s =>
  let '(a, l) := m s.1 in (a, (l, s.2)).

Definition userHasTenant (userID : Z) (tenantID : string) : M W (result bool) :=
  r ← count_user_tenants db userID tenantID;
  mret (match r with Ok count => Ok (0 <? count) | Err err => Err err end).

Definition WithRequestID (next : Handler state) : Handler state := fun ctx r =>
  let requestID := TrimSpace (Header_Get r "X-Request-Id") in
  let requestID := if String.eqb requestID "" then TrimSpace (Header_Get r "X-Request-ID") else requestID in
  requestID ← (if String.eqb requestID "" then
                 read ← on_snd rand; t ← on_snd now; mret (RandomUUIDv4Like read t)
               else mret requestID);
  resp ← next (WithValue ctx RequestIDKey (CtxString requestID)) r;
  mret (with_headers {[ CanonicalHeaderKey "X-Request-ID" := requestID ]} resp).

Definition cors_headers (origin : string) : gmap string string :=
  list_to_map [("Access-Control-Allow-Origin", origin); ("Vary", "Origin");
    ("Access-Control-Allow-Headers", "Authorization, Content-Type, X-Request-ID, X-Tenant-ID");
    ("Access-Control-Allow-Methods", "GET, POST, OPTIONS")].
Definition WithCORS (next : Handler state) : Handler state := fun ctx r =>
  let origin := TrimSpace (Header_Get r "Origin") in
  let h := if negb (String.eqb origin "") && bool_decide (origin ∈ origins)
           then cors_headers origin else ∅ in
  if String.eqb (Method r) "OPTIONS" then mret {| rs_Header := h; rs_Status := 204; rs_Body := None |}
  else resp ← next ctx r; mret (with_headers h resp).

Definition WithAuth (next : Handler state) : Handler state := fun ctx r =>
  let authz := TrimSpace (Header_Get r "Authorization") in
  if negb (HasPrefix (ToLower authz) "bearer ")
  then mret (WriteError 401 "auth_required" "bearer token is required")
  else
  let token := TrimSpace (str_drop 7 authz) in
  t ← on_snd now;
  match VerifyJWT t token JWTSecret with
  | Err _ => mret (WriteError 401 "auth_invalid" "invalid or expired token")
  | Ok claims =>
      let ctx := WithValue ctx UserIDKey (CtxInt64 (jwt_UID claims)) in
      match WithActorID (Some ctx) (jwt_Sub claims) with
      | Some ctx => next ctx r
      | None => next ctx r
      end
  end.

Definition WithTenant (next : Handler state) : Handler state := fun ctx r =>
  let tenantID := TrimSpace (Header_Get r "X-Tenant-ID") in
  if String.eqb tenantID "" then mret (WriteError 400 "tenant_required" "X-Tenant-ID is required")
  else
  match UserIDFromContext ctx with
  | None => mret (WriteError 401 "auth_required" "missing user context")
  | Some uid =>
  allowed ← on_snd (userHasTenant uid tenantID);
  match allowed with
  | Err err => mret (WriteError 500 "tenant_check_failed" (Error err))
  | Ok false => mret (WriteError 403 "tenant_forbidden" "tenant not assigned")
  | Ok true =>
  t ← on_snd now;
  ok ← on_limiter (PerKey.WindowLimiter_Allow t (tenantID +:+ ":" +:+ URLPath r));
  if negb ok then mret (WriteError 429 "rate_limited" "rate limit exceeded")
  else
  let requestID := RequestIDFromContext ctx in
  match WithTenantContext (Some ctx) {| tc_TenantID := tenantID; tc_RequestID := requestID |} with
  | Err err => mret (WriteError 500 "tenant_context_failed" (Error err))
  | Ok None => next ctx r
  | Ok (Some tenantCtx) => next tenantCtx r
  end
  end
  end.

(** The handlers of the managers, and what the multiplexer finds for a request
    ([None]: it answers itself, with a redirect, 404 or 405). *)
Variables (handlers : endpoint -> Handler state) (mux_match : Request -> option endpoint)
  (mux_error : Request -> Response).

Definition tenant_scoped (e : endpoint) : bool :=
  match e with Healthz | Login | ListTenants | CreateTenant => false | _ => true end.
Definition route (e : endpoint) : Handler state :=
  match e with
  | Healthz => fun _ _ => mret (WriteJSON 200 (JObj [("status", JStr "ok")]))
  | Login => handlers Login
  | ListTenants | CreateTenant => WithAuth (handlers e)
  | _ => WithAuth (WithTenant (handlers e))
  end.
Definition MainAPIHandler : Handler state :=
  WithCORS (WithRequestID (fun ctx r =>
    match mux_match r with
    | Some e => route e ctx r
    | None => mret (mux_error r)
    end)).
End Server.

(** ** Login (backend/managers/auth.go) *)

Record dbUser := {
  u_ID : Z; u_Username : string; u_PasswordHash : string; u_APIKeyHash : string; u_Active : bool }.

Record login_request := { lr_Username : string; lr_Password : string; lr_APIKey : string }.
Definition login_fields : list (field login_request) := [
  str_field "username" (fun q s => {| lr_Username := s; lr_Password := lr_Password q; lr_APIKey := lr_APIKey q |});
  str_field "password" (fun q s => {| lr_Username := lr_Username q; lr_Password := s; lr_APIKey := lr_APIKey q |});
  str_field "apiKey" (fun q s => {| lr_Username := lr_Username q; lr_Password := lr_Password q; lr_APIKey := s |})].
Definition decode_login (body : string) : option login_request :=
  DecodeJSON login_fields {| lr_Username := ""; lr_Password := ""; lr_APIKey := "" |} body.

Section Login.
Context {W : Type}.
Variables (Secret : string) (TokenTTL : Z) (now : M W Time).
(** [fetchUserByUsername]: no row, and a null column, are errors. *)
Variable fetchUserByUsername : string -> M W (result dbUser).
(** The text of a decoding error. *)
Variable decode_error : string -> string.

Definition HandleLogin (r : Request) : M W Response :=
  match decode_login (Body r) with
  | None => mret (WriteError 400 "invalid_json" (decode_error (Body r)))
  | Some req =>
  let Username := TrimSpace (lr_Username req) in
  if String.eqb Username "" then mret (WriteError 400 "username_required" "username is required")
  else
  user ← fetchUserByUsername Username;
  match user with
  | Err _ => mret (WriteError 401 "invalid_credentials" "invalid credentials")
  | Ok user =>
  if negb (u_Active user) then mret (WriteError 401 "invalid_credentials" "invalid credentials")
  else
  let ok := if negb (String.eqb (TrimSpace (lr_Password req)) "")
            then VerifySecret (lr_Password req) (u_PasswordHash user) else false in
  let ok := if negb ok && negb (String.eqb (TrimSpace (lr_APIKey req)) "")
            then VerifySecret (lr_APIKey req) (u_APIKeyHash user) else ok in
  if negb ok then mret (WriteError 401 "invalid_credentials" "invalid credentials")
  else
  t ← now;
  let token := SignJWT {| jwt_Sub := u_Username user; jwt_UID := u_ID user; jwt_Iat := Unix t;
                          jwt_Exp := Unix (t + TokenTTL) |} Secret in
  mret (WriteJSON 200 (JObj [("token", JStr token)]))
  end
  end.
End Login.

(** ** Bootstrap *)

Record BootstrapDB (W : Type) := {
  delete_blank_user_tenants : M W (option error);
  delete_blank_tenants : M W (option error);
  upsert_user : string -> string -> option string -> M W (result Z);
  delete_user_tenants : Z -> M W (option error);
  insert_user_tenant : Z -> string -> M W (option error) }.
Arguments delete_blank_user_tenants {W}.
Arguments delete_blank_tenants {W}.
Arguments upsert_user {W}.
Arguments delete_user_tenants {W}.
Arguments insert_user_tenant {W}.

Section Bootstrap.
Context {W : Type}.
Variables (bdb : BootstrapDB W) (registry : Postgres W) (now : M W Time).
Variables (Getenv : string -> string) (ReadFile : string -> option string).

Definition ensureBootstrapUser (username password apiKey : string) : M W (result Z) :=
  let apiKeyHash := if negb (String.eqb (TrimSpace apiKey) "") then Some (HashSecret apiKey) else None in
  upsert_user bdb username (HashSecret password) apiKeyHash.

(** One round of the loops over the tenants of a user. *)
Fixpoint assign_tenants (ctx : context) (uid : Z) (requestID : string) (ts : list (string * string))
    : M W (option error) :=
  match ts with
  | [] => mret None
  | (ID, Name) :: ts' =>
      e ← insert_user_tenant bdb uid ID;
      match e with
      | Some err => mret (Some err)
      | None =>
      match WithTenantContext ctx {| tc_TenantID := ID; tc_RequestID := requestID |} with
      | Err err => mret (Some err)
      | Ok tctx =>
      t ← now;
      e ← TenantRegistry_Upsert (Some registry) tctx
            {| tr_TenantID := ID; tr_DisplayName := Name; tr_PlanTier := "starter"; tr_Active := true;
               tr_UpdatedAt := t |};
      match e with
      | Some err => mret (Some err)
      | None => assign_tenants ctx uid requestID ts'
      end
      end
      end
  end.

Definition ensure_user_tenants (ctx : context) (username password apiKey requestID : string)
    (ts : list (string * string)) : M W (option error) :=
  r ← ensureBootstrapUser username password apiKey;
  match r with
  | Err err => mret (Some err)
  | Ok uid =>
      e ← delete_user_tenants bdb uid;
      match e with
      | Some err => mret (Some err)
      | None => assign_tenants ctx uid requestID ts
      end
  end.

Definition adminTenants := [("tenant-a", "Tenant A"); ("tenant-secondary", "Secondary Tenant")].
Definition jeetuTenants := [("tenant-lalita", "Lalita Tenant"); ("tenant-jeetu", "Jeetu Tenant")].

Definition EnsureBootstrapData (ctx : context) : M W (option error) :=
  let secret key := EnvOrSecret Getenv ReadFile key "" in
  let adminUser := secret "FINE_RAG_BOOTSTRAP_ADMIN_USERNAME" in
  let adminPass := secret "FINE_RAG_BOOTSTRAP_ADMIN_PASSWORD" in
  let adminAPIKey := secret "FINE_RAG_BOOTSTRAP_ADMIN_API_KEY" in
  if String.eqb adminUser "" || String.eqb adminPass "" || String.eqb adminAPIKey ""
  then mret (Some (errors_New "bootstrap admin secrets are required via *_FILE or env"))
  else
  _ ← delete_blank_user_tenants bdb;
  _ ← delete_blank_tenants bdb;
  e ← ensure_user_tenants ctx adminUser adminPass adminAPIKey "bootstrap-admin" adminTenants;
  match e with
  | Some err => mret (Some err)
  | None =>
  let secondaryUsername := secret "FINE_RAG_BOOTSTRAP_SECONDARY_USERNAME" in
  let secondaryPass := secret "FINE_RAG_BOOTSTRAP_SECONDARY_PASSWORD" in
  let secondaryAPIKey := secret "FINE_RAG_BOOTSTRAP_SECONDARY_API_KEY" in
  if negb (String.eqb secondaryUsername "") || negb (String.eqb secondaryPass "")
  then ensure_user_tenants ctx secondaryUsername secondaryPass secondaryAPIKey "bootstrap-jeetu" jeetuTenants
  else mret None
  end.
End Bootstrap.

(** * Facts *)

(** The table of assignments, as the statements of the server see and change it. *)
Class UserTenantsLaws {W} (db : UserTenants W) (now : M W Time) (assigned : W -> gset (Z * string)) : Prop := {
  ul_count uid t w :
    let '(r, w') := count_user_tenants db uid t w in
    assigned w' = assigned w /\ forall n, r = Ok n -> (0 < n <-> (uid, t) ∈ assigned w);
  ul_now w : assigned (now w).2 = assigned w }.

Lemma WithTenantContext_Ok ctx tc c :
  WithTenantContext (Some ctx) tc = Ok c ->
  c = Some (WithValue ctx tenantContextKey (CtxTenant tc)) /\ RequireTenantScope c = Ok tc.
Proof.
  unfold WithTenantContext. destruct (TenantContext_Validate tc) eqn:Hv; [done|]. intros [= <-].
  split; [done|]. apply RequireTenantScope_Ok. by eexists.
Qed.

Section Facts.
Context `{U : UnicodeTables} {W : Type}.
Variables (JWTSecret : string) (origins : gset string) (db : UserTenants W).
Variables (rand : M W (Z -> option string)) (now : M W Time) (assigned : W -> gset (Z * string)).
Context `{L : !UserTenantsLaws db now assigned}.

Lemma userHasTenant_true uid t w b w' :
  userHasTenant db uid t w = (Ok b, w') -> assigned w' = assigned w /\ (b = true <-> (uid, t) ∈ assigned w).
Proof.
  unfold userHasTenant. run_M. pose proof (ul_count uid t w) as H.
  destruct (count_user_tenants db uid t w) as [[n|err] w1]; [|done]. destruct H as [Ha Hn].
  intros [= <- <-]. split; [done|]. rewrite Z.ltb_lt. by apply Hn.
Qed.
Lemma userHasTenant_assigned uid t w : assigned (userHasTenant db uid t w).2 = assigned w.
Proof.
  unfold userHasTenant. run_M. pose proof (ul_count uid t w) as H.
  destruct (count_user_tenants db uid t w) as [r w1]. apply H.
Qed.

(** A context that carries the scope of the tenant and the user. *)
Definition scoped_for (ctx : Ctx) (uid : Z) (tenant : string) : Prop :=
  UserIDFromContext ctx = Some uid
  /\ exists tc, RequireTenantScope (Some ctx) = Ok tc /\ tc_TenantID tc = tenant.

(** The status codes of the middleware. *)
Definition is_refusal (code : Z) : bool := existsb (Z.eqb code) [400; 401; 403; 429; 500].

(** A branch that answers without the handler. *)
#[local] Ltac refuse := right; eexists _, _; split; [|intros; reflexivity]; done.

(** What [WithTenant] does: it refuses without running the handler, or runs it
    once in the scope of a tenant the user is assigned to. *)
Lemma WithTenant_cases ctx r (st : state) :
  (exists uid tenant ctx' st1,
     UserIDFromContext ctx = Some uid /\ tenant = TrimSpace (Header_Get r "X-Tenant-ID") /\ tenant <> ""
     /\ (uid, tenant) ∈ assigned st.2 /\ assigned st1.2 = assigned st.2 /\ scoped_for ctx' uid tenant
     /\ forall next, WithTenant db now next ctx r st = next ctx' r st1)
  \/ (exists resp st', is_refusal (rs_Status resp) = true
      /\ forall next, WithTenant db now next ctx r st = (resp, st')).
Proof.
  destruct st as [l w]. unfold WithTenant. cbn zeta. unfold mbind, M_bind, mret, M_ret, on_snd. cbn [fst snd].
  destruct (String.eqb_spec (TrimSpace (Header_Get r "X-Tenant-ID")) "") as [_|Hne]; [refuse|].
  set (tenant := TrimSpace (Header_Get r "X-Tenant-ID")) in *.
  destruct (UserIDFromContext ctx) as [uid|] eqn:Hu; [|refuse].
  cbn [fst snd]. destruct (userHasTenant db uid tenant w) as [[[]|err] w1] eqn:Hh; [|refuse..].
  apply userHasTenant_true in Hh as [Ha1 Hin]. pose proof (ul_now w1) as Ha2.
  cbn [fst snd]. destruct (now w1) as [t w2]. unfold on_limiter. cbn [fst snd] in *.
  destruct (PerKey.WindowLimiter_Allow t (tenant +:+ ":" +:+ URLPath r) l) as [[] l2]; [|refuse].
  cbn [negb]. destruct (WithTenantContext _ _) as [c|err] eqn:Hc; [|refuse].
  apply WithTenantContext_Ok in Hc as [-> Hc].
  left. eexists uid, tenant, _, (l2, w2). split_and!; try reflexivity; try done.
  - by apply Hin.
  - cbn [snd]. by rewrite Ha2.
  - split; [done|]. by eexists.
Qed.
(** The bearer token of a request, if it has one. *)
Definition bearer (r : Request) : option string :=
  let authz := TrimSpace (Header_Get r "Authorization") in
  if HasPrefix (ToLower authz) "bearer " then Some (TrimSpace (str_drop 7 authz)) else None.

Lemma WithActorID_Some ctx a :
  exists ctx', WithActorID (Some ctx) a = Some ctx'
    /\ UserIDFromContext ctx' = UserIDFromContext ctx
    /\ RequestIDFromContext ctx' = RequestIDFromContext ctx.
Proof. unfold WithActorID. simpl. case_match; by eexists. Qed.

Lemma WithAuth_cases ctx r (st : state) :
  (exists token claims ctx' st1,
     bearer r = Some token /\ VerifyJWT (now st.2).1 token JWTSecret = Ok claims
     /\ assigned st1.2 = assigned st.2 /\ UserIDFromContext ctx' = Some (jwt_UID claims)
     /\ forall next, WithAuth JWTSecret now next ctx r st = next ctx' r st1)
  \/ (exists resp st', rs_Status resp = 401 /\ forall next, WithAuth JWTSecret now next ctx r st = (resp, st')).
Proof.
  destruct st as [l w]. unfold WithAuth, bearer. cbn zeta. unfold mbind, M_bind, mret, M_ret, on_snd.
  destruct (HasPrefix _ _); cbn [negb fst snd]; [|refuse].
  pose proof (ul_now w) as Ha. destruct (now w) as [t w1]. cbn [fst snd] in *.
  destruct (VerifyJWT _ _ _) as [claims|err] eqn:Hv; [|refuse]. left.
  destruct (WithActorID_Some (WithValue ctx UserIDKey (CtxInt64 (jwt_UID claims))) (jwt_Sub claims))
    as (c' & -> & Hu & _). eexists _, claims, c', (l, w1). split_and!; try done; reflexivity.
Qed.
End Facts.

(** * Theorems *)

Section Theorems.
Context `{U : UnicodeTables} {W : Type}.
Variables (JWTSecret : string) (origins : gset string) (db : UserTenants W).
Variables (rand : M W (Z -> option string)) (now : M W Time) (assigned : W -> gset (Z * string)).
Context `{L : !UserTenantsLaws db now assigned}.

(** C3: tenant endpoints are reached only by assigned users.  For every route
    that works on the data of a tenant, whatever the request, the handler runs
    only if the request has a bearer token that verifies, the user of the token
    is assigned to the tenant named by the request, and then exactly once, in a
    context that carries that user and the scope of that tenant; otherwise the
    answer is a refusal that does not depend on the handler. *)
Theorem tenant_routes_authorised handlers e ctx r (st : state) :
  tenant_scoped e = true ->
  let run hs := route JWTSecret db now hs e ctx r st in
  (exists token claims tenant ctx' st1,
     bearer r = Some token /\ VerifyJWT (now st.2).1 token JWTSecret = Ok claims
     /\ tenant = TrimSpace (Header_Get r "X-Tenant-ID") /\ tenant <> ""
     /\ (jwt_UID claims, tenant) ∈ assigned st.2 /\ scoped_for ctx' (jwt_UID claims) tenant
     /\ run handlers = handlers e ctx' r st1)
  \/ (is_refusal (rs_Status (run handlers).1) = true /\ forall handlers', run handlers' = run handlers).
Proof.
  intros He run. assert (Hrun : forall hs, run hs = WithAuth JWTSecret now (WithTenant db now (hs e)) ctx r st)
    by (intros hs; by destruct e).
  destruct (WithAuth_cases JWTSecret db now assigned ctx r st)
    as [(token & claims & c1 & st1 & Hb & Hv & Ha & Hu & Hr)|(resp & st' & Hs & Hr)].
  2:{ right. split; [|intros hs]; rewrite !Hrun, !Hr; [cbn [fst]; by rewrite Hs|done]. }
  destruct (WithTenant_cases db now assigned c1 r st1)
    as [(uid & tenant & c2 & st2 & Hu2 & Ht & Hne & Hin & Ha2 & Hsc & Hr2)|(resp & st' & Hs & Hr2)].
  - left. rewrite Hu in Hu2. injection Hu2 as <-. exists token, claims, tenant, c2, st2.
    rewrite Ha in Hin. split_and!; try done. by rewrite Hrun, Hr, Hr2.
  - right. split; [|intros hs]; by rewrite !Hrun, !Hr, !Hr2.
Qed.
End Theorems.

Section LoginTheorems.
Context {W : Type}.
Variables (Secret : string) (TokenTTL : Z) (now : M W Time).
Variables (fetch : string -> M W (result dbUser)) (decode_error : string -> string).

(** The credentials of a request match an active user: a non-blank password or a
    non-blank API key that verifies. *)
Definition credentials_ok (u : dbUser) (q : login_request) : bool :=
  u_Active u
  && ((negb (String.eqb (TrimSpace (lr_Password q)) "") && VerifySecret (lr_Password q) (u_PasswordHash u))
      || (negb (String.eqb (TrimSpace (lr_APIKey q)) "") && VerifySecret (lr_APIKey q) (u_APIKeyHash u))).
(** The user a request logs in as. *)
Definition logs_in (r : Request) (w : W) (u : dbUser) (w1 : W) : Prop :=
  exists q, decode_login (Body r) = Some q /\ TrimSpace (lr_Username q) <> ""
    /\ fetch (TrimSpace (lr_Username q)) w = (Ok u, w1) /\ credentials_ok u q = true.

#[local] Ltac no_login := left; split; [done|]; intros ? ? (? & ? & ? & ? & ?); congruence.

Lemma HandleLogin_cases r w :
  let '(resp, w') := HandleLogin Secret TokenTTL now fetch decode_error r w in
  (rs_Status resp <> 200 /\ forall u w1, ~ logs_in r w u w1)
  \/ exists u w1, logs_in r w u w1 /\ w' = (now w1).2
     /\ resp = WriteJSON 200 (JObj [("token", JStr (SignJWT
          {| jwt_Sub := u_Username u; jwt_UID := u_ID u; jwt_Iat := Unix (now w1).1;
             jwt_Exp := Unix ((now w1).1 + TokenTTL) |} Secret))]).
Proof.
  unfold HandleLogin, mbind, M_bind, mret, M_ret, logs_in.
  destruct (decode_login (Body r)) as [q|]; [|no_login]. cbn zeta.
  destruct (String.eqb_spec (TrimSpace (lr_Username q)) "") as [|Hne]; [no_login|].
  destruct (fetch (TrimSpace (lr_Username q)) w) as [[u|err] w1] eqn:Hf; [|no_login].
  set (ok := if negb (if negb (String.eqb (TrimSpace (lr_Password q)) "") then _ else _) && _ then _ else _).
  assert (Hok : u_Active u && ok = credentials_ok u q).
  { unfold credentials_ok, ok. f_equal. destruct (negb (String.eqb (TrimSpace (lr_Password q)) "")),
      (VerifySecret (lr_Password q) (u_PasswordHash u)),
      (negb (String.eqb (TrimSpace (lr_APIKey q)) "")); reflexivity. }
  destruct (u_Active u); cbn [negb andb] in *; [destruct ok; cbn [negb]|].
  - destruct (now w1) as [t w2] eqn:Hnow. right. exists u, w1. rewrite Hnow. split; [|done]. by exists q.
  - left. split; [done|]. intros u' w1' (q' & [= <-] & _ & Hf' & Hc). rewrite Hf in Hf'.
    injection Hf' as <- <-. congruence.
  - left. split; [done|]. intros u' w1' (q' & [= <-] & _ & Hf' & Hc). rewrite Hf in Hf'.
    injection Hf' as <- <-. congruence.
Qed.

(** C35: login.  The answer is 200 exactly for the credentials of an active user;
    the token it then carries is accepted by [VerifyJWT] with the claims of that
    user at every time before it expires, [TokenTTL] after the login, and at no
    time from then on. *)
Theorem login_correct r w :
  let '(resp, w') := HandleLogin Secret TokenTTL now fetch decode_error r w in
  (rs_Status resp = 200 <-> exists u w1, logs_in r w u w1)
  /\ forall u w1, logs_in r w u w1 ->
     let t := (now w1).1 in
     int64_range (u_ID u) -> int64_range (Unix t) -> int64_range (Unix (t + TokenTTL)) ->
     exists token, rs_Body resp = Some (JObj [("token", JStr token)])
       /\ forall t', match VerifyJWT t' token Secret with
                     | Ok claims => Unix t' < Unix (t + TokenTTL) /\ jwt_UID claims = u_ID u
                                    /\ jwt_Sub claims = json_text (u_Username u)
                     | Err _ => Unix (t + TokenTTL) <= Unix t'
                     end.
Proof.
  pose proof (HandleLogin_cases r w) as H. destruct (HandleLogin _ _ _ _ _ r w) as [resp w'].
  destruct H as [[Hs Hno]|(u & w1 & Hl & Hw & ->)].
  { split; [|by intros u w1 Hl%Hno]. split; [done|]. intros (u & w1 & Hl). by apply Hno in Hl. }
  split; [split; [by exists u, w1|done]|]. intros u' w1' Hl' t H1 H2 H3.
  assert (u' = u /\ w1' = w1) as [-> ->].
  { destruct Hl as (q & Hq & _ & Hf & _), Hl' as (q' & Hq' & _ & Hf' & _). rewrite Hq in Hq'.
    injection Hq' as <-. rewrite Hf in Hf'. by injection Hf'. }
  eexists. split; [reflexivity|]. intros t'. fold t.
  set (c := {| jwt_Sub := u_Username u; jwt_UID := u_ID u; jwt_Iat := Unix t; jwt_Exp := Unix (t + TokenTTL) |}).
  rewrite (VerifyJWT_Sign c Secret t') by done. cbn [jwt_Exp].
  destruct (Z.leb_spec (jwt_Exp c) (Unix t')); [done|]. split; [done|]. by split.
Qed.
End LoginTheorems.

(** What the statements of the bootstrap do to the table of assignments and to the table
    of users, whose names and numbers are unique; a failed statement may or may not have
    been applied. *)
Class BootstrapLaws {W} (bdb : BootstrapDB W) (registry : Postgres W) (now : M W Time)
    (assigned : W -> gset (Z * string)) (users : W -> gmap string dbUser) : Prop := {
  bl_blank w p : Contains p.2 " " = false ->
    p ∈ assigned (delete_blank_user_tenants bdb w).2 <-> p ∈ assigned w;
  bl_blank_users w : users (delete_blank_user_tenants bdb w).2 = users w;
  bl_blank_tenants w : assigned (delete_blank_tenants bdb w).2 = assigned w /\ users (delete_blank_tenants bdb w).2 = users w;
  bl_upsert_user u p k w : assigned (upsert_user bdb u p k w).2 = assigned w;
  bl_upsert_row u p k w uid w' : upsert_user bdb u p k w = (Ok uid, w') ->
    exists row, users w' = <[u := row]> (users w) /\ u_ID row = uid /\ u_PasswordHash row = p /\ u_Active row = true
      /\ u_APIKeyHash row = default (default "" (u_APIKeyHash <$> users w !! u)) k;
  bl_delete uid w : (delete_user_tenants bdb uid w).1 = None ->
    assigned (delete_user_tenants bdb uid w).2 = filter (fun p => p.1 <> uid) (assigned w);
  bl_delete_users uid w : users (delete_user_tenants bdb uid w).2 = users w;
  bl_insert uid t w : (insert_user_tenant bdb uid t w).1 = None ->
    assigned (insert_user_tenant bdb uid t w).2 = {[ (uid, t) ]} ∪ assigned w;
  bl_insert_users uid t w : users (insert_user_tenant bdb uid t w).2 = users w;
  bl_registry t w : assigned (upsert_tenant registry t w).2 = assigned w /\ users (upsert_tenant registry t w).2 = users w;
  bl_now w : assigned (now w).2 = assigned w /\ users (now w).2 = users w;
  bl_ids w u1 u2 r1 r2 : users w !! u1 = Some r1 -> users w !! u2 = Some r2 -> u_ID r1 = u_ID r2 -> u1 = u2 }.

Section BootstrapTheorems.
Context {W : Type} (bdb : BootstrapDB W) (registry : Postgres W) (now : M W Time).
Context (Getenv : string -> string) (ReadFile : string -> option string) (assigned : W -> gset (Z * string))
  (users : W -> gmap string dbUser).
Context `{L : !BootstrapLaws bdb registry now assigned users}.

(** An active user with this name and these secrets, assigned to exactly these tenants. *)
Definition account (w : W) (name password apiKey : string) (tenants : list string) : Prop :=
  exists row, users w !! name = Some row /\ u_Active row = true /\ u_PasswordHash row = HashSecret password
    /\ (TrimSpace apiKey <> "" -> u_APIKeyHash row = HashSecret apiKey)
    /\ forall t, (u_ID row, t) ∈ assigned w <-> t ∈ tenants.

Lemma registry_upsert_assigned ctx t w :
  assigned (TenantRegistry_Upsert (Some registry) ctx t w).2 = assigned w
  /\ users (TenantRegistry_Upsert (Some registry) ctx t w).2 = users w.
Proof.
  unfold TenantRegistry_Upsert, mret, M_ret. destruct (TenantRecord_Validate t); [done|].
  destruct (GuardWriteScope _ _); [done|]. apply bl_registry.
Qed.

Lemma assign_tenants_assigned ctx uid rid ts : forall w w',
  assign_tenants bdb registry now ctx uid rid ts w = (None, w') -> users w' = users w /\
  forall u t, (u, t) ∈ assigned w' <-> (u = uid /\ t ∈ ts.*1) \/ (u, t) ∈ assigned w.
Proof.
  induction ts as [|[ID Name] ts IH]; intros w w' H; cbn [assign_tenants] in H.
  { injection H as <-. set_solver. }
  run_M in H. pose proof (bl_insert uid ID w) as Hi. pose proof (bl_insert_users uid ID w) as Hiu.
  destruct (insert_user_tenant bdb uid ID w) as [[|] w1]; [done|].
  destruct (WithTenantContext _ _) as [tctx|]; [|done].
  pose proof (bl_now w1) as [Hn Hnu]. destruct (now w1) as [tm w2]. cbn [fst snd] in *.
  match type of H with context [TenantRegistry_Upsert _ _ ?rec] =>
    pose proof (registry_upsert_assigned tctx rec w2) as [Hr Hru];
    destruct (TenantRegistry_Upsert (Some registry) tctx rec w2) as [[|] w3]; [done|] end.
  cbn [snd] in Hr, Hru. destruct (IH _ _ H) as [HU HA]. split; [congruence|]. intros u t.
  rewrite HA, Hr, Hn, (Hi eq_refl), fmap_cons, elem_of_union, elem_of_singleton, elem_of_cons.
  cbn [fst]. rewrite pair_equal_spec. tauto.
Qed.

Lemma ensure_user_tenants_assigned ctx username password apiKey rid ts w w' :
  ensure_user_tenants bdb registry now ctx username password apiKey rid ts w = (None, w') ->
  account w' username password apiKey ts.*1
  /\ (forall u, u <> username -> users w' !! u = users w !! u)
  /\ forall row u t, users w' !! username = Some row -> u <> u_ID row -> (u, t) ∈ assigned w' <-> (u, t) ∈ assigned w.
Proof.
  unfold ensure_user_tenants, ensureBootstrapUser. run_M. intros H. set (k := if negb _ then _ else _) in H.
  pose proof (bl_upsert_user username (HashSecret password) k w) as Hu.
  destruct (upsert_user bdb username (HashSecret password) k w) as [[uid|] w1] eqn:Eu; [|done].
  apply bl_upsert_row in Eu as (row & Hrow & Hid & Hp & Ha & Hk).
  pose proof (bl_delete uid w1) as Hd. pose proof (bl_delete_users uid w1) as Hdu.
  destruct (delete_user_tenants bdb uid w1) as [[|] w2]; [done|].
  cbn [fst snd] in *. apply assign_tenants_assigned in H as [HU HA].
  assert (Hw : users w' = <[username := row]> (users w)) by congruence.
  assert (Hall : forall u t, (u, t) ∈ assigned w' <-> (u = uid /\ t ∈ ts.*1) \/ (u <> uid /\ (u, t) ∈ assigned w)).
  { intros u t. by rewrite HA, (Hd eq_refl), elem_of_filter, Hu. }
  split; [|split].
  - exists row. split; [by rewrite Hw, lookup_insert_eq|]. split_and!; try done.
    + intros Hne. rewrite Hk. unfold k. by destruct (String.eqb_spec (TrimSpace apiKey) "").
    + intros t. rewrite Hall, Hid. tauto.
  - intros u Hne. by rewrite Hw, lookup_insert_ne.
  - intros row' u t Hr Hne. rewrite Hw, lookup_insert_eq in Hr. injection Hr as <-. rewrite Hid in Hne. rewrite Hall. tauto.
Qed.

(** An account is left alone by what is done for another one. *)
Lemma account_keeps w w' name password apiKey ts other row' :
  account w name password apiKey ts -> (forall u, u <> other -> users w' !! u = users w !! u) -> name <> other ->
  users w' !! other = Some row' -> (forall u t, u <> u_ID row' -> (u, t) ∈ assigned w' <-> (u, t) ∈ assigned w) ->
  account w' name password apiKey ts.
Proof.
  intros (row & Hr & Ha & Hp & Hk & Ht) HU Hne Hr' HA. rewrite <- HU in Hr by done.
  exists row. split_and!; try done. intros t. rewrite HA; [done|]. intros E. by apply Hne, (bl_ids w' _ _ row row').
Qed.

(** the bootstrap.  When [EnsureBootstrapData] reports success, the secondary user, if a
    name or a password of one is configured, is an active user with the configured name
    and secrets, assigned to exactly the two tenants of the secondary user; the
    administrator, unless the secondary user has the same name, is an active user with
    the configured name and secrets, assigned to exactly the two tenants of the
    administrator; and every other user keeps its row and exactly the assignments it had
    to tenants without a space in their name. *)
Theorem bootstrap_assignments ctx w w' :
  EnsureBootstrapData bdb registry now Getenv ReadFile ctx w = (None, w') ->
  let env key := EnvOrSecret Getenv ReadFile key "" in
  let admin := env "FINE_RAG_BOOTSTRAP_ADMIN_USERNAME" in
  let second := env "FINE_RAG_BOOTSTRAP_SECONDARY_USERNAME" in
  let configured := second <> "" \/ env "FINE_RAG_BOOTSTRAP_SECONDARY_PASSWORD" <> "" in
  (~ (configured /\ second = admin) ->
     account w' admin (env "FINE_RAG_BOOTSTRAP_ADMIN_PASSWORD") (env "FINE_RAG_BOOTSTRAP_ADMIN_API_KEY")
       ["tenant-a"; "tenant-secondary"])
  /\ (configured ->
        account w' second (env "FINE_RAG_BOOTSTRAP_SECONDARY_PASSWORD") (env "FINE_RAG_BOOTSTRAP_SECONDARY_API_KEY")
          ["tenant-lalita"; "tenant-jeetu"])
  /\ (forall u row, users w !! u = Some row -> u <> admin -> (configured -> u <> second) ->
        users w' !! u = Some row
        /\ forall t, Contains t " " = false -> (u_ID row, t) ∈ assigned w' <-> (u_ID row, t) ∈ assigned w).
Proof.
  unfold EnsureBootstrapData. run_M. cbn zeta. intros H.
  destruct (_ || _ || _) in H; [done|].
  pose proof (bl_blank w) as Hb. pose proof (bl_blank_users w) as Hbu. destruct (delete_blank_user_tenants bdb w) as [e1 w1].
  pose proof (bl_blank_tenants w1) as [Hb2 Hbu2]. destruct (delete_blank_tenants bdb w1) as [e2 w2].
  cbn [fst snd] in Hb, Hbu, Hb2, Hbu2.
  match type of H with context [ensure_user_tenants bdb registry now ctx ?a ?b ?c ?d ?e w2] =>
    destruct (ensure_user_tenants bdb registry now ctx a b c d e w2) as [[|] w3] eqn:E1; [done|] end.
  apply ensure_user_tenants_assigned in E1 as (Ha & HU & HA). pose proof Ha as (ra & Hra & _).
  destruct (negb _ || negb _) eqn:Hs in H.
  - apply ensure_user_tenants_assigned in H as (Hsec & HU' & HA'). pose proof Hsec as (rs & Hrs & _).
    apply orb_true_iff in Hs. rewrite !negb_true_iff, !String.eqb_neq in Hs. split; [|split; [by intros _|]].
    + intros Hne. eapply account_keeps; eauto.
    + intros u row Hu Hna Hns. specialize (Hns Hs). assert (Hu' : users w' !! u = Some row) by (rewrite HU', HU, Hbu2, Hbu; done).
      split; [done|]. intros t Ht. assert (Hu3 : users w3 !! u = Some row) by (rewrite HU, Hbu2, Hbu; done).
      rewrite (HA' rs), (HA ra), Hb2, Hb; [done|done|done| |done|].
      * intros E. by apply Hna, (bl_ids w3 _ _ row ra).
      * intros E. by apply Hns, (bl_ids w' _ _ row rs).
  - injection H as <-. apply orb_false_iff in Hs. rewrite !negb_false_iff, !String.eqb_eq in Hs. destruct Hs as [-> ->].
    split; [by intros _|split; [by intros [|]|]]. intros u row Hu Hna _.
    assert (Hu3 : users w3 !! u = Some row) by (rewrite HU, Hbu2, Hbu; done). split; [done|]. intros t Ht.
    rewrite (HA ra), Hb2, Hb; [done|done|done|]. intros E. by apply Hna, (bl_ids w3 _ _ row ra).
Qed.
End BootstrapTheorems.

(** ** A concrete server *)

(** The clock, the assignments, and the hashes of the users by name; the number of a user
    is the code of its name. *)
Record sworld := { sw_now : Time; sw_assigned : gset (Z * string); sw_users : gmap string (string * string) }.
Definition sample_row (u : string) (h : string * string) : dbUser :=
  {| u_ID := Z.pos (encode u); u_Username := u; u_PasswordHash := h.1; u_APIKeyHash := h.2; u_Active := true |}.
Definition sample_users (w : sworld) : gmap string dbUser := map_imap (fun u h => Some (sample_row u h)) (sw_users w).
Definition sample_now : M sworld Time := fun w => (sw_now w, w).
Definition sample_user_tenants : UserTenants sworld := {|
  count_user_tenants uid t := fun w =>
    (Ok (if bool_decide ((uid, t) ∈ sw_assigned w) then 1 else 0), w) |}.
#[global] Instance sample_user_tenants_laws : UserTenantsLaws sample_user_tenants sample_now sw_assigned.
Proof.
  split; [|done]. intros uid t w. cbn. split; [done|]. intros n [= <-].
  case_bool_decide; split; (done || lia).
Qed.

Definition with_assigned (w : sworld) (a : gset (Z * string)) : sworld :=
  {| sw_now := sw_now w; sw_assigned := a; sw_users := sw_users w |}.
Definition sample_bootstrap : BootstrapDB sworld := {|
  delete_blank_user_tenants := fun w =>
    (None, with_assigned w (filter (fun p => Contains p.2 " " = false) (sw_assigned w)));
  delete_blank_tenants := mret None;
  upsert_user u p k := fun w =>
    (Ok (Z.pos (encode u)),
     {| sw_now := sw_now w; sw_assigned := sw_assigned w;
        sw_users := <[u := (p, default (default "" (snd <$> sw_users w !! u)) k)]> (sw_users w) |});
  delete_user_tenants uid := fun w =>
    (None, with_assigned w (filter (fun p => p.1 <> uid) (sw_assigned w)));
  insert_user_tenant uid t := fun w => (None, with_assigned w ({[ (uid, t) ]} ∪ sw_assigned w)) |}.
Definition sample_registry : Postgres sworld := {|
  upsert_tenant _ := mret None;
  select_tenant _ := mret (Ok None);
  upsert_metadata _ := mret None;
  select_metadata _ _ := mret (Ok None) |}.
#[global] Instance sample_bootstrap_laws :
  BootstrapLaws sample_bootstrap sample_registry sample_now sw_assigned sample_users.
Proof.
  split; try done.
  - intros w p Hp. cbn. rewrite elem_of_filter. tauto.
  - intros u p k w uid w' [= <- <-]. set (h := (p, default (default "" (snd <$> sw_users w !! u)) k)). exists (sample_row u h).
    unfold sample_users. cbn [sw_users]. split; [by erewrite map_imap_insert_Some|].
    split_and!; try done. cbn. rewrite map_lookup_imap. by destruct (sw_users w !! u).
  - intros w u1 u2 r1 r2. unfold sample_users. rewrite !map_lookup_imap.
    destruct (sw_users w !! u1), (sw_users w !! u2); intros [= <-] [= <-]; cbn. intros E. apply (inj encode). congruence.
Qed.

#[local] Existing Instance latin1.

Definition sample_world : sworld :=
  {| sw_now := unix_time 200 0; sw_assigned := {[ (7, "acme") ]}; sw_users := ∅ |}.
Definition sample_request : Request := {|
  Method := "POST"; URLPath := "/api/v1/uploads/presign";
  Header := list_to_map [("Authorization", ["Bearer " +:+ SignJWT sample_claims "secret"]);
                         ("X-Tenant-Id", [" acme "])];
  PathValue _ := ""; Body := "" |}.
Definition sample_ctx : Ctx := WithValue Background RequestIDKey (CtxString "r1").

Lemma tenant_routes_authorised_witness :
  exists ctx', scoped_for ctx' 7 "acme" /\ (7, "acme") ∈ sw_assigned sample_world.
Proof.
  destruct (tenant_routes_authorised "secret" sample_user_tenants sample_now sw_assigned
    (fun _ _ _ => mret (WriteJSON 200 JNull)) Presign sample_ctx sample_request
    (PerKey.NewWindowLimiter 5, sample_world) eq_refl)
    as [(token & claims & tenant & ctx' & st1 & Hb & Hv & Ht & _ & Hin & Hs & _)|[H _]].
  - assert (E : tenant = "acme") by (rewrite Ht; vm_compute; reflexivity).
    assert (E2 : token = SignJWT sample_claims "secret")
      by (apply (inj Some); rewrite <- Hb; vm_compute; reflexivity).
    rewrite E2 in Hv. vm_compute in Hv. injection Hv as <-. rewrite E in Hs, Hin.
    exists ctx'. split; [exact Hs|exact Hin].
  - vm_compute in H. discriminate.
Defined.

Lemma bootstrap_assignments_witness :
  let Getenv key := if String.prefix "FINE_RAG_BOOTSTRAP_ADMIN" key
                       && negb (HasSuffix key "_FILE") then "root" else "" in
  account sw_assigned sample_users
    (EnsureBootstrapData sample_bootstrap sample_registry sample_now Getenv (fun _ => None) (Some sample_ctx) sample_world).2
    "root" "root" "root" ["tenant-a"; "tenant-secondary"].
Proof.
  intros Getenv.
  destruct (EnsureBootstrapData sample_bootstrap sample_registry sample_now Getenv (fun _ => None)
    (Some sample_ctx) sample_world) as [[e|] w'] eqn:E; [vm_compute in E; discriminate|].
  destruct (bootstrap_assignments sample_bootstrap sample_registry sample_now Getenv (fun _ => None) sw_assigned sample_users
    (Some sample_ctx) sample_world w' E) as (Ha & _). apply Ha. intros [[H|H] _]; apply H; vm_compute; reflexivity.
Defined.
