(* ===== verification/Managers.v ===== *)
(** * Managers: backend/managers (tenant.go, upload.go, knowledgebase.go)

    The handlers behind the tenant, upload and knowledge-base routes.  The
    database, the object store, the presigner and the clock are ports; the text
    of a decoding error and random identifiers are arguments.  The theorems: what
    creating a tenant does to the assignments; that a purge always ends, deletes
    everything under the prefix of its tenant and what the index removes for it, and
    nothing else, with the stub and with Milvus as the index; and that upload keys stay
    under the prefix of the tenant. *)

From S2P Require Import VectorStub Milvus Prelude GoStrings GoSort GoTime Sha256 GoJSON Contracts Repository ApiUtil Server.
From Stdlib Require Import Ascii.

#[local] Open Scope Z_scope.
#[local] Opaque Sum256.

(** ** Tenants (tenant.go) *)

Record TenantDB (W : Type) := {
  (** the rows of the query, each as the scan returns it *)
  select_user_tenants : Z -> M W (result (list (result (string * string))));
  assign_user_tenant : Z -> string -> M W (option error);
  delete_jobs : string -> M W (option error) }.
Arguments select_user_tenants {W}.
Arguments assign_user_tenant {W}.
Arguments delete_jobs {W}.

(** The object store: a page of keys (a nil key is [None]) after a continuation
    token, with the token of the next page; and deletion. *)
Record ObjectStore (W Token : Type) := {
  list_page : string -> option Token -> M W (result (list (option string) * option Token));
  delete_object : string -> M W (option error) }.
Arguments list_page {W Token}.
Arguments delete_object {W Token}.

Record tenant_request := { tq_TenantID : string; tq_DisplayName : string; tq_PlanTier : string }.
Definition tenant_fields : list (field tenant_request) := [
  str_field "tenantId" (fun q s => {| tq_TenantID := s; tq_DisplayName := tq_DisplayName q; tq_PlanTier := tq_PlanTier q |});
  str_field "displayName" (fun q s => {| tq_TenantID := tq_TenantID q; tq_DisplayName := s; tq_PlanTier := tq_PlanTier q |});
  str_field "planTier" (fun q s => {| tq_TenantID := tq_TenantID q; tq_DisplayName := tq_DisplayName q; tq_PlanTier := s |})].
Definition decode_tenant (body : string) : option tenant_request :=
  DecodeJSON tenant_fields {| tq_TenantID := ""; tq_DisplayName := ""; tq_PlanTier := "" |} body.
Definition decode_confirm (body : string) : option string :=
  DecodeJSON [str_field "confirm" (fun _ s => s)] "" body.

Section Tenants.
Context `{U : UnicodeTables} {W Token : Type}.
Variables (db : TenantDB W) (registry : Postgres W) (store : ObjectStore W Token).
(** [m.Index] as a [vectorTenantPurger], [None] if it is not one. *)
Variable purger : option (string -> M W (option error)).
Variables (now : M W Time) (decode_error : string -> string).

Fixpoint scan_tenants (out : list json) (rows : list (result (string * string))) : Response :=
  match rows with
  | [] => WriteJSON 200 (JArr out)
  | Err err :: _ => WriteError 500 "tenant_scan_failed" (Error err)
  | Ok (tenantID, displayName) :: rows' =>
      scan_tenants (out ++ [JObj [("displayName", JStr displayName); ("tenantId", JStr tenantID)]]) rows'
  end.

Definition HandleListTenants (ctx : Ctx) (r : Request) : M W Response :=
  match UserIDFromContext ctx with
  | None => mret (WriteError 401 "auth_required" "missing user context")
  | Some uid =>
  rows ← select_user_tenants db uid;
  match rows with
  | Err err => mret (WriteError 500 "tenant_list_failed" (Error err))
  | Ok rows => mret (scan_tenants [] rows)
  end
  end.

Definition HandleCreateTenant (ctx : Ctx) (r : Request) : M W Response :=
  match UserIDFromContext ctx with
  | None => mret (WriteError 401 "auth_required" "missing user context")
  | Some uid =>
  match decode_tenant (Body r) with
  | None => mret (WriteError 400 "invalid_json" (decode_error (Body r)))
  | Some req =>
  let TenantID := TrimSpace (tq_TenantID req) in
  let DisplayName := TrimSpace (tq_DisplayName req) in
  if String.eqb TenantID "" || String.eqb DisplayName ""
  then mret (WriteError 400 "invalid_tenant" "tenantId and displayName are required")
  else
  let PlanTier := if String.eqb (TrimSpace (tq_PlanTier req)) "" then "starter" else tq_PlanTier req in
  match WithTenantContext (Some ctx) {| tc_TenantID := TenantID; tc_RequestID := "tenant-create" |} with
  | Err err => mret (WriteError 400 "tenant_context_invalid" (Error err))
  | Ok tctx =>
  t ← now;
  e ← TenantRegistry_Upsert (Some registry) tctx
        {| tr_TenantID := TenantID; tr_DisplayName := DisplayName; tr_PlanTier := PlanTier;
           tr_Active := true; tr_UpdatedAt := t |};
  match e with
  | Some err => mret (WriteError 500 "tenant_create_failed" (Error err))
  | None =>
  e ← assign_user_tenant db uid TenantID;
  match e with
  | Some err => mret (WriteError 500 "tenant_assign_failed" (Error err))
  | None => mret (WriteJSON 201 (JObj [("displayName", JStr DisplayName); ("tenantId", JStr TenantID)]))
  end
  end
  end
  end
  end.

(** The deletions of one page. *)
Fixpoint delete_page (deleted : Z) (keys : list (option string)) : M W (result Z) :=
  match keys with
  | [] => mret (Ok deleted)
  | None :: keys' => delete_page deleted keys'
  | Some key :: keys' =>
      if String.eqb (TrimSpace key) "" then delete_page deleted keys'
      else
        e ← delete_object store key;
        match e with
        | Some err => mret (Err err)
        | None => delete_page (deleted + 1) keys'
        end
  end.

(** The pages of the prefix, at most [fuel] of them; [None] when more are left.
    A failed call is reported with the code of the response. *)
Fixpoint delete_pages (fuel : nat) (prefix : string) (deleted : Z) (token : option Token)
    : M W (option (string * error + Z)) :=
  match fuel with
  | O => mret None
  | S fuel' =>
      page ← list_page store prefix token;
      match page with
      | Err err => mret (Some (inl ("object_store_list_failed", err)))
      | Ok (keys, next) =>
          d ← delete_page deleted keys;
          match d with
          | Err err => mret (Some (inl ("object_store_delete_failed", err)))
          | Ok deleted =>
              match next with
              | None => mret (Some (inr deleted))
              | Some t => delete_pages fuel' prefix deleted (Some t)
              end
          end
      end
  end.

(** [None] when the pages do not end within [fuel]. *)
Definition HandlePurgeTenantData (fuel : nat) (ctx : Ctx) (r : Request) : M W (option Response) :=
  let tenantID := TrimSpace (Header_Get r "X-Tenant-ID") in
  let pathTenant := TrimSpace (PathValue r "tenantId") in
  if String.eqb tenantID "" || String.eqb pathTenant "" || negb (String.eqb tenantID pathTenant)
  then mret (Some (WriteError 400 "tenant_mismatch" "tenant header and path must match"))
  else
  match decode_confirm (Body r) with
  | None => mret (Some (WriteError 400 "invalid_json" (decode_error (Body r))))
  | Some confirm =>
  if negb (String.eqb (ToUpper (TrimSpace confirm)) "PURGE")
  then mret (Some (WriteError 400 "confirmation_required" "set confirm to PURGE"))
  else
  d ← delete_pages fuel (tenantID +:+ "/") 0 None;
  match d with
  | None => mret None
  | Some (inl (code, err)) => mret (Some (WriteError 500 code (Error err)))
  | Some (inr deletedObjects) =>
  e ← match purger with Some PurgeTenant => PurgeTenant tenantID | None => mret None end;
  match e with
  | Some err => mret (Some (WriteError 500 "vector_purge_failed" (Error err)))
  | None =>
  e ← delete_jobs db tenantID;
  match e with
  | Some err => mret (Some (WriteError 500 "job_purge_failed" (Error err)))
  | None => mret (Some (WriteJSON 200 (JObj [("deletedObjects", int_json deletedObjects);
                                             ("status", JStr "purged"); ("tenantId", JStr tenantID)])))
  end
  end
  end
  end.
End Tenants.

(** ** Uploads (upload.go) *)

Definition replace_backslash (s : string) : string :=
  String.string_of_list_ascii
    ((fun a => if byte_val a =? 92 then "/"%char else a) <$> String.list_ascii_of_string s).
(** [strings.ReplaceAll(s, "//", "/")] *)
Fixpoint replace_slashes (s : string) : string :=
  match s with
  | "" => ""
  | String a s' =>
      match s' with
      | String b s'' =>
          if Ascii.eqb a "/" && Ascii.eqb b "/" then String a (replace_slashes s'')
          else String a (replace_slashes s')
      | "" => s
      end
  end.
(** The loop [for strings.Contains(value, "//")]; every round shortens the value,
    so its length bounds the rounds. *)
Fixpoint collapse_slashes (fuel : nat) (s : string) : string :=
  match fuel with
  | O => s
  | S fuel' => if Contains s "//" then collapse_slashes fuel' (replace_slashes s) else s
  end.
(** [strings.TrimPrefix(s, "/")] *)
Definition trim_slash (s : string) : string := if HasPrefix s "/" then str_drop 1 s else s.

Definition sanitizeRelativePath (raw : string) : string :=
  let value := TrimSpace raw in
  if String.eqb value "" then "file.bin"
  else
    let value := replace_backslash value in
    let value := collapse_slashes (String.length value) value in
    let value := trim_slash value in
    if HasPrefix value "../" || String.eqb value ".." || String.eqb value "." then "file.bin" else value.

(** [None] is a nil pointer. *)
Definition optionalString (value : string) : option string :=
  if String.eqb value "" then None else Some value.

Record upload_file := { uf_Name : string; uf_Size : Z; uf_Type : string; uf_RelativePath : string }.
Definition no_file : upload_file := {| uf_Name := ""; uf_Size := 0; uf_Type := ""; uf_RelativePath := "" |}.
Definition file_fields : list (field upload_file) := [
  str_field "name" (fun f s => {| uf_Name := s; uf_Size := uf_Size f; uf_Type := uf_Type f; uf_RelativePath := uf_RelativePath f |});
  int_field "size" (fun f z => {| uf_Name := uf_Name f; uf_Size := z; uf_Type := uf_Type f; uf_RelativePath := uf_RelativePath f |});
  str_field "type" (fun f s => {| uf_Name := uf_Name f; uf_Size := uf_Size f; uf_Type := s; uf_RelativePath := uf_RelativePath f |});
  str_field "relativePath" (fun f s => {| uf_Name := uf_Name f; uf_Size := uf_Size f; uf_Type := uf_Type f; uf_RelativePath := s |})].
(** A slice of structs: an element is decoded over the one already at its index. *)
Fixpoint set_files (old : list upload_file) (vs : list json) : option (list upload_file) :=
  match vs with
  | [] => Some []
  | v :: vs' =>
      f ← unmarshal true file_fields (default no_file (head old)) v;
      fs ← set_files (tail old) vs';
      Some (f :: fs)
  end.
Definition decode_files (body : string) : option (list upload_file) :=
  DecodeJSON [("files", fun (fs : list upload_file) v =>
    match v with JArr vs => set_files fs vs | JNull => Some [] | _ => None end)] [] body.

(** [t.Format("20060102")] and [t.Format(time.RFC3339)] for a UTC time. *)
Definition Format_day (t : Time) : string :=
  let d := Date t in pad 4 (Year d) +:+ pad 2 (Month d) +:+ pad 2 (Day d).
Definition Format_RFC3339 (t : Time) : string :=
  let d := Date t in
  let c := clock_of t in
  pad 4 (Year d) +:+ "-" +:+ pad 2 (Month d) +:+ "-" +:+ pad 2 (Day d) +:+ "T"
  +:+ pad 2 (c / Hour) +:+ ":" +:+ pad 2 (c / Minute mod 60) +:+ ":" +:+ pad 2 (c / Second mod 60) +:+ "Z".

Section Uploads.
Context `{U : UnicodeTables} {W : Type}.
(** [PresignPutObject]: the URL for a key and an optional content type. *)
Variable presign : string -> option string -> M W (result string).
Variables (UploadBaseURL : string) (PresignTTL MaxObjectBytes : Z).
Variables (now : M W Time) (decode_error : string -> string).

(** The item of one file, or the response that ends the loop. *)
Definition presign_file (tenantID base : string) (file : upload_file) : M W (Response + json) :=
  if uf_Size file <=? 0 then
    mret (inl (WriteError 400 "invalid_file_size" ("file " +:+ Quote (uf_Name file) +:+ " must include size > 0")))
  else if MaxObjectBytes <? uf_Size file then
    mret (inl (WriteError 400 "object_too_large"
      ("file " +:+ Quote (uf_Name file) +:+ " exceeds max size of " +:+ Itoa MaxObjectBytes +:+ " bytes")))
  else
  let rel := sanitizeRelativePath (uf_RelativePath file) in
  let rel := if String.eqb rel "" then sanitizeRelativePath (uf_Name file) else rel in
  t1 ← now;
  let key := tenantID +:+ "/" +:+ Format_day t1 +:+ "/" +:+ rel in
  t2 ← now;
  let expiresAt := t2 + PresignTTL in
  url ← presign key (optionalString (TrimSpace (uf_Type file)));
  match url with
  | Err err => mret (inl (WriteError 500 "presign_failed" (Error err)))
  | Ok url =>
      let uploadURL := if HasPrefix url "https://" && HasPrefix base "http://"
                       then "http://" +:+ str_drop 8 url else url in
      let headers := if negb (String.eqb (TrimSpace (uf_Type file)) "")
                     then [("Content-Type", JStr (uf_Type file))] else [] in
      mret (inr (JObj [
        ("expiresAt", JStr (Format_RFC3339 expiresAt));
        ("expiresInSeconds", int_json (Z.quot PresignTTL Second));
        ("headers", JObj headers); ("maxObjectBytes", int_json MaxObjectBytes);
        ("objectKey", JStr key); ("relativePath", JStr rel); ("uploadUrl", JStr uploadURL)]))
  end.
Fixpoint presign_files (tenantID base : string) (items : list json) (files : list upload_file)
    : M W Response :=
  match files with
  | [] => mret (WriteJSON 200 (JObj [("uploads", JArr items)]))
  | file :: files' =>
      r ← presign_file tenantID base file;
      match r with
      | inl resp => mret resp
      | inr item => presign_files tenantID base (items ++ [item]) files'
      end
  end.
Definition HandlePresign (ctx : Ctx) (r : Request) : M W Response :=
  let tenantID := TrimSpace (Header_Get r "X-Tenant-ID") in
  match decode_files (Body r) with
  | None => mret (WriteError 400 "invalid_json" (decode_error (Body r)))
  | Some [] => mret (WriteError 400 "files_required" "at least one file is required")
  | Some files => presign_files tenantID (trim_right_slashes UploadBaseURL) [] files
  end.
End Uploads.

(** ** Knowledge bases (knowledgebase.go) *)

Definition mapJobStatus `{UnicodeTables} (status : string) : string :=
  let s := ToLower (TrimSpace status) in
  if existsb (String.eqb s) ["approved"; "indexed"] then "ready"
  else if existsb (String.eqb s) ["failed"; "rejected"] then "degraded" else "indexing".

(** A row of the aggregation: source, status, documents, chunks, last submission. *)
Record kb_row := {
  kb_SourceURI : string; kb_Status : string; kb_Documents : Z; kb_Chunks : Z; kb_Last : option Time }.
Record KnowledgeDB (W : Type) := {
  select_knowledge_bases : string -> M W (result (list (result kb_row)));
  (** the count and the two sums, null without jobs *)
  select_vector_stats : string -> M W (result (Z * option Z * option Z)) }.
Arguments select_knowledge_bases {W}.
Arguments select_vector_stats {W}.

Section KnowledgeBases.
Context `{U : UnicodeTables} {W : Type}.
Variables (db : KnowledgeDB W) (rand : M W (Z -> option string)) (now : M W Time).

(** [hashHex] ignores its argument. *)
Definition hashHex (v : string) : M W string :=
  read ← rand; t ← now; mret (RandomString read t 8).

Fixpoint scan_knowledge_bases (out : list json) (rows : list (result kb_row)) : M W Response :=
  match rows with
  | [] => mret (WriteJSON 200 (JArr out))
  | Err err :: _ => mret (WriteError 500 "knowledge_bases_scan_failed" (Error err))
  | Ok row :: rows' =>
      id ← hashHex (kb_SourceURI row);
      let last := match kb_Last row with
                  | Some t => [("lastIngestedAt", JStr (Format_RFC3339 t))]
                  | None => []
                  end in
      scan_knowledge_bases (out ++ [JObj ([
        ("chunkCount", int_json (kb_Chunks row)); ("documentCount", int_json (kb_Documents row));
        ("knowledgeBaseId", JStr id)] ++ last ++ [
        ("name", JStr (kb_SourceURI row)); ("status", JStr (mapJobStatus (kb_Status row)))])]) rows'
  end.
Definition HandleKnowledgeBases (ctx : Ctx) (r : Request) : M W Response :=
  let tenantID := TrimSpace (Header_Get r "X-Tenant-ID") in
  rows ← select_knowledge_bases db tenantID;
  match rows with
  | Err err => mret (WriteError 500 "knowledge_bases_failed" (Error err))
  | Ok rows => scan_knowledge_bases [] rows
  end.
Definition HandleVectorStats (ctx : Ctx) (r : Request) : M W Response :=
  let tenantPath := TrimSpace (PathValue r "tenantId") in
  let tenantHeader := TrimSpace (Header_Get r "X-Tenant-ID") in
  if negb (String.eqb tenantPath tenantHeader)
  then mret (WriteError 403 "tenant_mismatch" "path tenant must match header")
  else
  stats ← select_vector_stats db tenantPath;
  match stats with
  | Err err => mret (WriteError 500 "vector_stats_failed" (Error err))
  | Ok (_, vCount, sBytes) =>
      t ← now;
      mret (WriteJSON 200 (JObj [("storageBytes", int_json (default 0 sBytes));
        ("updatedAt", JStr (Format_RFC3339 t)); ("vectorCount", int_json (default 0 vCount))]))
  end.
End KnowledgeBases.

(** * Facts *)

(** ** Paths *)

(** Induction by one or two bytes, as [replace_slashes] recurses. *)
Lemma str_ind2 (P : string -> Prop) :
  P "" -> (forall a, P (String a "")) ->
  (forall a b s, P s -> P (String b s) -> P (String a (String b s))) -> forall s, P s.
Proof.
  intros H0 H1 H2. enough (K : forall s, P s /\ forall a, P (String a s)) by (intros s; apply K).
  induction s as [|b s [IH1 IH2]]; [by split|]. split; [apply IH2|]. intros a. by apply H2.
Qed.

Definition double_slash (a b : ascii) : bool := Ascii.eqb a "/" && Ascii.eqb b "/".

Lemma Contains_slashes a b s :
  Contains (String a (String b s)) "//" = double_slash a b || Contains (String b s) "//".
Proof.
  change (Contains (String a (String b s)) "//")
    with (String.prefix "//" (String a (String b s)) || Contains (String b s) "//")%bool.
  f_equal. unfold double_slash. cbn [String.prefix].
  destruct (ascii_dec "/" a) as [<-|Ha]; [|by rewrite (proj2 (Ascii.eqb_neq a "/") (not_eq_sym Ha))].
  destruct (ascii_dec "/" b) as [<-|Hb]; [by destruct s|].
  by rewrite (proj2 (Ascii.eqb_neq b "/") (not_eq_sym Hb)).
Qed.

Lemma replace_slashes_step a b s :
  replace_slashes (String a (String b s))
  = if double_slash a b then String a (replace_slashes s) else String a (replace_slashes (String b s)).
Proof. reflexivity. Qed.

(** A round does not lengthen the value, and shortens it when it has work to do. *)
Lemma replace_slashes_length s :
  (String.length (replace_slashes s) <= String.length s)%nat
  /\ (Contains s "//" = true -> (String.length (replace_slashes s) < String.length s)%nat).
Proof.
  induction s as [|a|a b s [IH1 IH1'] [IH2 IH2']] using str_ind2; [by split| |].
  { split; [done|]. cbn [Contains String.prefix]. by destruct (ascii_dec "/" a). }
  rewrite replace_slashes_step, Contains_slashes. destruct (double_slash a b); cbn [String.length orb] in *.
  - split; intros; lia.
  - split; [lia|]. intros H. apply IH2' in H. lia.
Qed.

Lemma collapse_slashes_done fuel : forall s,
  (String.length s <= fuel)%nat -> Contains (collapse_slashes fuel s) "//" = false.
Proof.
  induction fuel as [|fuel IH]; intros s Hs; cbn [collapse_slashes].
  { destruct s; [done|simpl in Hs; lia]. }
  destruct (Contains s "//") eqn:E; [|done]. apply IH. pose proof (replace_slashes_length s) as [_ H].
  specialize (H E). lia.
Qed.

(** The bytes of a value after the loop are bytes it had before. *)
Lemma count_replace_slashes c s : c <> "/"%char -> count_byte c (replace_slashes s) = count_byte c s.
Proof.
  intros Hc. induction s as [|a|a b s IH1 IH2] using str_ind2; [done|done|].
  rewrite replace_slashes_step. destruct (double_slash a b) eqn:E.
  - apply andb_true_iff in E as [->%Ascii.eqb_eq ->%Ascii.eqb_eq]. cbn [count_byte]. rewrite IH1.
    destruct (Ascii.eqb_spec "/" c); [congruence|]. lia.
  - cbn [count_byte] in *. lia.
Qed.
Lemma count_collapse c fuel : forall s, c <> "/"%char -> count_byte c (collapse_slashes fuel s) = count_byte c s.
Proof.
  induction fuel as [|fuel IH]; intros s Hc; cbn [collapse_slashes]; [done|].
  destruct (Contains s "//"); [|done]. by rewrite IH, count_replace_slashes.
Qed.
Lemma count_backslash s : count_byte (byte_of 92) (replace_backslash s) = 0.
Proof.
  unfold replace_backslash. induction s as [|a s IH]; [done|]. simpl String.list_ascii_of_string.
  rewrite fmap_cons. cbn [String.string_of_list_ascii count_byte]. rewrite IH.
  destruct (Z.eqb_spec (byte_val a) 92) as [_|Hne]; [done|].
  destruct (Ascii.eqb_spec a (byte_of 92)) as [->|_]; [|done]. by destruct Hne.
Qed.

Lemma trim_slash_facts s :
  Contains s "//" = false ->
  HasPrefix (trim_slash s) "/" = false /\ Contains (trim_slash s) "//" = false.
Proof.
  unfold trim_slash, HasPrefix. destruct s as [|a s]; [done|]. cbn [String.prefix].
  destruct (ascii_dec "/" a) as [<-|Ha].
  - replace (String.prefix "" s) with true by (by destruct s). cbn [str_drop].
    destruct s as [|b s]; [done|]. rewrite Contains_slashes. intros [H1 H2]%orb_false_iff. split; [|done].
    cbn [String.prefix]. destruct (ascii_dec "/" b) as [<-|]; [|done]. done.
  - intros H. split; [|done]. cbn [String.prefix]. by destruct (ascii_dec "/" a).
Qed.
Lemma count_trim_slash c s : count_byte c s = 0 -> count_byte c (trim_slash s) = 0.
Proof.
  unfold trim_slash. destruct (HasPrefix s "/"); [|done]. destruct s as [|a s]; [done|].
  cbn [str_drop count_byte]. destruct (Ascii.eqb a c); [|done].
  assert (0 <= count_byte c s) by (clear; induction s; simpl; [|case_match]; lia). lia.
Qed.

(** What every relative path of an object key satisfies. *)
Definition safe_path (p : string) : Prop :=
  HasPrefix p "/" = false /\ HasPrefix p "../" = false /\ p <> "." /\ p <> ".."
  /\ Contains p "//" = false /\ count_byte (byte_of 92) p = 0.

Lemma sanitize_safe raw : safe_path (sanitizeRelativePath raw).
Proof.
  unfold sanitizeRelativePath. cbn zeta. destruct (String.eqb (TrimSpace raw) ""); [by vm_compute|].
  set (v := replace_backslash (TrimSpace raw)).
  destruct (trim_slash_facts (collapse_slashes (String.length v) v)) as [H1 H2];
    [by apply collapse_slashes_done|].
  assert (H3 : count_byte (byte_of 92) (trim_slash (collapse_slashes (String.length v) v)) = 0).
  { apply count_trim_slash. rewrite count_collapse by done. apply count_backslash. }
  set (w := trim_slash _) in *. destruct (HasPrefix w "../") eqn:E1; [by vm_compute|].
  destruct (String.eqb_spec w "..") as [|N1]; [by vm_compute|].
  destruct (String.eqb_spec w ".") as [|N2]; [by vm_compute|]. by split_and!.
Qed.

(** A member of an object. *)
Definition json_get (v : json) (k : string) : option json :=
  match v with JObj fs => snd <$> List.find (fun kv => String.eqb kv.1 k) fs | _ => None end.

(** The item of a file: its key is under the prefix of the tenant, and the file is
    within the limit. *)
Definition item_for (tenant : string) (max : Z) (f : upload_file) (item : json) : Prop :=
  0 < uf_Size f <= max /\ exists t rel, safe_path rel
    /\ json_get item "relativePath" = Some (JStr rel)
    /\ json_get item "objectKey" = Some (JStr (tenant +:+ "/" +:+ Format_day t +:+ "/" +:+ rel)).

Section UploadFacts.
Context `{U : UnicodeTables} {W : Type} (presign : string -> option string -> M W (result string)).
Context (UploadBaseURL : string) (PresignTTL MaxObjectBytes : Z) (now : M W Time) (decode_error : string -> string).

Lemma presign_file_cases tenant base f w :
  let '(r, _) := presign_file presign PresignTTL MaxObjectBytes now tenant base f w in
  match r with
  | inl resp => rs_Status resp <> 200
  | inr item => item_for tenant MaxObjectBytes f item
  end.
Proof.
  unfold presign_file. run_M. destruct (Z.leb_spec (uf_Size f) 0); [done|].
  destruct (Z.ltb_spec MaxObjectBytes (uf_Size f)); [done|]. cbn zeta.
  set (rel := if String.eqb (sanitizeRelativePath (uf_RelativePath f)) "" then _ else _).
  destruct (now w) as [t1 w1]. destruct (now w1) as [t2 w2].
  destruct (presign _ _ w2) as [[url|err] w3]; [|done]. split; [lia|]. exists t1, rel.
  split_and!; [|reflexivity..]. unfold rel. case_match; apply sanitize_safe.
Qed.

Lemma presign_files_cases tenant base files : forall done_files items w,
  Forall2 (item_for tenant MaxObjectBytes) done_files items ->
  let '(resp, _) := presign_files presign PresignTTL MaxObjectBytes now tenant base items files w in
  rs_Status resp = 200 -> exists all, rs_Body resp = Some (JObj [("uploads", JArr all)])
    /\ Forall2 (item_for tenant MaxObjectBytes) (done_files ++ files) all.
Proof.
  induction files as [|f files IH]; intros dn items w Hi; cbn [presign_files].
  { intros _. exists items. by rewrite app_nil_r. }
  run_M. pose proof (presign_file_cases tenant base f w) as Hf.
  destruct (presign_file _ _ _ _ tenant base f w) as [[resp|item] w1]; [done|].
  specialize (IH (dn ++ [f]) (items ++ [item]) w1).
  rewrite <- app_assoc in IH. apply IH. apply Forall2_app; [done|]. by constructor.
Qed.

(** uploads stay under the tenant.  When [HandlePresign] answers 200 it returns
    one item per requested file, in order; every file is non-empty and within
    [MaxObjectBytes], and its object key is the tenant of the request, the day
    and a relative path that does not start with a slash or with [../], is not
    [.] or [..] and has no empty component and no backslash, whatever path or
    name the client sent. *)
Theorem presign_keys_scoped ctx r w :
  let '(resp, _) :=
    HandlePresign presign UploadBaseURL PresignTTL MaxObjectBytes now decode_error ctx r w in
  rs_Status resp = 200 ->
  exists files items, decode_files (Body r) = Some files /\ files <> []
    /\ rs_Body resp = Some (JObj [("uploads", JArr items)])
    /\ Forall2 (item_for (TrimSpace (Header_Get r "X-Tenant-ID")) MaxObjectBytes) files items.
Proof.
  unfold HandlePresign. cbn zeta. destruct (decode_files (Body r)) as [[|f files]|]; [done| |done].
  pose proof (presign_files_cases (TrimSpace (Header_Get r "X-Tenant-ID")) (trim_right_slashes UploadBaseURL)
    (f :: files) [] [] w (List.Forall2_nil _)) as H.
  destruct (presign_files _ _ _ _ _ _ [] (f :: files) w) as [resp w']. intros Hs.
  destruct (H Hs) as (all & Hb & Hall). by exists (f :: files), all.
Qed.
End UploadFacts.

(** ** Purging *)

(** What the object store and the job table promise, on views of the keys, of the
    vectors and of the jobs by tenant.  Pages follow each other
    by their tokens: [after tok k] holds when [k] comes after the page that
    returned [tok].  A failed deletion may or may not have happened. *)
Class PurgeLaws {W Token} (store : ObjectStore W Token) (db : TenantDB W)
    (objects : W -> gset string) (vectors : W -> string * string -> Prop) (jobs : W -> gset (string * string))
    (after : option Token -> string -> bool) : Prop := {
  pg_first k : after None k = true;
  pg_list p tok w :
    let '(r, w') := list_page store p tok w in
    objects w' = objects w /\ vectors w' = vectors w /\ jobs w' = jobs w
    /\ forall keys next, r = Ok (keys, next) ->
       (forall k, Some k ∈ keys -> k ∈ objects w /\ HasPrefix k p = true)
       /\ (forall k, k ∈ objects w -> HasPrefix k p = true -> after tok k = true ->
             Some k ∈ keys \/ exists t, next = Some t /\ after (Some t) k = true)
       /\ (forall t, next = Some t ->
             (forall k, after (Some t) k = true -> after tok k = true)
             /\ exists k, k ∈ objects w /\ after tok k = true /\ after (Some t) k = false);
  pg_delete k w :
    let '(e, w') := delete_object store k w in
    vectors w' = vectors w /\ jobs w' = jobs w
    /\ (objects w' = objects w ∖ {[k]} \/ (e <> None /\ objects w' = objects w));
  pg_jobs t w :
    let '(e, w') := delete_jobs db t w in
    objects w' = objects w /\ vectors w' = vectors w
    /\ (forall x, x.1 <> t -> x ∈ jobs w' <-> x ∈ jobs w)
    /\ (e = None -> forall x, x ∈ jobs w' -> x.1 <> t) }.

(** What the vector index does when a tenant is purged, for the identifiers it [accepts]:
    the vectors of the tenant [removes t], and no others, can be gone, and all of them are
    when it succeeds.  Below, [removes t] is [t] for the stub, and the identifier that the
    filter of the Milvus adapter selects. *)
Class IndexPurge {W} (PurgeTenant : string -> M W (option error)) (objects : W -> gset string)
    (vectors : W -> string * string -> Prop) (jobs : W -> gset (string * string))
    (accepts : string -> bool) (removes : string -> string) : Prop := {
  ip_frame t w : objects (PurgeTenant t w).2 = objects w /\ jobs (PurgeTenant t w).2 = jobs w;
  ip_purge t w : accepts t = true ->
    let '(e, w') := PurgeTenant t w in
    (forall x, vectors w' x -> vectors w x)
    /\ (forall x, x.1 <> removes t -> vectors w x -> vectors w' x)
    /\ (e = None -> forall x, vectors w' x -> x.1 <> removes t) }.

Lemma prefix_split p : forall s, HasPrefix s p = true -> exists rest, s = p +:+ rest.
Proof.
  unfold HasPrefix. induction p as [|a p IH]; intros s H; [by exists s|]. destruct s as [|b s]; [done|].
  cbn [String.prefix] in H. destruct (ascii_dec a b) as [->|]; [|done].
  destruct (IH s H) as [rest ->]. exists rest. by rewrite app_cons.
Qed.

(** A key under the prefix of a tenant is not blank. *)
Lemma prefix_not_blank t k : HasPrefix k (t +:+ "/") = true -> String.eqb (TrimSpace k) "" = false.
Proof.
  intros [rest ->]%prefix_split. apply String.eqb_neq. intros E%blank_glyphs.
  autorewrite with str in E. rewrite glyphs_app, Forall_app in E by done.
  destruct E as [_ E]. rewrite glyphs_unfold in E by done. by apply Forall_cons in E as [E _].
Qed.

(** Two prefixes without further slashes that one key has are the same. *)
Lemma prefix_unique t1 : forall t2 k, Contains t2 "/" = false -> Contains t1 "/" = false ->
  HasPrefix k (t2 +:+ "/") = true -> HasPrefix k (t1 +:+ "/") = true -> t1 = t2.
Proof.
  unfold HasPrefix. induction t1 as [|a t1 IH]; intros [|b t2] [|c k] H2 H1 P2 P1; try done;
    rewrite ?app_cons in P1; rewrite ?app_cons in P2; cbn [String.prefix] in P1, P2;
    cbn [Contains] in H1, H2; rewrite ?orb_false_iff in H1; rewrite ?orb_false_iff in H2.
  - exfalso. destruct (ascii_dec b c) as [->|]; [|done]. change ("" +:+ "/") with "/" in P1. cbn [String.prefix] in P1, H2.
    destruct (ascii_dec "/" c) as [<-|]; [|done]. by destruct H2, t2.
  - exfalso. destruct (ascii_dec a c) as [->|]; [|done]. change ("" +:+ "/") with "/" in P2. cbn [String.prefix] in P2, H1.
    destruct (ascii_dec "/" c) as [<-|]; [|done]. by destruct H1, t1.
  - destruct (ascii_dec a c) as [->|]; [|done]. destruct (ascii_dec b c) as [->|]; [|done]. f_equal.
    destruct H1, H2. by apply (IH t2 k).
Qed.

Section Purge.
Context `{U : UnicodeTables} {W Token : Type} (store : ObjectStore W Token) (db : TenantDB W).
Context (PurgeTenant : string -> M W (option error)) (objects : W -> gset string).
Context (vectors : W -> string * string -> Prop) (jobs : W -> gset (string * string)) (after : option Token -> string -> bool).
Context (accepts : string -> bool) (removes : string -> string).
Context `{L : !PurgeLaws store db objects vectors jobs after}.
Context `{LI : !IndexPurge PurgeTenant objects vectors jobs accepts removes}.

(** Deleting only keys of a prefix. *)
Definition deletes_only (p : string) (w w' : W) : Prop :=
  vectors w' = vectors w /\ jobs w' = jobs w /\ objects w' ⊆ objects w
  /\ forall k, k ∈ objects w -> HasPrefix k p = false -> k ∈ objects w'.

Lemma deletes_only_refl p w : deletes_only p w w.
Proof. by repeat split. Qed.
Lemma deletes_only_trans p w1 w2 w3 : deletes_only p w1 w2 -> deletes_only p w2 w3 -> deletes_only p w1 w3.
Proof. unfold deletes_only. intros (-> & -> & H1 & H2) (-> & -> & H3 & H4). split_and!; [done|done|set_solver|auto]. Qed.

#[local] Hint Resolve deletes_only_refl deletes_only_trans : go.

Lemma delete_page_spec p keys : forall d w,
  (forall k, Some k ∈ keys -> HasPrefix k p = true /\ String.eqb (TrimSpace k) "" = false) ->
  let '(r, w') := delete_page store d keys w in
  deletes_only p w w' /\ forall n, r = Ok n -> forall k, Some k ∈ keys -> k ∉ objects w'.
Proof.
  induction keys as [|[key|] keys IH]; intros d w Hk; cbn [delete_page].
  - split; [auto with go|set_solver].
  - destruct (Hk key ltac:(constructor)) as [Hp Hb]. rewrite Hb. run_M.
    pose proof (pg_delete key w) as Hd. destruct (delete_object store key w) as [e w1].
    destruct Hd as (Hv & Hj & Ho).
    assert (D : deletes_only p w w1).
    { split_and!; [done|done|destruct Ho as [->|[_ ->]]; set_solver|]. intros k Hin Hn.
      destruct Ho as [->|[_ ->]]; [|done]. apply elem_of_difference. split; [done|].
      rewrite elem_of_singleton. intros ->. congruence. }
    destruct e as [err|]; [split; [done|by intros]|].
    assert (Ho' : objects w1 = objects w ∖ {[key]}) by (by destruct Ho as [|[]]).
    specialize (IH (d + 1) w1). destruct (delete_page store (d + 1) keys w1) as [r w'].
    destruct IH as [D2 Hall]; [intros k Hin; apply Hk; by constructor|].
    split; [eauto with go|]. intros n Hn k [[= ->]|Hin]%elem_of_cons; [|by eapply Hall].
    destruct D2 as (_ & _ & Hsub & _). set_solver.
  - specialize (IH d w). destruct (delete_page store d keys w) as [r w'].
    destruct IH as [D Hall]; [intros k Hin; apply Hk; by constructor|].
    split; [done|]. intros n Hn k [[=]|Hin]%elem_of_cons. by eapply Hall.
Qed.

(** The keys the pages have not reached yet. *)
Definition remaining (tok : option Token) (w : W) : nat :=
  size (filter (fun k => after tok k = true) (objects w)).

Lemma delete_pages_spec p fuel :
  (forall k, HasPrefix k p = true -> String.eqb (TrimSpace k) "" = false) ->
  forall d tok w, (remaining tok w < fuel)%nat ->
  let '(r, w') := delete_pages store fuel p d tok w in
  deletes_only p w w' /\ exists out, r = Some out
    /\ forall n, out = inr n -> forall k, k ∈ objects w -> HasPrefix k p = true -> after tok k = true ->
       k ∉ objects w'.
Proof.
  intros Hblank. induction fuel as [|fuel IH]; intros d tok w Hf; [lia|]. cbn [delete_pages].
  run_M. pose proof (pg_list p tok w) as Hl.
  destruct (list_page store p tok w) as [[[keys next]|err] w1]; destruct Hl as (Ho & Hv & Hj & Hpage).
  2:{ split; [by repeat split; rewrite ?Ho|]. eexists. split; [done|]. by intros. }
  destruct (Hpage _ _ eq_refl) as (Hin & Hcover & Hnext). clear Hpage.
  pose proof (delete_page_spec p keys d w1) as Hd. destruct (delete_page store d keys w1) as [rd w2].
  destruct Hd as [D Hgone]; [intros k Hk; destruct (Hin k Hk); auto|].
  assert (D0 : deletes_only p w w2) by (unfold deletes_only in *; by rewrite <- Hv, <- Hj, <- Ho).
  destruct rd as [d'|err]; [|split; [done|]; eexists; split; [done|]; by intros].
  destruct next as [t|].
  2:{ split; [done|]. eexists. split; [done|]. intros n _ k Hk Hp Ha.
      destruct (Hcover k Hk Hp Ha) as [Hk'|(t & [=] & _)]. by eapply Hgone. }
  destruct (Hnext t eq_refl) as (Hmono & k0 & Hk0 & Ha0 & Hn0).
  assert (Hlt : (remaining (Some t) w2 < fuel)%nat).
  { enough (remaining (Some t) w2 < remaining tok w)%nat by lia. apply subset_size. split.
    - intros k. rewrite !elem_of_filter. intros [Hk1 Hk2]. split; [auto|]. destruct D0 as (_ & _ & Hs & _). auto.
    - intros Hs. specialize (Hs k0). rewrite !elem_of_filter in Hs. destruct Hs as [Hs _]; [done|]. congruence. }
  specialize (IH d' (Some t) w2 Hlt). destruct (delete_pages store fuel p d' (Some t) w2) as [r w'].
  destruct IH as (D2 & out & -> & Hout). split; [eauto with go|]. exists out. split; [done|].
  intros n Hn k Hk Hp Ha. destruct (decide (k ∈ objects w2)) as [Hk2|Hk2].
  - destruct (Hcover k Hk Hp Ha) as [Hk'|(t' & [= <-] & Ha')]; [by apply (Hgone _ eq_refl) in Hk'|].
    by eapply Hout.
  - destruct D2 as (_ & _ & Hs & _). set_solver.
Qed.

(** C15: a purge is complete, confined and ends.  Over an object store whose pages advance,
    [HandlePurgeTenantData] always answers, after at most one page per stored object.
    Whatever it answers, nothing is added to the store, and no object outside the prefix
    made of the identifier of the request and a slash is lost; so no object of another
    tenant is, if neither identifier contains a slash.  No job of another tenant is lost,
    and no vector of a tenant other than the one whose vectors the index removes for this
    identifier.  If it answers 200, no object under the prefix, no job of the tenant and no
    vector of the tenant the index removes is left.  That tenant is the tenant of the
    request for the stub index, and for Milvus if the identifier has no quote and no
    backslash (the instances below; a purge of any other identifier leaves its vectors in
    Milvus). *)
Theorem purge_complete decode_error fuel ctx r w :
  (size (objects w) < fuel)%nat ->
  let tenant := TrimSpace (Header_Get r "X-Tenant-ID") in
  exists resp w', HandlePurgeTenantData db store (Some PurgeTenant) decode_error fuel ctx r w = (Some resp, w')
    /\ objects w' ⊆ objects w
    /\ (forall k, k ∈ objects w -> HasPrefix k (tenant +:+ "/") = false -> k ∈ objects w')
    /\ (forall other k, other <> tenant -> Contains tenant "/" = false -> Contains other "/" = false ->
          k ∈ objects w -> HasPrefix k (other +:+ "/") = true -> k ∈ objects w')
    /\ (forall x, x.1 <> tenant -> x ∈ jobs w' <-> x ∈ jobs w)
    /\ (accepts tenant = true ->
          (forall x, vectors w' x -> vectors w x) /\ forall x, x.1 <> removes tenant -> vectors w x -> vectors w' x)
    /\ (rs_Status resp = 200 ->
        (forall k, k ∈ objects w' -> HasPrefix k (tenant +:+ "/") = false)
        /\ (forall x, x ∈ jobs w' -> x.1 <> tenant)
        /\ (accepts tenant = true -> forall x, vectors w' x -> x.1 <> removes tenant)).
Proof.
  intros Hfuel tenant.
  enough (H : exists resp w', HandlePurgeTenantData db store (Some PurgeTenant) decode_error fuel ctx r w = (Some resp, w')
    /\ objects w' ⊆ objects w /\ (forall k, k ∈ objects w -> HasPrefix k (tenant +:+ "/") = false -> k ∈ objects w')
    /\ (forall x, x.1 <> tenant -> x ∈ jobs w' <-> x ∈ jobs w)
    /\ (accepts tenant = true ->
          (forall x, vectors w' x -> vectors w x) /\ forall x, x.1 <> removes tenant -> vectors w x -> vectors w' x)
    /\ (rs_Status resp = 200 -> (forall k, k ∈ objects w' -> HasPrefix k (tenant +:+ "/") = false)
        /\ (forall x, x ∈ jobs w' -> x.1 <> tenant)
        /\ (accepts tenant = true -> forall x, vectors w' x -> x.1 <> removes tenant))).
  { destruct H as (resp & w' & H1 & H2 & H3 & H4 & H5 & H6). exists resp, w'. split_and!; try done.
    intros other k Hne Ht Ho Hk Hp. apply H3; [done|]. destruct (HasPrefix k (tenant +:+ "/")) eqn:E; [|done].
    exfalso. by apply Hne, (prefix_unique other tenant k). }
  unfold HandlePurgeTenantData. cbn zeta. fold tenant. run_M.
  destruct (_ || _ || _); [by eexists _, w|].
  destruct (decode_confirm (Body r)) as [confirm|]; [|by eexists _, w].
  destruct (negb _); [by eexists _, w|].
  pose proof (delete_pages_spec (tenant +:+ "/") fuel (prefix_not_blank tenant) 0 None w) as Hd.
  destruct (delete_pages store fuel (tenant +:+ "/") 0 None w) as [rd w1].
  destruct Hd as ((Hv & Hj & Hsub & Hkeep) & out & -> & Hgone).
  { eapply Nat.le_lt_trans; [|exact Hfuel]. apply subseteq_size. intros k. rewrite elem_of_filter. tauto. }
  destruct out as [[code err]|n]; [by eexists _, w1; rewrite Hv, Hj|].
  pose proof (ip_frame tenant w1) as [Ho2 Hj2]. pose proof (ip_purge tenant w1) as Hp.
  destruct (PurgeTenant tenant w1) as [e w2]. cbn [snd] in Ho2, Hj2. rewrite Hv in Hp.
  destruct e as [err|].
  { eexists _, w2. rewrite Ho2, Hj2, Hj. split_and!; try done. intros Ha. destruct (Hp Ha) as (? & ? & _). by split. }
  pose proof (pg_jobs tenant w2) as Hpj. destruct (delete_jobs db tenant w2) as [e w3].
  destruct Hpj as (Ho3 & Hv3 & Hj3 & Hjg). rewrite Hj2, Hj in Hj3.
  assert (Hgone' : forall k, k ∈ objects w1 -> HasPrefix k (tenant +:+ "/") = false).
  { intros k Hk. destruct (HasPrefix k (tenant +:+ "/")) eqn:Hpre; [|done].
    exfalso. apply (Hgone n eq_refl k); auto. apply pg_first. }
  destruct e as [err|]; eexists _, w3; rewrite Ho3, Ho2, Hv3; split_and!; try done;
    try (intros Ha; destruct (Hp Ha) as (? & ? & _); by split).
  intros _. split_and!; [done|by apply Hjg|]. intros Ha. destruct (Hp Ha) as (_ & _ & Hg). by apply Hg.
Qed.
End Purge.

(** *** The two indexes of the backend *)

Definition on_fst {I W A} (m : M I A) : M (I * W) A := fun s => let '(a, i) := m s.1 in (a, (i, s.2)).

Section Indexes.
Context `{U : UnicodeTables} {W : Type} (objects : W -> gset string) (jobs : W -> gset (string * string)).

(** The stub: the records it keeps under the tenant. *)
Definition stub_vectors (s : VectorStub.Adapter * W) (x : string * string) : Prop :=
  exists rec, rec ∈ VectorStub.records_of s.1 x.1 /\ vr_RecordID rec = x.2.
#[export] Instance stub_index : IndexPurge (fun t => on_fst (VectorStub.PurgeTenant t)) (fun s => objects s.2) stub_vectors
  (fun s => jobs s.2) (fun _ => true) id.
Proof.
  split.
  - intros t [a w]. unfold on_fst, VectorStub.PurgeTenant. by destruct (TenantID_Validate t).
  - intros t [a w] _. unfold on_fst, VectorStub.PurgeTenant, stub_vectors, VectorStub.records_of. cbn [fst snd id].
    destruct (TenantID_Validate t); [done|]. cbn [fst VectorStub.store]. split_and!.
    + intros x (rec & Hr & Hx). destruct (decide (x.1 = t)) as [E|]; [rewrite E, lookup_delete_eq in Hr; by apply elem_of_nil in Hr|].
      rewrite lookup_delete_ne in Hr by done. by exists rec.
    + intros x Hne (rec & Hr & Hx). exists rec. by rewrite lookup_delete_ne by done.
    + intros _ x (rec & Hr & Hx) E. rewrite E, lookup_delete_eq in Hr. by apply elem_of_nil in Hr.
Qed.

(** Milvus: the rows with the tenant in their tenant column; the filter selects the
    identifier with its quotes and backslashes escaped, which is the identifier when it
    has none. *)
Context {WM : Type} (mcfg : Milvus.Config) (cli : Milvus.Client WM) (mnow : M WM Time) (rows : WM -> gmap string row).
Context `{LM : !MilvusLaws cli mnow (Collection mcfg) rows, LF : !FilteredDelete cli (Collection mcfg) rows}.
Definition milvus_vectors (s : Milvus.Adapter WM * W) (x : string * string) : Prop :=
  exists r, rows (Milvus.world s.1) !! x.2 = Some r /\ rw_tenant r = x.1.
#[export] Instance milvus_index ctx : IndexPurge (fun t => on_fst (Milvus.PurgeTenant mcfg cli mnow ctx t)) (fun s => objects s.2)
  milvus_vectors (fun s => jobs s.2) printable escapeExprString.
Proof.
  split.
  - intros t [a w]. unfold on_fst. cbn. by destruct (Milvus.PurgeTenant mcfg cli mnow ctx t a).
  - intros t [a w] Hp. unfold on_fst. cbn [fst snd]. pose proof (purge_bounds mcfg cli mnow rows ctx t a Hp) as [Hs Hk].
    destruct (Milvus.PurgeTenant mcfg cli mnow ctx t a) as [e a'] eqn:E. cbn [snd] in Hs, Hk.
    unfold milvus_vectors. cbn [fst]. split_and!.
    + intros x (r & Hr & Hx). exists r. split; [by eapply lookup_weaken|done].
    + intros x Hne (r & Hr & Hx). exists r. split; [|done]. apply Hk; [done|congruence].
    + intros -> x (r & Hr & Hx). apply (purge_rows mcfg cli mnow rows ctx t a a' Hp) in E. rewrite E in Hr.
      apply map_lookup_filter_Some in Hr as [_ Hr]. cbn in Hr. congruence.
Qed.
End Indexes.

(** ** Creating tenants *)

Class CreateLaws {W} (db : TenantDB W) (registry : Postgres W) (now : M W Time) (tz : Time -> Time)
    (tenants : W -> gmap string TenantRecord) (assigned : W -> gset (Z * string)) : Prop := {
  cl_now w : tenants (now w).2 = tenants w /\ assigned (now w).2 = assigned w;
  cl_upsert t w :
    let '(e, w') := upsert_tenant registry t w in
    assigned w' = assigned w
    /\ (e = None -> tenants w' = <[tr_TenantID t := tenant_row tz t]> (tenants w));
  cl_assign uid t w :
    let '(e, w') := assign_user_tenant db uid t w in
    tenants w' = tenants w /\ (e = None -> assigned w' = {[ (uid, t) ]} ∪ assigned w) }.

Section Create.
Context {W : Type} (db : TenantDB W) (registry : Postgres W) (now : M W Time) (decode_error : string -> string).
Context (tz : Time -> Time) (tenants : W -> gmap string TenantRecord) (assigned : W -> gset (Z * string)).
Context `{L : !CreateLaws db registry now tz tenants assigned}.

(** creating a tenant.  When [HandleCreateTenant] answers 201, the caller (the
    user of the token) has been assigned to exactly the tenant named in the
    request, trimmed and not blank, and the registry holds an active record of
    that tenant with the display name and plan of the request; all other
    assignments and records are as before.  Nothing depends on whether the
    tenant existed or to whom it was assigned. *)
Theorem create_tenant_effect ctx r w resp w' :
  HandleCreateTenant db registry now decode_error ctx r w = (resp, w') -> rs_Status resp = 201 ->
  exists uid req t, UserIDFromContext ctx = Some uid /\ decode_tenant (Body r) = Some req
    /\ let tenant := TrimSpace (tq_TenantID req) in
       let record := {| tr_TenantID := tenant; tr_DisplayName := TrimSpace (tq_DisplayName req);
                        tr_PlanTier := if String.eqb (TrimSpace (tq_PlanTier req)) "" then "starter"
                                       else tq_PlanTier req;
                        tr_Active := true; tr_UpdatedAt := tz t |} in
       tenant <> "" /\ assigned w' = {[ (uid, tenant) ]} ∪ assigned w
       /\ tenants w' = <[tenant := record]> (tenants w).
Proof.
  unfold HandleCreateTenant. run_M. intros H Hs.
  destruct (UserIDFromContext ctx) as [uid|]; [|by injection H as <- _].
  destruct (decode_tenant (Body r)) as [req|]; [|by injection H as <- _]. cbn zeta in H.
  destruct (_ || _) eqn:Hb in H; [by injection H as <- _|]. apply orb_false_iff in Hb as [Hb _].
  apply String.eqb_neq in Hb. destruct (WithTenantContext _ _) as [tctx|]; [|by injection H as <- _].
  pose proof (cl_now w) as [Hn1 Hn2]. destruct (now w) as [t w1]. cbn [fst snd] in *.
  unfold TenantRegistry_Upsert, mret, M_ret in H.
  destruct (TenantRecord_Validate _) in H; [by injection H as <- _|].
  destruct (GuardWriteScope _ _) in H; [by injection H as <- _|].
  match type of H with context [upsert_tenant registry ?x w1] =>
    pose proof (cl_upsert x w1) as Hu; destruct (upsert_tenant registry x w1) as [[|] w2] end;
    [by injection H as <- _|]. destruct Hu as [Hu1 Hu2].
  match type of H with context [assign_user_tenant db uid ?x w2] =>
    pose proof (cl_assign uid x w2) as Ha; destruct (assign_user_tenant db uid x w2) as [[|] w3] end;
    [by injection H as <- _|]. destruct Ha as [Ha1 Ha2]. injection H as <- <-.
  exists uid, req, t. split; [done|]. split; [done|]. cbn zeta. split; [done|].
  rewrite (Ha2 eq_refl), Hu1, Hn2, Ha1, (Hu2 eq_refl), Hn1. done.
Qed.
End Create.

(** ** Concrete collaborators *)

Definition sample_tenant_db : TenantDB (gmap string TenantRecord * gset (Z * string)) := {|
  select_user_tenants _ := mret (Ok []);
  assign_user_tenant uid t := fun w => (None, (w.1, {[ (uid, t) ]} ∪ w.2));
  delete_jobs _ := mret None |}.
Definition sample_tenant_registry : Postgres (gmap string TenantRecord * gset (Z * string)) := {|
  upsert_tenant t := fun w => (None, (<[tr_TenantID t := tenant_row micros t]> w.1, w.2));
  select_tenant _ := mret (Ok None);
  upsert_metadata _ := mret None;
  select_metadata _ _ := mret (Ok None) |}.
Definition sample_clock {W} : M W Time := mret (unix_time 200 0).
#[global] Instance sample_create_laws :
  CreateLaws sample_tenant_db sample_tenant_registry sample_clock micros fst snd.
Proof. by split. Qed.

Definition sample_body : string :=
  "{" +:+ dq +:+ "tenantId" +:+ dq +:+ ":" +:+ dq +:+ "acme" +:+ dq +:+ ","
  +:+ dq +:+ "displayName" +:+ dq +:+ ":" +:+ dq +:+ "Mine" +:+ dq +:+ "}".
Definition body_request (headers : list (string * list string)) (body : string) : Request := {|
  Method := "POST"; URLPath := "/"; Header := list_to_map headers; PathValue _ := "acme"; Body := body |}.
Definition user_ctx (uid : Z) : Ctx := WithValue Background UserIDKey (CtxInt64 uid).

Lemma create_tenant_effect_witness :
  (8, "acme") ∈ (HandleCreateTenant sample_tenant_db sample_tenant_registry sample_clock (fun _ => "")
                   (user_ctx 8) (body_request [] sample_body) (∅, {[ (7, "acme") ]})).2.2.
Proof.
  destruct (HandleCreateTenant sample_tenant_db sample_tenant_registry sample_clock (fun _ => "")
    (user_ctx 8) (body_request [] sample_body) (∅, {[ (7, "acme") ]})) as [resp w'] eqn:E.
  assert (Hs : rs_Status resp = 201) by (vm_compute in E; injection E as <- _; reflexivity).
  destruct (create_tenant_effect sample_tenant_db sample_tenant_registry sample_clock (fun _ => "") micros fst snd
    (user_ctx 8) (body_request [] sample_body) (∅, {[ (7, "acme") ]}) resp w' E Hs)
    as (uid & req & t & Hu & Hr & _ & Ha & _).
  injection Hu as <-. vm_compute in Hr. injection Hr as <-. cbn [snd]. rewrite Ha. apply elem_of_union_l.
  apply elem_of_singleton. vm_compute. reflexivity.
Defined.

(** a tenant can be taken over.  The registry holds a tenant that is assigned
    to one user only; another user sends a request to create a tenant of the same
    identifier, is answered 201, and is from then on assigned to the tenant, whose
    record it has replaced. *)
Theorem tenant_takeover :
  let victim := {| tr_TenantID := "acme"; tr_DisplayName := "Acme"; tr_PlanTier := "gold";
                   tr_Active := true; tr_UpdatedAt := 1 |} in
  let '(resp, w') :=
    HandleCreateTenant sample_tenant_db sample_tenant_registry sample_clock (fun _ => "")
      (user_ctx 8) (body_request [] sample_body) ({[ "acme" := victim ]}, {[ (7, "acme") ]}) in
  rs_Status resp = 201 /\ bool_decide ((8, "acme") ∈ w'.2) = true
  /\ (tr_DisplayName <$> w'.1 !! "acme") = Some "Mine".
Proof. vm_compute. auto. Qed.

(** A store that lists everything on one page, next to an index. *)
Record pworld := { pw_objects : gset string; pw_jobs : gset (string * string) }.
Section SamplePurge.
Context {I : Type}.
Definition sample_store : ObjectStore (I * pworld) unit := {|
  list_page p _ := on_snd (fun w =>
    (Ok (Some <$> elements (filter (fun k => HasPrefix k p = true) (pw_objects w)), None), w));
  delete_object k := on_snd (fun w => (None, {| pw_objects := pw_objects w ∖ {[k]}; pw_jobs := pw_jobs w |})) |}.
Definition sample_purge_db : TenantDB (I * pworld) := {|
  select_user_tenants _ := mret (Ok []);
  assign_user_tenant _ _ := mret None;
  delete_jobs t := on_snd (fun w =>
    (None, {| pw_objects := pw_objects w; pw_jobs := filter (fun x => x.1 <> t) (pw_jobs w) |})) |}.
#[local] Instance sample_purge_laws (vectors : I * pworld -> string * string -> Prop) :
  (forall i w w', vectors (i, w) = vectors (i, w')) ->
  PurgeLaws sample_store sample_purge_db (fun s => pw_objects s.2) vectors (fun s => pw_jobs s.2) (fun _ _ => true).
Proof.
  intros Hv. split; [done| | |].
  - intros p tok [i w]. cbn. split_and!; try done. intros keys next [= <- <-]. split_and!; try done.
    + intros k (k' & [= ->] & Hk)%list_elem_of_fmap. apply elem_of_elements, elem_of_filter in Hk. tauto.
    + intros k Hk Hp _. left. apply list_elem_of_fmap. exists k. split; [done|].
      by apply elem_of_elements, elem_of_filter.
  - intros k [i w]. cbn. split_and!; try done. by left.
  - intros t [i w]. cbn. split_and!; try done; intros; set_solver.
Qed.
End SamplePurge.

#[local] Existing Instance latin1.

Definition sample_record (id tenant : string) : VectorRecord := {|
  vr_RecordID := id; vr_TenantID := tenant; vr_JobID := "j"; vr_ChunkText := "x"; vr_Embedding := []; vr_Metadata := ∅;
  vr_IndexedAt := Hour; vr_SourceURI := "s"; vr_ObjectKey := "o"; vr_Checksum := "c"; vr_RetryCount := 0 |}.
Definition sample_stub : VectorStub.Adapter := {|
  VectorStub.store := {[ "acme" := [sample_record "v1" "acme"]; "globex" := [sample_record "v2" "globex"] ]};
  VectorStub.lastTrace := VectorStub.zeroTrace |}.

(** With the index of the stub. *)
Lemma purge_complete_witness :
  let s := (sample_stub, {| pw_objects := {[ "acme/20240101/a.txt"; "globex/b.txt" ]}; pw_jobs := {[ ("acme", "j1") ]} |}) in
  let r := body_request [("X-Tenant-Id", ["acme"])]
             ("{" +:+ dq +:+ "confirm" +:+ dq +:+ ":" +:+ dq +:+ "purge" +:+ dq +:+ "}") in
  exists resp s', HandlePurgeTenantData sample_purge_db sample_store (Some (fun t => on_fst (VectorStub.PurgeTenant t)))
                    (fun _ => "") 3 Background r s = (Some resp, s')
    /\ "globex/b.txt" ∈ pw_objects s'.2 /\ rs_Status resp = 200
    /\ (forall k, k ∈ pw_objects s'.2 -> HasPrefix k "acme/" = false)
    /\ stub_vectors s' ("globex", "v2") /\ ~ stub_vectors s' ("acme", "v1").
Proof.
  intros s r.
  destruct (purge_complete sample_store sample_purge_db (fun t => on_fst (VectorStub.PurgeTenant t)) (fun s => pw_objects s.2)
    stub_vectors (fun s => pw_jobs s.2) (fun _ _ => true) (fun _ => true) id
    (L := sample_purge_laws stub_vectors (fun _ _ _ => eq_refl)) (LI := stub_index pw_objects pw_jobs)
    (fun _ => "") 3 Background r s) as (resp & s' & E & _ & Hkeep & _ & _ & Hvec & Hall).
  { vm_compute. lia. }
  exists resp, s'. split; [exact E|].
  assert (Hs : rs_Status resp = 200) by (vm_compute in E; injection E as <- _; reflexivity).
  assert (Ht : TrimSpace (Header_Get r "X-Tenant-ID") = "acme") by (vm_compute; reflexivity).
  rewrite Ht in Hkeep, Hall, Hvec. destruct (Hall Hs) as (Ho & _ & Hv). split; [|split; [exact Hs|split; [exact Ho|split]]].
  - apply Hkeep; [|reflexivity]. apply elem_of_union_r, elem_of_singleton. reflexivity.
  - apply (Hvec eq_refl); [vm_compute; discriminate|]. exists (sample_record "v2" "globex"). split; [|reflexivity].
    vm_compute. left.
  - intros Hx. exact (Hv eq_refl _ Hx eq_refl).
Defined.
