(* ===== verification/IngestJobs.v ===== *)
(** * IngestJobs: backend/managers/ingestion.go

    The ingestion jobs of the API: submission, the background indexing of the
    uploaded objects of a job, listing, the event stream, and the retry request.
    The jobs table, the object store, the document parser, the PDF libraries, the
    embedder and the index are ports.  A payload is the JSON object of the request.
    The theorems: what is indexed is what was read, chunk by chunk and under the
    tenant of the job; the row of a job is closed with the outcome of its indexing,
    unless the database refuses the update; the lists show the newest jobs of one tenant,
    by a SELECT that is modelled clause by clause. *)

From stdpp Require Import pretty.
From S2P Require Import Prelude GoStrings GoSort GoTime Sha256 GoJSON GoFloat GoZlib Contracts TextUtil Pdf.
From S2P Require Import GoTimeParse Repository ApiUtil Server Managers.
From Stdlib Require Import Ascii.

#[local] Open Scope Z_scope.
#[local] Opaque Sum256.

(** ** Helpers *)

Definition asString (v : json) : string := match v with JStr s => s | _ => "" end.

Definition inferTotalFiles (payload : list (string * json)) : Z :=
  match get_any payload "localItems" with
  | JArr [] => 1
  | JArr items => Z.of_nat (length items)
  | _ => 1
  end.

Definition readStringArray (value : json) : list string :=
  match value with
  | JArr items =>
      omap (fun item => match item with
                        | JStr s => let trimmed := TrimSpace s in
                                    if String.eqb trimmed "" then None else Some trimmed
                        | _ => None
                        end) items
  | _ => []
  end.

(** [strings.LastIndex(s, c)]; [None] for -1. *)
Fixpoint last_index (c : ascii) (s : string) : option nat :=
  match s with
  | "" => None
  | String a s' => match last_index c s' with
                   | Some i => Some (S i)
                   | None => if Ascii.eqb a c then Some O else None
                   end
  end.
(** The part after the last slash, if it is not empty. *)
Definition after_slash (s : string) : string :=
  match last_index "/" s with
  | Some idx => if (S idx <? String.length s)%nat then str_drop (S idx) s else s
  | None => s
  end.

Definition splitCamelCase (input : string) : string :=
  (foldl (fun '(b, prevLower) r =>
     let isUpper := (65 <=? r) && (r <=? 90) in
     ((if isUpper && prevLower then b +:+ " " else b) +:+ encode_rune r, (97 <=? r) && (r <=? 122)))
     ("", false) (runes input)).1.

Definition hint_stop : list string :=
  ["resume"; "cv"; "profile"; "final"; "latest"; "updated"; "jan"; "feb"; "mar"; "apr"; "may"; "jun"; "jul";
   "aug"; "sep"; "oct"; "nov"; "dec"].
Definition all_digits (w : string) : bool := forallb (fun r => (48 <=? r) && (r <=? 57)) (runes w).
Definition replace_separators (s : string) : string :=
  String.string_of_list_ascii ((fun a => if existsb (Ascii.eqb a) ["_"; "-"; "."]%char then " "%char else a)
    <$> String.list_ascii_of_string s).

Section Helpers.
Context `{U : UnicodeTables}.

Definition hint_word (word : string) : bool :=
  negb (existsb (String.eqb word) hint_stop) && negb (all_digits word || (len word <? 3)).
Definition inferPersonHint (relativePath : string) : string :=
  let base := TrimSpace relativePath in
  if String.eqb base "" then ""
  else
    let base := after_slash base in
    let base := match last_index "." base with
                | Some (S i) => str_take (S i) base
                | _ => base
                end in
    let base := splitCamelCase (replace_separators base) in
    let words := Fields (ToLower base) in
    Join (take 2 (filter (fun w => hint_word w = true) words)) " ".

Definition isTextLikeContent (contentType objectKey : string) : bool :=
  let ct := ToLower (TrimSpace contentType) in
  if HasPrefix ct "text/" || Contains ct "json" || Contains ct "xml" || Contains ct "yaml" then true
  else existsb (HasSuffix (ToLower (TrimSpace objectKey)))
         [".txt"; ".md"; ".csv"; ".json"; ".html"; ".htm"; ".xml"; ".yaml"; ".yml"].

Definition isPDFContent (contentType objectKey : string) : bool :=
  if Contains (ToLower (TrimSpace contentType)) "pdf" then true
  else HasSuffix (ToLower (TrimSpace objectKey)) ".pdf".

Definition extractSearchableText (payload : string) : string :=
  if String.eqb payload "" then ""
  else
    let text := Join (Fields (bytes_string ((fun b => if text_byte b then b else 32) <$> bytes_of payload))) " " in
    if IsLikelyNoisyText text then "" else cut text.

Definition inferContentType (declared key : string) : string :=
  if negb (String.eqb declared "") then declared
  else
    let ext := ToLower key in
    if HasSuffix ext ".pdf" then "application/pdf"
    else if HasSuffix ext ".docx" then "application/vnd.openxmlformats-officedocument.wordprocessingml.document"
    else if HasSuffix ext ".doc" then "application/msword"
    else if HasSuffix ext ".pptx" then "application/vnd.openxmlformats-officedocument.presentationml.presentation"
    else if HasSuffix ext ".ppt" then "application/vnd.ms-powerpoint"
    else if HasSuffix ext ".png" then "image/png"
    else if HasSuffix ext ".jpg" || HasSuffix ext ".jpeg" then "image/jpeg"
    else if HasSuffix ext ".txt" then "text/plain"
    else if HasSuffix ext ".md" then "text/markdown"
    else "application/octet-stream".

Definition isComplexContent (contentType : string) : bool :=
  let ct := ToLower contentType in
  Contains ct "word" || Contains ct "officedocument" || Contains ct "powerpoint" || Contains ct "image/"
  || Contains ct "pdf".
End Helpers.

Example person_hint : @inferPersonHint latin1 "uploads/JaneDoe_Resume-2024.v2.pdf" = "jane doe".
Proof. vm_compute. reflexivity. Qed.

(** ** Ports *)

Record job_row := {
  jr_job_id : string; jr_tenant_id : string; jr_source_uri : string; jr_checksum : string;
  jr_status : string; jr_stage : string; jr_processed_files : Z; jr_total_files : Z; jr_successful_files : Z;
  jr_failed_files : Z; jr_policy_code : string; jr_policy_reason : string; jr_source_mode : string;
  jr_payload_json : string; jr_chunk_count : Z; jr_payload_bytes : Z; jr_submitted_at : Time; jr_updated_at : Time }.
(** The columns set when the background work ends. *)
Record job_end := {
  je_status : string; je_stage : string; je_policy_reason : string; je_chunk_count : Z; je_payload_bytes : Z;
  je_processed_files : Z; je_successful_files : Z; je_failed_files : Z; je_updated_at : Time }.
(** A listed row: identifier, source, status, stage, the four counters, code, reason, submission. *)
Record job_listing := {
  jl_job_id : string; jl_source_uri : string; jl_status : string; jl_stage : string; jl_processed : Z;
  jl_total : Z; jl_successful : Z; jl_failed : Z; jl_policy_code : string; jl_policy_reason : string;
  jl_submitted_at : Time }.

(** SELECT .. FROM ingestion_jobs, with its optional clauses: WHERE tenant_id = $1,
    ORDER BY submitted_at DESC, LIMIT n. *)
Record job_select := { sel_tenant : option string; sel_newest_first : bool; sel_limit : option Z }.

Record JobDB (W : Type) := {
  insert_job : job_row -> M W (option error);
  (** UPDATE .. WHERE job_id *)
  end_job : string -> job_end -> M W (option error);
  (** the rows the iteration yields, each as the scan returns it *)
  select_jobs : job_select -> M W (result (list (result job_listing)));
  (** UPDATE .. SET status='queued' .. WHERE tenant_id AND job_id *)
  requeue_job : string -> string -> M W (option error) }.
Arguments insert_job {W}.
Arguments end_job {W}.
Arguments select_jobs {W}.
Arguments requeue_job {W}.

(** [GetObject]: an error, or the body: its bytes and the error that ends it, if any. *)
Definition ObjectReader (W : Type) : Type := string -> M W (result (string * option error)).

(** [io.ReadAll(io.LimitReader(body, limit))] *)
Definition read_limited (limit : Z) (body : string * option error) : result string :=
  if limit <=? len body.1 then Ok (str_take (Z.to_nat limit) body.1)
  else match body.2 with Some err => Err err | None => Ok body.1 end.

Record pendingChunk := {
  pc_recordID : string; pc_chunkText : string; pc_metadata : gmap string string; pc_sourceURI : string;
  pc_objectKey : string }.

Section Manager.
Context `{U : UnicodeTables} {W : Type}.
Variables (db : JobDB W) (Index : option (VectorIndex W)) (ObjectStore : option (ObjectReader W))
  (Embedder : option (EmbeddingProvider W)) (UploadBucket : string)
  (MaxObjectBytes ChunkSizeChars ChunkOverlapWords : Z).
(** [m.Parser.Parse], by tenant, content type and bytes. *)
Variable Parser : option (string -> string -> string -> M W (result string)).
(** The text of a PDF, with the libraries applied. *)
Variable pdf_text : string -> string.
(** The order in which a [range] loop visits the entries of a map. *)
Variable range_order : M W (list (string * list (string * json)) -> list (string * list (string * json))).
Variables (rand : M W (Z -> option string)) (now : M W Time) (decode_error : string -> string).

(** ** Indexing *)

(** [localItemByPath], as an association list with one entry per path. *)
Definition local_items (payload : list (string * json)) : gmap string (list (string * json)) :=
  match get_any payload "localItems" with
  | JArr items =>
      foldl (fun m item =>
        match item with
        | JObj asMap =>
            let relativePath := TrimSpace (asString (get_any asMap "relativePath")) in
            if negb (String.eqb relativePath "") then <[relativePath := asMap]> m else m
        | _ => m
        end) ∅ items
  | _ => ∅
  end.

(** The loop over [localItemByPath], in the order of the entries. *)
Fixpoint declared_type (key relativePath : string) (entries : list (string * list (string * json))) : string :=
  match entries with
  | [] => ""
  | (rel, item) :: entries' =>
      if HasSuffix key rel || String.eqb rel relativePath then TrimSpace (asString (get_any item "type"))
      else declared_type key relativePath entries'
  end.

(** The text of one object: the parser for complex content, then the basic
    extractions, then a placeholder. *)
Definition object_text (tenantID key relativePath declaredType data : string) : M W string :=
  let contentType := inferContentType declaredType key in
  text ← match Parser with
         | Some parse =>
             if isComplexContent contentType then
               r ← parse tenantID contentType data;
               mret match r with Ok text => text | Err _ => "" end
             else mret ""
         | None => mret ""
         end;
  let text := if String.eqb text "" then
                if isPDFContent declaredType key then pdf_text data
                else if isTextLikeContent declaredType key then extractSearchableText data else ""
              else text in
  mret (if String.eqb text "" then
          "uploaded document " +:+ relativePath +:+ " for tenant " +:+ tenantID
          +:+ (if negb (String.eqb declaredType "") then " (" +:+ declaredType +:+ ")" else "")
        else text).

Definition pending_chunk (jobID key relativePath personHint sourceURI : string) (keyIndex chunkIndex : nat)
    (chunk : string) : pendingChunk := {|
  pc_recordID := "vec-" +:+ jobID +:+ "-" +:+ Itoa (Z.of_nat keyIndex) +:+ "-" +:+ Itoa (Z.of_nat chunkIndex);
  pc_chunkText := chunk;
  pc_metadata :=
    (if negb (String.eqb personHint "") then <["person_hint" := personHint]> else id)
      (list_to_map [("object_key", key); ("relative_path", relativePath); ("file_name", relativePath);
                    ("source_uri", sourceURI)]);
  pc_sourceURI := sourceURI; pc_objectKey := key |}.

(** The chunks of one object and its number of bytes.  [ChunkText] always returns. *)
Definition index_object (tenantID jobID fallbackSourceURI : string) (items : gmap string (list (string * json)))
    (get : ObjectReader W) (keyIndex : nat) (key : string) : M W (result (list pendingChunk * Z)) :=
  object ← get key;
  match object with
  | Err err => mret (Err (errors_New ("read object " +:+ key +:+ ": " +:+ Error err)))
  | Ok body =>
  match read_limited MaxObjectBytes body with
  | Err err => mret (Err (errors_New ("read object body " +:+ key +:+ ": " +:+ Error err)))
  | Ok payloadData =>
      let relativePath := after_slash key in
      let personHint := inferPersonHint relativePath in
      order ← range_order;
      let declaredType := declared_type key relativePath (order (map_to_list items)) in
      let sourceURI := if String.eqb fallbackSourceURI "" then "s3://" +:+ UploadBucket +:+ "/" +:+ key
                       else fallbackSourceURI in
      text ← object_text tenantID key relativePath declaredType payloadData;
      let chunks := default [] (ChunkText text ChunkSizeChars ChunkOverlapWords) in
      mret (Ok (imap (pending_chunk jobID key relativePath personHint sourceURI keyIndex) chunks,
                len payloadData))
  end
  end.

Fixpoint index_objects (tenantID jobID fallbackSourceURI : string) (items : gmap string (list (string * json)))
    (get : ObjectReader W) (keyIndex : nat) (pending : list pendingChunk) (payloadBytes : Z) (objectKeys : list string)
    : M W (result (list pendingChunk * Z)) :=
  match objectKeys with
  | [] => mret (Ok (pending, payloadBytes))
  | objectKey :: objectKeys' =>
      let key := TrimSpace objectKey in
      if String.eqb key ""
      then index_objects tenantID jobID fallbackSourceURI items get (S keyIndex) pending payloadBytes objectKeys'
      else
        r ← index_object tenantID jobID fallbackSourceURI items get keyIndex key;
        match r with
        | Err err => mret (Err err)
        | Ok (chunks, n) =>
            index_objects tenantID jobID fallbackSourceURI items get (S keyIndex) (pending ++ chunks)
              (payloadBytes + n) objectKeys'
        end
  end.

Definition chunk_record (tenantID jobID checksum : string) (at_ : Time) (item : pendingChunk) (v : list float32)
    : VectorRecord := {|
  vr_RecordID := pc_recordID item; vr_TenantID := tenantID; vr_JobID := jobID; vr_ChunkText := pc_chunkText item;
  vr_Embedding := v; vr_Metadata := pc_metadata item; vr_IndexedAt := at_; vr_SourceURI := pc_sourceURI item;
  vr_ObjectKey := pc_objectKey item; vr_Checksum := checksum; vr_RetryCount := 0 |}.

Definition indexPayloadArtifacts (ctx : context) (tenantID jobID checksum fallbackSourceURI : string)
    (payload : list (string * json)) : M W (result (Z * Z)) :=
  match Index, ObjectStore with
  | Some ix, Some get =>
  match readStringArray (get_any payload "objectKeys") with
  | [] => mret (Ok (0, 0))
  | objectKeys =>
  match Embedder with
  | None => mret (Err (errors_New "embedding provider unavailable"))
  | Some emb =>
  let items := local_items payload in
  t ← now;
  r ← index_objects tenantID jobID fallbackSourceURI items get 0 [] 0 objectKeys;
  match r with
  | Err err => mret (Err err)
  | Ok ([], payloadBytes) => mret (Ok (0, payloadBytes))
  | Ok (pending, payloadBytes) =>
  vectors ← Embed emb ctx tenantID (pc_chunkText <$> pending);
  match vectors with
  | Err err => mret (Err (errors_New ("embed chunks: " +:+ Error err)))
  | Ok vectors =>
  if negb (length vectors =? length pending)%nat then mret (Err (errors_New "embedding count mismatch"))
  else
  let records := zip_with (chunk_record tenantID jobID checksum t) pending vectors in
  e ← Upsert ix ctx records;
  match e with
  | Some err => mret (Err err)
  | None => mret (Ok (Z.of_nat (length pending), payloadBytes))
  end
  end
  end
  end
  end
  | _, _ => mret (Ok (0, 0))
  end.

(** The goroutine of a job; its context is [context.Background] with a timeout. *)
Definition processIngestionBackground (jobID tenantID checksum sourceURI : string) (payload : list (string * json))
    : M W unit :=
  r ← indexPayloadArtifacts (Some Background) tenantID jobID checksum sourceURI payload;
  t ← now;
  let totalFiles := inferTotalFiles payload in
  let e := match r with
           | Ok (chunkCount, payloadBytes) =>
               {| je_status := "indexed"; je_stage := "complete"; je_policy_reason := "";
                  je_chunk_count := chunkCount; je_payload_bytes := payloadBytes; je_processed_files := totalFiles;
                  je_successful_files := totalFiles; je_failed_files := 0; je_updated_at := t |}
           | Err err =>
               {| je_status := "failed"; je_stage := "error"; je_policy_reason := Error err;
                  je_chunk_count := 0; je_payload_bytes := 0; je_processed_files := totalFiles;
                  je_successful_files := 0; je_failed_files := totalFiles; je_updated_at := t |}
           end in
  _ ← end_job db jobID e;
  mret tt.

(** ** Handlers *)

(** [util.DecodeJSON] into a map of [any]: an object, or [null] for the nil map. *)
Definition decode_payload (body : string) : option (list (string * json)) :=
  v ← decode_first body;
  match v with
  | JNull => Some []
  | JObj fs => if any_ok v then Some fs else None
  | _ => None
  end.
(** [hashHex] ignores its argument. *)
Definition hashHex (v : string) : M W string := read ← rand; t ← now; mret (RandomString read t 12).

(** The goroutine that a submission starts. *)
Record background := { bg_jobID : string; bg_tenantID : string; bg_checksum : string; bg_sourceURI : string;
  bg_payload : list (string * json) }.

Definition HandleSubmitJob (ctx : Ctx) (r : Request) : M W (Response * option background) :=
  let tenantID := TrimSpace (Header_Get r "X-Tenant-ID") in
  match decode_payload (Body r) with
  | None => mret (WriteError 400 "invalid_json" (decode_error (Body r)), None)
  | Some payload =>
  let sourceURI := TrimSpace (asString (get_any payload "sourceUri")) in
  let checksum := TrimSpace (asString (get_any payload "checksum")) in
  let sourceMode := TrimSpace (asString (get_any payload "sourceMode")) in
  let sourceMode := if String.eqb sourceMode "" then "uri" else sourceMode in
  if String.eqb sourceURI "" then mret (WriteError 400 "invalid_payload" "sourceUri is required", None)
  else
  checksum ← (if String.eqb checksum "" then hashHex sourceURI else mret checksum);
  read ← rand; t0 ← now;
  let jobID := "job-" +:+ RandomString read t0 10 in
  t ← now;
  let totalFiles := inferTotalFiles payload in
  e ← insert_job db {|
    jr_job_id := jobID; jr_tenant_id := tenantID; jr_source_uri := sourceURI; jr_checksum := checksum;
    jr_status := "indexing"; jr_stage := "parsing"; jr_processed_files := 0; jr_total_files := totalFiles;
    jr_successful_files := 0; jr_failed_files := 0; jr_policy_code := ""; jr_policy_reason := "";
    jr_source_mode := sourceMode; jr_payload_json := json_encode (any_json (JObj payload)); jr_chunk_count := 0;
    jr_payload_bytes := 0; jr_submitted_at := t; jr_updated_at := t |};
  match e with
  | Some err => mret (WriteError 500 "job_submit_failed" (Error err), None)
  | None =>
      mret (WriteJSON 201 (JObj [("jobId", JStr jobID); ("sourceUri", JStr sourceURI); ("stage", JStr "parsing");
                                 ("status", JStr "indexing"); ("submittedAt", JStr (Format_RFC3339 t));
                                 ("totalFiles", int_json totalFiles)]),
            Some {| bg_jobID := jobID; bg_tenantID := tenantID; bg_checksum := checksum;
                    bg_sourceURI := sourceURI; bg_payload := payload |})
  end
  end.

Definition listing_json (l : job_listing) : json :=
  JObj [("failedFiles", int_json (jl_failed l)); ("jobId", JStr (jl_job_id l));
        ("policyCode", JStr (jl_policy_code l)); ("policyReason", JStr (jl_policy_reason l));
        ("processedFiles", int_json (jl_processed l)); ("sourceUri", JStr (jl_source_uri l));
        ("stage", JStr (jl_stage l)); ("status", JStr (jl_status l));
        ("submittedAt", JStr (Format_RFC3339 (jl_submitted_at l)));
        ("successfulFiles", int_json (jl_successful l)); ("totalFiles", int_json (jl_total l))].

Fixpoint scan_jobs (out : list json) (rows : list (result job_listing)) : Response :=
  match rows with
  | [] => WriteJSON 200 (JArr out)
  | Err err :: _ => WriteError 500 "job_scan_failed" (Error err)
  | Ok l :: rows' => scan_jobs (out ++ [listing_json l]) rows'
  end.
Definition HandleListJobs (ctx : Ctx) (r : Request) : M W Response :=
  let tenantID := TrimSpace (Header_Get r "X-Tenant-ID") in
  rows ← select_jobs db {| sel_tenant := Some tenantID; sel_newest_first := true; sel_limit := Some 100 |};
  match rows with
  | Err err => mret (WriteError 500 "job_list_failed" (Error err))
  | Ok rows => mret (scan_jobs [] rows)
  end.

(** A reply: a response, or the events of a stream with status 200. *)
Inductive Reply := Plain_reply (resp : Response) | Event_stream (events : list json).

(** [query] is [r.URL.Query().Get]; [flushable] says that the writer can flush. *)
Definition HandleJobStream (query : string -> string) (flushable : bool) (ctx : Ctx) (r : Request) : M W Reply :=
  let tenantID := TrimSpace (query "tenantId") in
  let tenantID := if String.eqb tenantID "" then TrimSpace (Header_Get r "X-Tenant-ID") else tenantID in
  if String.eqb tenantID "" then mret (Plain_reply (WriteError 400 "tenant_required" "tenantId is required"))
  else if negb flushable then mret (Plain_reply (WriteError 500 "sse_unsupported" "stream unsupported"))
  else
  rows ← select_jobs db {| sel_tenant := Some tenantID; sel_newest_first := true; sel_limit := Some 25 |};
  let events := match rows with
                | Err _ => []
                | Ok rows => omap (fun row => match row with
                               | Ok l => Some (JObj [("job", listing_json l); ("type", JStr "job")])
                               | Err _ => None
                               end) rows
                end in
  mret (Event_stream (events ++ [JObj [("type", JStr "done")]])).

Definition HandleRetryJob (ctx : Ctx) (r : Request) : M W Response :=
  let tenantID := TrimSpace (Header_Get r "X-Tenant-ID") in
  let jobID := TrimSpace (PathValue r "jobId") in
  if String.eqb jobID "" then mret (WriteError 400 "job_id_required" "job id is required")
  else
  e ← requeue_job db tenantID jobID;
  match e with
  | Some err => mret (WriteError 500 "job_retry_failed" (Error err))
  | None => mret {| rs_Header := ∅; rs_Status := 204; rs_Body := None |}
  end.
End Manager.

(** * Facts *)

(** ** The environment

    [stored] are the batches the index accepted, [jobs] the table of jobs by
    identifier; [tz] is what a TIMESTAMPTZ column keeps of a time.  A statement or
    a call that reports an error may or may not have had its effect. *)

Definition stored_job (tz : Time -> Time) (r : job_row) : job_row := {|
  jr_job_id := jr_job_id r; jr_tenant_id := jr_tenant_id r; jr_source_uri := jr_source_uri r;
  jr_checksum := jr_checksum r; jr_status := jr_status r; jr_stage := jr_stage r;
  jr_processed_files := jr_processed_files r; jr_total_files := jr_total_files r;
  jr_successful_files := jr_successful_files r; jr_failed_files := jr_failed_files r;
  jr_policy_code := jr_policy_code r; jr_policy_reason := jr_policy_reason r; jr_source_mode := jr_source_mode r;
  jr_payload_json := jr_payload_json r; jr_chunk_count := jr_chunk_count r; jr_payload_bytes := jr_payload_bytes r;
  jr_submitted_at := tz (jr_submitted_at r); jr_updated_at := tz (jr_updated_at r) |}.
Definition finish_row (tz : Time -> Time) (e : job_end) (r : job_row) : job_row := {|
  jr_job_id := jr_job_id r; jr_tenant_id := jr_tenant_id r; jr_source_uri := jr_source_uri r;
  jr_checksum := jr_checksum r; jr_status := je_status e; jr_stage := je_stage e;
  jr_processed_files := je_processed_files e; jr_total_files := jr_total_files r;
  jr_successful_files := je_successful_files e; jr_failed_files := je_failed_files e;
  jr_policy_code := jr_policy_code r; jr_policy_reason := je_policy_reason e; jr_source_mode := jr_source_mode r;
  jr_payload_json := jr_payload_json r; jr_chunk_count := je_chunk_count e; jr_payload_bytes := je_payload_bytes e;
  jr_submitted_at := jr_submitted_at r; jr_updated_at := tz (je_updated_at e) |}.
Definition requeue_row (at_ : Time) (r : job_row) : job_row := {|
  jr_job_id := jr_job_id r; jr_tenant_id := jr_tenant_id r; jr_source_uri := jr_source_uri r;
  jr_checksum := jr_checksum r; jr_status := "queued"; jr_stage := "cleanup";
  jr_processed_files := jr_processed_files r; jr_total_files := jr_total_files r;
  jr_successful_files := jr_successful_files r; jr_failed_files := jr_failed_files r;
  jr_policy_code := jr_policy_code r; jr_policy_reason := jr_policy_reason r; jr_source_mode := jr_source_mode r;
  jr_payload_json := jr_payload_json r; jr_chunk_count := jr_chunk_count r; jr_payload_bytes := jr_payload_bytes r;
  jr_submitted_at := jr_submitted_at r; jr_updated_at := at_ |}.

Class JobTable {W} (db : JobDB W) (jobs : W -> gmap string job_row) (tz : Time -> Time) : Prop := {
  (** INSERT: the identifier is the primary key *)
  jt_insert r w : let '(e, w') := insert_job db r w in
    let new := <[jr_job_id r := stored_job tz r]> (jobs w) in
    match e with
    | None => jobs w !! jr_job_id r = None /\ jobs w' = new
    | Some _ => jobs w' = jobs w \/ (jobs w !! jr_job_id r = None /\ jobs w' = new)
    end;
  jt_end id e w : let '(err, w') := end_job db id e w in
    let new := alter (finish_row tz e) id (jobs w) in
    match err with None => jobs w' = new | Some _ => jobs w' = jobs w \/ jobs w' = new end;
  (** [at_] is the time of the server *)
  jt_requeue t id w : let '(err, w') := requeue_job db t id w in
    exists at_, let new := alter (fun r => if String.eqb (jr_tenant_id r) t then requeue_row at_ r else r) id (jobs w) in
    match err with None => jobs w' = new | Some _ => jobs w' = jobs w \/ jobs w' = new end }.

(** What a SELECT means on a table, clause by clause: rows that tie in the order may come
    in any order. *)
Definition newest_first (rows : list job_row) : Prop :=
  StronglySorted (fun a b => jr_submitted_at b <= jr_submitted_at a) rows.
Definition select_answer (q : job_select) (table : gmap string job_row) (out : list job_row) : Prop :=
  exists rows,
    rows ≡ₚ match sel_tenant q with
            | Some t => filter (fun r => jr_tenant_id r = t) (map_to_list table).*2
            | None => (map_to_list table).*2
            end
    /\ (sel_newest_first q = true -> newest_first rows)
    /\ out = match sel_limit q with Some n => take (Z.to_nat n) rows | None => rows end.
Definition newer (a b : job_row) : bool := jr_submitted_at b <? jr_submitted_at a.
Lemma newer_sorted rows : newest_first (SliceStable newer rows).
Proof.
  assert (WO : weak_order (fun _ => True) newer) by (split; unfold newer; intros; lia).
  assert (H : StronglySorted (ordered newer) (SliceStable newer rows)) by (apply (SliceStable_sorted newer _ WO), Forall_forall; done).
  unfold newest_first. induction H as [|a l _ IH HF]; constructor; [done|].
  eapply Forall_impl; [exact HF|]. unfold ordered, newer. intros b Hab. lia.
Qed.
(** The columns of a row that the statement selects. *)
Definition listing_of (r : job_row) : job_listing := {|
  jl_job_id := jr_job_id r; jl_source_uri := jr_source_uri r; jl_status := jr_status r; jl_stage := jr_stage r;
  jl_processed := jr_processed_files r; jl_total := jr_total_files r; jl_successful := jr_successful_files r;
  jl_failed := jr_failed_files r; jl_policy_code := jr_policy_code r; jl_policy_reason := jr_policy_reason r;
  jl_submitted_at := jr_submitted_at r |}.
(** The database answers the SELECT it is given; the iteration may end early, which the
    code does not see, and the scan of a row may fail. *)
Class JobQueries {W} (db : JobDB W) (jobs : W -> gmap string job_row) : Prop := {
  jq_select q w : let '(r, w') := select_jobs db q w in
    jobs w' = jobs w /\ forall rows, r = Ok rows -> exists out k, select_answer q (jobs w) out
      /\ Forall2 (fun x row => match x with Ok l => l = listing_of row | Err _ => True end) rows (take k out) }.

Class IndexEnv {W} (ix : VectorIndex W) (get : ObjectReader W) (emb : EmbeddingProvider W)
    (Parser : option (string -> string -> string -> M W (result string)))
    (range_order : M W (list (string * list (string * json)) -> list (string * list (string * json))))
    (rand : M W (Z -> option string)) (now : M W Time) (db : JobDB W)
    (stored : W -> list (list VectorRecord)) (jobs : W -> gmap string job_row) : Prop := {
  ie_get k w : stored (get k w).2 = stored w /\ jobs (get k w).2 = jobs w;
  ie_parse p t c d w : Parser = Some p -> stored (p t c d w).2 = stored w /\ jobs (p t c d w).2 = jobs w;
  ie_range w : stored (range_order w).2 = stored w /\ jobs (range_order w).2 = jobs w;
  ie_rand w : stored (rand w).2 = stored w /\ jobs (rand w).2 = jobs w;
  ie_now w : stored (now w).2 = stored w /\ jobs (now w).2 = jobs w;
  ie_embed ctx t cs w : stored (Embed emb ctx t cs w).2 = stored w /\ jobs (Embed emb ctx t cs w).2 = jobs w;
  ie_upsert ctx rs w : let '(e, w') := Upsert ix ctx rs w in
    jobs w' = jobs w
    /\ (stored w' = stored w ++ [rs] \/ (e <> None /\ stored w' = stored w));
  ie_db_insert r w : stored (insert_job db r w).2 = stored w;
  ie_db_end id e w : stored (end_job db id e w).2 = stored w }.

(** ** Record identifiers *)

Lemma digits_inj a b a' b' : 0 <= a -> 0 <= a' ->
  Itoa a +:+ "-" +:+ b = Itoa a' +:+ "-" +:+ b' -> a = a' /\ b = b'.
Proof.
  intros Ha Ha' E.
  pose proof (digits_take _ ("-" +:+ b) 0 a (Itoa_digits a Ha) eq_refl) as H.
  pose proof (digits_take _ ("-" +:+ b') 0 a' (Itoa_digits a' Ha') eq_refl) as H'.
  rewrite E, H' in H. injection H as H1 H2. apply (inj (pretty : Z -> string)) in H1. done.
Qed.
Definition record_id (jobID : string) (i j : nat) : string :=
  "vec-" +:+ jobID +:+ "-" +:+ Itoa (Z.of_nat i) +:+ "-" +:+ Itoa (Z.of_nat j).
Lemma str_app_inj p a b : p +:+ a = p +:+ b -> a = b.
Proof. induction p as [|c p IH]; [done|]. rewrite !app_cons. intros H. by injection H as H%IH. Qed.
Lemma record_id_inj jobID i j i' j' : record_id jobID i j = record_id jobID i' j' -> i = i' /\ j = j'.
Proof.
  unfold record_id. intros H%str_app_inj%str_app_inj%str_app_inj.
  apply digits_inj in H as [H1 H2]; [|lia..]. apply (inj (pretty : Z -> string)) in H2. lia.
Qed.

(** ** What is indexed *)

Section Chunks.
Context `{U : UnicodeTables}.
Variables (jobID fallbackSourceURI UploadBucket : string) (ChunkSizeChars ChunkOverlapWords : Z).

Definition source_of (key : string) : string :=
  if String.eqb fallbackSourceURI "" then "s3://" +:+ UploadBucket +:+ "/" +:+ key else fallbackSourceURI.
Definition object_chunks (i : nat) (key text : string) : list pendingChunk :=
  imap (pending_chunk jobID key (after_slash key) (inferPersonHint (after_slash key)) (source_of key) i)
    (default [] (ChunkText text ChunkSizeChars ChunkOverlapWords)).
(** The chunks of the texts of a list of objects. *)
Fixpoint all_chunks (i : nat) (keys texts : list string) : list pendingChunk :=
  match keys, texts with
  | key :: keys', text :: texts' => object_chunks i key text ++ all_chunks (S i) keys' texts'
  | _, _ => []
  end.

Lemma object_chunks_ids i key text c : c ∈ object_chunks i key text ->
  pc_objectKey c = key /\ pc_sourceURI c = source_of key /\ exists j, pc_recordID c = record_id jobID i j.
Proof.
  unfold object_chunks. intros (j & Hj)%list_elem_of_lookup. rewrite list_lookup_imap in Hj.
  apply fmap_Some in Hj as (t & _ & ->). by split_and!; [..|exists j].
Qed.
Lemma all_chunks_ids keys : forall i texts c, c ∈ all_chunks i keys texts ->
  pc_objectKey c ∈ keys /\ pc_sourceURI c = source_of (pc_objectKey c)
  /\ exists i' j, (i <= i')%nat /\ pc_recordID c = record_id jobID i' j.
Proof.
  induction keys as [|key keys IH]; intros i [|text texts] c; cbn [all_chunks]; try by intros ?%elem_of_nil.
  intros [H|H]%elem_of_app.
  - apply object_chunks_ids in H as (-> & -> & j & ->). split; [by constructor|]. split; [done|]. by exists i, j.
  - apply IH in H as (H1 & H2 & i' & j & Hi & ->). split; [by constructor|]. split; [done|].
    exists i', j. split; [lia|done].
Qed.
Lemma object_chunks_nodup i key text : NoDup (pc_recordID <$> object_chunks i key text).
Proof.
  unfold object_chunks. apply NoDup_alt. intros a b x Ha Hb.
  rewrite list_lookup_fmap, list_lookup_imap in Ha, Hb.
  destruct (default [] _ !! a) as [t1|]; [|done]. destruct (default [] _ !! b) as [t2|]; [|done].
  apply (inj Some) in Ha, Hb. rewrite <- Ha in Hb. by apply (record_id_inj jobID i b i a) in Hb as [_ ->].
Qed.
Lemma all_chunks_nodup keys : forall i texts, NoDup (pc_recordID <$> all_chunks i keys texts).
Proof.
  induction keys as [|key keys IH]; intros i [|text texts]; cbn [all_chunks]; try constructor.
  rewrite fmap_app. apply NoDup_app. split; [apply object_chunks_nodup|]. split; [|apply IH].
  intros id (c & -> & Hc)%list_elem_of_fmap (c' & E & Hc')%list_elem_of_fmap.
  apply object_chunks_ids in Hc as (_ & _ & j & Hj). apply all_chunks_ids in Hc' as (_ & _ & i' & j' & Hi & Hj').
  rewrite Hj, Hj' in E. apply record_id_inj in E as [-> _]. lia.
Qed.
Lemma all_chunks_texts keys : forall i texts, length keys = length texts ->
  pc_chunkText <$> all_chunks i keys texts
  = concat ((fun t => default [] (ChunkText t ChunkSizeChars ChunkOverlapWords)) <$> texts).
Proof.
  induction keys as [|key keys IH]; intros i [|text texts] Hl; try done. cbn [all_chunks]. rewrite fmap_app, fmap_cons.
  cbn [concat]. rewrite IH by (simpl in Hl; lia). f_equal. unfold object_chunks. rewrite fmap_imap.
  apply list_eq. intros k. rewrite list_lookup_imap. by destruct (_ !! k).
Qed.
End Chunks.

Section Indexing.
Context `{U : UnicodeTables} {W : Type} (db : JobDB W) (ix : VectorIndex W) (get : ObjectReader W)
  (emb : EmbeddingProvider W) (UploadBucket : string) (MaxObjectBytes ChunkSizeChars ChunkOverlapWords : Z)
  (Parser : option (string -> string -> string -> M W (result string))) (pdf_text : string -> string)
  (range_order : M W (list (string * list (string * json)) -> list (string * list (string * json))))
  (rand : M W (Z -> option string)) (now : M W Time)
  (stored : W -> list (list VectorRecord)) (jobs : W -> gmap string job_row)
  `{L : !IndexEnv ix get emb Parser range_order rand now db stored jobs}.

Notation text_of := (object_text Parser pdf_text).
Notation run_objects := (index_objects UploadBucket MaxObjectBytes ChunkSizeChars ChunkOverlapWords Parser pdf_text range_order).
Notation run_index := (indexPayloadArtifacts (Some ix) (Some get) (Some emb) UploadBucket MaxObjectBytes
  ChunkSizeChars ChunkOverlapWords Parser pdf_text range_order now).

(** A step that changes neither the index nor the jobs. *)
Definition quiet {A} (m : M W A) : Prop := forall w, stored (m w).2 = stored w /\ jobs (m w).2 = jobs w.

Lemma quiet_ret {A} (a : A) : quiet (mret a).
Proof. done. Qed.
Lemma quiet_bind {A B} (m : M W A) (f : A -> M W B) : quiet m -> (forall a, quiet (f a)) -> quiet (m ≫= f).
Proof.
  intros Hm Hf w. unfold mbind, M_bind. specialize (Hm w). destruct (m w) as [a w1]. cbn in Hm.
  destruct (Hf a w1) as [H1 H2]. destruct Hm as [H3 H4]. by rewrite H1, H2.
Qed.
#[local] Hint Resolve quiet_ret quiet_bind : go.

Lemma quiet_object_text t k r d data : quiet (text_of t k r d data).
Proof.
  unfold object_text. apply quiet_bind; [|auto with go]. destruct Parser as [p|] eqn:Hp; [|auto with go].
  case_match; [|auto with go]. apply quiet_bind; [|auto with go]. intros w. by apply (ie_parse p).
Qed.
Lemma quiet_get k : quiet (get k).
Proof. intros w. apply ie_get. Qed.
Lemma quiet_range : quiet range_order.
Proof. intros w. apply ie_range. Qed.
Lemma quiet_now : quiet now.
Proof. intros w. apply ie_now. Qed.
#[local] Hint Resolve quiet_object_text quiet_get quiet_range quiet_now : go.

Lemma quiet_index_objects t j f items keys : forall i pending b, quiet (run_objects t j f items get i pending b keys).
Proof.
  induction keys as [|k keys IH]; intros i pending b; cbn [index_objects]; [auto with go|]. cbn zeta.
  case_match; [apply IH|]. apply quiet_bind; [|intros [[]|]; auto with go].
  unfold index_object. apply quiet_bind; [auto with go|]. intros [body|]; [|auto with go].
  destruct (read_limited _ _); auto with go.
Qed.

(** The text of an object: what [object_text] makes of the bytes that were read. *)
Definition extracted (tenantID key : string) (dt : string * string) : Prop :=
  exists w0 w1 body declaredType w2,
    get key w0 = (Ok body, w1) /\ read_limited MaxObjectBytes body = Ok dt.1
    /\ (text_of tenantID key (after_slash key) declaredType dt.1 w2).1 = dt.2.

Lemma index_object_Ok t j f items i key w chunks n w' :
  index_object UploadBucket MaxObjectBytes ChunkSizeChars ChunkOverlapWords Parser pdf_text range_order
    t j f items get i key w = (Ok (chunks, n), w') ->
  exists dt, extracted t key dt /\ n = len dt.1
    /\ chunks = object_chunks j f UploadBucket ChunkSizeChars ChunkOverlapWords i key dt.2.
Proof.
  unfold index_object. run_M. destruct (get key w) as [[body|] w1] eqn:Hg; [|done].
  destruct (read_limited MaxObjectBytes body) as [data|] eqn:Hr; [|done].
  destruct (range_order w1) as [order w2].
  set (d := declared_type _ _ _). destruct (text_of t key (after_slash key) d data w2) as [text w3] eqn:Ht.
  intros [= <- <- _]. exists (data, text). split; [|done]. exists w, w1, body, d, w2. cbn [fst snd]. by rewrite Ht.
Qed.

Lemma index_objects_Ok t j f items keys : forall i pending b w pending' b' w',
  Forall (fun k => TrimSpace k = k /\ k <> "") keys ->
  run_objects t j f items get i pending b keys w = (Ok (pending', b'), w') ->
  exists objs, Forall2 (extracted t) keys objs
    /\ pending' = pending ++ all_chunks j f UploadBucket ChunkSizeChars ChunkOverlapWords i keys objs.*2
    /\ b' = b + foldr (fun o acc => len o.1 + acc) 0 objs.
Proof.
  induction keys as [|k keys IH]; intros i pending b w pending' b' w' Hk; cbn [index_objects]; run_M.
  { intros [= <- <- _]. exists []. split; [constructor|]. by rewrite app_nil_r, Z.add_0_r. }
  apply Forall_cons in Hk as [[Ht Hne] Hk]. cbn zeta. rewrite Ht, (proj2 (String.eqb_neq _ _) Hne).
  destruct (index_object _ _ _ _ _ _ _ _ _ _ _ _ _ _ w) as [[[chunks n]|] w1] eqn:Ho; [|done].
  apply index_object_Ok in Ho as (dt & Hx & -> & ->). intros H. apply IH in H as (objs & HF & -> & ->); [|done].
  exists (dt :: objs). split; [by constructor|]. rewrite fmap_cons. cbn [all_chunks foldr]. rewrite <- app_assoc.
  split; [done|lia].
Qed.

Lemma readStringArray_clean v : Forall (fun k => TrimSpace k = k /\ k <> "") (readStringArray v).
Proof.
  unfold readStringArray. destruct v as [| | | |items|]; try constructor.
  apply Forall_forall. intros k (x & _ & Hx)%list_elem_of_omap. destruct x as [| | |s| |]; try done.
  destruct (String.eqb_spec (TrimSpace s) ""); [done|]. injection Hx as <-. by rewrite TrimSpace_idemp.
Qed.

(** The batch of a job: one record per chunk of the texts of its objects. *)
Definition job_batch (tenantID jobID checksum fallbackSourceURI : string) (keys : list string) (b : Z)
    (records : list VectorRecord) : Prop :=
  exists objs, Forall2 (extracted tenantID) keys objs
    /\ b = foldr (fun o acc => len o.1 + acc) 0 objs
    /\ vr_ChunkText <$> records
        = concat ((fun o => default [] (ChunkText o.2 ChunkSizeChars ChunkOverlapWords)) <$> objs)
    /\ NoDup (vr_RecordID <$> records)
    /\ Forall (fun r => vr_TenantID r = tenantID /\ vr_JobID r = jobID /\ vr_Checksum r = checksum
         /\ vr_ObjectKey r ∈ keys /\ vr_SourceURI r = source_of fallbackSourceURI UploadBucket (vr_ObjectKey r)) records.

Lemma zip_records {A} (g : VectorRecord -> A) (h : pendingChunk -> A) t j ck at_ (ps : list pendingChunk) :
  (forall p v, g (chunk_record t j ck at_ p v) = h p) -> forall (vs : list (list float32)), length vs = length ps ->
  g <$> zip_with (chunk_record t j ck at_) ps vs = h <$> ps.
Proof.
  intros Hg. induction ps as [|p ps IH]; intros [|v vs] Hl; try done. cbn. rewrite Hg. f_equal. apply IH. simpl in Hl. lia.
Qed.

Lemma batch_of_chunks t j ck f keys objs at_ vs b :
  let ps := all_chunks j f UploadBucket ChunkSizeChars ChunkOverlapWords 0 keys objs.*2 in
  Forall2 (extracted t) keys objs -> length vs = length ps -> b = foldr (fun o acc => len o.1 + acc) 0 objs ->
  job_batch t j ck f keys b (zip_with (chunk_record t j ck at_) ps vs).
Proof.
  cbn zeta. intros HF Hl Hb. exists objs. split; [done|]. split; [done|]. split_and!.
  - rewrite (zip_records _ pc_chunkText), all_chunks_texts by (done || rewrite length_fmap; by eapply Forall2_length).
    by rewrite <- list_fmap_compose.
  - rewrite (zip_records _ pc_recordID) by done. apply all_chunks_nodup.
  - apply Forall_forall. intros r Hr. apply elem_of_lookup_zip_with in Hr as (k & p & v & -> & Hp & _).
    apply list_elem_of_lookup_2, all_chunks_ids in Hp as (H1 & H2 & _). by split_and!.
Qed.

Lemma run_index_cases ctx t j ck f payload w :
  let keys := readStringArray (get_any payload "objectKeys") in
  let '(r, w') := run_index ctx t j ck f payload w in
  jobs w' = jobs w
  /\ ((stored w' = stored w /\ forall n b, r = Ok (n, b) -> n = 0)
      \/ exists records b, job_batch t j ck f keys b records /\ records <> [] /\ stored w' = stored w ++ [records]
           /\ forall n b', r = Ok (n, b') -> n = Z.of_nat (length records) /\ b' = b).
Proof.
  cbn zeta. unfold indexPayloadArtifacts. pose proof (readStringArray_clean (get_any payload "objectKeys")) as Hc.
  destruct (readStringArray _) as [|k0 keys0] eqn:Hk; [run_M; split; [done|left; split; [done|naive_solver]]|].
  set (keys := k0 :: keys0) in *. cbn zeta. run_M.
  pose proof (quiet_now w) as [N1 N2]. destruct (now w) as [at_ w1]. cbn [fst snd] in *.
  pose proof (quiet_index_objects t j f (local_items payload) keys 0 [] 0 w1) as [Q1 Q2].
  destruct (run_objects t j f (local_items payload) get 0 [] 0 keys w1) as [[[pending b]|err] w2] eqn:Hr; cbn [fst snd] in *;
    [|split; [congruence|left; split; [congruence|done]]].
  apply index_objects_Ok in Hr as (objs & HF & Hp & Hb); [|done]. rewrite app_nil_l in Hp.
  destruct pending as [|p pending]; [split; [congruence|left; split; [congruence|naive_solver]]|].
  rewrite Hp. assert (Hne : p :: pending <> []) by done. rewrite Hp in Hne. clear Hp p pending.
  set (ps := all_chunks _ _ _ _ _ _ _ _) in *.
  pose proof (ie_embed ctx t (pc_chunkText <$> ps) w2) as [E1 E2].
  destruct (Embed emb ctx t (pc_chunkText <$> ps) w2) as [[vs|err] w3]; cbn [fst snd] in *;
    [|split; [congruence|left; split; [congruence|done]]].
  destruct (Nat.eqb_spec (length vs) (length ps)) as [Hl|]; cbn [negb];
    [|split; [congruence|left; split; [congruence|done]]].
  pose proof (batch_of_chunks t j ck f keys objs at_ vs b HF Hl ltac:(lia)) as Hbatch.
  set (records := zip_with _ _ _) in *. pose proof (ie_upsert ctx records w3) as Hu.
  assert (Hlen : length records = length ps) by (etrans; [apply length_zip_with|]; apply Nat.min_l, Nat.eq_le_incl; symmetry; exact Hl).
  destruct (Upsert ix ctx records w3) as [[err|] w4]; cbn; destruct Hu as [J [S|[Hn S]]]; try done;
    (split; [congruence|]).
  - right. exists records, b. split; [done|]. split; [by intros E; rewrite E in Hlen; destruct ps|].
    split; [congruence|done].
  - left. split; [congruence|done].
  - right. exists records, b. split; [done|]. split; [by intros E; rewrite E in Hlen; destruct ps|].
    split; [congruence|]. intros n b' [= <- <-]. by rewrite Hlen.
Qed.

(** * Theorems *)

(** C13: a job is indexed completely or not at all.  The index receives at most one
    batch for a job.  A batch consists of the chunks of the texts of all objects
    of the job, in the order of its object keys, each text extracted from the
    bytes read for its key; its record identifiers are distinct, and every record
    carries the tenant, the job, the checksum, one of the keys and its source.
    The counts reported are those of the batch and of the bytes read; without
    an accepted batch the count is zero. *)
Theorem job_indexed_completely ctx t j ck f payload w :
  let keys := readStringArray (get_any payload "objectKeys") in
  let '(r, w') := run_index ctx t j ck f payload w in
  jobs w' = jobs w
  /\ ((stored w' = stored w /\ forall n b, r = Ok (n, b) -> n = 0)
      \/ exists records b, job_batch t j ck f keys b records /\ records <> [] /\ stored w' = stored w ++ [records]
           /\ forall n b', r = Ok (n, b') -> n = Z.of_nat (length records) /\ b' = b).
Proof. apply run_index_cases. Qed.

(** ** The life of a job *)

Context (tz : Time -> Time) (decode_error : string -> string) `{T : !JobTable db jobs tz}.

Notation submit := (HandleSubmitJob db rand now decode_error).
Notation background_run := (processIngestionBackground db (Some ix) (Some get) (Some emb) UploadBucket MaxObjectBytes
  ChunkSizeChars ChunkOverlapWords Parser pdf_text range_order now).

(** The row of a job that was just submitted. *)
Definition fresh_row (bg : background) (row : job_row) : Prop :=
  jr_job_id row = bg_jobID bg /\ jr_tenant_id row = bg_tenantID bg /\ jr_checksum row = bg_checksum bg
  /\ jr_source_uri row = bg_sourceURI bg /\ jr_status row = "indexing" /\ jr_stage row = "parsing"
  /\ jr_total_files row = inferTotalFiles (bg_payload bg) /\ jr_processed_files row = 0.

Lemma quiet_rand : quiet rand.
Proof. intros w. apply ie_rand. Qed.

Lemma submit_cases ctx r w :
  let '((resp, bg), w') := submit ctx r w in
  stored w' = stored w
  /\ match bg with
     | Some bg => rs_Status resp = 201 /\ bg_tenantID bg = TrimSpace (Header_Get r "X-Tenant-ID")
         /\ bg_sourceURI bg <> ""
         /\ jobs w !! bg_jobID bg = None /\ exists row, fresh_row bg row /\ jobs w' = <[bg_jobID bg := row]> (jobs w)
     | None => rs_Status resp <> 201
         /\ (jobs w' = jobs w \/ exists id row, jobs w !! id = None /\ jobs w' = <[id := row]> (jobs w)
               /\ jr_tenant_id row = TrimSpace (Header_Get r "X-Tenant-ID"))
     end.
Proof.
  unfold HandleSubmitJob, hashHex. run_M. destruct (decode_payload (Body r)) as [payload|]; [|by split_and!; [| |left]].
  cbn zeta. destruct (String.eqb_spec (TrimSpace (asString (get_any payload "sourceUri"))) "") as [|Hs];
    [by split_and!; [| |left]|].
  set (ckm := if String.eqb _ "" then _ else _).
  assert (Q : quiet ckm).
  { subst ckm. case_match; [|apply quiet_ret]. intros w0. pose proof (quiet_rand w0) as [R1 R2].
    destruct (rand w0) as [read w1]. pose proof (quiet_now w1) as [N1 N2]. destruct (now w1). cbn in *. by rewrite N1, N2. }
  clearbody ckm. destruct (Q w) as [C1 C2]. destruct (ckm w) as [ck w1]. cbn in C1, C2.
  destruct (quiet_rand w1) as [R1 R2]. destruct (rand w1) as [read w2]. cbn in R1, R2.
  destruct (quiet_now w2) as [N1 N2]. destruct (now w2) as [t0 w3]. cbn in N1, N2.
  destruct (quiet_now w3) as [M1 M2]. destruct (now w3) as [t1 w4]. cbn in M1, M2.
  set (row := {| jr_job_id := _ |}). pose proof (jt_insert row w4) as Hi. pose proof (ie_db_insert row w4) as Si.
  assert (J : jobs w4 = jobs w) by congruence. assert (S4 : stored w4 = stored w) by congruence. rewrite J in Hi.
  destruct (insert_job db row w4) as [[err|] w5]; cbn [fst snd] in Hi, Si |- *; cbn zeta in Hi; (split; [congruence|]).
  - split; [done|]. destruct Hi as [->|[Hn ->]]; [by left|right]. by exists (jr_job_id row), (stored_job tz row).
  - destruct Hi as [Hn Hw]. split_and!; [done..|]. by exists (stored_job tz row).
Qed.

Notation index_run bg := (run_index (Some Background) (bg_tenantID bg) (bg_jobID bg) (bg_checksum bg)
  (bg_sourceURI bg) (bg_payload bg)).

(** The end of a job, by the outcome of its indexing. *)
Definition final_row (r : result (Z * Z)) (row : job_row) : Prop :=
  jr_processed_files row = jr_total_files row
  /\ match r with
     | Ok (n, b) => jr_status row = "indexed" /\ jr_stage row = "complete" /\ jr_chunk_count row = n
         /\ jr_payload_bytes row = b /\ jr_successful_files row = jr_total_files row /\ jr_failed_files row = 0
     | Err err => jr_status row = "failed" /\ jr_policy_reason row = Error err
         /\ jr_successful_files row = 0 /\ jr_failed_files row = jr_total_files row
     end.

Lemma background_ends (bg : background) w row :
  jobs w !! bg_jobID bg = Some row -> jr_total_files row = inferTotalFiles (bg_payload bg) ->
  let '(r, w1) := index_run bg w in
  let w' := (background_run (bg_jobID bg) (bg_tenantID bg) (bg_checksum bg) (bg_sourceURI bg) (bg_payload bg) w).2 in
  stored w' = stored w1
  /\ exists e wu row', jobs wu = jobs w /\ final_row r row' /\ jr_tenant_id row' = jr_tenant_id row
       /\ w' = (end_job db (bg_jobID bg) e wu).2
       /\ (jobs w' = <[bg_jobID bg := row']> (jobs w) \/ ((end_job db (bg_jobID bg) e wu).1 <> None /\ jobs w' = jobs w)).
Proof.
  intros Hrow Ht. unfold processIngestionBackground. run_M.
  pose proof (run_index_cases (Some Background) (bg_tenantID bg) (bg_jobID bg) (bg_checksum bg) (bg_sourceURI bg)
    (bg_payload bg) w) as Hi.
  destruct (index_run bg w) as [r w1]. destruct Hi as [Hj _].
  pose proof (quiet_now w1) as [N1 N2]. destruct (now w1) as [t w2]. cbn [fst snd] in N1, N2.
  set (e := match r with Ok _ => _ | Err _ => _ end). pose proof (jt_end (bg_jobID bg) e w2) as He.
  pose proof (ie_db_end (bg_jobID bg) e w2) as Se. split; [|exists e, w2, (finish_row tz e row)].
  { destruct (end_job db (bg_jobID bg) e w2). cbn in *. congruence. }
  split; [congruence|]. split; [|split; [done|split; [by destruct (end_job db (bg_jobID bg) e w2)|]]].
  - unfold final_row, finish_row. cbn. rewrite Ht. subst e. destruct r as [[n b]|err]; by split_and!.
  - assert (Hnew : alter (finish_row tz e) (bg_jobID bg) (jobs w2) = <[bg_jobID bg := finish_row tz e row]> (jobs w)).
    { rewrite N2, Hj. apply map_eq. intros k. destruct (decide (k = bg_jobID bg)) as [->|].
      - by rewrite lookup_alter_eq, lookup_insert_eq, Hrow.
      - by rewrite lookup_alter_ne, lookup_insert_ne. }
    destruct (end_job db (bg_jobID bg) e w2) as [[err|] w3]; cbn [fst snd] in *; cbn zeta in He; rewrite Hnew in He.
    + destruct He as [He|He]; [right; split; [done|congruence]|by left].
    + by left.
Qed.

(** C14: every accepted job is brought to its end.  A submission that answers 201 inserted
    a new row for the tenant of the request and started the work; when that work has run
    from any later state, the closing UPDATE of the row was attempted.  If the database
    accepted it, the row says indexed with the counts of what was indexed, or failed with
    the reason, and every file is accounted for; if the database reported an error, which
    is only logged, the row says so too or is as it was (and still says indexing).  No
    other row has changed, and records went to the index under the tenant of the job
    only. *)
Theorem submitted_job_finishes ctx r w resp bg w1 w2 :
  submit ctx r w = ((resp, Some bg), w1) -> jobs w2 !! bg_jobID bg = jobs w1 !! bg_jobID bg ->
  let out := index_run bg w2 in
  let w3 := (background_run (bg_jobID bg) (bg_tenantID bg) (bg_checksum bg) (bg_sourceURI bg) (bg_payload bg) w2).2 in
  jobs w !! bg_jobID bg = None
  /\ (exists e wu row, final_row out.1 row /\ jr_tenant_id row = TrimSpace (Header_Get r "X-Tenant-ID")
        /\ jobs wu = jobs w2 /\ w3 = (end_job db (bg_jobID bg) e wu).2
        /\ match (end_job db (bg_jobID bg) e wu).1 with
           | None => jobs w3 = <[bg_jobID bg := row]> (jobs w2)
           | Some _ => jobs w3 = <[bg_jobID bg := row]> (jobs w2) \/ jobs w3 = jobs w2
           end)
  /\ (stored w3 = stored w2 \/ exists records, stored w3 = stored w2 ++ [records]
        /\ Forall (fun v => vr_TenantID v = TrimSpace (Header_Get r "X-Tenant-ID")) records).
Proof.
  intros Hs Hw. pose proof (submit_cases ctx r w) as Hc. rewrite Hs in Hc.
  destruct Hc as (_ & _ & Ht & _ & Hnew & row & Hf & Hj). rewrite Hj, lookup_insert_eq in Hw.
  pose proof (background_ends bg w2 row Hw) as Hb.
  pose proof (run_index_cases (Some Background) (bg_tenantID bg) (bg_jobID bg) (bg_checksum bg) (bg_sourceURI bg)
    (bg_payload bg) w2) as Hi.
  cbn zeta. destruct (index_run bg w2) as [out w2']. destruct Hb as [Hst (e & wu & row' & Hwu & Hfin & Hten & Hw3 & Hjobs)].
  { by destruct Hf as (_ & _ & _ & _ & _ & _ & ? & _). }
  split; [done|]. split.
  - exists e, wu, row'. split; [done|]. split; [rewrite Hten, <- Ht; by destruct Hf as (_ & ? & _)|]. split; [done|]. split; [done|].
    destruct ((end_job db (bg_jobID bg) e wu).1); [by destruct Hjobs as [|[]]; [left|right]|by destruct Hjobs as [|[]]].
  - rewrite Hst. destruct Hi as [_ [[? _]|(records & b & (objs & _ & _ & _ & _ & HF) & _ & E & _)]]; [by left|right].
    exists records. split; [done|]. eapply Forall_impl; [exact HF|]. cbn. intros v (? & _). congruence.
Qed.
End Indexing.

Section Listing.
Context `{U : UnicodeTables} {W : Type} (db : JobDB W) (jobs : W -> gmap string job_row) `{Q : !JobQueries db jobs}.

Lemma scan_jobs_ok rows : forall out,
  (exists ls, rows = Ok <$> ls /\ scan_jobs out rows = WriteJSON 200 (JArr (out ++ (listing_json <$> ls))))
  \/ rs_Status (scan_jobs out rows) = 500.
Proof.
  induction rows as [|[l|err] rows IH]; intros out; cbn [scan_jobs].
  - left. exists []. by rewrite app_nil_r.
  - destruct (IH (out ++ [listing_json l])) as [(ls & -> & ->)|H]; [left|by right].
    exists (l :: ls). by rewrite <- app_assoc.
  - by right.
Qed.

(** All the jobs of a tenant, newest first. *)
Definition jobs_of (w : W) (t : string) (rows : list job_row) : Prop :=
  rows ≡ₚ filter (fun r => jr_tenant_id r = t) (map_to_list (jobs w)).*2 /\ newest_first rows.

Lemma scanned_ok ls : forall rows,
  Forall2 (fun x row => match x with Ok l => l = listing_of row | Err _ => True end) (Ok <$> ls) rows ->
  ls = listing_of <$> rows.
Proof.
  induction ls as [|l ls IH]; intros rows H; [by apply Forall2_nil_inv_l in H as ->|].
  rewrite fmap_cons in H. apply Forall2_cons_inv_l in H as (row & rows' & -> & H & ->). rewrite fmap_cons. f_equal. by apply IH.
Qed.
Lemma scanned_some xs : forall rows,
  Forall2 (fun x row => match x with Ok l => l = listing_of row | Err _ => True end) xs rows ->
  exists shown, shown `sublist_of` rows
    /\ omap (fun x => match x with Ok l => Some l | Err _ => None end) xs = listing_of <$> shown.
Proof.
  induction xs as [|x xs IH]; intros rows H; [apply Forall2_nil_inv_l in H as ->; by exists []|].
  apply Forall2_cons_inv_l in H as (row & rows' & Hx & H & ->). destruct (IH _ H) as (shown & Hs & E).
  destruct x as [l|e].
  - exists (row :: shown). split; [by apply sublist_skip|]. cbn. rewrite E. by subst.
  - exists shown. split; [by apply sublist_cons|done].
Qed.

(** Rows can be put in the order of their submission. *)
Lemma newest_rows w t : exists rows, jobs_of w t rows.
Proof.
  exists (SliceStable newer (filter (fun r => jr_tenant_id r = t) (map_to_list (jobs w)).*2)). split; [apply SliceStable_perm|].
  apply newer_sorted.
Qed.

End Listing.

(** ** An environment in memory *)

#[global] Instance job_row_eq_dec : EqDecision job_row.
Proof. solve_decision. Defined.

Record jobs_world := { jw_stored : list (list VectorRecord); jw_jobs : gmap string job_row }.
Definition sample_jobs_db : JobDB jobs_world := {|
  insert_job r w := match jw_jobs w !! jr_job_id r with
                    | Some _ => (Some (errors_New "duplicate key"), w)
                    | None => (None, {| jw_stored := jw_stored w; jw_jobs := <[jr_job_id r := stored_job id r]> (jw_jobs w) |})
                    end;
  end_job j e w := (None, {| jw_stored := jw_stored w; jw_jobs := alter (finish_row id e) j (jw_jobs w) |});
  select_jobs q w :=
    let rows := SliceStable newer (match sel_tenant q with
      | Some t => filter (fun r => jr_tenant_id r = t) (map_to_list (jw_jobs w)).*2
      | None => (map_to_list (jw_jobs w)).*2
      end) in
    (Ok ((fun r => Ok (listing_of r)) <$> match sel_limit q with Some n => take (Z.to_nat n) rows | None => rows end), w);
  requeue_job t j w := (None, {| jw_stored := jw_stored w;
    jw_jobs := alter (fun r => if String.eqb (jr_tenant_id r) t then requeue_row 0 r else r) j (jw_jobs w) |}) |}.

#[global] Instance sample_job_table : JobTable sample_jobs_db jw_jobs id.
Proof.
  split.
  - intros r w. cbn. by destruct (jw_jobs w !! jr_job_id r); [left|].
  - done.
  - intros t j w. cbn. by exists 0.
Qed.
#[global] Instance sample_job_queries : JobQueries sample_jobs_db jw_jobs.
Proof.
  split. intros q w. cbn. split; [done|]. intros rows [= <-]. set (all := SliceStable newer _). set (out := match sel_limit q with Some n => _ | None => _ end).
  exists out, (length out). split.
  - exists all. split; [apply SliceStable_perm|]. split; [intros _; apply newer_sorted|done].
  - rewrite take_ge by done. clearbody out. induction out; by constructor.
Qed.

Definition sample_get : ObjectReader jobs_world := fun key w => (Ok ("Alice wrote this plain report", None), w).
Definition sample_jobs_embedder : EmbeddingProvider jobs_world :=
  {| Embed _ _ cs := mret (Ok ((fun _ => [float_of_int 1]) <$> cs)) |}.
Definition sample_jobs_index : VectorIndex jobs_world :=
  {| Upsert _ rs w := (None, {| jw_stored := jw_stored w ++ [rs]; jw_jobs := jw_jobs w |}) |}.
Definition sample_order : M jobs_world (list (string * list (string * json)) -> list (string * list (string * json))) :=
  mret (fun l => l).
Definition sample_rand : M jobs_world (Z -> option string) := mret (fun n => Some (zeros_z n)).
Definition sample_jobs_now : M jobs_world Time := mret (unix_time 1700000000 0).
Definition sample_parser : option (string -> string -> string -> M jobs_world (result string)) := None.

#[global] Instance sample_index_env :
  IndexEnv sample_jobs_index sample_get sample_jobs_embedder sample_parser sample_order sample_rand sample_jobs_now
    sample_jobs_db jw_stored jw_jobs.
Proof.
  split; try done.
  - intros ctx rs w. cbn. by split; [|left].
  - intros r w. cbn. by destruct (jw_jobs w !! jr_job_id r).
Qed.

Definition sample_payload : list (string * json) :=
  [("sourceUri", JStr "s3://b/up"); ("objectKeys", JArr [JStr "acme/20240101/a.txt"; JStr " acme/20240101/b.txt "])].
Definition sample_submit : Request := {|
  Method := "POST"; URLPath := "/api/v1/ingestion/jobs"; Header := {[ "X-Tenant-Id" := ["acme"] ]};
  PathValue _ := ""; Body := json_encode (JObj sample_payload) |}.
Definition empty_jobs : jobs_world := {| jw_stored := []; jw_jobs := ∅ |}.
Definition no_pdf (_ : string) : string := "".

#[local] Existing Instance latin1.

Lemma job_indexed_completely_witness :
  let '(r, w') := indexPayloadArtifacts (Some sample_jobs_index) (Some sample_get) (Some sample_jobs_embedder) "up"
    100 20 0 sample_parser no_pdf sample_order sample_jobs_now (Some Background) "acme" "j1" "c" "" sample_payload empty_jobs in
  r = Ok (4, 58) /\ exists records b,
    job_batch sample_get "up" 100 20 0 sample_parser no_pdf "acme" "j1" "c" "" ["acme/20240101/a.txt"; "acme/20240101/b.txt"]
      b records /\ jw_stored w' = [records] /\ b = 58.
Proof.
  pose proof (job_indexed_completely sample_jobs_db sample_jobs_index sample_get sample_jobs_embedder "up" 100 20 0
    sample_parser no_pdf sample_order sample_rand sample_jobs_now jw_stored jw_jobs (Some Background) "acme" "j1" "c" ""
    sample_payload empty_jobs) as H. cbn zeta in H.
  destruct (indexPayloadArtifacts _ _ _ _ _ _ _ _ _ _ _ _ _ _ _ _ _ _) as [r w'] eqn:E.
  assert (Hr : r = Ok (4, 58)) by (vm_compute in E; by injection E as <- _). split; [done|].
  destruct H as [_ [[_ H]|(records & b & Hb & _ & Hs & H)]]; [by apply H in Hr|].
  exists records, b. split; [exact Hb|]. split; [exact Hs|]. by destruct (H _ _ Hr).
Defined.

Lemma submitted_job_finishes_witness :
  let '((resp, bg), w1) := HandleSubmitJob sample_jobs_db sample_rand sample_jobs_now (fun _ => "") Background sample_submit
    empty_jobs in
  exists b row, bg = Some b /\ rs_Status resp = 201
  /\ jw_jobs (processIngestionBackground sample_jobs_db (Some sample_jobs_index) (Some sample_get)
       (Some sample_jobs_embedder) "up" 100 20 0 sample_parser no_pdf sample_order sample_jobs_now (bg_jobID b)
       (bg_tenantID b) (bg_checksum b) (bg_sourceURI b) (bg_payload b) w1).2 !! bg_jobID b = Some row
  /\ jr_status row = "indexed" /\ jr_tenant_id row = "acme".
Proof.
  destruct (HandleSubmitJob _ _ _ _ _ _ _) as [[resp bg] w1] eqn:E.
  assert (Hb : exists b, bg = Some b /\ rs_Status resp = 201
    /\ is_Ok (indexPayloadArtifacts (Some sample_jobs_index) (Some sample_get) (Some sample_jobs_embedder) "up" 100 20 0
         sample_parser no_pdf sample_order sample_jobs_now (Some Background) (bg_tenantID b) (bg_jobID b) (bg_checksum b)
         (bg_sourceURI b) (bg_payload b) w1).1 = true).
  { pose proof E as E2. vm_compute in E2. injection E2 as <- <- <-. eexists. split; [done|]. split; [done|]. by vm_compute. }
  destruct Hb as (b & -> & H201 & Hok). exists b.
  pose proof (submitted_job_finishes sample_jobs_db sample_jobs_index sample_get sample_jobs_embedder "up" 100 20 0
    sample_parser no_pdf sample_order sample_rand sample_jobs_now jw_stored jw_jobs id (fun _ => "") Background
    sample_submit empty_jobs resp b w1 w1 E eq_refl) as (_ & (e & wu & row & Hf & Ht & _ & _ & Hj) & _).
  change (end_job sample_jobs_db (bg_jobID b) e wu).1 with (@None error) in Hj. cbv iota in Hj.
  exists row. split; [done|]. split; [done|]. rewrite Hj, lookup_insert_eq. split; [done|].
  destruct Hf as [_ Hf]. destruct (fst _) as [[n c]|] in Hok, Hf; [|done]. split; [apply Hf|]. rewrite Ht. by vm_compute.
Defined.

