(* ===== verification/SearchApi.v ===== *)
(** * SearchApi: backend/managers/search.go

    The search endpoints: retrieval for the tenant of the request, ranking by the
    intent of the query, the context for the language model, the answer, and the
    response, as one JSON value or as a stream of events.  The language model is a
    port.  A panic of a slice expression is [None].  The theorems: what a search
    shows, and what the model is given, comes from documents of the tenant of the
    request; the stream spells the answer and cites every document. *)

From S2P Require Import Prelude GoStrings GoSort GoTime Sha256 GoJSON GoFloat Contracts Retrieval TextUtil.
From S2P Require Import ApiUtil Server Managers IngestJobs.

#[local] Open Scope Z_scope.
#[local] Opaque Sum256.

(** ** JSON *)

(** A map, with its keys in order.  A nil map and an empty one are the same value of the
    model, and this is the encoding of an empty one; a nil map would be [null]. *)
Definition attributes_json (m : gmap string string) : json :=
  JObj ((fun k => (k, JStr (default "" (m !! k)))) <$> SliceStable str_less (map_to_list m).*1).
(** A score that is not finite is an encoding error. *)
Definition score_json (x : float64) : option json := JNum <$> json_float x.

Definition document_json (d : RetrievalDocument) : option json :=
  score ← score_json (doc_Score d);
  Some (JObj [("DocumentID", JStr (doc_DocumentID d)); ("TenantID", JStr (doc_TenantID d));
              ("Content", JStr (doc_Content d)); ("Score", score); ("SourceURI", JStr (doc_SourceURI d));
              ("Metadata", attributes_json (doc_Metadata d))]).
Definition trace_json (t : RetrievalTrace) : json :=
  JObj [("TenantFilterApplied", JBool (rt_TenantFilterApplied t)); ("CandidateCount", int_json (rt_CandidateCount t));
        ("RerankApplied", JBool (rt_RerankApplied t)); ("FallbackReason", JStr (rt_FallbackReason t));
        ("DurationMillis", int_json (rt_DurationMillis t)); ("VectorProvider", JStr (rt_VectorProvider t));
        ("VectorStatus", JStr (rt_VectorStatus t)); ("VectorLatencyMillis", int_json (rt_VectorLatencyMillis t));
        ("GatewayProvider", JStr (rt_GatewayProvider t)); ("GatewayStatus", JStr (rt_GatewayStatus t));
        ("GatewayModel", JStr (rt_GatewayModel t)); ("GatewayLatencyMillis", int_json (rt_GatewayLatencyMillis t));
        ("GatewayTokenInput", int_json (rt_GatewayTokenInput t)); ("GatewayTokenOutput", int_json (rt_GatewayTokenOutput t));
        ("GatewayTokenTotal", int_json (rt_GatewayTokenTotal t))].

(** The entry of [topVectors] for a document: its rank and its snippet. *)
Record top_vector := { tv_rank : Z; tv_doc : RetrievalDocument; tv_snippet : string }.
Definition top_vector_json (v : top_vector) : option json :=
  score ← score_json (doc_Score (tv_doc v));
  Some (JObj [("documentId", JStr (doc_DocumentID (tv_doc v))); ("metadata", attributes_json (doc_Metadata (tv_doc v)));
              ("rank", int_json (tv_rank v)); ("score", score); ("snippet", JStr (tv_snippet v));
              ("sourceUri", JStr (doc_SourceURI (tv_doc v)))]).
(** A nil slice is [null]. *)
Definition top_vectors_json (vs : list top_vector) : option json :=
  match vs with [] => Some JNull | _ => JArr <$> mapM top_vector_json vs end.

Definition search_json (result : RetrievalResult) (answer : string) (tops : list top_vector) : option json :=
  docs ← mapM document_json (res_Documents result);
  tv ← top_vectors_json tops;
  Some (JObj [("TenantID", JStr (res_TenantID result)); ("RequestID", JStr (res_RequestID result));
              ("Documents", JArr docs);
              ("Citations", match res_Citations result with [] => JNull | cs => JArr (JStr <$> cs) end);
              ("Trace", trace_json (res_Trace result)); ("answerText", JStr answer); ("topVectors", tv)]).

(** ** Requests *)

Record search_request := { sr_QueryText : string; sr_TopK : Z }.
Definition search_fields : list (field search_request) := [
  str_field "queryText" (fun q s => {| sr_QueryText := s; sr_TopK := sr_TopK q |});
  int_field "topK" (fun q z => {| sr_QueryText := sr_QueryText q; sr_TopK := z |})].
Definition decode_search (body : string) : option search_request :=
  DecodeJSON search_fields {| sr_QueryText := ""; sr_TopK := 0 |} body.
Definition decode_stream_query (body : string) : option string :=
  DecodeJSON [str_field "queryText" (fun _ s => s)] "" body.

Section Search.
Context `{U : UnicodeTables} {W : Type}.
Variable service : DeterministicRetrievalService W.
(** [m.LLM.GenerateAnswer], by query and context. *)
Variable LLM : option (context -> string -> string -> M W (result string)).
Variables (rand : M W (Z -> option string)) (now : M W Time) (decode_error : string -> string).
(** [r.RemoteAddr] *)
Variable remoteAddr : Request -> string.

Notation state := (RetrievalState W).

(** The snippets of the ranked documents, from rank [i] on. *)
Fixpoint snippets (query : string) (i : Z) (docs : list RetrievalDocument) : option (list top_vector) :=
  match docs with
  | [] => Some []
  | d :: docs' =>
      snippet ← BuildAnswerSnippet query (doc_Content d);
      rest ← snippets query (i + 1) docs';
      Some ({| tv_rank := i; tv_doc := d; tv_snippet := snippet |} :: rest)
  end.
Definition buildTopFilteredVectors (query : string) (docs : list RetrievalDocument) (limit : Z)
    : option (list top_vector) :=
  match docs with
  | [] => Some []
  | _ =>
      let limit := if limit <=? 0 then 5 else limit in
      snippets query 1 (take (Z.to_nat limit) (RankDocumentsByQueryIntent query docs))
  end.

(** The context of the language model: the parts of the first four documents. *)
Fixpoint context_parts (query : string) (docs : list RetrievalDocument) : option (list string) :=
  match docs with
  | [] => Some []
  | d :: docs' =>
      cleaned ← BuildContextPart query (doc_Content d);
      rest ← context_parts query docs';
      Some (if negb (String.eqb cleaned "") then cleaned :: rest else rest)
  end.
Definition blank_line : string := String (byte_of 10) (String (byte_of 10) "").
Definition contextText (query : string) (rankedDocs : list RetrievalDocument) : option string :=
  parts ← context_parts query (take 4 rankedDocs);
  let text := TrimSpace (Join parts blank_line) in
  Some (if String.eqb text "" then "No retrieved documents found for this query." else text).

Definition generateFinalAnswerStrict (ctx : context) (queryText : string) (rankedDocs : list RetrievalDocument)
    : M state (option (result string)) :=
  match LLM with
  | None => mret (Some (Err (errors_New "llm client is not configured")))
  | Some GenerateAnswer =>
  match contextText queryText rankedDocs with
  | None => mret None
  | Some text =>
  generated ← onW (GenerateAnswer ctx queryText text);
  match generated with
  | Err err => mret (Some (Err err))
  | Ok generated =>
      let answer := TrimSpace generated in
      if String.eqb answer "" then mret (Some (Err (errors_New "empty llm answer")))
      else
        let collapsed := TrimSpace (Join (Fields answer) " ") in
        if HasReadableSignal collapsed then mret (Some (Ok (TruncateForDebugLog collapsed 1200)))
        else mret (Some (Err (errors_New "unreadable llm answer")))
  end
  end
  end.

(** What both handlers do once the request is decoded: the response that ends
    the request, or the result, the ranked documents, the top vectors and the
    answer. *)
Definition run_search (ctx : Ctx) (r : Request) (requestID queryText : string) (topK : Z)
    : M state (option (Response + RetrievalResult * list RetrievalDocument * list top_vector * string)) :=
  let tenantID := TrimSpace (Header_Get r "X-Tenant-ID") in
  let query := {| rq_TenantID := tenantID; rq_RequestID := requestID; rq_Text := queryText; rq_TopK := topK |} in
  let meta := {| rm_TenantID := tenantID; rm_RequestID := requestID; rm_SourceIP := remoteAddr r;
                 rm_UserAgent := Header_Get r "User-Agent" |} in
  result ← Search service (Some ctx) meta query;
  match result with
  | Err err => mret (Some (inl (WriteError 400 "search_failed" (Error err))))
  | Ok result =>
  let rankedDocs := RankDocumentsByQueryIntent queryText (res_Documents result) in
  match buildTopFilteredVectors queryText rankedDocs 5 with
  | None => mret None
  | Some topVectors =>
  answer ← generateFinalAnswerStrict (Some ctx) queryText rankedDocs;
  match answer with
  | None => mret None
  | Some (Err _) => mret (Some (inl (WriteError 503 "llm_unavailable" "final answer generation is unavailable")))
  | Some (Ok answer) => mret (Some (inr (result, rankedDocs, topVectors, answer)))
  end
  end
  end.

Definition request_id (ctx : Ctx) : M state string :=
  let requestID := RequestIDFromContext ctx in
  if String.eqb requestID "" then
    read ← onW rand; t ← onW now; mret ("req-" +:+ RandomString read t 8)
  else mret requestID.

Definition HandleSearch (ctx : Ctx) (r : Request) : M state (option Response) :=
  match decode_search (Body r) with
  | None => mret (Some (WriteError 400 "invalid_json" (decode_error (Body r))))
  | Some req =>
  let TopK := if sr_TopK req <=? 0 then 5 else sr_TopK req in
  let QueryText := TrimSpace (sr_QueryText req) in
  if String.eqb QueryText "" then mret (Some (WriteError 400 "query_required" "queryText is required"))
  else
  requestID ← request_id ctx;
  out ← run_search ctx r requestID QueryText TopK;
  mret match out with
       | None => None
       | Some (inl resp) => Some resp
       | Some (inr (result, _, topVectors, answer)) =>
           (** the status is written before the body is encoded *)
           Some {| rs_Header := {[ "Content-Type" := "application/json" ]}; rs_Status := 200;
                   rs_Body := search_json result answer topVectors |}
       end
  end.

(** ** The stream *)

Definition citation_json (d : RetrievalDocument) : json :=
  JObj [("id", JStr (doc_DocumentID d)); ("title", JStr "Source"); ("uri", JStr (doc_SourceURI d))].
Definition stream_trace (result : RetrievalResult) : json :=
  JObj [("requestId", JStr (res_RequestID result)); ("rerankApplied", JBool (rt_RerankApplied (res_Trace result)));
        ("retrievalMs", int_json (rt_DurationMillis (res_Trace result)))].
Definition token_event (tok : string) : option json :=
  Some (JObj [("token", JStr (tok +:+ " ")); ("type", JStr "token")]).
Definition citation_event (c : json) : option json := Some (JObj [("citation", c); ("type", JStr "citation")]).
(** An event whose value cannot be encoded is sent empty, [None]. *)
Definition stream_events (result : RetrievalResult) (rankedDocs : list RetrievalDocument) (topVectors : list top_vector)
    (answer : string) : list (option json) :=
  let tv := top_vectors_json topVectors in
  let citations := citation_json <$> rankedDocs in
  let trace := stream_trace result in
  [(fun v => JObj [("topVectors", v); ("type", JStr "top_vectors")]) <$> tv]
  ++ (token_event <$> Fields answer)
  ++ (citation_event <$> citations)
  ++ [Some (JObj [("trace", trace); ("type", JStr "trace")]);
      (fun v => JObj [("citations", JArr citations); ("topVectors", v); ("trace", trace); ("type", JStr "done")]) <$> tv].

Inductive search_reply := Search_plain (resp : Response) | Search_stream (events : list (option json)).

Definition HandleSearchStream (flushable : bool) (ctx : Ctx) (r : Request) : M state (option search_reply) :=
  match decode_stream_query (Body r) with
  | None => mret (Some (Search_plain (WriteError 400 "invalid_json" (decode_error (Body r)))))
  | Some q =>
  requestID ← request_id ctx;
  let QueryText := TrimSpace q in
  if String.eqb QueryText "" then mret (Some (Search_plain (WriteError 400 "query_required" "queryText is required")))
  else
  out ← run_search ctx r requestID QueryText 5;
  mret match out with
       | None => None
       | Some (inl resp) => Some (Search_plain resp)
       | Some (inr (result, rankedDocs, topVectors, answer)) =>
           if negb flushable then
             Some (Search_plain (with_headers {[ "Cache-Control" := "no-cache"; "Connection" := "keep-alive" ]}
               (WriteError 500 "sse_unsupported" "stream unsupported")))
           else Some (Search_stream (stream_events result rankedDocs topVectors answer))
       end
  end.
End Search.

(** ** What the two endpoints share *)

Section Lemmas.
Context `{U : UnicodeTables} {W : Type}.
Variable service : DeterministicRetrievalService W.
Variable LLM : option (context -> string -> string -> M W (result string)).
Variable remoteAddr : Request -> string.

(** [answer] is what the model said for the query and the context made of the
    ranked documents, its white space collapsed, cut at 1200 bytes. *)
Definition answered (ctx : context) (query : string) (ranked : list RetrievalDocument) (answer : string) : Prop :=
  exists generate text raw w, LLM = Some generate /\ contextText query ranked = Some text
    /\ (generate ctx query text w).1 = Ok raw
    /\ answer = TruncateForDebugLog (TrimSpace (Join (Fields (TrimSpace raw)) " ")) 1200
    /\ HasReadableSignal (TrimSpace (Join (Fields (TrimSpace raw)) " ")) = true
    /\ answer <> "" /\ len answer <= 1203.

(** The vectors shown are the first five documents of the ranking, in order. *)
Definition shown (query : string) (ranked : list RetrievalDocument) (tops : list top_vector) : Prop :=
  (tv_doc <$> tops) = take 5 (RankDocumentsByQueryIntent query ranked)
  /\ tv_rank <$> tops = seqZ 1 (Z.of_nat (length tops))
  /\ Forall (fun v => BuildAnswerSnippet query (doc_Content (tv_doc v)) = Some (tv_snippet v)) tops.

Lemma snippets_spec query : forall docs i tops, snippets query i docs = Some tops ->
  (tv_doc <$> tops) = docs /\ tv_rank <$> tops = seqZ i (Z.of_nat (length tops))
  /\ Forall (fun v => BuildAnswerSnippet query (doc_Content (tv_doc v)) = Some (tv_snippet v)) tops.
Proof.
  induction docs as [|d docs IH]; intros i tops H; cbn [snippets] in H.
  { apply (inj Some) in H as <-. done. }
  apply bind_Some in H as (sn & Hsn & H). apply bind_Some in H as (rest & Hr & H). apply (inj Some) in H as <-.
  apply IH in Hr as (H1 & H2 & H3). rewrite !fmap_cons, H1. split; [done|].
  split; [|by constructor]. rewrite H2. cbn [length tv_rank].
  rewrite Nat2Z.inj_succ, (seqZ_cons i (Z.succ _)) by lia. repeat f_equal; lia.
Qed.

Lemma buildTopFilteredVectors_shown query docs tops :
  buildTopFilteredVectors query docs 5 = Some tops -> shown query docs tops.
Proof.
  destruct docs as [|d docs]; intros H; [apply (inj Some) in H as <-; by split|].
  unfold buildTopFilteredVectors in H. by apply snippets_spec in H.
Qed.

Lemma TruncateForDebugLog_len s n : 0 < n -> len (TruncateForDebugLog s n) <= n + 3.
Proof.
  intros Hn. unfold TruncateForDebugLog. cbn zeta.
  destruct (Z.leb_spec n 0); [lia|]. destruct (Z.leb_spec (len (TrimSpace s)) n); cbn [orb]; [lia|].
  rewrite len_app. unfold len at 1. rewrite length_str_take. change (len "...") with 3. lia.
Qed.
Lemma TruncateForDebugLog_ne s n : TrimSpace s <> "" -> TruncateForDebugLog s n <> "".
Proof.
  intros Hs. unfold TruncateForDebugLog. cbn zeta. destruct (_ || _); [done|].
  by destruct (str_take (Z.to_nat n) (TrimSpace s)).
Qed.

Lemma answer_answered ctx query ranked answer st st' :
  generateFinalAnswerStrict LLM ctx query ranked st = (Some (Ok answer), st') ->
  answered ctx query ranked answer.
Proof.
  unfold generateFinalAnswerStrict. destruct LLM as [generate|] eqn:EL; [|discriminate].
  destruct (contextText query ranked) as [text|] eqn:Et; [|discriminate].
  unfold mbind, M_bind, onW. destruct (generate ctx query text (world st)) as [[raw|e] w] eqn:Eg; [|discriminate].
  cbn zeta. destruct (String.eqb_spec (TrimSpace raw) "") as [|Hraw]; [discriminate|].
  destruct (HasReadableSignal _) eqn:Hs; [|discriminate]. unfold mret, M_ret. intros [= <- _].
  exists generate, text, raw, (world st). rewrite Eg. split_and!; try done.
  - apply TruncateForDebugLog_ne. unfold HasReadableSignal in Hs.
    destruct (String.eqb_spec (TrimSpace (TrimSpace (Join (Fields (TrimSpace raw)) " "))) ""); done.
  - by apply (TruncateForDebugLog_len _ 1200).
Qed.

(** What a search that succeeds has found for the tenant of the request. *)
Record found (ctx : Ctx) (r : Request) (query : string) (topK : Z) (id : string) (result : RetrievalResult)
    (ranked : list RetrievalDocument) (tops : list top_vector) (answer : string) : Prop := {
  fd_tenant : res_TenantID result = TrimSpace (Header_Get r "X-Tenant-ID");
  fd_request : res_RequestID result = id;
  fd_docs : Forall (fun d => doc_TenantID d = TrimSpace (Header_Get r "X-Tenant-ID") /\ doc_DocumentID d <> "")
              (res_Documents result);
  fd_distinct : NoDup (doc_DocumentID <$> res_Documents result);
  fd_source : Forall (fun d => exists sr, searcher service = Some sr /\ returned_by sr (Some ctx)
    {| rq_TenantID := TrimSpace (Header_Get r "X-Tenant-ID"); rq_RequestID := id; rq_Text := query; rq_TopK := topK |} d)
    (res_Documents result);
  fd_ranked : ranked = RankDocumentsByQueryIntent query (res_Documents result);
  fd_shown : shown query ranked tops;
  fd_answer : answered (Some ctx) query ranked answer }.

Lemma run_search_found ctx r id query topK st x st' :
  run_search service LLM remoteAddr ctx r id query topK st = (Some x, st') ->
  match x with
  | inl resp => rs_Status resp = 400 \/ rs_Status resp = 503
  | inr (result, ranked, tops, answer) => found ctx r query topK id result ranked tops answer
  end.
Proof.
  unfold run_search, mbind, M_bind. cbn zeta. destruct (Search _ _ _ _ st) as [[result|e] st1] eqn:ES.
  2: { intros [= <- _]. by left. }
  destruct (buildTopFilteredVectors _ _ 5) as [tops|] eqn:Et; [|discriminate].
  destruct (generateFinalAnswerStrict _ _ _ _ st1) as [[[answer|e]|] st2] eqn:Ea; [| |discriminate].
  2: { intros [= <- _]. by right. }
  unfold mret, M_ret. intros H. apply (f_equal fst) in H. apply (inj Some) in H as <-.
  apply Search_sound in ES as (_ & Ht & Hid & Hnd & HF & _). cbn [rq_TenantID rq_RequestID] in *.
  constructor; try done.
  - eapply Forall_impl; [exact HF|]. by intros d (? & ? & _).
  - eapply Forall_impl; [exact HF|]. by intros d (_ & _ & ?).
  - by apply buildTopFilteredVectors_shown.
  - by eapply answer_answered.
Qed.
End Lemmas.

(** ** Reading a stream *)

(** The members of an event, by name. *)
Definition event_get (key : string) (e : option json) : option json :=
  match e with Some (JObj fields) => obj_get fields key | _ => None end.
Definition event_token (e : option json) : option string :=
  match event_get "token" e with Some (JStr t) => Some t | _ => None end.
(** What a client that shows the tokens as they come has shown at the end, and
    what it has cited. *)
Definition shown_text (events : list (option json)) : string :=
  foldr (fun t acc => t +:+ acc) "" (omap event_token events).
Definition cited (events : list (option json)) : list json := omap (event_get "citation") events.

Lemma omap_none {A B} (f : A -> option B) (l : list A) : (forall x, x ∈ l -> f x = None) -> omap f l = [].
Proof.
  induction l as [|x l IH]; intros H; [done|]. cbn. rewrite (H x) by constructor.
  apply IH. intros y Hy. apply H. by constructor.
Qed.
Lemma omap_fmap_some {A B C} (f : B -> option C) (g : A -> B) (h : A -> C) (l : list A) :
  (forall x, f (g x) = Some (h x)) -> omap f (g <$> l) = h <$> l.
Proof. intros H. induction l as [|x l IH]; [done|]. rewrite fmap_cons. cbn. by rewrite H, IH. Qed.

Lemma words_spelled ws : ws <> [] ->
  foldr (fun t acc => t +:+ acc) "" ((fun tok => tok +:+ " ") <$> ws) = Join ws " " +:+ " ".
Proof.
  intros Hne. induction ws as [|w ws IH]; [done|]. destruct ws as [|w' ws].
  { change ((w +:+ " ") +:+ "" = w +:+ " "). by rewrite str_app_nil_r. }
  rewrite fmap_cons. cbn [foldr]. rewrite IH by done.
  change (Join (w :: w' :: ws) " ") with (w +:+ " " +:+ Join (w' :: ws) " "). by rewrite !str_app_assoc.
Qed.

Lemma stream_events_read result ranked tops answer :
  let evs := stream_events result ranked tops answer in
  omap event_token evs = (fun tok => tok +:+ " ") <$> Fields answer
  /\ cited evs = citation_json <$> ranked
  /\ (forall tv, top_vectors_json tops = Some tv ->
        head evs ≫= event_get "topVectors" = Some tv
        /\ last evs ≫= event_get "type" = Some (JStr "done")
        /\ last evs ≫= event_get "topVectors" = Some tv
        /\ last evs ≫= event_get "citations" = Some (JArr (citation_json <$> ranked))).
Proof.
  cbn zeta. unfold stream_events, cited. cbn zeta.
  split; [|split].
  - rewrite !omap_app, (omap_fmap_some _ _ (fun tok => tok +:+ " ")) by done.
    rewrite (omap_none _ (citation_event <$> _)) by (intros e (c & -> & _)%list_elem_of_fmap; done).
    rewrite (omap_none _ [_]), (omap_none _ [_; _]), app_nil_l, app_nil_r; [done| |].
    + intros e He. apply list_elem_of_In in He as [<-|[<-|[]]]; by destruct (top_vectors_json tops).
    + intros e ->%list_elem_of_singleton. by destruct (top_vectors_json tops).
  - rewrite !omap_app. rewrite (omap_none _ (token_event <$> _)) by (intros e (c & -> & _)%list_elem_of_fmap; done).
    rewrite (omap_fmap_some _ citation_event id), list_fmap_id by done.
    rewrite (omap_none _ [_]), (omap_none _ [_; _]), app_nil_l, app_nil_r; [done| |].
    + intros e He. apply list_elem_of_In in He as [<-|[<-|[]]]; by destruct (top_vectors_json tops).
    + intros e ->%list_elem_of_singleton. by destruct (top_vectors_json tops).
  - intros tv ->. rewrite !app_assoc, last_app. split_and!; done.
Qed.

(** * Theorems *)

Section Theorems.
Context `{U : UnicodeTables} {W : Type}.
Variable service : DeterministicRetrievalService W.
Variable LLM : option (context -> string -> string -> M W (result string)).
Variables (rand : M W (Z -> option string)) (now : M W Time) (decode_error : string -> string).
Variable remoteAddr : Request -> string.

Lemma search_replies ctx r st resp st' :
  HandleSearch service LLM rand now decode_error remoteAddr ctx r st = (Some resp, st') ->
  rs_Status resp = 400 \/ rs_Status resp = 503 \/ exists req id result ranked tops answer,
    decode_search (Body r) = Some req /\ TrimSpace (sr_QueryText req) <> ""
    /\ found service LLM ctx r (TrimSpace (sr_QueryText req)) (if sr_TopK req <=? 0 then 5 else sr_TopK req)
         id result ranked tops answer
    /\ rs_Status resp = 200 /\ rs_Body resp = search_json result answer tops.
Proof.
  unfold HandleSearch. destruct (decode_search (Body r)) as [req|] eqn:Ed; [|intros [= <- _]; by left].
  cbn zeta. destruct (String.eqb_spec (TrimSpace (sr_QueryText req)) "") as [|Hq]; [intros [= <- _]; by left|].
  run_M. destruct (request_id rand now ctx st) as [id st1].
  destruct (run_search _ _ _ _ _ _ _ _ st1) as [[x|] st2] eqn:Er; [|discriminate].
  apply run_search_found in Er. destruct x as [resp'|[[[result ranked] tops] answer]].
  - intros [= <- _]. destruct Er as [E|E]; tauto.
  - intros H. apply (f_equal fst) in H. apply (inj Some) in H as <-. right. right.
    by exists req, id, result, ranked, tops, answer.
Qed.

Lemma stream_replies flushable ctx r st reply st' :
  HandleSearchStream service LLM rand now decode_error remoteAddr flushable ctx r st = (Some reply, st') ->
  (exists resp, reply = Search_plain resp /\ (rs_Status resp = 400 \/ rs_Status resp = 503))
  \/ exists q id result ranked tops answer,
    decode_stream_query (Body r) = Some q /\ TrimSpace q <> ""
    /\ found service LLM ctx r (TrimSpace q) 5 id result ranked tops answer
    /\ if flushable then reply = Search_stream (stream_events result ranked tops answer)
       else exists resp, reply = Search_plain resp /\ rs_Status resp = 500.
Proof.
  unfold HandleSearchStream. destruct (decode_stream_query (Body r)) as [q|]; [|intros [= <- _]; left; eexists; split; [done|by left]].
  run_M. destruct (request_id rand now ctx st) as [id st1]. cbn zeta.
  destruct (String.eqb_spec (TrimSpace q) "") as [|Hq]; [intros [= <- _]; left; eexists; split; [done|by left]|].
  destruct (run_search _ _ _ _ _ _ _ _ st1) as [[x|] st2] eqn:Er; [|discriminate].
  apply run_search_found in Er. destruct x as [resp|[[[result ranked] tops] answer]].
  - intros [= <- _]. left. by exists resp.
  - intros H. apply (f_equal fst) in H. cbn [fst] in H. right. exists q, id, result, ranked, tops, answer. split_and!; try done.
    destruct flushable; apply (inj Some) in H as <-; [done|by eexists].
Qed.

(** C12: a successful search shows the tenant of the request its own documents and
    nothing else.  The status of a reply is 200, 400 or 503; with 200 the body
    is the JSON of a result whose documents all carry the tenant of the
    [X-Tenant-ID] header, were answered by the vector searcher for that tenant and
    are distinct; the top vectors are the first five of them in the order of the
    query's intent, ranked from 1 with their snippets; and the answer is what the
    language model said for the context built from these documents alone, not
    empty, readable, with its white space collapsed, and at most 1203 bytes. *)
Theorem search_response_scoped ctx r st resp st' :
  HandleSearch service LLM rand now decode_error remoteAddr ctx r st = (Some resp, st') ->
  (rs_Status resp = 200 \/ rs_Status resp = 400 \/ rs_Status resp = 503)
  /\ (rs_Status resp = 200 -> exists req id result ranked tops answer,
        decode_search (Body r) = Some req /\ TrimSpace (sr_QueryText req) <> ""
        /\ found service LLM ctx r (TrimSpace (sr_QueryText req)) (if sr_TopK req <=? 0 then 5 else sr_TopK req)
             id result ranked tops answer
        /\ rs_Body resp = search_json result answer tops).
Proof.
  intros [H|[H|(req & id & result & ranked & tops & answer & H1 & H2 & H3 & H4 & H5)]]%search_replies.
  - split; [tauto|lia].
  - split; [tauto|lia].
  - split; [tauto|]. intros _. by exists req, id, result, ranked, tops, answer.
Qed.

(** the stream of a search is complete and in order: its first event is the top
    vectors, its tokens spell the words of the answer, it cites every document of
    the result once, all of them the tenant's, and its last event is [done] with
    the citations and the top vectors again. *)
Theorem search_stream_complete flushable ctx r st evs st' :
  HandleSearchStream service LLM rand now decode_error remoteAddr flushable ctx r st
    = (Some (Search_stream evs), st') ->
  exists query id result ranked tops answer,
    found service LLM ctx r query 5 id result ranked tops answer
    /\ shown_text evs = (if decide (Fields answer = []) then "" else Join (Fields answer) " " +:+ " ")
    /\ cited evs = citation_json <$> ranked /\ ranked ≡ₚ res_Documents result
    /\ (forall tv, top_vectors_json tops = Some tv ->
          head evs ≫= event_get "topVectors" = Some tv
          /\ last evs ≫= event_get "type" = Some (JStr "done")
          /\ last evs ≫= event_get "topVectors" = Some tv
          /\ last evs ≫= event_get "citations" = Some (JArr (citation_json <$> ranked))).
Proof.
  unfold HandleSearchStream. destruct (decode_stream_query (Body r)) as [q|]; [|discriminate].
  run_M. destruct (request_id rand now ctx st) as [id st1]. cbn zeta.
  destruct (String.eqb (TrimSpace q) ""); [discriminate|].
  destruct (run_search _ _ _ _ _ _ _ _ st1) as [[[resp|[[[result ranked] tops] answer]]|] st2] eqn:Er;
    [discriminate| |discriminate].
  apply run_search_found in Er. destruct flushable; [|discriminate]. cbn [negb].
  intros H. apply (f_equal fst) in H. cbn [fst] in H. apply (inj Some) in H. injection H as <-.
  exists (TrimSpace q), id, result, ranked, tops, answer. split; [done|].
  destruct (stream_events_read result ranked tops answer) as (H1 & H2 & H3).
  split_and!; [|done|rewrite (fd_ranked _ _ _ _ _ _ _ _ _ _ _ Er); apply rank_perm|done].
  unfold shown_text. rewrite H1. case_decide as Hn; [by rewrite Hn|by apply words_spelled].
Qed.
End Theorems.

(** ** Witnesses *)

#[local] Existing Instance latin1.

Definition sample_llm (ctx : context) (query text : string) : M nat (result string) :=
  mret (Ok ("  Bob   wrote the notes " +:+ TruncateForDebugLog text 40)).
Definition quoted (s : string) : string := dquote +:+ s +:+ dquote.
Definition sample_search : Request := {|
  Method := "POST"; URLPath := "/api/v1/search"; Header := {[ "X-Tenant-Id" := ["acme"]; "User-Agent" := ["curl"] ]};
  PathValue _ := ""; Body := "{" +:+ quoted "queryText" +:+ ":" +:+ quoted " notes of Bob " +:+ "}" |}.
Definition search_once : M (RetrievalState nat) (option Response) :=
  HandleSearch sample_service (Some sample_llm) (mret (fun _ => None)) (mret 7) (fun _ => "") (fun _ => "10.0.0.1")
    Server.sample_ctx sample_search.
Definition stream_once : M (RetrievalState nat) (option search_reply) :=
  HandleSearchStream sample_service (Some sample_llm) (mret (fun _ => None)) (mret 7) (fun _ => "") (fun _ => "10.0.0.1")
    true Server.sample_ctx sample_search.

Lemma search_response_scoped_witness :
  let r := search_once (Retrieval.sample_state 0 1) in
  exists resp, r.1 = Some resp /\ rs_Status resp = 200
    /\ exists result tops answer, rs_Body resp = search_json result answer tops /\ rs_Body resp <> None
         /\ Forall (fun d => doc_TenantID d = "acme") (res_Documents result).
Proof.
  cbn zeta. destruct (search_once (Retrieval.sample_state 0 1)) as [[resp|] st'] eqn:E;
    [|vm_compute in E; discriminate].
  exists resp. assert (Hs : rs_Status resp = 200 /\ rs_Body resp <> None)
    by (vm_compute in E; injection E as <- _; split; [reflexivity|discriminate]).
  destruct Hs as [Hs Hb]. split; [reflexivity|]. split; [exact Hs|].
  unfold search_once in E. destruct (search_response_scoped _ _ _ _ _ _ _ _ _ _ _ E) as [_ H].
  destruct (H Hs) as (req & id & result & ranked & tops & answer & _ & _ & F & B).
  exists result, tops, answer. split; [exact B|]. split; [exact Hb|].
  eapply Forall_impl; [exact (fd_docs _ _ _ _ _ _ _ _ _ _ _ F)|]. intros d [Hd _]. exact Hd.
Defined.

Lemma search_stream_complete_witness :
  exists evs, (stream_once (Retrieval.sample_state 0 1)).1 = Some (Search_stream evs)
    /\ length (cited evs) = 2%nat /\ shown_text evs <> ""
    /\ exists result ranked, cited evs = citation_json <$> ranked /\ ranked ≡ₚ res_Documents result.
Proof.
  destruct (stream_once (Retrieval.sample_state 0 1)) as [[[resp|evs]|] st'] eqn:E;
    [vm_compute in E; discriminate| |vm_compute in E; discriminate].
  exists evs. split; [reflexivity|]. split; [|split].
  - vm_compute in E. injection E as <- _. reflexivity.
  - vm_compute in E. injection E as <- _. vm_compute. discriminate.
  - unfold stream_once in E. destruct (search_stream_complete _ _ _ _ _ _ _ _ _ _ _ _ E)
      as (query & id & result & ranked & tops & answer & _ & _ & Hc & Hp & _).
    exists result, ranked. split; [exact Hc|exact Hp].
Defined.
