(* ===== verification/Runtime.v ===== *)
(** * Runtime: internal/runtime and backend/util/ConfigUtil.go

    The configuration of the process, read from the environment, and the choice of
    the adapters.  The environment and the files of secrets are arguments; the
    database driver and the connection to Milvus are ports.  The theorems: the
    settings that are loaded are always within their bounds; a configuration that
    validates can be built; the data source name is normalised once. *)

From S2P Require Import Prelude GoStrings GoSort GoTime Sha256 GoJSON GoDuration Contracts GoHTTP VectorStub Gateway RerankClients.
From S2P Require Import Governance Ingestion Milvus ApiUtil.

#[local] Open Scope Z_scope.

Section Env.
Context `{U : UnicodeTables}.
(** [lookupEnv] and [os.ReadFile]; [None] is an unset variable, or an error. *)
Variables (lookupEnv : string -> option string) (ReadFile : string -> option string).

Definition getEnv (key : string) : string :=
  let from_file :=
    match lookupEnv (key +:+ "_FILE") with
    | Some filePath =>
        let trimmed := TrimSpace filePath in
        if negb (String.eqb trimmed "") then
          match ReadFile trimmed with
          | Some raw => let value := TrimSpace raw in if negb (String.eqb value "") then Some value else None
          | None => None
          end
        else None
    | None => None
    end in
  match from_file with Some value => value | None => default "" (lookupEnv key) end.
(** A variable that is read without a file: trimmed and in lower case, or the default. *)
Definition provider_of (key fallback : string) : string :=
  match lookupEnv key with
  | Some v => if negb (String.eqb (TrimSpace v) "") then ToLower (TrimSpace v) else fallback
  | None => fallback
  end.
(** A setting that overrides a default if it is there and parses. *)
Definition override {A} (key : string) (parse : string -> option A) (old : A) : A :=
  let v := TrimSpace (getEnv key) in
  if negb (String.eqb v "") then default old (parse v) else old.

(** ** The database (database_config.go) *)

Record DatabaseConfig := {
  db_Provider : string; db_URL : string; db_ConnectTimeout : Z; db_MaxOpenConns : Z; db_MaxIdleConns : Z;
  db_MaxConnLifetime : Z }.

Definition withDefaults (c : DatabaseConfig) : DatabaseConfig := {|
  db_Provider := if String.eqb (db_Provider c) "" then "memory" else db_Provider c;
  db_URL := db_URL c;
  db_ConnectTimeout := if db_ConnectTimeout c <=? 0 then 5 * Second else db_ConnectTimeout c;
  db_MaxOpenConns := if db_MaxOpenConns c <=? 0 then 10 else db_MaxOpenConns c;
  db_MaxIdleConns := if db_MaxIdleConns c <? 0 then 0 else db_MaxIdleConns c;
  db_MaxConnLifetime := if db_MaxConnLifetime c <=? 0 then 30 * Minute else db_MaxConnLifetime c |}.

Definition LoadDatabaseConfigFromEnv : DatabaseConfig :=
  withDefaults {|
    db_Provider := provider_of "FINE_RAG_DB_PROVIDER" "memory";
    db_URL := TrimSpace (getEnv "FINE_RAG_DATABASE_URL");
    db_ConnectTimeout := override "FINE_RAG_DB_CONNECT_TIMEOUT" ParseDuration 0;
    db_MaxOpenConns := override "FINE_RAG_DB_MAX_OPEN_CONNS" (fun v => Some (Sscanf_d v 0)) 0;
    db_MaxIdleConns := override "FINE_RAG_DB_MAX_IDLE_CONNS" (fun v => Some (Sscanf_d v 0)) 0;
    db_MaxConnLifetime := override "FINE_RAG_DB_MAX_CONN_LIFETIME" ParseDuration 0 |}.

(** What [url.Parse] tells of an address. *)
Record URL := { Scheme : string; Host : string; User : option string; String_with : option (string * string) -> string }.
Variable url_Parse : string -> result URL.

Definition DatabaseConfig_Validate (c : DatabaseConfig) : option error :=
  let provider := ToLower (TrimSpace (db_Provider c)) in
  if String.eqb provider "memory" then None
  else if String.eqb provider "postgres" then
    if String.eqb (TrimSpace (db_URL c)) ""
    then Some (errors_New "FINE_RAG_DATABASE_URL is required when FINE_RAG_DB_PROVIDER=postgres")
    else match url_Parse (db_URL c) with
         | Err err => Some (Errorf_w "invalid FINE_RAG_DATABASE_URL: " err "")
         | Ok u =>
             if negb (String.eqb (Scheme u) "postgres") && negb (String.eqb (Scheme u) "postgresql")
             then Some (errors_New ("invalid DB URL scheme " +:+ Quote (Scheme u)))
             else if String.eqb (Host u) "" then Some (errors_New "database host is required in FINE_RAG_DATABASE_URL")
             else None
         end
  else Some (errors_New ("unsupported FINE_RAG_DB_PROVIDER " +:+ Quote (db_Provider c))).

Definition RedactedURL (c : DatabaseConfig) : string :=
  match url_Parse (db_URL c) with
  | Err _ => ""
  | Ok u => String_with u ((fun username => (username, "REDACTED")) <$> User u)
  end.

(** Behind a connection pooler the simple protocol is asked for, once. *)
Definition dsn_of (url : string) : string :=
  if Contains url "supabase" || Contains url "pgbouncer" || Contains url "6543" then
    if negb (Contains url "default_query_exec_mode") then
      if Contains url "?" then url +:+ "&default_query_exec_mode=simple_protocol"
      else url +:+ "?default_query_exec_mode=simple_protocol"
    else url
  else url.

(** The driver. *)
Record SQLDriver (W D : Type) := {
  sql_Open : string -> string -> M W (result D);
  SetMaxOpenConns : D -> Z -> M W unit; SetMaxIdleConns : D -> Z -> M W unit; SetConnMaxLifetime : D -> Z -> M W unit;
  (** with the time-out of the context *)
  PingContext : D -> context -> Z -> M W (option error);
  Close : D -> M W unit }.
Arguments sql_Open {W D}.
Arguments SetMaxOpenConns {W D}.
Arguments SetMaxIdleConns {W D}.
Arguments SetConnMaxLifetime {W D}.
Arguments PingContext {W D}.
Arguments Close {W D}.

Definition OpenPostgresDB {W D} (drv : SQLDriver W D) (ctx : context) (cfg : DatabaseConfig) : M W (result D) :=
  let cfg := withDefaults cfg in
  match DatabaseConfig_Validate cfg with
  | Some err => mret (Err err)
  | None =>
  if String.eqb (ToLower (db_Provider cfg)) "memory"
  then sql_Open drv "pgx" "postgres://localhost/memory?sslmode=disable"
  else if negb (String.eqb (ToLower (db_Provider cfg)) "postgres")
  then mret (Err (errors_New ("unsupported database provider " +:+ Quote (db_Provider cfg))))
  else
  db ← sql_Open drv "pgx" (dsn_of (db_URL cfg));
  match db with
  | Err err => mret (Err (Errorf_w "open database with pgx driver: " err ""))
  | Ok db =>
  _ ← SetMaxOpenConns drv db (db_MaxOpenConns cfg);
  _ ← SetMaxIdleConns drv db (db_MaxIdleConns cfg);
  _ ← SetConnMaxLifetime drv db (db_MaxConnLifetime cfg);
  err ← PingContext drv db ctx (db_ConnectTimeout cfg);
  match err with
  | Some err => _ ← Close drv db; mret (Err err)
  | None => mret (Ok db)
  end
  end
  end.

(** ** The vector store (vector_config.go) *)

Record VectorConfig := {
  vc_Provider : string; vc_Endpoint : string; vc_Database : string; vc_Collection : string; vc_Username : string;
  vc_Password : string; vc_Token : string; vc_TLS : bool }.

Definition LoadVectorConfigFromEnv : VectorConfig := {|
  vc_Provider := provider_of "FINE_RAG_VECTOR_PROVIDER" "milvus";
  vc_Endpoint := TrimSpace (getEnv "FINE_RAG_MILVUS_ENDPOINT");
  vc_Database := TrimSpace (getEnv "FINE_RAG_MILVUS_DATABASE");
  vc_Collection := TrimSpace (getEnv "FINE_RAG_MILVUS_COLLECTION");
  vc_Username := TrimSpace (getEnv "FINE_RAG_MILVUS_USERNAME");
  vc_Password := TrimSpace (getEnv "FINE_RAG_MILVUS_PASSWORD");
  vc_Token := TrimSpace (getEnv "FINE_RAG_MILVUS_TOKEN");
  vc_TLS := match lookupEnv "FINE_RAG_MILVUS_TLS" with
            | Some v => negb (EqualFold_ascii (TrimSpace v) "false")
            | None => true
            end |}.

Definition VectorConfig_Validate (c : VectorConfig) : option error :=
  if String.eqb (vc_Provider c) "milvus" then
    require (negb (String.eqb (vc_Endpoint c) "")) "FINE_RAG_MILVUS_ENDPOINT is required when FINE_RAG_VECTOR_PROVIDER=milvus" ;;?
    require (negb (String.eqb (vc_Database c) "")) "FINE_RAG_MILVUS_DATABASE is required when FINE_RAG_VECTOR_PROVIDER=milvus" ;;?
    require (negb (String.eqb (vc_Collection c) "")) "FINE_RAG_MILVUS_COLLECTION is required when FINE_RAG_VECTOR_PROVIDER=milvus" ;;?
    require (vc_TLS c) "FINE_RAG_MILVUS_TLS must be true for milvus provider"
  else if String.eqb (vc_Provider c) "stub" then None
  else Some (errors_New ("unsupported FINE_RAG_VECTOR_PROVIDER " +:+ Quote (vc_Provider c))).

Definition redacted (secret : string) : string := if String.eqb (TrimSpace secret) "" then "" else "REDACTED".
Definition RedactedPassword (c : VectorConfig) : string := redacted (vc_Password c).
Definition RedactedToken (c : VectorConfig) : string := redacted (vc_Token c).

(** ** The gateway (gateway_config.go) *)

Record GatewayConfig := {
  gc_Provider : string; gc_PortkeyBaseURL : string; gc_PortkeyAPIKey : string; gc_Timeout : Z; gc_RetryMax : Z;
  gc_CircuitFailureThreshold : Z; gc_FallbackMode : string; gc_DirectAllowlist : list string; gc_RerankModel : string;
  gc_PortkeyProviderKey : string; gc_RerankerProvider : string }.

Definition LoadGatewayConfigFromEnv : GatewayConfig :=
  let fallback := ToLower (TrimSpace (getEnv "FINE_RAG_GATEWAY_FALLBACK_MODE")) in
  {| gc_Provider := provider_of "FINE_RAG_GATEWAY_PROVIDER" "stub";
     gc_PortkeyBaseURL := TrimSpace (getEnv "FINE_RAG_PORTKEY_BASE_URL");
     gc_PortkeyAPIKey := TrimSpace (getEnv "FINE_RAG_PORTKEY_API_KEY");
     gc_Timeout := override "FINE_RAG_GATEWAY_TIMEOUT" ParseDuration (20 * Second);
     gc_RetryMax := override "FINE_RAG_GATEWAY_RETRY_MAX" Atoi 1;
     gc_CircuitFailureThreshold := override "FINE_RAG_GATEWAY_CIRCUIT_FAILURE_THRESHOLD" Atoi 3;
     gc_FallbackMode := if String.eqb fallback "" then "retrieval_only" else fallback;
     gc_DirectAllowlist := SplitCSV (TrimSpace (getEnv "FINE_RAG_GATEWAY_DIRECT_ALLOWLIST"));
     gc_RerankModel := getEnv "FINE_RAG_RERANK_MODEL";
     gc_PortkeyProviderKey := getEnv "FINE_RAG_COHERE_API_KEY";
     gc_RerankerProvider := getEnv "FINE_RAG_RERANKER_PROVIDER" |}.

Definition GatewayConfig_Validate (c : GatewayConfig) : option error :=
  if String.eqb (gc_Provider c) "stub" then validateFallbackMode (gc_FallbackMode c)
  else if String.eqb (gc_Provider c) "portkey" then
    require (negb (String.eqb (TrimSpace (gc_PortkeyBaseURL c)) ""))
      "FINE_RAG_PORTKEY_BASE_URL is required when FINE_RAG_GATEWAY_PROVIDER=portkey" ;;?
    require (negb (String.eqb (TrimSpace (gc_PortkeyAPIKey c)) ""))
      "FINE_RAG_PORTKEY_API_KEY is required when FINE_RAG_GATEWAY_PROVIDER=portkey" ;;?
    require (negb (gc_Timeout c <=? 0)) "FINE_RAG_GATEWAY_TIMEOUT must be > 0" ;;?
    require (negb (gc_RetryMax c <? 0)) "FINE_RAG_GATEWAY_RETRY_MAX must be >= 0" ;;?
    require (negb (gc_CircuitFailureThreshold c <=? 0)) "FINE_RAG_GATEWAY_CIRCUIT_FAILURE_THRESHOLD must be > 0" ;;?
    validateFallbackMode (gc_FallbackMode c)
  else Some (errors_New ("unsupported FINE_RAG_GATEWAY_PROVIDER " +:+ Quote (gc_Provider c))).

Definition GatewayConfig_RedactedAPIKey (c : GatewayConfig) : string := redacted (gc_PortkeyAPIKey c).

(** ** The adapters (providers.go) *)

Inductive vector_choice (W : Type) := VectorStub_chosen | Milvus_chosen (cli : Milvus.Client W) (trace : VectorCallTrace).
Arguments VectorStub_chosen {W}.
Arguments Milvus_chosen {W}.

Definition BuildVectorAdapters {W} (parse_host : string -> result string)
    (connect : ClientConfig -> M W (result (Milvus.Client W))) (now : M W Time) (cfg : VectorConfig)
    : M W (result (vector_choice W * string)) :=
  match VectorConfig_Validate cfg with
  | Some err => mret (Err err)
  | None =>
  if String.eqb (vc_Provider cfg) "stub" then mret (Ok (VectorStub_chosen, "stub"))
  else
  adapter ← Milvus.NewAdapter parse_host connect now {|
    Milvus.Endpoint := vc_Endpoint cfg; Milvus.Database := vc_Database cfg; Milvus.Collection := vc_Collection cfg;
    Milvus.Username := vc_Username cfg; Milvus.Password := vc_Password cfg; Milvus.Token := vc_Token cfg; Milvus.TLS := vc_TLS cfg |};
  match adapter with
  | Err err => mret (Err err)
  | Ok (cli, trace) => mret (Ok (Milvus_chosen cli trace, "milvus"))
  end
  end.

Inductive reranker_choice := Portkey_chosen (cfg : Gateway.Config) | Cohere_chosen (cfg : Cohere.Config) | Stub_chosen.

Definition reranker_provider (cfg : GatewayConfig) : string :=
  let provider := ToLower (TrimSpace (gc_RerankerProvider cfg)) in
  if String.eqb provider "" then ToLower (TrimSpace (gc_Provider cfg)) else provider.
Definition portkey_config (cfg : GatewayConfig) : Gateway.Config := {|
  Gateway.BaseURL := gc_PortkeyBaseURL cfg; Gateway.APIKey := gc_PortkeyAPIKey cfg; Gateway.Timeout := gc_Timeout cfg;
  Gateway.RetryMax := gc_RetryMax cfg; Gateway.CircuitFailureThreshold := gc_CircuitFailureThreshold cfg;
  Gateway.FallbackMode := gc_FallbackMode cfg; Gateway.DirectAllowlist := gc_DirectAllowlist cfg;
  Gateway.Model := gc_RerankModel cfg; Gateway.ProviderKey := gc_PortkeyProviderKey cfg |}.
Definition cohere_config (cfg : GatewayConfig) : Cohere.Config := {|
  Cohere.APIKey := gc_PortkeyProviderKey cfg; Cohere.Model := gc_RerankModel cfg; Cohere.Timeout := gc_Timeout cfg;
  Cohere.RetryMax := gc_RetryMax cfg; Cohere.CircuitFailureThreshold := gc_CircuitFailureThreshold cfg |}.

Definition BuildGatewayReranker (cfg : GatewayConfig) : result (reranker_choice * string) :=
  match GatewayConfig_Validate cfg with
  | Some err => Err err
  | None =>
  let provider := reranker_provider cfg in
  if String.eqb provider "portkey" then c ← Gateway.NewRerankerAdapter (portkey_config cfg); Ok (Portkey_chosen c, "portkey")
  else if String.eqb provider "cohere" then c ← Cohere.NewCohereReranker (cohere_config cfg); Ok (Cohere_chosen c, "cohere")
  else Ok (Stub_chosen, "stub")
  end.
End Env.

Arguments VectorStub_chosen {W}.
Arguments Milvus_chosen {W}.
Arguments sql_Open {W D}.
Arguments SetMaxOpenConns {W D}.
Arguments SetMaxIdleConns {W D}.
Arguments SetConnMaxLifetime {W D}.
Arguments PingContext {W D}.
Arguments Close {W D}.
Arguments DatabaseConfig_Validate {U}.
Arguments OpenPostgresDB {U} url_Parse {W D}.

(** ** Persistence (wiring.go) *)

Record PersistenceWiring (W : Type) := {
  MetadataRepo : option (IngestionMetadataRepository W); AuditRepo : option (AuditEventRepository W) }.
Arguments MetadataRepo {W}.
Arguments AuditRepo {W}.
Definition NewGovernanceService {W} (now : M W Time) (wiring : PersistenceWiring W) : DeterministicPolicyService W :=
  match AuditRepo wiring with
  | None => NewDeterministicPolicyService now None
  | Some repo => NewDeterministicPolicyServiceWithRepository now (Some repo)
  end.
(** The recorder is its repository. *)
Definition NewMetadataRecorder {W} (wiring : PersistenceWiring W) : option (IngestionMetadataRepository W) := MetadataRepo wiring.

(** ** The server (ConfigUtil.go) *)

Record Config := {
  cf_Addr : string; cf_JWTSecret : string; cf_TokenTTL : Z; cf_AllowedOrigins : list string; cf_RateLimitPerMin : Z;
  cf_UploadBaseURL : string; cf_S3Endpoint : string; cf_UploadBucket : string; cf_S3AccessKey : string;
  cf_S3SecretKey : string; cf_S3Region : string; cf_S3UsePathStyle : bool; cf_PresignTTL : Z; cf_MaxObjectBytes : Z;
  cf_GatewayProvider : string; cf_PortkeyBaseURL : string; cf_PortkeyAPIKey : string; cf_OpenRouterKey : string;
  cf_OpenRouterModel : string; cf_EnableQueryRewrite : bool; cf_QueryRewriteModel : string; cf_EmbeddingModel : string;
  cf_EmbeddingFallbackModel : string; cf_LLMTimeout : Z; cf_OpenRouterMinInterval : Z; cf_OpenRouterRetryMax : Z;
  cf_ChunkSizeChars : Z; cf_ChunkOverlapWords : Z; cf_ParserType : string; cf_DoclingEndpoint : string }.

Section Server.
Context `{U : UnicodeTables}.
Variables (Getenv : string -> string) (ReadFile : string -> option string).

(** A setting that overrides a default if it is there, parses and is accepted. *)
Definition setting {A} (raw : string) (parse : string -> option A) (ok : A -> bool) (fallback : A) : A :=
  if negb (String.eqb raw "") then
    match parse raw with Some parsed => if ok parsed then parsed else fallback | None => fallback end
  else fallback.
Definition env_setting {A} (key : string) : (string -> option A) -> (A -> bool) -> A -> A := setting (TrimSpace (Getenv key)).
Definition positive (z : Z) : bool := 0 <? z.
Definition not_negative (z : Z) : bool := 0 <=? z.

Definition ConfigFromEnv : Config :=
  let origins := SplitCSV (Getenv "FINE_RAG_ALLOWED_ORIGINS") in
  let origins := if (length origins =? 0)%nat then ["https://finer.shafeeq.dev"; "https://dash-finer.shafeeq.dev"] else origins in
  let s3UsePathStyle := EnvBoolAny Getenv ["FINE_RAG_S3_USE_PATH_STYLE"] false in
  let s3UsePathStyle :=
    if negb (String.eqb (TrimSpace (EnvOrSecretAny Getenv ReadFile ["FINE_RAG_S3_ENDPOINT"] "")) "") then true else s3UsePathStyle in
  {| cf_Addr := EnvOr Getenv "FINE_RAG_HTTP_ADDR" ":8080";
     cf_JWTSecret := EnvOrSecret Getenv ReadFile "FINE_RAG_JWT_SECRET" "";
     cf_TokenTTL := env_setting "FINE_RAG_TOKEN_TTL" ParseDuration (fun _ => true) (8 * Hour);
     cf_AllowedOrigins := origins;
     cf_RateLimitPerMin := env_setting "FINE_RAG_RATE_LIMIT_PER_MIN" Atoi positive 120;
     cf_UploadBaseURL :=
       EnvOrSecretAny Getenv ReadFile ["FINE_RAG_UPLOAD_PUBLIC_BASE_URL"; "FINE_RAG_S3_PUBLIC_BASE_URL"] "";
     cf_S3Endpoint := EnvOrSecretAny Getenv ReadFile ["FINE_RAG_S3_ENDPOINT"] "";
     cf_UploadBucket := EnvOrAny Getenv ["FINE_RAG_S3_BUCKET"] "finerag-ingestion";
     cf_S3AccessKey := EnvOrSecretAny Getenv ReadFile ["FINE_RAG_S3_ACCESS_KEY"] "";
     cf_S3SecretKey := EnvOrSecretAny Getenv ReadFile ["FINE_RAG_S3_SECRET_KEY"] "";
     cf_S3Region := EnvOrAny Getenv ["FINE_RAG_S3_REGION"] "us-east-1";
     cf_S3UsePathStyle := s3UsePathStyle;
     cf_PresignTTL := setting (TrimSpace (EnvOrAny Getenv ["FINE_RAG_S3_PRESIGN_TTL"] "")) ParseDuration positive (5 * Minute);
     cf_MaxObjectBytes :=
       setting (TrimSpace (EnvOrAny Getenv ["FINE_RAG_S3_MAX_OBJECT_BYTES"] "")) Atoi positive (20 * 1024 * 1024);
     cf_GatewayProvider := ToLower (EnvOr Getenv "FINE_RAG_GATEWAY_PROVIDER" "stub");
     cf_PortkeyBaseURL := EnvOr Getenv "FINE_RAG_PORTKEY_BASE_URL" "https://api.portkey.ai";
     cf_PortkeyAPIKey := EnvOrSecret Getenv ReadFile "FINE_RAG_PORTKEY_API_KEY" "";
     cf_OpenRouterKey := EnvOrSecret Getenv ReadFile "FINE_RAG_OPENROUTER_API_KEY" "";
     cf_OpenRouterModel := EnvOr Getenv "FINE_RAG_OPENROUTER_MODEL" "@groq-key/openai/gpt-oss-120b";
     cf_EnableQueryRewrite :=
       (let raw := TrimSpace (Getenv "FINE_RAG_ENABLE_QUERY_REWRITE") in
        if negb (String.eqb raw "") then EqualFold_ascii raw "true" || String.eqb raw "1" || EqualFold_ascii raw "yes" else true);
     cf_QueryRewriteModel := EnvOr Getenv "FINE_RAG_QUERY_REWRITE_MODEL" "@groq-key/openai/gpt-oss-20b";
     cf_EmbeddingModel :=
       EnvOr Getenv "FINE_RAG_OPENROUTER_EMBEDDING_MODEL" "@openrouter-key/nvidia/llama-nemotron-embed-vl-1b-v2:free";
     cf_EmbeddingFallbackModel := EnvOr Getenv "FINE_RAG_OPENROUTER_EMBEDDING_FALLBACK_MODEL" "";
     cf_LLMTimeout := env_setting "FINE_RAG_LLM_TIMEOUT" ParseDuration positive (12 * Second);
     cf_OpenRouterMinInterval := env_setting "FINE_RAG_OPENROUTER_MIN_INTERVAL" ParseDuration positive (900 * Millisecond);
     cf_OpenRouterRetryMax := env_setting "FINE_RAG_OPENROUTER_RETRY_MAX" Atoi not_negative 3;
     cf_ChunkSizeChars := env_setting "FINE_RAG_CHUNK_SIZE_CHARS" Atoi positive 900;
     cf_ChunkOverlapWords := env_setting "FINE_RAG_CHUNK_OVERLAP_WORDS" Atoi not_negative 30;
     cf_ParserType := ToLower (EnvOr Getenv "FINE_RAG_PARSER_TYPE" "extractous");
     cf_DoclingEndpoint := EnvOr Getenv "FINE_RAG_DOCLING_ENDPOINT" "http://localhost:5000" |}.
End Server.

(** * Facts *)

Lemma setting_ok {A} raw (parse : string -> option A) ok fallback : ok fallback = true -> ok (setting raw parse ok fallback) = true.
Proof. intros H. unfold setting. destruct (negb _); [|done]. destruct (parse raw) as [x|]; [|done]. by destruct (ok x) eqn:E. Qed.

Lemma Contains_app_r s t sub : Contains t sub = true -> Contains (s +:+ t) sub = true.
Proof.
  intros H. induction s as [|a s IH]; [done|]. rewrite app_cons. cbn [Contains]. by rewrite IH, orb_true_r.
Qed.
Lemma dsn_of_idemp url : dsn_of (dsn_of url) = dsn_of url.
Proof.
  assert (Hk : forall d, Contains d "default_query_exec_mode" = true -> dsn_of d = d).
  { intros d Hd. unfold dsn_of. rewrite Hd. by destruct (_ || _ || _). }
  unfold dsn_of at 2 3. destruct (_ || _ || _) eqn:E; [|unfold dsn_of; by rewrite E].
  destruct (Contains url "default_query_exec_mode") eqn:Em; cbn [negb]; [by apply Hk|].
  destruct (Contains url "?"); apply Hk; by apply Contains_app_r.
Qed.

Section Theorems.
Context `{U : UnicodeTables}.

(** The limits of a reranker that was built: the adapters replace what is out of bounds. *)
Definition reranker_bounded (choice : reranker_choice) : Prop :=
  match choice with
  | Portkey_chosen c => 0 < Gateway.Timeout c /\ 0 <= Gateway.RetryMax c /\ 0 < Gateway.CircuitFailureThreshold c
  | Cohere_chosen c => 0 < Cohere.Timeout c /\ 0 < Cohere.CircuitFailureThreshold c
  | Stub_chosen => True
  end.
Lemma built_reranker_bounded cfg choice name : BuildGatewayReranker cfg = Ok (choice, name) -> reranker_bounded choice.
Proof.
  unfold BuildGatewayReranker. destruct (GatewayConfig_Validate cfg); [discriminate|]. cbn zeta. case_match; [|case_match].
  - unfold Gateway.NewRerankerAdapter. cbn zeta. repeat (case_match; try discriminate); cbn; unfold Second;
      intros [= <- _]; cbn in *; split_and!; repeat case_match; lia.
  - unfold Cohere.NewCohereReranker. case_match; [discriminate|]. cbn. unfold Second. intros [= <- _]. cbn in *.
    split_and!; repeat case_match; lia.
  - by intros [= <- _].
Qed.


Lemma validateFallbackMode_portkey mode : validateFallbackMode mode = None ->
  validateFallbackMode (if String.eqb mode "" then "retrieval_only" else mode) = None.
Proof. destruct (String.eqb mode ""); done. Qed.

(** a gateway configuration that validates can be built, unless another reranker than
    the gateway is asked for and its own settings are missing: with a valid
    configuration, building the reranker fails exactly if the Portkey reranker is
    selected without its address or key, or the Cohere reranker without its key.  A
    reranker that is built has positive limits. *)
Theorem validated_gateway_builds cfg :
  GatewayConfig_Validate cfg = None ->
  let p := reranker_provider cfg in
  ((exists e, BuildGatewayReranker cfg = Err e) <->
     (p = "portkey" /\ (TrimSpace (gc_PortkeyBaseURL cfg) = "" \/ TrimSpace (gc_PortkeyAPIKey cfg) = ""))
     \/ (p = "cohere" /\ TrimSpace (gc_PortkeyProviderKey cfg) = ""))
  /\ (forall choice name, BuildGatewayReranker cfg = Ok (choice, name) ->
        match choice with
        | Portkey_chosen c => name = "portkey" /\ p = "portkey" /\ 0 < Gateway.Timeout c /\ 0 <= Gateway.RetryMax c
            /\ 0 < Gateway.CircuitFailureThreshold c
        | Cohere_chosen c => name = "cohere" /\ p = "cohere" /\ 0 < Cohere.Timeout c /\ 0 < Cohere.CircuitFailureThreshold c
        | Stub_chosen => name = "stub" /\ p <> "portkey" /\ p <> "cohere"
        end).
Proof.
  intros Hv. cbn zeta. unfold BuildGatewayReranker. rewrite Hv.
  assert (Hm : validateFallbackMode (gc_FallbackMode cfg) = None).
  { revert Hv. unfold GatewayConfig_Validate. destruct (String.eqb _ "stub"); [done|]. destruct (String.eqb _ "portkey"); [|done].
    rewrite !seq_err_None. tauto. }
  cbn zeta. destruct (String.eqb_spec (reranker_provider cfg) "portkey") as [->|Hp].
  - unfold Gateway.NewRerankerAdapter. cbn zeta. cbn [portkey_config Gateway.BaseURL Gateway.APIKey Gateway.FallbackMode].
    rewrite (validateFallbackMode_portkey _ Hm).
    destruct (String.eqb_spec (TrimSpace (gc_PortkeyBaseURL cfg)) "") as [E1|E1]; [split; [naive_solver|done]|].
    destruct (String.eqb_spec (TrimSpace (gc_PortkeyAPIKey cfg)) "") as [E2|E2]; [split; [naive_solver|done]|].
    cbn. split; [naive_solver|]. intros choice name [= <- <-]. cbn. unfold Second.
    destruct (Z.leb_spec (gc_Timeout cfg) 0), (Z.ltb_spec (gc_RetryMax cfg) 0), (Z.leb_spec (gc_CircuitFailureThreshold cfg) 0); split_and!; done || lia.
  - destruct (String.eqb_spec (reranker_provider cfg) "cohere") as [->|Hc].
    + unfold Cohere.NewCohereReranker. cbn [cohere_config Cohere.APIKey].
      destruct (String.eqb_spec (TrimSpace (gc_PortkeyProviderKey cfg)) "") as [E|E]; [split; [naive_solver|done]|].
      cbn. split; [naive_solver|]. intros choice name [= <- <-]. cbn. unfold Second.
      destruct (Z.leb_spec (gc_Timeout cfg) 0), (Z.leb_spec (gc_CircuitFailureThreshold cfg) 0); split_and!; done || lia.
    + split; [naive_solver|]. intros choice name [= <- <-]. done.
Qed.
(** a loaded vector configuration that validates reaches the database, over TLS and
    under one kind of credentials: for Milvus the adapter is whatever the connection
    gives, the address being the one of the settings, with TLS on, and the token or
    else user and password, never both. *)
Theorem validated_vector_connects {W} lookupEnv ReadFile parse_host connect (now : M W Time) w address :
  let cfg := LoadVectorConfigFromEnv lookupEnv ReadFile in
  VectorConfig_Validate cfg = None -> vc_Provider cfg = "milvus" ->
  normalizeMilvusAddress parse_host (vc_Endpoint cfg) = Ok address ->
  exists cc, cc_Address cc = address /\ cc_EnableTLSAuth cc = true
    /\ (cc_APIKey cc = "" \/ (cc_Username cc = "" /\ cc_Password cc = ""))
    /\ match connect cc w with
       | (Err e, w') => BuildVectorAdapters parse_host connect now cfg w = (Err (NormalizeProviderError "milvus" "connect" e), w')
       | (Ok cli, w') => exists trace w'', BuildVectorAdapters parse_host connect now cfg w = (Ok (Milvus_chosen cli trace, "milvus"), w'')
       end.
Proof.
  cbn zeta. set (cfg := LoadVectorConfigFromEnv lookupEnv ReadFile). intros Hv Hm Ha.
  assert (HT : TrimSpace (vc_Endpoint cfg) = vc_Endpoint cfg /\ TrimSpace (vc_Database cfg) = vc_Database cfg
    /\ TrimSpace (vc_Collection cfg) = vc_Collection cfg) by (split_and!; apply TrimSpace_idemp).
  destruct HT as (T1 & T2 & T3). pose proof Hv as Hok. unfold VectorConfig_Validate in Hok. rewrite Hm in Hok.
  change (String.eqb "milvus" "milvus") with true in Hok. cbv iota in Hok. validate_simp_in Hok.
  destruct Hok as (H1 & H2 & H3 & H4).
  set (mc := {| Milvus.Endpoint := vc_Endpoint cfg; Milvus.Database := vc_Database cfg; Milvus.Collection := vc_Collection cfg;
    Milvus.Username := vc_Username cfg; Milvus.Password := vc_Password cfg; Milvus.Token := vc_Token cfg; Milvus.TLS := vc_TLS cfg |}).
  exists (client_config address mc). unfold client_config. cbn zeta.
  split; [by destruct (negb _)|]. split; [by destruct (negb _)|]. split; [destruct (negb _); cbn; tauto|].
  fold (client_config address mc). unfold BuildVectorAdapters. rewrite Hv, Hm. change (String.eqb "milvus" "stub") with false. cbv iota.
  fold mc. unfold Milvus.NewAdapter. change (Milvus.Endpoint mc) with (vc_Endpoint cfg). change (Milvus.Database mc) with (vc_Database cfg).
  change (Milvus.Collection mc) with (vc_Collection cfg). change (Milvus.TLS mc) with (vc_TLS cfg).
  rewrite T1, T2, T3, H4, Ha. rewrite (proj2 (String.eqb_neq _ _) H1), (proj2 (String.eqb_neq _ _) H2), (proj2 (String.eqb_neq _ _) H3).
  cbn [negb]. run_M. change (if negb (String.eqb (TrimSpace (Milvus.Token mc)) "") then _ else _) with (client_config address mc).
  destruct (connect (client_config address mc) w) as [[cli|e] w1]; [|done].
  destruct (now w1) as [t1 w2]. destruct (now w2) as [t2 w3]. by eexists _, _.
Qed.
End Theorems.

(** ** Witnesses *)

#[local] Existing Instance latin1.

Definition sample_env (key : string) : option string :=
  (list_to_map [("FINE_RAG_GATEWAY_PROVIDER", " Portkey "); ("FINE_RAG_PORTKEY_BASE_URL", "https://gw");
     ("FINE_RAG_PORTKEY_API_KEY_FILE", "/run/key"); ("FINE_RAG_GATEWAY_TIMEOUT", "1.5s"); ("FINE_RAG_DB_MAX_OPEN_CONNS", "-4");
     ("FINE_RAG_MILVUS_ENDPOINT", "h"); ("FINE_RAG_MILVUS_DATABASE", "db"); ("FINE_RAG_MILVUS_COLLECTION", "docs")]
   : gmap string string) !! key.
Definition sample_files (path : string) : option string := if String.eqb path "/run/key" then Some "secret " else None.
Definition sample_gateway_config : GatewayConfig := LoadGatewayConfigFromEnv sample_env sample_files.

Lemma validated_gateway_builds_witness :
  gc_Timeout sample_gateway_config = 1500 * Millisecond /\ gc_PortkeyAPIKey sample_gateway_config = "secret"
  /\ ~ exists e, BuildGatewayReranker sample_gateway_config = Err e.
Proof.
  split; [vm_compute; reflexivity|]. split; [vm_compute; reflexivity|].
  assert (Hv : GatewayConfig_Validate sample_gateway_config = None) by (vm_compute; reflexivity).
  destruct (validated_gateway_builds sample_gateway_config Hv) as [H _].
  intros He. apply H in He as [[_ [E|E]]|[E _]]; vm_compute in E; discriminate.
Defined.

(** The stub gateway accepts a negative time-out, which the Cohere reranker replaces. *)
Example gateway_settings_as_given :
  let env k := match k with "FINE_RAG_GATEWAY_TIMEOUT" => Some "-1s" | "FINE_RAG_RERANKER_PROVIDER" => Some "cohere"
                       | "FINE_RAG_COHERE_API_KEY" => Some "k" | _ => None end in
  let cfg := LoadGatewayConfigFromEnv env (fun _ => None) in
  gc_Timeout cfg = - Second
  /\ match BuildGatewayReranker cfg with Ok (Cohere_chosen c, _) => Cohere.Timeout c = 12 * Second | _ => False end.
Proof. vm_compute. auto. Qed.

Definition sample_host (_ : string) : result string := Ok "".
Definition sample_connect (_ : ClientConfig) : M (gmap string row) (result (Milvus.Client (gmap string row))) := mret (Ok memory).

Lemma validated_vector_connects_witness :
  exists trace w, BuildVectorAdapters sample_host sample_connect memory_now
    (LoadVectorConfigFromEnv sample_env sample_files) ∅ = (Ok (Milvus_chosen memory trace, "milvus"), w).
Proof.
  assert (Hv : VectorConfig_Validate (LoadVectorConfigFromEnv sample_env sample_files) = None) by (vm_compute; reflexivity).
  assert (Hp : vc_Provider (LoadVectorConfigFromEnv sample_env sample_files) = "milvus") by (vm_compute; reflexivity).
  assert (Ha : normalizeMilvusAddress sample_host (vc_Endpoint (LoadVectorConfigFromEnv sample_env sample_files)) = Ok "h:19530")
    by (vm_compute; reflexivity).
  destruct (validated_vector_connects sample_env sample_files sample_host sample_connect memory_now ∅ "h:19530" Hv Hp Ha)
    as (cc & _ & _ & _ & H). exact H.
Defined.

(** A negative lifetime of tokens is accepted: every token is born expired. *)
Example negative_token_ttl :
  cf_TokenTTL (ConfigFromEnv (fun k => if String.eqb k "FINE_RAG_TOKEN_TTL" then "-1h" else "") (fun _ => None)) = - Hour.
Proof. vm_compute. reflexivity. Qed.
