(* ===== verification/Wiring.v ===== *)
(** * Wiring: NewServer and BuildRuntimeDependencies of backend/util/serverUtil.go, and the
    document parsers of internal/adapters/parser

    How the server is put together from its configuration: which clients exist, which
    parser, which origins.  Loading the AWS configuration, the extraction library and the
    connections are ports.  The theorems: what [NewServer] rejects, that a client whose
    settings are incomplete is silently left out, and that without a language model
    no search ever succeeds. *)

From S2P Require Import Prelude GoStrings GoSort GoTime Sha256 GoJSON GoFloat Contracts GoHTTP VectorStub Gateway RerankClients.
From S2P Require Import Chat Embeddings Retrieval TextUtil Milvus ApiUtil Server Managers IngestJobs SearchApi Runtime.

#[local] Open Scope Z_scope.

(** ** Parsers *)

Module Docling.

Record Config := { Endpoint : string; Timeout : Z }.
Definition NewAdapter (cfg : Config) : Config := {|
  Endpoint := Endpoint cfg; Timeout := if Timeout cfg =? 0 then 120 * Second else Timeout cfg |}.

Definition crlf : string := String (byte_of 13) (String (byte_of 10) "").
(** The form with the one file [document], for a boundary. *)
Definition form_data (boundary payload : string) : string :=
  "--" +:+ boundary +:+ crlf
  +:+ "Content-Disposition: form-data; name=" +:+ dq +:+ "file" +:+ dq +:+ "; filename=" +:+ dq +:+ "document" +:+ dq +:+ crlf
  +:+ "Content-Type: application/octet-stream" +:+ crlf +:+ crlf
  +:+ payload +:+ crlf +:+ "--" +:+ boundary +:+ "--" +:+ crlf.

Record reply := { Markdown : string; Text : string }.
Definition reply_fields : list (field reply) := [
  str_field "markdown" (fun r s => {| Markdown := s; Text := Text r |});
  str_field "text" (fun r s => {| Markdown := Markdown r; Text := s |})].

Section Parse.
Context {W : Type}.
Variables (cl : HTTPClient W) (cfg : Config).
(** The random boundary of [multipart.NewWriter]. *)
Variable boundary : M W string.

Definition Parse (ctx : context) (tenantID : TenantID) (contentType payload : string) : M W (result string) :=
  if String.eqb (Endpoint cfg) "" then mret (Err (errors_New "docling endpoint is required"))
  else
  b ← boundary;
  match NewRequest cl ctx "POST" (Endpoint cfg +:+ "/convert") (form_data b payload) with
  | Err err => mret (Err (Errorf_w "failed to create request: " err ""))
  | Ok req =>
  let req := Header_Set "Content-Type" ("multipart/form-data; boundary=" +:+ b) req in
  let req := Header_Set "X-Tenant-ID" tenantID req in
  resp ← Do cl ctx req;
  match resp with
  | Err err => mret (Err (Errorf_w "docling service call failed: " err ""))
  | Ok resp =>
  if negb (hp_StatusCode resp =? 200) then
    mret (Err (errors_New ("docling service error (status " +:+ Itoa (hp_StatusCode resp) +:+ "): " +:+ hp_Body resp)))
  else
  match ReadAll resp with
  | Err err => mret (Err (Errorf_w "failed to read docling response: " err ""))
  | Ok bodyBytes =>
  match Unmarshal reply_fields {| Markdown := ""; Text := "" |} bodyBytes with
  | None => mret (Ok bodyBytes)
  | Some result => mret (Ok (if negb (String.eqb (Markdown result) "") then Markdown result else Text result))
  end
  end
  end
  end.
End Parse.
End Docling.

Module Extractous.
(** [ExtractBytesToString], if the extractor could be made. *)
Definition Parse {W} (extractor : option (string -> M W (result string))) (ctx : context) (tenantID : TenantID)
    (contentType payload : string) : M W (result string) :=
  match extractor with
  | None => mret (Err (errors_New "extractor not initialized"))
  | Some extract =>
      content ← extract payload;
      match content with
      | Err err => mret (Err (Errorf_w "extraction failed: " err ""))
      | Ok content => mret (Ok content)
      end
  end.
End Extractous.

(** ** The server *)

Inductive parser_choice := Docling_parser (cfg : Docling.Config) | Extractous_parser.

(** What the server is made of: the endpoints of the two object store clients, and the
    configurations of the clients of the language model and of the embedder. *)
Record Server := {
  sv_cfg : Runtime.Config; sv_origins : gset string; sv_limit : Z; sv_presignEndpoint : option string;
  sv_objectEndpoint : option string; sv_answerGenerator : option ChatConfig; sv_embedder : option EmbeddingConfig;
  sv_parser : parser_choice }.

Definition chat_config (cfg : Runtime.Config) (model : string) : ChatConfig := {|
  Chat.BaseURL := cf_PortkeyBaseURL cfg; Chat.PortkeyAPIKey := cf_PortkeyAPIKey cfg; Chat.OpenRouterKey := cf_OpenRouterKey cfg;
  Chat.Model := model; Chat.Timeout := cf_LLMTimeout cfg; Chat.ProviderHeader := "" |}.
Definition embedding_config (cfg : Runtime.Config) : EmbeddingConfig := {|
  Embeddings.BaseURL := cf_PortkeyBaseURL cfg; Embeddings.PortkeyAPIKey := cf_PortkeyAPIKey cfg;
  Embeddings.OpenRouterKey := cf_OpenRouterKey cfg; Embeddings.Model := cf_EmbeddingModel cfg;
  Embeddings.FallbackModel := cf_EmbeddingFallbackModel cfg; Embeddings.Timeout := cf_LLMTimeout cfg;
  Embeddings.ProviderHeader := ""; Embeddings.MinInterval := cf_OpenRouterMinInterval cfg;
  Embeddings.RetryMax := cf_OpenRouterRetryMax cfg |}.

Section Build.
Context `{U : UnicodeTables} {W : Type}.

Definition ok_of {A} (r : result A) : option A := match r with Ok a => Some a | Err _ => None end.
Definition gateway_on (cfg : Runtime.Config) : bool :=
  String.eqb (cf_GatewayProvider cfg) "portkey" && negb (String.eqb (TrimSpace (cf_PortkeyAPIKey cfg)) "").
Definition nonempty (s : string) : option string := if negb (String.eqb s "") then Some s else None.

(** The server that a configuration describes, once it is accepted. *)
Definition server_of (cfg : Runtime.Config) : Server := {|
    sv_cfg := cfg;
    sv_origins := list_to_set (filter (fun t => t <> "") (TrimSpace <$> cf_AllowedOrigins cfg));
    sv_limit := cf_RateLimitPerMin cfg;
    sv_presignEndpoint := nonempty (trim_right_slashes (cf_UploadBaseURL cfg));
    sv_objectEndpoint := nonempty (trim_right_slashes (cf_S3Endpoint cfg));
    sv_answerGenerator := if gateway_on cfg then ok_of (NewChatClient (chat_config cfg (cf_OpenRouterModel cfg))) else None;
    sv_embedder := if gateway_on cfg then ok_of (NewEmbeddingClient (embedding_config cfg)) else None;
    sv_parser := if String.eqb (cf_ParserType cfg) "docling"
                 then Docling_parser (Docling.NewAdapter {| Docling.Endpoint := cf_DoclingEndpoint cfg; Docling.Timeout := 120 * Second |})
                 else Extractous_parser |}.

(** [load_aws region credentials]: [awsconfig.LoadDefaultConfig]. *)
Variable load_aws : string -> option (string * string) -> M W (option error).

Definition NewServer (cfg : Runtime.Config) : M W (result Server) :=
  if String.eqb (TrimSpace (cf_JWTSecret cfg)) "" then mret (Err (errors_New "FINE_RAG_JWT_SECRET is required"))
  else if String.eqb (TrimSpace (cf_UploadBucket cfg)) "" then mret (Err (errors_New "FINE_RAG_S3_BUCKET is required"))
  else
  let blank s := String.eqb (TrimSpace s) "" in
  let static := negb (blank (cf_S3AccessKey cfg)) || negb (blank (cf_S3SecretKey cfg)) in
  if static && (blank (cf_S3AccessKey cfg) || blank (cf_S3SecretKey cfg))
  then mret (Err (errors_New "FINE_RAG_S3_ACCESS_KEY and FINE_RAG_S3_SECRET_KEY must both be set when using static credentials"))
  else
  err ← load_aws (cf_S3Region cfg) (if static then Some (cf_S3AccessKey cfg, cf_S3SecretKey cfg) else None);
  match err with
  | Some err => mret (Err (Errorf_w "load aws config: " err ""))
  | None =>
      mret (Ok (server_of cfg))
  end.

(** ** The dependencies *)

(** What the retrieval service is made of. *)
Record Dependencies (D : Type) := {
  dep_db : D; dep_vector : vector_choice W; dep_reranker : reranker_choice; dep_embedder : option EmbeddingConfig;
  dep_rewriter : option ChatConfig; dep_rerankTimeout : Z }.

Definition BuildRuntimeDependencies {D} (lookupEnv : string -> option string) (ReadFile : string -> option string)
    (url_Parse : string -> result URL) (drv : SQLDriver W D) (parse_host : string -> result string)
    (connect : ClientConfig -> M W (result (Milvus.Client W))) (now : M W Time) : M W (result (Dependencies D)) :=
  db ← OpenPostgresDB url_Parse drv (Some Background) (LoadDatabaseConfigFromEnv lookupEnv ReadFile);
  match db with
  | Err err => mret (Err err)
  | Ok db =>
  adapters ← BuildVectorAdapters parse_host connect now (LoadVectorConfigFromEnv lookupEnv ReadFile);
  match adapters with
  | Err err => mret (Err err)
  | Ok (vector, _) =>
  let gatewayCfg := LoadGatewayConfigFromEnv lookupEnv ReadFile in
  match BuildGatewayReranker gatewayCfg with
  | Err err => mret (Err err)
  | Ok (reranker, _) =>
      let serverCfg := ConfigFromEnv (fun k => default "" (lookupEnv k)) ReadFile in
      mret (Ok {|
        dep_db := db; dep_vector := vector; dep_reranker := reranker;
        dep_embedder := if gateway_on serverCfg then ok_of (NewEmbeddingClient (embedding_config serverCfg)) else None;
        dep_rewriter := if gateway_on serverCfg && cf_EnableQueryRewrite serverCfg
                        then ok_of (NewChatClient (chat_config serverCfg (cf_QueryRewriteModel serverCfg))) else None;
        dep_rerankTimeout := gc_Timeout gatewayCfg |})
  end
  end
  end.
End Build.

(** * Theorems *)

Section Theorems.
Context `{U : UnicodeTables} {W : Type}.
Variable load_aws : string -> option (string * string) -> M W (option error).

Definition blank (s : string) : Prop := TrimSpace s = "".

(** The settings of the environment that a server can start with. *)
Definition startable (cfg : Runtime.Config) : Prop :=
  ~ blank (cf_JWTSecret cfg) /\ ~ blank (cf_UploadBucket cfg) /\ (blank (cf_S3AccessKey cfg) <-> blank (cf_S3SecretKey cfg)).
Definition static_credentials (cfg : Runtime.Config) : option (string * string) :=
  if decide (TrimSpace (cf_S3AccessKey cfg) = "") then None else Some (cf_S3AccessKey cfg, cf_S3SecretKey cfg).

(** The settings that leave the server without a language model, or its embedder: the
    gateway is not portkey's, a setting of portkey is blank, or the model goes
    through OpenRouter and its key is blank. *)
Definition unserved (cfg : Runtime.Config) (model : string) : Prop :=
  cf_GatewayProvider cfg <> "portkey" \/ blank (cf_PortkeyAPIKey cfg) \/ blank (cf_PortkeyBaseURL cfg)
  \/ (HasPrefix (TrimSpace model) "@" = false /\ blank (cf_OpenRouterKey cfg)).

Ltac settings :=
  unfold blank in *;
  repeat match goal with
  | |- context [String.eqb ?a ?b] => destruct (String.eqb_spec a b)
  | |- context [HasPrefix ?a ?b] => destruct (HasPrefix a b) eqn:?
  end; cbn [negb andb orb]; try tauto.

Lemma chat_unserved cfg model :
  (if gateway_on cfg then ok_of (NewChatClient (chat_config cfg model)) else None) = None <-> unserved cfg model.
Proof.
  unfold gateway_on, NewChatClient, chatRequiresOpenRouterAuth, unserved.
  cbn [chat_config Chat.BaseURL Chat.PortkeyAPIKey Chat.OpenRouterKey Chat.Model].
  settings; cbn [ok_of]; intuition congruence.
Qed.

Lemma NewServer_Ok cfg w sv w' :
  NewServer load_aws cfg w = (Ok sv, w') <->
  startable cfg /\ sv = server_of cfg /\ load_aws (cf_S3Region cfg) (static_credentials cfg) w = (None, w').
Proof.
  unfold NewServer, startable, static_credentials, blank. run_M.
  destruct (String.eqb_spec (TrimSpace (cf_JWTSecret cfg)) ""); [split; [discriminate|tauto]|].
  destruct (String.eqb_spec (TrimSpace (cf_UploadBucket cfg)) ""); [split; [discriminate|tauto]|].
  destruct (String.eqb_spec (TrimSpace (cf_S3AccessKey cfg)) "") as [Ha|Ha],
    (String.eqb_spec (TrimSpace (cf_S3SecretKey cfg)) "") as [Hs|Hs]; cbn [negb andb orb];
    try (split; [discriminate|tauto]); case_decide; try done;
    destruct (load_aws _ _ w) as [[e|] w1]; naive_solver.
Qed.

(** the server starts exactly when the secret of its tokens and the bucket are set,
    the two keys of the object store are both set or both left out, and the AWS
    configuration loads; it asks for that configuration with the static keys when
    there are some.  What it then accepts as origins are the configured ones, trimmed. *)
Theorem server_starts_iff cfg w :
  ((exists sv, (NewServer load_aws cfg w).1 = Ok sv)
   <-> startable cfg /\ (load_aws (cf_S3Region cfg) (static_credentials cfg) w).1 = None)
  /\ (forall sv origin, (NewServer load_aws cfg w).1 = Ok sv ->
        (origin ∈ sv_origins sv <-> origin <> "" /\ exists o, o ∈ cf_AllowedOrigins cfg /\ TrimSpace o = origin)).
Proof.
  destruct (NewServer load_aws cfg w) as [r w'] eqn:E. cbn [fst]. split.
  - split.
    + intros [sv ->]. apply NewServer_Ok in E as (Hs & _ & ->). done.
    + intros [Hs Hl]. exists (server_of cfg). destruct (load_aws _ _ w) as [e w1] eqn:El. cbn [fst] in Hl. subst e.
      rewrite (proj2 (NewServer_Ok cfg w (server_of cfg) w1) (conj Hs (conj eq_refl El))) in E. congruence.
  - intros sv origin ->. apply NewServer_Ok in E as (_ & -> & _). cbn [server_of sv_origins].
    rewrite elem_of_list_to_set, list_elem_of_filter, list_elem_of_fmap. naive_solver.
Qed.

(** The language model of the search manager of a server. *)
Definition search_llm (cl : HTTPClient W) (sv : Server) : option (context -> string -> string -> M W (result string)) :=
  GenerateAnswer cl <$> sv_answerGenerator sv.

(** What a search endpoint shows when it succeeds: what was found for the tenant of the
    request, ranked for the query, and the answer that the chat client of the configured
    model gave for the context made of the ranked documents. *)
Definition served (cfg : Runtime.Config) (cl : HTTPClient W) service ctx (r : Request) (query : string) (topK : Z)
    result ranked tops (answer : string) : Prop :=
  exists client id text raw w,
    NewChatClient (chat_config cfg (cf_OpenRouterModel cfg)) = Ok client
    /\ found service (Some (GenerateAnswer cl client)) ctx r query topK id result ranked tops answer
    /\ ranked = RankDocumentsByQueryIntent query (res_Documents result)
    /\ contextText query ranked = Some text /\ (GenerateAnswer cl client (Some ctx) query text w).1 = Ok raw
    /\ answer = TruncateForDebugLog (TrimSpace (Join (Fields (TrimSpace raw)) " ")) 1200.

Lemma found_served cfg cl service ctx r query topK id result ranked tops answer :
  found service (search_llm cl (server_of cfg)) ctx r query topK id result ranked tops answer ->
  ~ unserved cfg (cf_OpenRouterModel cfg) /\ served cfg cl service ctx r query topK result ranked tops answer.
Proof.
  intros F. destruct (fd_answer _ _ _ _ _ _ _ _ _ _ _ F) as (generate & text & raw & w1 & HL & Ht & Hr & Ha & _).
  pose proof HL as HL'. unfold search_llm, server_of in HL'. cbn [sv_answerGenerator] in HL'. split.
  - intros Hu. apply chat_unserved in Hu. rewrite Hu in HL'. discriminate.
  - destruct (gateway_on cfg) eqn:Eg; [|discriminate].
    destruct (NewChatClient _) as [client|] eqn:Ec; [|discriminate]. cbn [ok_of] in HL'.
    rewrite fmap_Some in HL'. destruct HL' as (c & Hc & ->). injection Hc as <-.
    exists client, id, text, raw, w1. rewrite HL in F. pose proof (fd_ranked _ _ _ _ _ _ _ _ _ _ _ F). split_and!; done.
Qed.

(** C33: no search succeeds without a language model.  With the settings a server needs, and
    the AWS configuration loaded, the server starts, complete settings of the gateway or not.
    With incomplete ones every reply of [HandleSearch] is an error, 400 or 503, and so is
    every reply of [HandleSearchStream], whatever the retrieval finds.  When [HandleSearch]
    answers 200, or [HandleSearchStream] sends events, the settings were complete, and what
    is shown is the result found for the query of the request, its documents in the order of
    the query's intent, and the answer of the chat client of the configured model for the
    context made of these documents. *)
Theorem search_needs_llm cfg w w' :
  startable cfg -> load_aws (cf_S3Region cfg) (static_credentials cfg) w = (None, w') ->
  exists sv, NewServer load_aws cfg w = (Ok sv, w') /\
  forall (cl : HTTPClient W) service rand now decode_error remoteAddr ctx r st,
  (forall resp st', HandleSearch service (search_llm cl sv) rand now decode_error remoteAddr ctx r st = (Some resp, st') ->
     (unserved cfg (cf_OpenRouterModel cfg) -> rs_Status resp = 400 \/ rs_Status resp = 503)
     /\ (rs_Status resp = 200 -> ~ unserved cfg (cf_OpenRouterModel cfg)
         /\ exists req result ranked tops answer, decode_search (Body r) = Some req
           /\ served cfg cl service ctx r (TrimSpace (sr_QueryText req)) (if sr_TopK req <=? 0 then 5 else sr_TopK req)
                result ranked tops answer
           /\ rs_Body resp = search_json result answer tops))
  /\ (forall flushable reply st',
     HandleSearchStream service (search_llm cl sv) rand now decode_error remoteAddr flushable ctx r st = (Some reply, st') ->
     (unserved cfg (cf_OpenRouterModel cfg) ->
        exists resp, reply = Search_plain resp /\ (rs_Status resp = 400 \/ rs_Status resp = 503))
     /\ (forall evs, reply = Search_stream evs -> ~ unserved cfg (cf_OpenRouterModel cfg)
         /\ exists q result ranked tops answer, decode_stream_query (Body r) = Some q
           /\ served cfg cl service ctx r (TrimSpace q) 5 result ranked tops answer
           /\ evs = stream_events result ranked tops answer)).
Proof.
  intros Hst Haws. exists (server_of cfg). split; [by apply NewServer_Ok|].
  intros cl service rand now decode_error remoteAddr ctx r st. split.
  - intros resp st' [H|[H|(req & id & result & ranked & tops & answer & Hq & _ & F & Hs & Hb)]]%search_replies; [split; [auto|lia]..|].
    apply found_served in F as [Hu Hf]. split; [done|]. intros _. split; [done|]. by exists req, result, ranked, tops, answer.
  - intros flushable reply st' [(resp & -> & H)|(q & id & result & ranked & tops & answer & Hq & _ & F & Hr)]%stream_replies.
    { split; [by exists resp|done]. }
    apply found_served in F as [Hu Hf]. split; [done|]. intros evs ->. split; [done|].
    destruct flushable; [injection Hr as ->|by destruct Hr as (? & [=] & _)]. by exists q, result, ranked, tops, answer.
Qed.
End Theorems.

(** ** Witnesses *)

#[local] Existing Instance latin1.

Definition sample_settings (key : string) : string :=
  default "" ((list_to_map [("FINE_RAG_JWT_SECRET", "s3cret"); ("FINE_RAG_S3_BUCKET", "docs");
     ("FINE_RAG_PORTKEY_API_KEY", "pk"); ("FINE_RAG_ALLOWED_ORIGINS", "http://a, http://b"); ("FINE_RAG_GATEWAY_PROVIDER", "portkey");
     ("FINE_RAG_OPENROUTER_MODEL", "gpt-4o")] : gmap string string) !! key).
Definition sample_config : Runtime.Config := ConfigFromEnv sample_settings (fun _ => None).
Definition sample_aws (_ : string) (_ : option (string * string)) : M nat (option error) := mret None.
Definition sample_server : Server := server_of sample_config.

(** The model [gpt-4o] goes through OpenRouter, whose key is missing: the server starts, and
    a search that finds two documents is refused, by either endpoint. *)
Lemma search_needs_llm_witness :
  NewServer sample_aws sample_config 0%nat = (Ok sample_server, 0%nat)
  /\ (exists resp, rs_Status resp = 503
    /\ (HandleSearch Retrieval.sample_service (search_llm (Chat.sample_http "hi") sample_server) (mret (fun _ => None)) (mret 7)
          (fun _ => "") (fun _ => "10.0.0.1") Server.sample_ctx sample_search (Retrieval.sample_state 0 1)).1 = Some resp)
  /\ exists resp, (rs_Status resp = 400 \/ rs_Status resp = 503)
    /\ (HandleSearchStream Retrieval.sample_service (search_llm (Chat.sample_http "hi") sample_server) (mret (fun _ => None)) (mret 7)
          (fun _ => "") (fun _ => "10.0.0.1") true Server.sample_ctx sample_search (Retrieval.sample_state 0 1)).1
       = Some (Search_plain resp).
Proof.
  assert (Hst : startable sample_config) by (split_and!; vm_compute; [discriminate..|tauto]).
  assert (Hu : unserved sample_config (cf_OpenRouterModel sample_config))
    by (do 3 right; split; vm_compute; reflexivity).
  destruct (search_needs_llm sample_aws sample_config 0%nat 0%nat Hst eq_refl) as (sv & Hn & H).
  assert (Es : sv = sample_server) by (vm_compute in Hn; injection Hn as <-; vm_compute; reflexivity). subst sv.
  split; [exact Hn|]. specialize (H (Chat.sample_http "hi") Retrieval.sample_service (mret (fun _ => None)) (mret 7)
    (fun _ => "") (fun _ => "10.0.0.1") Server.sample_ctx sample_search (Retrieval.sample_state 0 1)). destruct H as [H1 H2]. split.
  - destruct (HandleSearch _ _ _ _ _ _ _ _ _) as [[resp|] st'] eqn:E; [|vm_compute in E; discriminate].
    exists resp. split; [|reflexivity]. destruct (H1 resp st' eq_refl) as [H _].
    destruct (H Hu) as [H4|H5]; [|exact H5]. exfalso. vm_compute in E. injection E as <- _. discriminate H4.
  - destruct (HandleSearchStream _ _ _ _ _ _ _ _ _ _) as [[reply|] st'] eqn:E; [|vm_compute in E; discriminate].
    destruct (H2 true reply st' E) as [H _]. destruct (H Hu) as (resp & -> & Hs). exists resp. split; [exact Hs|reflexivity].
Defined.
