(* ===== verification/Startup.v ===== *)
(** * Startup: the executables (cmd/finerag-backend, cmd/bootstrap-reset) and the access log
    of backend/util/serverUtil.go

    The start of the backend: configuration, dependencies, migrations, server, bootstrap
    data, in that order, each failure fatal; the migrations that the executable applies
    itself; the tool that resets a user; and the writer that counts what a
    response wrote for the access log.  The file system, the statements and the
    telemetry exporters are ports.  The theorems: the migrations run in the order of their paths and
    stop at the first real failure; when the backend serves, it is ready; a user that was
    reset can log in; the access log says what was sent. *)

From S2P Require Import Prelude GoStrings GoSort GoTime Sha256 GoJSON GoHTTP Contracts RateLimit Repository.
From S2P Require Import Milvus ApiUtil Server Runtime Wiring.

#[local] Open Scope Z_scope.
#[local] Opaque Sum256.

(** ** Migrations (cmd/finerag-backend/main.go) *)

Section Migrate.
Context `{U : UnicodeTables} {W : Type}.
Variables (Glob : string -> M W (result (list string))) (ReadFile : string -> M W (result string))
  (Exec : string -> M W (option error)).

Definition patterns : list string := ["migrations/*.sql"; "/app/migrations/*.sql"].

(** The inner loop: the matches that were not seen yet, and what is seen after them. *)
Fixpoint new_matches (seen : gset string) (matches : list string) : list string * gset string :=
  match matches with
  | [] => ([], seen)
  | m :: matches' =>
      if bool_decide (m ∈ seen) then new_matches seen matches'
      else let '(files, seen) := new_matches ({[m]} ∪ seen) matches' in (m :: files, seen)
  end.
Fixpoint find_files (seen : gset string) (patterns : list string) : M W (list string) :=
  match patterns with
  | [] => mret []
  | pattern :: patterns' =>
      r ← Glob pattern;
      match r with
      | Err _ => find_files seen patterns'
      | Ok matches =>
          let '(files, seen) := new_matches seen matches in
          rest ← find_files seen patterns'; mret (files ++ rest)
      end
  end.

Definition tolerated (err : error) : bool :=
  Contains (ToLower (Error err)) "already exists" || Contains (ToLower (Error err)) "duplicate".

Fixpoint apply_files (files : list string) : M W (option error) :=
  match files with
  | [] => mret None
  | path :: files' =>
      r ← ReadFile path;
      match r with
      | Err err => mret (Some err)
      | Ok sql =>
          e ← Exec sql;
          match e with
          | None => apply_files files'
          | Some err => if tolerated err then apply_files files'
                        else mret (Some (Errorf_w ("apply migration " +:+ path +:+ ": ") err ""))
          end
      end
  end.

Definition applyMigrations : M W (option error) :=
  files ← find_files ∅ patterns;
  match files with
  | [] => mret (Some (errors_New ("migration files not found in expected patterns: [" +:+ Join patterns " " +:+ "]")))
  | _ => apply_files (SliceStable str_less files)
  end.
End Migrate.

(** ** The start of the backend *)

Section Main.
Context `{U : UnicodeTables} {W D : Type}.
Variables (lookupEnv : string -> option string) (readSecret : string -> option string).
(** [telemetry.Init]. *)
Variable telemetry_Init : M W (option error).
Variables (url_Parse : string -> result URL) (drv : SQLDriver W D) (parse_host : string -> result string)
  (connect : ClientConfig -> M W (result (Milvus.Client W))) (now : M W Time).
Variables (Glob : string -> M W (result (list string))) (ReadFile : string -> M W (result string)).
(** The statements of an open database. *)
Variables (Exec : D -> string -> M W (option error)) (bootstrap : D -> BootstrapDB W) (registry : D -> Postgres W).
Variable load_aws : string -> option (string * string) -> M W (option error).

(** The process ends with a message, or listens. *)
Inductive started :=
  | Fatal (message : string) (err : error)
  | Serving (sv : Wiring.Server) (deps : Dependencies D (W := W)).

Definition Getenv (key : string) : string := default "" (lookupEnv key).

Definition main : M W started :=
  e ← telemetry_Init;
  match e with
  | Some err => mret (Fatal "failed to initialize telemetry" err)
  | None =>
  let cfg := ConfigFromEnv Getenv readSecret in
  deps ← BuildRuntimeDependencies lookupEnv readSecret url_Parse drv parse_host connect now;
  match deps with
  | Err err => mret (Fatal "failed to initialize runtime dependencies" err)
  | Ok deps =>
  let db := dep_db _ deps in
  e ← applyMigrations Glob ReadFile (Exec db);
  match e with
  | Some err => mret (Fatal "failed to apply migrations" err)
  | None =>
  srv ← NewServer load_aws cfg;
  match srv with
  | Err err => mret (Fatal "failed to create server" err)
  | Ok srv =>
  e ← EnsureBootstrapData (bootstrap db) (registry db) now Getenv readSecret (Some Background);
  match e with
  | Some err => mret (Fatal "failed to ensure bootstrap data" err)
  | None => mret (Serving srv deps)
  end
  end
  end
  end
  end.
End Main.

(** ** The reset of a user (cmd/bootstrap-reset/main.go) *)

Module Reset.
Definition hs (v : string) : string := "sha256$" +:+ hex (Sum256 v).

(** [update_user] answers the number of rows it changed. *)
Record DB (W : Type) := {
  Open : string -> M W (option error);
  update_user : string -> string -> string -> M W (result Z);
  insert_user : string -> string -> string -> M W (option error) }.
Arguments Open {W}.
Arguments update_user {W}.
Arguments insert_user {W}.

Inductive outcome := Exit (code : Z) | Panic (err : error) | Inserted | Updated (rows : Z).

Definition main {W} (db : DB W) (Getenv : string -> string) : M W outcome :=
  let dsn := Getenv "DATABASE_URL" in
  let user := Getenv "BOOTSTRAP_USER" in
  let pass := Getenv "BOOTSTRAP_PASS" in
  let api := Getenv "BOOTSTRAP_API" in
  if String.eqb dsn "" || String.eqb user "" || String.eqb pass "" || String.eqb api "" then mret (Exit 1)
  else
  e ← Open db dsn;
  match e with
  | Some err => mret (Panic err)
  | None =>
  r ← update_user db (hs pass) (hs api) user;
  match r with
  | Err err => mret (Panic err)
  | Ok n =>
  if n =? 0 then
    e ← insert_user db user (hs pass) (hs api);
    match e with
    | Some err => mret (Panic err)
    | None => mret Inserted
    end
  else mret (Updated n)
  end
  end.
End Reset.

(** ** The access log (backend/util/serverUtil.go) *)

Module AccessLog.
(** What [net/http] does with the calls of a handler: the first final status is
    sent, a later one is ignored; a write or a flush sends 200 if none was. *)
Record response := { sent : option Z; written : string }.
Definition inner_WriteHeader (code : Z) (w : response) : response :=
  match sent w with
  | Some _ => w
  | None => if (100 <=? code) && (code <=? 199) && negb (code =? 101) then w
            else {| sent := Some code; written := written w |}
  end.
Definition inner_Flush (w : response) : response := inner_WriteHeader 200 w.
Definition body_allowed (code : Z) : bool :=
  negb ((100 <=? code) && (code <=? 199)) && negb (code =? 204) && negb (code =? 304).
(** The number of bytes taken; a body that the status forbids is refused. *)
Definition inner_Write (p : string) (w : response) : Z * response :=
  let w := inner_WriteHeader 200 w in
  if body_allowed (default 200 (sent w)) then (len p, {| sent := sent w; written := written w +:+ p |}) else (0, w).

Record accessLogWriter := { ResponseWriter : response; status : Z; bytes : Z }.
Definition Flush (w : accessLogWriter) : accessLogWriter :=
  {| ResponseWriter := inner_Flush (ResponseWriter w); status := status w; bytes := bytes w |}.
Definition WriteHeader (code : Z) (w : accessLogWriter) : accessLogWriter :=
  {| ResponseWriter := inner_WriteHeader code (ResponseWriter w); status := code; bytes := bytes w |}.
Definition Write (p : string) (w : accessLogWriter) : accessLogWriter :=
  let st := if status w =? 0 then 200 else status w in
  let '(n, inner) := inner_Write p (ResponseWriter w) in
  {| ResponseWriter := inner; status := st; bytes := bytes w + n |}.

Inductive call := CWriteHeader (code : Z) | CWrite (p : string) | CFlush.
Definition step (w : accessLogWriter) (c : call) : accessLogWriter :=
  match c with CWriteHeader code => WriteHeader code w | CWrite p => Write p w | CFlush => Flush w end.
Definition wrapped : accessLogWriter :=
  {| ResponseWriter := {| sent := None; written := "" |}; status := 200; bytes := 0 |}.

(** The calls of [WriteJSON]; [json.Encoder] writes the value and a line feed at once,
    and nothing when it cannot encode. *)
Definition calls_of (resp : Response) : list call :=
  CWriteHeader (rs_Status resp)
  :: match rs_Body resp with Some v => [CWrite (json_encode v +:+ String (byte_of 10) "")] | None => [] end.

Section Log.
Context {W : Type}.
Variables (now : M W Time) (remoteAddr : Request -> string).

Definition line (ctx : Ctx) (r : Request) (resp : Response) (w : accessLogWriter) (elapsed : Z) : string :=
  let requestID := TrimSpace (default "" (rs_Header resp !! CanonicalHeaderKey "X-Request-ID")) in
  let requestID := if String.eqb requestID "" then RequestIDFromContext ctx else requestID in
  let tenantID := TrimSpace (Header_Get r "X-Tenant-ID") in
  "request_id=" +:+ requestID +:+ " method=" +:+ Method r +:+ " path=" +:+ URLPath r
  +:+ " status=" +:+ Itoa (status w) +:+ " bytes=" +:+ Itoa (bytes w)
  +:+ " duration_ms=" +:+ Itoa (Milliseconds elapsed) +:+ " tenant=" +:+ tenantID +:+ " remote=" +:+ remoteAddr r.

(** The response of the next handler, and the line logged for it. *)
Definition WithAccessLog (next : Handler (Server.state (W := W))) (ctx : Ctx) (r : Request)
    : M (Server.state (W := W)) (Response * string) :=
  start ← on_snd now;
  resp ← next ctx r;
  stop ← on_snd now;
  mret (resp, line ctx r resp (fold_left step (calls_of resp) wrapped) (Sub stop start)).
End Log.
End AccessLog.

(** * Facts *)

Lemma new_matches_spec matches : forall seen,
  let '(files, seen') := new_matches seen matches in
  NoDup files /\ seen' = list_to_set files ∪ seen
  /\ (forall p, p ∈ files <-> p ∈ matches /\ p ∉ seen).
Proof.
  induction matches as [|m matches IH]; intros seen; cbn [new_matches].
  { split_and!; [constructor|set_solver|set_solver]. }
  case_bool_decide as Hm.
  - specialize (IH seen). destruct (new_matches seen matches) as [files seen']. set_solver.
  - specialize (IH ({[m]} ∪ seen)). destruct (new_matches _ matches) as [files seen'].
    destruct IH as (H1 & H2 & H3). split_and!; [constructor; [|done]|set_solver|].
    + rewrite H3. set_solver.
    + intros p. rewrite !elem_of_cons, H3, not_elem_of_union, elem_of_singleton.
      destruct (decide (p = m)) as [->|]; tauto.
Qed.

(** A file system that does not change, and the log of the scripts that were executed
    with what the database answered. *)
Class MigrateLaws {W} (Glob : string -> M W (result (list string))) (ReadFile : string -> M W (result string))
    (Exec : string -> M W (option error)) (matches : string -> result (list string)) (content : string -> result string)
    (executed : W -> list (string * option error)) : Prop := {
  mg_glob p w : (Glob p w).1 = matches p /\ executed (Glob p w).2 = executed w;
  mg_read p w : (ReadFile p w).1 = content p /\ executed (ReadFile p w).2 = executed w;
  mg_exec sql w : executed (Exec sql w).2 = executed w ++ [(sql, (Exec sql w).1)] }.

(** The paths that a pattern finds; a pattern that fails finds none. *)
Definition found_by (matches : string -> result (list string)) (p path : string) : Prop :=
  exists l, matches p = Ok l /\ path ∈ l.
(** A script that was run: read from its path, and applied or found applied already. *)
Definition applied `{U : UnicodeTables} (content : string -> result string) (path : string) (x : string * option error) : Prop :=
  content path = Ok x.1 /\ forall err, x.2 = Some err -> tolerated err = true.

Section MigrateFacts.
Context `{U : UnicodeTables} {W : Type} (Glob : string -> M W (result (list string)))
  (ReadFile : string -> M W (result string)) (Exec : string -> M W (option error))
  (matches : string -> result (list string)) (content : string -> result string)
  (executed : W -> list (string * option error)) `{L : !MigrateLaws Glob ReadFile Exec matches content executed}.

Lemma find_files_spec ps : forall seen w,
  let '(files, w') := find_files Glob seen ps w in
  executed w' = executed w /\ NoDup files
  /\ forall path, path ∈ files <-> path ∉ seen /\ exists p, p ∈ ps /\ found_by matches p path.
Proof.
  induction ps as [|p ps IH]; intros seen w; cbn [find_files]; run_M.
  { split_and!; [done|constructor|]. set_solver. }
  destruct (mg_glob p w) as [Hg He]. destruct (Glob p w) as [r w1]. cbn [fst snd] in *. subst r.
  destruct (matches p) as [l|e] eqn:Em.
  - pose proof (new_matches_spec l seen) as Hn. destruct (new_matches seen l) as [files seen'].
    destruct Hn as (H1 & -> & H3). specialize (IH (list_to_set files ∪ seen) w1).
    destruct (find_files _ _ ps w1) as [rest w2]. destruct IH as (I1 & I2 & I3). split_and!; [congruence| |].
    + apply NoDup_app. split_and!; [done| |done]. intros x Hx. rewrite I3. set_solver.
    + intros path. rewrite elem_of_app, H3, I3. unfold found_by.
      rewrite not_elem_of_union, elem_of_list_to_set, H3. split.
      * intros [[Hp Hs]|([_ Hs] & q & Hq & Hf)]; (split; [done|]); [exists p|exists q]; set_solver.
      * intros (Hs & q & [->|Hq]%elem_of_cons & l' & Hl' & Hp); [left; split; congruence|].
        destruct (decide (path ∈ l)); [by left|right]. split; [tauto|]. exists q. split; [done|]. by exists l'.
  - specialize (IH seen w1). destruct (find_files _ _ ps w1) as [rest w2]. destruct IH as (I1 & I2 & I3).
    split_and!; [congruence|done|]. intros path. rewrite I3. unfold found_by. split.
    + intros (Hs & q & Hq & Hf). split; [done|]. exists q. split; [set_solver|done].
    + intros (Hs & q & [->|Hq]%elem_of_cons & l' & Hl' & Hp); [congruence|]. split; [done|]. exists q. split; [done|]. by exists l'.
Qed.

Lemma apply_files_spec files : forall w,
  let '(e, w') := apply_files ReadFile Exec files w in
  exists pre rest run last, files = pre ++ rest /\ executed w' = executed w ++ run ++ last
    /\ Forall2 (applied content) pre run
    /\ match e with
       | None => rest = [] /\ last = []
       | Some _ => exists path rest', rest = path :: rest'
           /\ match content path with
              | Err _ => last = []
              | Ok sql => exists err, last = [(sql, Some err)] /\ tolerated err = false
              end
       end.
Proof.
  induction files as [|path files IH]; intros w; cbn [apply_files]; run_M.
  { exists [], [], [], []. rewrite !app_nil_r. split_and!; done. }
  destruct (mg_read path w) as [Hr He]. destruct (ReadFile path w) as [r w1]. cbn [fst snd] in *. subst r.
  destruct (content path) as [sql|err] eqn:Ec.
  2: { exists [], (path :: files), [], []. rewrite !app_nil_r. split_and!; [done..|]. exists path, files. by rewrite Ec. }
  pose proof (mg_exec sql w1) as Hx. destruct (Exec sql w1) as [e w2]. cbn [fst snd] in Hx.
  destruct (match e with Some err => tolerated err | None => true end) eqn:Et.
  - assert (HE : match e with None => apply_files ReadFile Exec files
      | Some err => if tolerated err then apply_files ReadFile Exec files
          else λ s : W, (Some (Errorf_w ("apply migration " +:+ path +:+ ": ") err ""), s) end
      = apply_files ReadFile Exec files) by (destruct e; [by rewrite Et|done]).
    rewrite HE. specialize (IH w2). destruct (apply_files _ _ files w2) as [e' w'].
    destruct IH as (pre & rest & run & last & -> & Hw & HF & Hend).
    exists (path :: pre), rest, ((sql, e) :: run), last. split_and!; [done| | |done].
    + rewrite Hw, Hx, He, <- !app_assoc. done.
    + constructor; [|done]. split; [done|]. intros err Hs. cbn [snd] in Hs. by rewrite Hs in Et.
  - destruct e as [err|]; [|done]. rewrite Et. exists [], (path :: files), [], [(sql, Some err)].
    split_and!; [done|by rewrite Hx, He|done|]. exists path, files. split; [done|]. rewrite Ec. by exists err.
Qed.
End MigrateFacts.

(** * Theorems *)

Section MigrateTheorem.
Context `{U : UnicodeTables} {W : Type} (Glob : string -> M W (result (list string)))
  (ReadFile : string -> M W (result string)) (Exec : string -> M W (option error))
  (matches : string -> result (list string)) (content : string -> result string)
  (executed : W -> list (string * option error)) `{L : !MigrateLaws Glob ReadFile Exec matches content executed}.

(** What [applyMigrations] did from [w] to [w'] and answered: [files] are the paths
    of the two patterns, each once, in the order of their bytes; [pre] those of them
    whose scripts were run and applied, or found applied already, in that order. *)
Definition migrated (e : option error) (w w' : W) : Prop :=
  exists files pre rest run last,
    files = pre ++ rest /\ NoDup files /\ StronglySorted (ordered str_less) files
    /\ (forall path, path ∈ files <-> exists p, p ∈ patterns /\ found_by matches p path)
    /\ executed w' = executed w ++ run ++ last /\ Forall2 (applied content) pre run
    /\ match e with
       | None => files <> [] /\ rest = [] /\ last = []
       | Some _ => files = [] \/ exists path rest', rest = path :: rest'
           /\ match content path with
              | Err _ => last = []
              | Ok sql => exists err, last = [(sql, Some err)] /\ tolerated err = false
              end
       end.

Lemma applyMigrations_migrated w :
  let '(e, w') := applyMigrations Glob ReadFile Exec w in migrated e w w'.
Proof.
  unfold applyMigrations, migrated. run_M. pose proof (find_files_spec Glob ReadFile Exec matches content executed patterns ∅ w) as Hf.
  destruct (find_files Glob ∅ patterns w) as [files w1]. destruct Hf as (He & Hn & Hm).
  assert (Hm' : forall path, path ∈ files <-> exists p, p ∈ patterns /\ found_by matches p path)
    by (intros path; rewrite Hm; set_solver).
  destruct (decide (files = [])) as [->|Hne].
  { exists [], [], [], [], []. split; [done|]. split; [done|]. split; [constructor 1|].
    split; [done|]. split; [by rewrite He, app_nil_r|]. split; [constructor|by left]. }
  destruct files as [|f fs]; [done|]. set (files := f :: fs) in *.
  pose proof (apply_files_spec Glob ReadFile Exec matches content executed (SliceStable str_less files) w1) as Ha.
  destruct (apply_files _ _ _ w1) as [e w']. destruct Ha as (pre & rest & run & last & Hs & Hw & HF & Hend).
  pose proof (SliceStable_perm str_less files) as Hp.
  exists (SliceStable str_less files), pre, rest, run, last. split_and!; [done| | | |by rewrite Hw, He|done|].
  - by rewrite Hp.
  - apply (SliceStable_sorted str_less _ str_less_weak_order). by apply Forall_forall.
  - intros path. by rewrite Hp.
  - destruct e; [by right|]. split; [|done]. intros E. rewrite E in Hp. by apply Permutation_nil_l in Hp.
Qed.

(** the migrations of the executable.  The scripts of the files that the two patterns find are run
    one after the other in the order of their paths, each path once.  Success means that there was a file
    and every script was applied or the database said that it, or a part of it, was there already;
    after the first other failure, or a file that cannot be read, nothing more is run. *)
Theorem migrations_applied_in_order w :
  let '(e, w') := applyMigrations Glob ReadFile Exec w in migrated e w w'.
Proof. apply applyMigrations_migrated. Qed.
End MigrateTheorem.

Section MainTheorem.
Context `{U : UnicodeTables} {W D : Type}.
Variables (lookupEnv : string -> option string) (readSecret : string -> option string) (telemetry_Init : M W (option error)).
Variables (url_Parse : string -> result URL) (drv : SQLDriver W D) (parse_host : string -> result string)
  (connect : ClientConfig -> M W (result (Milvus.Client W))) (now : M W Time).
Variables (Glob : string -> M W (result (list string))) (ReadFile : string -> M W (result string)).
Variables (Exec : D -> string -> M W (option error)) (bootstrap : D -> BootstrapDB W) (registry : D -> Postgres W).
Variable load_aws : string -> option (string * string) -> M W (option error).
Variables (matches : string -> result (list string)) (content : string -> result string)
  (executed : W -> list (string * option error)) (assigned : W -> gset (Z * string)) (users : W -> gmap string dbUser).
Context (LM : forall d, MigrateLaws Glob ReadFile (Exec d) matches content executed)
  (LB : forall d, BootstrapLaws (bootstrap d) (registry d) now assigned users).

(** C31: a backend that serves is ready.  Its settings were complete.  Before it listened,
    every migration script was executed on the database it then serves from, in the order
    of the paths, and each was applied or answered with an error that says already exists
    or duplicate, which the code takes for applied.  Then the bootstrap ran: the secondary
    user, if a name or a password of one is configured, is an active user with the
    configured name and secrets and exactly the two tenants of the secondary user; and the
    administrator is an active user with the configured name and secrets and exactly the
    two tenants of the administrator, except when the secondary user is configured with
    the name of the administrator: then the one user has the secrets and the tenants of
    the secondary user. *)
Theorem serving_means_ready w sv deps w' :
  main lookupEnv readSecret telemetry_Init url_Parse drv parse_host connect now Glob ReadFile Exec bootstrap registry load_aws w
    = (Serving sv deps, w') ->
  let cfg := ConfigFromEnv (Getenv lookupEnv) readSecret in
  let env key := EnvOrSecret (Getenv lookupEnv) readSecret key "" in
  let admin := env "FINE_RAG_BOOTSTRAP_ADMIN_USERNAME" in
  let second := env "FINE_RAG_BOOTSTRAP_SECONDARY_USERNAME" in
  let configured := second <> "" \/ env "FINE_RAG_BOOTSTRAP_SECONDARY_PASSWORD" <> "" in
  startable cfg /\ sv = server_of cfg
  /\ (exists w1 w2 w3, applyMigrations Glob ReadFile (Exec (dep_db _ deps)) w1 = (None, w2)
        /\ migrated matches content executed None w1 w2
        /\ NewServer load_aws cfg w2 = (Ok sv, w3)
        /\ EnsureBootstrapData (bootstrap (dep_db _ deps)) (registry (dep_db _ deps)) now (Getenv lookupEnv) readSecret
             (Some Background) w3 = (None, w'))
  /\ (~ (configured /\ second = admin) ->
        account assigned users w' admin (env "FINE_RAG_BOOTSTRAP_ADMIN_PASSWORD") (env "FINE_RAG_BOOTSTRAP_ADMIN_API_KEY")
          ["tenant-a"; "tenant-secondary"])
  /\ (configured ->
        account assigned users w' second (env "FINE_RAG_BOOTSTRAP_SECONDARY_PASSWORD")
          (env "FINE_RAG_BOOTSTRAP_SECONDARY_API_KEY") ["tenant-lalita"; "tenant-jeetu"]).
Proof.
  unfold main. run_M. destruct (telemetry_Init w) as [[e|] w1]; [discriminate|].
  destruct (BuildRuntimeDependencies _ _ _ _ _ _ _ w1) as [[d|e] w2]; [|discriminate]. cbn zeta.
  pose proof (applyMigrations_migrated Glob ReadFile (Exec (dep_db _ d)) matches content executed w2) as Hm.
  destruct (applyMigrations _ _ _ w2) as [[e|] w3] eqn:Ea; [discriminate|].
  destruct (NewServer load_aws _ w3) as [[srv|e] w4] eqn:En; [|discriminate].
  destruct (EnsureBootstrapData _ _ _ _ _ _ w4) as [[e|] w5] eqn:Eb; [discriminate|]. intros [= <- <- <-].
  pose proof En as (Hs & Hsv & _)%NewServer_Ok. split; [done|]. split; [done|]. split; [by exists w2, w3, w4|].
  destruct (bootstrap_assignments _ _ _ _ _ assigned users _ _ _ Eb) as (H1 & H2 & _). by split.
Qed.
End MainTheorem.

(** What the statements of the reset mean on the table of users, by their unique names. *)
Class UsersLaws {W} (db : Reset.DB W) (fetch : string -> M W (result dbUser)) (users : W -> gmap string dbUser) : Prop := {
  us_open dsn w : users (Reset.Open db dsn w).2 = users w;
  us_update p a u w n w' : Reset.update_user db p a u w = (Ok n, w') ->
    (n = 0 <-> users w !! u = None)
    /\ forall x, users w !! u = Some x ->
       users w' = <[u := {| u_ID := u_ID x; u_Username := u; u_PasswordHash := p; u_APIKeyHash := a; u_Active := true |}]> (users w);
  us_insert u p a w w' : Reset.insert_user db u p a w = (None, w') ->
    exists id, users w' = <[u := {| u_ID := id; u_Username := u; u_PasswordHash := p; u_APIKeyHash := a; u_Active := true |}]> (users w);
  us_fetch u w x w' : fetch u w = (Ok x, w') -> users w !! u = Some x }.

Section ResetTheorem.
Context {W : Type} (db : Reset.DB W) (fetch : string -> M W (result dbUser)) (users : W -> gmap string dbUser).
Context `{L : !UsersLaws db fetch users}.

Lemma reset_row Getenv w out w' :
  Reset.main db Getenv w = (out, w') -> (out = Reset.Inserted \/ exists n, out = Reset.Updated n) ->
  exists x, users w' !! Getenv "BOOTSTRAP_USER" = Some x /\ u_Active x = true
    /\ u_PasswordHash x = HashSecret (Getenv "BOOTSTRAP_PASS") /\ u_APIKeyHash x = HashSecret (Getenv "BOOTSTRAP_API").
Proof.
  unfold Reset.main. run_M. cbn zeta. intros H Hout.
  destruct (_ || _ || _ || _) in H; [injection H as <- _; by destruct Hout as [|[]]|].
  destruct (Reset.Open db _ w) as [[e|] w1]; [injection H as <- _; by destruct Hout as [|[]]|].
  destruct (Reset.update_user db _ _ _ w1) as [[n|e] w2] eqn:Eu; [|injection H as <- _; by destruct Hout as [|[]]].
  apply us_update in Eu as [Hn Hx]. destruct (Z.eqb_spec n 0) as [Hz|Hz].
  - destruct (Reset.insert_user db _ _ _ w2) as [[e|] w3] eqn:Ei; [injection H as <- _; by destruct Hout as [|[]]|].
    injection H as _ <-. apply us_insert in Ei as [id ->]. rewrite lookup_insert_eq. by eexists.
  - injection H as _ <-. destruct (users w1 !! Getenv "BOOTSTRAP_USER") as [x|]; [|tauto].
    rewrite (Hx x eq_refl), lookup_insert_eq. by eexists.
Qed.

(** C32: a user that was reset can log in.  When the tool reports that the user was inserted or updated, then as long
    as the table of users stays as it is, a login with that name and the new password, or the new API key, is
    answered 200 whenever the query for the user succeeds: the two programs hash secrets the same way.  The name must not have
    white space around it, which the login trims, nor the secret be blank. *)
Theorem reset_then_login Getenv w out w' Secret TokenTTL now decode_error r q w1 x w2 :
  Reset.main db Getenv w = (out, w') -> (out = Reset.Inserted \/ exists n, out = Reset.Updated n) ->
  users w1 = users w' -> fetch (Getenv "BOOTSTRAP_USER") w1 = (Ok x, w2) ->
  decode_login (Body r) = Some q -> TrimSpace (lr_Username q) = Getenv "BOOTSTRAP_USER" -> Getenv "BOOTSTRAP_USER" <> "" ->
  (lr_Password q = Getenv "BOOTSTRAP_PASS" /\ TrimSpace (lr_Password q) <> "")
  \/ (lr_APIKey q = Getenv "BOOTSTRAP_API" /\ TrimSpace (lr_APIKey q) <> "") ->
  rs_Status (HandleLogin Secret TokenTTL now fetch decode_error r w1).1 = 200.
Proof.
  intros Hm Hout Hu Hf Hq Hname Hne Hs. destruct (reset_row _ _ _ _ Hm Hout) as (y & Hy & Ha & Hp & Hk).
  pose proof (us_fetch _ _ _ _ Hf) as Hx. rewrite Hu, Hy in Hx. apply (inj Some) in Hx. subst y.
  pose proof (HandleLogin_cases Secret TokenTTL now fetch decode_error r w1) as H.
  destruct (HandleLogin _ _ _ _ _ r w1) as [resp w3]. cbn [fst].
  destruct H as [[_ Hno]|(u & w4 & _ & _ & ->)]; [|done]. exfalso. apply (Hno x w2). exists q.
  rewrite Hname. split; [done|]. split; [done|]. split; [done|]. unfold credentials_ok. rewrite Ha, Hp, Hk.
  assert (Hv : forall s, VerifySecret s (HashSecret s) = true)
    by (intros s; apply (proj1 (verify_secret_correct s s "")); by left).
  destruct Hs as [[-> Hb]|[-> Hb]]; rewrite Hv, (proj2 (String.eqb_neq _ _) Hb); [done|].
  by rewrite orb_true_r.
Qed.
End ResetTheorem.

(** ** The access log *)

Module AccessLogFacts.
Import AccessLog.

(** What the log counts is what was sent. *)
Definition counted (w : accessLogWriter) : Prop := bytes w = len (written (ResponseWriter w)) /\ status w <> 0.
(** The calls of a handler that says its status once, before it writes; codes as [net/http] takes them. *)
Definition codes (cs : list call) : list Z := omap (fun c => match c with CWriteHeader code => Some code | _ => None end) cs.

Lemma written_WriteHeader code w : written (inner_WriteHeader code w) = written w.
Proof. unfold inner_WriteHeader. destruct (sent w); [done|]. by case_match. Qed.

Lemma sent_200 w : sent (inner_WriteHeader 200 w) = Some (default 200 (sent w)).
Proof. unfold inner_WriteHeader. by destruct (sent w) eqn:E. Qed.
Lemma sent_Write p w : sent (inner_Write p w).2 = Some (default 200 (sent w)).
Proof. unfold inner_Write. destruct (body_allowed _); cbn [snd sent]; apply sent_200. Qed.

Lemma step_counted w c : counted w -> (forall code, c = CWriteHeader code -> code <> 0) -> counted (step w c).
Proof.
  intros [H1 H2] Hc. destruct c as [code|p|]; cbn [step].
  - split; cbn [WriteHeader bytes status ResponseWriter]; [by rewrite written_WriteHeader|by apply Hc].
  - unfold Write, inner_Write. destruct (body_allowed _); split; cbn [bytes status ResponseWriter written].
    + rewrite len_app, written_WriteHeader. lia.
    + by destruct (Z.eqb_spec (status w) 0).
    + rewrite written_WriteHeader. lia.
    + by destruct (Z.eqb_spec (status w) 0).
  - split; cbn [Flush bytes status ResponseWriter]; [|done]. unfold inner_Flush. by rewrite written_WriteHeader.
Qed.

Lemma steps_counted cs : forall w, counted w -> Forall (fun c => c <> 0) (codes cs) -> counted (fold_left step cs w).
Proof.
  induction cs as [|c cs IH]; intros w Hw Hc; [done|]. cbn [fold_left]. apply IH.
  - apply step_counted; [done|]. intros code ->. by inversion Hc.
  - destruct c; [by inversion Hc|done..].
Qed.

(** Writes and flushes keep the status of the log, and what was sent. *)
Lemma writes_keep cs : forall w code, codes cs = [] -> status w = code -> code <> 0 ->
  status (fold_left step cs w) = code
  /\ (sent (ResponseWriter w) = Some code -> sent (ResponseWriter (fold_left step cs w)) = Some code)
  /\ (sent (ResponseWriter w) = None -> code = 200 ->
      sent (ResponseWriter (fold_left step cs w)) = match cs with [] => None | _ => Some 200 end).
Proof.
  induction cs as [|c cs IH]; intros w code Hc Hs H0; [done|]. cbn [fold_left].
  assert (Hcs : codes cs = []) by (by destruct c).
  assert (Hst : status (step w c) = code /\ (forall k, sent (ResponseWriter w) = Some k -> sent (ResponseWriter (step w c)) = Some k)
    /\ (sent (ResponseWriter w) = None -> sent (ResponseWriter (step w c)) = Some 200)).
  { assert (Hx : status (step w c) = code /\ sent (ResponseWriter (step w c)) = Some (default 200 (sent (ResponseWriter w)))).
    { destruct c as [k|p|]; [done| |split; [done|apply sent_200]]. cbn [step]. rewrite <- (sent_Write p (ResponseWriter w)).
      unfold Write. rewrite Hs, (proj2 (Z.eqb_neq _ _) H0). by destruct (inner_Write p (ResponseWriter w)). }
    destruct Hx as [H1 ->]. split; [done|]. by split; [intros k ->|intros ->]. }
  destruct Hst as (H1 & H2 & H3). destruct (IH (step w c) code Hcs H1 H0) as (I1 & I2 & I3).
  split_and!; [done|by intros H%H2; auto|]. intros Hn ->. by apply I2, H3.
Qed.
End AccessLogFacts.

(** the access log says what was sent.  Whatever a handler calls, the bytes logged are the bytes of the body that
    were sent; and for a handler that gives its final status first, and only once, or never, the status
    logged is the status of the response (200 when it has not said one), as soon as anything was sent. *)
Theorem access_log_truthful (cs : list AccessLog.call) :
  Forall (fun c => c <> 0) (AccessLogFacts.codes cs) ->
  let w := fold_left AccessLog.step cs AccessLog.wrapped in
  AccessLog.bytes w = len (AccessLog.written (AccessLog.ResponseWriter w))
  /\ (forall code rest, cs = AccessLog.CWriteHeader code :: rest \/ (code = 200 /\ cs = rest) ->
        AccessLogFacts.codes rest = [] -> 200 <= code ->
        AccessLog.status w = code
        /\ (cs <> [] -> AccessLog.sent (AccessLog.ResponseWriter w) = Some code)).
Proof.
  intros Hc w. split; [by apply AccessLogFacts.steps_counted|].
  intros code rest [E|[-> E]] Hr Hcode; subst cs; subst w.
  - cbn [fold_left]. destruct (AccessLogFacts.writes_keep rest (AccessLog.step AccessLog.wrapped (AccessLog.CWriteHeader code)) code Hr eq_refl)
      as (H1 & H2 & _); [lia|]. split; [done|]. intros _. apply H2. cbn. unfold AccessLog.inner_WriteHeader. cbn.
    destruct (Z.leb_spec code 199); [lia|]. by rewrite andb_false_r.
  - destruct (AccessLogFacts.writes_keep rest AccessLog.wrapped 200 Hr eq_refl) as (H1 & _ & H3); [lia|].
    split; [done|]. intros Hne. rewrite H3 by done. by destruct rest.
Qed.

(** ** Witnesses *)

#[local] Existing Instance latin1.

(** The log of the migrations, next to the world of the server. *)
Definition start_world : Type := list (string * option error) * sworld.
Definition start_bootstrap : BootstrapDB start_world := {|
  delete_blank_user_tenants := on_snd (delete_blank_user_tenants sample_bootstrap);
  delete_blank_tenants := on_snd (delete_blank_tenants sample_bootstrap);
  upsert_user u p k := on_snd (upsert_user sample_bootstrap u p k);
  delete_user_tenants uid := on_snd (delete_user_tenants sample_bootstrap uid);
  insert_user_tenant uid t := on_snd (insert_user_tenant sample_bootstrap uid t) |}.
Definition start_registry : Postgres start_world := {|
  upsert_tenant t := on_snd (upsert_tenant sample_registry t);
  select_tenant t := on_snd (select_tenant sample_registry t);
  upsert_metadata m := on_snd (upsert_metadata sample_registry m);
  select_metadata t c := on_snd (select_metadata sample_registry t c) |}.
Definition start_now : M start_world Time := on_snd sample_now.
#[local] Instance start_bootstrap_laws : BootstrapLaws start_bootstrap start_registry start_now (fun w => sw_assigned w.2)
  (fun w => sample_users w.2).
Proof.
  split; try done.
  - intros [l w] p Hp. cbn. rewrite elem_of_filter. tauto.
  - intros u p k [l w] uid [l' w'] H. apply (bl_upsert_row (BootstrapLaws := sample_bootstrap_laws)). unfold start_bootstrap, on_snd in H. cbn in *.
    by simplify_eq.
  - intros [l w] u1 u2 r1 r2. apply (bl_ids (BootstrapLaws := sample_bootstrap_laws)).
Qed.

Definition start_matches (pattern : string) : result (list string) :=
  if String.eqb pattern "migrations/*.sql" then Ok ["migrations/0002.sql"; "migrations/0001.sql"] else Ok ["/app/migrations/0001.sql"].
Definition start_content (path : string) : result string :=
  if HasSuffix path "1.sql" then Ok "CREATE TABLE a ()" else Ok "CREATE TABLE b ()".
(** A table is created once. *)
Definition start_exec (sql : string) : M start_world (option error) := fun w =>
  let e := if existsb (fun x => String.eqb x.1 sql) w.1 then Some (errors_New "ERROR: relation a already exists") else None in
  (e, (w.1 ++ [(sql, e)], w.2)).
#[local] Instance start_migrate_laws :
  MigrateLaws (fun p => mret (start_matches p)) (fun p => mret (start_content p)) start_exec start_matches start_content fst.
Proof. by split. Qed.

Definition start_driver : SQLDriver start_world unit := {|
  sql_Open _ _ := mret (Ok tt); SetMaxOpenConns _ _ := mret tt; SetMaxIdleConns _ _ := mret tt; SetConnMaxLifetime _ _ := mret tt;
  PingContext _ _ _ := mret None; Close _ := mret tt |}.
Definition start_env (key : string) : option string :=
  (list_to_map [("FINE_RAG_JWT_SECRET", "s3cret"); ("FINE_RAG_VECTOR_PROVIDER", "stub");
     ("FINE_RAG_BOOTSTRAP_ADMIN_USERNAME", "root"); ("FINE_RAG_BOOTSTRAP_ADMIN_PASSWORD", "pw");
     ("FINE_RAG_BOOTSTRAP_ADMIN_API_KEY", "key"); ("FINE_RAG_BOOTSTRAP_SECONDARY_USERNAME", "jeetu");
     ("FINE_RAG_BOOTSTRAP_SECONDARY_PASSWORD", "pw2")] : gmap string string) !! key.
Definition start_once : M start_world (started (W := start_world) (D := unit)) :=
  main start_env (fun _ => None) (mret None) (fun _ => Err (errors_New "no url")) start_driver (fun _ => Ok "")
    (fun _ => mret (Err (errors_New "no milvus"))) start_now (fun p => mret (start_matches p)) (fun p => mret (start_content p))
    (fun _ => start_exec) (fun _ => start_bootstrap) (fun _ => start_registry) (fun _ _ => mret None).

Lemma migrations_applied_in_order_witness :
  let r := applyMigrations (fun p => mret (start_matches p)) (fun p => mret (start_content p)) start_exec ([], sample_world) in
  r.1 = None
  /\ r.2.1.*1 = ["CREATE TABLE a ()"; "CREATE TABLE a ()"; "CREATE TABLE b ()"]
  /\ migrated start_matches start_content fst r.1 ([], sample_world) r.2.
Proof.
  cbn zeta. split; [vm_compute; reflexivity|]. split; [vm_compute; reflexivity|].
  pose proof (migrations_applied_in_order (fun p => mret (start_matches p)) (fun p => mret (start_content p)) start_exec
    start_matches start_content fst ([], sample_world)) as H.
  destruct (applyMigrations _ _ _ _) as [e w']. exact H.
Defined.

Lemma serving_means_ready_witness :
  exists sv deps w', start_once ([], sample_world) = (Serving sv deps, w')
    /\ startable (ConfigFromEnv (Getenv start_env) (fun _ => None))
    /\ account (fun w : start_world => sw_assigned w.2) (fun w => sample_users w.2) w' "root" "pw" "key"
         ["tenant-a"; "tenant-secondary"]
    /\ account (fun w : start_world => sw_assigned w.2) (fun w => sample_users w.2) w' "jeetu" "pw2" ""
         ["tenant-lalita"; "tenant-jeetu"].
Proof.
  destruct (start_once ([], sample_world)) as [[m e|sv deps] w'] eqn:E; [vm_compute in E; discriminate|].
  exists sv, deps, w'. split; [reflexivity|]. unfold start_once in E.
  destruct (serving_means_ready _ _ _ _ _ _ _ _ _ _ _ _ _ _ start_matches start_content fst (fun w => sw_assigned w.2)
    (fun w => sample_users w.2) (fun _ => start_migrate_laws) (fun _ => start_bootstrap_laws) _ _ _ _ E)
    as (Hs & _ & _ & Ha & Hb). split; [exact Hs|]. split.
  - apply Ha. intros [_ H]. vm_compute in H. discriminate.
  - apply Hb. left. intros H. vm_compute in H. discriminate.
Defined.

(** A table of users in which a name is numbered by its size at the time. *)
Definition user_row (id : Z) (u p a : string) : dbUser :=
  {| u_ID := id; u_Username := u; u_PasswordHash := p; u_APIKeyHash := a; u_Active := true |}.
Definition user_table : Reset.DB (gmap string dbUser) := {|
  Reset.Open _ := mret None;
  Reset.update_user p a u := fun w =>
    match w !! u with
    | Some x => (Ok 1, <[u := user_row (u_ID x) u p a]> w)
    | None => (Ok 0, w)
    end;
  Reset.insert_user u p a := fun w => (None, <[u := user_row (Z.of_nat (size w) + 1) u p a]> w) |}.
Definition user_fetch (u : string) : M (gmap string dbUser) (result dbUser) := fun w =>
  (match w !! u with Some x => Ok x | None => Err (errors_New "sql: no rows in result set") end, w).
#[local] Instance user_table_laws : UsersLaws user_table user_fetch id.
Proof.
  split; unfold user_table, user_fetch; cbn [Reset.Open Reset.update_user Reset.insert_user id]; [done| | |].
  - intros p a u w n w'. destruct (w !! u) as [x|] eqn:E; intros [= <- <-]; [|done]. split; [done|]. by intros y [= <-].
  - intros u p a w w' [= <-]. by eexists.
  - intros u w x w'. destruct (w !! u); by intros [= <- _].
Qed.
Definition reset_env (key : string) : string :=
  default "" ((list_to_map [("DATABASE_URL", "postgres://db"); ("BOOTSTRAP_USER", "ada"); ("BOOTSTRAP_PASS", "pw");
    ("BOOTSTRAP_API", "key")] : gmap string string) !! key).
Definition login_body : Request := {|
  Method := "POST"; URLPath := "/api/v1/auth/login"; Header := ∅; PathValue _ := "";
  Body := json_encode (JObj [("username", JStr " ada "); ("apiKey", JStr "key")]) |}.

Lemma reset_then_login_witness :
  (Reset.main user_table reset_env ∅).1 = Reset.Inserted
  /\ rs_Status (HandleLogin "s" Hour (mret 7) user_fetch (fun _ => "") login_body (Reset.main user_table reset_env ∅).2).1 = 200.
Proof.
  destruct (Reset.main user_table reset_env ∅) as [out w'] eqn:E.
  assert (Ho : out = Reset.Inserted) by (vm_compute in E; injection E as <- _; reflexivity).
  cbn [fst snd]. split; [exact Ho|]. destruct (decode_login (Body login_body)) as [q|] eqn:Eq; [|vm_compute in Eq; discriminate].
  destruct (user_fetch (reset_env "BOOTSTRAP_USER") w') as [[x|e] w2] eqn:Ef;
    [|vm_compute in E; injection E as _ <-; vm_compute in Ef; discriminate].
  apply (reset_then_login user_table user_fetch id reset_env ∅ out w' "s" Hour (mret 7) (fun _ => "") login_body q w' x w2 E (or_introl Ho) eq_refl Ef Eq);
    vm_compute in Eq; injection Eq as <-; [vm_compute; reflexivity|vm_compute; discriminate|].
  right. split; [vm_compute; reflexivity|vm_compute; discriminate].
Defined.

Lemma access_log_truthful_witness :
  AccessLog.bytes (fold_left AccessLog.step (AccessLog.calls_of (WriteError 404 "a" "b")) AccessLog.wrapped)
  = len (json_encode (JObj [("error", JObj [("code", JStr "a"); ("message", JStr "b")])])) + 1.
Proof.
  destruct (access_log_truthful (AccessLog.calls_of (WriteError 404 "a" "b"))) as [H _].
  - repeat constructor. discriminate.
  - rewrite H. vm_compute. reflexivity.
Defined.

(** A second status is logged, though it is not sent. *)
Example second_status_logged :
  let w := fold_left AccessLog.step [AccessLog.CWriteHeader 200; AccessLog.CWriteHeader 500] AccessLog.wrapped in
  AccessLog.status w = 500 /\ AccessLog.sent (AccessLog.ResponseWriter w) = Some 200.
Proof. vm_compute. split; reflexivity. Qed.
